(* ===== verification/_CoqProject ===== *)
-Q . S2P
Prelude.v
Memory.v
CString.v
StringThm.v
Bitmap.v
KernLog.v
Tcb.v
Pmm.v
PmmSpec.v
PmmInv.v
PmmAlloc.v
PmmInit.v
PmmSys.v
PmmThm.v
PageTable.v
X86.v
Vmm.v
VmmThm.v
Tss.v
Boot.v
BootThm.v
BootMap.v
BootRun.v
IntrAsm.v
IntrAsmThm.v
UserVm.v
Threads.v
Ring.v
ThreadsThm.v
AsmCalls.v
Preempt.v
ThreadsInv.v
ThreadsSys.v
ThreadsView.v
Port.v
Vga.v
Interrupt.v
InterruptThm.v
Sync.v
SyncThm.v
SemInv.v
SyncCore.v
SyncSys.v
SyncProp.v
Printk.v
PrintkThm.v
PrintkSys.v
Machine.v
UserPage.v
Handlers.v
Link.v
VmmUser.v
KernPages.v
Race.v
UserTask.v
UserCreate.v
UserSys.v
UserEntry.v
Entry.v
EntryPmm.v
EntryThm.v
BootEntry.v
BootUser.v
SelfTest.v
