(* ===== verification/Prelude.v ===== *)
(** * BHOS: a verification development for the kernel under src/

    BHOS is a 32-bit x86 kernel: boot/boot.s turns paging on and calls
    [kern_entry] (kernel/entry.c), which initialises the components below and
    starts a first thread.  This library translates the C and assembly code of
    the kernel into functions on explicit states and proves what the components
    guarantee, alone and composed.

    ** The model

    A C function is an element of [M S A] (this file): a function from a state
    to a [result], which is a return with the new state, the value and the
    trace of what left the machine ([event]: port writes, TLB and control
    register instructions, and calls of printk where they are only reported),
    or [Stop] (the endless loops in which the kernel halts), or [Undef]
    (a NULL pointer, a division by zero, an index behind an array), or [NoFuel]
    (a loop did not end within its fuel).  Integers are Z with the wrap-around
    of their C type written out ([u32], [u16], [u8], [i32]).  Memory ([Memory])
    is linear, bytes by 32-bit addresses.  Each component has a record for its
    state; [zoom] runs it inside a larger one, and code that works on several of
    them is written over the classes [Holds] (a state within a state) and [Console]
    (a state that prints).  Assembly is translated
    instruction by instruction over the registers and the memory of a processor
    ([X86]); what an address means is a class, with the page walk of the
    processor and the linear memory as instances.

    ** The parts

    - libs/string/string.c: [CString] has the code and the lemmas on C strings,
      [StringThm] the theorems: number printing is correct for all 32-bit
      numbers, copying and concatenation, and what strcmp does.
    - kernel/modules/bitmap/bitmap.c: [Bitmap], a pool of pages as bits in
      memory; the operations refine a finite set of free pages.
    - kernel/modules/log/kern_log.c: [KernLog], with the classes [Holds] and [Console].
    - kernel/modules/pmm/pmm.c: [Pmm] has the code.  [PmmSpec] gives the lists
      (the representation [rep] and abstract operations), [PmmInv] the
      invariant of buddy blocks, [PmmAlloc] the requests, [PmmInit] the
      initialisation, [PmmSys] sequences of operations, [PmmThm] the theorems.
    - kernel/modules/vmm/vmm.c: [PageTable] has the address arithmetic of the
      recursive mapping and its relation to the translation of the processor;
      [Vmm] the code, over the class [PageAllocator]; [VmmThm] proves it against
      the laws [PageAllocatorSpec], and gives pmm.c as the instance; [VmmUser] is
      the first page of a task in a region of 4 MB, which needs a new page table;
      [UserPage] is the next page of a region, where the code prints, on the state with
      the screen and the locks.
    - include/threads.h: [Tcb], the control block.  kernel/modules/tss/tss.c:
      [Tss].  kernel/modules/user_task/user_task.c: [UserVm] (address spaces,
      active_task) and [UserTask] (creation and start of a task, with exit_int of
      common_asm.s).  [KernPages] counts requests for frames and says what several
      allocations do together ([took]); [Race] has [vmm_kern_alloc] as a sequence of
      accesses, interleaved with those of other threads; [UserCreate] is the address
      space a new task gets, [UserSys] the task from its creation to user mode, over
      one state.
    - kernel/modules/threads/threads.c and threads_asm.s: [Threads] has the
      code; [Ring] the circular list, [ThreadsThm] what each function does to the
      state, [ThreadsInv] the invariant [threads_inv] and its preservation,
      [ThreadsSys] the system of threads and the theorems on scheduling, [ThreadsView]
      what a switch leaves of the state for the components above.
    - drivers/port, drivers/_8259A, drivers/keyboard, modules/interrupt:
      [Port], [Interrupt] (descriptors, timer), [InterruptThm], and [Handlers], the
      handlers that print and the routing, on the state with the screen and the locks.
      The functions of the interrupt flag are in [Threads].
    - kernel/modules/sync/sync.c: [Sync] has the code and the activations a
      switch suspends; [SyncThm] the queues and operations, [SemInv] the
      invariant of one semaphore, [SyncCore] and [SyncSys] the system of all
      threads, semaphores and locks as a step relation, [SyncProp] its theorems.
    - kernel/drivers/vga/vga_basic.c: [Vga], with the terminal it refines.
    - libs/printk/printk.c, include/vargs.h: [Printk] has the code, over the class
      [VaList] of variable arguments (the words on the stack; lists); [PrintkThm] what
      it prints, for every instance with the laws [VaListSpec], [PrintkSys] printing
      with the lock in the system of threads.
    - libs/utils/list.c: [Link].
    - kernel/entry.c: [Machine] is the state of the whole kernel, where [Console] is
      [printk] on the screen; [Entry] composes the components over it, [EntryPmm]
      is the initialisation of pmm.c with its lines, [EntryThm]
      proves that the kernel boots into a state where the invariants hold.
    - boot/boot.s, boot/boot.inc: [Boot] has the code and the descriptor table,
      [BootThm] the loops of [set_page] and the first part up to the jump into
      the paged kernel, [BootMap] what the tables map, [BootRun] the second part
      up to the call of [kern_entry]; [BootEntry] composes it with [Entry],
      and [BootUser] the booted kernel with a user task.
    - the self tests of bitmap.c, vmm.c, user_task.c, vga_basic.c and tss.c:
      [SelfTest], with what they find.
    - kernel/modules/interrupt/interrupt_asm.s, kernel/common_asm.s: [IntrAsm] has
      the entry and exit of interrupts and [exit_int], [IntrAsmThm] what they do
      around a C function that keeps the calling convention, [UserEntry] the
      first instructions of a user task.  [AsmCalls]: the functions C calls, with
      [switch_to] of threads_asm.s against its model in [Threads].  [Preempt]: a
      thread that an interrupt switches away from and that is switched back to.

    The functions keep their C names; a trailing [_loop] is a loop of the
    function, and a body the C code has twice is a definition of its own
    ([map_kern_page], [unlink_last], [locked], [link_remove_by]).

    ** The theorems

    - Invariants of all reachable states: pages handed out by pmm.c are disjoint
      and none is lost while no request splits a block; the threads form one
      ring and the scheduler returns; the queues of the semaphores are those of
      blocked threads and no wake-up is lost; a lock goes from free to its
      holder and back.
    - Refinements: the bitmap of a set, pmm.c of the contract of the memory
      manager, the screen of a terminal.
    - What each operation does, on every branch; termination, as a returned
      result; liveness of the scheduler as a bound on the number of switches.
    - The boot sequence: from the machine boot.s leaves ([boot_ok]) every
      initialisation returns, and the result is an initial state ([sys_start]) of
      the system the invariants are about; the screen shows the lines that pmm.c and
      tss.c print on the way ([boot_lines]).  [bhos_boots] starts earlier, at the
      machine the boot loader leaves, runs boot.s, and gives [boot_ok] for a kernel
      whose memory is what the page tables show.
    - User tasks: [user_task_runs] follows one through [create_user_task], the switch
      of [schedule] to its address space and [start_user_task], and counts its pages
      (26 of the kernel, and 3 frames of its own); [booted_task_runs] starts from the
      boot sequence.  The hypothesis on single pages keeps its requests away from the
      splitting of blocks ([split_overlap]).
    - The self tests: that of the bitmap never finds an error ([bitmap_test_passes]),
      that of the screen shows what it should ([vga_basic_test_shows]), that of user tasks
      loses 24 frames in each round ([user_task_test_leaks]), and that of the memory manager
      stays in its first page fault ([vmm_test_stuck]).
    - The assembly: interrupts give every register back, also when the handler
      switches to other threads in between ([preemption_transparent], from the entry
      and exit code around two executions of [switch_to]); [switch_to] and [exit_int]
      do what the C code is verified over, the functions C calls return by the
      calling convention ([asm_calls_return]), and the tables [boot_start] leaves
      translate the first 4 MB of the kernel and the recursive window.
    - Interrupts: every handler of the table returns, switches, or waits for the lock
      of [printk] ([interrupts_handled]).
    - Interleavings: threads that allocate with interrupts off get different pages
      ([critical_allocs_distinct]); as the code is, two of them can get the same one, and
      pages in use become free ([two_allocs_race]).
    - Where the code does something else than it means to, the theorem states
      what it does: splitting of blocks ([split_overlap]), the tests of the P bit
      ([check_vaddr_present_always]), the error exit of the user allocation, [exit],
      [sem_P] without another ready thread, printk from an interrupt, long
      formats, removal from lists, the page tables of boot.s that directory
      entries share, the null data segments of user tasks.

    ** Fuel

    Loops over data take their number of rounds from the data: [list_fuel],
    [ring_fuel], [queue_fuel] and [link_fuel] are one more than the number of
    descriptors, blocks or nodes there are, and a list without repetition is no
    longer.  [str_fuel] and [kputs_fuel] are 65536 and bound the length of strings, which
    the theorems ask to be shorter.  The merging of [pmm_free_page] has fuel 13 for the
    12 classes.  The loops of boot.s have fuel 1048577 ([boot_fuel]), one more than
    the largest counter.  The loop of [sem_P] can be endless, as can an access to
    memory that faults ([access]) and the loop of [bitmap_test]: their fuel is a
    parameter, and the theorems state with which fuel they return or that no fuel is
    enough.

    ** Decisions

    - For the C code page tables are ordinary memory at the addresses of the
      recursive mapping; that two linear addresses can name one cell is modelled
      in the boot code only ([paging]), and in the translations of [PageTable] and
      [VmmThm].  As the tables of boot.s repeat every 64 MB ([boot_tables_shared]),
      what the memory manager's theorems say of the linear memory holds on the
      machine for kernel pages of one such group.
    - Control blocks, semaphores, wait nodes, lock holders and list nodes are
      stores by address, beside the linear memory, and the variables of a component
      are a record; the stacks of threads and what contexts push are in the memory,
      the locals and return addresses of C functions are not.  So a theorem that
      memory is kept ([ku_memory]) speaks of the linear memory only.
    - [page_array] too is a store beside the linear memory.  The source puts it at
      0xC0000100, with 12 bytes a page and no check of its size: a large one runs into
      the memory of the screen and into the kernel.  The theorems on the initialisation
      and what follows it are for machines on which it ends below 640 KB
      ([page_array_fits]: at most 54592 pages), and the boot theorems say nothing of
      the memory it takes ([boot_writes]).
    - Calls of printk: in the boot sequence, in the interrupt handlers and in
      [user_alloc_page] the call is made, with the screen, its arrays and its lock.
      Where a component is verified by itself it is an event: the reports of
      [pmm_free_page], [pmm_show_page_count] and of the errors of vmm.c and threads.c,
      the calls before a halt ([stop_kern]), the self tests, and
      [vmm_user_alloc_one_page] as [start_user_task] calls it, so the theorems on user
      tasks do not speak of the screen.  The arrays of [printk] are locals; they are at
      one fixed place in every call ([PrintkLayout]).  The addresses of string literals
      are the class [Literals].
    - Instructions that compute leave the flags of the model's processor ([X86]), where
      those of a machine change its arithmetic flags: of these the model has what popf
      or iret loaded last.  The interrupt flag and the system flags are exact.  The loops
      of boot.s test the values themselves, and behind the entry code of an interrupt
      the difference ends with iret.
    - A call that switches to another thread does not return in the model:
      [schedule] ends with the new thread current, and what the caller does when
      it is switched back ([resume]) is a function of the list of frames
      ([In_thread_block], [In_sem_P], [In_lock_acquire], [In_interrupt]).
    - An interrupt is a step between two calls, as the operations on the threads,
      semaphores and locks run with interrupts off; those of the memory manager do
      not, and what an interrupt inside of them can do is in [Race]; in [Entry] no interrupt comes before the last
      call.  Threads that end are in the system of [ThreadsSys] but not in that of
      [SyncSys], because [exit] can run a blocked thread.
    - Addresses of variables, strings and labels, and what memory holds where
      the code does not initialise it, are parameters (the classes [VmmLayout],
      [TssLayout], [ThreadLayout], [StringLayout], [Literals], [PrintkLayout], [IntrLayout], [EntryLayout], [BootLayout]); so is
      the effect of [ltr] ([Processor], with its documented behaviour [ProcessorSpec]).

    ** Not modelled

    queue.c, an empty file; the devices behind the ports (what a port gives is an
    argument); the user task that kern_entry prepares but does not create, and its code
    behind the endless loops, which is never reached. *)

From stdpp Require Export prelude gmap list numbers strings relations.
From Stdlib Require Export Lia.

#[global] Open Scope Z_scope.
#[global] Coercion Z.of_nat : nat >-> Z.

(** ** Fixed-width integers

    The C types of include/types.h: [uint32_t], [uint16_t], [uint8_t]/[byte]
    are integers modulo 2^w; [int] and [char] are their two's complement
    readings. *)

Definition u32 (z : Z) : Z := z `mod` 4294967296.
Definition u16 (z : Z) : Z := z `mod` 65536.
Definition u8 (z : Z) : Z := z `mod` 256.
Definition i32 (z : Z) : Z := (z + 2147483648) `mod` 4294967296 - 2147483648.
Definition i8 (z : Z) : Z := (z + 128) `mod` 256 - 128.

Create Rewrite HintDb word.

Lemma u32_small z : 0 <= z < 4294967296 -> u32 z = z.
Proof. apply Z.mod_small. Qed.
Lemma u16_small z : 0 <= z < 65536 -> u16 z = z.
Proof. apply Z.mod_small. Qed.
Lemma u8_small z : 0 <= z < 256 -> u8 z = z.
Proof. apply Z.mod_small. Qed.
Lemma i32_small z : -2147483648 <= z < 2147483648 -> i32 z = z.
Proof. intros H. unfold i32. rewrite Z.mod_small; lia. Qed.
Lemma i8_small z : -128 <= z < 128 -> i8 z = z.
Proof. intros H. unfold i8. rewrite Z.mod_small; lia. Qed.
Lemma u32_range z : 0 <= u32 z < 4294967296.
Proof. apply Z.mod_pos_bound; lia. Qed.
Lemma u16_range z : 0 <= u16 z < 65536.
Proof. apply Z.mod_pos_bound; lia. Qed.
Lemma u8_range z : 0 <= u8 z < 256.
Proof. apply Z.mod_pos_bound; lia. Qed.
Lemma u32_idem z : u32 (u32 z) = u32 z.
Proof. apply Z.mod_mod; lia. Qed.
Lemma u8_idem z : u8 (u8 z) = u8 z.
Proof. apply Z.mod_mod; lia. Qed.
Lemma u32_add_l a b : u32 (u32 a + b) = u32 (a + b).
Proof. unfold u32. by rewrite Zplus_mod_idemp_l. Qed.
Lemma u32_sub_l a b : u32 (u32 a - b) = u32 (a - b).
Proof. unfold u32. by rewrite Zminus_mod_idemp_l. Qed.
Lemma u32_add_multiple a k : u32 (a + k * 4294967296) = u32 a.
Proof. unfold u32. by rewrite Z.mod_add. Qed.

#[export] Hint Rewrite u32_idem u8_idem u32_add_l u32_sub_l : word.

(** [word_tac] discharges the side conditions of the word lemmas: linear
    bounds between a variable and a power of two. *)
Ltac word_tac :=
  repeat match goal with
    | |- context [u32 ?x] => rewrite (u32_small x) by lia
    | |- context [u16 ?x] => rewrite (u16_small x) by lia
    | |- context [u8 ?x] => rewrite (u8_small x) by lia
    | |- context [i32 ?x] => rewrite (i32_small x) by lia
    | |- context [i8 ?x] => rewrite (i8_small x) by lia
    end;
  try lia.

(** [lia] with the defining equations of quotients and remainders. *)
Ltac dlia := Z.to_euclidean_division_equations; lia.

(** ** Bits *)

Lemma land_ones_mod a n : 0 <= n -> Z.land a (Z.ones n) = a `mod` 2 ^ n.
Proof. intros. by rewrite Z.land_ones. Qed.

Lemma testbit_pow2 n k : 0 <= n -> Z.testbit (2 ^ n) k = bool_decide (n = k).
Proof.
  intros Hn. case_bool_decide as H.
  - subst. by apply Z.pow2_bits_true.
  - by apply Z.pow2_bits_false.
Qed.

(** A value whose bit [n] is set loses exactly that bit when the mask is
    subtracted. *)
Lemma sub_pow2_testbit a n k :
  0 <= n -> Z.testbit a n = true ->
  Z.testbit (a - 2 ^ n) k = Z.testbit a k && negb (bool_decide (n = k)).
Proof.
  intros Hn Ha.
  assert (Hs : a - 2 ^ n = Z.ldiff a (2 ^ n)).
  { rewrite Z.sub_nocarry_ldiff; [done|].
    apply Z.bits_inj'. intros i Hi.
    rewrite Z.ldiff_spec, testbit_pow2, Z.bits_0 by lia.
    case_bool_decide; subst; [by rewrite Ha|done]. }
  by rewrite Hs, Z.ldiff_spec, testbit_pow2 by done.
Qed.

Lemma lor_pow2_id_iff a n :
  0 <= n -> a = Z.lor a (2 ^ n) <-> Z.testbit a n = true.
Proof.
  intros Hn. split.
  - intros ->. rewrite Z.lor_spec, testbit_pow2 by done.
    rewrite bool_decide_true by done. apply orb_true_r.
  - intros Ha. apply Z.bits_inj'. intros k Hk.
    rewrite Z.lor_spec, testbit_pow2 by done.
    case_bool_decide; subst; [by rewrite Ha|by rewrite orb_false_r].
Qed.

(** Or-ing a value below 2^n to a multiple of 2^n adds it. *)
Lemma lor_shiftl_add x y n :
  0 <= n -> 0 <= y < 2 ^ n -> Z.lor (Z.shiftl x n) y = x * 2 ^ n + y.
Proof.
  intros Hn Hy.
  assert (E : Z.land (Z.shiftl x n) y = 0).
  { apply Z.bits_inj'. intros k Hk. rewrite Z.land_spec, Z.bits_0. destruct (decide (k < n)).
    - by rewrite Z.shiftl_spec_low.
    - rewrite <- (Z.mod_small y (2 ^ n)), Z.mod_pow2_bits_high by lia. apply andb_false_r. }
  by rewrite <- Z.shiftl_mul_pow2, Z.add_nocarry_lxor, Z.lxor_lor.
Qed.

Lemma land_page_mask a :
  0 <= a < 4294967296 -> Z.land a 4294963200 = a - a `mod` 4096.
Proof.
  intros Ha.
  assert (H : Z.land a 4294963200 = Z.shiftl (Z.shiftr a 12) 12).
  { apply Z.bits_inj'. intros k Hk. rewrite Z.land_spec.
    destruct (decide (k < 12)).
    - rewrite Z.shiftl_spec_low by lia.
      replace (Z.testbit 4294963200 k) with false; [by rewrite andb_false_r|].
      change 4294963200 with (Z.shiftl (Z.ones 20) 12).
      by rewrite Z.shiftl_spec_low by lia.
    - rewrite Z.shiftl_spec, Z.shiftr_spec by lia.
      replace (k - 12 + 12) with k by lia.
      change 4294963200 with (Z.shiftl (Z.ones 20) 12).
      rewrite Z.shiftl_spec by lia. destruct (decide (k < 32)).
      + rewrite Z.ones_spec_low by lia. by rewrite andb_true_r.
      + replace (Z.testbit a k) with false; [done|].
        destruct (decide (a = 0)); [subst; by rewrite Z.bits_0|].
        symmetry. apply Z.bits_above_log2; [lia|].
        assert (Z.log2 a < 32); [apply Z.log2_lt_pow2; lia|lia]. }
  rewrite H, Z.shiftl_mul_pow2, Z.shiftr_div_pow2 by lia.
  change (2 ^ 12) with 4096. pose proof (Z.div_mod a 4096 ltac:(lia)). lia.
Qed.

(** ** Output events

    What the code does to the outside world and to the processor, beyond its
    own state: the calls of [printk]/[printk_color] made by the other modules
    (format and arguments), port writes and the privileged instructions. *)

Inductive parg :=
  | PInt (z : Z)
  | PStr (s : string).

Inductive event :=
  | Printk (fmt : string) (args : list parg)
  | Printk_color (fmt : string) (back fore : Z) (args : list parg)
  | Clear_screen
  | Outb (port value : Z)
  | Inb (port : Z)
  | Cli
  | Sti
  | Invlpg (addr : Z)
  | Load_cr3 (paddr : Z)
  | Lgdt
  | Ltr (selector : Z)
  | Lidt (ptr : Z)
  | Iret.

#[export] Instance parg_eq_dec : EqDecision parg.
Proof. solve_decision. Defined.
#[export] Instance event_eq_dec : EqDecision event.
Proof. solve_decision. Defined.

(** ** The monad of the translated functions

    A function of the source becomes a computation over the state [S] of its
    component.  Running it gives one of four outcomes: it returns ([Ret], with
    the new state, the value and the events it emitted); it ends in one of the
    source's own endless loops, [while(1)] after an error report ([Stop]); it
    executes something C gives no meaning to, such as reading an uninitialised
    local or following a pointer outside the modelled memory ([Undef]); or the
    fuel of a loop that is not structural was not enough ([NoFuel]). *)

Inductive result (S A : Type) :=
  | Ret (s : S) (a : A) (t : list event)
  | Stop (s : S) (t : list event)
  | Undef
  | NoFuel.
Arguments Ret {S A} s a t.
Arguments Stop {S A} s t.
Arguments Undef {S A}.
Arguments NoFuel {S A}.

Definition M (S A : Type) : Type := S -> result S A.

Definition ret {S A} (a : A) : M S A := fun s => Ret s a [].

Definition prepend {S A} (t : list event) (r : result S A) : result S A :=
  match r with
  | Ret s a t' => Ret s a (t ++ t')
  | Stop s t' => Stop s (t ++ t')
  | Undef => Undef
  | NoFuel => NoFuel
  end.

Definition bind {S A B} (c : M S A) (k : A -> M S B) : M S B :=
  fun s =>
    match c s with
    | Ret s' a t => prepend t (k a s')
    | Stop s' t => Stop s' t
    | Undef => Undef
    | NoFuel => NoFuel
    end.

Definition undef {S A} : M S A := fun _ => Undef.
Definition nofuel {S A} : M S A := fun _ => NoFuel.
(** [while(1);] *)
Definition stop {S A} : M S A := fun s => Stop s [].
Definition gets {S A} (f : S -> A) : M S A := fun s => Ret s (f s) [].
Definition modify {S} (f : S -> S) : M S unit := fun s => Ret (f s) tt [].
Definition emit {S} (e : event) : M S unit := fun s => Ret s tt [e].

(** A computation of a component run on a larger state. *)
Definition zoom {T S A} (get : T -> S) (set : S -> T -> T) (c : M S A) : M T A :=
  fun t =>
    match c (get t) with
    | Ret s a tr => Ret (set s t) a tr
    | Stop s tr => Stop (set s t) tr
    | Undef => Undef
    | NoFuel => NoFuel
    end.

Declare Scope kern_scope.
Delimit Scope kern_scope with kern.
Notation "x <- c ;; k" := (bind c (fun x => k))
  (at level 100, c at next level, right associativity) : kern_scope.
Notation "c ;; k" := (bind c (fun _ => k)) : kern_scope.
#[global] Open Scope kern_scope.

(** Total correctness: [c] returns from [s], and the final state, value and
    events satisfy [Q]. *)
Definition wp {S A} (c : M S A) (s : S) (Q : S -> A -> list event -> Prop) : Prop :=
  match c s with
  | Ret s' a t => Q s' a t
  | _ => False
  end.

Lemma prepend_nil {S A} (r : result S A) : prepend [] r = r.
Proof. by destruct r. Qed.

Section monad_laws.
Context {S A B : Type}.
Implicit Types (c : M S A) (k : A -> M S B) (s : S).

Lemma prepend_app t1 t2 (r : result S A) :
  prepend t1 (prepend t2 r) = prepend (t1 ++ t2) r.
Proof. destruct r; simpl; by rewrite ?app_assoc. Qed.

Lemma bind_ret_eq c k s s' a t :
  c s = Ret s' a t -> bind c k s = prepend t (k a s').
Proof. intros H. unfold bind. by rewrite H. Qed.

Lemma bind_ret (a : A) k s : bind (ret a) k s = k a s.
Proof. apply prepend_nil. Qed.

Lemma bind_gets (f : S -> A) k s : bind (gets f) k s = k (f s) s.
Proof. apply prepend_nil. Qed.

Lemma bind_modify (f : S -> S) (k : unit -> M S B) s : bind (modify f) k s = k tt (f s).
Proof. apply prepend_nil. Qed.

Lemma bind_emit e (k : unit -> M S B) s : bind (emit e) k s = prepend [e] (k tt s).
Proof. done. Qed.

Lemma bind_inv c k s s' b t :
  bind c k s = Ret s' b t ->
  exists s1 a t1 t2, c s = Ret s1 a t1 /\ k a s1 = Ret s' b t2 /\ t = t1 ++ t2.
Proof.
  unfold bind. destruct (c s) as [s1 a t1| | |] eqn:E; try done.
  destruct (k a s1) eqn:E2; simpl; try done.
  intros [= -> -> <-]. eauto 10.
Qed.

Lemma wp_bind c k s Q :
  wp c s (fun s' a t => wp (k a) s' (fun s'' b t' => Q s'' b (t ++ t'))) ->
  wp (bind c k) s Q.
Proof.
  unfold wp, bind. destruct (c s) as [s' a t| | |]; try done.
  destruct (k a s') as [s'' b t'| | |]; try done.
Qed.

Lemma wp_mono c s (P Q : S -> A -> list event -> Prop) :
  wp c s P -> (forall s' a t, P s' a t -> Q s' a t) -> wp c s Q.
Proof. unfold wp. destruct (c s); eauto. Qed.

Lemma wp_ret (a : A) s (Q : S -> A -> list event -> Prop) :
  Q s a [] -> wp (ret a) s Q.
Proof. done. Qed.

Lemma wp_eq c s s' a t : wp c s (fun s1 a1 t1 => s1 = s' /\ a1 = a /\ t1 = t) <-> c s = Ret s' a t.
Proof. unfold wp. destruct (c s); naive_solver. Qed.
End monad_laws.

#[export] Hint Resolve wp_ret : core.

Lemma bind_assoc {S A B C} (c : M S A) (k : A -> M S B) (l : B -> M S C) s :
  bind (bind c k) l s = bind c (fun a => bind (k a) l) s.
Proof.
  unfold bind. destruct (c s) as [s1 a t| | |]; try done. cbn [prepend]. destruct (k a s1) as [s2 b t2| | |]; try done.
  cbn [prepend]. by rewrite prepend_app.
Qed.

Lemma bind_ext {S A B} (c : M S A) (k l : A -> M S B) s : (forall a s', k a s' = l a s') -> bind c k s = bind c l s.
Proof. intros H. unfold bind. destruct (c s) as [s1 a t| | |]; try done. by rewrite H. Qed.

Lemma bind_ret_r {S A} (c : M S A) s : bind c ret s = c s.
Proof. unfold bind. destruct (c s); try done. cbn. by rewrite app_nil_r. Qed.

(** ** Counted loops *)

Fixpoint each {S} (l : list Z) (f : Z -> M S unit) : M S unit :=
  match l with
  | [] => ret tt
  | n :: l' => bind (f n) (fun _ => each l' f)
  end.

(** [for (k = a; k < a+n; k++)] with an invariant. *)
Lemma each_seqZ {S} (I : Z -> S -> Prop) (f : Z -> M S unit) a (n : nat) s :
  (forall k s, 0 <= k < n -> I k s -> exists s' t, f (a + k) s = Ret s' tt t /\ I (k + 1) s') ->
  I 0 s -> exists s' t, each (seqZ a n) f s = Ret s' tt t /\ I n s'.
Proof.
  revert I a s. induction n as [|n IH]; intros I a s Hf H0.
  - eexists s, _. by split.
  - rewrite seqZ_cons by lia. cbn [each]. destruct (Hf 0 s ltac:(lia) H0) as (s1 & t1 & E1 & H1).
    rewrite Z.add_0_r in E1. rewrite (bind_ret_eq _ _ _ _ _ _ E1).
    replace (Z.pred (Datatypes.S n)) with (Z.of_nat n) by lia.
    destruct (IH (fun k => I (k + 1)) (Z.succ a) s1) as (s' & t & E & H'); [|done|].
    + intros k s2 Hk H2. destruct (Hf (k + 1) s2 ltac:(lia) H2) as (s3 & t3 & E3 & H3). exists s3, t3.
      by replace (Z.succ a + k) with (a + (k + 1)) by lia.
    + rewrite E. eexists s', _. split; [reflexivity|]. by replace (Z.of_nat (Datatypes.S n)) with (n + 1) by lia.
Qed.

(** ** Parts of the state a computation keeps *)

Definition preserves {S X A} (f : S -> X) (c : M S A) : Prop := forall s s' a t, c s = Ret s' a t -> f s' = f s.

Section preserves.
Context {S X : Type} (f : S -> X).

Lemma preserves_ret {A} (a : A) : preserves f (ret a).
Proof. by intros s s' b t [= <- _ _]. Qed.
Lemma preserves_gets {A} (g : S -> A) : preserves f (gets g).
Proof. by intros s s' b t [= <- _ _]. Qed.
Lemma preserves_emit e : preserves f (emit e).
Proof. by intros s s' b t [= <- _ _]. Qed.
Lemma preserves_modify g : (forall s, f (g s) = f s) -> preserves f (modify g).
Proof. by intros H s s' b t [= <- _ _]. Qed.
Lemma preserves_bind {A B} (c : M S A) (k : A -> M S B) : preserves f c -> (forall a, preserves f (k a)) -> preserves f (bind c k).
Proof.
  intros Hc Hk s s' b t H. apply bind_inv in H as (s1 & a & t1 & t2 & E1 & E2 & _). by rewrite (Hk _ _ _ _ _ E2), (Hc _ _ _ _ E1).
Qed.
Lemma preserves_if {A} (b : bool) (c d : M S A) : preserves f c -> preserves f d -> preserves f (if b then c else d).
Proof. by destruct b. Qed.
End preserves.

Create HintDb keeps_part.
#[export] Hint Resolve preserves_ret preserves_gets preserves_emit preserves_bind preserves_if : keeps_part.
#[export] Hint Extern 2 (preserves _ (modify _)) => (apply preserves_modify; reflexivity) : keeps_part.

(** The elementary steps, as rewriting rules: [autorewrite with kern] runs the
    straight-line prefix of a computation. *)
Create Rewrite HintDb kern.
#[export] Hint Rewrite @bind_ret @bind_gets @bind_modify @bind_emit @prepend_nil : kern.

(** [run H by tac] runs the first bound computation with the equation [H],
    whose side conditions [tac] discharges. *)
Tactic Notation "run" uconstr(H) "by" tactic3(tac) :=
  erewrite bind_ret_eq by (eapply H; tac); rewrite ?prepend_nil; cbn [fst snd].
Tactic Notation "run" uconstr(H) := run H by eassumption.
