(* ===== verification/Memory.v ===== *)
(** * The kernel's linear memory

    Pointers of the source are 32-bit addresses ([uint32_t] and the pointer
    types convert freely into each other), so memory is a map from addresses
    to bytes: a cell that was never written holds an arbitrary value of the
    initial map.  Multi-byte accesses are little endian.  [mem_eq] is equality
    of contents, coarser than equality of maps. *)

From S2P Require Import Prelude.

Abbreviation mem := (gmap Z Z).

Definition ld8 (m : mem) (a : Z) : Z := u8 (default 0 (m !! u32 a)).
Definition st8 (m : mem) (a v : Z) : mem := <[u32 a := u8 v]> m.

Definition ld16 (m : mem) (a : Z) : Z := ld8 m a + 256 * ld8 m (a + 1).
Definition st16 (m : mem) (a v : Z) : mem := st8 (st8 m a v) (a + 1) (v / 256).

Definition ld32 (m : mem) (a : Z) : Z :=
  ld8 m a + 256 * ld8 m (a + 1) + 65536 * ld8 m (a + 2) + 16777216 * ld8 m (a + 3).
Definition st32 (m : mem) (a v : Z) : mem :=
  st8 (st8 (st8 (st8 m a v) (a + 1) (v / 256)) (a + 2) (v / 65536)) (a + 3) (v / 16777216).

(** The words [l] are stored from [a] on. *)
Definition words_at (m : mem) (a : Z) (l : list Z) : Prop := forall (i : nat) x, l !! i = Some x -> ld32 m (a + 4 * i) = x.

Definition load8 (a : Z) : M mem Z := gets (fun m => ld8 m a).
Definition store8 (a v : Z) : M mem unit := modify (fun m => st8 m a v).
Definition load16 (a : Z) : M mem Z := gets (fun m => ld16 m a).
Definition store16 (a v : Z) : M mem unit := modify (fun m => st16 m a v).
Definition load32 (a : Z) : M mem Z := gets (fun m => ld32 m a).
Definition store32 (a v : Z) : M mem unit := modify (fun m => st32 m a v).

Section bind_memory.
Context {B : Type}.
Implicit Types (k : Z -> M mem B) (j : unit -> M mem B) (m : mem).

Lemma bind_load8 a k m : bind (load8 a) k m = k (ld8 m a) m.
Proof. apply prepend_nil. Qed.
Lemma bind_load16 a k m : bind (load16 a) k m = k (ld16 m a) m.
Proof. apply prepend_nil. Qed.
Lemma bind_load32 a k m : bind (load32 a) k m = k (ld32 m a) m.
Proof. apply prepend_nil. Qed.
Lemma bind_store8 a v j m : bind (store8 a v) j m = j tt (st8 m a v).
Proof. apply prepend_nil. Qed.
Lemma bind_store16 a v j m : bind (store16 a v) j m = j tt (st16 m a v).
Proof. apply prepend_nil. Qed.
Lemma bind_store32 a v j m : bind (store32 a v) j m = j tt (st32 m a v).
Proof. apply prepend_nil. Qed.
End bind_memory.

#[export] Hint Rewrite @bind_load8 @bind_load16 @bind_load32
  @bind_store8 @bind_store16 @bind_store32 : kern.

(** ** Bytes *)

Lemma ld8_range m a : 0 <= ld8 m a < 256.
Proof. apply u8_range. Qed.

Lemma ld8_u32 m a : ld8 m (u32 a) = ld8 m a.
Proof. unfold ld8. by rewrite u32_idem. Qed.

Lemma st8_u32 m a v : st8 m (u32 a) v = st8 m a v.
Proof. unfold st8. by rewrite u32_idem. Qed.

Lemma ld8_st8 m a b v :
  ld8 (st8 m a v) b = if decide (u32 a = u32 b) then u8 v else ld8 m b.
Proof.
  unfold ld8, st8. rewrite lookup_insert.
  case_decide; simpl; [by rewrite u8_idem|done].
Qed.

Lemma ld8_st8_eq m a v : ld8 (st8 m a v) a = u8 v.
Proof. rewrite ld8_st8. by rewrite decide_True. Qed.

Lemma ld8_st8_ne m a b v : u32 a <> u32 b -> ld8 (st8 m a v) b = ld8 m b.
Proof. intros. rewrite ld8_st8. by rewrite decide_False. Qed.

(** Addresses below 2^32 that differ are different cells. *)
Lemma u32_offset_ne a i j : 0 <= i < 4294967296 -> 0 <= j < 4294967296 -> i <> j -> u32 (a + i) <> u32 (a + j).
Proof.
  unfold u32. intros Hi Hj Hne H.
  pose proof (Z.div_mod (a + i) 4294967296 ltac:(lia)).
  pose proof (Z.div_mod (a + j) 4294967296 ltac:(lia)).
  set (x := (a + i) / 4294967296) in *. set (y := (a + j) / 4294967296) in *.
  rewrite H in *. assert (i - j = 4294967296 * (x - y)) by lia.
  assert (x = y) by nia. subst x. lia.
Qed.

(** ** Equality of contents *)

Definition mem_eq (m m' : mem) : Prop := forall a, ld8 m a = ld8 m' a.

#[export] Instance mem_eq_equiv : Equivalence mem_eq.
Proof.
  split.
  - by intros m a.
  - intros m m' H a. by rewrite H.
  - intros m1 m2 m3 H1 H2 a. by rewrite H1.
Qed.
#[export] Instance ld8_proper : Proper (mem_eq ==> eq ==> eq) ld8.
Proof. intros m m' H a ? <-. apply H. Qed.
#[export] Instance ld32_proper : Proper (mem_eq ==> eq ==> eq) ld32.
Proof. intros m m' H a ? <-. unfold ld32. by rewrite !H. Qed.
#[export] Instance st8_proper : Proper (mem_eq ==> eq ==> eq ==> mem_eq) st8.
Proof. intros m m' H a ? <- v ? <- b. rewrite !ld8_st8. by case_decide. Qed.
#[export] Instance st32_proper : Proper (mem_eq ==> eq ==> eq ==> mem_eq) st32.
Proof. intros m m' H a ? <- v ? <-. unfold st32. by rewrite H. Qed.

Lemma st8_same m a v : u8 v = ld8 m a -> mem_eq (st8 m a v) m.
Proof.
  intros H b. rewrite ld8_st8. case_decide as E; [|done].
  by rewrite H, <- ld8_u32, E, ld8_u32.
Qed.

Lemma st8_st8 m a v w : mem_eq (st8 (st8 m a v) a w) (st8 m a w).
Proof. intros b. rewrite !ld8_st8. by repeat case_decide. Qed.

(** ** Words *)

Lemma ld32_ext m m' a : (forall b, a <= b < a + 4 -> ld8 m' b = ld8 m b) -> ld32 m' a = ld32 m a.
Proof. intros H. unfold ld32. by rewrite !H by lia. Qed.

Lemma ld32_range m a : 0 <= ld32 m a < 4294967296.
Proof.
  unfold ld32. pose proof (ld8_range m a). pose proof (ld8_range m (a + 1)).
  pose proof (ld8_range m (a + 2)). pose proof (ld8_range m (a + 3)). lia.
Qed.

Lemma u8_bytes v :
  u32 v = u8 v + 256 * u8 (v / 256) + 65536 * u8 (v / 65536) + 16777216 * u8 (v / 16777216).
Proof. unfold u32, u8. Z.to_euclidean_division_equations. lia. Qed.

Lemma ld8_st32_ne m a b v :
  (forall i, 0 <= i < 4 -> u32 (a + i) <> u32 b) -> ld8 (st32 m a v) b = ld8 m b.
Proof.
  intros H. unfold st32.
  pose proof (H 0 ltac:(lia)) as H0. rewrite Z.add_0_r in H0.
  rewrite !ld8_st8_ne; eauto with lia.
Qed.

Lemma ld32_st32_eq m a v : ld32 (st32 m a v) a = u32 v.
Proof.
  rewrite u8_bytes. unfold ld32, st32. rewrite !ld8_st8.
  pose proof (u32_offset_ne a) as N.
  pose proof (N 0 1) as N01. pose proof (N 0 2) as N02. pose proof (N 0 3) as N03.
  pose proof (N 1 2) as N12. pose proof (N 1 3) as N13. pose proof (N 2 3) as N23.
  rewrite Z.add_0_r in *.
  repeat (case_decide; try (exfalso; match goal with
    | H : u32 _ = u32 _, N : _ -> _ -> _ -> u32 _ <> u32 _ |- _ =>
        first [ apply N in H; lia | symmetry in H; apply N in H; lia ] end);
    try congruence); done.
Qed.

(** Two words do not overlap when every pair of their cells differ. *)
Definition apart (a b : Z) : Prop :=
  forall i j, 0 <= i < 4 -> 0 <= j < 4 -> u32 (a + i) <> u32 (b + j).

Lemma ld32_st32_apart m a b v : apart a b -> ld32 (st32 m a v) b = ld32 m b.
Proof.
  intros H. unfold ld32.
  assert (E : forall j, 0 <= j < 4 -> ld8 (st32 m a v) (b + j) = ld8 m (b + j)).
  { intros j Hj. apply ld8_st32_ne. intros i Hi. by apply H. }
  pose proof (E 0 ltac:(lia)) as E0. rewrite Z.add_0_r in E0.
  by rewrite E0, !E by lia.
Qed.

Lemma apart_range a b :
  0 <= a -> a + 4 <= 4294967296 -> 0 <= b -> b + 4 <= 4294967296 ->
  a + 4 <= b \/ b + 4 <= a -> apart a b.
Proof. intros ????? i j Hi Hj. word_tac. Qed.

(** ** Unchanged regions *)

(** Every byte outside the [n] bytes at [base] is the same. *)
Definition frame (base n : Z) (m m' : mem) : Prop :=
  forall b, (forall i, 0 <= i < n -> u32 (base + i) <> u32 b) -> ld8 m' b = ld8 m b.

Lemma frame_refl base n m : frame base n m m.
Proof. done. Qed.
Lemma frame_trans base n m1 m2 m3 :
  frame base n m1 m2 -> frame base n m2 m3 -> frame base n m1 m3.
Proof. intros H1 H2 b Hb. by rewrite H2, H1. Qed.
Lemma frame_st8 base n m i v : 0 <= i < n -> frame base n m (st8 m (base + i) v).
Proof. intros Hi b Hb. apply ld8_st8_ne. by apply Hb. Qed.
Lemma frame_st32 base n m i v : 0 <= i -> i + 4 <= n -> frame base n m (st32 m (base + i) v).
Proof. intros Hi Hn b Hb. apply ld8_st32_ne. intros j Hj. rewrite <- Z.add_assoc. apply Hb. lia. Qed.
Lemma frame_mem_eq base m m' : frame base 0 m m' -> mem_eq m m'.
Proof. intros H a. symmetry. apply H. lia. Qed.

#[export] Hint Resolve frame_refl ld8_range ld32_range : core.

(** ** Blocks of bytes *)

(** [n] bytes at [a] that do not wrap around the address space. *)
Definition region (a n : Z) : Prop := 0 <= a /\ 0 <= n /\ a + n <= 4294967296.
(** Two blocks without a common byte. *)
Definition disjoint_blocks (a n b k : Z) : Prop := a + n <= b \/ b + k <= a.

Fixpoint write_bytes (m : mem) (a : Z) (l : list Z) : mem :=
  match l with
  | [] => m
  | v :: l' => write_bytes (st8 m a v) (a + 1) l'
  end.

Fixpoint read_bytes (m : mem) (a : Z) (n : nat) : list Z :=
  match n with
  | O => []
  | S n' => ld8 m a :: read_bytes m (a + 1) n'
  end.

Lemma ld8_write_bytes m a l b :
  region a (length l) -> 0 <= b < 4294967296 ->
  ld8 (write_bytes m a l) b =
    if decide (a <= b < a + length l) then u8 (l !!! Z.to_nat (b - a)) else ld8 m b.
Proof.
  unfold region. revert m a. induction l as [|v l IH]; intros m a Ha Hb; simpl in *.
  { case_decide; [lia|done]. }
  rewrite IH by lia. destruct (decide (a + 1 <= b < a + 1 + length l)).
  - rewrite decide_True by lia.
    replace (Z.to_nat (b - a)) with (S (Z.to_nat (b - (a + 1)))) by lia. done.
  - rewrite ld8_st8, !u32_small by lia. destruct (decide (a = b)).
    + subst. rewrite decide_True by lia.
      by replace (Z.to_nat (b - b)) with 0%nat by lia.
    + by rewrite decide_False by lia.
Qed.

Lemma ld8_write_bytes_out m a l b :
  region a (length l) -> 0 <= b < 4294967296 -> ~ (a <= b < a + length l) ->
  ld8 (write_bytes m a l) b = ld8 m b.
Proof. intros. rewrite ld8_write_bytes by done. by rewrite decide_False. Qed.

Lemma ld8_write_bytes_in m a l i :
  region a (length l) -> 0 <= i < length l ->
  ld8 (write_bytes m a l) (a + i) = u8 (l !!! Z.to_nat i).
Proof.
  unfold region. intros. rewrite ld8_write_bytes by (unfold region; lia).
  rewrite decide_True by lia. by replace (a + i - a) with i by lia.
Qed.

Lemma frame_write_bytes m a l : frame a (length l) m (write_bytes m a l).
Proof.
  assert (H : forall l k m, 0 <= k -> frame a (k + length l) m (write_bytes m (a + k) l)).
  { clear. intros l. induction l as [|v l IH]; intros k m Hk; cbn [write_bytes length]; [done|].
    eapply frame_trans; [apply (frame_st8 _ _ _ k); lia|].
    replace (a + k + 1) with (a + (k + 1)) by lia.
    replace (k + S (length l)) with ((k + 1) + length l) by lia. apply IH. lia. }
  specialize (H l 0 m ltac:(lia)). by rewrite !Z.add_0_r in H.
Qed.

Lemma write_bytes_app m a l1 l2 :
  write_bytes m a (l1 ++ l2) = write_bytes (write_bytes m a l1) (a + length l1) l2.
Proof.
  revert m a. induction l1 as [|v l1 IH]; intros m a; simpl; [by rewrite Z.add_0_r|].
  rewrite IH. f_equal. lia.
Qed.

Lemma length_read_bytes m a n : length (read_bytes m a n) = n.
Proof. revert a. induction n; intros; simpl; auto. Qed.

Lemma read_bytes_lookup m a n i :
  (i < n)%nat -> read_bytes m a n !!! i = ld8 m (a + i).
Proof.
  revert a i. induction n as [|n IH]; intros a i Hi; [lia|].
  destruct i; simpl; [by rewrite Z.add_0_r|]. rewrite IH by lia. f_equal. lia.
Qed.

Lemma read_bytes_ext m m' a (n : nat) :
  (forall i, 0 <= i < n -> ld8 m (a + i) = ld8 m' (a + i)) -> read_bytes m a n = read_bytes m' a n.
Proof.
  revert a. induction n as [|n IH]; intros a H; simpl; [done|]. f_equal.
  - specialize (H 0). rewrite Z.add_0_r in H. apply H. lia.
  - apply IH. intros i Hi. rewrite <- Z.add_assoc. apply H. lia.
Qed.

Lemma read_write_bytes m a l :
  region a (length l) -> Forall (fun v => 0 <= v < 256) l ->
  read_bytes (write_bytes m a l) a (length l) = l.
Proof.
  intros Hr Hl. apply list_eq_same_length with (length l);
    [by rewrite ?length_read_bytes|by rewrite ?length_read_bytes|].
  intros i x y Hi Hx Hy.
  apply list_lookup_total_correct in Hx, Hy. rewrite read_bytes_lookup in Hx by done.
  rewrite ld8_write_bytes_in, Nat2Z.id in Hx by (done || lia).
  rewrite Hy in Hx. rewrite u8_small in Hx; [congruence|].
  rewrite Forall_lookup in Hl. apply (Hl i). rewrite <- Hy. by apply list_lookup_lookup_total_lt.
Qed.

(** A NUL-terminated string [s] stored at [a]. *)
Record cstr (m : mem) (a : Z) (s : list Z) : Prop := {
  cstr_region : region a (length s + 1);
  cstr_chars : Forall (fun c => 0 < c < 256) s;
  cstr_bytes : forall i : nat, (i < length s)%nat -> ld8 m (a + i) = s !!! i;
  cstr_nul : ld8 m (a + length s) = 0
}.

Lemma cstr_frame m m' a s b n :
  cstr m a s -> frame b n m m' -> region b n ->
  disjoint_blocks b n a (length s + 1) -> cstr m' a s.
Proof.
  intros [Hr Hc Hb Hn] Hf Hrb Hd. unfold region, disjoint_blocks in *.
  assert (E : forall i, 0 <= i <= length s -> ld8 m' (a + i) = ld8 m (a + i)).
  { intros i Hi. apply Hf. intros j Hj. word_tac. }
  split; [done|done| |].
  - intros i Hi. rewrite E by lia. by apply Hb.
  - by rewrite E by lia.
Qed.

Lemma cstr_cons m a c s : cstr m a (c :: s) -> ld8 m a = c /\ 0 < c < 256 /\ cstr m (a + 1) s.
Proof.
  intros [Hr Hc Hb Hn]. inversion_clear Hc. unfold region in *. simpl in *.
  split; [|split; [done|split]].
  - specialize (Hb 0%nat ltac:(lia)). by rewrite Z.add_0_r in Hb.
  - unfold region. lia.
  - done.
  - intros i Hi. specialize (Hb (S i) ltac:(lia)). simpl in Hb. rewrite <- Hb. f_equal. lia.
  - rewrite <- Hn. f_equal. lia.
Qed.

Lemma cstr_write m a s :
  region a (length s + 1) -> Forall (fun c => 0 < c < 256) s ->
  cstr (write_bytes m a (s ++ [0])) a s.
Proof.
  intros Hr Hc. unfold region in *. split; [done|done| |].
  - intros i Hi. rewrite ld8_write_bytes_in; unfold region; rewrite ?length_app; simpl; try lia.
    rewrite Nat2Z.id, lookup_total_app_l by done. apply u8_small.
    rewrite Forall_lookup in Hc. specialize (Hc i (s !!! i)).
    rewrite list_lookup_lookup_total_lt in Hc by done. specialize (Hc eq_refl). lia.
  - rewrite ld8_write_bytes_in; unfold region; rewrite ?length_app; simpl; try lia.
    rewrite Nat2Z.id, lookup_total_app_r by done. by rewrite Nat.sub_diag.
Qed.

(** A string is its first characters followed by a string. *)
Lemma cstr_app_intro m a l s :
  0 <= a -> Forall (fun c => 0 < c < 256) l ->
  (forall i : nat, (i < length l)%nat -> ld8 m (a + i) = l !!! i) ->
  cstr m (a + length l) s -> cstr m a (l ++ s).
Proof.
  intros Ha Hl Hb [Hr Hc Hbs Hn]. unfold region in *. split.
  - unfold region. rewrite length_app. lia.
  - by apply Forall_app.
  - intros i Hi. rewrite length_app in Hi. destruct (decide (i < length l)%nat).
    + rewrite lookup_total_app_l by done. by apply Hb.
    + rewrite lookup_total_app_r by lia.
      rewrite <- (Hbs (i - length l)%nat) by lia. f_equal. lia.
  - etrans; [|exact Hn]. f_equal. rewrite length_app. lia.
Qed.
