(* ===== verification/CString.v ===== *)
(** * libs/string/string.c

    The C strings of the kernel: byte copies and fills, the NUL-terminated
    string functions and the two number printers.  Buffers are addresses in the
    linear memory of [Memory]; the static and local arrays of the number
    printers and the string literals they return have addresses chosen by the
    compiler and linker, which are the fields of [StringLayout]. *)

From S2P Require Import Prelude Memory.

(** Fuel of the loops that run to a NUL byte: all strings of the kernel live in
    buffers of at most a few hundred bytes. *)
Definition str_fuel : nat := Z.to_nat 65536.

(** ** Copy and fill *)

Fixpoint memcpy_loop (len : nat) (dest src : Z) : M mem unit :=
  match len with
  | O => ret tt
  | S len' =>
      v <- load8 src ;;
      store8 dest v ;;
      memcpy_loop len' (dest + 1) (src + 1)
  end.

Definition memcpy (dest src len : Z) : M mem unit :=
  memcpy_loop (Z.to_nat (u32 len)) dest src.

Fixpoint memset_loop (len : nat) (dst val : Z) : M mem unit :=
  match len with
  | O => ret tt
  | S len' =>
      store8 dst val ;;
      memset_loop len' (dst + 1) val
  end.

Definition memset (dest val len : Z) : M mem unit :=
  memset_loop (Z.to_nat (u32 len)) dest (u8 val).

Definition bzero (dest len : Z) : M mem unit := memset dest 0 len.

(** ** NUL-terminated strings *)

(** [char] is signed: the comparison is between [i8] readings.  The second
    test repeats the first, as in the source. *)
Fixpoint strcmp_loop (fuel : nat) (str1 str2 : Z) : M mem Z :=
  match fuel with
  | O => nofuel
  | S fuel' =>
      c1 <- load8 str1 ;;
      c2 <- load8 str2 ;;
      if (c1 =? 0) && (c2 =? 0) then ret 0
      else if i8 c1 >? i8 c2 then ret 1
      else if i8 c1 >? i8 c2 then ret (-1)
      else strcmp_loop fuel' (str1 + 1) (str2 + 1)
  end.

Definition strcmp (str1 str2 : Z) : M mem Z := strcmp_loop str_fuel str1 str2.

Fixpoint strlen_loop (fuel : nat) (src i : Z) : M mem Z :=
  match fuel with
  | O => nofuel
  | S fuel' =>
      c <- load8 (src + i) ;;
      if c =? 0 then ret i else strlen_loop fuel' src (i + 1)
  end.

Definition strlen (src : Z) : M mem Z := strlen_loop str_fuel src 0.

Fixpoint strcpy_loop (fuel : nat) (dest src : Z) : M mem unit :=
  match fuel with
  | O => nofuel
  | S fuel' =>
      c <- load8 src ;;
      if c =? 0 then store8 dest 0
      else
        store8 dest c ;;
        strcpy_loop fuel' (dest + 1) (src + 1)
  end.

Definition strcpy (dest src : Z) : M mem Z :=
  strcpy_loop str_fuel dest src ;; ret dest.

Fixpoint strcat_find (fuel : nat) (pointer : Z) : M mem Z :=
  match fuel with
  | O => nofuel
  | S fuel' =>
      c <- load8 pointer ;;
      if c =? 0 then ret pointer else strcat_find fuel' (pointer + 1)
  end.

Definition strcat (dest src : Z) : M mem Z :=
  pointer <- strcat_find str_fuel dest ;;
  strcpy pointer src ;;
  ret dest.

Fixpoint strrevers_loop (fuel : nat) (str_head ptr_h ptr_t : Z) : M mem unit :=
  match fuel with
  | O => nofuel
  | S fuel' =>
      if ptr_h <? ptr_t then
        temp <- load8 (str_head + ptr_t) ;;
        v <- load8 (str_head + ptr_h) ;;
        store8 (str_head + ptr_t) v ;;
        store8 (str_head + ptr_h) temp ;;
        strrevers_loop fuel' str_head (ptr_h + 1) (ptr_t - 1)
      else ret tt
  end.

Definition strrevers (str : Z) : M mem Z :=
  lenth <- strlen str ;;
  strrevers_loop str_fuel str 0 (lenth - 1) ;;
  ret str.

(** ** Numbers *)

(** Read of a constant table, out of range it is undefined. *)
Definition table_read {S} (t : list Z) (i : Z) : M S Z :=
  if i <? 0 then undef
  else match t !! Z.to_nat i with Some v => ret v | None => undef end.

(** "0123456789ABCDEF" with its terminator, and i2stable. *)
Definition bit_table : list Z :=
  [48; 49; 50; 51; 52; 53; 54; 55; 56; 57; 65; 66; 67; 68; 69; 70; 0].
Definition i2stable : list Z := [48; 49; 50; 51; 52; 53; 54; 55; 56; 57].

(** The static helper [func]: digits of [n] in base [i], most significant
    first.  [n/i] and [n%i] are unsigned, because [i] is. *)
Fixpoint func (fuel : nat) (s n i : Z) : M mem Z :=
  match fuel with
  | O => nofuel
  | S fuel' =>
      if i32 n =? 0 then
        store8 s 0 ;;                    (* strcpy(s,"") *)
        ret 0
      else if u32 i =? 0 then undef
      else
        func fuel' s (i32 (u32 n / u32 i)) i ;;
        len <- strlen s ;;
        c <- table_read bit_table (u32 n `mod` u32 i) ;;
        store8 (s + len) c ;;
        store8 (s + len + 1) 0 ;;
        ret 1
  end.

Class StringLayout := {
  uint_m : Z;           (* static char m[32] of uintTostring *)
  static_hexstr : Z;    (* static char static_hexstr[11] of num2hexstr *)
  temp_arry : Z;        (* its locals char temp_arry[9], temp_arry2[9] *)
  temp_arry2 : Z;
  lit_hex0x : Z;        (* the literals "0x00000000" and "00000000" *)
  lit_hex0 : Z
}.

Section numbers.
Context {L : StringLayout}.

Fixpoint uintTostring_loop (fuel : nat) (str_ptr num : Z) : M mem (Z * Z) :=
  match fuel with
  | O => nofuel
  | S fuel' =>
      if num >=? 10 then
        let num_ := num / 10 in
        let index := u32 (num - u32 (num_ * 10)) in
        c <- table_read i2stable index ;;
        store8 str_ptr c ;;
        uintTostring_loop fuel' (str_ptr + 1) num_
      else ret (str_ptr, num)
  end.

(** A 32-bit number has at most ten digits. *)
Definition uintTostring (num : Z) : M mem Z :=
  r <- uintTostring_loop 10 uint_m (u32 num) ;;
  c <- table_read i2stable r.2 ;;
  store8 r.1 c ;;
  store8 (r.1 + 1) 0 ;;
  strrevers uint_m.

(** Lines 30 to 36: the digits in temp_arry are copied to temp_arry2, then back
    to the right end of eight characters, and the left is filled with '0'. *)
Definition hex_pad : M mem unit :=
  memset temp_arry2 0 9 ;;             (* char temp_arry2[9]={0} *)
  strcpy temp_arry2 temp_arry ;;
  len <- strlen temp_arry ;;
  let offset := 8 - len in
  strcpy (temp_arry + offset) temp_arry2 ;;
  memset_loop (Z.to_nat offset) temp_arry 48.  (* for(i<offset) *(temp_arry+i)='0' *)

Definition num2hexstr (number need0x : Z) : M mem Z :=
  if negb (i32 number =? 0) then
    store8 static_hexstr 48 ;;
    store8 (static_hexstr + 1) 120 ;;
    memset temp_arry 0 9 ;;              (* char temp_arry[9]={0} *)
    func 33 temp_arry number 16 ;;
    hex_pad ;;
    (if negb (need0x =? 0) then strcpy (static_hexstr + 2) temp_arry
     else strcpy static_hexstr temp_arry) ;;
    ret static_hexstr
  else if negb (need0x =? 0) then ret lit_hex0x
  else ret lit_hex0.

End numbers.

(** ** Closed forms of the copy loops *)

Lemma memset_loop_eq (n : nat) dst v m :
  memset_loop n dst v m = Ret (write_bytes m dst (replicate n v)) tt [].
Proof.
  revert dst m. induction n as [|n IH]; intros dst m; [done|].
  simpl. unfold bind at 1, store8 at 1, modify. by rewrite IH.
Qed.

Lemma memset_eq dest val len m :
  memset dest val len m =
    Ret (write_bytes m dest (replicate (Z.to_nat (u32 len)) (u8 val))) tt [].
Proof. apply memset_loop_eq. Qed.

Lemma memcpy_loop_eq (n : nat) dest src m :
  region dest n -> region src n -> disjoint_blocks dest n src n ->
  memcpy_loop n dest src m = Ret (write_bytes m dest (read_bytes m src n)) tt [].
Proof.
  unfold region, disjoint_blocks. revert dest src m.
  induction n as [|n IH]; intros dest src m Hd Hs Hdis; [done|].
  simpl. unfold bind, load8, store8, gets, modify. simpl.
  rewrite IH by lia. simpl. do 2 f_equal. apply read_bytes_ext.
  intros i Hi. apply ld8_st8_ne. word_tac.
Qed.

Lemma memcpy_eq dest src len m :
  0 <= len < 4294967296 ->
  region dest len -> region src len -> disjoint_blocks dest len src len ->
  memcpy dest src len m = Ret (write_bytes m dest (read_bytes m src (Z.to_nat len))) tt [].
Proof.
  intros Hl Hd Hs Hdis. unfold memcpy. rewrite u32_small by lia.
  apply memcpy_loop_eq; by rewrite Z2Nat.id by lia.
Qed.

Lemma strlen_loop_eq m a s fuel (k : nat) :
  cstr m a s -> (k <= length s < k + fuel)%nat ->
  strlen_loop fuel a k m = Ret m (Z.of_nat (length s)) [].
Proof.
  intros Hc. revert k. induction fuel as [|fuel IH]; intros k Hk; [lia|].
  simpl. unfold bind, load8, gets. simpl.
  destruct (decide (k = length s)) as [->|Hne].
  - by rewrite (cstr_nul _ _ _ Hc).
  - rewrite (cstr_bytes _ _ _ Hc) by lia.
    pose proof (cstr_chars _ _ _ Hc) as Hch. rewrite Forall_lookup in Hch.
    specialize (Hch k (s !!! k)).
    rewrite list_lookup_lookup_total_lt in Hch by lia. specialize (Hch eq_refl).
    destruct (Z.eqb_spec (s !!! k) 0); [lia|].
    replace (k + 1) with (Z.of_nat (S k)) by lia. rewrite IH by lia. done.
Qed.

Lemma strlen_eq m a s :
  cstr m a s -> (length s < str_fuel)%nat -> strlen a m = Ret m (Z.of_nat (length s)) [].
Proof. intros Hc Hl. unfold strlen. apply (strlen_loop_eq _ _ _ _ 0 Hc). lia. Qed.

Lemma strcpy_loop_eq (fuel : nat) m dest src s :
  cstr m src s -> (length s < fuel)%nat -> region dest (length s + 1) ->
  disjoint_blocks dest (length s + 1) src (length s + 1) ->
  strcpy_loop fuel dest src m = Ret (write_bytes m dest (s ++ [0])) tt [].
Proof.
  revert m dest src s. induction fuel as [|fuel IH]; intros m dest src s Hc Hl Hd Hdis; [lia|].
  pose proof (cstr_region _ _ _ Hc) as Hr. unfold region, disjoint_blocks in *.
  simpl. unfold bind, load8, gets. destruct s as [|c s].
  - pose proof (cstr_nul _ _ _ Hc) as Hn. simpl in Hn. rewrite Z.add_0_r in Hn.
    by rewrite Hn.
  - apply cstr_cons in Hc as (-> & Hc & Hs). simpl.
    destruct (Z.eqb_spec c 0); [lia|]. cbn [length] in *.
    unfold store8, modify. simpl. rewrite (IH _ _ _ s); [done| | | |].
    + eapply (cstr_frame m _ _ _ dest 1); [done| | |];
        [|unfold region; lia|unfold disjoint_blocks; lia].
      pose proof (frame_st8 dest 1 m 0 c ltac:(lia)) as F. by rewrite Z.add_0_r in F.
    + lia.
    + lia.
    + lia.
Qed.

Lemma strcpy_eq m dest src s :
  cstr m src s -> (length s < str_fuel)%nat -> region dest (length s + 1) ->
  disjoint_blocks dest (length s + 1) src (length s + 1) ->
  strcpy dest src m = Ret (write_bytes m dest (s ++ [0])) dest [].
Proof. intros. unfold strcpy, bind. by erewrite strcpy_loop_eq. Qed.

Lemma strcat_find_eq (fuel : nat) m a s :
  cstr m a s -> (length s < fuel)%nat -> strcat_find fuel a m = Ret m (a + length s) [].
Proof.
  revert a s. induction fuel as [|fuel IH]; intros a s Hc Hl; [lia|].
  simpl. unfold bind, load8, gets. destruct s as [|c s].
  - pose proof (cstr_nul _ _ _ Hc) as Hn. simpl in *. rewrite Z.add_0_r in *.
    by rewrite Hn.
  - apply cstr_cons in Hc as (-> & Hc & Hs). simpl in *.
    destruct (Z.eqb_spec c 0); [lia|]. rewrite (IH _ s) by (done || lia).
    simpl. f_equal. lia.
Qed.

Lemma cstr_append m a s1 s2 :
  cstr m a s1 -> region a (length s1 + length s2 + 1) -> Forall (fun c => 0 < c < 256) s2 ->
  cstr (write_bytes m (a + length s1) (s2 ++ [0])) a (s1 ++ s2).
Proof.
  intros Hc Hr H2. unfold region in *. apply cstr_app_intro; [lia|apply Hc| |].
  - intros i Hi. rewrite <- (cstr_bytes _ _ _ Hc) by done.
    apply ld8_write_bytes_out; unfold region; rewrite ?length_app; simpl; lia.
  - apply cstr_write; [unfold region; lia|done].
Qed.

(** [strcat] appends: the destination holds the concatenation, and only the
    bytes after its old end are written. *)
Lemma strcat_eq m dest src s1 s2 :
  cstr m dest s1 -> cstr m src s2 ->
  (length s1 < str_fuel)%nat -> (length s2 < str_fuel)%nat ->
  region dest (length s1 + length s2 + 1) ->
  disjoint_blocks dest (length s1 + length s2 + 1) src (length s2 + 1) ->
  strcat dest src m = Ret (write_bytes m (dest + length s1) (s2 ++ [0])) dest [].
Proof.
  intros H1 H2 L1 L2 Hr Hd. unfold region, disjoint_blocks in *. unfold strcat.
  erewrite bind_ret_eq by (by apply strcat_find_eq).
  erewrite bind_ret_eq by (apply (strcpy_eq _ _ _ s2); unfold region, disjoint_blocks; (done || lia)).
  done.
Qed.

(** ** Reversal *)

Lemma strrevers_loop_spec (fuel : nat) a n h t m :
  region a n -> 0 <= h -> t < n -> h <= t + 1 -> t - h < 2 * fuel - 1 ->
  exists m', strrevers_loop fuel a h t m = Ret m' tt [] /\ frame a n m m' /\
    forall i, 0 <= i < n ->
      ld8 m' (a + i) = ld8 m (a + (if decide (h <= i <= t) then h + t - i else i)).
Proof.
  unfold region. revert h t m. induction fuel as [|fuel IH]; intros h t m Hr Hh Ht Hht Hf; [lia|].
  simpl. destruct (Z.ltb_spec h t) as [Hlt|Hge].
  - unfold bind, load8, store8, gets, modify. simpl.
    set (m1 := st8 (st8 m (a + t) (ld8 m (a + h))) (a + h) (ld8 m (a + t))).
    destruct (IH (h + 1) (t - 1) m1) as (m' & -> & Hfr & Hb); [lia..|].
    exists m'. split; [done|]. split.
    + eapply frame_trans; [|done]. eapply frame_trans; apply frame_st8; lia.
    + intros i Hi. rewrite Hb by done. unfold m1.
      destruct (decide (h + 1 <= i <= t - 1)); rewrite !ld8_st8, !u32_small by lia;
        rewrite !u8_small by apply ld8_range;
        repeat case_decide; try lia; do 2 f_equal; lia.
  - exists m. split; [done|]. split; [done|]. intros i Hi.
    case_decide; [|done]. do 2 f_equal. lia.
Qed.

Lemma strrevers_spec m a s :
  cstr m a s -> (length s < str_fuel)%nat ->
  exists m', strrevers a m = Ret m' a [] /\ cstr m' a (rev s) /\ frame a (length s) m m'.
Proof.
  intros Hc Hl. pose proof (cstr_region _ _ _ Hc) as Hr. unfold region in Hr.
  unfold strrevers. erewrite bind_ret_eq by (by apply strlen_eq). cbn [prepend app].
  destruct (strrevers_loop_spec str_fuel a (length s) 0 (length s - 1) m)
    as (m' & E & Hf & Hb); [unfold region|..]; try lia.
  unfold bind. rewrite E. exists m'. split; [done|]. split; [|done].
  split; [by rewrite length_rev|by apply Forall_rev, Hc| |].
  - rewrite length_rev. intros i Hi. rewrite Hb by lia. rewrite decide_True by lia.
    rewrite (list_lookup_total_alt (rev s)).
    replace (a + (0 + (length s - 1) - i)) with (a + (length s - S i)%nat) by lia.
    rewrite (cstr_bytes _ _ _ Hc) by lia. rewrite list_lookup_total_alt.
    rewrite rev_alt. by setoid_rewrite reverse_lookup.
  - rewrite length_rev. rewrite (Hf (a + length s)); [apply Hc|].
    intros i Hi. word_tac.
Qed.

(** ** Decimal output: [uintTostring] prints the number in base ten *)

(** Value of a string of decimal digits, and of hexadecimal digits. *)
Definition dec_val (s : list Z) : Z := foldl (fun acc c => 10 * acc + (c - 48)) 0 s.
Definition is_digit (c : Z) : Prop := 48 <= c < 58.

Fixpoint dec_rev (fuel : nat) (n : Z) : list Z :=
  match fuel with
  | O => []
  | S fuel' => if n >=? 10 then (48 + n `mod` 10) :: dec_rev fuel' (n / 10) else [48 + n]
  end.

Lemma dec_rev_digits (fuel : nat) n : 0 <= n -> Forall is_digit (dec_rev fuel n).
Proof.
  revert n. induction fuel as [|fuel IH]; intros n Hn; simpl; [done|].
  destruct (Z.geb_spec n 10).
  - constructor; [|apply IH; apply Z.div_pos; lia].
    unfold is_digit. pose proof (Z.mod_pos_bound n 10). lia.
  - repeat constructor; lia.
Qed.

Lemma dec_rev_value (fuel : nat) n :
  0 <= n < 10 ^ fuel -> dec_val (rev (dec_rev fuel n)) = n.
Proof.
  unfold dec_val. revert n. induction fuel as [|fuel IH]; intros n Hn; [simpl in *; lia|].
  rewrite Nat2Z.inj_succ, Z.pow_succ_r in Hn by lia.
  simpl. destruct (Z.geb_spec n 10); simpl; [|lia].
  rewrite foldl_app, IH; simpl;
    pose proof (Z.div_mod n 10 ltac:(lia)); pose proof (Z.mod_pos_bound n 10); [lia|].
  split; [apply Z.div_pos; lia|]. apply Z.div_lt_upper_bound; lia.
Qed.

Lemma dec_rev_length (fuel : nat) n : (length (dec_rev fuel n) <= fuel)%nat.
Proof.
  revert n. induction fuel as [|fuel IH]; intros n; simpl; [done|].
  destruct (n >=? 10); simpl; [specialize (IH (n / 10))|]; lia.
Qed.

Lemma dec_rev_last (fuel : nat) n :
  0 < n < 10 ^ fuel -> exists c l, dec_rev fuel n = l ++ [c] /\ c <> 48.
Proof.
  revert n. induction fuel as [|fuel IH]; intros n Hn; [simpl in *; lia|].
  rewrite Nat2Z.inj_succ, Z.pow_succ_r in Hn by lia.
  simpl. destruct (Z.geb_spec n 10).
  - destruct (IH (n / 10)) as (c & l & -> & Hc).
    { split; [apply Z.div_str_pos; lia|apply Z.div_lt_upper_bound; lia]. }
    by exists c, (48 + n `mod` 10 :: l).
  - exists (48 + n), []. split; [done|lia].
Qed.

Lemma table_read_digit S (d : Z) (s : S) :
  0 <= d < 10 -> table_read i2stable d s = Ret s (48 + d) [].
Proof.
  intros Hd. assert (d = 0 \/ d = 1 \/ d = 2 \/ d = 3 \/ d = 4 \/ d = 5 \/ d = 6 \/ d = 7 \/ d = 8 \/ d = 9)
    as D by lia.
  by repeat destruct D as [->|D]; try subst d.
Qed.

Section numbers_proofs.
Context {L : StringLayout}.

Lemma uintTostring_loop_eq (fuel : nat) p n m :
  0 <= n < 4294967296 -> n < 10 ^ fuel -> (0 < fuel)%nat ->
  exists l d, dec_rev fuel n = l ++ [48 + d] /\ 0 <= d < 10 /\
    uintTostring_loop fuel p n m = Ret (write_bytes m p l) (p + length l, d) [].
Proof.
  revert p n m. induction fuel as [|fuel IH]; intros p n m Hn Hf Hpos; [lia|].
  rewrite Nat2Z.inj_succ, Z.pow_succ_r in Hf by lia. simpl.
  destruct (Z.geb_spec n 10) as [Hge|Hlt].
  - pose proof (Z.div_mod n 10 ltac:(lia)). pose proof (Z.mod_pos_bound n 10 ltac:(lia)).
    replace (u32 (n - u32 (n / 10 * 10))) with (n `mod` 10) by (word_tac; lia).
    unfold bind. rewrite table_read_digit by lia. simpl. unfold store8, modify. simpl.
    assert (fuel <> 0%nat) by (intros ->; simpl in Hf; lia).
    destruct (IH (p + 1) (n / 10) (st8 m p (48 + n `mod` 10))) as (l & d & -> & Hd & ->); [lia..|].
    exists (48 + n `mod` 10 :: l), d. split; [done|]. split; [done|].
    cbn [prepend app length write_bytes]. do 2 f_equal. lia.
  - exists [], n. split; [done|]. split; [lia|]. by rewrite Z.add_0_r.
Qed.

(** The string printed for [num] is its decimal numeral: reading it back gives
    [num], without leading zeros. *)
Lemma uintTostring_correct m num :
  region uint_m 32 ->
  exists m' s, uintTostring num m = Ret m' uint_m [] /\ cstr m' uint_m s /\
    Forall is_digit s /\ dec_val s = u32 num /\ (1 <= length s <= 10)%nat /\
    (u32 num <> 0 -> head s <> Some 48) /\ frame uint_m 32 m m'.
Proof.
  intros Hr. unfold region in Hr. pose proof (u32_range num) as Hn.
  unfold uintTostring.
  destruct (uintTostring_loop_eq 10 uint_m (u32 num) m) as (l & d & E & Hd & El); [done|simpl; lia|lia|].
  pose proof (dec_rev_length 10 (u32 num)) as Hlen. rewrite E, length_app in Hlen. simpl in Hlen.
  pose proof (dec_rev_digits 10 (u32 num) ltac:(lia)) as Hdig.
  erewrite bind_ret_eq by exact El. cbn [prepend app fst snd].
  erewrite bind_ret_eq by (by apply table_read_digit). cbn [prepend app].
  rewrite !bind_store8. set (m1 := st8 (st8 (write_bytes m uint_m l) (uint_m + length l) (48 + d)) (uint_m + length l + 1) 0).
  assert (Em1 : m1 = write_bytes m uint_m (dec_rev 10 (u32 num) ++ [0])).
  { unfold m1. by rewrite E, !write_bytes_app, length_app, Nat2Z.inj_add, Z.add_assoc. }
  assert (Hch : Forall (fun c => 0 < c < 256) (dec_rev 10 (u32 num))).
  { eapply Forall_impl; [done|]. unfold is_digit. lia. }
  assert (Hc : cstr m1 uint_m (dec_rev 10 (u32 num))).
  { rewrite Em1. apply cstr_write; [|done].
    unfold region. rewrite E, length_app. simpl. lia. }
  destruct (strrevers_spec _ _ _ Hc) as (m' & -> & Hc' & Hf').
  { pose proof (dec_rev_length 10 (u32 num)). unfold str_fuel. lia. }
  exists m', (rev (dec_rev 10 (u32 num))). split_and!; [done|done| | |..].
  - by apply Forall_rev.
  - apply dec_rev_value. simpl. lia.
  - rewrite length_rev, E, length_app. simpl. lia.
  - rewrite length_rev, E, length_app. simpl. lia.
  - intros Hnz. destruct (dec_rev_last 10 (u32 num)) as (c & l' & -> & Hc48); [simpl; lia|].
    rewrite rev_app_distr. simpl. congruence.
  - assert (F : frame uint_m 32 m m1).
    { rewrite Em1. intros b Hb. apply frame_write_bytes. intros i Hi. apply Hb.
      rewrite length_app in Hi. pose proof (dec_rev_length 10 (u32 num)). cbn [length] in Hi. lia. }
    eapply frame_trans; [exact F|]. intros b Hb. apply Hf'. intros i Hi. apply Hb.
    pose proof (dec_rev_length 10 (u32 num)). lia.
Qed.

End numbers_proofs.

(** ** Hexadecimal output *)

Definition hex_digit (d : Z) : Z := bit_table !!! Z.to_nat d.
Definition hex_digit_val (c : Z) : Z := if c <? 58 then c - 48 else c - 55.
Definition is_hex (c : Z) : Prop := 48 <= c < 58 \/ 65 <= c < 71.
Definition hex_val (s : list Z) : Z := foldl (fun acc c => 16 * acc + hex_digit_val c) 0 s.

(** The digits [func] produces in base sixteen. *)
Fixpoint hex_min (fuel : nat) (u : Z) : list Z :=
  match fuel with
  | O => []
  | S fuel' => if u =? 0 then [] else hex_min fuel' (u / 16) ++ [hex_digit (u `mod` 16)]
  end.

Lemma table_read_hex S d (s : S) :
  0 <= d < 16 -> table_read bit_table d s = Ret s (hex_digit d) [].
Proof.
  intros Hd. unfold table_read, hex_digit. rewrite (proj2 (Z.ltb_ge d 0)) by lia.
  rewrite (list_lookup_lookup_total_lt bit_table) by (simpl; lia). done.
Qed.

Lemma hex_digit_spec d : 0 <= d < 16 -> is_hex (hex_digit d) /\ hex_digit_val (hex_digit d) = d.
Proof.
  intros Hd.
  assert (D : In (Z.to_nat d) (seq 0 16)) by (apply in_seq; lia).
  rewrite <- (Z2Nat.id d) by lia. unfold is_hex. revert D. generalize (Z.to_nat d). intros n D.
  simpl in D. repeat destruct D as [<-|D]; try done; vm_compute; intuition congruence.
Qed.

Lemma hex_min_hex fuel u : 0 <= u -> Forall is_hex (hex_min fuel u).
Proof.
  revert u. induction fuel as [|fuel IH]; intros u Hu; simpl; [done|].
  destruct (u =? 0); [done|]. apply Forall_app. split; [apply IH, Z.div_pos; lia|].
  constructor; [|done]. apply hex_digit_spec, Z.mod_pos_bound. lia.
Qed.

Lemma hex_min_value (fuel : nat) u : 0 <= u < 16 ^ fuel -> hex_val (hex_min fuel u) = u.
Proof.
  unfold hex_val. revert u. induction fuel as [|fuel IH]; intros u Hu; [simpl in *; lia|].
  rewrite Nat2Z.inj_succ, Z.pow_succ_r in Hu by lia.
  cbn [hex_min]. destruct (Z.eqb_spec u 0) as [->|Hne]; [done|].
  pose proof (Z.mod_pos_bound u 16 ltac:(lia)). pose proof (Z.div_mod u 16 ltac:(lia)).
  rewrite foldl_app, IH; [|lia]. cbn [foldl].
  rewrite (proj2 (hex_digit_spec (u `mod` 16) ltac:(lia))). lia.
Qed.

Lemma hex_min_length (fuel k : nat) u : 0 <= u < 16 ^ k -> (length (hex_min fuel u) <= k)%nat.
Proof.
  revert k u. induction fuel as [|fuel IH]; intros k u Hu; cbn [hex_min]; [simpl; lia|].
  destruct (Z.eqb_spec u 0) as [->|Hne]; [simpl; lia|]. destruct k as [|k]; [simpl in *; lia|].
  rewrite Nat2Z.inj_succ, Z.pow_succ_r in Hu by lia. rewrite length_app. simpl.
  specialize (IH k (u / 16)).
  pose proof (Z.div_mod u 16 ltac:(lia)). pose proof (Z.mod_pos_bound u 16 ltac:(lia)). lia.
Qed.

Lemma is_hex_char c : is_hex c -> 0 < c < 256.
Proof. unfold is_hex. lia. Qed.

Lemma i32_u32_zero n : (i32 n =? 0) = (u32 n =? 0).
Proof.
  unfold i32, u32.
  destruct (Z.eqb_spec ((n + 2147483648) `mod` 4294967296 - 2147483648) 0),
    (Z.eqb_spec (n `mod` 4294967296) 0); try done;
    Z.to_euclidean_division_equations; lia.
Qed.

Lemma func_spec (fuel : nat) s n m :
  (0 < fuel)%nat -> u32 n < 16 ^ (fuel - 1) -> region s 9 -> 
  exists m' r, func fuel s n 16 m = Ret m' r [] /\
    cstr m' s (hex_min fuel (u32 n)) /\ frame s 9 m m'.
Proof.
  intros Hf Hn Hr. revert n m Hf Hn. induction fuel as [|fuel IH]; intros n m Hf Hn; [lia|].
  cbn [func hex_min]. rewrite i32_u32_zero. pose proof (u32_range n) as Hu.
  destruct (Z.eqb_spec (u32 n) 0) as [E|Hne].
  { rewrite bind_store8. exists (st8 m s 0), 0. split; [done|]. split.
    - apply (cstr_write m s []); [|done]. unfold region in *. simpl. lia.
    - pose proof (frame_st8 s 9 m 0 0 ltac:(lia)) as F. by rewrite Z.add_0_r in F. }
  change (u32 16) with 16. cbn [Z.eqb].
  destruct fuel as [|fuel]; [simpl in Hn; lia|].
  pose proof (Z.mod_pos_bound (u32 n) 16 ltac:(lia)) as Hm.
  pose proof (Z.div_mod (u32 n) 16 ltac:(lia)) as Hd.
  assert (Hq : u32 (i32 (u32 n / 16)) = u32 n / 16) by word_tac.
  destruct (IH (i32 (u32 n / 16)) m) as (m' & r & E & Hc & Hfr); [lia| |].
  { rewrite Hq. replace (S (S fuel) - 1) with (Z.succ fuel) in Hn by lia.
    rewrite Z.pow_succ_r in Hn by lia. replace (S fuel - 1) with (Z.of_nat fuel) by lia. lia. }
  rewrite Hq in Hc. set (h := hex_min (S fuel) (u32 n / 16)) in *.
  assert (Hh : (length h <= 7)%nat) by (apply hex_min_length; simpl; lia).
  run E by idtac.
  run (strlen_eq _ _ _ Hc) by (unfold str_fuel; lia).
  run (table_read_hex _ _ _ Hm) by idtac.
  rewrite !bind_store8. eexists _, _. split; [done|]. unfold region in *. split.
  - apply (cstr_append _ _ _ [hex_digit (u32 n `mod` 16)] Hc).
    + unfold region. simpl. lia.
    + constructor; [|done]. apply is_hex_char, hex_digit_spec; lia.
  - eapply frame_trans; [exact Hfr|]. rewrite <- Z.add_assoc.
    eapply frame_trans; apply frame_st8; lia.
Qed.

(** What the linker guarantees about the buffers of the number printers: they
    lie inside the address space and do not overlap, and the two literals are
    in memory, away from the buffers. *)
Definition zero8 : list Z := replicate 8 48.
Definition prefix_0x (need0x : Z) : list Z := if need0x =? 0 then [] else [48; 120].

Record layout_ok (L : StringLayout) : Prop := {
  lo_uint : region uint_m 32;
  lo_hex : region static_hexstr 11;
  lo_t1 : region temp_arry 9;
  lo_t2 : region temp_arry2 9;
  lo_12 : disjoint_blocks temp_arry 9 temp_arry2 9;
  lo_h1 : disjoint_blocks static_hexstr 11 temp_arry 9;
  lo_h2 : disjoint_blocks static_hexstr 11 temp_arry2 9
}.

Record literals_ok (L : StringLayout) (m : mem) : Prop := {
  lit_0x_ok : cstr m lit_hex0x ([48; 120] ++ zero8);
  lit_0_ok : cstr m lit_hex0 zero8
}.

(** [m'] is the same as [m] outside two blocks. *)
Definition frame2 (a n b k : Z) (m m' : mem) : Prop :=
  forall c, (forall i, 0 <= i < n -> u32 (a + i) <> u32 c) ->
            (forall i, 0 <= i < k -> u32 (b + i) <> u32 c) -> ld8 m' c = ld8 m c.

Lemma frame2_l a n b k m m1 m2 : frame2 a n b k m m1 -> frame a n m1 m2 -> frame2 a n b k m m2.
Proof. intros H1 H2 c Ha Hb. by rewrite (H2 c Ha), (H1 c Ha Hb). Qed.
Lemma frame2_r a n b k m m1 m2 : frame2 a n b k m m1 -> frame b k m1 m2 -> frame2 a n b k m m2.
Proof. intros H1 H2 c Ha Hb. by rewrite (H2 c Hb), (H1 c Ha Hb). Qed.

(** A write of part of a block stays in the block. *)
Lemma frame_sub base n m off (l : list Z) :
  0 <= off -> off + length l <= n -> frame base n m (write_bytes m (base + off) l).
Proof.
  intros Ho Hl b Hb. apply frame_write_bytes. intros i Hi.
  replace (base + off + i) with (base + (off + i)) by lia. apply Hb. lia.
Qed.
Lemma frame_sub0 base n m (l : list Z) :
  length l <= n -> frame base n m (write_bytes m base l).
Proof. intros Hl. rewrite <- (Z.add_0_r base) at 2. by apply frame_sub. Qed.

Lemma cstr_pad m a (k : nat) s :
  cstr m (a + k) s -> 0 <= a ->
  cstr (write_bytes m a (replicate k 48)) a (replicate k 48 ++ s).
Proof.
  intros Hc Ha. pose proof (cstr_region _ _ _ Hc) as Hr. unfold region in Hr.
  apply cstr_app_intro; rewrite ?length_replicate; [done|apply Forall_replicate; lia| |].
  - intros i Hi. rewrite ld8_write_bytes_in by (unfold region; rewrite ?length_replicate; lia).
    by rewrite Nat2Z.id, lookup_total_replicate_2 by done.
  - eapply cstr_frame; [exact Hc|apply frame_write_bytes|..];
      unfold region, disjoint_blocks; rewrite length_replicate; lia.
Qed.

Section hex_proofs.
Context {L : StringLayout}.

(** The padding phase: [temp_arry] ends up with the digits right-aligned in
    eight characters. *)
Lemma hex_pad_spec m h (H : layout_ok L) :
  cstr m temp_arry h -> (length h <= 8)%nat ->
  exists m',
hex_pad m = Ret m' tt [] /\
    cstr m' temp_arry (replicate (8 - length h) 48 ++ h) /\
    frame2 temp_arry 9 temp_arry2 9 m m'.
Proof.
  intros Hc Hl. destruct H as [_ _ R1 R2 D12 _ _]. unfold region, disjoint_blocks in *.
  assert (Hsf : (length h < str_fuel)%nat) by (unfold str_fuel; lia).
  unfold hex_pad. run (memset_eq _ _ _ _) by idtac.
  change (Z.to_nat (u32 9)) with 9%nat.
  set (m1 := write_bytes m temp_arry2 _).
  assert (F1 : frame temp_arry2 9 m m1) by (by apply frame_sub0).
  assert (C1 : cstr m1 temp_arry h)
    by (eapply cstr_frame; [exact Hc|exact F1|..]; unfold region, disjoint_blocks; lia).
  run (strcpy_eq m1 temp_arry2 temp_arry h C1 Hsf) by (unfold region, disjoint_blocks; lia).
  set (m2 := write_bytes m1 temp_arry2 _).
  assert (F2 : frame temp_arry2 9 m1 m2)
    by (apply frame_sub0; rewrite length_app; simpl; lia).
  assert (C2 : cstr m2 temp_arry h)
    by (eapply cstr_frame; [exact C1|exact F2|..]; unfold region, disjoint_blocks; lia).
  assert (C2' : cstr m2 temp_arry2 h) by (apply cstr_write; [unfold region; lia|apply Hc]).
  run (strlen_eq _ _ _ C2 Hsf) by idtac.
  run (strcpy_eq m2 (temp_arry + (8 - length h)) temp_arry2 h C2' Hsf)
    by (unfold region, disjoint_blocks; lia).
  set (m3 := write_bytes m2 _ _).
  assert (C3 : cstr m3 (temp_arry + (8 - length h)) h)
    by (apply cstr_write; [unfold region; lia|apply Hc]).
  rewrite memset_loop_eq. eexists. split; [done|].
  replace (Z.to_nat (8 - length h)) with (8 - length h)%nat by lia. split.
  - apply cstr_pad; [|lia]. by replace (Z.of_nat (8 - length h)) with (8 - length h) by lia.
  - eapply frame2_l; [|apply frame_sub0; rewrite length_replicate; lia].
    eapply frame2_l; [|apply frame_sub; rewrite ?length_app; simpl; lia].
    eapply frame2_r; [|exact F2]. eapply frame2_r; [|exact F1]. by intros c.
Qed.

(** Where [num2hexstr] leaves its result, and the memory it does not write. *)
Definition hex_place (need0x a : Z) : Prop :=
  a = static_hexstr \/ (need0x <> 0 /\ a = lit_hex0x) \/ (need0x = 0 /\ a = lit_hex0).
Definition hex_frame (m m' : mem) : Prop :=
  forall c, (forall i, 0 <= i < 11 -> u32 (static_hexstr + i) <> u32 c) ->
    (forall i, 0 <= i < 9 -> u32 (temp_arry + i) <> u32 c) ->
    (forall i, 0 <= i < 9 -> u32 (temp_arry2 + i) <> u32 c) -> ld8 m' c = ld8 m c.

(** [num2hexstr] prints eight hexadecimal digits whose value is the number
    read as unsigned, after "0x" when asked for. *)
Lemma num2hexstr_spec m number need0x :
  layout_ok L -> literals_ok L m ->
  exists m' a s, num2hexstr number need0x m = Ret m' a [] /\
    cstr m' a (prefix_0x need0x ++ s) /\ length s = 8%nat /\
    Forall is_hex s /\ hex_val s = u32 number /\ hex_place need0x a /\ hex_frame m m'.
Proof.
  intros HL HM. unfold num2hexstr, prefix_0x. rewrite i32_u32_zero.
  pose proof (u32_range number) as Hu. destruct (Z.eqb_spec (u32 number) 0) as [E0|E0]; cbn [negb].
  { destruct HM as [M1 M2]. rewrite E0.
    assert (Z8 : Forall is_hex zero8) by (apply Forall_replicate; unfold is_hex; lia).
    destruct (Z.eqb_spec need0x 0); simpl; eexists m, _, zero8; split_and!; try done; unfold hex_place; tauto. }
  pose proof HL as [_ RH R1 R2 D12 DH1 DH2]. unfold region, disjoint_blocks in *.
  rewrite !bind_store8.
  set (ma := st8 (st8 m static_hexstr 48) (static_hexstr + 1) 120).
  run (memset_eq _ _ _ _) by idtac.
  set (mb := write_bytes ma temp_arry _).
  destruct (func_spec 33 temp_arry number mb) as (mc & r & E & Hc & Hf);
    [lia|simpl; lia|unfold region; lia|].
  run E by idtac. clear E.
  set (h := hex_min 33 (u32 number)) in *.
  assert (Hh : (length h <= 8)%nat) by (apply hex_min_length; simpl; lia).
  destruct (hex_pad_spec mc h HL Hc Hh) as (md & E & Hd & Hfd).
  assert (Fd : frame2 temp_arry 9 temp_arry2 9 ma md).
  { assert (frame temp_arry 9 ma mb) as F1 by (by apply frame_sub0).
    intros c Ha Hb. by rewrite (Hfd c Ha Hb), (Hf c Ha), (F1 c Ha). }
  set (s := replicate (8 - length h) 48 ++ h) in *.
  assert (Hs8 : length s = 8%nat) by (unfold s; rewrite length_app, length_replicate; lia).
  assert (Hsf : (length s < str_fuel)%nat) by (rewrite Hs8; unfold str_fuel; lia).
  assert (Hsh : Forall is_hex s).
  { apply Forall_app. split; [apply Forall_replicate; unfold is_hex; lia|apply hex_min_hex; lia]. }
  assert (Hsc : Forall (fun c => 0 < c < 256) s)
    by (eapply Forall_impl; [exact Hsh|apply is_hex_char]).
  assert (Hsv : hex_val s = u32 number).
  { unfold s, hex_val. rewrite foldl_app.
    assert (Z0 : forall k, foldl (fun acc c => 16 * acc + hex_digit_val c) 0 (replicate k 48) = 0)
      by (intros k; induction k; [done|simpl; done]).
    rewrite Z0. apply hex_min_value. simpl. lia. }
  assert (Fma : frame static_hexstr 11 m ma).
  { eapply frame_trans; [|by apply frame_st8]. pose proof (frame_st8 static_hexstr 11 m 0 48 ltac:(lia)) as F0. by rewrite Z.add_0_r in F0. }
  exists (if need0x =? 0 then write_bytes md static_hexstr (s ++ [0])
          else write_bytes md (static_hexstr + 2) (s ++ [0])), static_hexstr, s.
  run E by idtac.
  destruct (need0x =? 0); cbn [negb]; run (strcpy_eq md _ temp_arry s Hd Hsf) by (unfold region, disjoint_blocks; lia);
    (split; [done|]); (split; [|split_and!; [done|done|done|by left|]]).
  - cbn [app]. apply cstr_write; [unfold region; lia|done].
  - intros c H1 H2 H3. assert (F1 : frame static_hexstr 11 md (write_bytes md static_hexstr (s ++ [0])))
      by (apply frame_sub0; rewrite length_app; simpl; lia). by rewrite (F1 c H1), (Fd c H2 H3), (Fma c H1).
  - change (static_hexstr + 2) with (static_hexstr + length [48; 120]).
    apply cstr_app_intro; [lia|repeat constructor; lia| |].
    + intros i Hi. cbn [length] in Hi.
      rewrite ld8_write_bytes_out by (unfold region; rewrite ?length_app; simpl; lia).
      rewrite (Fd (static_hexstr + i)) by (intros j Hj; word_tac).
      unfold ma. rewrite !ld8_st8, !u32_small by lia.
      destruct i as [|[|i]]; [| |lia]; repeat case_decide; simpl; try lia; done.
    + apply cstr_write; [unfold region; simpl; lia|done].
  - intros c H1 H2 H3. assert (F1 : frame static_hexstr 11 md (write_bytes md (static_hexstr + 2) (s ++ [0])))
      by (apply frame_sub; rewrite ?length_app; simpl; lia). by rewrite (F1 c H1), (Fd c H2 H3), (Fma c H1).
Qed.

End hex_proofs.

(** ** Comparison *)

Lemma strcmp_loop_result fuel a b m m' v t :
  strcmp_loop fuel a b m = Ret m' v t -> m' = m /\ t = [] /\ (v = 0 \/ v = 1).
Proof.
  revert a b. induction fuel as [|fuel IH]; intros a b; [done|].
  cbn [strcmp_loop]. rewrite !bind_load8.
  destruct (_ && _); [unfold ret; naive_solver|].
  destruct (i8 (ld8 m a) >? i8 (ld8 m b)); [unfold ret; naive_solver|apply IH].
Qed.

(** Comparing skips a common prefix. *)
Lemma strcmp_loop_prefix (fuel : nat) a b m p :
  (forall i : nat, (i < length p)%nat -> ld8 m (a + i) = p !!! i /\ ld8 m (b + i) = p !!! i) ->
  Forall (fun c => 0 < c < 256) p ->
  strcmp_loop (length p + fuel) a b m = strcmp_loop fuel (a + length p) (b + length p) m.
Proof.
  revert a b. induction p as [|c p IH]; intros a b Hp Hc; [by rewrite !Z.add_0_r|].
  inversion_clear Hc as [|? ? Hc0 Hc']. cbn [length Nat.add strcmp_loop].
  rewrite !bind_load8. destruct (Hp 0%nat ltac:(simpl; lia)) as [Ea Eb].
  rewrite !Z.add_0_r in Ea, Eb. rewrite Ea, Eb. simpl.
  destruct (Z.eqb_spec c 0); [lia|]. cbn [andb].
  assert (N : (i8 c >? i8 c) = false) by (destruct (Z.gtb_spec (i8 c) (i8 c)); [lia|done]).
  rewrite !N, IH; [f_equal; lia| |done].
  intros i Hi. destruct (Hp (S i) ltac:(simpl; lia)) as [Ea' Eb'].
  rewrite <- Z.add_assoc, <- (Z.add_assoc b).
  by replace (1 + i) with (Z.of_nat (S i)) by lia.
Qed.

Lemma strcmp_loop_equal (fuel : nat) m a b s :
  cstr m a s -> cstr m b s -> (length s < fuel)%nat -> strcmp_loop fuel a b m = Ret m 0 [].
Proof.
  intros Ha Hb Hl.
  replace fuel with (length s + S (fuel - length s - 1))%nat by lia.
  rewrite strcmp_loop_prefix; [| |apply Ha].
  - cbn [strcmp_loop]. rewrite !bind_load8, (cstr_nul _ _ _ Ha), (cstr_nul _ _ _ Hb). done.
  - intros i Hi. by rewrite (cstr_bytes _ _ _ Ha), (cstr_bytes _ _ _ Hb).
Qed.

Lemma strcmp_loop_greater (fuel : nat) m a b p x y r1 r2 :
  cstr m a (p ++ x :: r1) -> cstr m b (p ++ y :: r2) ->
  (length p < fuel)%nat -> i8 x > i8 y -> strcmp_loop fuel a b m = Ret m 1 [].
Proof.
  intros Ha Hb Hl Hxy.
  assert (Ea := cstr_bytes _ _ _ Ha). assert (Eb := cstr_bytes _ _ _ Hb).
  setoid_rewrite length_app in Ea. setoid_rewrite length_app in Eb. cbn [length] in Ea, Eb.
  replace fuel with (length p + S (fuel - length p - 1))%nat by lia.
  rewrite strcmp_loop_prefix.
  - cbn [strcmp_loop]. rewrite !bind_load8, Ea, Eb by lia.
    rewrite !list_lookup_total_middle by done.
    pose proof (cstr_chars _ _ _ Ha) as Hc. apply Forall_app in Hc as [_ Hc].
    inversion_clear Hc. destruct (Z.eqb_spec x 0); [lia|]. simpl.
    destruct (Z.gtb_spec (i8 x) (i8 y)); [done|lia].
  - intros i Hi. by rewrite Ea, Eb, !lookup_total_app_l by lia.
  - pose proof (cstr_chars _ _ _ Ha) as Hc. by apply Forall_app in Hc as [Hc _].
Qed.
