(* ===== verification/StringThm.v ===== *)
(** * Properties of the string library

    The theorems of libs/string/string.c, over the model and the lemmas of
    [CString]. *)

From S2P Require Import Prelude Memory CString.

(** A layout of the number printers' buffers and literals, and a memory with
    the two literals in place. *)
Definition small_layout : StringLayout := Build_StringLayout 100 200 300 400 500 600.
Definition small_literals : mem :=
  write_bytes (write_bytes ∅ 500 ([48; 120] ++ zero8 ++ [0])) 600 (zero8 ++ [0]).

Lemma small_layout_ok : layout_ok small_layout.
Proof. split; unfold region, disjoint_blocks; cbn; lia. Qed.

Lemma cstr_check m a s :
  region a (length s + 1) -> Forall (fun c => 0 < c < 256) s ->
  read_bytes m a (length s + 1) = s ++ [0] -> cstr m a s.
Proof.
  intros Hr Hc Hb.
  assert (E : forall i : nat, (i <= length s)%nat -> ld8 m (a + i) = (s ++ [0]) !!! i).
  { intros i Hi. rewrite <- Hb. by rewrite read_bytes_lookup by lia. }
  split; [done|done| |].
  - intros i Hi. rewrite E by lia. by apply lookup_total_app_l.
  - rewrite E by lia. by apply list_lookup_total_middle.
Qed.

Ltac concrete_cstr :=
  apply cstr_check; [unfold region; cbn; lia|repeat constructor; lia|by vm_compute].

Lemma small_literals_ok : literals_ok small_layout small_literals.
Proof. split; concrete_cstr. Qed.

(** ** Numbers *)

(** [uintTostring] returns a NUL-terminated string of one to ten decimal
    digits whose value is the number, without a leading zero unless the number
    is 0; it writes only its own buffer. *)
Theorem uintTostring_prints_decimal (L : StringLayout) m num :
  region uint_m 32 ->
  exists m' s, uintTostring num m = Ret m' uint_m [] /\ cstr m' uint_m s /\
    Forall is_digit s /\ dec_val s = u32 num /\ (1 <= length s <= 10)%nat /\
    (u32 num <> 0 -> head s <> Some 48) /\ frame uint_m 32 m m'.
Proof. apply uintTostring_correct. Qed.

Lemma uintTostring_prints_decimal_witness :
  exists m' s, @uintTostring small_layout 4096 ∅ = Ret m' 100 [] /\ cstr m' 100 s /\
    Forall is_digit s /\ dec_val s = 4096 /\ (1 <= length s <= 10)%nat /\
    (u32 4096 <> 0 -> head s <> Some 48) /\ frame 100 32 ∅ m'.
Proof. apply (uintTostring_prints_decimal small_layout ∅ 4096 (lo_uint _ small_layout_ok)). Defined.

(** C25: [num2hexstr] returns eight hexadecimal digits whose value is the
    number read as unsigned, after "0x" when asked for, negative numbers and 0
    included. *)
Theorem num2hexstr_prints_hex (L : StringLayout) m number need0x :
  layout_ok L -> literals_ok L m ->
  exists m' a s, num2hexstr number need0x m = Ret m' a [] /\
    cstr m' a (prefix_0x need0x ++ s) /\ length s = 8%nat /\
    Forall is_hex s /\ hex_val s = u32 number.
Proof.
  intros HL HM. destruct (num2hexstr_spec m number need0x HL HM) as (m' & a & s & E & C & Ln & X & V & _). by exists m', a, s.
Qed.

Lemma num2hexstr_prints_hex_witness :
  exists m' a s, @num2hexstr small_layout (-1) 1 small_literals = Ret m' a [] /\
    cstr m' a ([48; 120] ++ s) /\ length s = 8%nat /\ Forall is_hex s /\ hex_val s = 4294967295.
Proof. apply (num2hexstr_prints_hex small_layout _ (-1) 1 small_layout_ok small_literals_ok). Defined.

(** ** Strings *)

(** Two strings, "ab" at 1000 and "c" at 2000. *)
Definition two_strings (s1 s2 : list Z) : mem :=
  write_bytes (write_bytes ∅ 1000 (s1 ++ [0])) 2000 (s2 ++ [0]).

Lemma two_strings_ab_c : cstr (two_strings [97; 98] [99]) 1000 [97; 98] /\ cstr (two_strings [97; 98] [99]) 2000 [99].
Proof. split; concrete_cstr. Qed.

(** [strcat] leaves the concatenation of the two strings at the
    destination, returns the destination and writes nothing but the appended
    bytes and the terminator. *)
Theorem strcat_concatenates m dest src s1 s2 :
  cstr m dest s1 -> cstr m src s2 ->
  (length s1 < str_fuel)%nat -> (length s2 < str_fuel)%nat ->
  region dest (length s1 + length s2 + 1) ->
  disjoint_blocks dest (length s1 + length s2 + 1) src (length s2 + 1) ->
  exists m', strcat dest src m = Ret m' dest [] /\ cstr m' dest (s1 ++ s2) /\
    frame (dest + length s1) (length s2 + 1) m m'.
Proof.
  intros H1 H2 L1 L2 Hr Hd. rewrite (strcat_eq m dest src s1 s2) by done.
  eexists. split; [done|]. split; [by apply cstr_append; [| |apply H2]|].
  apply frame_sub0. rewrite length_app. simpl. lia.
Qed.

Lemma strcat_concatenates_witness :
  exists m', strcat 1000 2000 (two_strings [97; 98] [99]) = Ret m' 1000 [] /\
    cstr m' 1000 [97; 98; 99] /\ frame (1000 + 2) (1 + 1) (two_strings [97; 98] [99]) m'.
Proof.
  destruct two_strings_ab_c as [H1 H2].
  apply (strcat_concatenates _ 1000 2000 [97; 98] [99] H1 H2);
    [simpl; unfold str_fuel; lia|simpl; unfold str_fuel; lia
    |unfold region; cbn; lia|unfold disjoint_blocks; cbn; lia].
Defined.

(** [memcpy] of disjoint blocks makes the destination equal to the source
    and changes nothing else; [memset] fills. *)
Theorem memcpy_copies m dest src len :
  0 <= len < 4294967296 ->
  region dest len -> region src len -> disjoint_blocks dest len src len ->
  exists m', memcpy dest src len m = Ret m' tt [] /\
    read_bytes m' dest (Z.to_nat len) = read_bytes m src (Z.to_nat len) /\ frame dest len m m'.
Proof.
  intros Hl Hd Hs Hdis. rewrite memcpy_eq by done. eexists. split; [done|].
  pose proof (length_read_bytes m src (Z.to_nat len)) as El.
  split; [|apply frame_sub0; rewrite El; lia].
  set (l := read_bytes m src (Z.to_nat len)) in *. rewrite <- El.
  apply read_write_bytes; [by rewrite El, Z2Nat.id by lia|]. unfold l.
  apply Forall_lookup. intros i v Hv. pose proof (lookup_lt_Some _ _ _ Hv) as Hi. rewrite length_read_bytes in Hi.
  apply list_lookup_total_correct in Hv. rewrite read_bytes_lookup in Hv by lia. subst. apply ld8_range.
Qed.

Lemma memcpy_copies_witness :
  exists m', memcpy 3000 1000 3 (two_strings [97; 98] [99]) = Ret m' tt [] /\
    read_bytes m' 3000 3 = read_bytes (two_strings [97; 98] [99]) 1000 3 /\
    frame 3000 3 (two_strings [97; 98] [99]) m'.
Proof.
  apply (memcpy_copies _ 3000 1000 3); unfold region, disjoint_blocks; lia.
Defined.

(** [strcmp] on the strings of a memory: equal strings compare 0; a string
    that is greater at the first difference compares 1; and no call ever
    returns -1, the answer for a smaller string: the second test of the loop
    repeats the first. *)
Theorem strcmp_behaviour m a b :
  (forall s, cstr m a s -> cstr m b s -> (length s < str_fuel)%nat -> strcmp a b m = Ret m 0 []) /\
  (forall p x y r1 r2, cstr m a (p ++ x :: r1) -> cstr m b (p ++ y :: r2) ->
     (length p < str_fuel)%nat -> i8 x > i8 y -> strcmp a b m = Ret m 1 []) /\
  (forall m' t, strcmp a b m <> Ret m' (-1) t).
Proof.
  unfold strcmp. generalize str_fuel. intros fuel. split; [|split].
  - intros s Ha Hb Hl. by eapply strcmp_loop_equal.
  - intros p x y r1 r2 Ha Hb Hl Hxy. by eapply strcmp_loop_greater.
  - intros m' t E. apply strcmp_loop_result in E as (_ & _ & [|]); lia.
Qed.

Lemma strcmp_loop_smaller (fuel : nat) m a b s1 s2 :
  cstr m a s1 -> cstr m b s2 -> Forall2 (fun x y => i8 x <= i8 y) s1 s2 ->
  (length s1 < fuel)%nat -> strcmp_loop fuel a b m = Ret m 0 [].
Proof.
  revert a b s1 s2. induction fuel as [|fuel IH]; intros a b s1 s2 H1 H2 Hf Hl; [lia|].
  cbn [strcmp_loop]. rewrite !bind_load8. destruct Hf as [|x y s1 s2 Hxy Hf].
  - pose proof (cstr_nul _ _ _ H1) as E1. pose proof (cstr_nul _ _ _ H2) as E2.
    cbn in E1, E2. rewrite Z.add_0_r in E1, E2. by rewrite E1, E2.
  - apply cstr_cons in H1 as (-> & Hx & H1). apply cstr_cons in H2 as (-> & Hy & H2).
    rewrite (proj2 (Z.eqb_neq x 0)) by lia. cbn [andb].
    destruct (Z.gtb_spec (i8 x) (i8 y)); [lia|]. eapply IH; [done|done|done|]. simpl in Hl. lia.
Qed.

(** [strcmp] answers "equal" for different strings: two strings of the
    same length compare 0 as soon as no character of the first is greater than
    the one of the second at the same place, "a" and "b" for instance. *)
Theorem strcmp_smaller_is_equal m a b s1 s2 :
  cstr m a s1 -> cstr m b s2 -> Forall2 (fun x y => i8 x <= i8 y) s1 s2 ->
  (length s1 < str_fuel)%nat -> strcmp a b m = Ret m 0 [].
Proof. unfold strcmp. generalize str_fuel. intros fuel. apply strcmp_loop_smaller. Qed.

Lemma two_strings_a_b : cstr (two_strings [97] [98]) 1000 [97] /\ cstr (two_strings [97] [98]) 2000 [98].
Proof. split; concrete_cstr. Qed.

Lemma strcmp_smaller_is_equal_witness :
  strcmp 1000 2000 (two_strings [97] [98]) = Ret (two_strings [97] [98]) 0 [].
Proof.
  destruct two_strings_a_b as [H1 H2].
  apply (strcmp_smaller_is_equal _ 1000 2000 [97] [98] H1 H2).
  - repeat constructor. by vm_compute.
  - unfold str_fuel. simpl. lia.
Defined.
