(* ===== verification/Bitmap.v ===== *)
(** * kernel/modules/bitmap/bitmap.c

    A pool of 4 KB pages with one bit per page, most significant bit of the
    first byte first; a set bit is a free page.  The bytes live in the linear
    memory, at [vaddr_header].  The abstract specification is a set of free
    page numbers ([pool_step]), and [bitmap_refines] shows that every operation
    implements it. *)

From S2P Require Import Prelude Memory CString.

Definition PAGE_SIZE : Z := 4096.
Definition BITMAP_RETURN_ERRO : Z := 4294967295.

Record bitmap := {
  vaddr_header : Z;          (* where the bits are *)
  bm_length : Z;                (* how many bytes of bits *)
  target_addr_header : Z     (* the first address managed *)
}.

(** Result of an [int] operation, undefined on signed overflow. *)
Definition int_val {S} (z : Z) : M S Z :=
  if (-2147483648 <=? z) && (z <? 2147483648) then ret z else undef.

Definition bitmap_init_mem (bm : bitmap) : M mem unit :=
  memset (vaddr_header bm) 255 (bm_length bm).

(** Common to the two per-page operations: the end of the managed range, with
    the -1 that keeps it from wrapping to 0. *)
Definition max_addr (bm : bitmap) : Z :=
  u32 (u32 (target_addr_header bm - 1) + u32 (u32 (bm_length bm * 8) * PAGE_SIZE)).

Definition bitmap_alloc_one_page (bm : bitmap) (target : Z) : M mem Z :=
  let target := Z.land target 4294963200 in
  if (target_addr_header bm <=? target) && (target <? max_addr bm) then
    let page_num := u32 (target - target_addr_header bm) / PAGE_SIZE in
    let i := Z.quot page_num 8 in
    let j := Z.rem page_num 8 in
    let byte_mask := u8 (Z.shiftl 1 (7 - j)) in
    target_byte <- load8 (vaddr_header bm + i) ;;
    if target_byte =? Z.lor target_byte byte_mask then
      b <- load8 (vaddr_header bm + i) ;;
      store8 (vaddr_header bm + i) (b - byte_mask) ;;
      ret target
    else ret BITMAP_RETURN_ERRO
  else ret BITMAP_RETURN_ERRO.

Definition bitmap_release_one_page (bm : bitmap) (target : Z) : M mem unit :=
  let target := Z.land target 4294963200 in
  if (target_addr_header bm <=? target) && (target <? max_addr bm) then
    let page_num := u32 (target - target_addr_header bm) / PAGE_SIZE in
    let i := Z.quot page_num 8 in
    let j := Z.rem page_num 8 in
    let byte_mask := u8 (Z.shiftl 1 (7 - j)) in
    b <- load8 (vaddr_header bm + i) ;;
    store8 (vaddr_header bm + i) (Z.lor b byte_mask)
  else ret tt.

(** The scan for the first set bit of a byte: [None] when the loop ends without
    assigning [pos]. *)
Fixpoint find_pos (n : nat) (byte_now j : Z) : option Z :=
  match n with
  | O => None
  | S n' =>
      let temp_byte := Z.land byte_now 127 in
      if negb (byte_now =? temp_byte) then Some j
      else find_pos n' (u8 (Z.shiftl byte_now 1)) (j + 1)
  end.

Fixpoint bitmap_alloc_loop (fuel : nat) (bm : bitmap) (i : Z) : M mem Z :=
  match fuel with
  | O => nofuel
  | S fuel' =>
      if i <? bm_length bm then
        byte_now <- load8 (vaddr_header bm + i) ;;
        if negb (byte_now =? 0) then
          match find_pos 8 byte_now 0 with
          | None => undef
          | Some pos =>
              let byte_sub := u8 (Z.shiftl 1 (7 - pos)) in
              b <- load8 (vaddr_header bm + i) ;;
              store8 (vaddr_header bm + i) (b - byte_sub) ;;
              let page_no := i32 (u32 (i * 8 + pos)) in
              off <- int_val (page_no * PAGE_SIZE) ;;
              ret (u32 (off + target_addr_header bm))
          end
        else bitmap_alloc_loop fuel' bm (i + 1)
      else ret BITMAP_RETURN_ERRO
  end.

Definition bitmap_alloc (bm : bitmap) : M mem Z :=
  bitmap_alloc_loop (S (Z.to_nat (bm_length bm))) bm 0.

(** ** Abstract specification *)

(** Page [p] of the pool is free. *)
Definition is_free (bm : bitmap) (m : mem) (p : Z) : bool :=
  Z.testbit (ld8 m (vaddr_header bm + p / 8)) (7 - p `mod` 8).

Definition pages (bm : bitmap) : Z := 8 * bm_length bm.
Definition page_addr (bm : bitmap) (p : Z) : Z := target_addr_header bm + 4096 * p.

(** The set of free pages. *)
Definition free_set (bm : bitmap) (m : mem) : gset Z :=
  list_to_set (filter (fun p => is_free bm m p = true) (seqZ 0 (pages bm))).

(** A pool the kernel may use: its bytes and the range it manages lie inside
    the address space, and the range is page aligned. *)
Record bitmap_wf (bm : bitmap) : Prop := {
  wf_bytes : region (vaddr_header bm) (bm_length bm);
  wf_nonempty : 1 <= bm_length bm;
  wf_base : 0 <= target_addr_header bm;
  wf_aligned : target_addr_header bm `mod` 4096 = 0;
  wf_range : target_addr_header bm + 32768 * bm_length bm <= 4294967296
}.

Inductive pool_op :=
  | AllocAt (target : Z)
  | Release (target : Z)
  | AllocAny.

(** The page of the pool an address belongs to. *)
Definition page_of (bm : bitmap) (a : Z) : option Z :=
  let p := (a - target_addr_header bm) / 4096 in
  if (0 <=? p) && (p <? pages bm) then Some p else None.

Inductive pool_step (bm : bitmap) : gset Z -> pool_op -> Z -> gset Z -> Prop :=
  | step_alloc_at F a p :
      page_of bm a = Some p -> p ∈ F ->
      pool_step bm F (AllocAt a) (page_addr bm p) (F ∖ {[p]})
  | step_alloc_busy F a p :
      page_of bm a = Some p -> p ∉ F -> pool_step bm F (AllocAt a) BITMAP_RETURN_ERRO F
  | step_alloc_out F a :
      page_of bm a = None -> pool_step bm F (AllocAt a) BITMAP_RETURN_ERRO F
  | step_release F a p :
      page_of bm a = Some p -> pool_step bm F (Release a) 0 ({[p]} ∪ F)
  | step_release_out F a :
      page_of bm a = None -> pool_step bm F (Release a) 0 F
  | step_any F p :
      p ∈ F -> (forall q, q ∈ F -> p <= q) ->
      pool_step bm F AllocAny (page_addr bm p) (F ∖ {[p]})
  | step_any_none :
      pool_step bm ∅ AllocAny BITMAP_RETURN_ERRO ∅.

(** The code of an abstract operation; a release returns nothing, rendered 0. *)
Definition run_op (bm : bitmap) (op : pool_op) : M mem Z :=
  match op with
  | AllocAt a => bitmap_alloc_one_page bm a
  | Release a => bitmap_release_one_page bm a ;; ret 0
  | AllocAny => bitmap_alloc bm
  end.

(** ** Arithmetic of the page bits *)

Lemma max_addr_eq bm :
  bitmap_wf bm -> max_addr bm = target_addr_header bm + 32768 * bm_length bm - 1.
Proof.
  intros [_ Hn Hb _ Hr]. unfold max_addr, PAGE_SIZE.
  rewrite (u32_small (bm_length bm * 8)) by lia.
  unfold u32. rewrite <- Zplus_mod. rewrite Z.mod_small; lia.
Qed.

Definition in_pool (bm : bitmap) (target : Z) : bool :=
  (target_addr_header bm <=? target) && (target <? max_addr bm).

(** The guard of the per-page operations accepts exactly the addresses of the
    pool's pages, and computes the page number. *)
Lemma page_of_spec bm a :
  bitmap_wf bm -> 0 <= a < 4294967296 ->
  match page_of bm a with
  | Some p =>
      in_pool bm (Z.land a 4294963200) = true /\ 0 <= p < pages bm /\
      Z.land a 4294963200 = page_addr bm p /\
      u32 (Z.land a 4294963200 - target_addr_header bm) / PAGE_SIZE = p
  | None => in_pool bm (Z.land a 4294963200) = false
  end.
Proof.
  intros Hwf Ha. unfold in_pool. rewrite max_addr_eq by done.
  destruct Hwf as [_ Hn Hb Hal Hr]. unfold page_of, pages, page_addr, PAGE_SIZE.
  rewrite land_page_mask by done. set (b := target_addr_header bm) in *.
  set (p := (a - b) / 4096).
  assert (E : a - a `mod` 4096 = b + 4096 * p).
  { unfold p. Z.to_euclidean_division_equations. lia. }
  rewrite E. destruct ((0 <=? p) && (p <? 8 * bm_length bm)) eqn:G.
  - apply andb_true_iff in G as [G1 G2]. split_and!; try lia.
    replace (b + 4096 * p - b) with (p * 4096) by lia.
    rewrite u32_small by lia. by rewrite Z.div_mul.
  - apply andb_false_iff in G. apply andb_false_iff. lia.
Qed.

Lemma byte_mask_eq j : 0 <= j < 8 -> u8 (Z.shiftl 1 (7 - j)) = 2 ^ (7 - j).
Proof.
  intros Hj. rewrite Z.shiftl_1_l. apply u8_small.
  split; [apply Z.pow_nonneg; lia|]. apply (Z.pow_lt_mono_r 2 (7 - j) 8); lia.
Qed.

Lemma testbit_u8 v k : 0 <= k < 8 -> Z.testbit (u8 v) k = Z.testbit v k.
Proof. intros Hk. change (u8 v) with (v `mod` 2 ^ 8). apply Z.mod_pow2_bits_low. lia. Qed.

(** Writing one byte of the pool changes the eight pages of that byte. *)
Lemma is_free_st8 bm m p q v :
  bitmap_wf bm -> 0 <= p < pages bm -> 0 <= q < pages bm ->
  is_free bm (st8 m (vaddr_header bm + p / 8) v) q =
    if decide (q / 8 = p / 8) then Z.testbit v (7 - q `mod` 8) else is_free bm m q.
Proof.
  intros [Hby _ _ _ _] Hp Hq. unfold is_free, pages, region in *.
  assert (0 <= p / 8 < bm_length bm /\ 0 <= q / 8 < bm_length bm) by dlia.
  rewrite ld8_st8, !u32_small by lia.
  destruct (decide (q / 8 = p / 8)) as [E|E].
  - rewrite decide_True by lia. apply testbit_u8. dlia.
  - by rewrite decide_False by lia.
Qed.

Lemma page_eq_byte p q : q / 8 = p / 8 -> 7 - q `mod` 8 = 7 - p `mod` 8 -> q = p.
Proof. intros. dlia. Qed.

Lemma elem_of_free_set bm m p :
  p ∈ free_set bm m <-> 0 <= p < pages bm /\ is_free bm m p = true.
Proof.
  unfold free_set. rewrite elem_of_list_to_set, list_elem_of_filter, elem_of_seqZ. naive_solver lia.
Qed.

Lemma find_pos_spec b :
  0 < b < 256 ->
  exists pos, find_pos 8 b 0 = Some pos /\ 0 <= pos < 8 /\
    Z.testbit b (7 - pos) = true /\ forall k, 0 <= k < pos -> Z.testbit b (7 - k) = false.
Proof.
  intros Hb.
  pose (ok := fun b => match find_pos 8 b 0 with
    | Some pos => (0 <=? pos) && (pos <? 8) && Z.testbit b (7 - pos) &&
        forallb (fun k => negb (Z.testbit b (7 - k))) (seqZ 0 pos)
    | None => false end).
  assert (A : forallb ok (seqZ 1 255) = true) by (vm_compute; reflexivity).
  rewrite forallb_forall in A. specialize (A b).
  rewrite <- list_elem_of_In, elem_of_seqZ in A. specialize (A ltac:(lia)).
  unfold ok in A. destruct (find_pos 8 b 0) as [pos|]; [|done].
  exists pos. apply andb_true_iff in A as [A A4]. apply andb_true_iff in A as [A A3].
  apply andb_true_iff in A as [A1 A2]. split_and!; try done; try lia.
  intros k Hk. rewrite forallb_forall in A4. specialize (A4 k).
  rewrite <- list_elem_of_In, elem_of_seqZ in A4. apply negb_true_iff, A4. lia.
Qed.

(** ** The bit updates *)

(** Clearing the bit of a free page takes exactly that page out of the set. *)
Lemma free_set_clear bm m p :
  bitmap_wf bm -> 0 <= p < pages bm -> is_free bm m p = true ->
  free_set bm (st8 m (vaddr_header bm + p / 8)
                 (ld8 m (vaddr_header bm + p / 8) - 2 ^ (7 - p `mod` 8))) =
  free_set bm m ∖ {[p]}.
Proof.
  intros Hwf Hp Hf. apply set_eq. intros q.
  rewrite elem_of_difference, elem_of_singleton, !elem_of_free_set.
  destruct (decide (0 <= q < pages bm)) as [Hq|]; [|naive_solver].
  rewrite is_free_st8 by done. destruct (decide (q / 8 = p / 8)) as [E|E].
  - rewrite sub_pow2_testbit by (done || dlia).
    replace (Z.testbit (ld8 m (vaddr_header bm + p / 8)) (7 - q `mod` 8)) with (is_free bm m q)
      by (unfold is_free; by rewrite E).
    case_bool_decide as B.
    + rewrite andb_false_r. assert (q = p) by (by apply page_eq_byte). naive_solver.
    + rewrite andb_true_r. assert (q <> p) by (intros ->; done). naive_solver.
  - assert (q <> p) by (intros ->; done). naive_solver.
Qed.

Lemma free_set_set bm m p :
  bitmap_wf bm -> 0 <= p < pages bm ->
  free_set bm (st8 m (vaddr_header bm + p / 8)
                 (Z.lor (ld8 m (vaddr_header bm + p / 8)) (2 ^ (7 - p `mod` 8)))) =
  {[p]} ∪ free_set bm m.
Proof.
  intros Hwf Hp. apply set_eq. intros q.
  rewrite elem_of_union, elem_of_singleton, !elem_of_free_set.
  destruct (decide (0 <= q < pages bm)) as [Hq|]; [|naive_solver].
  rewrite is_free_st8 by done. destruct (decide (q / 8 = p / 8)) as [E|E].
  - rewrite Z.lor_spec, testbit_pow2 by dlia.
    replace (Z.testbit (ld8 m (vaddr_header bm + p / 8)) (7 - q `mod` 8)) with (is_free bm m q)
      by (unfold is_free; by rewrite E).
    case_bool_decide as B.
    + rewrite orb_true_r. assert (q = p) by (by apply page_eq_byte). naive_solver.
    + rewrite orb_false_r. assert (q <> p) by (intros ->; done). naive_solver.
  - assert (q <> p) by (intros ->; done). naive_solver.
Qed.

(** The byte a page's bit is in belongs to the pool's bytes. *)
Lemma page_byte bm p : bitmap_wf bm -> 0 <= p < pages bm -> 0 <= p / 8 < bm_length bm.
Proof. unfold pages. intros _ Hp. dlia. Qed.

(** ** The operations *)

Lemma alloc_one_page_eq bm a m :
  bitmap_wf bm -> 0 <= a < 4294967296 ->
  bitmap_alloc_one_page bm a m =
    match page_of bm a with
    | Some p =>
        if is_free bm m p
        then Ret (st8 m (vaddr_header bm + p / 8)
                    (ld8 m (vaddr_header bm + p / 8) - 2 ^ (7 - p `mod` 8))) (page_addr bm p) []
        else Ret m BITMAP_RETURN_ERRO []
    | None => Ret m BITMAP_RETURN_ERRO []
    end.
Proof.
  intros Hwf Ha. pose proof (page_of_spec bm a Hwf Ha) as H.
  unfold bitmap_alloc_one_page. fold (in_pool bm (Z.land a 4294963200)).
  destruct (page_of bm a) as [p|]; [|by rewrite H].
  destruct H as (-> & Hp & Ea & ->). unfold pages in Hp.
  rewrite (Z.quot_div_nonneg p 8), (Z.rem_mod_nonneg p 8) by lia.
  rewrite byte_mask_eq by dlia. rewrite !bind_load8.
  unfold is_free. destruct (Z.testbit _ _) eqn:B.
  - rewrite (proj2 (Z.eqb_eq _ _)) by (apply lor_pow2_id_iff; [dlia|done]).
    by rewrite bind_load8, bind_store8, Ea.
  - rewrite (proj2 (Z.eqb_neq _ _)); [done|].
    rewrite lor_pow2_id_iff by dlia. by rewrite B.
Qed.

Lemma release_one_page_eq bm a m :
  bitmap_wf bm -> 0 <= a < 4294967296 ->
  bitmap_release_one_page bm a m =
    match page_of bm a with
    | Some p =>
        Ret (st8 m (vaddr_header bm + p / 8)
               (Z.lor (ld8 m (vaddr_header bm + p / 8)) (2 ^ (7 - p `mod` 8)))) tt []
    | None => Ret m tt []
    end.
Proof.
  intros Hwf Ha. pose proof (page_of_spec bm a Hwf Ha) as H.
  unfold bitmap_release_one_page. fold (in_pool bm (Z.land a 4294963200)).
  destruct (page_of bm a) as [p|]; [|by rewrite H].
  destruct H as (-> & Hp & Ea & ->). unfold pages in Hp.
  rewrite (Z.quot_div_nonneg p 8), (Z.rem_mod_nonneg p 8) by lia.
  by rewrite byte_mask_eq, bind_load8 by dlia.
Qed.

Lemma byte_zero_not_free bm m i q :
  0 <= i -> ld8 m (vaddr_header bm + i) = 0 -> q / 8 = i -> is_free bm m q = false.
Proof. intros Hi H0 <-. unfold is_free. by rewrite H0, Z.bits_0. Qed.

(** The scan from byte [i] on, when no page of an earlier byte is free: it
    returns the first free page, or fails when there is none. *)
Lemma alloc_loop_spec fuel bm i m :
  bitmap_wf bm -> bm_length bm <= 65536 -> 0 <= i <= bm_length bm ->
  bm_length bm - i < Z.of_nat fuel ->
  (forall q, 0 <= q < 8 * i -> is_free bm m q = false) ->
  (exists p, p ∈ free_set bm m /\ (forall q, q ∈ free_set bm m -> p <= q) /\
     bitmap_alloc_loop fuel bm i m =
       Ret (st8 m (vaddr_header bm + p / 8)
              (ld8 m (vaddr_header bm + p / 8) - 2 ^ (7 - p `mod` 8))) (page_addr bm p) []) \/
  (free_set bm m = ∅ /\ bitmap_alloc_loop fuel bm i m = Ret m BITMAP_RETURN_ERRO []).
Proof.
  intros Hwf Hlen. revert i. induction fuel as [|fuel IH]; intros i Hi Hf Hno; [lia|].
  cbn [bitmap_alloc_loop]. destruct (Z.ltb_spec i (bm_length bm)) as [Hlt|Hge]; cycle 1.
  { right. split; [|done]. apply set_eq. intros q. rewrite elem_of_free_set.
    unfold pages. split; [|set_solver]. intros [Hq Hfr]. rewrite Hno in Hfr by lia. done. }
  rewrite bind_load8. pose proof (ld8_range m (vaddr_header bm + i)) as Hb.
  destruct (Z.eqb_spec (ld8 m (vaddr_header bm + i)) 0) as [E0|E0]; cbn [negb].
  { apply IH; [lia|lia|]. intros q Hq. destruct (decide (q < 8 * i)); [apply Hno; lia|].
    apply byte_zero_not_free with i; [lia|done|dlia]. }
  left. destruct (find_pos_spec (ld8 m (vaddr_header bm + i))) as (pos & -> & Hpos & Hset & Hlow); [lia|].
  set (p := 8 * i + pos). assert (Hp8 : p / 8 = i /\ p `mod` 8 = pos) by (unfold p; dlia).
  destruct Hp8 as [Hp8 Hpm].
  assert (Hfree : is_free bm m p = true) by (unfold is_free; by rewrite Hp8, Hpm).
  exists p. split_and!.
  - apply elem_of_free_set. unfold pages. split; [lia|done].
  - intros q Hq. apply elem_of_free_set in Hq as [Hq Hqf]. destruct (decide (p <= q)); [done|].
    exfalso. destruct (decide (q < 8 * i)); [rewrite Hno in Hqf; [done|lia]|].
    unfold is_free in Hqf. assert (q / 8 = i) as Eq by dlia. rewrite Eq in Hqf.
    rewrite Hlow in Hqf; [done|dlia].
  - rewrite byte_mask_eq by lia. rewrite bind_load8, bind_store8, Hp8, Hpm.
    rewrite u32_small, i32_small by lia.
    unfold int_val, PAGE_SIZE. rewrite (proj2 (Z.leb_le _ _)), (proj2 (Z.ltb_lt _ _)) by lia.
    cbn [andb]. rewrite bind_ret. unfold ret. f_equal.
    destruct Hwf. rewrite u32_small by lia. unfold page_addr, p. lia.
Qed.

(** Everything the pool operations write is inside the pool's bytes. *)
Lemma frame_page bm m p v :
  bitmap_wf bm -> 0 <= p < pages bm ->
  frame (vaddr_header bm) (bm_length bm) m (st8 m (vaddr_header bm + p / 8) v).
Proof. intros Hwf Hp. apply frame_st8. by apply page_byte. Qed.

Lemma page_of_Some bm a p : page_of bm a = Some p -> 0 <= p < pages bm.
Proof. unfold page_of. destruct (_ && _) eqn:G; [|done]. intros [= <-]. lia. Qed.

Definition op_addr (op : pool_op) : Z :=
  match op with AllocAt a | Release a => a | AllocAny => 0 end.

(** Refinement of the abstract pool by the code. *)
Lemma run_op_refines bm op m :
  bitmap_wf bm -> bm_length bm <= 65536 -> 0 <= op_addr op < 4294967296 ->
  exists m' r, run_op bm op m = Ret m' r [] /\
    pool_step bm (free_set bm m) op r (free_set bm m') /\
    frame (vaddr_header bm) (bm_length bm) m m'.
Proof.
  intros Hwf Hlen Ha. destruct op as [a|a|]; cbn [run_op op_addr] in *.
  - rewrite alloc_one_page_eq by done. destruct (page_of bm a) as [p|] eqn:Ep.
    + pose proof (page_of_Some _ _ _ Ep) as Hp. destruct (is_free bm m p) eqn:Hf.
      * eexists _, _. split; [done|]. rewrite free_set_clear by done.
        split; [|by apply frame_page]. constructor; [done|]. by apply elem_of_free_set.
      * eexists _, _. split; [done|]. split; [|done].
        apply step_alloc_busy with p; [done|]. rewrite elem_of_free_set. intros [_ ?]; congruence.
    + eexists _, _. split; [done|]. split; [by apply step_alloc_out|done].
  - unfold bind. rewrite release_one_page_eq by done.
    destruct (page_of bm a) as [p|] eqn:Ep; simpl.
    + pose proof (page_of_Some _ _ _ Ep) as Hp. eexists _, _. split; [done|].
      rewrite free_set_set by done. split; [by constructor|by apply frame_page].
    + eexists _, _. split; [done|]. split; [by apply step_release_out|done].
  - unfold bitmap_alloc.
    destruct (alloc_loop_spec (S (Z.to_nat (bm_length bm))) bm 0 m) as [(p & Hp & Hmin & E)|[HF E]];
      [done|done|destruct Hwf; lia|lia|lia| |].
    + rewrite E. pose proof Hp as Hp'. apply elem_of_free_set in Hp' as [Hp1 Hp2].
      eexists _, _. split; [done|]. rewrite free_set_clear by done.
      split; [by constructor|by apply frame_page].
    + rewrite E. eexists _, _. split; [done|]. rewrite HF. split; [constructor|done].
Qed.

(** ** Sequences of operations *)

Fixpoint run_ops (bm : bitmap) (ops : list pool_op) : M mem (list Z) :=
  match ops with
  | [] => ret []
  | op :: ops' =>
      r <- run_op bm op ;;
      rs <- run_ops bm ops' ;;
      ret (r :: rs)
  end.

Definition is_alloc (op : pool_op) : bool :=
  match op with Release _ => false | _ => true end.
Definition op_ok (op : pool_op) : Prop := 0 <= op_addr op < 4294967296.

Lemma page_addr_inj bm p q : page_addr bm p = page_addr bm q -> p = q.
Proof. unfold page_addr. lia. Qed.

Lemma page_addr_not_erro bm p :
  bitmap_wf bm -> 0 <= p < pages bm -> page_addr bm p <> BITMAP_RETURN_ERRO.
Proof. intros [_ _ Hb _ Hr] Hp. unfold page_addr, pages, BITMAP_RETURN_ERRO in *. lia. Qed.

(** One operation keeps an allocated page allocated unless it releases it, and
    never hands it out. *)
Lemma pool_step_busy bm F op r F' p :
  pool_step bm F op r F' -> p ∉ F -> (forall a, op = Release a -> page_of bm a <> Some p) ->
  p ∉ F' /\ (is_alloc op = true -> r = page_addr bm p -> r = BITMAP_RETURN_ERRO).
Proof.
  intros Hs Hp Hrel. destruct Hs as [F a q Hq Hin|F a q Hq Hin|F a Hq|F a q Hq|F a Hq|F q Hin Hmin|].
  - split; [set_solver|]. intros _ E. apply page_addr_inj in E. by subst.
  - done.
  - done.
  - split; [|done]. specialize (Hrel a eq_refl). rewrite elem_of_union, elem_of_singleton.
    intros [->|?]; done.
  - done.
  - split; [set_solver|]. intros _ E. apply page_addr_inj in E. by subst.
  - done.
Qed.

Lemma run_ops_total bm ops m :
  bitmap_wf bm -> bm_length bm <= 65536 -> Forall op_ok ops ->
  exists m' rs, run_ops bm ops m = Ret m' rs [] /\
    frame (vaddr_header bm) (bm_length bm) m m'.
Proof.
  intros Hwf Hlen. revert m. induction ops as [|op ops IH]; intros m Hok.
  - by exists m, [].
  - inversion_clear Hok as [|? ? H1 H2]. cbn [run_ops].
    destruct (run_op_refines bm op m Hwf Hlen H1) as (m1 & r & E & _ & F1).
    destruct (IH m1 H2) as (m' & rs & E' & F2). rewrite (bind_ret_eq _ _ _ _ _ _ E), prepend_nil.
    rewrite (bind_ret_eq _ _ _ _ _ _ E'). eexists _, _. split; [done|].
    by eapply frame_trans.
Qed.

Lemma run_ops_busy bm ops m m' rs t p :
  bitmap_wf bm -> bm_length bm <= 65536 -> Forall op_ok ops -> 0 <= p < pages bm ->
  p ∉ free_set bm m ->
  (forall a, Release a ∈ ops -> page_of bm a <> Some p) ->
  run_ops bm ops m = Ret m' rs t ->
  p ∉ free_set bm m' /\
  forall i op r, ops !! i = Some op -> rs !! i = Some r -> is_alloc op = true ->
    r <> page_addr bm p.
Proof.
  intros Hwf Hlen Hok Hpr. revert m rs t Hok.
  induction ops as [|op ops IH]; intros m rs t Hok Hp Hrel; cbn [run_ops].
  { intros [= <- <- _]. split; [done|]. intros i ??. by rewrite lookup_nil. }
  inversion_clear Hok as [|? ? H1 H2].
  destruct (run_op_refines bm op m Hwf Hlen H1) as (m1 & r & E & Hst & _).
  rewrite (bind_ret_eq _ _ _ _ _ _ E), prepend_nil.
  intros (m2 & rs2 & t1 & t2 & E2 & Hr2 & _)%bind_inv. injection Hr2 as <- <- <-.
  destruct (pool_step_busy _ _ _ _ _ p Hst Hp) as [Hp1 Hr].
  { intros a ->. apply Hrel. set_solver. }
  destruct (IH m1 rs2 t1 H2 Hp1) as [Hp2 Hrs]; [set_solver|done|].
  split; [done|]. intros [|i] op' r' Ho Hr' Hal; simpl in *; [|by eapply Hrs].
  injection Ho as <-. injection Hr' as <-. intros E3.
  specialize (Hr Hal E3). apply (page_addr_not_erro bm p); [done|done|congruence].
Qed.

(** Releasing a page that was just allocated restores the memory. *)
Lemma alloc_release_same bm a p m :
  bitmap_wf bm -> 0 <= a < 4294967296 -> page_of bm a = Some p -> is_free bm m p = true ->
  exists m1 m2, bitmap_alloc_one_page bm a m = Ret m1 (page_addr bm p) [] /\
    is_free bm m1 p = false /\
    bitmap_release_one_page bm a m1 = Ret m2 tt [] /\ mem_eq m2 m.
Proof.
  intros Hwf Ha Hp Hf. pose proof (page_of_Some _ _ _ Hp) as Hpr.
  eexists _, _. rewrite alloc_one_page_eq, release_one_page_eq, Hp, Hf by done.
  split; [done|]. split.
  - rewrite is_free_st8, decide_True by done.
    rewrite sub_pow2_testbit by (done || dlia).
    rewrite bool_decide_true by done. apply andb_false_r.
  - split; [done|]. rewrite ld8_st8_eq.
    set (b := ld8 m (vaddr_header bm + p / 8)). set (k := 7 - p `mod` 8).
    assert (Hk : 0 <= k < 8) by (unfold k; dlia).
    rewrite st8_st8. apply st8_same. apply Z.bits_inj'. intros j Hj.
    destruct (decide (j < 8)) as [Hj8|Hj8].
    + rewrite testbit_u8, Z.lor_spec, testbit_pow2, testbit_u8, sub_pow2_testbit by (done || lia).
      fold b. case_bool_decide; [subst j|by rewrite andb_true_r, orb_false_r].
      rewrite orb_true_r. symmetry. exact Hf.
    + assert (Hi : forall z, 0 <= z < 256 -> Z.testbit z j = false).
      { intros z Hz. destruct (decide (z = 0)) as [->|]; [apply Z.bits_0|].
        apply Z.bits_above_log2; [lia|]. assert (Z.log2 z < 8) by (apply Z.log2_lt_pow2; lia). lia. }
      by rewrite !Hi by (apply u8_range || apply ld8_range).
Qed.

Lemma init_all_free bm m :
  bitmap_wf bm ->
  exists m', bitmap_init_mem bm m = Ret m' tt [] /\
    (forall p, p ∈ free_set bm m' <-> 0 <= p < pages bm) /\
    frame (vaddr_header bm) (bm_length bm) m m'.
Proof.
  intros Hwf. pose proof Hwf as [Hby Hn Hb Hal Hr]. unfold region in Hby.
  unfold bitmap_init_mem. rewrite memset_eq, u32_small by lia. eexists. split; [done|].
  change (u8 255) with 255. split.
  - intros p. rewrite elem_of_free_set. split; [tauto|]. intros Hp. split; [done|].
    pose proof (page_byte bm p Hwf Hp). unfold is_free.
    rewrite ld8_write_bytes_in by (unfold region; rewrite ?length_replicate; lia).
    rewrite lookup_total_replicate_2 by lia. unfold u8.
    change (255 `mod` 256) with (Z.ones 8). apply Z.ones_spec_low. dlia.
  - apply frame_sub0. rewrite length_replicate. lia.
Qed.

(** ** Properties *)

(** C12: every operation of the page pool, on every branch, implements the
    abstract set of free pages: [bitmap_alloc_one_page] takes exactly the page
    of the address when it is free and fails with BITMAP_RETURN_ERRO when it is
    busy or outside the pool, [bitmap_release_one_page] puts it back,
    [bitmap_alloc] takes the lowest free page and fails only when there is
    none; nothing outside the pool's bytes is written. *)
Theorem bitmap_refines_pool bm op m :
  bitmap_wf bm -> bm_length bm <= 65536 -> op_ok op ->
  exists m' r, run_op bm op m = Ret m' r [] /\
    pool_step bm (free_set bm m) op r (free_set bm m') /\
    frame (vaddr_header bm) (bm_length bm) m m'.
Proof. apply run_op_refines. Qed.

(** a page handed out by the pool is not handed out again by any sequence
    of operations that does not release it. *)
Theorem bitmap_no_double_alloc bm op ops m m' a rs t :
  bitmap_wf bm -> bm_length bm <= 65536 -> op_ok op -> Forall op_ok ops ->
  is_alloc op = true ->
  run_ops bm (op :: ops) m = Ret m' (a :: rs) t -> a <> BITMAP_RETURN_ERRO ->
  exists p, 0 <= p < pages bm /\ a = page_addr bm p /\
    ((forall b, Release b ∈ ops -> page_of bm b <> Some p) ->
     forall i op' r, ops !! i = Some op' -> rs !! i = Some r -> is_alloc op' = true -> r <> a).
Proof.
  intros Hwf Hlen Hop Hops Hal Hrun Ha. cbn [run_ops] in Hrun.
  destruct (run_op_refines bm op m Hwf Hlen Hop) as (m1 & r & E & Hst & _).
  rewrite (bind_ret_eq _ _ _ _ _ _ E), prepend_nil in Hrun.
  apply bind_inv in Hrun as (m2 & rs2 & t1 & t2 & E2 & Hr & _). injection Hr as ? ? ? ?; subst.
  assert (exists p, p ∈ free_set bm m /\ a = page_addr bm p /\ free_set bm m1 = free_set bm m ∖ {[p]})
    as (p & Hp & Hap & HF) by (inversion Hst; subst; naive_solver).
  exists p. apply elem_of_free_set in Hp as [Hp _]. split_and!; [lia|lia|done|].
  intros Hrel. rewrite Hap.
  eapply run_ops_busy in E2 as [_ Hres]; [exact Hres|done|done|done|done|set_solver|done].
Qed.

(** releasing a page that was just allocated restores the pool's memory. *)
Theorem bitmap_alloc_release_roundtrip bm a p m :
  bitmap_wf bm -> 0 <= a < 4294967296 -> page_of bm a = Some p -> is_free bm m p = true ->
  exists m1 m2, bitmap_alloc_one_page bm a m = Ret m1 (page_addr bm p) [] /\
    is_free bm m1 p = false /\
    bitmap_release_one_page bm a m1 = Ret m2 tt [] /\ mem_eq m2 m.
Proof. apply alloc_release_same. Qed.

(** initialisation makes every page of the pool free. *)
Theorem bitmap_init_all_free bm m :
  bitmap_wf bm ->
  exists m', bitmap_init_mem bm m = Ret m' tt [] /\
    (forall p, p ∈ free_set bm m' <-> 0 <= p < pages bm) /\
    frame (vaddr_header bm) (bm_length bm) m m'.
Proof. apply init_all_free. Qed.

(** ** Concrete instances *)

(** Two bytes of bits at 64, sixteen pages from 0x100000, all free. *)
Definition small_pool : bitmap := Build_bitmap 64 2 1048576.
Definition small_pool_mem : mem := st8 (st8 ∅ 64 255) 65 255.

Lemma small_pool_wf : bitmap_wf small_pool.
Proof. split; unfold region; cbn; done || lia. Qed.

Lemma bitmap_refines_pool_witness :
  exists m' r, run_op small_pool AllocAny small_pool_mem = Ret m' r [] /\
    pool_step small_pool (free_set small_pool small_pool_mem) AllocAny r (free_set small_pool m') /\
    frame 64 2 small_pool_mem m'.
Proof.
  apply (bitmap_refines_pool small_pool AllocAny small_pool_mem small_pool_wf);
    [cbn; lia|by vm_compute].
Defined.

Definition small_pool_end : mem :=
  st8 (st8 small_pool_mem 64 127) 64 63.

Lemma bitmap_no_double_alloc_witness :
  exists p, 0 <= p < pages small_pool /\ 1048576 = page_addr small_pool p /\
    ((forall b, Release b ∈ [AllocAny] -> page_of small_pool b <> Some p) ->
     forall i op' r, [AllocAny] !! i = Some op' -> [1052672] !! i = Some r ->
       is_alloc op' = true -> r <> 1048576).
Proof.
  apply (bitmap_no_double_alloc small_pool AllocAny [AllocAny] small_pool_mem
    small_pool_end 1048576 [1052672] []).
  - apply small_pool_wf.
  - cbn; lia.
  - by vm_compute.
  - apply Forall_singleton. by vm_compute.
  - done.
  - by vm_compute.
  - done.
Defined.

Lemma bitmap_alloc_release_roundtrip_witness :
  exists m1 m2, bitmap_alloc_one_page small_pool 1052677 small_pool_mem = Ret m1 1052672 [] /\
    is_free small_pool m1 1 = false /\
    bitmap_release_one_page small_pool 1052677 m1 = Ret m2 tt [] /\ mem_eq m2 small_pool_mem.
Proof.
  apply (bitmap_alloc_release_roundtrip small_pool 1052677 1 small_pool_mem small_pool_wf);
    [lia|by vm_compute|by vm_compute].
Defined.

Lemma bitmap_init_all_free_witness :
  exists m', bitmap_init_mem small_pool ∅ = Ret m' tt [] /\
    (forall p, p ∈ free_set small_pool m' <-> 0 <= p < pages small_pool) /\
    frame 64 2 ∅ m'.
Proof. apply (bitmap_init_all_free small_pool ∅ small_pool_wf). Defined.
