(* ===== verification/KernLog.v ===== *)
(** * kernel/modules/log/kern_log.c: the kernel's log functions

    [warning_kern], [info_kern], [error_kern] and [stop_kern] are called under
    the names WARNING, INFO, ERROR and STOP of include/kern_log.h; the calls of
    the print functions are events, but for that of [info_kern].  The functions
    keep no state, so they run in the state of their caller.

    What the boot sequence calls is written over two classes, as it runs both on
    a component's own state and on the whole machine: [Holds] places a component
    in a state, and [Console] says what a call of [printk] does there - an event
    on the component's state, the real [printk] of printk.c on the machine. *)

From S2P Require Import Prelude.

(** vga_color_t *)
Definition black : Z := 0.
Definition red : Z := 4.
Definition yellow : Z := 14.
Definition white : Z := 15.

(** The state [S] holds a [T]: computations on [T] run inside of [S]. *)
Class Holds (T S : Type) := within : forall A, M T A -> M S A.
Arguments within {T S _ A} c.
#[export] Instance holds_itself S : Holds S S := fun A c => c.

Class Console (S : Type) := print : string -> list parg -> M S unit.
Definition event_console S : Console S := fun fmt args => emit (Printk fmt args).

Section log.
Context {S : Type}.

Definition info_kern `{!Console S} (src text : string) : M S unit :=
  print "[INFO][%s]%s\n" [PStr src; PStr text].

Definition error_kern (src text : string) : M S unit :=
  emit (Printk_color "[ERROR][%s]%s\n" black red [PStr src; PStr text]).

Definition warning_kern (src text : string) : M S unit :=
  emit (Printk_color "[WARNING][%s]%s\n" black yellow [PStr src; PStr text]).

Definition stop_kern {A} (src text : string) : M S A :=
  emit (Printk_color "[STOP][%s]%s\n" white black [PStr src; PStr text]) ;; stop.

Definition debug (func : string -> string -> M S unit) (src text : string) : M S unit :=
  func src text.

Lemma stop_kern_eq {A} src text s :
  @stop_kern A src text s = Stop s [Printk_color "[STOP][%s]%s\n" white black [PStr src; PStr text]].
Proof. done. Qed.

End log.
