(* ===== verification/Tcb.v ===== *)
(** * include/threads.h: the thread control block

    The data shared by the scheduler, the virtual memory manager, the task
    state segment and the synchronisation module. *)

From S2P Require Import Prelude Memory Bitmap.

Definition TCB_MAGIC_NUMBER : Z := 4228719019.

Inductive task_status_t :=
  | TASK_RUNNING
  | TASK_READY
  | TASK_BLOCKED
  | TASK_WAITING
  | TASK_HANGING
  | TASK_DIED.

#[export] Instance task_status_eq_dec : EqDecision task_status_t.
Proof. solve_decision. Defined.

Record context_t := {
  ebp : Z;
  ebx : Z;
  ecx : Z;
  edx : Z;
  esi : Z;
  edi : Z;
  eflags : Z;
  esp : Z
}.

Record TCB_t := {
  kern_stack_top : Z;
  task_status : task_status_t;
  time_counter : Z;
  time_left : Z;
  next_tcb : Z;              (* the field [next], an address *)
  tid : Z;
  page_counte : Z;
  tcb_page_addr : Z;
  is_kern_thread : Z;        (* a bool of types.h: an int *)
  user_vmm_pool : bitmap;
  pdt_vaddr : Z;
  context : context_t;
  tcb_magic_number : Z
}.

(** Field updates. *)
Definition set_status (v : task_status_t) (t : TCB_t) : TCB_t :=
  Build_TCB_t (kern_stack_top t) v (time_counter t) (time_left t) (next_tcb t) (tid t)
    (page_counte t) (tcb_page_addr t) (is_kern_thread t) (user_vmm_pool t) (pdt_vaddr t) (context t)
    (tcb_magic_number t).
Definition set_time_left (v : Z) (t : TCB_t) : TCB_t :=
  Build_TCB_t (kern_stack_top t) (task_status t) (time_counter t) v (next_tcb t) (tid t)
    (page_counte t) (tcb_page_addr t) (is_kern_thread t) (user_vmm_pool t) (pdt_vaddr t) (context t)
    (tcb_magic_number t).
Definition set_time_counter (v : Z) (t : TCB_t) : TCB_t :=
  Build_TCB_t (kern_stack_top t) (task_status t) v (time_left t) (next_tcb t) (tid t)
    (page_counte t) (tcb_page_addr t) (is_kern_thread t) (user_vmm_pool t) (pdt_vaddr t) (context t)
    (tcb_magic_number t).
Definition set_next_tcb (v : Z) (t : TCB_t) : TCB_t :=
  Build_TCB_t (kern_stack_top t) (task_status t) (time_counter t) (time_left t) v (tid t)
    (page_counte t) (tcb_page_addr t) (is_kern_thread t) (user_vmm_pool t) (pdt_vaddr t) (context t)
    (tcb_magic_number t).
Definition set_context (v : context_t) (t : TCB_t) : TCB_t :=
  Build_TCB_t (kern_stack_top t) (task_status t) (time_counter t) (time_left t) (next_tcb t) (tid t)
    (page_counte t) (tcb_page_addr t) (is_kern_thread t) (user_vmm_pool t) (pdt_vaddr t) v
    (tcb_magic_number t).
Definition set_stack_top (v : Z) (t : TCB_t) : TCB_t :=
  Build_TCB_t v (task_status t) (time_counter t) (time_left t) (next_tcb t) (tid t)
    (page_counte t) (tcb_page_addr t) (is_kern_thread t) (user_vmm_pool t) (pdt_vaddr t) (context t)
    (tcb_magic_number t).
