(* ===== verification/Pmm.v ===== *)
(** * kernel/modules/pmm/pmm.c: the physical page allocator

    Free blocks of 2^k pages, 0 <= k <= 10, are kept in one singly linked list
    per class, linked through the descriptors of [page_array]; single pages at
    the end of memory are in a list of their own.  A pointer to a descriptor is
    its index in [page_array], NULL is [None].  Loops over a list get as fuel
    the number of descriptors: running out means the list is cyclic.  A
    [switch] without a matching case leaves [header] uninitialised, and so does
    its case [_erro]: reading it is [Undef].  The abstract lists, the
    refinement and the buddy invariant are in [PmmSpec].

    [page_array] is a store beside the linear memory.  In the kernel it is at
    [page_array_addr], in the memory below 640 KB; the source does not check that
    it ends there, [page_array_fits] says when it does. *)

From S2P Require Import Prelude Memory KernLog.

Definition ERRO_POP_BLOCK : Z := 4294967295.

(** ** page_c_t: the classes *)
Definition _1 : Z := 0.
Definition _2 : Z := 1.
Definition _4 : Z := 2.
Definition _8 : Z := 3.
Definition _16 : Z := 4.
Definition _32 : Z := 5.
Definition _64 : Z := 6.
Definition _128 : Z := 7.
Definition _256 : Z := 8.
Definition _512 : Z := 9.
Definition _1024 : Z := 10.
Definition _erro : Z := 11.

Record pm_page_t := {
  page_no : Z;
  next : option Z;
  pg_state : Z
}.

Record pm_multi_link_t := {
  ml_1 : option Z;
  ml_2 : option Z;
  ml_4 : option Z;
  ml_8 : option Z;
  ml_16 : option Z;
  ml_32 : option Z;
  ml_64 : option Z;
  ml_128 : option Z;
  ml_256 : option Z;
  ml_512 : option Z;
  ml_1024 : option Z
}.

Record pm_alloc_t := {
  addr : Z;
  size : Z;         (* a page_c_t *)
  al_state : Z      (* 1 allocated, 0 failed *)
}.

Record pmm := {
  page_array : gmap Z pm_page_t;
  MULTI_LINK : pm_multi_link_t;
  SINGLE_LINK : option Z;
  pmm_page_start : Z;
  pmm_page_end : Z;
  pmm_max_page_no : Z;
  singel_page_first_no : Z;
  block_count_array : list Z
}.

Definition set_array (f : gmap Z pm_page_t -> gmap Z pm_page_t) (s : pmm) : pmm :=
  Build_pmm (f (page_array s)) (MULTI_LINK s) (SINGLE_LINK s) (pmm_page_start s)
    (pmm_page_end s) (pmm_max_page_no s) (singel_page_first_no s) (block_count_array s).
Definition set_multi (f : pm_multi_link_t -> pm_multi_link_t) (s : pmm) : pmm :=
  Build_pmm (page_array s) (f (MULTI_LINK s)) (SINGLE_LINK s) (pmm_page_start s)
    (pmm_page_end s) (pmm_max_page_no s) (singel_page_first_no s) (block_count_array s).
Definition set_single (v : option Z) (s : pmm) : pmm :=
  Build_pmm (page_array s) (MULTI_LINK s) v (pmm_page_start s)
    (pmm_page_end s) (pmm_max_page_no s) (singel_page_first_no s) (block_count_array s).
Definition set_bounds (st en mx : Z) (s : pmm) : pmm :=
  Build_pmm (page_array s) (MULTI_LINK s) (SINGLE_LINK s) st
    en mx (singel_page_first_no s) (block_count_array s).
Definition set_first (v : Z) (s : pmm) : pmm :=
  Build_pmm (page_array s) (MULTI_LINK s) (SINGLE_LINK s) (pmm_page_start s)
    (pmm_page_end s) (pmm_max_page_no s) v (block_count_array s).
Definition set_counts (v : list Z) (s : pmm) : pmm :=
  Build_pmm (page_array s) (MULTI_LINK s) (SINGLE_LINK s) (pmm_page_start s)
    (pmm_page_end s) (pmm_max_page_no s) (singel_page_first_no s) v.

(** MULTI_LINK->_2^c, and its assignment; no member for other classes. *)
Definition ml_get (c : Z) (ml : pm_multi_link_t) : option (option Z) :=
  match c with
  | 0 => Some (ml_1 ml)
  | 1 => Some (ml_2 ml)
  | 2 => Some (ml_4 ml)
  | 3 => Some (ml_8 ml)
  | 4 => Some (ml_16 ml)
  | 5 => Some (ml_32 ml)
  | 6 => Some (ml_64 ml)
  | 7 => Some (ml_128 ml)
  | 8 => Some (ml_256 ml)
  | 9 => Some (ml_512 ml)
  | 10 => Some (ml_1024 ml)
  | _ => None
  end.

Definition ml_set (c : Z) (v : option Z) (ml : pm_multi_link_t) : pm_multi_link_t :=
  match ml with
  | Build_pm_multi_link_t a b d e f g h i j k l =>
      match c with
      | 0 => Build_pm_multi_link_t v b d e f g h i j k l
      | 1 => Build_pm_multi_link_t a v d e f g h i j k l
      | 2 => Build_pm_multi_link_t a b v e f g h i j k l
      | 3 => Build_pm_multi_link_t a b d v f g h i j k l
      | 4 => Build_pm_multi_link_t a b d e v g h i j k l
      | 5 => Build_pm_multi_link_t a b d e f v h i j k l
      | 6 => Build_pm_multi_link_t a b d e f g v i j k l
      | 7 => Build_pm_multi_link_t a b d e f g h v j k l
      | 8 => Build_pm_multi_link_t a b d e f g h i v k l
      | 9 => Build_pm_multi_link_t a b d e f g h i j v l
      | 10 => Build_pm_multi_link_t a b d e f g h i j k v
      | _ => ml
      end
  end.

(** Accesses to page_array[p]; outside the initialised descriptors they are
    undefined. *)
Definition page_at (p : Z) : M pmm pm_page_t :=
  fun s => match page_array s !! p with Some pg => Ret s pg [] | None => Undef end.
Definition set_next (p : Z) (v : option Z) : M pmm unit :=
  pg <- page_at p ;;
  modify (set_array (insert p (Build_pm_page_t (page_no pg) v (pg_state pg)))).
Definition header_of (c : Z) : M pmm (option Z) :=
  fun s => match ml_get c (MULTI_LINK s) with Some h => Ret s h [] | None => Undef end.
Definition set_header (c : Z) (v : option Z) : M pmm unit := modify (set_multi (ml_set c v)).

(** The initial value of the pointer [page_array]; a descriptor has twelve
    bytes. *)
Definition page_array_addr : Z := 3221225728.
Definition page_array_bytes (mx : Z) : Z := 12 * mx.

(** The array of [mx] descriptors ends below the linear address of 640 KB. *)
Definition page_array_fits (mx : Z) : Prop := page_array_addr + page_array_bytes mx <= 3221880832.

Lemma fits_pages mx : page_array_fits mx <-> mx <= 54592.
Proof. unfold page_array_fits, page_array_bytes, page_array_addr. lia. Qed.

Definition list_fuel (s : pmm) : nat := S (base.size (page_array s)).

(** ** Page numbers and addresses *)
Definition pmm_page_no_to_addr (start page_no : Z) : Z := u32 (u32 (Z.shiftl page_no 12) + start).
Definition addr_to_pmm_page_no (start addr : Z) : Z := Z.shiftr (u32 (addr - start)) 12.
Definition c_to_uint32 (ph : Z) : Z := u32 (Z.shiftl 1 ph).

Definition get_partner_page_no (page_no type : Z) : Z :=
  let v1 := c_to_uint32 type in
  let v2 := u32 (2 * v1) in
  if u32 (page_no - v1) `mod` v2 =? 0 then u32 (page_no - v1) else u32 (page_no + v1).

(** ** The lists *)

(** [for(;(probe->next)!=NULL;probe = probe->next);] *)
Fixpoint walk_last (fuel : nat) (probe : Z) : M pmm Z :=
  match fuel with
  | O => nofuel
  | S fuel' =>
      pg <- page_at probe ;;
      match next pg with
      | None => ret probe
      | Some q => walk_last fuel' q
      end
  end.

(** [for(;probe->next->next!=NULL;probe = probe->next);] *)
Fixpoint walk_before_last (fuel : nat) (probe : Z) : M pmm Z :=
  match fuel with
  | O => nofuel
  | S fuel' =>
      pg <- page_at probe ;;
      match next pg with
      | None => undef
      | Some q =>
          pq <- page_at q ;;
          match next pq with
          | None => ret probe
          | Some _ => walk_before_last fuel' q
          end
      end
  end.

Definition append_block (page_no c : Z) : M pmm unit :=
  let page_no := i32 page_no in
  set_next page_no None ;;
  header <- header_of c ;;
  match header with
  | None => set_header c (Some page_no)
  | Some h =>
      fuel <- gets list_fuel ;;
      probe <- walk_last fuel h ;;
      set_next probe (Some page_no)
  end.

(** The tail of [pop_block] and of the single-page allocation: unlink the last
    element of a list of at least two. *)
Definition unlink_last (header : Z) : M pmm Z :=
  fuel <- gets list_fuel ;;
  probe <- walk_before_last fuel header ;;
  pg <- page_at probe ;;
  match next pg with
  | None => undef
  | Some q =>
      pq <- page_at q ;;
      set_next probe None ;;
      ret (page_no pq)
  end.

Definition pop_block (c : Z) : M pmm Z :=
  if c =? _erro then ret ERRO_POP_BLOCK
  else
    header <- header_of c ;;
    match header with
    | None => ret ERRO_POP_BLOCK
    | Some h =>
        pg <- page_at h ;;
        match next pg with
        | None => set_header c None ;; ret (page_no pg)
        | Some _ => unlink_last h
        end
    end.

(** The search loop of [find_and_pop_block]: [None] when the target was found
    after a probe and unlinked, otherwise the last probe. *)
Fixpoint find_loop (fuel : nat) (target probe : Z) : M pmm (option Z) :=
  match fuel with
  | O => nofuel
  | S fuel' =>
      pg <- page_at probe ;;
      match next pg with
      | None => ret (Some probe)
      | Some q =>
          pq <- page_at q ;;
          if page_no pq =? target then set_next probe (next pq) ;; ret None
          else find_loop fuel' target q
      end
  end.

Definition find_and_pop_block (target_page_no ph : Z) : M pmm Z :=
  if ph =? _erro then ret ERRO_POP_BLOCK
  else
    header <- header_of ph ;;
    match header with
    | None => ret ERRO_POP_BLOCK
    | Some h =>
        pg <- page_at h ;;
        if bool_decide (next pg = None) && (page_no pg =? target_page_no) then
          pop_block ph ;; ret target_page_no
        else
          fuel <- gets list_fuel ;;
          probe <- find_loop fuel target_page_no h ;;
          match probe with
          | None => ret target_page_no
          | Some p =>
              pp <- page_at p ;;
              if page_no pp =? target_page_no then pop_block ph ;; ret target_page_no
              else ret ERRO_POP_BLOCK
          end
    end.

(** ** Initialisation *)

(** The fields of multiboot_t and pm_entry_t that are read (byte offsets of the
    packed structs of include/boot_struct.h). *)
Definition mb_mmap_length (mboot : Z) : M mem Z := load32 (mboot + 44).
Definition mb_mmap_addr (mboot : Z) : M mem Z := load32 (mboot + 48).
Definition pm_entry_size : Z := 24.

Section map.
Context {S : Type} {HM : Holds mem S} {CO : Console S}.

Fixpoint max_pm_loop (fuel : nat) (cur limit max_addr : Z) : M S Z :=
  match fuel with
  | O => nofuel
  | Datatypes.S fuel' =>
      if cur <? limit then
        base_low <- within (load32 (cur + 4)) ;;
        length_low <- within (load32 (cur + 12)) ;;
        type <- within (load32 (cur + 20)) ;;
        let top := u32 (base_low + length_low) in
        print "[INFO][PMM]physic_mem_block:0x%h-0x%h-0x%h-%d\n"
          [PInt base_low; PInt length_low; PInt top; PInt type] ;;
        max_pm_loop fuel' (cur + pm_entry_size) limit
          (if (type =? 1) && (max_addr <? top) then top else max_addr)
      else ret max_addr
  end.

Definition get_max_pm_addr (mboot_ptr : Z) : M S Z :=
  a <- within (mb_mmap_addr mboot_ptr) ;;
  l <- within (mb_mmap_length mboot_ptr) ;;
  max_pm_loop (Datatypes.S (Z.to_nat (l / pm_entry_size + 1))) a (u32 (a + l)) 0.
End map.

Fixpoint init_pages (n : nat) (i : Z) : M pmm unit :=
  match n with
  | O => ret tt
  | S n' =>
      modify (set_array (insert i (Build_pm_page_t i None 1))) ;;
      init_pages n' (i + 1)
  end.

Fixpoint append_1024_loop (fuel : nat) (temp_page_no : Z) : M pmm Z :=
  match fuel with
  | O => nofuel
  | S fuel' =>
      mx <- gets pmm_max_page_no ;;
      if u32 temp_page_no <? u32 (mx - 1024) then
        append_block temp_page_no _1024 ;;
        append_1024_loop fuel' (temp_page_no + 1024)
      else ret temp_page_no
  end.

Fixpoint single_loop (fuel : nat) (temp_page_no : Z) (temp_single_probe : option Z) : M pmm unit :=
  match fuel with
  | O => nofuel
  | S fuel' =>
      mx <- gets pmm_max_page_no ;;
      if u32 temp_page_no <? mx then
        sl <- gets SINGLE_LINK ;;
        match sl, temp_single_probe with
        | None, _ =>
            modify (set_single (Some temp_page_no)) ;;
            single_loop fuel' (temp_page_no + 1) (Some temp_page_no)
        | Some _, None => undef
        | Some _, Some p =>
            set_next p (Some temp_page_no) ;;
            single_loop fuel' (temp_page_no + 1) (Some temp_page_no)
        end
      else ret tt
  end.

Definition no_links : pm_multi_link_t :=
  Build_pm_multi_link_t None None None None None None None None None None None.

(** [pmm_page_init] up to its [printk]; the result is the first single page. *)
Definition fill_lists : M pmm Z :=
  modify (set_multi (fun _ => no_links)) ;;
  mx <- gets pmm_max_page_no ;;
  init_pages (Z.to_nat mx) 0 ;;
  append_block 0 _1 ;;
  append_block 1 _1 ;;
  append_block 2 _2 ;;
  append_block 4 _4 ;;
  append_block 8 _8 ;;
  append_block 16 _16 ;;
  append_block 32 _32 ;;
  append_block 64 _64 ;;
  append_block 128 _128 ;;
  append_block 256 _256 ;;
  append_block 512 _512 ;;
  append_block 1024 _1024 ;;
  temp_page_no <- append_1024_loop (S (Z.to_nat mx)) 2048 ;;
  modify (set_first temp_page_no) ;;
  ret temp_page_no.

Section init.
Context {S : Type} {HM : Holds mem S} {HP : Holds pmm S} {CO : Console S}.

Definition pmm_page_init : M S unit :=
  temp_page_no <- within fill_lists ;;
  mx <- within (gets pmm_max_page_no) ;;
  print "[INFO][PMM]single_page_count:%d\n" [PInt (u32 (mx - temp_page_no))] ;;
  within (single_loop (Datatypes.S (Z.to_nat mx)) temp_page_no None).

(** pmm_init; [kern_start], [kern_end] are the addresses of the linker's
    symbols and [mboot_ptr] the value boot.s stored. *)
Definition pmm_init (kern_start kern_end mboot_ptr : Z) : M S unit :=
  print "[INFO][PMM]kern_physic_start:0x%h\n" [PInt kern_start] ;;
  print "[INFO][PMM]kern_physic_end:0x%h\n" [PInt kern_end] ;;
  let st := u32 (Z.shiftl (Z.shiftr kern_end 12 + 1) 12) in
  top <- get_max_pm_addr mboot_ptr ;;
  let en := Z.shiftl (Z.shiftr top 12) 12 in
  let mx := Z.shiftr (u32 (en - st)) 12 in
  within (modify (set_bounds st en mx)) ;;
  print "[INFO][PMM]pmm_start:0x%h\n" [PInt st] ;;
  print "[INFO][PMM]pmm_end:0x%h\n" [PInt en] ;;
  print "[INFO][PMM]physic_page_count:%d\n" [PInt (u32 (mx + 1))] ;;
  print "[INFO][PMM]first_page_physic_addr:0x%h\n" [PInt (pmm_page_no_to_addr st 32000)] ;;
  pmm_page_init.
End init.

(** On the allocator's own state the calls of [printk] are events. *)
#[export] Instance pmm_console : Console pmm := event_console pmm.
#[export] Instance mem_console : Console mem := event_console mem.

(** ** Allocation *)

(** The split loop, with the class argument the source passes:
    [append_block(append_page_no,pop_page_no-1)]. *)
Fixpoint alloc_helper (fuel : nat) (target_ph pop_ph pop_page_no : Z) : M pmm Z :=
  match fuel with
  | O => nofuel
  | S fuel' =>
      if pop_ph =? target_ph then ret pop_page_no
      else
        let append_page_no := u32 (pop_page_no + c_to_uint32 pop_ph / 2) in
        append_block append_page_no (u32 (pop_page_no - 1)) ;;
        alloc_helper fuel' target_ph (pop_ph - 1) pop_page_no
  end.

(** [for(;page_count_probe!=0 ;counter1++,page_count_probe=page_count_probe>>1);] *)
Fixpoint count_bits (fuel : nat) (probe counter1 : Z) : Z :=
  match fuel with
  | O => counter1
  | S fuel' => if probe =? 0 then counter1 else count_bits fuel' (Z.shiftr probe 1) (counter1 + 1)
  end.

Definition class_of (page_count : Z) : Z :=
  let counter1 := count_bits 32 page_count 0 in
  let counter2 := counter1 - 1 in
  if page_count =? Z.shiftl 1 counter2 then counter1 - 1 else counter1.

(** [for(;ph<_erro;ph++)]: the class that had a block and the block, or
    [_erro] and ERRO_POP_BLOCK. *)
Fixpoint pop_loop (fuel : nat) (ph pop_page_no : Z) : M pmm (Z * Z) :=
  match fuel with
  | O => nofuel
  | S fuel' =>
      if ph <? _erro then
        p <- pop_block ph ;;
        if negb (p =? ERRO_POP_BLOCK) then ret (ph, p) else pop_loop fuel' (ph + 1) p
      else ret (ph, pop_page_no)
  end.

Definition alloc_failed : pm_alloc_t := Build_pm_alloc_t 0 _erro 0.

Definition pmm_alloc_pages (page_count : Z) : M pmm pm_alloc_t :=
  if (page_count >? 1024) || (page_count =? 0) then ret alloc_failed
  else
    let origin_ph := class_of page_count in
    r <- pop_loop 12 origin_ph ERRO_POP_BLOCK ;;
    if r.2 =? ERRO_POP_BLOCK then ret alloc_failed
    else
      target_page_no <- alloc_helper 12 origin_ph r.1 r.2 ;;
      start <- gets pmm_page_start ;;
      ret (Build_pm_alloc_t (pmm_page_no_to_addr start target_page_no) origin_ph 1).

Definition pmm_alloc_one_page : M pmm pm_alloc_t :=
  sl <- gets SINGLE_LINK ;;
  match sl with
  | Some header =>
      start <- gets pmm_page_start ;;
      pg <- page_at header ;;
      match next pg with
      | None =>
          modify (set_single None) ;;
          ret (Build_pm_alloc_t (pmm_page_no_to_addr start (page_no pg)) _1 1)
      | Some _ =>
          p <- unlink_last header ;;
          ret (Build_pm_alloc_t (pmm_page_no_to_addr start p) _1 1)
      end
  | None => pmm_alloc_pages 1
  end.

(** ** Release *)

Fixpoint free_helper (fuel : nat) (page_no size : Z) : M pmm unit :=
  match fuel with
  | O => nofuel
  | S fuel' =>
      emit (Printk "free size : %d\n" [PInt (c_to_uint32 size)]) ;;
      let partner_page_no := get_partner_page_no page_no size in
      r <- find_and_pop_block partner_page_no size ;;
      if negb (r =? ERRO_POP_BLOCK) then
        free_helper fuel' (if partner_page_no <? page_no then partner_page_no else page_no) (size + 1)
      else append_block page_no size
  end.

Definition pmm_free_page (block_disc : pm_alloc_t) : M pmm bool :=
  start <- gets pmm_page_start ;;
  mx <- gets pmm_max_page_no ;;
  first <- gets singel_page_first_no ;;
  let page_no := addr_to_pmm_page_no start (addr block_disc) in
  if page_no <? mx then
    (if page_no <? first then free_helper 13 page_no (size block_disc)
     else
       sl <- gets SINGLE_LINK ;;
       match sl with
       | None => modify (set_single (Some page_no))
       | Some h =>
           fuel <- gets list_fuel ;;
           probe <- walk_last fuel h ;;
           set_next probe (Some page_no)
       end) ;;
    ret true
  else ret false.

(** ** Counters *)

Fixpoint count_loop (fuel : nat) (probe : option Z) (counter : Z) : M pmm Z :=
  match probe with
  | None => ret counter
  | Some p =>
      match fuel with
      | O => nofuel
      | S fuel' => pg <- page_at p ;; count_loop fuel' (next pg) (u32 (counter + 1))
      end
  end.

Definition counte_helper (probe : option Z) : M pmm Z :=
  fuel <- gets list_fuel ;; count_loop fuel probe 0.

Definition count_class (c : Z) : M pmm unit :=
  h <- header_of c ;;
  n <- counte_helper h ;;
  modify (fun s => set_counts (<[Z.to_nat c := n]> (block_count_array s)) s).

Definition get_block_count : M pmm unit :=
  count_class _1 ;; count_class _2 ;; count_class _4 ;; count_class _8 ;;
  count_class _16 ;; count_class _32 ;; count_class _64 ;; count_class _128 ;;
  count_class _256 ;; count_class _512 ;; count_class _1024 ;;
  modify (fun s => set_counts (<[Z.to_nat _erro := 0]> (block_count_array s)) s).

Definition get_single_count : M pmm Z :=
  sl <- gets SINGLE_LINK ;; counte_helper sl.

Definition MACRO_PMM_1 (fmt : string) (c : Z) : M pmm unit :=
  cnt <- gets block_count_array ;;
  match cnt !! Z.to_nat c with
  | None => undef
  | Some n => emit (Printk fmt [PInt n])
  end.

Definition pmm_show_page_count : M pmm unit :=
  get_block_count ;;
  emit (Printk "Partner:\n" []) ;;
  MACRO_PMM_1 "_1:%d blocks\n" _1 ;;
  MACRO_PMM_1 "_2:%d blocks\n" _2 ;;
  MACRO_PMM_1 "_4:%d blocks\n" _4 ;;
  MACRO_PMM_1 "_8:%d blocks\n" _8 ;;
  MACRO_PMM_1 "_16:%d blocks\n" _16 ;;
  MACRO_PMM_1 "_32:%d blocks\n" _32 ;;
  MACRO_PMM_1 "_64:%d blocks\n" _64 ;;
  MACRO_PMM_1 "_128:%d blocks\n" _128 ;;
  MACRO_PMM_1 "_256:%d blocks\n" _256 ;;
  MACRO_PMM_1 "_512:%d blocks\n" _512 ;;
  MACRO_PMM_1 "_1024:%d blocks\n" _1024 ;;
  n <- get_single_count ;;
  emit (Printk "singel buffer have:%d pages!\n" [PInt n]).

(** The state before [pmm_page_init] on a machine with [mx] pages. *)
Definition pmm_boot (start mx : Z) : pmm :=
  Build_pmm ∅ no_links None start (start + 4096 * mx) mx 0 (replicate 12 0).
