(* ===== verification/PmmSpec.v ===== *)
(** * The free lists of the page allocator, abstractly

    [rep s ls] relates the descriptor array and the twelve list heads of
    [Pmm.pmm] (the eleven classes, then the single pages) to twelve lists of
    page numbers.  Every list operation of the code is a function on these
    lists; on related states it terminates without undefined behaviour. *)

From S2P Require Import Prelude Memory Pmm.

(** ** Linked lists in the descriptor array *)

Fixpoint linked (arr : gmap Z pm_page_t) (h : option Z) (l : list Z) : Prop :=
  match l with
  | [] => h = None
  | p :: l' => h = Some p /\ exists pg, arr !! p = Some pg /\ linked arr (next pg) l'
  end.

Lemma linked_ext arr arr' h l :
  (forall q, q ∈ l -> arr' !! q = arr !! q) -> linked arr h l -> linked arr' h l.
Proof.
  revert h. induction l as [|p l IH]; intros h He; simpl; [done|].
  intros (-> & pg & Hp & Hl). split; [done|]. exists pg.
  rewrite He by set_solver. split; [done|]. apply IH; [set_solver|done].
Qed.

Lemma linked_insert_ne arr h l p pg : p ∉ l -> linked arr h l -> linked (<[p:=pg]> arr) h l.
Proof. intros Hp. apply linked_ext. intros q Hq. apply lookup_insert_ne. set_solver. Qed.

Lemma linked_elem arr h l p : linked arr h l -> p ∈ l -> is_Some (arr !! p).
Proof.
  revert h. induction l as [|q l IH]; intros h; [set_solver|].
  intros (-> & pg & Hq & Hl) [->|Hp]%elem_of_cons; [by exists pg|by eapply IH].
Qed.

Lemma linked_length arr h l : linked arr h l -> NoDup l -> (length l <= base.size arr)%nat.
Proof.
  intros Hl Hn. rewrite <- size_dom.
  rewrite <- (size_list_to_set (C := gset Z) l) by done.
  apply subseteq_size. intros p Hp. apply elem_of_dom.
  eapply linked_elem; [done|]. set_solver.
Qed.

Lemma linked_last arr h l z :
  linked arr h (l ++ [z]) -> exists pg, arr !! z = Some pg /\ next pg = None.
Proof.
  revert h. induction l as [|q l IH]; intros h; simpl.
  - intros (_ & pg & Hz & Hn). by exists pg.
  - intros (_ & pg & _ & Hl). by eapply IH.
Qed.

(** Appending an element whose own pointer is NULL. *)
Lemma linked_snoc arr h l z p pgz pgp :
  linked arr h (l ++ [z]) -> NoDup (l ++ [z]) -> p ∉ l ++ [z] ->
  arr !! z = Some pgz -> arr !! p = Some pgp -> next pgp = None ->
  linked (<[z := Build_pm_page_t (page_no pgz) (Some p) (pg_state pgz)]> arr) h ((l ++ [z]) ++ [p]).
Proof.
  intros Hl Hn Hp Hz Hpp Hpn. rewrite <- app_assoc. simpl.
  revert h Hl. induction l as [|q l IH]; intros h; simpl in *.
  - intros (-> & pg & _ & _). split; [done|]. eexists. split; [apply lookup_insert_eq|].
    simpl. split; [done|]. exists pgp. rewrite lookup_insert_ne by set_solver. done.
  - intros (-> & pg & Hq & Hl). split; [done|]. exists pg.
    apply NoDup_cons in Hn as [Hnq Hn]. rewrite lookup_insert_ne by set_solver.
    split; [done|]. apply IH; [done|set_solver|done].
Qed.

(** Unlinking the element after [y]. *)
Lemma linked_unlink arr h l y t l' pgy pgt :
  linked arr h (l ++ y :: t :: l') -> NoDup (l ++ y :: t :: l') ->
  arr !! y = Some pgy -> arr !! t = Some pgt ->
  linked (<[y := Build_pm_page_t (page_no pgy) (next pgt) (pg_state pgy)]> arr) h (l ++ y :: l').
Proof.
  intros Hl Hn Hy Ht. revert h Hl. induction l as [|q l IH]; intros h; simpl in *.
  - intros (-> & pg & Hy' & Ht' & pg' & Ht'' & Hl). split; [done|].
    eexists. split; [apply lookup_insert_eq|]. simpl.
    rewrite Ht in Ht''. injection Ht'' as <-.
    apply linked_insert_ne; [|done]. apply NoDup_cons in Hn as [Hn _]. set_solver.
  - intros (-> & pg & Hq & Hl). split; [done|]. exists pg.
    apply NoDup_cons in Hn as [Hnq Hn]. rewrite lookup_insert_ne by set_solver.
    split; [done|]. by apply IH.
Qed.

(** ** The list heads *)

Definition roots (s : pmm) : list (option Z) :=
  let ml := MULTI_LINK s in
  [ml_1 ml; ml_2 ml; ml_4 ml; ml_8 ml; ml_16 ml; ml_32 ml; ml_64 ml; ml_128 ml;
   ml_256 ml; ml_512 ml; ml_1024 ml; SINGLE_LINK s].

Definition is_class (k : nat) : Prop := (k <= 10)%nat.

Lemma is_class_cases k : is_class k -> In k (seq 0 11).
Proof. unfold is_class. rewrite in_seq. lia. Qed.

(** One goal per class. *)
Ltac case_class H :=
  apply is_class_cases in H; simpl in H; repeat destruct H as [<-|H]; [..|done].

Lemma header_of_eq s (k : nat) :
  is_class k -> exists h, roots s !! k = Some h /\ header_of k s = Ret s h [].
Proof. intros H. case_class H; (eexists; split; reflexivity). Qed.

Lemma roots_set_header s (k : nat) v :
  is_class k -> roots (set_multi (ml_set k v) s) = <[k := v]> (roots s).
Proof. intros H. destruct s as [? [] ? ? ? ? ? ?]. case_class H; reflexivity. Qed.

Lemma roots_set_single s v : roots (set_single v s) = <[11%nat := v]> (roots s).
Proof. reflexivity. Qed.

Lemma roots_set_array s f : roots (set_array f s) = roots s.
Proof. reflexivity. Qed.

(** ** The representation *)

Definition arr_ok (arr : gmap Z pm_page_t) (mx : Z) : Prop :=
  (forall p pg, arr !! p = Some pg -> page_no pg = p) /\
  (forall p, is_Some (arr !! p) <-> 0 <= p < mx).

Record rep (s : pmm) (ls : list (list Z)) : Prop := {
  rep_links : Forall2 (linked (page_array s)) (roots s) ls;
  rep_nodup : NoDup (concat ls);
  rep_array : arr_ok (page_array s) (pmm_max_page_no s);
  rep_max : pmm_max_page_no s <= 1048576
}.

(** What the list operations leave alone. *)
Definition cfg (s : pmm) : Z * Z * Z * Z * list Z :=
  (pmm_page_start s, pmm_page_end s, pmm_max_page_no s, singel_page_first_no s, block_count_array s).

Lemma arr_ok_insert arr mx p pg v st :
  arr_ok arr mx -> arr !! p = Some pg ->
  arr_ok (<[p := Build_pm_page_t (page_no pg) v st]> arr) mx.
Proof.
  intros [H1 H2] Hp. split.
  - intros q pq. rewrite lookup_insert. case_decide as E; [|by apply H1].
    subst q. intros [= <-]. simpl. by apply H1.
  - intros q. rewrite lookup_insert. case_decide as E; [|by apply H2].
    subst q. rewrite <- H2. rewrite Hp. split; by eexists.
Qed.

Lemma rep_length s ls : rep s ls -> length ls = 12%nat.
Proof. intros [H _ _ _]. apply Forall2_length in H. done. Qed.

Lemma rep_root s ls k l :
  rep s ls -> ls !! k = Some l -> exists h, roots s !! k = Some h /\ linked (page_array s) h l.
Proof. intros [H _ _ _] Hk. by eapply Forall2_lookup_r in H. Qed.

(** The elements of the lists other than number [k]. *)
Definition rest (k : nat) (ls : list (list Z)) : list Z := concat (<[k := []]> ls).

Lemma concat_insert_perm (ls : list (list Z)) k l :
  (k < length ls)%nat -> concat (<[k := l]> ls) ≡ₚ l ++ rest k ls.
Proof.
  unfold rest. revert k. induction ls as [|l0 ls IH]; intros k Hk; simpl in *; [lia|].
  destruct k as [|k]; simpl; [done|]. rewrite IH by lia.
  by rewrite !app_assoc, (Permutation_app_comm l0 l).
Qed.

Lemma concat_perm (ls : list (list Z)) k l :
  ls !! k = Some l -> concat ls ≡ₚ l ++ rest k ls.
Proof.
  intros H. rewrite <- (list_insert_id ls k l H) at 1. apply concat_insert_perm.
  by eapply lookup_lt_Some.
Qed.

Lemma rest_insert k l ls : rest k (<[k := l]> ls) = rest k ls.
Proof. unfold rest. by rewrite list_insert_insert_eq. Qed.

Lemma elem_of_rest (ls : list (list Z)) k j l p :
  ls !! j = Some l -> j <> k -> p ∈ l -> p ∈ rest k ls.
Proof.
  intros Hj Hne Hp. unfold rest. apply list_elem_of_In, in_concat. exists l. split; [|by apply list_elem_of_In]. apply list_elem_of_In.
  apply list_elem_of_lookup. exists j. by rewrite list_lookup_insert_ne.
Qed.

(** Replacing one list, with changes of descriptors that are in no other. *)
Lemma rep_set s s' ls k h' l' :
  rep s ls -> (k < 12)%nat ->
  roots s' = <[k := h']> (roots s) -> linked (page_array s') h' l' ->
  (forall q, q ∈ rest k ls -> page_array s' !! q = page_array s !! q) ->
  arr_ok (page_array s') (pmm_max_page_no s') -> cfg s' = cfg s ->
  NoDup (l' ++ rest k ls) -> rep s' (<[k := l']> ls).
Proof.
  intros Hr Hk Hroots Hl Hother Harr Hcfg Hnd. pose proof (rep_length _ _ Hr) as Hlen.
  split.
  - rewrite Hroots. apply Forall2_same_length_lookup. split.
    + rewrite !length_insert, Hlen. done.
    + intros j h l Hh Hlj. destruct (decide (j = k)) as [->|Hne].
      * rewrite list_lookup_insert_eq in Hh by (simpl; lia).
        rewrite list_lookup_insert_eq in Hlj by lia. by injection Hh as <-; injection Hlj as <-.
      * rewrite list_lookup_insert_ne in Hh by done. rewrite list_lookup_insert_ne in Hlj by done.
        apply (linked_ext (page_array s)).
        -- intros q Hq. apply Hother. by eapply elem_of_rest.
        -- pose proof (rep_links _ _ Hr) as HF. by eapply Forall2_lookup_lr.
  - by rewrite concat_insert_perm by lia.
  - done.
  - unfold cfg in Hcfg. destruct Hr. by simplify_eq/=; congruence.
Qed.

(** ** The loops over a list *)

Lemma page_at_eq s p pg : page_array s !! p = Some pg -> page_at p s = Ret s pg [].
Proof. intros H. unfold page_at. by rewrite H. Qed.

Lemma set_next_eq s p v pg :
  page_array s !! p = Some pg ->
  set_next p v s = Ret (set_array (insert p (Build_pm_page_t (page_no pg) v (pg_state pg))) s) tt [].
Proof. intros H. unfold set_next. run (page_at_eq _ _ _ H) by idtac. done. Qed.

Lemma walk_last_eq fuel s h l z :
  linked (page_array s) (Some h) (l ++ [z]) -> (length l < fuel)%nat ->
  walk_last fuel h s = Ret s z [].
Proof.
  revert h l. induction fuel as [|fuel IH]; intros h l Hl Hf; [lia|].
  destruct l as [|q l]; simpl in Hl.
  - destruct Hl as ([= ->] & pg & Hz & Hn). cbn [walk_last].
    run (page_at_eq _ _ _ Hz) by idtac. by rewrite Hn.
  - destruct Hl as ([= ->] & pg & Hq & Hl). cbn [walk_last].
    run (page_at_eq _ _ _ Hq) by idtac.
    destruct (next pg) as [q'|]; [apply (IH _ l); [done|simpl in Hf; lia]|].
    by destruct l; destruct Hl.
Qed.

Lemma walk_before_last_eq fuel s h l y z :
  linked (page_array s) (Some h) (l ++ [y; z]) -> (length l < fuel)%nat ->
  walk_before_last fuel h s = Ret s y [].
Proof.
  revert h l. induction fuel as [|fuel IH]; intros h l Hl Hf; [lia|].
  destruct l as [|q l]; simpl in Hl.
  - destruct Hl as ([= ->] & pg & Hy & Hz & pz & Hpz & Hn). cbn [walk_before_last].
    run (page_at_eq _ _ _ Hy) by idtac. rewrite Hz. run (page_at_eq _ _ _ Hpz) by idtac.
    by rewrite Hn.
  - destruct Hl as ([= ->] & pg & Hq & Hl). cbn [walk_before_last].
    run (page_at_eq _ _ _ Hq) by idtac.
    destruct (next pg) as [q'|] eqn:En; [|by destruct l; destruct Hl].
    assert (Hq' : exists pq, page_array s !! q' = Some pq /\ next pq <> None).
    { destruct l as [|q2 l]; simpl in Hl.
      - destruct Hl as ([= ->] & pq & Hq2 & Hz & _). exists pq. rewrite Hz. done.
      - destruct Hl as ([= ->] & pq & Hq2 & Hl). exists pq. split; [done|].
        intros E. rewrite E in Hl. by destruct l; destruct Hl. }
    destruct Hq' as (pq & Hpq & Hne). run (page_at_eq _ _ _ Hpq) by idtac.
    destruct (next pq); [|done]. apply (IH _ l); [done|simpl in Hf; lia].
Qed.

(** The search: the target is an element after the first, or it is not found. *)
Lemma find_loop_found fuel s h l y t l' :
  linked (page_array s) (Some h) (l ++ y :: t :: l') -> arr_ok (page_array s) (pmm_max_page_no s) ->
  (length l < fuel)%nat -> t ∉ l ++ [y] ->
  exists pgy pgt, page_array s !! y = Some pgy /\ page_array s !! t = Some pgt /\
    find_loop fuel t h s =
      Ret (set_array (insert y (Build_pm_page_t (page_no pgy) (next pgt) (pg_state pgy))) s) None [].
Proof.
  intros Hl Ha. revert h l Hl. induction fuel as [|fuel IH]; intros h l Hl Hf Ht; [lia|].
  destruct l as [|q l]; simpl in Hl.
  - destruct Hl as ([= ->] & pg & Hy & Hz & pt & Hpt & Hn). exists pg, pt.
    split; [done|]. split; [done|]. cbn [find_loop].
    run (page_at_eq _ _ _ Hy) by idtac. rewrite Hz. run (page_at_eq _ _ _ Hpt) by idtac.
    rewrite (proj1 Ha _ _ Hpt), Z.eqb_refl. run (set_next_eq _ _ _ _ Hy) by idtac. done.
  - destruct Hl as ([= ->] & pg & Hq & Hl). cbn [find_loop].
    destruct (next pg) as [q'|] eqn:En; [|by destruct l; destruct Hl].
    destruct (IH q' l Hl) as (pgy & pgt & Hy & Ht' & E); [simpl in Hf; lia|set_solver|].
    exists pgy, pgt. split; [done|]. split; [done|].
    run (page_at_eq _ _ _ Hq) by idtac. rewrite En.
    assert (Hq' : exists pq, page_array s !! q' = Some pq /\ q' <> t).
    { destruct l as [|q2 l]; simpl in Hl.
      - destruct Hl as ([= ->] & pq & Hq2 & _). exists pq. split; [done|set_solver].
      - destruct Hl as ([= ->] & pq & Hq2 & _). exists pq. split; [done|set_solver]. }
    destruct Hq' as (pq & Hpq & Hne). run (page_at_eq _ _ _ Hpq) by idtac.
    rewrite (proj1 Ha _ _ Hpq). by rewrite (proj2 (Z.eqb_neq _ _) Hne).
Qed.

Lemma find_loop_missing fuel s h l z t :
  linked (page_array s) (Some h) (l ++ [z]) -> arr_ok (page_array s) (pmm_max_page_no s) ->
  (length l < fuel)%nat -> t ∉ tail (l ++ [z]) ->
  find_loop fuel t h s = Ret s (Some z) [].
Proof.
  intros Hl Ha. revert h l Hl. induction fuel as [|fuel IH]; intros h l Hl Hf Ht; [lia|].
  destruct l as [|q l]; simpl in Hl.
  - destruct Hl as ([= ->] & pg & Hz & Hn). cbn [find_loop].
    run (page_at_eq _ _ _ Hz) by idtac. by rewrite Hn.
  - destruct Hl as ([= ->] & pg & Hq & Hl). cbn [find_loop].
    run (page_at_eq _ _ _ Hq) by idtac.
    destruct (next pg) as [q'|] eqn:En; [|by destruct l; destruct Hl].
    assert (Hq' : exists pq, page_array s !! q' = Some pq /\ q' <> t).
    { destruct l as [|q2 l]; simpl in Hl, Ht.
      - destruct Hl as ([= ->] & pq & Hq2 & _). exists pq. split; [done|set_solver].
      - destruct Hl as ([= ->] & pq & Hq2 & _). exists pq. split; [done|set_solver]. }
    destruct Hq' as (pq & Hpq & Hne). run (page_at_eq _ _ _ Hpq) by idtac.
    rewrite (proj1 Ha _ _ Hpq), (proj2 (Z.eqb_neq _ _) Hne).
    apply (IH _ l); [done|simpl in Hf; lia|].
    simpl in Ht. destruct l; simpl in *; set_solver.
Qed.

(** ** The list operations on the abstract lists *)

Definition list_at (ls : list (list Z)) (k : nat) : list Z := default [] (ls !! k).
Definition append_spec (k : nat) (p : Z) (ls : list (list Z)) : list (list Z) :=
  <[k := list_at ls k ++ [p]]> ls.

(** [find_and_pop_block]: a one-element list is emptied when the target is its
    element; in a longer list only the elements after the first are found. *)
Definition take_out (t : Z) (l : list Z) : option (list Z) :=
  match l with
  | [] => None
  | [h] => if h =? t then Some [] else None
  | h :: l' => if bool_decide (t ∈ l') then Some (h :: filter (fun x : Z => x <> t) l') else None
  end.

Lemma rep_list_at s ls k :
  rep s ls -> (k < 12)%nat ->
  ls !! k = Some (list_at ls k) /\
  exists h, roots s !! k = Some h /\ linked (page_array s) h (list_at ls k) /\
    (length (list_at ls k) < list_fuel s)%nat.
Proof.
  intros Hr Hk. pose proof (rep_length _ _ Hr).
  destruct (lookup_lt_is_Some_2 ls k) as [l Hl]; [lia|].
  unfold list_at. rewrite Hl. split; [done|].
  destruct (rep_root _ _ _ _ Hr Hl) as (h & Hh & Hlk). exists h. split; [done|]. split; [done|].
  unfold list_fuel. simpl. apply Nat.lt_succ_r. eapply linked_length; [done|].
  pose proof (rep_nodup _ _ Hr) as Hn. rewrite (concat_perm _ _ _ Hl) in Hn.
  by apply NoDup_app in Hn as [Hn _].
Qed.

Lemma rep_nodup_split s ls k :
  rep s ls -> (k < 12)%nat -> NoDup (list_at ls k ++ rest k ls).
Proof.
  intros Hr Hk. destruct (rep_list_at _ _ _ Hr Hk) as [Hl _].
  rewrite <- (concat_perm _ _ _ Hl). apply Hr.
Qed.

Lemma not_in_concat s ls k p :
  rep s ls -> (k < 12)%nat -> p ∉ concat ls -> p ∉ list_at ls k /\ p ∉ rest k ls.
Proof.
  intros Hr Hk Hp. destruct (rep_list_at _ _ _ Hr Hk) as [Hl _].
  rewrite (concat_perm _ _ _ Hl), elem_of_app in Hp. tauto.
Qed.

(** ** Changes of one list *)


Lemma rep_ext s s' ls :
  rep s ls -> roots s' = roots s ->
  (forall q, q ∈ concat ls -> page_array s' !! q = page_array s !! q) ->
  arr_ok (page_array s') (pmm_max_page_no s') -> cfg s' = cfg s -> rep s' ls.
Proof.
  intros Hr Hroots Hq Ha Hc. destruct (rep_list_at s ls 0 Hr ltac:(lia)) as (Hk & h & Hh & Hl & _).
  rewrite <- (list_insert_id ls 0 _ Hk).
  assert (Hq' : forall q, q ∈ list_at ls 0 ++ rest 0 ls -> page_array s' !! q = page_array s !! q).
  { intros q Hin. apply Hq. by rewrite (concat_perm _ _ _ Hk). }
  clear Hq. rename Hq' into Hq.
  eapply (rep_set s s' ls 0 h); [done|lia| | | |done|done|].
  - by rewrite Hroots, list_insert_id.
  - apply (linked_ext (page_array s)); [|done]. intros q Hin. apply Hq. set_solver.
  - intros q Hin. apply Hq. set_solver.
  - apply (rep_nodup_split s); [done|lia].
Qed.

Lemma rep_touch s ls p pg v st :
  rep s ls -> p ∉ concat ls -> page_array s !! p = Some pg ->
  rep (set_array (insert p (Build_pm_page_t (page_no pg) v st)) s) ls.
Proof.
  intros Hr Hp Hpg. apply (rep_ext s); [done|done| | |done].
  - intros q Hq. apply lookup_insert_ne. intros ->. done.
  - apply arr_ok_insert; [apply Hr|done].
Qed.

Lemma NoDup_snoc (l r : list Z) p : NoDup (l ++ r) -> p ∉ l -> p ∉ r -> NoDup ((l ++ [p]) ++ r).
Proof.
  intros Hn Hl Hr. rewrite <- app_assoc. simpl. rewrite <- Permutation_middle.
  apply NoDup_cons. split; [set_solver|done].
Qed.

(** An element becomes the only one of an empty list. *)
Lemma rep_link_first s s' ls k p pg :
  rep s ls -> (k < 12)%nat -> list_at ls k = [] -> p ∉ concat ls ->
  page_array s !! p = Some pg -> next pg = None ->
  roots s' = <[k := Some p]> (roots s) -> page_array s' = page_array s -> cfg s' = cfg s ->
  rep s' (append_spec k p ls).
Proof.
  intros Hr Hk Hnil Hp Hpg Hn Hroots Harr Hcfg. unfold append_spec. rewrite Hnil.
  destruct (not_in_concat _ _ _ _ Hr Hk Hp) as [_ Hp2].
  apply (rep_set s s' ls k (Some p)); try done.
  - simpl. split; [done|]. exists pg. by rewrite Harr.
  - intros q _. by rewrite Harr.
  - rewrite Harr. assert (Em : pmm_max_page_no s' = pmm_max_page_no s)
      by (unfold cfg in Hcfg; congruence). rewrite Em. apply Hr.
  - pose proof (rep_nodup_split _ _ _ Hr Hk) as H. rewrite Hnil in H.
    by apply (NoDup_snoc []); [|set_solver|].
Qed.

(** An element is linked after the last one. *)
Lemma rep_link_last s ls k l z p pg pgz :
  rep s ls -> (k < 12)%nat -> list_at ls k = l ++ [z] -> p ∉ concat ls ->
  page_array s !! p = Some pg -> next pg = None -> page_array s !! z = Some pgz ->
  rep (set_array (insert z (Build_pm_page_t (page_no pgz) (Some p) (pg_state pgz))) s)
    (append_spec k p ls).
Proof.
  intros Hr Hk Hl Hp Hpg Hn Hz. unfold append_spec.
  destruct (not_in_concat _ _ _ _ Hr Hk Hp) as [Hp1 Hp2].
  destruct (rep_list_at _ _ _ Hr Hk) as (Hls & h & Hh & Hlk & _).
  pose proof (rep_nodup_split _ _ _ Hr Hk) as Hnd.
  apply (rep_set s _ ls k h); try done.
  - by rewrite roots_set_array, list_insert_id.
  - rewrite Hl in *. apply NoDup_app in Hnd as [Hnd _]. eapply linked_snoc; done.
  - intros q Hq. apply lookup_insert_ne. rewrite Hl in Hnd. intros ->.
    apply NoDup_app in Hnd as (_ & Hnd & _). apply (Hnd q); [set_solver|done].
  - apply arr_ok_insert; [apply Hr|done].
  - by apply NoDup_snoc.
Qed.

(** The last element of a list of at least two is unlinked. *)
Lemma unlink_last_rep s ls k l y z h :
  rep s ls -> (k < 12)%nat -> list_at ls k = l ++ [y; z] -> roots s !! k = Some (Some h) ->
  exists s', unlink_last h s = Ret s' z [] /\ rep s' (<[k := l ++ [y]]> ls) /\ cfg s' = cfg s /\
    page_array s' !! z = page_array s !! z /\
    (forall q, q ∉ list_at ls k -> page_array s' !! q = page_array s !! q).
Proof.
  intros Hr Hk Hl Hh.
  destruct (rep_list_at _ _ _ Hr Hk) as (Hls & h' & Hh' & Hlk & Hf).
  rewrite Hh in Hh'. injection Hh' as <-. pose proof (rep_nodup_split _ _ _ Hr Hk) as Hnd.
  pose proof Hnd as Hnd'. rewrite Hl in Hlk, Hf, Hnd'. rewrite length_app in Hf. simpl in Hf.
  pose proof Hlk as Hlk'. replace (l ++ [y; z]) with ((l ++ [y]) ++ [z]) in Hlk' by (by rewrite <- app_assoc).
  destruct (linked_last _ _ _ _ Hlk') as (pgz & Hz & Hzn).
  destruct (linked_elem _ _ _ y Hlk ltac:(set_solver)) as [pgy Hy].
  assert (Hyz : next pgy = Some z).
  { clear -Hlk Hy. revert Hlk. generalize (Some h). induction l as [|q l IH]; intros h' Hlk; simpl in Hlk.
    - destruct Hlk as (_ & pg & Hy' & Hz' & _). congruence.
    - destruct Hlk as (_ & pg & _ & Hlk). by eapply IH. }
  assert (Hne : y <> z).
  { intros ->. apply NoDup_app in Hnd' as [Hnd' _]. apply NoDup_app in Hnd' as (_ & _ & Hnd').
    apply NoDup_cons in Hnd' as [Hnd' _]. set_solver. }
  unfold unlink_last. rewrite bind_gets.
  run (walk_before_last_eq _ _ _ l y z Hlk) by lia.
  run (page_at_eq _ _ _ Hy) by idtac. rewrite Hyz. run (page_at_eq _ _ _ Hz) by idtac.
  run (set_next_eq _ _ None _ Hy) by idtac. eexists. split; [unfold ret; by rewrite (proj1 (rep_array _ _ Hr) _ _ Hz)|].
  split; [|split; [done|split]].
  - eapply (rep_set s _ ls k (Some h)); [done|done| | | | |done|].
    + by rewrite roots_set_array, list_insert_id.
    + rewrite <- Hzn. eapply (linked_unlink _ _ l y z []); [done| |done|done].
      by apply NoDup_app in Hnd' as [Hnd' _].
    + intros q Hq. apply lookup_insert_ne. intros ->.
      apply NoDup_app in Hnd' as (_ & Hd & _). apply (Hd q); [set_solver|done].
    + apply arr_ok_insert; [apply Hr|done].
    + replace (l ++ [y; z]) with ((l ++ [y]) ++ [z]) in Hnd' by (by rewrite <- app_assoc).
      rewrite <- app_assoc in Hnd'. simpl in Hnd'. rewrite <- Permutation_middle in Hnd'.
      by apply NoDup_cons in Hnd' as [_ Hnd'].
  - by apply lookup_insert_ne.
  - intros q Hq. apply lookup_insert_ne. rewrite Hl in Hq. set_solver.
Qed.

(** ** The list operations of the code *)

Lemma present s ls p : rep s ls -> 0 <= p < pmm_max_page_no s -> is_Some (page_array s !! p).
Proof. intros Hr Hp. by apply (proj2 (rep_array _ _ Hr)). Qed.

Lemma concat_range s ls p : rep s ls -> p ∈ concat ls -> 0 <= p < pmm_max_page_no s.
Proof.
  intros Hr Hp. apply list_elem_of_In, in_concat in Hp as (l & Hl & Hp).
  apply list_elem_of_In in Hl, Hp. apply list_elem_of_lookup in Hl as [k Hl].
  destruct (rep_root _ _ _ _ Hr Hl) as (h & _ & Hlk).
  apply (proj2 (rep_array _ _ Hr)). by eapply linked_elem.
Qed.

(** [append_block] puts a page that is in no list at the end of its class. *)
Lemma append_block_rep s ls (k : nat) p :
  rep s ls -> is_class k -> 0 <= p < pmm_max_page_no s -> p ∉ concat ls ->
  exists s', append_block p k s = Ret s' tt [] /\ rep s' (append_spec k p ls) /\ cfg s' = cfg s /\
    (forall q, q <> p -> q ∉ list_at ls k -> page_array s' !! q = page_array s !! q).
Proof.
  intros Hr Hk Hp Hnin. assert (Hk12 : (k < 12)%nat) by (unfold is_class in Hk; lia).
  destruct (present _ _ _ Hr Hp) as [pg Hpg]. pose proof (rep_max _ _ Hr) as Hmax.
  unfold append_block. rewrite i32_small by lia.
  run (set_next_eq _ _ None _ Hpg) by idtac.
  set (s1 := set_array _ s).
  assert (Hr1 : rep s1 ls) by (by apply rep_touch).
  assert (Hpg1 : page_array s1 !! p = Some (Build_pm_page_t (page_no pg) None (pg_state pg)))
    by apply lookup_insert_eq.
  destruct (header_of_eq s1 k Hk) as (h & Hh & E). run E by idtac.
  destruct (rep_list_at _ _ _ Hr1 Hk12) as (_ & h' & Hh' & Hlk & Hf).
  rewrite Hh in Hh'. injection Hh' as <-.
  destruct h as [h|].
  - destruct (list_at ls k) as [|x l] eqn:El; [by simpl in Hlk|].
    destruct (exists_last (l := x :: l)) as (l0 & z & Ez); [done|]. rewrite Ez in *.
    rewrite bind_gets. rewrite length_app in Hf. simpl in Hf.
    run (walk_last_eq _ _ _ _ _ Hlk) by lia.
    destruct (linked_last _ _ _ _ Hlk) as (pgz & Hz & _).
    rewrite (set_next_eq _ _ _ _ Hz). eexists. split; [done|]. split; [|split; [done|]].
    + by apply (rep_link_last s1 ls k l0 z p _ pgz Hr1 Hk12 El Hnin Hpg1).
    + intros q Hq1 Hq2. simpl. rewrite !lookup_insert_ne by set_solver. done.
  - destruct (list_at ls k) as [|x l] eqn:El; [|by destruct Hlk].
    eexists. split; [done|]. split; [|split; [done|]].
    + apply (rep_link_first s1 _ ls k p _ Hr1 Hk12 El Hnin Hpg1); try done.
      by apply roots_set_header.
    + intros q Hq1 _. simpl. by rewrite lookup_insert_ne.
Qed.

(** [pop_block] takes the last block of the class. *)
Lemma pop_block_nil s ls (k : nat) :
  rep s ls -> is_class k -> list_at ls k = [] -> pop_block k s = Ret s ERRO_POP_BLOCK [].
Proof.
  intros Hr Hk Hl. assert (Hk12 : (k < 12)%nat) by (unfold is_class in Hk; lia).
  unfold pop_block, _erro. rewrite (proj2 (Z.eqb_neq _ _)) by (unfold is_class in Hk; lia).
  destruct (header_of_eq s k Hk) as (h & Hh & E). run E by idtac.
  destruct (rep_list_at _ _ _ Hr Hk12) as (_ & h' & Hh' & Hlk & _).
  rewrite Hh in Hh'. injection Hh' as <-. rewrite Hl in Hlk. by rewrite Hlk.
Qed.

Lemma pop_block_rep s ls (k : nat) l z :
  rep s ls -> is_class k -> list_at ls k = l ++ [z] ->
  exists s', pop_block k s = Ret s' z [] /\ rep s' (<[k := l]> ls) /\ cfg s' = cfg s /\
    (forall q, q ∉ list_at ls k -> page_array s' !! q = page_array s !! q).
Proof.
  intros Hr Hk Hl. assert (Hk12 : (k < 12)%nat) by (unfold is_class in Hk; lia).
  unfold pop_block, _erro. rewrite (proj2 (Z.eqb_neq _ _)) by (unfold is_class in Hk; lia).
  destruct (header_of_eq s k Hk) as (h & Hh & E). run E by idtac.
  destruct (rep_list_at _ _ _ Hr Hk12) as (Hls & h' & Hh' & Hlk & _).
  rewrite Hh in Hh'. injection Hh' as <-.
  destruct l as [|x l].
  - rewrite Hl in Hlk. destruct Hlk as (-> & pg & Hz & Hn).
    run (page_at_eq _ _ _ Hz) by idtac. rewrite Hn. simpl in Hn.
    unfold set_header. rewrite bind_modify. eexists.
    split; [unfold ret; by rewrite (proj1 (rep_array _ _ Hr) _ _ Hz)|]. split; [|done].
    apply (rep_set s _ ls k None); try done.
    + by apply roots_set_header.
    + apply Hr.
    + pose proof (rep_nodup_split _ _ _ Hr Hk12) as Hnd. rewrite Hl in Hnd.
      by apply NoDup_app in Hnd as (_ & _ & Hnd).
  - destruct (exists_last (l := x :: l)) as (l0 & y & Ey); [done|]. rewrite Ey in *.
    rewrite <- app_assoc in Hl. simpl in Hl.
    destruct h as [h|]; [|rewrite Hl in Hlk; by destruct l0; destruct Hlk].
    destruct (unlink_last_rep s ls k l0 y z h Hr Hk12 Hl Hh) as (s' & Eu & Hr' & Hc & _ & Hother).
    assert (Hhd : exists pg, page_array s !! h = Some pg /\ next pg <> None).
    { rewrite Hl in Hlk. destruct l0 as [|q l0]; simpl in Hlk.
      - destruct Hlk as ([= ->] & pg & Hq & Hz & _). exists pg. by rewrite Hz.
      - destruct Hlk as ([= ->] & pg & Hq & Hlk). exists pg. split; [done|]. intros En.
        rewrite En in Hlk. by destruct l0; destruct Hlk. }
    destruct Hhd as (pg & Hpg & Hne). run (page_at_eq _ _ _ Hpg) by idtac.
    destruct (next pg); [|done]. eauto 10.
Qed.

(** [find_and_pop_block] is [take_out]. *)
Lemma find_and_pop_none s ls (k : nat) t :
  rep s ls -> is_class k -> take_out t (list_at ls k) = None ->
  find_and_pop_block t k s = Ret s ERRO_POP_BLOCK [].
Proof.
  intros Hr Hk Ht. assert (Hk12 : (k < 12)%nat) by (unfold is_class in Hk; lia).
  unfold find_and_pop_block, _erro. rewrite (proj2 (Z.eqb_neq _ _)) by (unfold is_class in Hk; lia).
  destruct (header_of_eq s k Hk) as (h & Hh & E). run E by idtac.
  destruct (rep_list_at _ _ _ Hr Hk12) as (Hls & h' & Hh' & Hlk & Hf).
  rewrite Hh in Hh'. injection Hh' as <-.
  destruct (list_at ls k) as [|x l] eqn:El; [by simpl in Hlk; subst|].
  pose proof Hlk as (-> & pg & Hpg & Hl).
  run (page_at_eq _ _ _ Hpg) by idtac. rewrite (proj1 (rep_array _ _ Hr) _ _ Hpg).
  assert (Hx : bool_decide (next pg = None) && (x =? t) = false).
  { case_bool_decide as En; [|done]. rewrite En in Hl. destruct l; [|by destruct Hl].
    simpl in Ht. by destruct (x =? t). }
  rewrite Hx. rewrite bind_gets.
  destruct (exists_last (l := x :: l)) as (l0 & z & Ez); [done|].
  assert (Htl : t ∉ tail (l0 ++ [z])).
  { rewrite <- Ez. simpl. destruct l as [|y l]; [set_solver|]. simpl in Ht.
    destruct (bool_decide (t ∈ y :: l)) eqn:B; [done|]. by apply bool_decide_eq_false in B. }
  rewrite Ez in Hlk, Hf. rewrite length_app in Hf. simpl in Hf.
  run (find_loop_missing _ _ _ _ _ t Hlk (rep_array _ _ Hr)) by (done || lia).
  destruct (linked_last _ _ _ _ Hlk) as (pgz & Hz & _).
  run (page_at_eq _ _ _ Hz) by idtac. rewrite (proj1 (rep_array _ _ Hr) _ _ Hz).
  assert (Hzt : z <> t).
  { intros ->. destruct l0 as [|y l0]; simpl in *.
    - injection Ez as -> ->. simpl in Ht. by rewrite Z.eqb_refl in Ht.
    - set_solver. }
  by rewrite (proj2 (Z.eqb_neq _ _) Hzt).
Qed.

(** The first occurrence of an element of a list. *)
Lemma split_first (t : Z) (l : list Z) : t ∈ l -> exists l1 l2, l = l1 ++ t :: l2 /\ t ∉ l1.
Proof.
  induction l as [|x l IH]; [set_solver|]. intros Ht.
  destruct (decide (x = t)) as [->|Hne].
  - exists [], l. split; [done|set_solver].
  - destruct IH as (l1 & l2 & -> & Hn); [set_solver|].
    exists (x :: l1), l2. split; [done|set_solver].
Qed.

Lemma filter_ne_middle (t : Z) (l1 l2 : list Z) :
  t ∉ l1 -> t ∉ l2 -> filter (fun x : Z => x <> t) (l1 ++ t :: l2) = l1 ++ l2.
Proof.
  assert (F : forall l, t ∉ l -> filter (fun x : Z => x <> t) l =@{list Z} l).
  { intros l. induction l as [|x l IH]; intros Hn; [done|].
    rewrite filter_cons, decide_True by set_solver. rewrite IH by set_solver. done. }
  intros H1 H2. rewrite filter_app, filter_cons, decide_False by naive_solver.
  by rewrite !F.
Qed.

(** Splitting a list before an element after the first. *)
Lemma split_after_first (h t : Z) (l : list Z) :
  t ∈ l -> h <> t -> exists l1 y l2, h :: l = l1 ++ y :: t :: l2 /\ t ∉ l1 ++ [y].
Proof.
  intros Ht Hne. destruct (split_first t l Ht) as (l1 & l2 & -> & Hn).
  destruct (exists_last (l := h :: l1)) as (l0 & y & E); [done|].
  exists l0, y, l2. split; [|rewrite <- E; set_solver].
  change (h :: l1 ++ t :: l2) with ((h :: l1) ++ t :: l2). by rewrite E, <- app_assoc.
Qed.

Lemma take_out_cases t l l' :
  take_out t l = Some l' ->
  (l = [t] /\ l' = []) \/
  exists h l0, l = h :: l0 /\ t ∈ l0 /\ l' = h :: filter (fun x : Z => x <> t) l0.
Proof.
  destruct l as [|h [|y l]]; simpl; [done| |].
  - destruct (Z.eqb_spec h t) as [->|]; [|done]. intros [= <-]. by left.
  - destruct (bool_decide (t ∈ y :: l)) eqn:B; [|done]. intros [= <-].
    apply bool_decide_eq_true in B. right. eauto 10.
Qed.

(** What is taken out is exactly the target. *)
Lemma take_out_perm t l l' : NoDup l -> take_out t l = Some l' -> l ≡ₚ t :: l'.
Proof.
  intros Hn [[-> ->]|(h & l0 & -> & Ht & ->)]%take_out_cases; [done|].
  apply NoDup_cons in Hn as [Hh Hn]. destruct (split_first t l0 Ht) as (l1 & l2 & -> & H1).
  apply NoDup_app in Hn as (_ & _ & H2). apply NoDup_cons in H2 as [H2 _].
  rewrite filter_ne_middle by done. by rewrite <- Permutation_middle, Permutation_swap.
Qed.

Lemma find_and_pop_rep s ls (k : nat) t l' :
  rep s ls -> is_class k -> take_out t (list_at ls k) = Some l' ->
  exists s', find_and_pop_block t k s = Ret s' t [] /\ rep s' (<[k := l']> ls) /\ cfg s' = cfg s /\
    (forall q, q ∉ list_at ls k -> page_array s' !! q = page_array s !! q).
Proof.
  intros Hr Hk Ht. assert (Hk12 : (k < 12)%nat) by (unfold is_class in Hk; lia).
  unfold find_and_pop_block, _erro. rewrite (proj2 (Z.eqb_neq _ _)) by (unfold is_class in Hk; lia).
  destruct (header_of_eq s k Hk) as (h & Hh & E). run E by idtac.
  destruct (rep_list_at _ _ _ Hr Hk12) as (Hls & h' & Hh' & Hlk & Hf).
  rewrite Hh in Hh'. injection Hh' as <-.
  pose proof (rep_nodup_split _ _ _ Hr Hk12) as Hnd.
  pose proof (take_out_perm t _ l' (proj1 (proj1 (NoDup_app _ _) Hnd)) Ht) as Hperm.
  apply take_out_cases in Ht as [[El ->]|(x & l0 & El & Ht & ->)].
  - rewrite El in Hlk. destruct Hlk as (-> & pg & Hpg & Hn). simpl in Hn.
    run (page_at_eq _ _ _ Hpg) by idtac. rewrite (proj1 (rep_array _ _ Hr) _ _ Hpg), Hn.
    rewrite bool_decide_true, Z.eqb_refl by done. cbn [andb].
    destruct (pop_block_rep s ls k [] t Hr Hk El) as (s' & Ep & Hr' & Hc & Ho).
    run Ep by idtac. eauto 10.
  - pose proof Hlk as Hlk0. rewrite El in Hlk0. destruct Hlk0 as (-> & pg & Hpg & Hl).
    run (page_at_eq _ _ _ Hpg) by idtac. rewrite (proj1 (rep_array _ _ Hr) _ _ Hpg).
    rewrite bool_decide_false by (intros En; rewrite En in Hl; destruct l0; [set_solver|by destruct Hl]).
    cbn [andb]. rewrite bind_gets.
    rewrite El in Hnd. apply NoDup_app in Hnd as (Hnd1 & Hnd2 & Hnd3).
    assert (Hxt : x <> t) by (intros ->; apply NoDup_cons in Hnd1 as [? _]; done).
    destruct (split_after_first x t l0 Ht Hxt) as (l1 & y & l2 & Es & Hn1).
    rewrite El, Es in Hlk. rewrite El, Es, length_app in Hf. simpl in Hf.
    destruct (find_loop_found (list_fuel s) s x l1 y t l2 Hlk (rep_array _ _ Hr))
      as (pgy & pgt & Hy & Htt & Ef); [lia|done|].
    run Ef by idtac. eexists. split; [done|].
    assert (El' : x :: filter (fun z : Z => z <> t) l0 =@{list Z} l1 ++ y :: l2).
    { rewrite Es in Hnd1. apply NoDup_app in Hnd1 as (_ & Hd & Hnd1).
      apply NoDup_cons in Hnd1 as [_ Hnd1]. apply NoDup_cons in Hnd1 as [Ht2 _].
      replace (x :: filter (fun z : Z => z <> t) l0) with (filter (fun z : Z => z <> t) (x :: l0))
        by (by rewrite filter_cons, decide_True).
      rewrite Es. replace (l1 ++ y :: t :: l2) with ((l1 ++ [y]) ++ t :: l2) by (by rewrite <- app_assoc).
      rewrite filter_ne_middle by done. by rewrite <- app_assoc. }
    split; [|split; [done|]].
    + rewrite El'. eapply (rep_set s _ ls k (Some x)); [done|done| | | | |done|].
      * by rewrite roots_set_array, list_insert_id.
      * eapply linked_unlink; [done| |done|done]. by rewrite <- Es.
      * intros q Hq. apply lookup_insert_ne. intros ->. apply (Hnd2 q); [rewrite Es; set_solver|done].
      * apply arr_ok_insert; [apply Hr|done].
      * pose proof (rep_nodup_split _ _ _ Hr Hk12) as Hnd. rewrite Hperm, El' in Hnd.
        by apply NoDup_cons in Hnd as [_ Hnd].
    + intros q Hq. apply lookup_insert_ne. rewrite El, Es in Hq. set_solver.
Qed.
