(* ===== verification/PmmInv.v ===== *)
(** * The buddy invariant of the page allocator

    [covered ls] lists every page of every free block.  [buddy s ls] says that
    no page is in two blocks, that a block of class [k] starts at a multiple of
    2^k, and that blocks stay below the single-page area.  Allocation from a
    non-empty class and release keep it, and move exactly the pages of the block
    between the free pages and the caller; [alloc_spec] and [free_spec] say what
    the code does in every case, the undefined ones included. *)

From S2P Require Import Prelude Memory Pmm PmmSpec.

(** ** Pages of blocks *)

Definition width (k : nat) : Z := if bool_decide (k = 11%nat) then 1 else 2 ^ k.
Definition block (k : nat) (p : Z) : list Z := seqZ p (width k).
Definition class_pages (k : nat) (l : list Z) : list Z := concat (map (block k) l).
Fixpoint covered_from (k : nat) (ls : list (list Z)) : list Z :=
  match ls with
  | [] => []
  | l :: ls' => class_pages k l ++ covered_from (S k) ls'
  end.
Definition covered (ls : list (list Z)) : list Z := covered_from 0 ls.

Lemma width_pos k : 0 < width k.
Proof. unfold width. case_bool_decide; lia. Qed.

Lemma elem_of_block k p q : q ∈ block k p <-> p <= q < p + width k.
Proof. unfold block. rewrite elem_of_seqZ. lia. Qed.

Lemma class_pages_app k l1 l2 : class_pages k (l1 ++ l2) = class_pages k l1 ++ class_pages k l2.
Proof. unfold class_pages. by rewrite map_app, concat_app. Qed.

Lemma class_pages_one k p : class_pages k [p] = block k p.
Proof. unfold class_pages. simpl. by rewrite app_nil_r. Qed.

#[export] Instance class_pages_perm k : Proper ((≡ₚ) ==> (≡ₚ)) (class_pages k).
Proof.
  intros l1 l2 H. unfold class_pages. induction H; simpl.
  - done.
  - by f_equiv.
  - by rewrite !app_assoc, (Permutation_app_comm (block k y)).
  - by etrans.
Qed.

Lemma elem_of_class_pages k l p q : p ∈ l -> q ∈ block k p -> q ∈ class_pages k l.
Proof.
  intros Hp Hq. unfold class_pages. apply list_elem_of_In, in_concat.
  exists (block k p). split; [|by apply list_elem_of_In].
  apply in_map. by apply list_elem_of_In.
Qed.

Definition covered_rest (k : nat) (ls : list (list Z)) : list Z := covered (<[k := []]> ls).

Lemma covered_insert_perm (ls : list (list Z)) k l :
  (k < length ls)%nat -> covered (<[k := l]> ls) ≡ₚ class_pages k l ++ covered_rest k ls.
Proof.
  unfold covered_rest, covered.
  assert (G : forall n ls k, (k < length ls)%nat ->
    covered_from n (<[k := l]> ls) ≡ₚ class_pages (n + k) l ++ covered_from n (<[k := []]> ls)).
  { clear ls k. intros n ls. revert n. induction ls as [|l0 ls IH]; intros n k Hk; simpl in *; [lia|].
    destruct k as [|k]; simpl; [by rewrite Nat.add_0_r|].
    rewrite IH by lia. rewrite !app_assoc, (Permutation_app_comm (class_pages n l0)).
    by replace (S n + k)%nat with (n + S k)%nat by lia. }
  intros Hk. by apply (G 0%nat).
Qed.

Lemma covered_perm (ls : list (list Z)) k :
  (k < length ls)%nat -> covered ls ≡ₚ class_pages k (list_at ls k) ++ covered_rest k ls.
Proof.
  intros Hk. destruct (lookup_lt_is_Some_2 ls k Hk) as [l Hl]. unfold list_at. rewrite Hl. simpl.
  rewrite <- (list_insert_id ls k l Hl) at 1. by apply covered_insert_perm.
Qed.

Lemma list_at_insert_eq (ls : list (list Z)) k l :
  (k < length ls)%nat -> list_at (<[k := l]> ls) k = l.
Proof. intros Hk. unfold list_at. by rewrite list_lookup_insert_eq. Qed.
Lemma list_at_insert_ne (ls : list (list Z)) k j l :
  k <> j -> list_at (<[k := l]> ls) j = list_at ls j.
Proof. intros Hk. unfold list_at. by rewrite list_lookup_insert_ne. Qed.

(** Growing and shrinking one list, in terms of pages. *)
Lemma covered_append k p ls :
  (k < length ls)%nat -> covered (append_spec k p ls) ≡ₚ block k p ++ covered ls.
Proof.
  intros Hk. unfold append_spec. rewrite covered_insert_perm by done.
  rewrite (covered_perm ls k Hk), class_pages_app, class_pages_one.
  by rewrite app_assoc, (Permutation_app_comm (block k p)).
Qed.

Lemma covered_remove k p l ls :
  (k < length ls)%nat -> list_at ls k ≡ₚ p :: l -> covered ls ≡ₚ block k p ++ covered (<[k := l]> ls).
Proof.
  intros Hk Hl. rewrite (covered_perm ls k Hk), covered_insert_perm by done.
  rewrite Hl. simpl. unfold class_pages. simpl. by rewrite app_assoc.
Qed.

Lemma covered_last k p l ls :
  (k < length ls)%nat -> list_at ls k = l ++ [p] -> covered ls ≡ₚ block k p ++ covered (<[k := l]> ls).
Proof.
  intros Hk Hl. apply covered_remove; [done|]. rewrite Hl. by rewrite Permutation_app_comm.
Qed.

(** Every listed page is covered. *)
Lemma concat_covered ls p : p ∈ concat ls -> p ∈ covered ls.
Proof.
  unfold covered. generalize 0%nat. induction ls as [|l ls IH]; intros n; simpl; [set_solver|].
  rewrite !elem_of_app. intros [Hp|Hp]; [left|right; by apply IH].
  eapply elem_of_class_pages; [done|]. apply elem_of_block. pose proof (width_pos n). lia.
Qed.

(** ** The invariant *)

Record blocks_wf (first : Z) (ls : list (list Z)) : Prop := {
  bw_length : length ls = 12%nat;
  bw_nodup : NoDup (covered ls);
  bw_aligned : forall k p, is_class k -> p ∈ list_at ls k ->
    0 <= p /\ p `mod` 2 ^ k = 0 /\ p + 2 ^ k <= first;
  bw_single : forall p, p ∈ list_at ls 11 -> first <= p
}.

Record buddy (s : pmm) (ls : list (list Z)) : Prop := {
  bd_rep : rep s ls;
  bd_wf : blocks_wf (singel_page_first_no s) ls;
  bd_single_next : forall p pg, singel_page_first_no s <= p -> page_array s !! p = Some pg ->
    p ∉ list_at ls 11 -> next pg = None;
  bd_first : singel_page_first_no s <= pmm_max_page_no s
}.

Lemma class_width k : is_class k -> width k = 2 ^ k.
Proof. unfold is_class, width. intros H. rewrite bool_decide_false; [done|lia]. Qed.

Lemma cfg_max s s' : cfg s' = cfg s -> pmm_max_page_no s' = pmm_max_page_no s.
Proof. unfold cfg. congruence. Qed.
Lemma cfg_first s s' : cfg s' = cfg s -> singel_page_first_no s' = singel_page_first_no s.
Proof. unfold cfg. congruence. Qed.
Lemma cfg_start s s' : cfg s' = cfg s -> pmm_page_start s' = pmm_page_start s.
Proof. unfold cfg. congruence. Qed.

Lemma blocks_wf_class first ls (k : nat) l' :
  blocks_wf first ls -> is_class k -> NoDup (covered (<[k := l']> ls)) ->
  (forall p, p ∈ l' -> p ∈ list_at ls k \/ (0 <= p /\ p `mod` 2 ^ k = 0 /\ p + 2 ^ k <= first)) ->
  blocks_wf first (<[k := l']> ls).
Proof.
  intros [Hlen Hn Ha Hs] Hk Hn' Hl'. split; [by rewrite length_insert|done| |].
  - intros j p Hj Hp. destruct (decide (k = j)) as [<-|Hne].
    + rewrite list_at_insert_eq in Hp by (unfold is_class in Hk; lia).
      destruct (Hl' p Hp); [by apply Ha|done].
    + rewrite list_at_insert_ne in Hp by done. by apply Ha.
  - intros p. rewrite list_at_insert_ne by (unfold is_class in Hk; lia). apply Hs.
Qed.

(** A change of one class list, on the state. *)
Lemma buddy_class s s' ls (k : nat) l' :
  buddy s ls -> is_class k -> rep s' (<[k := l']> ls) -> cfg s' = cfg s ->
  blocks_wf (singel_page_first_no s) (<[k := l']> ls) ->
  (forall q, singel_page_first_no s <= q -> page_array s' !! q = page_array s !! q) ->
  buddy s' (<[k := l']> ls).
Proof.
  intros H Hk Hr Hc Hw Hq. split; rewrite ?(cfg_first _ _ Hc), ?(cfg_max _ _ Hc); try done.
  - intros p pg Hp Hpg. rewrite list_at_insert_ne by (unfold is_class in Hk; lia).
    rewrite Hq in Hpg by done. by apply (bd_single_next _ _ H).
  - apply (bd_first _ _ H).
Qed.

(** ** Partners *)

Definition partner (k : nat) (p : Z) : Z := if Z.odd (p / 2 ^ k) then p - 2 ^ k else p + 2 ^ k.

Lemma class_pow k : is_class k -> 1 <= 2 ^ k <= 1024.
Proof. intros H. case_class H; vm_compute; split; congruence. Qed.

Lemma c_to_uint32_eq (k : nat) : is_class k -> c_to_uint32 k = 2 ^ k.
Proof.
  intros H. unfold c_to_uint32. rewrite Z.shiftl_1_l. pose proof (class_pow k H). word_tac.
Qed.

Lemma get_partner_eq (k : nat) p :
  is_class k -> 0 <= p < 2147483648 -> p `mod` 2 ^ k = 0 -> get_partner_page_no p k = partner k p.
Proof.
  intros Hk Hp Ha. unfold get_partner_page_no, partner. rewrite c_to_uint32_eq by done.
  pose proof (class_pow k Hk) as Hw. rewrite (u32_small (2 * 2 ^ k)) by lia.
  rewrite (u32_small (p + 2 ^ k)) by lia.
  set (w := 2 ^ k) in *. assert (Ep : p = w * (p / w)) by (pose proof (Z.div_mod p w ltac:(lia)); lia).
  set (q := p / w) in *. assert (Hq : 0 <= q) by nia.
  assert (E32 : exists m, 4294967296 = 2 * w * m).
  { unfold w. clear -Hk. exists (2 ^ (31 - k)). case_class Hk; reflexivity. }
  destruct E32 as [m Em]. clearbody w q. set (h := q / 2). destruct (Z.odd q) eqn:Ho.
  - assert (Hq1 : q = 2 * h + 1) by (unfold h; rewrite Zodd_mod in Ho; apply Zeq_bool_eq in Ho; dlia).
    clearbody h. subst q. rewrite u32_small by nia.
    replace (p - w) with (h * (2 * w)) by (rewrite Ep; ring).
    by rewrite Z.mod_mul by lia.
  - assert (Hq1 : q = 2 * h).
    { unfold h. rewrite <- Z.negb_even in Ho. apply negb_false_iff in Ho. rewrite Zeven_mod in Ho.
      apply Zeq_bool_eq in Ho. dlia. }
    clearbody h. subst q.
    assert (Hnz : u32 (p - w) `mod` (2 * w) <> 0).
    { unfold u32. rewrite Em, <- Znumtheory.Zmod_div_mod; [|lia|nia|exists m; lia].
      replace (p - w) with (w + (h - 1) * (2 * w)) by (rewrite Ep; ring).
      rewrite Z.mod_add by lia. rewrite Z.mod_small by lia. lia. }
    by rewrite (proj2 (Z.eqb_neq _ _) Hnz).
Qed.

Lemma aligned_form k p : is_class k -> p `mod` 2 ^ k = 0 -> exists q, p = 2 ^ k * q /\ p / 2 ^ k = q.
Proof.
  intros Hk Ha. pose proof (class_pow k Hk). exists (p / 2 ^ k). split; [|done].
  pose proof (Z.div_mod p (2 ^ k) ltac:(lia)). lia.
Qed.

Lemma odd_form q : q = 2 * (q / 2) + (if Z.odd q then 1 else 0).
Proof. rewrite (Z.div_mod q 2) at 1 by lia. by rewrite Zmod_odd. Qed.

(** The two halves of an aligned block of the next class. *)
Lemma partner_halves k p :
  is_class k -> p `mod` 2 ^ k = 0 ->
  exists b, b `mod` (2 * 2 ^ k) = 0 /\
    ((p = b /\ partner k p = b + 2 ^ k) \/ (p = b + 2 ^ k /\ partner k p = b)).
Proof.
  intros Hk Ha. pose proof (class_pow k Hk) as Hw.
  destruct (aligned_form k p Hk Ha) as (q & Ep & Eq). unfold partner. rewrite Eq.
  pose proof (odd_form q) as Hq. exists (2 * 2 ^ k * (q / 2)).
  split; [rewrite Z.mul_comm; apply Z.mod_mul; lia|].
  destruct (Z.odd q); [right|left]; split; rewrite ?Ep; rewrite Hq at 1; ring.
Qed.

Lemma partner_aligned k p : is_class k -> p `mod` 2 ^ k = 0 -> partner k p `mod` 2 ^ k = 0.
Proof.
  intros Hk Ha. pose proof (class_pow k Hk). unfold partner.
  destruct (Z.odd _); [rewrite Zminus_mod|rewrite Zplus_mod]; rewrite Ha, Z.mod_same by lia; done.
Qed.

Lemma block_split k b :
  is_class k -> seqZ b (2 * 2 ^ k) = block k b ++ block k (b + 2 ^ k).
Proof.
  intros Hk. pose proof (class_pow k Hk). unfold block. rewrite class_width by done.
  rewrite <- seqZ_app by lia. f_equal. lia.
Qed.

Lemma merged_aligned k p :
  is_class k -> p `mod` 2 ^ k = 0 -> Z.min (partner k p) p `mod` (2 * 2 ^ k) = 0.
Proof.
  intros Hk Ha. pose proof (class_pow k Hk).
  destruct (partner_halves k p Hk Ha) as (b & Hb & [[E1 E2]|[E1 E2]]); rewrite E2, E1;
    [rewrite Z.min_r by lia|rewrite Z.min_l by lia]; done.
Qed.

Lemma merged_block k p :
  is_class k -> p `mod` 2 ^ k = 0 ->
  seqZ (Z.min (partner k p) p) (2 * 2 ^ k) ≡ₚ block k p ++ block k (partner k p).
Proof.
  intros Hk Ha. pose proof (class_pow k Hk).
  destruct (partner_halves k p Hk Ha) as (b & Hb & [[E1 E2]|[E1 E2]]); rewrite E2, E1.
  - rewrite Z.min_r, block_split by (done || lia). done.
  - rewrite Z.min_l, block_split by (done || lia). by rewrite Permutation_app_comm.
Qed.

Lemma partner_involutive k p :
  is_class k -> p `mod` 2 ^ k = 0 -> partner k (partner k p) = p.
Proof.
  intros Hk Ha. pose proof (class_pow k Hk) as Hw.
  destruct (aligned_form k p Hk Ha) as (q & Ep & Eq). unfold partner at 2. rewrite Eq.
  destruct (Z.odd q) eqn:Ho; unfold partner.
  - replace (p - 2 ^ k) with ((q - 1) * 2 ^ k) by (rewrite Ep; ring).
    rewrite Z.div_mul, Z.odd_sub, Ho by lia. simpl. rewrite Ep. ring.
  - replace (p + 2 ^ k) with ((q + 1) * 2 ^ k) by (rewrite Ep; ring).
    rewrite Z.div_mul, Z.odd_add, Ho by lia. simpl. rewrite Ep. ring.
Qed.

(** ** Release *)

(** Coalescing from class [10 - n]: [None] when a pair of 1024-page blocks
    would be merged, for which there is no list. *)
Fixpoint free_spec (n : nat) (p : Z) (ls : list (list Z)) : option (list (list Z)) :=
  let k := (10 - n)%nat in
  match take_out (partner k p) (list_at ls k) with
  | None => Some (append_spec k p ls)
  | Some l' =>
      match n with
      | O => None
      | S n' => free_spec n' (Z.min (partner k p) p) (<[k := l']> ls)
      end
  end.

(** A block the caller may release: aligned, below the single pages, and none
    of its pages is free. *)
Record freeable (first : Z) (ls : list (list Z)) (k : nat) (p : Z) : Prop := {
  fr_class : is_class k;
  fr_nonneg : 0 <= p;
  fr_aligned : p `mod` 2 ^ k = 0;
  fr_below : p + 2 ^ k <= first;
  fr_apart : NoDup (block k p ++ covered ls)
}.

Lemma covered_take k p l' ls :
  length ls = 12%nat -> is_class k -> NoDup (covered ls) ->
  take_out (partner k p) (list_at ls k) = Some l' ->
  list_at ls k ≡ₚ partner k p :: l' /\
  covered ls ≡ₚ block k (partner k p) ++ covered (<[k := l']> ls).
Proof.
  intros Hlen Hk Hn Ht. assert (Hk' : (k < length ls)%nat) by (unfold is_class in Hk; lia).
  assert (Hp : list_at ls k ≡ₚ partner k p :: l').
  { apply take_out_perm; [|done]. rewrite (covered_perm ls k Hk') in Hn.
    apply NoDup_app in Hn as [Hn _]. clear -Hn Hk. revert Hn.
    induction (list_at ls k) as [|x l IH]; [constructor|]. unfold class_pages. simpl. intros Hn.
    apply NoDup_app in Hn as (_ & Hx & Hn). constructor; [|by apply IH].
    intros Hin. apply (Hx x); [|by eapply elem_of_class_pages; [done|]; apply elem_of_block; pose proof (width_pos k); lia].
    apply elem_of_block. pose proof (width_pos k). lia. }
  split; [done|]. by apply covered_remove.
Qed.

Lemma blocks_wf_take first k p l' ls :
  blocks_wf first ls -> is_class k -> take_out (partner k p) (list_at ls k) = Some l' ->
  blocks_wf first (<[k := l']> ls).
Proof.
  intros H Hk Ht.
  destruct (covered_take k p l' ls (bw_length _ _ H) Hk (bw_nodup _ _ H) Ht) as [Hl Hc].
  apply blocks_wf_class; [done|done| |].
  - pose proof (bw_nodup _ _ H) as Hn. rewrite Hc in Hn. by apply NoDup_app in Hn as (_ & _ & Hn).
  - intros q Hq. left. rewrite Hl. set_solver.
Qed.

Lemma blocks_wf_append first k p ls :
  blocks_wf first ls -> freeable first ls k p -> blocks_wf first (append_spec k p ls).
Proof.
  intros H [Hk H0 Ha Hb Hn]. apply blocks_wf_class; [done|done| |].
  - fold (append_spec k p ls). rewrite covered_append; [done|].
    rewrite (bw_length _ _ H). unfold is_class in Hk. lia.
  - intros q. rewrite elem_of_app. intros [Hq|Hq]; [by left|right].
    apply list_elem_of_singleton in Hq as ->. done.
Qed.

(** Taking the partner out leaves the merged block freeable in the next class. *)
Lemma freeable_merge first ls k p l' :
  blocks_wf first ls -> freeable first ls k p -> is_class (S k) ->
  take_out (partner k p) (list_at ls k) = Some l' ->
  freeable first (<[k := l']> ls) (S k) (Z.min (partner k p) p).
Proof.
  intros H [Hk H0 Ha Hb Hn] Hk' Ht. pose proof (class_pow k Hk).
  destruct (covered_take k p l' ls (bw_length _ _ H) Hk (bw_nodup _ _ H) Ht) as [Hl Hc].
  assert (Hin : partner k p ∈ list_at ls k) by (rewrite Hl; set_solver).
  destruct (bw_aligned _ _ H _ _ Hk Hin) as (Hp0 & Hpa & Hpb).
  assert (E2 : 2 ^ S k = 2 * 2 ^ k) by (rewrite Nat2Z.inj_succ, Z.pow_succ_r; lia).
  split; rewrite ?E2; [done|lia|by apply merged_aligned| |].
  - destruct (partner_halves k p Hk Ha) as (b & _ & [[E1 E3]|[E1 E3]]); rewrite E3, E1 in *; lia.
  - unfold block at 1. rewrite class_width, E2, merged_block by done.
    rewrite Hc in Hn. by rewrite <- app_assoc.
Qed.

(** Release adds exactly the pages of the block to the free pages, and keeps
    the block lists well formed. *)
Lemma free_spec_ok first n p ls ls' :
  (n <= 10)%nat -> blocks_wf first ls -> freeable first ls (10 - n) p ->
  free_spec n p ls = Some ls' ->
  covered ls' ≡ₚ block (10 - n) p ++ covered ls /\ blocks_wf first ls' /\
  list_at ls' 11 = list_at ls 11.
Proof.
  revert p ls. induction n as [|n IH]; intros p ls Hn H Hf; cbn [free_spec];
    pose proof (bw_length _ _ H) as Hlen; pose proof (fr_class _ _ _ _ Hf) as Hk.
  - destruct (take_out _ _) eqn:Ht; [done|]. intros [= <-]. split; [|split].
    + apply covered_append. lia.
    + by apply blocks_wf_append.
    + by apply list_at_insert_ne.
  - set (k := (10 - S n)%nat) in *. assert (Ek : (10 - n)%nat = S k) by lia.
    destruct (take_out _ _) as [l'|] eqn:Ht.
    + assert (Hk' : is_class (S k)) by (unfold is_class; lia). intros Hs.
      pose proof (freeable_merge _ _ _ _ _ H Hf Hk' Ht) as Hf'.
      pose proof (blocks_wf_take _ _ _ _ _ H Hk Ht) as H'.
      destruct (covered_take k p l' ls Hlen Hk (bw_nodup _ _ H) Ht) as [_ Hc].
      rewrite <- Ek in Hf'. destruct (IH _ _ ltac:(lia) H' Hf' Hs) as (Hc' & Hw & Hl).
      split; [|split; [done|]].
      * rewrite Hc', Hc, Ek. unfold block at 1. rewrite class_width by done.
        replace (2 ^ S k) with (2 * 2 ^ k) by (rewrite Nat2Z.inj_succ, Z.pow_succ_r; lia).
        rewrite merged_block by (done || apply Hf). by rewrite app_assoc.
      * rewrite Hl. apply list_at_insert_ne. unfold is_class in Hk. lia.
    + intros [= <-]. split; [|split].
      * apply covered_append. unfold is_class in Hk. lia.
      * by apply blocks_wf_append.
      * apply list_at_insert_ne. unfold is_class in Hk. lia.
Qed.

(** ** Release, the code *)

Lemma class_small s ls (k : nat) p :
  rep s ls -> is_class k -> p ∈ list_at ls k -> 0 <= p < pmm_max_page_no s.
Proof.
  intros Hr Hk Hp. destruct (rep_list_at _ _ k Hr ltac:(unfold is_class in Hk; lia))
    as (_ & h & _ & Hlk & _).
  apply (proj2 (rep_array _ _ Hr)). by eapply linked_elem.
Qed.

Lemma freeable_fresh s ls k p :
  rep s ls -> singel_page_first_no s <= pmm_max_page_no s ->
  freeable (singel_page_first_no s) ls k p -> 0 <= p < pmm_max_page_no s /\ p ∉ concat ls.
Proof.
  intros Hr Hf [Hk H0 Ha Hb Hn]. pose proof (class_pow k Hk). split; [lia|].
  intros Hin%concat_covered. apply NoDup_app in Hn as (_ & Hn & _). apply (Hn p); [|done].
  apply elem_of_block. pose proof (width_pos k). lia.
Qed.

(** Appending to the list of the class that does not exist. *)
Lemma append_block_erro s p :
  i32 p = p -> append_block p 11 s = Undef.
Proof.
  intros Hp. unfold append_block. rewrite Hp. unfold set_next, page_at, bind.
  destruct (page_array s !! p); done.
Qed.

Lemma free_helper_erro fuel s p :
  0 <= p < 2147483648 -> (0 < fuel)%nat -> free_helper fuel p 11 s = Undef.
Proof.
  intros Hp Hf. destruct fuel as [|fuel]; [lia|]. cbn [free_helper]. rewrite bind_emit.
  unfold find_and_pop_block. change (11 =? _erro) with true. cbv iota. rewrite bind_ret.
  change (negb (ERRO_POP_BLOCK =? ERRO_POP_BLOCK)) with false. cbv iota.
  by rewrite append_block_erro by word_tac.
Qed.

Lemma free_helper_eq fuel n p s ls :
  (n <= 10)%nat -> (S n < fuel)%nat -> buddy s ls ->
  freeable (singel_page_first_no s) ls (10 - n) p ->
  match free_spec n p ls with
  | Some ls' => exists s' t, free_helper fuel p (10 - n)%nat s = Ret s' tt t /\
      buddy s' ls' /\ cfg s' = cfg s
  | None => free_helper fuel p (10 - n)%nat s = Undef
  end.
Proof.
  revert n p s ls. induction fuel as [|fuel IH]; intros n p s ls Hn Hfu H Hf; [lia|].
  pose proof (fr_class _ _ _ _ Hf) as Hk. pose proof (bd_rep _ _ H) as Hr.
  pose proof (rep_max _ _ Hr) as Hmx. pose proof (bd_first _ _ H) as Hfi.
  destruct (freeable_fresh _ _ _ _ Hr Hfi Hf) as [Hp Hfresh].
  pose proof (fr_aligned _ _ _ _ Hf) as Ha.
  assert (Hother : forall s' k', is_class k' ->
    (forall q, q <> p -> q ∉ list_at ls k' -> page_array s' !! q = page_array s !! q) ->
    forall q, singel_page_first_no s <= q -> page_array s' !! q = page_array s !! q).
  { intros s' k' Hk' Hs' q Hq. pose proof (class_pow _ Hk). pose proof (fr_below _ _ _ _ Hf).
    apply Hs'; [lia|]. intros Hin. destruct (bw_aligned _ _ (bd_wf _ _ H) _ _ Hk' Hin) as (? & ? & ?).
    pose proof (class_pow _ Hk'). lia. }
  assert (Happ : forall ls', free_spec n p ls = Some ls' ->
    take_out (partner (10 - n) p) (list_at ls (10 - n)) = None ->
    ls' = append_spec (10 - n) p ls).
  { intros ls'. destruct n; cbn [free_spec]; intros E Et; rewrite Et in E; congruence. }
  cbn [free_helper]. rewrite bind_emit.
  rewrite (get_partner_eq _ p Hk) by (done || lia). set (k := (10 - n)%nat) in *.
  destruct (take_out (partner k p) (list_at ls k)) as [l'|] eqn:Ht.
  - destruct (find_and_pop_rep _ _ _ _ _ Hr Hk Ht) as (s1 & E & Hr1 & Hc1 & Ho1).
    run E by idtac.
    destruct (covered_take k p l' ls (bw_length _ _ (bd_wf _ _ H)) Hk (bw_nodup _ _ (bd_wf _ _ H)) Ht)
      as [Hl Hc].
    assert (Hin : partner k p ∈ list_at ls k) by (rewrite Hl; set_solver).
    pose proof (class_small _ _ _ _ Hr Hk Hin) as Hpp.
    rewrite (proj2 (Z.eqb_neq _ _)) by (unfold ERRO_POP_BLOCK; lia). cbn [negb].
    replace (if partner k p <? p then partner k p else p) with (Z.min (partner k p) p)
      by (destruct (Z.ltb_spec (partner k p) p); lia).
    assert (Hmin : 0 <= Z.min (partner k p) p < 2147483648) by lia.
    destruct n as [|n]; cbn [free_spec].
    + fold k. rewrite Ht. change (Z.of_nat k + 1) with 11. by rewrite free_helper_erro by lia.
    + fold k. rewrite Ht. assert (Ek : (10 - n)%nat = S k) by lia.
      replace (Z.of_nat k + 1) with (Z.of_nat (10 - n)) by lia.
      pose proof (blocks_wf_take _ _ _ _ _ (bd_wf _ _ H) Hk Ht) as Hw1.
      assert (H1 : buddy s1 (<[k := l']> ls)).
      { apply (buddy_class s); try done. apply (Hother s1 k Hk). auto. }
      assert (Hf1 : freeable (singel_page_first_no s1) (<[k:=l']> ls) (10 - n) (Z.min (partner k p) p)).
      { rewrite Ek, (cfg_first _ _ Hc1). apply freeable_merge; [apply H|done|unfold is_class; lia|done]. }
      specialize (IH n (Z.min (partner k p) p) s1 _ ltac:(lia) ltac:(lia) H1 Hf1).
      destruct (free_spec n _ _) as [ls'|].
      * destruct IH as (s' & t & E' & H' & Hc'). rewrite E'. eexists _, _. split; [done|].
        split; [done|]. by rewrite Hc'.
      * by rewrite IH.
  - assert (Es : free_spec n p ls = Some (append_spec k p ls))
      by (destruct n; cbn [free_spec]; fold k; by rewrite Ht).
    rewrite Es. run (find_and_pop_none _ _ _ _ Hr Hk Ht) by idtac.
    change (negb (ERRO_POP_BLOCK =? ERRO_POP_BLOCK)) with false. cbv iota.
    destruct (append_block_rep s ls k p Hr Hk Hp Hfresh) as (s' & E & Hr' & Hc' & Ho').
    rewrite E. eexists s', _. split; [done|]. split; [|done].
    apply (buddy_class s); try done.
    + apply (blocks_wf_append _ k p); [apply H|done].
    + by apply (Hother s' k Hk).
Qed.
