(* ===== verification/PmmAlloc.v ===== *)
(** * Allocation and release through the interface of pmm.c

    What [pmm_alloc_pages], [pmm_alloc_one_page] and [pmm_free_page] do on a
    state that satisfies the invariant of [PmmInv], in every case: success,
    failure, and the splits and merges the source gets wrong. *)

From S2P Require Import Prelude Memory Pmm PmmSpec PmmInv.

(** ** Addresses and classes *)

Lemma page_addr_inverse start p :
  0 <= p < 1048576 -> addr_to_pmm_page_no start (pmm_page_no_to_addr start p) = p.
Proof.
  intros Hp. unfold addr_to_pmm_page_no, pmm_page_no_to_addr.
  rewrite u32_sub_l. replace (u32 (Z.shiftl p 12) + start - start) with (u32 (Z.shiftl p 12)) by lia.
  rewrite Z.shiftl_mul_pow2, Z.shiftr_div_pow2 by lia. change (2 ^ 12) with 4096.
  rewrite u32_idem, u32_small by lia. apply Z.div_mul. lia.
Qed.

(** The class of a request, as the smallest power of two that is enough. *)
Lemma count_bits_eq (fuel : nat) n c :
  0 <= n < 2 ^ fuel -> count_bits fuel n c = c + (if n =? 0 then 0 else Z.log2 n + 1).
Proof.
  revert n c. induction fuel as [|fuel IH]; intros n c Hn.
  - assert (n = 0) as -> by (simpl in Hn; lia). simpl. lia.
  - cbn [count_bits]. destruct (Z.eqb_spec n 0) as [->|Hne]; [lia|].
    rewrite Nat2Z.inj_succ, Z.pow_succ_r in Hn by lia.
    pose proof (Z.shiftr_div_pow2 n 1 ltac:(lia)) as Eh. change (2 ^ 1) with 2 in Eh.
    rewrite IH by (rewrite Eh; dlia).
    destruct (Z.eqb_spec (Z.shiftr n 1) 0) as [E0|E0].
    + assert (n = 1) as -> by dlia. change (Z.log2 1) with 0. lia.
    + assert (2 <= n) by (destruct (decide (n = 1)) as [->|]; [done|lia]).
      rewrite Z.log2_shiftr, Z.max_r by (lia || (pose proof (Z.log2_le_mono 2 n ltac:(lia));
        change (Z.log2 2) with 1 in *; lia)). lia.
Qed.

Lemma class_of_log2_up n : 1 <= n <= 1024 -> class_of n = Z.log2_up n.
Proof.
  intros Hn. unfold class_of. rewrite count_bits_eq by (change (2 ^ 32%nat) with 4294967296; lia).
  rewrite (proj2 (Z.eqb_neq n 0)) by lia. rewrite Z.shiftl_1_l.
  replace (0 + (Z.log2 n + 1) - 1) with (Z.log2 n) by lia.
  pose proof (Z.le_log2_log2_up n) as H1. pose proof (Z.le_log2_up_succ_log2 n) as H2.
  destruct (Z.eqb_spec n (2 ^ Z.log2 n)) as [E|E].
  - rewrite E at 2. rewrite Z.log2_up_pow2 by apply Z.log2_nonneg. lia.
  - destruct (decide (Z.log2_up n = Z.log2 n)) as [E2|]; [|lia]. exfalso. apply E.
    destruct (decide (n = 1)) as [->|]; [done|].
    pose proof (Z.log2_up_spec n ltac:(lia)). pose proof (Z.log2_spec n ltac:(lia)). rewrite E2 in *. lia.
Qed.

Definition class_nat (n : Z) : nat := Z.to_nat (Z.log2_up n).

Lemma class_of_nat n : 1 <= n <= 1024 -> class_of n = Z.of_nat (class_nat n) /\ is_class (class_nat n).
Proof.
  intros Hn. rewrite class_of_log2_up by done. unfold class_nat, is_class.
  pose proof (Z.log2_up_nonneg n). assert (Z.log2_up n <= 10); [|lia].
  change 10 with (Z.log2_up 1024). apply Z.log2_up_le_mono. lia.
Qed.

(** ** The abstract allocation *)

Inductive alloc_outcome :=
  | AFail                                             (* no block is large enough *)
  | AExact (z : Z) (ls' : list (list Z))              (* the last block of the class *)
  | ASplit (j : nat) (z : Z).                         (* the first block found is too large *)

(** The first non-empty class among [n] classes from [j] on, and its last block. *)
Fixpoint first_block (n j : nat) (ls : list (list Z)) : option (nat * Z) :=
  match n with
  | O => None
  | S n' =>
      match last (list_at ls j) with
      | Some z => Some (j, z)
      | None => first_block n' (S j) ls
      end
  end.

Definition drop_last (l : list Z) : list Z := take (pred (length l)) l.

Definition alloc_spec (k : nat) (ls : list (list Z)) : alloc_outcome :=
  match first_block (11 - k) k ls with
  | None => AFail
  | Some (j, z) =>
      if bool_decide (j = k) then AExact z (<[k := drop_last (list_at ls k)]> ls) else ASplit j z
  end.

Lemma last_split (l : list Z) z : last l = Some z -> l = drop_last l ++ [z].
Proof.
  rewrite last_Some. intros [l' ->]. unfold drop_last.
  rewrite length_app. simpl. rewrite Nat.add_1_r. simpl. by rewrite take_app_length.
Qed.

Lemma first_block_some n j ls i z :
  first_block n j ls = Some (i, z) ->
  (j <= i < j + n)%nat /\ last (list_at ls i) = Some z /\
  forall i', (j <= i' < i)%nat -> list_at ls i' = [].
Proof.
  revert j. induction n as [|n IH]; intros j; simpl; [done|].
  destruct (last (list_at ls j)) as [y|] eqn:E.
  - intros [= <- <-]. split; [lia|]. split; [done|]. lia.
  - intros (H1 & H2 & H3)%IH. split; [lia|]. split; [done|]. intros i' Hi.
    destruct (decide (i' = j)) as [->|]; [|apply H3; lia]. by apply last_None.
Qed.

Lemma first_block_none n j ls :
  first_block n j ls = None -> forall i, (j <= i < j + n)%nat -> list_at ls i = [].
Proof.
  revert j. induction n as [|n IH]; intros j; simpl; [lia|].
  destruct (last (list_at ls j)) eqn:E; [done|]. intros H i Hi.
  destruct (decide (i = j)) as [->|]; [by apply last_None|]. apply (IH (S j)); [done|lia].
Qed.

(** ** The search for a class *)

Lemma pop_loop_skip s ls (k j fuel : nat) e :
  rep s ls -> (k <= j <= 11)%nat -> (forall i, (k <= i < j)%nat -> list_at ls i = []) ->
  (j - k < fuel)%nat ->
  exists e', pop_loop fuel k e s = pop_loop (fuel - (j - k)) j e' s /\ (k = j -> e' = e) /\
    (k <> j -> e' = ERRO_POP_BLOCK).
Proof.
  revert k fuel e. intros k fuel e Hr. remember (j - k)%nat as d eqn:Hd. revert k fuel e Hd.
  induction d as [|d IH]; intros k fuel e Hd Hk Hnil Hf.
  - assert (k = j) as <- by lia. exists e. rewrite Nat.sub_0_r. split; [done|]. split; [done|lia].
  - destruct fuel as [|fuel]; [lia|]. cbn [pop_loop].
    rewrite (proj2 (Z.ltb_lt _ _)) by (unfold _erro; lia).
    run (pop_block_nil s ls k Hr) by (unfold is_class; auto with lia).
    change (ERRO_POP_BLOCK =? ERRO_POP_BLOCK) with true. cbn [negb].
    replace (Z.of_nat k + 1) with (Z.of_nat (S k)) by lia.
    destruct (IH (S k) fuel ERRO_POP_BLOCK) as (e' & E & H1 & H2); [lia|lia|auto with lia|lia|].
    exists e'. split; [done|]. split; [lia|]. intros _.
    destruct (decide (S k = j)); auto.
Qed.

Lemma pop_loop_none s ls (k : nat) :
  rep s ls -> is_class k -> first_block (11 - k) k ls = None ->
  pop_loop 12 k ERRO_POP_BLOCK s = Ret s (11, ERRO_POP_BLOCK) [].
Proof.
  intros Hr Hk Hn. unfold is_class in Hk.
  destruct (pop_loop_skip s ls k 11 12 ERRO_POP_BLOCK Hr) as (e & E & _ & He); [lia| |lia|].
  - intros i Hi. eapply first_block_none; [done|lia].
  - rewrite E, He by lia. destruct (12 - (11 - k))%nat eqn:?; [lia|]. done.
Qed.

Lemma pop_loop_some s ls (k j : nat) z :
  rep s ls -> is_class k -> first_block (11 - k) k ls = Some (j, z) ->
  exists s', pop_loop 12 k ERRO_POP_BLOCK s = Ret s' (Z.of_nat j, z) [] /\
    rep s' (<[j := drop_last (list_at ls j)]> ls) /\ cfg s' = cfg s /\
    (forall q, q ∉ list_at ls j -> page_array s' !! q = page_array s !! q).
Proof.
  intros Hr Hk Hn. unfold is_class in Hk. destruct (first_block_some _ _ _ _ _ Hn) as (Hj & Hl & Hnil).
  destruct (pop_loop_skip s ls k j 12 ERRO_POP_BLOCK Hr) as (e & E & _ & He); [lia|done|lia|].
  rewrite E. destruct (12 - (j - k))%nat as [|f] eqn:?; [lia|]. cbn [pop_loop].
  rewrite (proj2 (Z.ltb_lt _ _)) by (unfold _erro; lia). pose proof (last_split _ _ Hl) as Hl'.
  assert (Hcj : is_class j) by (unfold is_class; lia).
  destruct (pop_block_rep s ls j _ z Hr Hcj Hl') as (s' & Ep & Hr' & Hc' & Ho').
  exists s'. run Ep by idtac.
  assert (Hz : 0 <= z < pmm_max_page_no s).
  { apply (class_small s ls j); try done. by apply last_Some_elem_of. }
  pose proof (rep_max _ _ Hr). rewrite (proj2 (Z.eqb_neq _ _)) by (unfold ERRO_POP_BLOCK; lia). done.
Qed.

(** ** Multi-page allocation *)

(** Taking the last block of a class, in terms of the invariant. *)
Lemma buddy_pop s s' ls (k : nat) z :
  buddy s ls -> is_class k -> last (list_at ls k) = Some z ->
  rep s' (<[k := drop_last (list_at ls k)]> ls) -> cfg s' = cfg s ->
  (forall q, q ∉ list_at ls k -> page_array s' !! q = page_array s !! q) ->
  buddy s' (<[k := drop_last (list_at ls k)]> ls) /\
  covered ls ≡ₚ block k z ++ covered (<[k := drop_last (list_at ls k)]> ls).
Proof.
  intros H Hk Hl Hr Hc Ho. pose proof (last_split _ _ Hl) as Hl'.
  pose proof (bd_wf _ _ H) as Hw. pose proof (bw_length _ _ Hw) as Hlen.
  assert (Hcov : covered ls ≡ₚ block k z ++ covered (<[k := drop_last (list_at ls k)]> ls))
    by (apply covered_last; [unfold is_class in Hk; lia|done]).
  split; [|done]. apply (buddy_class s); try done.
  - apply blocks_wf_class; [done|done| |].
    + pose proof (bw_nodup _ _ Hw) as Hn. rewrite Hcov in Hn. by apply NoDup_app in Hn as (_ & _ & Hn).
    + intros p Hp. left. rewrite Hl'. set_solver.
  - intros q Hq. apply Ho. intros Hin. destruct (bw_aligned _ _ Hw _ _ Hk Hin) as (_ & _ & Hb).
    pose proof (class_pow k Hk). lia.
Qed.

Lemma alloc_helper_same fuel c z s : alloc_helper (S fuel) c c z s = Ret s z [].
Proof. cbn [alloc_helper]. by rewrite Z.eqb_refl. Qed.

Lemma alloc_helper_step fuel t p z s :
  p <> t ->
  alloc_helper (S fuel) t p z s =
    (append_block (u32 (z + c_to_uint32 p / 2)) (u32 (z - 1)) ;; alloc_helper fuel t (p - 1) z) s.
Proof. intros Hp. cbn [alloc_helper]. by rewrite (proj2 (Z.eqb_neq _ _)). Qed.

(** The split passes [pop_page_no - 1] as the class of the upper half. *)
Lemma alloc_helper_undef fuel (k j : nat) z s :
  (k < j)%nat -> 0 <= z < 1048576 -> z = 0 \/ 12 <= z ->
  alloc_helper (S fuel) k j z s = Undef.
Proof.
  intros Hj Hz Hz'. cbn [alloc_helper]. rewrite (proj2 (Z.eqb_neq _ _)) by lia.
  assert (Hc : ml_get (u32 (z - 1)) = fun _ => None).
  { assert (11 <= u32 (z - 1)) as Hu.
    { destruct Hz' as [->|]; [by vm_compute|]. rewrite u32_small; lia. }
    destruct (u32 (z - 1)) as [|u|]; [lia| |lia].
    do 4 (destruct u as [u|u|]; try lia; try reflexivity). }
  unfold append_block, header_of. rewrite Hc. unfold set_next, page_at, bind, modify.
  by destruct (page_array s !! _).
Qed.

Definition granted (s : pmm) (k : nat) (z : Z) : pm_alloc_t :=
  Build_pm_alloc_t (pmm_page_no_to_addr (pmm_page_start s) z) k 1.

Lemma pmm_alloc_pages_head n s :
  1 <= n <= 1024 ->
  pmm_alloc_pages n s =
    (r <- pop_loop 12 (class_nat n) ERRO_POP_BLOCK ;;
     if r.2 =? ERRO_POP_BLOCK then ret alloc_failed
     else
       target_page_no <- alloc_helper 12 (class_nat n) r.1 r.2 ;;
       start <- gets pmm_page_start ;;
       ret (Build_pm_alloc_t (pmm_page_no_to_addr start target_page_no) (class_nat n) 1)) s.
Proof.
  intros Hn. unfold pmm_alloc_pages. rewrite (proj1 (class_of_nat n Hn)).
  by destruct (Z.gtb_spec n 1024), (Z.eqb_spec n 0); try lia.
Qed.

Lemma pmm_alloc_pages_fail s ls n :
  rep s ls -> 1 <= n <= 1024 -> alloc_spec (class_nat n) ls = AFail ->
  pmm_alloc_pages n s = Ret s alloc_failed [].
Proof.
  intros Hr Hn Ha. rewrite pmm_alloc_pages_head by done. destruct (class_of_nat n Hn) as [_ Hk].
  unfold alloc_spec in Ha. destruct (first_block _ _ _) as [[j z]|] eqn:E.
  { by destruct (bool_decide (j = class_nat n)). }
  by run (pop_loop_none _ _ _ Hr Hk E) by idtac.
Qed.

Lemma pmm_alloc_pages_exact s ls n z ls' :
  buddy s ls -> 1 <= n <= 1024 -> alloc_spec (class_nat n) ls = AExact z ls' ->
  exists s', pmm_alloc_pages n s = Ret s' (granted s (class_nat n) z) [] /\ buddy s' ls' /\
    cfg s' = cfg s /\ covered ls ≡ₚ block (class_nat n) z ++ covered ls' /\
    z ∈ list_at ls (class_nat n) /\ list_at ls' 11 = list_at ls 11.
Proof.
  intros H Hn Ha. rewrite pmm_alloc_pages_head by done. destruct (class_of_nat n Hn) as [_ Hk].
  set (k := class_nat n) in *. pose proof (bd_rep _ _ H) as Hr. unfold alloc_spec in Ha.
  destruct (first_block _ _ _) as [[j y]|] eqn:E; [|done].
  case_bool_decide as B; [subst j|done]. injection Ha as -> <-.
  destruct (first_block_some _ _ _ _ _ E) as (_ & Hl & _).
  destruct (pop_loop_some _ _ _ _ _ Hr Hk E) as (s' & Ep & Hr' & Hc' & Ho').
  destruct (buddy_pop _ _ _ _ _ H Hk Hl Hr' Hc' Ho') as [Hb Hcov].
  assert (Hin : z ∈ list_at ls k) by (by apply last_Some_elem_of).
  pose proof (class_small _ _ _ _ Hr Hk Hin). pose proof (rep_max _ _ Hr).
  exists s'. run Ep by idtac.
  rewrite (proj2 (Z.eqb_neq _ _)) by (unfold ERRO_POP_BLOCK; lia).
  run (alloc_helper_same 11 k z s') by idtac. autorewrite with kern.
  rewrite (cfg_start _ _ Hc'). split; [done|]. split; [done|]. split; [done|].
  split; [done|]. split; [done|]. apply list_at_insert_ne. unfold is_class in Hk. lia.
Qed.

(** The same on any lists the descriptors represent, invariant or not. *)
Lemma pmm_alloc_pages_rep s ls n z :
  rep s ls -> 1 <= n <= 1024 -> last (list_at ls (class_nat n)) = Some z ->
  exists s', pmm_alloc_pages n s = Ret s' (granted s (class_nat n) z) [] /\
    rep s' (<[class_nat n := drop_last (list_at ls (class_nat n))]> ls) /\ cfg s' = cfg s.
Proof.
  intros Hr Hn Hl. rewrite pmm_alloc_pages_head by done. destruct (class_of_nat n Hn) as [_ Hk].
  set (k := class_nat n) in *.
  assert (Hf : first_block (11 - k) k ls = Some (k, z)).
  { unfold is_class in Hk. destruct (11 - k)%nat eqn:?; [lia|]. cbn [first_block]. by rewrite Hl. }
  destruct (pop_loop_some _ _ _ _ _ Hr Hk Hf) as (s' & Ep & Hr' & Hc' & _).
  pose proof (class_small _ _ _ _ Hr Hk (last_Some_elem_of _ _ Hl)). pose proof (rep_max _ _ Hr).
  exists s'. run Ep by idtac. rewrite (proj2 (Z.eqb_neq _ _)) by (unfold ERRO_POP_BLOCK; lia).
  run (alloc_helper_same 11 k z s') by idtac. autorewrite with kern.
  by rewrite (cfg_start _ _ Hc').
Qed.

(** A split by one class of a block at one of the pages 1 to 11: the upper half
    is filed under the class [z - 1], whatever its size. *)
Lemma pmm_alloc_pages_misfile s ls n z c :
  rep s ls -> 1 <= n <= 1024 -> first_block (11 - class_nat n) (class_nat n) ls = Some (S (class_nat n), z) ->
  is_class c -> z = Z.of_nat c + 1 -> z + 2 ^ class_nat n < pmm_max_page_no s ->
  z + 2 ^ class_nat n ∉ concat (<[S (class_nat n) := drop_last (list_at ls (S (class_nat n)))]> ls) ->
  exists s', pmm_alloc_pages n s = Ret s' (granted s (class_nat n) z) [] /\
    rep s' (append_spec c (z + 2 ^ class_nat n)
              (<[S (class_nat n) := drop_last (list_at ls (S (class_nat n)))]> ls)) /\ cfg s' = cfg s.
Proof.
  intros Hr Hn Hf Hc Hz Hmx Hnin. rewrite pmm_alloc_pages_head by done.
  destruct (class_of_nat n Hn) as [_ Hk]. set (k := class_nat n) in *.
  destruct (pop_loop_some _ _ _ _ _ Hr Hk Hf) as (s1 & Ep & Hr1 & Hc1 & _).
  pose proof (class_pow k Hk) as Hp. pose proof (rep_max _ _ Hr).
  destruct (first_block_some _ _ _ _ _ Hf) as (Hkj & _ & _).
  run Ep by idtac. rewrite (proj2 (Z.eqb_neq _ _)) by (unfold ERRO_POP_BLOCK; lia).
  assert (Hck : is_class (S k)) by (unfold is_class in *; lia).
  assert (E2 : 2 ^ S k / 2 = 2 ^ k) by (rewrite Nat2Z.inj_succ, Z.pow_succ_r by lia; dlia).
  destruct (append_block_rep s1 _ c (z + 2 ^ k) Hr1 Hc) as (s2 & Ea & Hr2 & Hc2 & _);
    [rewrite (cfg_max _ _ Hc1); lia|done|].
  assert (Eh : alloc_helper 12 k (S k) z s1 = Ret s2 z []).
  { rewrite (alloc_helper_step 11) by lia. rewrite c_to_uint32_eq by done.
    rewrite E2, (u32_small (z + 2 ^ k)), (u32_small (z - 1)) by lia.
    replace (z - 1) with (Z.of_nat c) by lia. run Ea by idtac.
    replace (Z.of_nat (S k) - 1) with (Z.of_nat k) by lia. apply alloc_helper_same. }
  exists s2. run Eh by idtac. autorewrite with kern.
  assert (Hcc : cfg s2 = cfg s) by congruence. rewrite (cfg_start _ _ Hcc). done.
Qed.

Lemma pmm_alloc_pages_split s ls n j z :
  rep s ls -> 1 <= n <= 1024 -> alloc_spec (class_nat n) ls = ASplit j z -> z = 0 \/ 12 <= z ->
  pmm_alloc_pages n s = Undef.
Proof.
  intros Hr Hn Ha Hz. rewrite pmm_alloc_pages_head by done. destruct (class_of_nat n Hn) as [_ Hk].
  set (k := class_nat n) in *. unfold alloc_spec in Ha.
  destruct (first_block _ _ _) as [[j' y]|] eqn:E; [|done].
  case_bool_decide as B; [done|]. injection Ha as -> ->.
  destruct (first_block_some _ _ _ _ _ E) as (Hj & Hl & _).
  destruct (pop_loop_some _ _ _ _ _ Hr Hk E) as (s' & Ep & Hr' & Hc' & Ho').
  assert (Hcj : is_class j) by (unfold is_class; lia).
  assert (Hin : z ∈ list_at ls j) by (by apply last_Some_elem_of).
  pose proof (class_small _ _ _ _ Hr Hcj Hin). pose proof (rep_max _ _ Hr).
  run Ep by idtac. rewrite (proj2 (Z.eqb_neq _ _)) by (unfold ERRO_POP_BLOCK; lia).
  unfold bind. rewrite alloc_helper_undef by lia. done.
Qed.

(** ** The single pages *)

Lemma elem_of_covered ls p :
  p ∈ covered ls <-> exists k b, b ∈ list_at ls k /\ p ∈ block k b.
Proof.
  unfold covered. assert (G : forall n ls, p ∈ covered_from n ls <->
    exists k b, b ∈ list_at ls k /\ p ∈ block (n + k) b).
  { clear ls. intros n ls. revert n. induction ls as [|l ls IH]; intros n; simpl.
    - split; [set_solver|]. intros (k & b & Hb & _). by apply elem_of_nil in Hb.
    - rewrite elem_of_app, IH. unfold class_pages. rewrite list_elem_of_In, in_concat. split.
      + intros [(x & Hx & Hp)|(k & b & Hb & Hp)].
        * apply in_map_iff in Hx as (b & <- & Hb). exists 0%nat, b. rewrite Nat.add_0_r.
          split; by apply list_elem_of_In.
        * exists (S k), b. split; [done|]. by replace (n + S k)%nat with (S n + k)%nat by lia.
      + intros ([|k] & b & Hb & Hp).
        * left. exists (block n b). rewrite Nat.add_0_r in Hp. split; [|by apply list_elem_of_In].
          apply in_map. by apply list_elem_of_In.
        * right. exists k, b. split; [done|]. by replace (S n + k)%nat with (n + S k)%nat by lia. }
  apply (G 0%nat).
Qed.


Lemma blocks_wf_single first ls l' :
  blocks_wf first ls -> NoDup (covered (<[11%nat := l']> ls)) ->
  (forall p, p ∈ l' -> first <= p) -> blocks_wf first (<[11%nat := l']> ls).
Proof.
  intros [Hlen Hn Ha Hs] Hn' Hl'. split; [by rewrite length_insert|done| |].
  - intros j p Hj Hp. rewrite list_at_insert_ne in Hp by (unfold is_class in Hj; lia). by apply Ha.
  - intros p. rewrite list_at_insert_eq by lia. apply Hl'.
Qed.

Lemma buddy_single s s' ls l' :
  buddy s ls -> rep s' (<[11%nat := l']> ls) -> cfg s' = cfg s ->
  NoDup (covered (<[11%nat := l']> ls)) ->
  (forall p, p ∈ l' -> singel_page_first_no s <= p) ->
  (forall p pg, singel_page_first_no s <= p -> page_array s' !! p = Some pg -> p ∉ l' -> next pg = None) ->
  buddy s' (<[11%nat := l']> ls).
Proof.
  intros H Hr Hc Hn Hl Hnx. pose proof (bw_length _ _ (bd_wf _ _ H)).
  split; rewrite ?(cfg_first _ _ Hc), ?(cfg_max _ _ Hc); [done| | |exact (bd_first _ _ H)].
  - apply blocks_wf_single; [apply H|done|done].
  - intros p pg. rewrite list_at_insert_eq by lia. apply Hnx.
Qed.

Lemma single_root s ls :
  rep s ls -> roots s !! 11%nat = Some (SINGLE_LINK s) /\ linked (page_array s) (SINGLE_LINK s) (list_at ls 11) /\
  (length (list_at ls 11) < list_fuel s)%nat.
Proof.
  intros Hr. destruct (rep_list_at _ _ 11 Hr ltac:(lia)) as (_ & h & Hh & Hlk & Hf).
  injection Hh as <-. done.
Qed.

(** Dropping the last single page. *)
Lemma covered_single_last s ls l z :
  rep s ls -> list_at ls 11 = l ++ [z] -> covered ls ≡ₚ z :: covered (<[11%nat := l]> ls).
Proof. intros Hr Hl. rewrite (covered_last 11 z l) by (rewrite ?(rep_length _ _ Hr); auto with lia). done. Qed.

Lemma single_pop s s' ls l z :
  buddy s ls -> list_at ls 11 = l ++ [z] -> rep s' (<[11%nat := l]> ls) -> cfg s' = cfg s ->
  page_array s' !! z = page_array s !! z ->
  (forall q, q ∉ list_at ls 11 -> page_array s' !! q = page_array s !! q) ->
  buddy s' (<[11%nat := l]> ls).
Proof.
  intros H Hl Hr Hc Hz Ho. pose proof (bd_rep _ _ H) as Hrs. apply (buddy_single s); try done.
  - pose proof (bw_nodup _ _ (bd_wf _ _ H)) as Hn.
    rewrite (covered_single_last _ _ _ _ Hrs Hl) in Hn. by apply NoDup_cons in Hn as [_ Hn].
  - intros p Hp. apply (bw_single _ _ (bd_wf _ _ H)). rewrite Hl. set_solver.
  - intros p pg Hp Hpg Hnin. destruct (single_root _ _ Hrs) as (_ & Hlk & _).
    destruct (decide (p = z)) as [->|Hne].
    + rewrite Hl in Hlk. destruct (linked_last _ _ _ _ Hlk) as (pg' & Hpg' & Hnx). congruence.
    + rewrite Ho in Hpg by (rewrite Hl; set_solver).
      apply (bd_single_next _ _ H p pg Hp Hpg). rewrite Hl. set_solver.
Qed.

Lemma pmm_alloc_one_page_single s ls l z :
  buddy s ls -> list_at ls 11 = l ++ [z] ->
  exists s', pmm_alloc_one_page s = Ret s' (granted s 0 z) [] /\
    buddy s' (<[11%nat := l]> ls) /\ cfg s' = cfg s.
Proof.
  intros H Hl. pose proof (bd_rep _ _ H) as Hr. unfold pmm_alloc_one_page. autorewrite with kern.
  destruct (single_root _ _ Hr) as (Hroot & Hlk & _). rewrite Hl in Hlk.
  destruct (exists_last (l := l ++ [z])) as (l0 & y & E); [by destruct l|].
  destruct l as [|h l].
  - simpl in Hlk. destruct Hlk as (Hs & pg & Hpg & Hnx). rewrite Hs. autorewrite with kern.
    run (page_at_eq _ _ _ Hpg) by idtac. rewrite Hnx. autorewrite with kern.
    rewrite (proj1 (rep_array _ _ Hr) _ _ Hpg). eexists. split; [done|]. split; [|done].
    apply (single_pop s _ ls [] z); try done.
    apply (rep_set s _ ls 11 None []); try done; [lia|apply Hr|].
    pose proof (rep_nodup_split _ _ 11 Hr ltac:(lia)) as Hn. by apply NoDup_app in Hn as (_ & _ & Hn).
  - destruct (exists_last (l := h :: l)) as (l1 & y1 & E1); [done|].
    pose proof Hlk as Hlk'. simpl in Hlk. destruct Hlk as (Hs & pg & Hpg & Hnx).
    rewrite Hs in Hroot. rewrite E1, <- app_assoc in Hl. simpl in Hl.
    destruct (unlink_last_rep s ls 11 l1 y1 z h Hr ltac:(lia) Hl Hroot) as (s' & Eu & Hr' & Hc' & Hz & Ho).
    rewrite Hs. autorewrite with kern. run (page_at_eq _ _ _ Hpg) by idtac.
    destruct (next pg) as [q|] eqn:Eq; [|by destruct l, Hnx].
    run Eu by idtac. autorewrite with kern. eexists. split; [done|]. rewrite E1.
    split; [|done]. apply (single_pop s _ ls _ z); try done. by rewrite Hl, <- app_assoc.
Qed.

Lemma pmm_alloc_one_page_empty s ls :
  rep s ls -> list_at ls 11 = [] -> pmm_alloc_one_page s = pmm_alloc_pages 1 s.
Proof.
  intros Hr Hl. destruct (single_root _ _ Hr) as (_ & Hlk & _). rewrite Hl in Hlk. simpl in Hlk.
  unfold pmm_alloc_one_page. autorewrite with kern. by rewrite Hlk.
Qed.

(** ** Release *)

Lemma pmm_free_page_head s p c st :
  0 <= p < 1048576 ->
  pmm_free_page (Build_pm_alloc_t (pmm_page_no_to_addr (pmm_page_start s) p) c st) s =
    (if p <? pmm_max_page_no s then
       (if p <? singel_page_first_no s then free_helper 13 p c
        else
          sl <- gets SINGLE_LINK ;;
          match sl with
          | None => modify (set_single (Some p))
          | Some h =>
              fuel <- gets list_fuel ;;
              probe <- walk_last fuel h ;;
              set_next probe (Some p)
          end) ;;
       ret true
     else ret false) s.
Proof.
  intros Hp. unfold pmm_free_page. autorewrite with kern. cbn [addr size].
  by rewrite page_addr_inverse.
Qed.

Lemma pmm_free_page_block s ls (k : nat) p st :
  buddy s ls -> freeable (singel_page_first_no s) ls k p ->
  match free_spec (10 - k) p ls with
  | Some ls' => exists s' t,
      pmm_free_page (Build_pm_alloc_t (pmm_page_no_to_addr (pmm_page_start s) p) k st) s = Ret s' true t /\
      buddy s' ls' /\ cfg s' = cfg s
  | None =>
      pmm_free_page (Build_pm_alloc_t (pmm_page_no_to_addr (pmm_page_start s) p) k st) s = Undef
  end.
Proof.
  intros H Hf. pose proof (fr_class _ _ _ _ Hf) as Hk. pose proof (class_pow k Hk).
  pose proof (fr_nonneg _ _ _ _ Hf). pose proof (fr_below _ _ _ _ Hf). pose proof (bd_first _ _ H).
  pose proof (rep_max _ _ (bd_rep _ _ H)). unfold is_class in Hk.
  rewrite pmm_free_page_head by lia.
  rewrite (proj2 (Z.ltb_lt _ _)), (proj2 (Z.ltb_lt p (singel_page_first_no s))) by lia.
  assert (Ek : (10 - (10 - k))%nat = k) by lia.
  pose proof (free_helper_eq 13 (10 - k) p s ls ltac:(lia) ltac:(lia) H) as Hh.
  rewrite Ek in Hh. specialize (Hh Hf). destruct (free_spec _ _ _) as [ls'|].
  - destruct Hh as (s' & t & E & H' & Hc'). unfold bind at 1. rewrite E. eexists s', _. done.
  - unfold bind. by rewrite Hh.
Qed.

Lemma covered_fresh_single first ls p :
  blocks_wf first ls -> first <= p -> p ∉ list_at ls 11 -> p ∉ covered ls.
Proof.
  intros H Hp Hnin Hin. apply elem_of_covered in Hin as (k & b & Hb & Hpb).
  apply elem_of_block in Hpb. pose proof (bw_length _ _ H).
  assert (Hk : (k < 12)%nat).
  { destruct (decide (k < 12)%nat); [done|]. unfold list_at in Hb.
    rewrite lookup_ge_None_2 in Hb by lia. by apply elem_of_nil in Hb. }
  destruct (decide (k = 11%nat)) as [->|Hne].
  - change (width 11) with 1 in Hpb. apply Hnin. by replace p with b by lia.
  - assert (Hc : is_class k) by (unfold is_class; lia). rewrite class_width in Hpb by done.
    destruct (bw_aligned _ _ H _ _ Hc Hb). lia.
Qed.

Lemma pmm_free_page_single s ls p c st :
  buddy s ls -> singel_page_first_no s <= p < pmm_max_page_no s -> 0 <= p -> p ∉ list_at ls 11 ->
  exists s',
    pmm_free_page (Build_pm_alloc_t (pmm_page_no_to_addr (pmm_page_start s) p) c st) s = Ret s' true [] /\
    buddy s' (append_spec 11 p ls) /\ cfg s' = cfg s.
Proof.
  intros H Hp H0 Hnin. pose proof (bd_rep _ _ H) as Hr. pose proof (rep_max _ _ Hr).
  pose proof (bw_length _ _ (bd_wf _ _ H)) as Hlen.
  rewrite pmm_free_page_head by lia.
  rewrite (proj2 (Z.ltb_lt _ _)), (proj2 (Z.ltb_ge _ _)) by lia.
  pose proof (covered_fresh_single _ _ _ (bd_wf _ _ H) (proj1 Hp) Hnin) as Hcov.
  assert (Hc : p ∉ concat ls) by (intros Hin; by apply Hcov, concat_covered).
  destruct (present s ls p Hr ltac:(lia)) as [pg Hpg].
  pose proof (bd_single_next _ _ H p pg (proj1 Hp) Hpg Hnin) as Hnx.
  destruct (single_root _ _ Hr) as (Hroot & Hlk & Hf).
  assert (Hgoal : forall s', rep s' (append_spec 11 p ls) -> cfg s' = cfg s ->
    (forall q, q ∉ list_at ls 11 -> page_array s' !! q = page_array s !! q) ->
    buddy s' (append_spec 11 p ls)).
  { intros s' Hr' Hc' Ho. apply (buddy_single s); try done.
    - fold (append_spec 11 p ls). rewrite covered_append by lia. apply NoDup_app.
      split; [apply NoDup_singleton|]. split; [|apply (bw_nodup _ _ (bd_wf _ _ H))].
      by intros q ->%list_elem_of_singleton.
    - intros q [Hq|Hq]%elem_of_app; [by apply (bw_single _ _ (bd_wf _ _ H))|set_solver].
    - intros q pq Hq Hpq Hq'. rewrite elem_of_app in Hq'. rewrite Ho in Hpq by tauto.
      apply (bd_single_next _ _ H q pq Hq Hpq). tauto. }
  match goal with |- context [bind ?c (fun _ => ret true) s] =>
    assert (Hin : exists s', c s = Ret s' tt [] /\ buddy s' (append_spec 11 p ls) /\ cfg s' = cfg s);
    [|destruct Hin as (s' & E & Hs'); exists s'; rewrite (bind_ret_eq _ _ _ _ _ _ E); done]
  end.
  autorewrite with kern. destruct (list_at ls 11) as [|x l0] eqn:El.
  - rewrite Hlk. eexists. split; [done|].
    assert (Hr' : rep (set_single (Some p) s) (append_spec 11 p ls))
      by (apply (rep_link_first s _ ls 11 p pg); done || lia).
    split; [|done]. by apply Hgoal.
  - destruct (exists_last (l := x :: l0)) as (l1 & z & E1); [done|].
    rewrite E1 in *. pose proof Hlk as Hlk'. rewrite <- E1 in Hlk'. simpl in Hlk'.
    destruct Hlk' as (Hs & _). rewrite Hs in Hlk. rewrite Hs. autorewrite with kern.
    rewrite length_app in Hf. simpl in Hf.
    run (walk_last_eq _ _ _ _ _ Hlk) by lia.
    destruct (linked_elem _ _ _ z Hlk) as [pz Hz]; [set_solver|].
    rewrite (set_next_eq _ _ _ _ Hz). eexists. split; [done|].
    pose proof (rep_link_last s ls 11 l1 z p pg pz Hr ltac:(lia) El Hc Hpg Hnx Hz) as Hr'.
    split; [|done]. apply Hgoal; [done|done|]. intros q Hq. simpl.
    apply lookup_insert_ne. set_solver.
Qed.
