(* ===== verification/PmmInit.v ===== *)
(** * The initial free lists

    [pmm_page_init] on a machine with at least 2048 managed pages builds lists
    that satisfy the invariant of [PmmInv] and hold every page exactly once. *)

From S2P Require Import Prelude Memory KernLog Pmm PmmSpec PmmInv PmmAlloc.

Definition fresh_page (p : Z) : pm_page_t := Build_pm_page_t p None 1.

(** The lists cover the pages below [t]; the descriptors from [t] on are as
    [init_pages] left them. *)
Record building (mx t : Z) (s : pmm) (ls : list (list Z)) : Prop := {
  bl_rep : rep s ls;
  bl_max : pmm_max_page_no s = mx;
  bl_wf : blocks_wf t ls;
  bl_single : list_at ls 11 = [];
  bl_covered : covered ls ≡ₚ seqZ 0 t;
  bl_fresh : forall q, t <= q < mx -> page_array s !! q = Some (fresh_page q);
  bl_start : 0 <= t
}.

Lemma init_pages_eq n i s :
  exists arr, init_pages n i s = Ret (set_array (fun _ => arr) s) tt [] /\
    forall p, arr !! p = if decide (i <= p < i + n) then Some (fresh_page p) else page_array s !! p.
Proof.
  revert i s. induction n as [|n IH]; intros i s.
  - exists (page_array s). split; [by destruct s|]. intros p. by rewrite decide_False by lia.
  - cbn [init_pages]. autorewrite with kern. destruct (IH (i + 1) (set_array (insert i (fresh_page i)) s))
      as (arr & E & Harr). unfold fresh_page at 1 in E. rewrite E. exists arr. split; [by destruct s|].
    intros p. rewrite Harr. cbn [page_array set_array].
    destruct (decide (i + 1 <= p < i + 1 + n)), (decide (i <= p < i + S n)); try lia; try done.
    + assert (p = i) as -> by lia. by rewrite lookup_insert_eq.
    + rewrite lookup_insert_ne by lia. done.
Qed.

Lemma building_start s mx arr :
  pmm_max_page_no s = mx -> 0 <= mx <= 1048576 -> MULTI_LINK s = no_links -> SINGLE_LINK s = None ->
  (forall p, arr !! p = if decide (0 <= p < mx) then Some (fresh_page p) else None) ->
  building mx 0 (set_array (fun _ => arr) s) (replicate 12 []).
Proof.
  intros Hmx Hr Hm Hs Harr. split; [|done|split|done|done| |lia].
  - split; [|by apply NoDup_nil| |simpl; lia].
    + unfold roots. cbn [set_array MULTI_LINK SINGLE_LINK].
      rewrite Hm, Hs. repeat constructor.
    + split; cbn [set_array page_array pmm_max_page_no].
      * intros p pg. rewrite Harr. case_decide; [by intros [= <-]|done].
      * intros p. rewrite Harr, Hmx. case_decide; naive_solver.
  - done.
  - apply NoDup_nil_2.
  - intros k p Hk. case_class Hk; by intros ?%elem_of_nil.
  - by intros p ?%elem_of_nil.
  - intros q Hq. cbn [set_array page_array]. rewrite Harr, decide_True; [done|lia].
Qed.

Lemma blocks_wf_weaken t t' ls :
  blocks_wf t ls -> list_at ls 11 = [] -> t <= t' -> blocks_wf t' ls.
Proof.
  intros [Hlen Hn Ha Hs] Hnil Ht. split; [done|done| |].
  - intros k p Hk Hp. destruct (Ha k p Hk Hp) as (? & ? & ?). split; [done|]. split; [done|lia].
  - intros p. rewrite Hnil. by intros ?%elem_of_nil.
Qed.

Lemma building_append mx t s ls (k : nat) :
  building mx t s ls -> is_class k -> t `mod` 2 ^ k = 0 -> t + 2 ^ k <= mx ->
  exists s', append_block t k s = Ret s' tt [] /\ building mx (t + 2 ^ k) s' (append_spec k t ls) /\
    cfg s' = cfg s /\ SINGLE_LINK s' = SINGLE_LINK s.
Proof.
  intros [Hr Hmx Hw Hs Hc Hf H0] Hk Ha Hb. pose proof (class_pow k Hk) as Hp.
  assert (Hfr : freeable (t + 2 ^ k) ls k t).
  { split; [done|lia|done|lia|]. unfold block. rewrite class_width, Hc by done.
    rewrite (Permutation_app_comm _ _). pose proof (seqZ_app 0 t (2 ^ k)) as E.
    rewrite Z.add_0_l in E. rewrite <- E by lia. apply NoDup_seqZ. }
  assert (Hcc : t ∉ concat ls).
  { intros Hin%concat_covered. rewrite Hc, elem_of_seqZ in Hin. lia. }
  pose proof (bw_length _ _ Hw) as Hlen.
  destruct (append_block_rep s ls k t Hr Hk ltac:(lia) Hcc) as (s' & E & Hr' & Hcfg & Ho).
  exists s'. split; [done|].
  assert (Hnil : list_at (append_spec k t ls) 11 = [])
    by (unfold append_spec; rewrite list_at_insert_ne; [done|unfold is_class in Hk; lia]).
  split; [|split; [done|]].
  - split; [done|by rewrite (cfg_max _ _ Hcfg)| |done| | |lia].
    + apply blocks_wf_append; [|done]. apply (blocks_wf_weaken t); [done|done|lia].
    + rewrite covered_append by (unfold is_class in Hk; lia). unfold block.
      rewrite class_width, Hc, (Permutation_app_comm _ _) by done.
      pose proof (seqZ_app 0 t (2 ^ k)) as E'. rewrite Z.add_0_l in E'. by rewrite E' by lia.
    + intros q Hq. rewrite Ho; [apply Hf; lia|lia|]. intros Hin.
      destruct (bw_aligned _ _ Hw _ _ Hk Hin). lia.
  - destruct (single_root _ _ Hr') as (_ & Hl' & _), (single_root _ _ Hr) as (_ & Hl & _).
    rewrite Hnil in Hl'. rewrite Hs in Hl. simpl in *. congruence.
Qed.

(** The pages [p], [p+1024], ... below [q]. *)
Definition kilo (p q : Z) : list Z := map (fun i => p + 1024 * i) (seqZ 0 ((q - p) / 1024)).

Lemma kilo_nil p : kilo p p = [].
Proof. unfold kilo. by rewrite Z.sub_diag. Qed.

Lemma kilo_cons p q : p < q -> (q - p) `mod` 1024 = 0 -> kilo p q = p :: kilo (p + 1024) q.
Proof.
  intros Hp Hm. unfold kilo.
  assert (E : (q - p) / 1024 = 1 + (q - (p + 1024)) / 1024) by dlia.
  rewrite E, seqZ_cons by dlia. cbn [map]. rewrite Z.mul_0_r, Z.add_0_r. f_equal.
  replace (Z.pred (1 + (q - (p + 1024)) / 1024)) with ((q - (p + 1024)) / 1024) by lia.
  rewrite <- (fmap_add_seqZ 1 0). change (Z.add 1 <$> ?l) with (map (Z.add 1) l).
  rewrite map_map. apply map_ext. intros i. lia.
Qed.

Lemma building_1024 fuel mx t s ls :
  building mx t s ls -> 2048 <= t <= mx -> (2048 < t -> t < mx) -> t `mod` 1024 = 0 ->
  mx <= 1048576 -> (Z.to_nat (mx - t) < fuel)%nat ->
  exists s' t', append_1024_loop fuel t s = Ret s' t' [] /\
    building mx t' s' (<[10%nat := list_at ls 10 ++ kilo t t']> ls) /\
    t <= t' <= mx /\ mx - 1024 <= t' /\ (2048 < t' -> t' < mx) /\ t' `mod` 1024 = 0 /\
    cfg s' = cfg s /\ SINGLE_LINK s' = SINGLE_LINK s.
Proof.
  revert t s ls. induction fuel as [|fuel IH]; intros t s ls H Ht Htm Ha Hmx Hf; [lia|].
  cbn [append_1024_loop]. autorewrite with kern. rewrite (bl_max _ _ _ _ H).
  rewrite !u32_small by lia. pose proof (bw_length _ _ (bl_wf _ _ _ _ H)) as Hlen.
  destruct (Z.ltb_spec t (mx - 1024)).
  - destruct (building_append mx t s ls 10 H) as (s1 & E & H1 & Hc & Hs);
      [by unfold is_class; lia|done|change (2 ^ 10%nat) with 1024; lia|].
    change (Z.of_nat 10) with _1024 in E. run E by idtac.
    change (2 ^ 10%nat) with 1024 in H1.
    destruct (IH (t + 1024) s1 _ H1) as (s' & t' & E' & H' & ? & ? & ? & Hm & Hc' & Hs');
      [lia|lia|rewrite Zplus_mod, Ha; done|lia|lia|].
    rewrite E'. exists s', t'. split; [done|]. split.
    + unfold append_spec in H'. rewrite list_at_insert_eq, list_insert_insert_eq, <- app_assoc in H' by lia.
      rewrite (kilo_cons t t') by dlia. exact H'.
    + do 3 (split; [lia|]). split; [done|]. split; congruence.
  - exists s, t. split; [done|]. split.
    + rewrite kilo_nil, app_nil_r. unfold list_at.
      destruct (lookup_lt_is_Some_2 ls 10) as [l Hl]; [lia|]. rewrite Hl. cbn [default].
      by rewrite list_insert_id.
    + do 3 (split; [lia || done|]). done.
Qed.

(** The single-page loop: the pages from [t] on are linked in order. *)
Record singles (mx first t : Z) (s : pmm) (ls : list (list Z)) : Prop := {
  sg_rep : rep s ls;
  sg_max : pmm_max_page_no s = mx;
  sg_first : singel_page_first_no s = first;
  sg_wf : blocks_wf first ls;
  sg_single : list_at ls 11 = seqZ first (t - first);
  sg_covered : covered ls ≡ₚ seqZ 0 t;
  sg_fresh : forall q, t <= q < mx -> page_array s !! q = Some (fresh_page q);
  sg_start : 0 <= first <= t
}.

Lemma singles_start mx t s ls :
  building mx t s ls -> singles mx t t (set_first t s) ls.
Proof.
  intros [Hr Hmx Hw Hs Hc Hf H0]. split; try done; [|by rewrite Hs, Z.sub_diag].
  destruct Hr as [Hl Hn Ha Hm]. split; done.
Qed.

Lemma singles_append mx first t s s' ls :
  singles mx first t s ls -> t < mx -> rep s' (append_spec 11 t ls) -> cfg s' = cfg s ->
  (forall q, t < q < mx -> page_array s' !! q = page_array s !! q) ->
  singles mx first (t + 1) s' (append_spec 11 t ls).
Proof.
  intros [Hr Hmx Hfi Hw Hs Hc Hf H0] Ht Hr' Hcfg Ho. pose proof (bw_length _ _ Hw) as Hlen.
  pose proof (seqZ_app 0 t 1) as E. rewrite Z.add_0_l in E.
  assert (Hcov : covered (append_spec 11 t ls) ≡ₚ seqZ 0 (t + 1)).
  { rewrite covered_append, Hc, (Permutation_app_comm _ _) by lia. by rewrite E by lia. }
  split; try done; [by rewrite (cfg_max _ _ Hcfg)|by rewrite (cfg_first _ _ Hcfg)| | | |lia].
  - apply blocks_wf_single; [done| |].
    + fold (append_spec 11 t ls). rewrite Hcov. apply NoDup_seqZ.
    + intros p [Hp|Hp]%elem_of_app; [by apply (bw_single _ _ Hw)|].
      apply list_elem_of_singleton in Hp as ->. lia.
  - unfold append_spec. rewrite list_at_insert_eq, Hs by lia.
    replace (t + 1 - first) with ((t - first) + 1) by lia. rewrite seqZ_app by lia.
    by replace (first + (t - first)) with t by lia.
  - intros q Hq. rewrite Ho by lia. apply Hf. lia.
Qed.

Lemma singles_not_listed mx first t s ls p :
  singles mx first t s ls -> t <= p -> p ∉ concat ls.
Proof. intros H Hp Hin%concat_covered. rewrite (sg_covered _ _ _ _ _ H), elem_of_seqZ in Hin. lia. Qed.

Lemma single_loop_more fuel mx first t s ls :
  singles mx first (t + 1) s ls -> first <= t < mx -> mx <= 1048576 -> (Z.to_nat (mx - t) <= fuel)%nat ->
  exists s' ls', single_loop fuel (t + 1) (Some t) s = Ret s' tt [] /\ singles mx first mx s' ls' /\
    forall k : nat, k <> 11%nat -> list_at ls' k = list_at ls k.
Proof.
  revert t s ls. induction fuel as [|fuel IH]; intros t s ls H Ht Hmx Hf; [lia|].
  pose proof (sg_rep _ _ _ _ _ H) as Hr. pose proof (sg_start _ _ _ _ _ H) as H0.
  cbn [single_loop]. autorewrite with kern. rewrite (sg_max _ _ _ _ _ H), u32_small by lia.
  destruct (Z.ltb_spec (t + 1) mx).
  2:{ assert (t + 1 = mx) as E by lia. rewrite E in *. exists s, ls. done. }
  autorewrite with kern. destruct (single_root _ _ Hr) as (_ & Hlk & _).
  assert (El : list_at ls 11 = seqZ first (t - first) ++ [t]).
  { rewrite (sg_single _ _ _ _ _ H). replace (t + 1 - first) with (t - first + 1) by lia.
    rewrite seqZ_app by lia. by replace (first + (t - first)) with t by lia. }
  rewrite El in Hlk. assert (Hne : SINGLE_LINK s <> None)
    by (destruct (seqZ first (t - first)); simpl in Hlk; destruct Hlk; congruence).
  destruct (SINGLE_LINK s) as [h|]; [|done].
  destruct (linked_elem _ _ _ t Hlk) as [pt Hpt]; [apply elem_of_app; right; by constructor|].
  run (set_next_eq s t (Some (t + 1)) pt Hpt) by idtac.
  pose proof (sg_fresh _ _ _ _ _ H (t + 1) ltac:(lia)) as Hn.
  pose proof (rep_link_last s ls 11 _ t (t + 1) _ pt Hr ltac:(lia) El
                (singles_not_listed _ _ _ _ _ (t + 1) H ltac:(lia)) Hn eq_refl Hpt) as Hr'.
  match type of Hr' with rep ?s1 _ =>
    destruct (IH (t + 1) s1 (append_spec 11 (t + 1) ls)) as (s' & ls' & E & H' & Hk); [|lia|done|lia|] end.
  - eapply (singles_append _ _ _ s); [done|lia|exact Hr'|done|].
    intros q Hq. cbn [set_array page_array]. apply lookup_insert_ne. lia.
  - exists s', ls'. split; [done|]. split; [done|]. intros k Hk11. rewrite Hk by done.
    unfold append_spec. by apply list_at_insert_ne.
Qed.

Lemma single_loop_eq fuel mx t s ls :
  singles mx t t s ls -> t <= mx -> SINGLE_LINK s = None -> mx <= 1048576 ->
  (Z.to_nat (mx - t) < fuel)%nat ->
  exists s' ls', single_loop fuel t None s = Ret s' tt [] /\ singles mx t mx s' ls' /\
    forall k : nat, k <> 11%nat -> list_at ls' k = list_at ls k.
Proof.
  intros H Ht Hs Hmx Hf. destruct fuel as [|fuel]; [lia|]. pose proof (sg_start _ _ _ _ _ H) as H0.
  pose proof (sg_rep _ _ _ _ _ H) as Hr.
  cbn [single_loop]. autorewrite with kern. rewrite (sg_max _ _ _ _ _ H), u32_small by lia.
  destruct (Z.ltb_spec t mx).
  2:{ assert (t = mx) as -> by lia. exists s, ls. done. }
  autorewrite with kern. rewrite Hs. autorewrite with kern.
  assert (Hr' : rep (set_single (Some t) s) (append_spec 11 t ls)).
  { eapply (rep_link_first s); [done|lia| | |apply (sg_fresh _ _ _ _ _ H); lia|done|done|done|done].
    - by rewrite (sg_single _ _ _ _ _ H), Z.sub_diag.
    - by apply (singles_not_listed _ _ _ _ _ t H). }
  destruct (single_loop_more fuel mx t t (set_single (Some t) s) (append_spec 11 t ls))
    as (s' & ls' & E & H' & Hk); [|lia|done|lia|].
  - by apply (singles_append _ _ _ s).
  - exists s', ls'. split; [done|]. split; [done|]. intros k Hk11. rewrite Hk by done.
    unfold append_spec. by apply list_at_insert_ne.
Qed.

Lemma singles_buddy mx first s ls :
  singles mx first mx s ls -> buddy s ls /\ covered ls ≡ₚ seqZ 0 mx.
Proof.
  intros [Hr Hmx Hfi Hw Hs Hc Hf H0]. split; [|done]. rewrite <- Hfi in *. split; try done; [|lia].
  intros p pg Hp Hpg Hnin. exfalso. apply Hnin. rewrite Hs. apply elem_of_seqZ.
  assert (0 <= p < pmm_max_page_no s) by (apply (proj2 (rep_array _ _ Hr)); by eexists). lia.
Qed.

(** One of the unrolled calls of [append_block]: class [k] at the current page. *)
Ltac append_step mx k :=
  match goal with
  | H : building mx ?t ?s ?ls, S0 : SINGLE_LINK ?s = None |- _ =>
      let s' := fresh "s" in let E := fresh "E" in
      let H' := fresh "H" in let S' := fresh "S" in
      destruct (building_append mx t s ls k H) as (s' & E & H' & _ & S');
      [unfold is_class; lia
      |reflexivity
      |let w := eval vm_compute in (t + 2 ^ Z.of_nat k) in
       change (t + 2 ^ Z.of_nat k) with w; lia
      |let w := eval vm_compute in (t + 2 ^ Z.of_nat k) in
       change (t + 2 ^ Z.of_nat k) with w in H'; rewrite S0 in S';
       erewrite bind_ret_eq by (exact E); rewrite prepend_nil; clear H E S0]
  end.

(** The lists after the twelve calls. *)
Definition first_lists : list (list Z) :=
  [[0; 1]; [2]; [4]; [8]; [16]; [32]; [64]; [128]; [256]; [512]; [1024]; []].

(** Initialisation leaves the bounds of memory alone. *)
Lemma keeps_page_at p : preserves pmm_page_start (page_at p).
Proof. intros s s' a t. unfold page_at. destruct (page_array s !! p); [|done]. by intros [= <- _ _]. Qed.
Lemma keeps_header_of c : preserves pmm_page_start (header_of c).
Proof. intros s s' a t. unfold header_of. destruct (ml_get c _); [|done]. by intros [= <- _ _]. Qed.
#[local] Hint Resolve keeps_page_at keeps_header_of : keeps_part.

Lemma keeps_nofuel {A} : preserves pmm_page_start (nofuel (A := A)).
Proof. done. Qed.
Lemma keeps_undef {A} : preserves pmm_page_start (undef (A := A)).
Proof. done. Qed.
#[local] Hint Resolve keeps_nofuel keeps_undef : keeps_part.

Lemma keeps_set_next p v : preserves pmm_page_start (set_next p v).
Proof. unfold set_next. auto with keeps_part. Qed.
Lemma keeps_walk_last fuel p : preserves pmm_page_start (walk_last fuel p).
Proof.
  revert p. induction fuel as [|fuel IH]; intros p; cbn [walk_last]; [done|].
  apply preserves_bind; [auto with keeps_part|]. intros pg. destruct (next pg); auto with keeps_part.
Qed.
#[local] Hint Resolve keeps_set_next keeps_walk_last : keeps_part.

Lemma keeps_append p c : preserves pmm_page_start (append_block p c).
Proof.
  unfold append_block. repeat (apply preserves_bind; [auto with keeps_part|intros ?]).
  destruct a0; unfold set_header; auto with keeps_part.
Qed.
Lemma keeps_init_pages n i : preserves pmm_page_start (init_pages n i).
Proof. revert i. induction n as [|n IH]; intros i; cbn [init_pages]; auto with keeps_part. Qed.
#[local] Hint Resolve keeps_append keeps_init_pages : keeps_part.
Lemma keeps_1024 fuel t : preserves pmm_page_start (append_1024_loop fuel t).
Proof. revert t. induction fuel as [|fuel IH]; intros t; cbn [append_1024_loop]; auto 6 with keeps_part. Qed.
Lemma keeps_single fuel t p : preserves pmm_page_start (single_loop fuel t p).
Proof.
  revert t p. induction fuel as [|fuel IH]; intros t p; cbn [single_loop]; [done|].
  apply preserves_bind; [auto with keeps_part|]. intros mx. apply preserves_if; [|auto with keeps_part].
  apply preserves_bind; [auto with keeps_part|]. intros [q|]; [destruct p|]; auto with keeps_part.
Qed.
#[local] Hint Resolve keeps_1024 keeps_single : keeps_part.

Lemma keeps_fill : preserves pmm_page_start fill_lists.
Proof.
  unfold fill_lists.
  repeat match goal with |- preserves _ (bind _ _) => apply preserves_bind; [auto with keeps_part|intros ?] end.
  auto with keeps_part.
Qed.

(** The state after initialisation: the lists, and the pages kept as single
    pages. *)
Record initialised (s s' : pmm) (ls : list (list Z)) : Prop := {
  in_buddy : buddy s' ls;
  in_covered : covered ls ≡ₚ seqZ 0 (pmm_max_page_no s);
  in_max : pmm_max_page_no s' = pmm_max_page_no s;
  in_start : pmm_page_start s' = pmm_page_start s;
  in_single : list_at ls 11 = seqZ (singel_page_first_no s') (pmm_max_page_no s - singel_page_first_no s');
  in_first : singel_page_first_no s' `mod` 1024 = 0;
  in_least : 2048 <= singel_page_first_no s';
  in_rest : 0 <= pmm_max_page_no s - singel_page_first_no s' <= 1024;
  in_some : 2048 < singel_page_first_no s' -> singel_page_first_no s' < pmm_max_page_no s;
  in_lists : forall k : nat, k <> 11%nat ->
    list_at ls k = list_at (<[10%nat := 1024 :: kilo 2048 (singel_page_first_no s')]> first_lists) k
}.

(** The two parts of [pmm_page_init], before and after its [printk]. *)
Lemma page_init_parts s :
  2048 <= pmm_max_page_no s <= 1048576 -> page_array s = ∅ -> SINGLE_LINK s = None ->
  exists s1 t s' ls, fill_lists s = Ret s1 t [] /\ pmm_max_page_no s1 = pmm_max_page_no s /\
    single_loop (S (Z.to_nat (pmm_max_page_no s))) t None s1 = Ret s' tt [] /\ singel_page_first_no s' = t /\ initialised s s' ls.
Proof.
  intros Hmx Ha Hs. enough (exists s1 t s' ls, fill_lists s = Ret s1 t [] /\ pmm_max_page_no s1 = pmm_max_page_no s /\
    single_loop (S (Z.to_nat (pmm_max_page_no s))) t None s1 = Ret s' tt [] /\ singel_page_first_no s' = t /\
    (pmm_page_start s' = pmm_page_start s -> initialised s s' ls)) as (s1 & t & s' & ls & E1 & M1 & E2 & Ef & H).
  { exists s1, t, s', ls. do 4 (split; [done|]). apply H. by rewrite (keeps_single _ _ _ _ _ _ _ E2), (keeps_fill _ _ _ _ E1). }
  set (mx := pmm_max_page_no s) in *. unfold fill_lists. autorewrite with kern.
  set (s0 := set_multi (fun _ => no_links) s).
  destruct (init_pages_eq (Z.to_nat mx) 0 s0) as (arr & E & Harr).
  change (pmm_max_page_no s0) with mx. run E by idtac.
  assert (Harr' : forall p, arr !! p = if decide (0 <= p < mx) then Some (fresh_page p) else None).
  { intros p. rewrite Harr. change (page_array s0) with (page_array s). rewrite Ha, lookup_empty.
    do 2 case_decide; try done; lia. }
  pose proof (building_start s0 mx arr eq_refl ltac:(lia) eq_refl Hs Harr') as H.
  set (s1 := set_array _ s0) in *. assert (Hs1 : SINGLE_LINK s1 = None) by done.
  clearbody s1. clear Harr Harr' E s0 arr.
  append_step mx 0%nat. append_step mx 0%nat. append_step mx 1%nat. append_step mx 2%nat.
  append_step mx 3%nat. append_step mx 4%nat. append_step mx 5%nat. append_step mx 6%nat.
  append_step mx 7%nat. append_step mx 8%nat. append_step mx 9%nat. append_step mx 10%nat.
  match goal with H : building mx 2048 ?s ?ls |- _ =>
    change ls with first_lists in H;
    destruct (building_1024 (S (Z.to_nat mx)) mx 2048 s first_lists H)
      as (sa & t & E & Hb2 & Ht & Hlast & Htm & Ht' & _ & Hsa); [lia|lia|done|lia|lia|] end.
  match goal with S0 : SINGLE_LINK ?s = None, E2 : SINGLE_LINK sa = SINGLE_LINK ?s |- _ =>
    rewrite S0 in E2 end.
  run E by idtac. autorewrite with kern.
  apply singles_start in Hb2.
  destruct (single_loop_eq (S (Z.to_nat mx)) mx t _ _ Hb2) as (sb & lb & Eb & H3 & Hk);
    [lia|exact Hsa|lia|lia|].
  destruct (singles_buddy _ _ _ _ H3) as [Hbud Hcov].
  eexists _, t, sb, lb. split; [reflexivity|]. split; [exact (sg_max _ _ _ _ _ Hb2)|]. split; [exact Eb|].
  pose proof (sg_first _ _ _ _ _ H3) as Ef. split; [exact Ef|]. intros Hst.
  split; try done; rewrite ?Ef; [exact (sg_max _ _ _ _ _ H3)|exact (sg_single _ _ _ _ _ H3)|done|lia..|exact Hk].
Qed.

Lemma page_init_initialised s :
  2048 <= pmm_max_page_no s <= 1048576 -> page_array s = ∅ -> SINGLE_LINK s = None ->
  exists s' ls t, pmm_page_init s = Ret s' tt t /\ initialised s s' ls.
Proof.
  intros Hmx Ha Hs. destruct (page_init_parts s Hmx Ha Hs) as (s1 & t & s' & ls & E1 & M1 & E2 & _ & H).
  exists s', ls. eexists. split; [|exact H]. unfold pmm_page_init, within, holds_itself, print, pmm_console, event_console.
  run E1 by idtac. autorewrite with kern. rewrite M1, E2. reflexivity.
Qed.

Lemma pmm_page_init_buddy s :
  2048 <= pmm_max_page_no s <= 1048576 -> page_array s = ∅ -> SINGLE_LINK s = None ->
  exists s' ls t, pmm_page_init s = Ret s' tt t /\ buddy s' ls /\
    covered ls ≡ₚ seqZ 0 (pmm_max_page_no s) /\ pmm_max_page_no s' = pmm_max_page_no s /\
    singel_page_first_no s' `mod` 1024 = 0 /\
    0 <= pmm_max_page_no s - singel_page_first_no s' <= 1024.
Proof.
  intros Hm Ha Hs. destruct (page_init_initialised s Hm Ha Hs) as (s' & ls & t & E & []). by exists s', ls, t.
Qed.
