(* ===== verification/PmmSys.v ===== *)
(** * The allocator as a transition system

    A state is the allocator with the blocks handed out and not yet returned;
    the steps are the calls of the interface.  The free pages and the pages of
    the live blocks always partition the managed pages, as long as no request
    makes [alloc_helper] split a block. *)

From S2P Require Import Prelude Memory KernLog Pmm PmmSpec PmmInv PmmAlloc PmmInit.

(** ** The system *)

(** The pages of a descriptor handed out by the allocator. *)
Definition pages_of (start : Z) (r : pm_alloc_t) : list Z :=
  seqZ (addr_to_pmm_page_no start (addr r)) (2 ^ size r).
Definition live_pages (start : Z) (live : list pm_alloc_t) : list Z :=
  concat (map (pages_of start) live).

(** The request finds a block of exactly its class, or none at all. *)
Definition no_split (n : Z) (s : pmm) : Prop :=
  roots s !! class_nat n <> Some None \/
  forall j : nat, (class_nat n <= j <= 10)%nat -> roots s !! j = Some None.

Definition grant (r : pm_alloc_t) (live : list pm_alloc_t) : list pm_alloc_t :=
  if al_state r =? 1 then r :: live else live.

Inductive pm_step : pmm * list pm_alloc_t -> pmm * list pm_alloc_t -> Prop :=
  | step_alloc_pages n s s' r t live :
      0 <= n < 4294967296 -> no_split n s -> pmm_alloc_pages n s = Ret s' r t ->
      pm_step (s, live) (s', grant r live)
  | step_alloc_one s s' r t live :
      (SINGLE_LINK s = None -> no_split 1 s) -> pmm_alloc_one_page s = Ret s' r t ->
      pm_step (s, live) (s', grant r live)
  | step_free r s s' b t l1 l2 :
      pmm_free_page r s = Ret s' b t ->
      pm_step (s, l1 ++ r :: l2) (s', l1 ++ l2).

(** The same calls without the restriction on the request. *)
Inductive pm_call : pmm * list pm_alloc_t -> pmm * list pm_alloc_t -> Prop :=
  | call_alloc_pages n s s' r t live :
      0 <= n < 4294967296 -> pmm_alloc_pages n s = Ret s' r t -> pm_call (s, live) (s', grant r live)
  | call_alloc_one s s' r t live :
      pmm_alloc_one_page s = Ret s' r t -> pm_call (s, live) (s', grant r live)
  | call_free r s s' b t l1 l2 :
      pmm_free_page r s = Ret s' b t -> pm_call (s, l1 ++ r :: l2) (s', l1 ++ l2).

(** ** The invariant *)

(** A live block is one the allocator hands out: a block of its class below
    the single pages, or a single page. *)
Definition live_ok (s : pmm) (r : pm_alloc_t) : Prop :=
  exists (k : nat) p, r = granted s k p /\ is_class k /\ 0 <= p /\
    ((p `mod` 2 ^ k = 0 /\ p + 2 ^ k <= singel_page_first_no s) \/
     (k = 0%nat /\ singel_page_first_no s <= p < pmm_max_page_no s)).

Record pm_inv (mx : Z) (x : pmm * list pm_alloc_t) (ls : list (list Z)) : Prop := {
  pi_buddy : buddy x.1 ls;
  pi_max : pmm_max_page_no x.1 = mx;
  pi_pages : covered ls ++ live_pages (pmm_page_start x.1) x.2 ≡ₚ seqZ 0 mx;
  pi_live : Forall (live_ok x.1) x.2
}.

Lemma live_ok_cfg s s' r : cfg s' = cfg s -> live_ok s r -> live_ok s' r.
Proof.
  intros Hc (k & p & -> & H). exists k, p. unfold granted.
  by rewrite (cfg_start _ _ Hc), (cfg_first _ _ Hc), (cfg_max _ _ Hc).
Qed.

Lemma pages_granted s (k : nat) p :
  0 <= p < 1048576 -> is_class k -> pages_of (pmm_page_start s) (granted s k p) = block k p.
Proof.
  intros Hp Hk. unfold pages_of, granted, block. cbn [addr size].
  by rewrite page_addr_inverse, class_width.
Qed.

Lemma pm_inv_change mx s s' live live' ls ls' :
  pm_inv mx (s, live) ls -> buddy s' ls' -> cfg s' = cfg s ->
  covered ls' ++ live_pages (pmm_page_start s) live' ≡ₚ covered ls ++ live_pages (pmm_page_start s) live ->
  Forall (live_ok s) live' -> pm_inv mx (s', live') ls'.
Proof.
  intros [H Hm Hp Hl] H' Hc Hp' Hl'. cbn [fst snd] in *. split; cbn [fst snd]; [done| | |].
  - by rewrite (cfg_max _ _ Hc).
  - by rewrite (cfg_start _ _ Hc), Hp', Hp.
  - eapply Forall_impl; [exact Hl'|]. intros r. by apply live_ok_cfg.
Qed.

Lemma block_moves (a b l c : list Z) : a ≡ₚ b ++ c -> c ++ (b ++ l) ≡ₚ a ++ l.
Proof. intros ->. by rewrite app_assoc, (Permutation_app_comm c b). Qed.

Lemma pm_inv_grant mx s s' live ls ls' (k : nat) z :
  pm_inv mx (s, live) ls -> buddy s' ls' -> cfg s' = cfg s ->
  covered ls ≡ₚ block k z ++ covered ls' -> live_ok s (granted s k z) -> 0 <= z < 1048576 ->
  is_class k -> pm_inv mx (s', grant (granted s k z) live) ls'.
Proof.
  intros H H' Hc Hcov Hok Hz Hk. change (grant (granted s k z) live) with (granted s k z :: live).
  eapply pm_inv_change; [exact H|exact H'|exact Hc| |constructor; [exact Hok|apply H]].
  unfold live_pages. simpl. rewrite pages_granted by done. by apply block_moves.
Qed.

(** An allocation of several pages. *)
Lemma no_split_spec s ls n :
  rep s ls -> 1 <= n <= 1024 -> no_split n s ->
  alloc_spec (class_nat n) ls = AFail \/ exists z ls', alloc_spec (class_nat n) ls = AExact z ls'.
Proof.
  intros Hr Hn Hs. destruct (class_of_nat n Hn) as [_ Hk]. unfold alloc_spec.
  destruct (first_block _ _ _) as [[j z]|] eqn:E; [|by left].
  destruct (first_block_some _ _ _ _ _ E) as (Hj & Hl & Hnil).
  case_bool_decide as B; [right; eauto|]. exfalso. unfold is_class in Hk.
  assert (Hempty : forall i, (i < 12)%nat -> list_at ls i = [] <-> roots s !! i = Some None).
  { intros i Hi. destruct (rep_list_at _ _ i Hr Hi) as (_ & h & Hh & Hlk & _). rewrite Hh.
    destruct (list_at ls i); simpl in Hlk; [by subst|]. destruct Hlk as [-> _]. split; done. }
  destruct Hs as [Hs|Hs].
  - apply Hs, Hempty; [lia|]. apply Hnil. lia.
  - rewrite (proj2 (Hempty j ltac:(lia))) in Hl by (apply Hs; lia). done.
Qed.

Lemma pmm_alloc_pages_bad n s :
  0 <= n -> ~ 1 <= n <= 1024 -> pmm_alloc_pages n s = Ret s alloc_failed [].
Proof.
  intros H0 Hn. unfold pmm_alloc_pages. destruct (Z.gtb_spec n 1024); [done|].
  by rewrite (proj2 (Z.eqb_eq n 0)) by lia.
Qed.

Lemma inv_alloc_pages mx n s s' r t live ls :
  pm_inv mx (s, live) ls -> 0 <= n -> no_split n s -> pmm_alloc_pages n s = Ret s' r t ->
  exists ls', pm_inv mx (s', grant r live) ls'.
Proof.
  intros H H0 Hs E. pose proof (pi_buddy _ _ _ H) as Hb. cbn [fst] in Hb.
  destruct (decide (1 <= n <= 1024)) as [Hn|Hn].
  - destruct (no_split_spec s ls n (bd_rep _ _ Hb) Hn Hs) as [Ha|(z & ls' & Ha)].
    + rewrite (pmm_alloc_pages_fail _ _ _ (bd_rep _ _ Hb) Hn Ha) in E. injection E as <- <- <-. by exists ls.
    + destruct (class_of_nat n Hn) as [_ Hk].
      destruct (pmm_alloc_pages_exact _ _ _ _ _ Hb Hn Ha) as (s1 & E1 & Hb1 & Hc & Hcov & Hin & _).
      rewrite E1 in E. injection E as <- <- <-. exists ls'.
      destruct (bw_aligned _ _ (bd_wf _ _ Hb) _ _ Hk Hin) as (Hz & Hal & Hbe).
      pose proof (class_pow _ Hk). pose proof (bd_first _ _ Hb). pose proof (rep_max _ _ (bd_rep _ _ Hb)).
      eapply pm_inv_grant; try done; [|lia]. eexists _, z. split; [done|]. auto.
  - rewrite pmm_alloc_pages_bad in E by done. injection E as <- <- <-. by exists ls.
Qed.

Lemma inv_alloc_one mx s s' r t live ls :
  pm_inv mx (s, live) ls -> (SINGLE_LINK s = None -> no_split 1 s) ->
  pmm_alloc_one_page s = Ret s' r t -> exists ls', pm_inv mx (s', grant r live) ls'.
Proof.
  intros H Hs E. pose proof (pi_buddy _ _ _ H) as Hb. cbn [fst] in Hb.
  pose proof (bd_rep _ _ Hb) as Hr. destruct (single_root _ _ Hr) as (_ & Hlk & _).
  destruct (last (list_at ls 11)) as [z|] eqn:El.
  - pose proof (last_split _ _ El) as Hl.
    destruct (pmm_alloc_one_page_single _ _ _ _ Hb Hl) as (s1 & E1 & Hb1 & Hc).
    rewrite E1 in E. injection E as <- <- <-. eexists.
    assert (Hin : z ∈ list_at ls 11) by (by apply last_Some_elem_of).
    pose proof (bw_single _ _ (bd_wf _ _ Hb) z Hin).
    assert (Hz : 0 <= z < pmm_max_page_no s)
      by (apply (proj2 (rep_array _ _ Hr)); by eapply linked_elem).
    pose proof (rep_max _ _ Hr).
    assert (Hk : is_class 0) by (unfold is_class; lia).
    eapply (pm_inv_grant _ _ _ _ _ _ 0 z); [done|done|done| | |lia|done].
    + by rewrite (covered_single_last _ _ _ _ Hr Hl).
    + exists 0%nat, z. split; [done|]. split; [done|]. split; [lia|]. right. split; [done|lia].
  - apply last_None in El. rewrite El in Hlk. simpl in Hlk.
    rewrite (pmm_alloc_one_page_empty _ _ Hr El) in E. eapply (inv_alloc_pages mx 1); [exact H|lia|by apply Hs|exact E].
Qed.

(** Releasing a live block. *)
Lemma live_pages_split start l1 r l2 :
  live_pages start (l1 ++ r :: l2) ≡ₚ pages_of start r ++ live_pages start (l1 ++ l2).
Proof.
  unfold live_pages. rewrite !map_app, !concat_app. simpl.
  by rewrite !app_assoc, (Permutation_app_comm _ (pages_of start r)).
Qed.

Lemma inv_free mx r s s' b t l1 l2 ls :
  pm_inv mx (s, l1 ++ r :: l2) ls -> pmm_free_page r s = Ret s' b t ->
  exists ls', pm_inv mx (s', l1 ++ l2) ls'.
Proof.
  intros H E. pose proof (pi_buddy _ _ _ H) as Hb. cbn [fst] in Hb.
  pose proof (pi_live _ _ _ H) as Hlive. cbn [fst snd] in Hlive.
  apply Forall_app in Hlive as [Hl1 Hl2]. apply Forall_cons in Hl2 as [Hr Hl2].
  assert (Hl : Forall (live_ok s) (l1 ++ l2)) by (by apply Forall_app).
  destruct Hr as (k & p & -> & Hk & H0 & Hp).
  pose proof (class_pow _ Hk). pose proof (bd_first _ _ Hb). pose proof (rep_max _ _ (bd_rep _ _ Hb)).
  assert (Hlen := bw_length _ _ (bd_wf _ _ Hb)).
  assert (Hr : 0 <= p < 1048576) by lia.
  assert (Hfresh : NoDup (block k p ++ covered ls)).
  { pose proof (pi_pages _ _ _ H) as Hpg. cbn [fst snd] in Hpg.
    rewrite live_pages_split, (pages_granted _ _ _ Hr Hk) in Hpg.
    pose proof (NoDup_seqZ 0 mx) as Hn. rewrite <- Hpg, app_assoc in Hn.
    apply NoDup_app in Hn as [Hn _]. by rewrite Permutation_app_comm. }
  assert (Hmove : forall ls', covered ls' ≡ₚ block k p ++ covered ls -> buddy s' ls' -> cfg s' = cfg s ->
    pm_inv mx (s', l1 ++ l2) ls').
  { intros ls' Hcov Hb' Hc. eapply pm_inv_change; [exact H|done|done| |done].
    rewrite live_pages_split, (pages_granted _ _ _ Hr Hk), Hcov.
    rewrite (Permutation_app_comm (block k p)). by rewrite <- app_assoc. }
  destruct Hp as [[Ha Hbe]|[-> Hpr]].
  - assert (Hf : freeable (singel_page_first_no s) ls k p) by done.
    pose proof (pmm_free_page_block s ls k p 1 Hb Hf) as Hfree. unfold granted in E.
    destruct (free_spec _ _ _) as [ls'|] eqn:Es; [|by rewrite Hfree in E].
    destruct Hfree as (s1 & t1 & E1 & Hb1 & Hc). rewrite E1 in E. injection E as <- <- <-.
    assert (Ek : (10 - (10 - k))%nat = k) by (unfold is_class in Hk; lia).
    destruct (free_spec_ok _ (10 - k) p ls ls' ltac:(lia) (bd_wf _ _ Hb)) as (Hcov & _);
      [by rewrite Ek|done|].
    rewrite Ek in Hcov. exists ls'. by apply Hmove.
  - assert (Hnin : p ∉ list_at ls 11).
    { intros Hin. apply NoDup_app in Hfresh as (_ & Hn & _). apply (Hn p); [by apply elem_of_block; change (width 0) with 1; lia|].
      apply elem_of_covered. exists 11%nat, p. split; [done|].
      apply elem_of_block. change (width 11) with 1. lia. }
    destruct (pmm_free_page_single s ls p 0%nat 1 Hb Hpr H0 Hnin) as (s1 & E1 & Hb1 & Hc).
    unfold granted in E. rewrite E1 in E. injection E as <- <- <-.
    eexists. apply Hmove; [|done|done]. change (block 0 p) with (block 11 p). apply covered_append. lia.
Qed.

Lemma pm_step_inv mx x y ls :
  pm_inv mx x ls -> pm_step x y -> exists ls', pm_inv mx y ls'.
Proof.
  intros H Hs. destruct Hs as [n s s' r t live H0 Hn E|s s' r t live Hn E|r s s' b t l1 l2 E].
  - by eapply inv_alloc_pages; [done|apply H0| |].
  - by eapply inv_alloc_one.
  - by eapply inv_free.
Qed.

Lemma pm_steps_inv mx x y ls :
  pm_inv mx x ls -> rtc pm_step x y -> exists ls', pm_inv mx y ls'.
Proof.
  intros H Hs. revert ls H. induction Hs as [x|x y z Hxy _ IH]; intros ls H; [by exists ls|].
  destruct (pm_step_inv _ _ _ _ H Hxy) as [ls' H']. by eapply IH.
Qed.

Lemma pm_inv_start mx s ls :
  buddy s ls -> pmm_max_page_no s = mx -> covered ls ≡ₚ seqZ 0 mx -> pm_inv mx (s, []) ls.
Proof. intros H Hm Hc. split; cbn [fst snd]; [done|done| |done]. by rewrite app_nil_r. Qed.

Lemma pm_inv_disjoint mx s live ls :
  pm_inv mx (s, live) ls ->
  NoDup (live_pages (pmm_page_start s) live) /\ Forall (fun p => 0 <= p < mx) (live_pages (pmm_page_start s) live).
Proof.
  intros H. pose proof (pi_pages _ _ _ H) as Hp. cbn [fst snd] in Hp. split.
  - pose proof (NoDup_seqZ 0 mx) as Hn. rewrite <- Hp in Hn. by apply NoDup_app in Hn as (_ & _ & Hn).
  - apply Forall_forall. intros p Hin. assert (Hi : p ∈ seqZ 0 mx) by (rewrite <- Hp; set_solver).
    apply elem_of_seqZ in Hi. lia.
Qed.
