(* ===== verification/PmmThm.v ===== *)
(** * Properties of the physical page allocator

    The theorems of pmm.c, over the model of [Pmm] and the abstract lists of
    [PmmSpec] and [PmmInv]; each has a concrete instance. *)

From S2P Require Import Prelude Memory KernLog Pmm PmmSpec PmmInv PmmAlloc PmmInit PmmSys.

(** ** Small concrete states *)

Definition mk_array (nexts : list (option Z)) : gmap Z pm_page_t :=
  list_to_map (imap (fun i n => (Z.of_nat i, Build_pm_page_t (Z.of_nat i) n 1)) nexts).

Lemma arr_ok_check arr mx :
  map_Forall (fun p pg => page_no pg = p) arr ->
  dom arr = (list_to_set (seqZ 0 mx) : gset Z) -> arr_ok arr mx.
Proof.
  intros H Hd. split; [exact H|]. intros p. rewrite <- elem_of_dom, Hd, elem_of_list_to_set, elem_of_seqZ. lia.
Qed.

Ltac concrete_rep :=
  split;
  [repeat first [apply Forall2_nil_2 | apply Forall2_cons; split | constructor | reflexivity | eexists]
  |apply (bool_decide_unpack _); by vm_compute
  |apply arr_ok_check; apply (bool_decide_unpack _); by vm_compute
  |by vm_compute].

(** Eight pages: page 0 is handed out; 1 is a free block of one page, 2 and 4
    start free blocks of two pages, 6 and 7 are single pages. *)
Definition small_pmm : pmm :=
  Build_pmm
    (mk_array [None; None; Some 4; None; None; None; Some 7; None])
    (ml_set 1 (Some 2) (ml_set 0 (Some 1) no_links)) (Some 6) 2097152 2129920 8 6 (replicate 12 0).
Definition small_lists : list (list Z) := [[1]; [2; 4]; []; []; []; []; []; []; []; []; []; [6; 7]].

Lemma small_rep : rep small_pmm small_lists.
Proof. concrete_rep. Qed.

Ltac concrete_wf :=
  split;
  [reflexivity
  |apply (bool_decide_unpack _); by vm_compute
  |let k := fresh "k" in let p := fresh "p" in let Hk := fresh "Hk" in
   intros k p Hk; revert p; case_class Hk; apply Forall_forall; apply (bool_decide_unpack _); by vm_compute
  |apply Forall_forall; apply (bool_decide_unpack _); by vm_compute].

Lemma small_wf : blocks_wf 6 small_lists.
Proof. concrete_wf. Qed.

Lemma small_buddy : buddy small_pmm small_lists.
Proof.
  split; [apply small_rep|apply small_wf| |by vm_compute].
  intros p pg Hp Hpg Hn. exfalso. apply Hn.
  assert (Hr : 0 <= p < 8) by (apply (proj2 (rep_array _ _ small_rep)); by eexists).
  cbn in Hp. change (list_at small_lists 11) with [6; 7].
  assert (p = 6 \/ p = 7) as [-> | ->] by lia; set_solver.
Qed.

(** ** Initialisation *)

(** C15: On a machine with at least 2048 managed pages, and not more than the
    memory at [page_array] below 640 KB has room for (54592, that is 213 MB),
    [pmm_page_init] returns
    (its loops end and no descriptor outside [page_array] is touched), and the
    free lists it leaves are well formed: no page is on two lists or in two
    blocks, each block is aligned to its size and below the single-page area,
    and together they hold exactly the pages 0 .. pmm_max_page_no-1. *)
Theorem pmm_page_init_partition s :
  2048 <= pmm_max_page_no s -> page_array_fits (pmm_max_page_no s) -> page_array s = ∅ -> SINGLE_LINK s = None ->
  exists s' ls t, pmm_page_init s = Ret s' tt t /\ buddy s' ls /\
    covered ls ≡ₚ seqZ 0 (pmm_max_page_no s) /\ pmm_max_page_no s' = pmm_max_page_no s /\
    singel_page_first_no s' `mod` 1024 = 0 /\
    0 <= pmm_max_page_no s - singel_page_first_no s' <= 1024.
Proof. intros H1 H2%fits_pages. apply pmm_page_init_buddy. lia. Qed.

Lemma pmm_page_init_partition_witness :
  exists s' ls t, pmm_page_init (pmm_boot 2097152 5000) = Ret s' tt t /\ buddy s' ls /\
    covered ls ≡ₚ seqZ 0 5000 /\ pmm_max_page_no s' = 5000 /\
    singel_page_first_no s' `mod` 1024 = 0 /\ 0 <= 5000 - singel_page_first_no s' <= 1024.
Proof. apply (pmm_page_init_partition (pmm_boot 2097152 5000)); [cbn; lia|by apply fits_pages|reflexivity|reflexivity]. Defined.

(** ** Reachable states *)

(** C1: On a machine with at least 2048 managed pages, whose descriptors fit
    below 640 KB: from the state [pmm_page_init] leaves, after any sequence of
    allocations and releases in which no request makes the allocator split a
    larger block, the blocks handed out and not yet released are pairwise
    disjoint and lie inside the managed pages, no page of them is on a free
    list, and free pages and handed-out pages together are all the pages. *)
Theorem pmm_no_double_allocation s0 s1 t0 s live :
  2048 <= pmm_max_page_no s0 -> page_array_fits (pmm_max_page_no s0) -> page_array s0 = ∅ -> SINGLE_LINK s0 = None ->
  pmm_page_init s0 = Ret s1 tt t0 -> rtc pm_step (s1, []) (s, live) ->
  NoDup (live_pages (pmm_page_start s) live) /\
  Forall (fun p => 0 <= p < pmm_max_page_no s0) (live_pages (pmm_page_start s) live) /\
  exists ls, buddy s ls /\
    covered ls ++ live_pages (pmm_page_start s) live ≡ₚ seqZ 0 (pmm_max_page_no s0).
Proof.
  intros Hm Hx%fits_pages Ha Hs E Hsteps.
  destruct (pmm_page_init_buddy s0 (conj Hm (Z.le_trans _ _ 1048576 Hx ltac:(lia))) Ha Hs) as (s' & ls & t & E' & Hb & Hc & Hmx & _).
  rewrite E in E'. injection E' as <- <-.
  destruct (pm_steps_inv _ _ _ _ (pm_inv_start _ _ _ Hb Hmx Hc) Hsteps) as [ls' H].
  destruct (pm_inv_disjoint _ _ _ _ H) as [H1 H2]. split; [done|]. split; [done|].
  exists ls'. destruct H as [? ? ? ?]. done.
Qed.

(** A boot with 2100 pages and one request for three pages. *)
Lemma boot_2100 :
  exists s1 t0 ls, pmm_page_init (pmm_boot 2097152 2100) = Ret s1 tt t0 /\ buddy s1 ls /\
    list_at ls 2 = [4].
Proof.
  destruct (page_init_initialised (pmm_boot 2097152 2100)) as (s1 & ls & t & E & H); [cbn; lia|done|done|].
  exists s1, t, ls. split; [done|]. split; [apply H|]. by apply (in_lists _ _ _ H).
Qed.

Lemma pmm_no_double_allocation_witness :
  exists s1 t0 s r, pmm_page_init (pmm_boot 2097152 2100) = Ret s1 tt t0 /\
    rtc pm_step (s1, []) (s, [r]) /\ size r = 2 /\
    NoDup (live_pages (pmm_page_start s) [r]).
Proof.
  destruct boot_2100 as (s1 & t0 & ls & E & H & Hl).
  assert (Ha : alloc_spec (class_nat 3) ls = AExact 4 (<[2%nat := []]> ls)).
  { change (class_nat 3) with 2%nat. unfold alloc_spec. cbn [Nat.sub first_block]. by rewrite Hl. }
  destruct (pmm_alloc_pages_exact s1 ls 3 _ _ H ltac:(lia) Ha) as (s2 & E2 & _).
  assert (Hs : rtc pm_step (s1, []) (s2, [granted s1 2 4])).
  { apply rtc_once. refine (step_alloc_pages 3 s1 s2 _ [] [] _ _ E2); [lia|].
    left. change (class_nat 3) with 2%nat.
    destruct (rep_list_at _ _ 2 (bd_rep _ _ H) ltac:(lia)) as (_ & h & Hh & Hlk & _).
    rewrite Hl in Hlk. destruct Hlk as [-> _]. by rewrite Hh. }
  exists s1, t0, s2, (granted s1 2 4). split; [done|]. split; [done|]. split; [done|].
  refine (proj1 (pmm_no_double_allocation (pmm_boot 2097152 2100) s1 t0 s2 _ _ _ eq_refl eq_refl E Hs)).
  - cbn; lia.
  - by apply fits_pages.
Defined.

(** ** Allocation *)

(** C14: [pmm_alloc_pages] on a well-formed state, in every case but one.  A
    count of 0 or above 1024, or no block of at least the requested class:
    the failure descriptor, state unchanged.  A block of exactly the requested
    class: the descriptor of the last such block, whose pages leave the free
    pages, and the state stays well formed.  Only larger blocks: when the
    block found does not start at one of the pages 2 to 11, the code reads an
    uninitialised pointer. *)
Theorem pmm_alloc_pages_spec s ls n :
  buddy s ls -> 0 <= n < 4294967296 ->
  if decide (1 <= n <= 1024) then
    match alloc_spec (class_nat n) ls with
    | AFail => pmm_alloc_pages n s = Ret s alloc_failed []
    | AExact z ls' =>
        exists s', pmm_alloc_pages n s = Ret s' (granted s (class_nat n) z) [] /\ buddy s' ls' /\
          cfg s' = cfg s /\ covered ls ≡ₚ block (class_nat n) z ++ covered ls'
    | ASplit j z => z = 0 \/ 12 <= z -> pmm_alloc_pages n s = Undef
    end
  else pmm_alloc_pages n s = Ret s alloc_failed [].
Proof.
  intros H Hn. case_decide as B; [|by apply pmm_alloc_pages_bad; lia].
  pose proof (bd_rep _ _ H) as Hr. destruct (alloc_spec _ _) as [|z ls'|j z] eqn:E.
  - by apply (pmm_alloc_pages_fail s ls).
  - destruct (pmm_alloc_pages_exact _ _ _ _ _ H B E) as (s' & H1 & H2 & H3 & H4 & _). by exists s'.
  - by apply (pmm_alloc_pages_split s ls n j).
Qed.

Lemma pmm_alloc_pages_spec_witness :
  pmm_alloc_pages 3 small_pmm = Ret small_pmm alloc_failed [] /\
  exists s', pmm_alloc_pages 2 small_pmm = Ret s' (granted small_pmm 1 4) [] /\
    buddy s' [[1]; [2]; []; []; []; []; []; []; []; []; []; [6; 7]].
Proof.
  split; [exact (pmm_alloc_pages_spec small_pmm small_lists 3 small_buddy ltac:(lia))|].
  destruct (pmm_alloc_pages_spec small_pmm small_lists 2 small_buddy ltac:(lia)) as (s' & H1 & H2 & _).
  by exists s'.
Defined.

(** The class [pmm_alloc_pages] computes for a request of 1 to 1024 pages
    is the smallest one whose blocks are large enough. *)
Theorem class_of_smallest n :
  1 <= n <= 1024 ->
  0 <= class_of n <= 10 /\ n <= 2 ^ class_of n /\ forall c, 0 <= c -> n <= 2 ^ c -> class_of n <= c.
Proof.
  intros Hn. rewrite class_of_log2_up by done. pose proof (Z.log2_up_nonneg n).
  split; [split; [done|]|split].
  - change 10 with (Z.log2_up 1024). apply Z.log2_up_le_mono. lia.
  - destruct (decide (n = 1)) as [->|]; [done|]. apply Z.log2_up_spec. lia.
  - intros c Hc Hle. destruct (decide (n = 1)) as [->|]; [done|].
    apply Z.log2_up_le_pow2; lia.
Qed.

Lemma class_of_smallest_witness : class_of 5 = 3 /\ 5 <= 2 ^ class_of 5.
Proof. split; [by vm_compute|]. apply (class_of_smallest 5). lia. Defined.

(** [pmm_alloc_one_page] takes the last page of the single-page list and
    marks nothing else; with that list empty it is [pmm_alloc_pages 1]. *)
Theorem pmm_alloc_one_page_spec s ls :
  buddy s ls ->
  match last (list_at ls 11) with
  | Some z =>
      exists s' ls', pmm_alloc_one_page s = Ret s' (granted s 0 z) [] /\
        buddy s' ls' /\ cfg s' = cfg s /\ covered ls ≡ₚ z :: covered ls' /\
        forall k : nat, is_class k -> list_at ls' k = list_at ls k
  | None => pmm_alloc_one_page s = pmm_alloc_pages 1 s
  end.
Proof.
  intros H. destruct (last (list_at ls 11)) as [z|] eqn:E.
  - pose proof (last_split _ _ E) as Hl.
    destruct (pmm_alloc_one_page_single s ls _ z H Hl) as (s' & H1 & H2 & H3).
    eexists s', _. split; [done|]. split; [done|]. split; [done|]. split.
    + by apply (covered_single_last s); [apply H|].
    + intros k Hk. apply list_at_insert_ne. unfold is_class in Hk. lia.
  - apply last_None in E. by apply (pmm_alloc_one_page_empty s ls); [apply H|].
Qed.

Lemma pmm_alloc_one_page_spec_witness :
  exists s' ls', pmm_alloc_one_page small_pmm = Ret s' (granted small_pmm 0 7) [] /\
    buddy s' ls' /\ cfg s' = cfg small_pmm /\ covered small_lists ≡ₚ 7 :: covered ls' /\
    forall k : nat, is_class k -> list_at ls' k = list_at small_lists k.
Proof. apply (pmm_alloc_one_page_spec small_pmm small_lists small_buddy). Defined.

(** ** Release *)

(** C13: Releasing a block the allocator handed out returns [True], keeps the
    lists well formed and makes exactly the pages of the block free again,
    merging it with its partner as long as the search finds the partner on its
    list; the one exception is a merge of two 1024-page blocks, where the code
    reads an uninitialised pointer. *)
Theorem pmm_free_page_spec s ls (k : nat) p st :
  buddy s ls -> freeable (singel_page_first_no s) ls k p ->
  let r := Build_pm_alloc_t (pmm_page_no_to_addr (pmm_page_start s) p) k st in
  match free_spec (10 - k) p ls with
  | Some ls' => exists s' t, pmm_free_page r s = Ret s' true t /\ buddy s' ls' /\ cfg s' = cfg s /\
      covered ls' ≡ₚ block k p ++ covered ls
  | None => pmm_free_page r s = Undef
  end.
Proof.
  intros H Hf r. pose proof (pmm_free_page_block s ls k p st H Hf) as Hb.
  destruct (free_spec _ _ _) as [ls'|] eqn:E; [|done].
  destruct Hb as (s' & t & H1 & H2 & H3). exists s', t. split; [done|]. split; [done|]. split; [done|].
  pose proof (fr_class _ _ _ _ Hf) as Hk. unfold is_class in Hk.
  assert (Ek : (10 - (10 - k))%nat = k) by lia.
  destruct (free_spec_ok _ (10 - k) p ls ls' ltac:(lia) (bd_wf _ _ H)) as (Hc & _); [by rewrite Ek|done|].
  by rewrite Ek in Hc.
Qed.

Lemma small_freeable : freeable 6 small_lists 0 0.
Proof. by split; [unfold is_class; lia| | |vm_compute|apply (bool_decide_unpack _); vm_compute]. Qed.

Lemma pmm_free_page_spec_witness :
  exists s' t,
    pmm_free_page (Build_pm_alloc_t (pmm_page_no_to_addr 2097152 0) 0%nat 1) small_pmm = Ret s' true t /\
    buddy s' [[]; [2; 4; 0]; []; []; []; []; []; []; []; []; []; [6; 7]].
Proof.
  destruct (pmm_free_page_spec small_pmm small_lists 0 0 1 small_buddy small_freeable)
    as (s' & t & H1 & H2 & _). by exists s', t.
Defined.

(** Releasing a single page appends it to the single-page list; a
    descriptor whose page number is not managed is refused and nothing changes. *)
Theorem pmm_free_page_other s ls p c st :
  buddy s ls -> 0 <= p < 1048576 -> singel_page_first_no s <= p -> p ∉ covered ls ->
  let r := Build_pm_alloc_t (pmm_page_no_to_addr (pmm_page_start s) p) c st in
  if decide (p < pmm_max_page_no s) then
    exists s', pmm_free_page r s = Ret s' true [] /\ buddy s' (append_spec 11 p ls) /\ cfg s' = cfg s
  else pmm_free_page r s = Ret s false [].
Proof.
  intros H Hp Hf Hn r. case_decide as B.
  - apply pmm_free_page_single; [done|lia|lia|]. intros Hin. apply Hn, elem_of_covered.
    exists 11%nat, p. split; [done|]. apply elem_of_block. pose proof (width_pos 11). lia.
  - unfold r. rewrite pmm_free_page_head by lia. by rewrite (proj2 (Z.ltb_ge _ _)) by lia.
Qed.

Lemma pmm_free_page_other_witness :
  pmm_free_page (Build_pm_alloc_t (pmm_page_no_to_addr 2097152 9) _1 1) small_pmm
    = Ret small_pmm false [].
Proof.
  apply (pmm_free_page_other small_pmm small_lists 9 _1 1 small_buddy); [lia|by vm_compute|].
  apply (bool_decide_unpack _). by vm_compute.
Defined.

(** A block of the exact class, taken and released. *)
Lemma alloc_exact_free s ls n z ls' :
  buddy s ls -> 1 <= n <= 1024 -> alloc_spec (class_nat n) ls = AExact z ls' ->
  exists s1, pmm_alloc_pages n s = Ret s1 (granted s (class_nat n) z) [] /\
    match free_spec (10 - class_nat n) z ls' with
    | Some ls2 => exists s2 t, pmm_free_page (granted s (class_nat n) z) s1 = Ret s2 true t /\
        buddy s2 ls2 /\ cfg s2 = cfg s /\ covered ls2 ≡ₚ covered ls
    | None => pmm_free_page (granted s (class_nat n) z) s1 = Undef
    end.
Proof.
  intros H Hn E. destruct (class_of_nat n Hn) as [_ Hk]. set (k := class_nat n) in *.
  destruct (pmm_alloc_pages_exact _ _ _ _ _ H Hn E) as (s1 & E1 & H1 & Hc & Hcov & Hin & _).
  exists s1. split; [done|]. fold k in Hcov.
  destruct (bw_aligned _ _ (bd_wf _ _ H) _ _ Hk Hin) as (H0 & Ha & Hb).
  assert (Hf : freeable (singel_page_first_no s1) ls' k z).
  { rewrite (cfg_first _ _ Hc). split; try done. rewrite <- Hcov. apply (bw_nodup _ _ (bd_wf _ _ H)). }
  pose proof (pmm_free_page_block s1 ls' k z 1 H1 Hf) as Hfree.
  rewrite (cfg_start _ _ Hc) in Hfree. fold (granted s k z) in Hfree.
  destruct (free_spec _ _ _) as [ls2|] eqn:Es; [|done].
  destruct Hfree as (s2 & t & E2 & H2 & Hc2). exists s2, t. split; [done|]. split; [done|].
  split; [congruence|]. assert (Ek : (10 - (10 - k))%nat = k) by (unfold is_class in Hk; lia).
  destruct (free_spec_ok _ (10 - k) z ls' ls2 ltac:(lia) (bd_wf _ _ H1)) as (Hc' & _);
    [by rewrite Ek|done|].
  by rewrite Hc', Ek, Hcov.
Qed.

(** An allocation of a block followed by its release gives back the same
    free pages, whatever merging the release does. *)
Theorem alloc_free_roundtrip s ls n z ls' :
  buddy s ls -> 1 <= n <= 1024 -> alloc_spec (class_nat n) ls = AExact z ls' ->
  exists s1, pmm_alloc_pages n s = Ret s1 (granted s (class_nat n) z) [] /\
    match free_spec (10 - class_nat n) z ls' with
    | Some ls2 => exists s2 t, pmm_free_page (granted s (class_nat n) z) s1 = Ret s2 true t /\
        buddy s2 ls2 /\ cfg s2 = cfg s /\ covered ls2 ≡ₚ covered ls
    | None => pmm_free_page (granted s (class_nat n) z) s1 = Undef
    end.
Proof. apply alloc_exact_free. Qed.

Lemma alloc_free_roundtrip_witness :
  exists s1, pmm_alloc_pages 2 small_pmm = Ret s1 (granted small_pmm 1 4) [] /\
    exists s2 t, pmm_free_page (granted small_pmm 1 4) s1 = Ret s2 true t /\
      buddy s2 small_lists /\ cfg s2 = cfg small_pmm /\ covered small_lists ≡ₚ covered small_lists.
Proof.
  exact (alloc_free_roundtrip small_pmm small_lists 2 4 _ small_buddy ltac:(lia) eq_refl).
Defined.

(** ** What the split and the merge of large blocks do *)

(** After boot, the requests for 3 and 4 pages split the block of eight pages. *)
Lemma boot_split s1 ls :
  buddy s1 ls -> 2048 <= singel_page_first_no s1 ->
  list_at ls 2 = [4] -> list_at ls 3 = [8] -> list_at ls 7 = [128] ->
  exists s3 ls3, rtc pm_call (s1, []) (s3, [granted s1 2 8; granted s1 2 4]) /\
    rep s3 ls3 /\ list_at ls3 7 = [128; 12] /\ cfg s3 = cfg s1.
Proof.
  intros H Hfi H2 H3 H7. pose proof (bd_first _ _ H) as Hmx.
  assert (Hlen := bw_length _ _ (bd_wf _ _ H)).
  assert (Ha : alloc_spec (class_nat 3) ls = AExact 4 (<[2%nat := []]> ls)).
  { change (class_nat 3) with 2%nat. unfold alloc_spec. cbn [Nat.sub first_block]. by rewrite H2. }
  destruct (pmm_alloc_pages_exact s1 ls 3 _ _ H ltac:(lia) Ha) as (s2 & E2 & Hb2 & Hc2 & _).
  change (class_nat 3) with 2%nat in E2. set (ls1 := <[2%nat := []]> ls) in *.
  assert (N2 : list_at ls1 2 = []) by (apply list_at_insert_eq; lia).
  assert (N3 : list_at ls1 3 = [8]) by (unfold ls1; by rewrite list_at_insert_ne).
  assert (N7 : list_at ls1 7 = [128]) by (unfold ls1; by rewrite list_at_insert_ne).
  assert (Hlen1 : length ls1 = 12%nat) by (unfold ls1; by rewrite length_insert).
  assert (Hnin : 12 ∉ concat (<[3%nat := []]> ls1)).
  { intros Hin%concat_covered. pose proof (bw_nodup _ _ (bd_wf _ _ Hb2)) as Hn.
    rewrite (covered_last 3 8 [] ls1) in Hn by (done || lia).
    apply NoDup_app in Hn as (_ & Hn & _). apply (Hn 12); [|done]. apply elem_of_block.
    rewrite class_width by (unfold is_class; lia). change (2 ^ 3%nat) with 8. lia. }
  destruct (pmm_alloc_pages_misfile s2 ls1 4 8 7 (bd_rep _ _ Hb2)) as (s3 & E3 & Hr3 & Hc3);
    change (class_nat 4) with 2%nat in *; change (2 ^ 2%nat) with 4 in *.
  - lia.
  - cbn [Nat.sub first_block]. by rewrite N2, N3.
  - unfold is_class. lia.
  - done.
  - rewrite (cfg_max _ _ Hc2). lia.
  - by rewrite N3.
  - change (8 + 4) with 12 in *. rewrite N3 in Hr3. eexists s3, _. split; [|split; [exact Hr3|split]].
    + eapply rtc_l; [eapply call_alloc_pages; [|exact E2]; lia|].
      apply rtc_once. assert (Eg : granted s1 2 8 = granted s2 2 8)
        by (unfold granted; by rewrite (cfg_start _ _ Hc2)).
      rewrite Eg. refine (call_alloc_pages 4 s2 s3 _ [] _ _ E3). lia.
    + unfold append_spec. rewrite list_at_insert_eq by (by rewrite length_insert, Hlen1; lia).
      rewrite list_at_insert_ne by lia. by rewrite N7.
    + congruence.
Qed.

(** C17: The restriction in the theorem on reachable states is needed: after
    every boot with at least 2048 pages whose descriptors fit below 640 KB, the requests for 3, 4, 128 and 128 pages, all granted, hand out
    two blocks that overlap.  The split files the upper half of a block under
    the class [pop_page_no-1] instead of the class below. *)
Theorem split_overlap s0 :
  2048 <= pmm_max_page_no s0 -> page_array_fits (pmm_max_page_no s0) -> page_array s0 = ∅ -> SINGLE_LINK s0 = None ->
  exists s1 t0 s live, pmm_page_init s0 = Ret s1 tt t0 /\ rtc pm_call (s1, []) (s, live) /\
    length live = 4%nat /\ Forall (fun r => al_state r = 1) live /\
    ~ NoDup (live_pages (pmm_page_start s) live).
Proof.
  intros Hm Hx%fits_pages Ha Hs.
  destruct (page_init_initialised s0 (conj Hm (Z.le_trans _ _ 1048576 Hx ltac:(lia))) Ha Hs) as (s1 & ls & t & E & [H _ _ _ _ _ Hfi _ _ Hl]).
  destruct (boot_split s1 ls H Hfi (Hl 2%nat ltac:(lia)) (Hl 3%nat ltac:(lia)) (Hl 7%nat ltac:(lia)))
    as (s3 & ls3 & Hsteps & Hr3 & N7 & Hc3).
  assert (Hlen := rep_length _ _ Hr3).
  destruct (pmm_alloc_pages_rep s3 ls3 128 12 Hr3) as (s4 & E4 & Hr4 & Hc4);
    change (class_nat 128) with 7%nat in *; [lia|by rewrite N7|].
  rewrite N7 in Hr4. change (drop_last [128; 12]) with [128] in Hr4.
  destruct (pmm_alloc_pages_rep s4 _ 128 128 Hr4) as (s5 & E5 & _ & Hc5);
    change (class_nat 128) with 7%nat in *; [lia|by rewrite list_at_insert_eq by lia|].
  exists s1, t, s5, [granted s4 7 128; granted s3 7 12; granted s1 2 8; granted s1 2 4].
  split; [done|]. split; [|split; [done|split; [by repeat constructor|]]].
  - etrans; [exact Hsteps|].
    eapply rtc_l; [refine (call_alloc_pages 128 s3 s4 _ [] _ _ E4); lia|].
    apply rtc_once. refine (call_alloc_pages 128 s4 s5 _ [] _ _ E5). lia.
  - assert (E1 : pmm_page_start s5 = pmm_page_start s4) by (by apply cfg_start).
    assert (E2 : pmm_page_start s5 = pmm_page_start s3) by (rewrite E1; by apply cfg_start).
    unfold live_pages. cbn [map concat]. rewrite E1 at 1. rewrite E2.
    rewrite !pages_granted by (unfold is_class; lia). intros Hn.
    apply NoDup_app in Hn as (_ & Hn & _). apply (Hn 128).
    + by apply elem_of_block.
    + apply elem_of_app. left. by apply elem_of_block.
Qed.

Lemma split_overlap_witness :
  exists s1 t0 s live, pmm_page_init (pmm_boot 2097152 2100) = Ret s1 tt t0 /\
    rtc pm_call (s1, []) (s, live) /\ length live = 4%nat /\ Forall (fun r => al_state r = 1) live /\
    ~ NoDup (live_pages (pmm_page_start s) live).
Proof. apply (split_overlap (pmm_boot 2097152 2100)); [cbn; lia|by apply fits_pages|done|done]. Defined.

(** With 4097 to 5120 managed pages, a request for 1024 pages after boot is
    granted, and its release runs into the missing class: the block is merged
    with its free partner and the 2048-page block is appended under [_erro],
    whose list header is an uninitialised pointer. *)
Theorem release_1024_undefined s0 :
  4097 <= pmm_max_page_no s0 <= 5120 -> page_array s0 = ∅ -> SINGLE_LINK s0 = None ->
  exists s1 t s r, pmm_page_init s0 = Ret s1 tt t /\ pmm_alloc_pages 1024 s1 = Ret s r [] /\
    al_state r = 1 /\ size r = _1024 /\ pmm_free_page r s = Undef.
Proof.
  intros Hm Ha Hs.
  destruct (page_init_initialised s0 ltac:(lia) Ha Hs) as (s1 & ls & t & E & [H _ Hmx _ _ Hmod Hfi Hd Hlt Hl]).
  assert (Hf : singel_page_first_no s1 = 4096) by dlia.
  specialize (Hl 10%nat ltac:(lia)). rewrite Hf in Hl.
  change (list_at _ _) with [1024; 2048; 3072] in Hl at 2. assert (Hlen := bw_length _ _ (bd_wf _ _ H)).
  assert (Hx : alloc_spec (class_nat 1024) ls = AExact 3072 (<[10%nat := [1024; 2048]]> ls)).
  { change (class_nat 1024) with 10%nat. unfold alloc_spec. cbn [Nat.sub first_block]. by rewrite Hl. }
  destruct (alloc_exact_free s1 ls 1024 _ _ H ltac:(lia) Hx) as (s2 & E2 & Hfree).
  change (class_nat 1024) with 10%nat in *. cbn [Nat.sub free_spec] in Hfree.
  rewrite list_at_insert_eq in Hfree by lia.
  exists s1, t, s2, (granted s1 10 3072). split; [done|]. split; [done|]. split; [done|]. split; [done|].
  exact Hfree.
Qed.

Lemma release_1024_undefined_witness :
  exists s1 t s r, pmm_page_init (pmm_boot 2097152 5000) = Ret s1 tt t /\
    pmm_alloc_pages 1024 s1 = Ret s r [] /\ al_state r = 1 /\ size r = _1024 /\ pmm_free_page r s = Undef.
Proof. apply (release_1024_undefined (pmm_boot 2097152 5000)); [cbn; lia|done|done]. Defined.

(** ** Counters, page numbers and the memory map *)

Lemma count_loop_eq fuel s h l c :
  linked (page_array s) h l -> (length l <= fuel)%nat -> 0 <= c -> c + length l < 4294967296 ->
  count_loop fuel h c s = Ret s (c + length l) [].
Proof.
  revert h l c. induction fuel as [|fuel IH]; intros h l c Hl Hf Hc Hb; destruct l as [|p l]; simpl in Hl, Hf.
  - subst. simpl. by rewrite Z.add_0_r.
  - lia.
  - subst. simpl. by rewrite Z.add_0_r.
  - destruct Hl as (-> & pg & Hp & Hl). cbn [count_loop]. run (page_at_eq _ _ _ Hp) by idtac.
    cbn [length] in Hb. rewrite (IH _ l); [|done|lia|apply u32_range|]; rewrite u32_small by lia; [|lia].
    cbn [length]. f_equal. lia.
Qed.

Lemma size_bound s ls : rep s ls -> (base.size (page_array s) <= Z.to_nat (pmm_max_page_no s))%nat.
Proof.
  intros Hr. rewrite <- size_dom.
  assert (E : dom (page_array s) = (list_to_set (seqZ 0 (pmm_max_page_no s)) : gset Z)).
  { apply set_eq. intros p. rewrite elem_of_dom, elem_of_list_to_set, elem_of_seqZ.
    rewrite (proj2 (rep_array _ _ Hr)). lia. }
  rewrite E, size_list_to_set by apply NoDup_seqZ. rewrite length_seqZ. lia.
Qed.

Lemma counte_helper_eq s ls (k : nat) h :
  rep s ls -> (k < 12)%nat -> roots s !! k = Some h ->
  counte_helper h s = Ret s (Z.of_nat (length (list_at ls k))) [].
Proof.
  intros Hr Hk Hh. destruct (rep_list_at _ _ k Hr Hk) as (_ & h' & Hh' & Hl & Hf).
  rewrite Hh in Hh'. injection Hh' as <-. unfold counte_helper. autorewrite with kern.
  pose proof (size_bound _ _ Hr). pose proof (rep_max _ _ Hr). unfold list_fuel in *.
  rewrite (count_loop_eq _ _ _ (list_at ls k)); [done|done|lia|lia|lia].
Qed.

Lemma rep_counts s ls v : rep s ls -> rep (set_counts v s) ls.
Proof. by intros [? ? ? ?]. Qed.

Lemma count_class_eq s ls (k : nat) (c : Z) :
  rep s ls -> is_class k -> c = Z.of_nat k ->
  count_class c s =
    Ret (set_counts (<[k := Z.of_nat (length (list_at ls k))]> (block_count_array s)) s) tt [].
Proof.
  intros Hr Hk ->. unfold count_class. destruct (header_of_eq s k Hk) as (h & Hh & E). run E by idtac.
  run (counte_helper_eq s ls k h Hr) by (done || unfold is_class in Hk; lia).
  unfold modify. by rewrite Nat2Z.id.
Qed.

Ltac count_step Hr k :=
  erewrite bind_ret_eq by (lazymatch type of Hr with rep _ ?ls => apply (count_class_eq _ ls k) end;
    [repeat apply rep_counts; exact Hr|unfold is_class; lia|reflexivity]);
  rewrite prepend_nil.

(** [get_block_count] stores the number of blocks of every class and 0 for
    [_erro], and [get_single_count] returns the number of single pages; the
    lists themselves do not change. *)
Theorem block_counts_correct s ls :
  buddy s ls -> length (block_count_array s) = 12%nat ->
  get_block_count s =
    Ret (set_counts (map (fun l => Z.of_nat (length l)) (take 11 ls) ++ [0]) s) tt [] /\
  get_single_count s = Ret s (Z.of_nat (length (list_at ls 11))) [].
Proof.
  intros H Hc. pose proof (bd_rep _ _ H) as Hr. split.
  - unfold get_block_count.
    count_step Hr 0%nat. count_step Hr 1%nat. count_step Hr 2%nat. count_step Hr 3%nat.
    count_step Hr 4%nat. count_step Hr 5%nat. count_step Hr 6%nat. count_step Hr 7%nat.
    count_step Hr 8%nat. count_step Hr 9%nat. count_step Hr 10%nat.
    unfold modify. cbn [block_count_array set_counts].
    pose proof (rep_length _ _ Hr) as Hlen.
    do 12 (destruct ls as [|? ls]; [done|]). destruct ls; [|done].
    revert Hc. generalize (block_count_array s) as cs. intros cs Hc.
    do 12 (destruct cs as [|? cs]; [done|]). destruct cs; [|done]. reflexivity.
  - unfold get_single_count. autorewrite with kern. apply (counte_helper_eq s ls 11); done || lia.
Qed.

Lemma block_counts_correct_witness :
  get_block_count small_pmm =
    Ret (set_counts [1; 2; 0; 0; 0; 0; 0; 0; 0; 0; 0; 0] small_pmm) tt [] /\
  get_single_count small_pmm = Ret small_pmm 2 [].
Proof. apply (block_counts_correct small_pmm small_lists small_buddy eq_refl). Defined.

(** The address of a page number determines the page number, for every
    start address, also where the sum wraps around 2^32; so a descriptor is
    released at the page it was granted for. *)
Theorem page_addr_roundtrip start p :
  0 <= p < 1048576 -> addr_to_pmm_page_no start (pmm_page_no_to_addr start p) = p.
Proof. apply page_addr_inverse. Qed.

Lemma page_addr_roundtrip_witness :
  addr_to_pmm_page_no 4294963200 (pmm_page_no_to_addr 4294963200 3) = 3.
Proof. apply page_addr_roundtrip. lia. Defined.

(** The partner the code computes is the other half of the block of the
    next class: it is aligned, the two halves are exactly the pages of the
    merged block (which starts at the smaller of the two numbers and is itself
    aligned), and the partner of the partner is the block. *)
Theorem partner_correct (k : nat) p :
  is_class k -> 0 <= p < 1048576 -> p `mod` 2 ^ k = 0 ->
  let q := get_partner_page_no p k in
  q `mod` 2 ^ k = 0 /\ Z.min q p `mod` 2 ^ (k + 1) = 0 /\
  seqZ (Z.min q p) (2 ^ (k + 1)) ≡ₚ seqZ p (2 ^ k) ++ seqZ q (2 ^ k) /\
  get_partner_page_no q k = p.
Proof.
  intros Hk Hp Ha q. unfold q. rewrite get_partner_eq by (done || lia).
  pose proof (partner_aligned _ _ Hk Ha) as Hq. pose proof (merged_aligned _ _ Hk Ha) as Hm.
  pose proof (merged_block _ _ Hk Ha) as Hb. unfold block in Hb. rewrite !class_width in Hb by done.
  replace (2 ^ (k + 1)) with (2 * 2 ^ k) by (rewrite Z.pow_add_r by lia; change (2 ^ 1) with 2; lia).
  split; [done|]. split; [done|]. split; [done|].
  pose proof (class_pow k Hk).
  rewrite get_partner_eq; [by apply partner_involutive|done| |done].
  destruct (partner_halves k p Hk Ha) as (b & Hb' & [[E1 E2]|[E1 E2]]); rewrite E2; [lia|].
  assert (0 <= b); [|lia]. destruct (decide (0 <= b)); [done|].
  pose proof (Z.div_mod b (2 * 2 ^ k) ltac:(lia)) as Hd. rewrite Hb' in Hd.
  assert (b / (2 * 2 ^ k) < 0) by (apply Z.div_lt_upper_bound; lia). nia.
Qed.

Lemma partner_correct_witness :
  get_partner_page_no 12 2 = 8 /\ get_partner_page_no (get_partner_page_no 12 2) 2 = 12.
Proof.
  split; [by vm_compute|].
  refine (proj2 (proj2 (proj2 (partner_correct 2 12 _ _ _)))); [unfold is_class; lia|lia|done].
Defined.

(** The end of a memory-map entry, if the region is usable. *)
Definition usable_top (m : mem) (cur : Z) : Z :=
  if ld32 m (cur + 20) =? 1 then u32 (ld32 m (cur + 4) + ld32 m (cur + 12)) else 0.
