(* ===== verification/PageTable.v ===== *)
(** * Page-table addresses, and the recursive mapping they rely on

    [get_pte] and [get_pde] of kernel/modules/vmm/vmm.c compute where the
    entries of a virtual address are in the kernel's address space: boot.s
    makes the last page-directory entry point to the directory itself.
    [walk] is the two-level translation of the processor (4 KB pages), over
    the physical memory; with it the two functions are shown to name the
    entries that translate their argument. *)

From S2P Require Import Prelude Memory.

(** ** The code *)

Definition get_pte (target : Z) : Z :=
  let target := Z.land target 4294963200 in
  let addr_high10 := u32 (Z.shiftl 1023 22) in
  let addr_middle10 := Z.land (Z.shiftr target 10) 4190208 in
  let addr_low12 := Z.land (u32 (Z.land (Z.shiftr target 12) 1023 * 4)) 4095 in
  Z.lor (Z.lor addr_high10 addr_middle10) addr_low12.

Definition get_pde (target : Z) : Z :=
  let target := Z.land target 4294963200 in
  let addr_high10 := u32 (Z.shiftl 1023 22) in
  let addr_middle10 := 4190208 in
  let addr_low12 := Z.land (u32 (Z.land (Z.shiftr target 22) 1023 * 4)) 4095 in
  Z.lor (Z.lor addr_high10 addr_middle10) addr_low12.

(** ** The processor's translation *)

Definition pde_index (v : Z) : Z := v / 4194304.
Definition pte_index (v : Z) : Z := (v / 4096) `mod` 1024.
Definition frame_of (entry : Z) : Z := entry - entry `mod` 4096.

(** [None] is a page fault. *)
Definition walk (m : mem) (cr3 v : Z) : option Z :=
  let pde := ld32 m (cr3 + 4 * pde_index v) in
  if Z.testbit pde 0 then
    let pte := ld32 m (frame_of pde + 4 * pte_index v) in
    if Z.testbit pte 0 then Some (frame_of pte + v `mod` 4096) else None
  else None.

(** ** Arithmetic *)

(** The three fields of an address do not overlap. *)
Lemma lor_fields a b c :
  0 <= a < 1024 -> 0 <= b < 1024 -> 0 <= c < 4096 ->
  Z.lor (Z.lor (Z.shiftl a 22) (Z.shiftl b 12)) c = 4194304 * a + 4096 * b + c.
Proof.
  intros Ha Hb Hc.
  replace (Z.shiftl a 22) with (Z.shiftl (Z.shiftl a 10) 12) by (by rewrite Z.shiftl_shiftl by lia).
  rewrite <- Z.shiftl_lor, lor_shiftl_add, lor_shiftl_add by lia. lia.
Qed.

Lemma shiftr_mod a n k :
  0 <= n -> 0 <= k -> Z.land (Z.shiftr a n) (Z.ones k) = (a / 2 ^ n) `mod` 2 ^ k.
Proof. intros Hn Hk. by rewrite Z.land_ones, Z.shiftr_div_pow2. Qed.

(** Where the entries are: the last 4 MB of the address space hold the page
    tables one after the other, the last of which is the directory. *)
Lemma get_pte_eq v : 0 <= v < 4294967296 -> get_pte v = 4290772992 + 4 * (v / 4096).
Proof.
  intros Hv. unfold get_pte. rewrite land_page_mask by done.
  set (t := v - v `mod` 4096).
  assert (Ht : t = 4096 * (v / 4096)) by (unfold t; pose proof (Z.div_mod v 4096 ltac:(lia)); lia).
  assert (E1 : Z.land (Z.shiftr t 10) 4190208 = Z.shiftl (v / 4194304) 12).
  { change 4190208 with (Z.shiftl (Z.ones 10) 12).
    apply Z.bits_inj'. intros k Hk. rewrite Z.land_spec, Z.shiftr_spec by lia.
    destruct (decide (k < 12)).
    - rewrite !Z.shiftl_spec_low by lia. apply andb_false_r.
    - rewrite !Z.shiftl_spec, Z.testbit_ones_nonneg by lia.
      replace (v / 4194304) with (Z.shiftr v 22) by (by rewrite Z.shiftr_div_pow2 by lia).
      rewrite Z.shiftr_spec by lia. rewrite Ht.
      replace (4096 * (v / 4096)) with (Z.shiftl (Z.shiftr v 12) 12)
        by (rewrite Z.shiftl_mul_pow2, Z.shiftr_div_pow2 by lia; change (2 ^ 12) with 4096; lia).
      rewrite Z.shiftl_spec, Z.shiftr_spec by lia.
      replace (k + 10 - 12 + 12) with (k - 12 + 22) by lia.
      destruct (Z.ltb_spec (k - 12) 10); [by rewrite andb_true_r|].
      rewrite andb_false_r. symmetry. destruct (decide (v = 0)) as [->|]; [apply Z.bits_0|].
      apply Z.bits_above_log2; [lia|]. assert (Z.log2 v < 32) by (apply Z.log2_lt_pow2; lia). lia. }
  assert (E2 : Z.land (Z.shiftr t 12) 1023 = pte_index v).
  { change 1023 with (Z.ones 10). rewrite shiftr_mod by lia. change (2 ^ 12) with 4096.
    rewrite Ht, Z.mul_comm, Z.div_mul by lia. done. }
  rewrite E1, E2. unfold pte_index.
  pose proof (Z.mod_pos_bound (v / 4096) 1024 ltac:(lia)).
  change 4095 with (Z.ones 12). rewrite Z.land_ones, (u32_small (_ * 4)) by lia.
  change (2 ^ 12) with 4096. rewrite Z.mod_small by lia.
  change (u32 (Z.shiftl 1023 22)) with (Z.shiftl 1023 22).
  rewrite lor_fields by dlia. dlia.
Qed.

Lemma get_pde_eq v : 0 <= v < 4294967296 -> get_pde v = 4294963200 + 4 * pde_index v.
Proof.
  intros Hv. unfold get_pde. rewrite land_page_mask by done.
  set (t := v - v `mod` 4096).
  assert (E2 : Z.land (Z.shiftr t 22) 1023 = pde_index v).
  { change 1023 with (Z.ones 10). rewrite shiftr_mod by lia. unfold t, pde_index.
    change (2 ^ 22) with 4194304. change (2 ^ 10) with 1024. dlia. }
  rewrite E2. assert (0 <= pde_index v < 1024) by (unfold pde_index; dlia).
  change 4095 with (Z.ones 12). rewrite Z.land_ones, (u32_small (_ * 4)) by lia.
  change (2 ^ 12) with 4096. rewrite Z.mod_small by lia.
  change (u32 (Z.shiftl 1023 22)) with (Z.shiftl 1023 22).
  change 4190208 with (Z.shiftl 1023 12).
  rewrite lor_fields by lia. lia.
Qed.

Lemma pde_is_pte v : 0 <= v < 4294967296 -> get_pde v = get_pte (get_pte v).
Proof.
  intros Hv. rewrite get_pde_eq, (get_pte_eq v) by done. rewrite get_pte_eq by dlia.
  unfold pde_index. dlia.
Qed.

(** The entries of different pages are different words. *)
Lemma get_pte_apart v w :
  0 <= v < 4294967296 -> 0 <= w < 4294967296 -> v / 4096 <> w / 4096 -> apart (get_pte v) (get_pte w).
Proof.
  intros Hv Hw Hne. rewrite !get_pte_eq by done. apply apart_range; dlia.
Qed.

Lemma get_pte_page v : 0 <= v < 4294967296 -> get_pte (v - v `mod` 4096) = get_pte v.
Proof. intros Hv. rewrite !get_pte_eq by dlia. dlia. Qed.

(** ** The recursive mapping *)

(** The directory at [cr3] maps itself in its last entry. *)
Record recursive (m : mem) (cr3 : Z) : Prop := {
  rec_aligned : cr3 `mod` 4096 = 0;
  rec_entry : frame_of (ld32 m (cr3 + 4092)) = cr3;
  rec_present : Z.testbit (ld32 m (cr3 + 4092)) 0 = true
}.

Lemma walk_pde m cr3 v :
  recursive m cr3 -> 0 <= v < 4294967296 -> walk m cr3 (get_pde v) = Some (cr3 + 4 * pde_index v).
Proof.
  intros [Ha He Hp] Hv. rewrite get_pde_eq by done.
  assert (Hi : 0 <= pde_index v < 1024) by (unfold pde_index; dlia).
  assert (I1 : pde_index (4294963200 + 4 * pde_index v) = 1023) by (unfold pde_index in *; dlia).
  assert (I2 : pte_index (4294963200 + 4 * pde_index v) = 1023) by (unfold pte_index; dlia).
  unfold walk. rewrite I1, I2. change (4 * 1023) with 4092. rewrite Hp, He, Hp, He.
  f_equal. f_equal. dlia.
Qed.

Lemma walk_pte m cr3 v :
  recursive m cr3 -> 0 <= v < 4294967296 ->
  walk m cr3 (get_pte v) =
    if Z.testbit (ld32 m (cr3 + 4 * pde_index v)) 0
    then Some (frame_of (ld32 m (cr3 + 4 * pde_index v)) + 4 * pte_index v) else None.
Proof.
  intros [Ha He Hp] Hv. rewrite get_pte_eq by done.
  assert (Eq : pde_index v = (v / 4096) / 1024) by (unfold pde_index; by rewrite Z.div_div by lia).
  assert (Hq : 0 <= v / 4096 < 1048576) by dlia.
  unfold walk. rewrite Eq. unfold pte_index. set (q := v / 4096) in *. clearbody q.
  assert (I1 : pde_index (4290772992 + 4 * q) = 1023) by (unfold pde_index; dlia).
  assert (I2 : ((4290772992 + 4 * q) / 4096) `mod` 1024 = q / 1024).
  { replace (4290772992 + 4 * q) with (1047552 * 4096 + 4 * q) by lia. rewrite Z.div_add_l by lia.
    change 4096 with (4 * 1024). rewrite Z.div_mul_cancel_l by lia.
    change 1047552 with (1023 * 1024). rewrite Z.add_comm, Z.mod_add, Z.mod_small by dlia. done. }
  rewrite I1, I2. change (4 * 1023) with 4092. rewrite Hp, He.
  destruct (Z.testbit _ 0); [|done]. f_equal. f_equal.
  replace (4290772992 + 4 * q) with (4 * q + 1047552 * 4096) by lia. rewrite Z.mod_add by lia.
  change 4096 with (4 * 1024). by rewrite Z.mul_mod_distr_l by lia.
Qed.

(** ** Properties *)

(** C20: With the directory mapped in its own last entry, the address [get_pde]
    computes translates to the directory entry of its argument, and the
    address [get_pte] computes to the page-table entry, when the table is
    present; so a present entry written through [get_pte] becomes the
    translation of the page. *)
Theorem recursive_mapping m cr3 v :
  recursive m cr3 -> 0 <= v < 4294967296 ->
  walk m cr3 (get_pde v) = Some (cr3 + 4 * pde_index v) /\
  forall a, walk m cr3 (get_pte v) = Some a ->
    walk m cr3 v = (if Z.testbit (ld32 m a) 0 then Some (frame_of (ld32 m a) + v `mod` 4096) else None) /\
    forall e, 0 <= e < 4294967296 -> Z.testbit e 0 = true -> apart a (cr3 + 4 * pde_index v) ->
      walk (st32 m a e) cr3 v = Some (frame_of e + v `mod` 4096).
Proof.
  intros Hr Hv. split; [by apply walk_pde|]. intros a Ha. rewrite walk_pte in Ha by done.
  destruct (Z.testbit (ld32 m (cr3 + 4 * pde_index v)) 0) eqn:Hp; [|done]. injection Ha as Ha.
  unfold walk at 1. rewrite Hp, Ha. split; [done|]. intros e He Hep Hap.
  unfold walk. rewrite (ld32_st32_apart m a) by done. rewrite Hp, Ha, ld32_st32_eq, u32_small by done.
  by rewrite Hep.
Qed.

(** A directory at 0x1000 that maps itself, and a page table at 0x2000 for the
    last directory entry but one. *)
Definition small_tables : mem := st32 (st32 ∅ 8188 4097) 8184 8193.

Lemma recursive_mapping_witness :
  recursive small_tables 4096 /\
  walk small_tables 4096 (get_pde 4286578689) = Some 8184 /\
  walk (st32 small_tables 8192 65537) 4096 4286578689 = Some 65537.
Proof.
  assert (Hr : recursive small_tables 4096) by (by split; vm_compute).
  destruct (recursive_mapping small_tables 4096 4286578689 Hr ltac:(lia)) as [H1 H2].
  split; [exact Hr|]. split; [exact H1|].
  assert (Hw : walk small_tables 4096 (get_pte 4286578689) = Some 8192) by (by vm_compute).
  destruct (H2 8192 Hw) as [_ H3]. rewrite H3; [by vm_compute|lia|by vm_compute|].
  apply apart_range; change (pde_index 4286578689) with 1022; lia.
Defined.

(** Two addresses have the same page-table entry exactly when they are in
    the same page, and entries of different pages do not overlap; the same
    address arithmetic applied twice gives the directory entry. *)
Theorem page_table_entries_injective v w :
  0 <= v < 4294967296 -> 0 <= w < 4294967296 ->
  (get_pte v = get_pte w <-> v / 4096 = w / 4096) /\
  (v / 4096 <> w / 4096 -> apart (get_pte v) (get_pte w)) /\
  get_pde v = get_pte (get_pte v).
Proof.
  intros Hv Hw. split; [|split].
  - rewrite !get_pte_eq by done. lia.
  - by apply get_pte_apart.
  - by apply pde_is_pte.
Qed.

Lemma page_table_entries_injective_witness :
  get_pte 4097 = get_pte 8191 /\ apart (get_pte 4097) (get_pte 8192).
Proof.
  split; [apply (page_table_entries_injective 4097 8191); lia || done|].
  apply (page_table_entries_injective 4097 8192); lia || done.
Defined.
