(* ===== verification/X86.v ===== *)
(** * The processor, for the assembly code of the kernel

    boot/boot.s, interrupt_asm.s and common_asm.s are translated instruction by
    instruction: an instruction is a computation over the registers and the
    memory ([cpu]).  Two instances of [Translation] say what an address means:
    [paging] is the two-level translation of the processor, for the boot code,
    which builds its tables; [linear] is the linear memory the C code is
    modelled over.  Only the instructions the code uses are here.

    Arithmetic does not change [x_eflags]: its interrupt and system flags are those
    of the machine, its arithmetic flags those of the last popf or iret.  A loop
    of the code tests the value a flag would be of. *)

From S2P Require Import Prelude Memory PageTable.

(** ** Registers *)

Variant reg := EAX | ECX | EDX | EBX | ESP | EBP | ESI | EDI.
Variant sreg := CS | DS | ES | FS | GS | SS.

#[export] Instance reg_eq_dec : EqDecision reg.
Proof. solve_decision. Defined.
#[export] Instance sreg_eq_dec : EqDecision sreg.
Proof. solve_decision. Defined.

Record gprs := Gprs {
  g_eax : Z; g_ecx : Z; g_edx : Z; g_ebx : Z; g_esp : Z; g_ebp : Z; g_esi : Z; g_edi : Z
}.
Record segs := Segs { s_cs : Z; s_ds : Z; s_es : Z; s_fs : Z; s_gs : Z; s_ss : Z }.

Definition rd (r : reg) (g : gprs) : Z :=
  match r with
  | EAX => g_eax g | ECX => g_ecx g | EDX => g_edx g | EBX => g_ebx g
  | ESP => g_esp g | EBP => g_ebp g | ESI => g_esi g | EDI => g_edi g
  end.
Definition wr (r : reg) (v : Z) (g : gprs) : gprs :=
  match r with
  | EAX => Gprs v (g_ecx g) (g_edx g) (g_ebx g) (g_esp g) (g_ebp g) (g_esi g) (g_edi g)
  | ECX => Gprs (g_eax g) v (g_edx g) (g_ebx g) (g_esp g) (g_ebp g) (g_esi g) (g_edi g)
  | EDX => Gprs (g_eax g) (g_ecx g) v (g_ebx g) (g_esp g) (g_ebp g) (g_esi g) (g_edi g)
  | EBX => Gprs (g_eax g) (g_ecx g) (g_edx g) v (g_esp g) (g_ebp g) (g_esi g) (g_edi g)
  | ESP => Gprs (g_eax g) (g_ecx g) (g_edx g) (g_ebx g) v (g_ebp g) (g_esi g) (g_edi g)
  | EBP => Gprs (g_eax g) (g_ecx g) (g_edx g) (g_ebx g) (g_esp g) v (g_esi g) (g_edi g)
  | ESI => Gprs (g_eax g) (g_ecx g) (g_edx g) (g_ebx g) (g_esp g) (g_ebp g) v (g_edi g)
  | EDI => Gprs (g_eax g) (g_ecx g) (g_edx g) (g_ebx g) (g_esp g) (g_ebp g) (g_esi g) v
  end.
Definition srd (r : sreg) (g : segs) : Z :=
  match r with CS => s_cs g | DS => s_ds g | ES => s_es g | FS => s_fs g | GS => s_gs g | SS => s_ss g end.
Definition swr (r : sreg) (v : Z) (g : segs) : segs :=
  match r with
  | CS => Segs v (s_ds g) (s_es g) (s_fs g) (s_gs g) (s_ss g)
  | DS => Segs (s_cs g) v (s_es g) (s_fs g) (s_gs g) (s_ss g)
  | ES => Segs (s_cs g) (s_ds g) v (s_fs g) (s_gs g) (s_ss g)
  | FS => Segs (s_cs g) (s_ds g) (s_es g) v (s_gs g) (s_ss g)
  | GS => Segs (s_cs g) (s_ds g) (s_es g) (s_fs g) v (s_ss g)
  | SS => Segs (s_cs g) (s_ds g) (s_es g) (s_fs g) (s_gs g) v
  end.

Lemma rd_wr r q v g : rd r (wr q v g) = if decide (r = q) then v else rd r g.
Proof. destruct r, q; reflexivity. Qed.
Lemma srd_swr r q v g : srd r (swr q v g) = if decide (r = q) then v else srd r g.
Proof. destruct r, q; reflexivity. Qed.

(** [x_eip] and [x_eflags] are the program counter and the flags; [gdtr] is the
    limit and the base the last [lgdt] loaded. *)
Record cpu := Cpu {
  gpr : gprs;
  seg : segs;
  x_eip : Z;
  x_eflags : Z;
  cr0 : Z;
  cr3 : Z;
  gdtr : Z * Z;
  ram : mem
}.

Definition set_gpr (g : gprs) (c : cpu) : cpu := Cpu g (seg c) (x_eip c) (x_eflags c) (cr0 c) (cr3 c) (gdtr c) (ram c).
Definition set_seg (g : segs) (c : cpu) : cpu := Cpu (gpr c) g (x_eip c) (x_eflags c) (cr0 c) (cr3 c) (gdtr c) (ram c).
Definition set_ip (v : Z) (c : cpu) : cpu := Cpu (gpr c) (seg c) v (x_eflags c) (cr0 c) (cr3 c) (gdtr c) (ram c).
Definition set_flags (v : Z) (c : cpu) : cpu := Cpu (gpr c) (seg c) (x_eip c) v (cr0 c) (cr3 c) (gdtr c) (ram c).
Definition set_cr0 (v : Z) (c : cpu) : cpu := Cpu (gpr c) (seg c) (x_eip c) (x_eflags c) v (cr3 c) (gdtr c) (ram c).
Definition set_cr3 (v : Z) (c : cpu) : cpu := Cpu (gpr c) (seg c) (x_eip c) (x_eflags c) (cr0 c) v (gdtr c) (ram c).
Definition set_gdtr (v : Z * Z) (c : cpu) : cpu := Cpu (gpr c) (seg c) (x_eip c) (x_eflags c) (cr0 c) (cr3 c) v (ram c).
Definition set_ram (m : mem) (c : cpu) : cpu := Cpu (gpr c) (seg c) (x_eip c) (x_eflags c) (cr0 c) (cr3 c) (gdtr c) m.

(** Bit 9 of the flags: interrupts are on. *)
Definition clear_if (v : Z) : Z := Z.land v (Z.lnot 512).

(** ** Addresses *)

(** The cell of the memory an address is, or [None] for a page fault. *)
Class Translation := translate : cpu -> Z -> option Z.

Definition linear : Translation := fun _ a => Some (u32 a).
Definition paging : Translation := fun c a =>
  if Z.testbit (cr0 c) 31 then walk (ram c) (cr3 c) (u32 a) else Some (u32 a).

(** ** Instructions *)

Section instructions.
Context {T : Translation}.

Definition get (r : reg) : M cpu Z := gets (fun c => rd r (gpr c)).
Definition mov (r : reg) (v : Z) : M cpu unit := modify (fun c => set_gpr (wr r (u32 v) (gpr c)) c).
(** The low half of a register, and its lowest byte. *)
Definition mov16 (r : reg) (v : Z) : M cpu unit :=
  modify (fun c => let x := rd r (gpr c) in set_gpr (wr r (x - x `mod` 65536 + u16 v) (gpr c)) c).
Definition mov8 (r : reg) (v : Z) : M cpu unit :=
  modify (fun c => let x := rd r (gpr c) in set_gpr (wr r (x - x `mod` 256 + u8 v) (gpr c)) c).
Definition get_seg (r : sreg) : M cpu Z := gets (fun c => srd r (seg c)).
Definition mov_seg (r : sreg) (v : Z) : M cpu unit := modify (fun c => set_seg (swr r (u16 v) (seg c)) c).
Definition update (r : reg) (f : Z -> Z) : M cpu unit := x <- get r ;; mov r (f x).

(** An access to four bytes translates all of them before it writes. *)
Definition cells (c : cpu) (a : Z) : option (Z * Z * Z * Z) :=
  match translate c a, translate c (a + 1), translate c (a + 2), translate c (a + 3) with
  | Some p, Some q, Some r, Some s => Some (p, q, r, s)
  | _, _, _, _ => None
  end.
Definition load_word (a : Z) : M cpu Z := fun c =>
  match cells c a with
  | Some (p, q, r, s) =>
      Ret c (ld8 (ram c) p + 256 * ld8 (ram c) q + 65536 * ld8 (ram c) r + 16777216 * ld8 (ram c) s) []
  | None => Undef
  end.
Definition store_word (a v : Z) : M cpu unit := fun c =>
  match cells c a with
  | Some (p, q, r, s) =>
      Ret (set_ram (st8 (st8 (st8 (st8 (ram c) p v) q (v / 256)) r (v / 65536)) s (v / 16777216)) c) tt []
  | None => Undef
  end.
Definition store_byte (a v : Z) : M cpu unit := fun c =>
  match translate c a with
  | Some p => Ret (set_ram (st8 (ram c) p v) c) tt []
  | None => Undef
  end.

Definition push (v : Z) : M cpu unit :=
  update ESP (fun x => x - 4) ;;
  sp <- get ESP ;;
  store_word sp v.
Definition pop : M cpu Z :=
  sp <- get ESP ;;
  v <- load_word sp ;;
  mov ESP (sp + 4) ;;
  ret v.

(** [dec r; jnz]: the result tells whether to jump. *)
Definition dec_jnz (r : reg) : M cpu bool :=
  update r (fun x => x - 1) ;;
  x <- get r ;;
  ret (negb (x =? 0)).
Definition dec16_jnz (r : reg) : M cpu bool :=
  x <- get r ;;
  mov16 r (x - 1) ;;
  y <- get r ;;
  ret (negb (u16 y =? 0)).
(** [mul] with a 16-bit operand: the product is in dx and ax. *)
Definition mul16 (r : reg) : M cpu unit :=
  x <- get EAX ;;
  y <- get r ;;
  let p := u16 x * u16 y in
  mov16 EAX p ;;
  mov16 EDX (p / 65536).

(** [ra] is the address behind the call. *)
Definition call (ra : Z) (body : M cpu unit) : M cpu unit := push ra ;; body.
Definition ret_near : M cpu unit := ra <- pop ;; modify (set_ip ra).

Definition cli : M cpu unit := modify (fun c => set_flags (clear_if (x_eflags c)) c) ;; emit Cli.
(** [value] is what the port gives. *)
Definition in_al (port value : Z) : M cpu unit := emit (Inb port) ;; mov8 EAX value.
Definition out_al (port : Z) : M cpu unit := x <- get EAX ;; emit (Outb port (u8 x)).

(** The limit and the base in memory. *)
Definition lgdt (a : Z) : M cpu unit :=
  limit <- load_word a ;;
  base <- load_word (a + 2) ;;
  modify (set_gdtr (u16 limit, base)) ;;
  emit Lgdt.

(** [while], as a loop with the test at its end. *)
Fixpoint do_while (fuel : nat) (body : M cpu bool) : M cpu unit :=
  match fuel with
  | O => nofuel
  | S n => b <- body ;; if b then do_while n body else ret tt
  end.

(** pushad and popad; the stack pointer in the frame is not loaded. *)
Definition pushad : M cpu unit :=
  sp <- get ESP ;;
  x <- get EAX ;; push x ;;
  x <- get ECX ;; push x ;;
  x <- get EDX ;; push x ;;
  x <- get EBX ;; push x ;;
  push sp ;;
  x <- get EBP ;; push x ;;
  x <- get ESI ;; push x ;;
  x <- get EDI ;; push x.
Definition popad : M cpu unit :=
  x <- pop ;; mov EDI x ;;
  x <- pop ;; mov ESI x ;;
  x <- pop ;; mov EBP x ;;
  pop ;;
  x <- pop ;; mov EBX x ;;
  x <- pop ;; mov EDX x ;;
  x <- pop ;; mov ECX x ;;
  x <- pop ;; mov EAX x.

(** ** Laws *)

Implicit Types (c : cpu).

(** Four bytes whose cells are neighbours. *)
Definition maps4 c (a p : Z) : Prop := forall i, 0 <= i < 4 -> translate c (a + i) = Some (p + i).

Lemma cells_maps4 c a p : maps4 c a p -> cells c a = Some (p, p + 1, p + 2, p + 3).
Proof.
  intros H. unfold cells. pose proof (H 0 ltac:(lia)) as H0. rewrite !Z.add_0_r in H0.
  by rewrite H0, (H 1), (H 2), (H 3) by lia.
Qed.
Lemma load_word_eq c a p : maps4 c a p -> load_word a c = Ret c (ld32 (ram c) p) [].
Proof. intros H. unfold load_word. by rewrite (cells_maps4 _ _ _ H). Qed.
Lemma store_word_eq c a p v : maps4 c a p -> store_word a v c = Ret (set_ram (st32 (ram c) p v) c) tt [].
Proof. intros H. unfold store_word. by rewrite (cells_maps4 _ _ _ H). Qed.
Lemma store_byte_eq c a p v : translate c a = Some p -> store_byte a v c = Ret (set_ram (st8 (ram c) p v) c) tt [].
Proof. intros H. unfold store_byte. by rewrite H. Qed.

Lemma do_while_down (I : Z -> cpu -> Prop) body (n : nat) fuel c :
  (0 < n <= fuel)%nat -> I n c ->
  (forall k c, 0 < k <= n -> I k c -> exists c', body c = Ret c' (negb (k - 1 =? 0)) [] /\ I (k - 1) c') ->
  exists c', do_while fuel body c = Ret c' tt [] /\ I 0 c'.
Proof.
  revert n c. induction fuel as [|fuel IH]; intros n c Hn HI Hb; [lia|]. cbn [do_while].
  destruct (Hb n c ltac:(lia) HI) as (c1 & E1 & I1). rewrite (bind_ret_eq _ _ _ _ _ _ E1), prepend_nil.
  destruct (Z.eqb_spec (n - 1) 0) as [E|E]; cbn [negb].
  - exists c1. split; [done|]. by rewrite <- E.
  - destruct (IH (n - 1)%nat c1) as (c' & E' & I'); [lia| | |by exists c'].
    + by replace (Z.of_nat (n - 1)) with (n - 1) by lia.
    + intros k c2 Hk. apply Hb. lia.
Qed.
End instructions.

(** ** Arithmetic *)

Lemma lor_range x y : 0 <= x < 4294967296 -> 0 <= y < 4294967296 -> 0 <= Z.lor x y < 4294967296.
Proof.
  intros Hx Hy. split; [apply Z.lor_nonneg; lia|]. apply Z.log2_lt_cancel. rewrite Z.log2_lor by lia.
  change (Z.log2 4294967296) with 32.
  assert (L : forall z, 0 <= z < 4294967296 -> Z.log2 z < 32).
  { intros z Hz. destruct (decide (z = 0)) as [->|]; [done|]. apply Z.log2_lt_pow2; lia. }
  apply Z.max_lub_lt; by apply L.
Qed.

(** The low half of a register that was written by halves. *)
Lemma u16_low x v : u16 (x - x `mod` 65536 + u16 v) = u16 v.
Proof.
  unfold u16. replace (x - x `mod` 65536 + v `mod` 65536) with (v `mod` 65536 + x / 65536 * 65536)
    by (pose proof (Z.div_mod x 65536 ltac:(lia)); lia).
  by rewrite Z.mod_add, Z.mod_mod by lia.
Qed.

(** [exec] runs the instructions on registers at the front of a computation. *)
Ltac cpu_cbn :=
  unfold set_gpr, set_seg, set_ip, set_flags, set_cr0, set_cr3, set_gdtr, set_ram;
  cbn [gpr seg x_eip x_eflags cr0 cr3 gdtr ram
       rd wr g_eax g_ecx g_edx g_ebx g_esp g_ebp g_esi g_edi srd swr s_cs s_ds s_es s_fs s_gs s_ss].
Ltac exec :=
  unfold update, get, mov, mov16, mov8, get_seg, mov_seg; cbv zeta;
  repeat (first [ rewrite bind_assoc | rewrite bind_gets | rewrite bind_modify | rewrite bind_ret ]; cpu_cbn);
  rewrite ?prepend_nil; try match goal with |- context [ret ?a ?s] => unfold ret end.
