(* ===== verification/Vmm.v ===== *)
(** * kernel/modules/vmm/vmm.c: the virtual memory manager

    The state is the linear memory (which holds the pool bitmaps and, through
    the recursive mapping of [PageTable], the page tables), the physical page
    allocator, the kernel's pool descriptor and the flag that a user directory
    is loaded.  The manager uses the allocator through [PageAllocator], whose
    laws are [PageAllocatorSpec]; [VmmThm] gives the instance of pmm.c. *)

From S2P Require Import Prelude Memory CString Bitmap KernLog Pmm PageTable Tcb.

Definition KERN_VMM_ALLOC_ERRO : Z := 4294967295.
Definition USER_VMM_ALLOC_ERRO : Z := 4294967295.
Definition V2P_ERROR : Z := 4294967295.
Definition PAGE_DESC_P : Z := 1.
Definition PAGE_DESC_RW_W : Z := 2.
Definition PAGE_DESC_US_U : Z := 4.
Definition PAGE_DESC_US_S : Z := 0.
Definition PAGE_DESC_G : Z := 256.
Definition page_mask (a : Z) : Z := Z.land a 4294963200.
Definition LOG_SRC_VMM : string := "VMM".

(** The call of [pmm_alloc_one_page]. *)
Class PageAllocator (P : Type) := alloc_one_page : M P pm_alloc_t.

(** The symbols of boot.s and the linker script. *)
Class VmmLayout := {
  kern_end : Z;                  (* address of the symbol *)
  kern_bitmap : Z;               (* value of the variable *)
  kern_dir_table_paddr : Z
}.

Record vmm (P : Type) := Build_vmm {
  v_mem : mem;
  v_pages : P;
  kern_vmm_pool : bitmap;
  USER_PAGE_DIR_IS_LOADED : Z
}.
Arguments Build_vmm {P} v_mem v_pages kern_vmm_pool USER_PAGE_DIR_IS_LOADED.
Arguments v_mem {P} v.
Arguments v_pages {P} v.
Arguments kern_vmm_pool {P} v.
Arguments USER_PAGE_DIR_IS_LOADED {P} v.

Definition set_mem {P} (m : mem) (s : vmm P) : vmm P :=
  Build_vmm m (v_pages s) (kern_vmm_pool s) (USER_PAGE_DIR_IS_LOADED s).
Definition set_pages {P} (p : P) (s : vmm P) : vmm P :=
  Build_vmm (v_mem s) p (kern_vmm_pool s) (USER_PAGE_DIR_IS_LOADED s).
Definition set_pool {P} (b : bitmap) (s : vmm P) : vmm P :=
  Build_vmm (v_mem s) (v_pages s) b (USER_PAGE_DIR_IS_LOADED s).

Section code.
Context {P : Type} {PA : PageAllocator P} {L : VmmLayout}.

Definition on_mem {A} (c : M mem A) : M (vmm P) A := zoom v_mem set_mem c.
Definition pmm_alloc : M (vmm P) pm_alloc_t := zoom v_pages set_pages alloc_one_page.

(** A comparison of the source, as the int it is. *)
Definition b2z (b : bool) : Z := if b then 1 else 0.

(** [*ptr==( *ptr)|(0x00000001)]: [==] binds tighter than [|]. *)
Definition p_bit_test (ptr : Z) : M (vmm P) bool :=
  v1 <- on_mem (load32 ptr) ;;
  v2 <- on_mem (load32 ptr) ;;
  ret (negb (Z.lor (b2z (v1 =? v2)) 1 =? 0)).

(** ** Initialisation *)

Definition get_kern_used_page_count : Z :=
  i32 (u32 (u32 (u32 (kern_end - 0) + PAGE_SIZE) - 1) / PAGE_SIZE).

(** [for(int i = 0; i<page_used ;i++) bitmap_alloc(kern_vmm_pool);] *)
Fixpoint reserve_pages (n : nat) (pool : bitmap) : M mem unit :=
  match n with
  | O => ret tt
  | S n' => bitmap_alloc pool ;; reserve_pages n' pool
  end.

(** [for(probe = ...;temp_cnt<128;temp_cnt++,probe--) *((byte* )probe) = 0;] *)
Fixpoint clear_down (n : nat) (probe : Z) : M mem unit :=
  match n with
  | O => ret tt
  | S n' => store8 probe 0 ;; clear_down n' (u32 (probe - 1))
  end.

Definition vmm_kern_init : M (vmm P) unit :=
  modify (set_pool (Build_bitmap kern_bitmap 32768 3221225472)) ;;
  pool <- gets kern_vmm_pool ;;
  on_mem (bitmap_init_mem pool) ;;
  let page_used := get_kern_used_page_count in
  if page_used >? 1024 then
    error_kern LOG_SRC_VMM "don`t have enough vm page for kernel when init!" ;;
    stop
  else
    on_mem (reserve_pages (Z.to_nat page_used) pool) ;;
    on_mem (clear_down 128 (u32 (u32 (kern_bitmap + 32768) - 1))).

Definition vmm_init : M (vmm P) unit := vmm_kern_init.

(** Unmaps the first 4 MB and reloads the directory. *)
Definition vmm_pre_init : M (vmm P) unit :=
  let kern_dir_table_vaddr := u32 (kern_dir_table_paddr + 3221225472) in
  on_mem (store32 kern_dir_table_vaddr 0) ;;
  emit (Load_cr3 (page_mask kern_dir_table_paddr)).

Definition create_kern_page_table (pde_vaddr : Z) : M (vmm P) unit :=
  pm <- pmm_alloc ;;
  if negb (al_state pm =? 0) then
    stop_kern LOG_SRC_VMM "Fail To Create Kernel Page Table!STOP!"
  else
    let a := addr pm in
    on_mem (memset a 0 PAGE_SIZE) ;;
    on_mem (store32 pde_vaddr (u32 (page_mask a + PAGE_DESC_P + PAGE_DESC_RW_W + PAGE_DESC_US_S))).

(** ** Kernel pages *)

(** The part [vmm_kern_alloc_one_page] and [vmm_kern_alloc] have in common,
    from the check of the directory entry to the error exits. *)
Definition map_kern_page (target : Z) : M (vmm P) Z :=
  let ptr := get_pde target in
  present <- p_bit_test ptr ;;
  (if present then ret tt
   else
     v <- on_mem (load32 ptr) ;;
     on_mem (store32 ptr (Z.lor v 1)) ;;
     emit (Invlpg (page_mask (get_pte target)))) ;;
  phy_page <- pmm_alloc ;;
  if al_state phy_page =? 0 then
    pool <- gets kern_vmm_pool ;;
    on_mem (bitmap_release_one_page pool target) ;;
    ret KERN_VMM_ALLOC_ERRO
  else
    on_mem (store32 (get_pte target)
      (u32 (page_mask (addr phy_page) + PAGE_DESC_RW_W + PAGE_DESC_US_S + PAGE_DESC_G + PAGE_DESC_P))) ;;
    emit (Invlpg (page_mask target)) ;;
    ret target.

Definition vmm_kern_alloc_one_page (target : Z) : M (vmm P) Z :=
  pool <- gets kern_vmm_pool ;;
  vaddr_get <- on_mem (bitmap_alloc_one_page pool target) ;;
  if vaddr_get =? BITMAP_RETURN_ERRO then ret KERN_VMM_ALLOC_ERRO
  else map_kern_page target.

Definition vmm_kern_alloc : M (vmm P) Z :=
  pool <- gets kern_vmm_pool ;;
  target <- on_mem (bitmap_alloc pool) ;;
  if target =? BITMAP_RETURN_ERRO then ret KERN_VMM_ALLOC_ERRO
  else map_kern_page target.

(** The physical page is not released: the call is commented out. *)
Definition vmm_kern_release_one_page (target : Z) : M (vmm P) unit :=
  if target <? 3221225472 then ret tt
  else
    pool <- gets kern_vmm_pool ;;
    on_mem (bitmap_release_one_page pool target) ;;
    let desc_vaddr := get_pte target in
    desc_inf <- on_mem (load32 desc_vaddr) ;;
    on_mem (store32 desc_vaddr (Z.land desc_inf 4294967294)) ;;
    emit (Invlpg (page_mask target)).

(** ** Translation *)

Definition check_vaddr_present (vaddr : Z) : M (vmm P) bool :=
  let pde_ptr := get_pde vaddr in
  pde_present <- p_bit_test pde_ptr ;;
  if pde_present then
    let pte_ptr := get_pte vaddr in
    p_bit_test pte_ptr
  else ret false.

Definition vmm_v2p (vaddr : Z) : M (vmm P) Z :=
  let pte_addr := get_pte vaddr in
  present <- check_vaddr_present vaddr ;;
  if present then
    v <- on_mem (load32 pte_addr) ;;
    ret (Z.lor (page_mask v) (Z.land 4095 vaddr))
  else ret V2P_ERROR.

(** ** User pages *)

Definition user_get_pde (user_pdt_vaddr target_vaddr : Z) : Z :=
  let times := Z.land (Z.shiftr target_vaddr 22) 1023 in
  u32 (user_pdt_vaddr + times * 4).

Definition vmm_user_check_pt_present (user_pdt_vaddr target_vaddr : Z) : M (vmm P) bool :=
  let times := Z.land (Z.shiftr target_vaddr 22) 1023 in
  let pde_vaddr := u32 (user_pdt_vaddr + times * 4) in
  v1 <- on_mem (load32 pde_vaddr) ;;
  v2 <- on_mem (load32 pde_vaddr) ;;
  ret (v1 =? Z.lor v2 1).

Definition create_user_page_table (pde_vaddr : Z) : M (vmm P) bool :=
  re_vaddr <- vmm_kern_alloc ;;
  if re_vaddr =? KERN_VMM_ALLOC_ERRO then ret false
  else
    on_mem (bzero re_vaddr PAGE_SIZE) ;;
    page_paddr <- vmm_v2p re_vaddr ;;
    if page_paddr =? V2P_ERROR then ret false
    else
      on_mem (store32 pde_vaddr
        (u32 (page_mask page_paddr + PAGE_DESC_RW_W + PAGE_DESC_US_U + PAGE_DESC_G + PAGE_DESC_P))) ;;
      ret true.

(** The label [clean_bitmap_alloc]: it gives the page back to the kernel's
    pool, although it was taken from the pool of the task. *)
Definition user_clean_bitmap_alloc (vaddr : Z) : M (vmm P) Z :=
  pool <- gets kern_vmm_pool ;;
  on_mem (bitmap_release_one_page pool vaddr) ;;
  ret USER_VMM_ALLOC_ERRO.

(** [vmm_user_alloc_one_page] up to the branch on the page table: it has
    returned a value, or the table is there, or it was made. *)
Inductive user_page :=
  | Page_refused (erro : Z)
  | Table_present
  | Table_created.

Definition user_page_begin (tcb_ptr : TCB_t) (vaddr : Z) : M (vmm P) user_page :=
  loaded <- gets USER_PAGE_DIR_IS_LOADED ;;
  if loaded =? 0 then ret (Page_refused USER_VMM_ALLOC_ERRO)
  else if negb (is_kern_thread tcb_ptr =? 0) then ret (Page_refused USER_VMM_ALLOC_ERRO)
  else
    let user_pdt_vaddr := pdt_vaddr tcb_ptr in
    vaddr_get <- on_mem (bitmap_alloc_one_page (user_vmm_pool tcb_ptr) vaddr) ;;
    if vaddr_get =? BITMAP_RETURN_ERRO then v <- user_clean_bitmap_alloc vaddr ;; ret (Page_refused v)
    else
      present <- vmm_user_check_pt_present user_pdt_vaddr vaddr ;;
      if (present : bool) then ret Table_present
      else
        let times := Z.land (Z.shiftr vaddr 22) 1023 in
        created <- create_user_page_table (u32 (user_pdt_vaddr + times * 4)) ;;
        if negb created then v <- user_clean_bitmap_alloc vaddr ;; ret (Page_refused v)
        else ret Table_created.

(** The rest: the page itself. *)
Definition user_page_end (vaddr : Z) : M (vmm P) Z :=
  phy_page <- pmm_alloc ;;
  if al_state phy_page =? 0 then user_clean_bitmap_alloc vaddr
  else
    on_mem (store32 (get_pte vaddr)
      (u32 (page_mask (addr phy_page) + PAGE_DESC_RW_W + PAGE_DESC_US_U + PAGE_DESC_G + PAGE_DESC_P))) ;;
    emit (Invlpg (page_mask vaddr)) ;;
    ret (page_mask vaddr).

(** On the memory manager's own state the call of [printk] between [cli] and
    [sti] is an event; [UserPage] has the function with the call itself. *)
Definition vmm_user_alloc_one_page (tcb_ptr : TCB_t) (vaddr : Z) : M (vmm P) Z :=
  r <- user_page_begin tcb_ptr vaddr ;;
  match r with
  | Page_refused v => ret v
  | Table_present =>
      emit Cli ;;
      emit (Printk "-0x%h\n" [PInt (pdt_vaddr tcb_ptr)]) ;;
      emit Sti ;;
      user_page_end vaddr
  | Table_created => user_page_end vaddr
  end.

(** What the source declares and leaves empty. *)
Definition vmm_user_init : M (vmm P) unit := ret tt.
Definition vmm_user_alloc (user_pdt_vaddr : Z) : M (vmm P) unit := ret tt.
Definition vmm_user_release_one_page (target : Z) : M (vmm P) unit := ret tt.
Definition get_user_used_vmm_info : M (vmm P) Z := ret 1.

End code.

(** ** What the manager relies on *)

(** [pa_inv s F]: the allocator's invariant holds and its free pages are at the
    physical addresses [F].  [pa_ready s]: the next one-page request is one the
    allocator serves or refuses. *)
Class PageAllocatorSpec (P : Type) {PA : PageAllocator P} := {
  pa_inv : P -> list Z -> Prop;
  pa_ready : P -> Prop;
  pa_nodup s F : pa_inv s F -> NoDup F;
  pa_alloc s F : pa_inv s F -> pa_ready s ->
    (F = [] /\ exists r, alloc_one_page s = Ret s r [] /\ al_state r = 0) \/
    (exists s' r F', alloc_one_page s = Ret s' r [] /\ al_state r = 1 /\
       0 <= addr r < 4294967296 /\ addr r `mod` 4096 = 0 /\ F ≡ₚ addr r :: F' /\ pa_inv s' F')
}.
