(* ===== verification/VmmThm.v ===== *)
(** * Properties of the virtual memory manager

    The effect of allocation and release on the kernel's pool, on the page
    tables and on the physical allocator, proved against [PageAllocatorSpec];
    the physical allocator of [Pmm] is an instance of it. *)

From S2P Require Import Prelude Memory CString Bitmap KernLog.
From S2P Require Import Pmm PmmSpec PmmInv PmmAlloc PmmSys PmmThm PageTable Tcb Vmm.

Section kern.
Context {P : Type} {PA : PageAllocator P} {PS : PageAllocatorSpec P} {L : VmmLayout}.
Implicit Types (s : vmm P) (F : list Z).

Definition kern_pool : bitmap := Build_bitmap kern_bitmap 32768 3221225472.

(** The pool descriptor is the one [vmm_kern_init] sets, and its bits are
    below the page-table window. *)
Record vmm_ok s : Prop := {
  ok_pool : kern_vmm_pool s = kern_pool;
  ok_bitmap : 0 <= kern_bitmap /\ kern_bitmap + 32768 <= 4290772992
}.

Lemma kern_pool_wf s : vmm_ok s -> bitmap_wf kern_pool.
Proof. intros [_ H]. split; unfold region; cbn; lia || done. Qed.

Lemma vmm_ok_mem s m : vmm_ok s -> vmm_ok (set_mem m s).
Proof. by intros [? ?]. Qed.
Lemma vmm_ok_pages s p : vmm_ok s -> vmm_ok (set_pages p s).
Proof. by intros [? ?]. Qed.

(** ** The steps *)

Lemma on_mem_ret {A} (c : M mem A) s m (a : A) t :
  c (v_mem s) = Ret m a t -> on_mem c s = Ret (set_mem m s) a t.
Proof. intros E. unfold on_mem, zoom. by rewrite E. Qed.

Lemma set_mem_same s : set_mem (v_mem s) s = s.
Proof. by destruct s. Qed.

Lemma on_mem_load32 a s : on_mem (load32 a) s = Ret s (ld32 (v_mem s) a) [].
Proof. unfold on_mem, zoom, load32, gets. by rewrite set_mem_same. Qed.

Lemma on_mem_store32 a v s : on_mem (store32 a v) s = Ret (set_mem (st32 (v_mem s) a v) s) tt [].
Proof. done. Qed.

(** The test of the P bit, as written, succeeds whatever the entry holds. *)
Lemma p_bit_test_true ptr s : p_bit_test ptr s = Ret s true [].
Proof.
  unfold p_bit_test. run (on_mem_load32 ptr s) by idtac. run (on_mem_load32 ptr s) by idtac.
  by rewrite Z.eqb_refl.
Qed.

Lemma pmm_alloc_ret s p r :
  alloc_one_page (v_pages s) = Ret p r [] -> pmm_alloc s = Ret (set_pages p s) r [].
Proof. intros E. unfold pmm_alloc, zoom. by rewrite E. Qed.

Definition pte_value (f flags : Z) : Z := u32 (page_mask f + flags).

Lemma pte_value_aligned f : 0 <= f < 4294967296 -> f `mod` 4096 = 0 ->
  u32 (page_mask f + PAGE_DESC_RW_W + PAGE_DESC_US_S + PAGE_DESC_G + PAGE_DESC_P) = f + 259.
Proof.
  intros Hf Ha. unfold page_mask. rewrite land_page_mask, Ha by done.
  unfold PAGE_DESC_RW_W, PAGE_DESC_US_S, PAGE_DESC_G, PAGE_DESC_P. rewrite u32_small; [lia|].
  assert (f <= 4294963200) by dlia. lia.
Qed.

(** ** Bits and page tables do not overlap *)

Lemma ld8_st32_low m a v b :
  4290772992 <= a -> a + 4 <= 4294967296 -> 0 <= b < 4290772992 -> ld8 (st32 m a v) b = ld8 m b.
Proof. intros. apply ld8_st32_ne. intros i Hi. word_tac. Qed.

Lemma get_pte_range v : 0 <= v < 4294967296 -> 4290772992 <= get_pte v /\ get_pte v + 4 <= 4294967296.
Proof. intros Hv. rewrite get_pte_eq by done. dlia. Qed.

Lemma is_free_st32 s m a v p :
  vmm_ok s -> 4290772992 <= a -> a + 4 <= 4294967296 -> 0 <= p < pages kern_pool ->
  is_free kern_pool (st32 m a v) p = is_free kern_pool m p.
Proof.
  intros [_ Hb] H1 H2 Hp. unfold is_free, pages in *. cbn in *. rewrite ld8_st32_low; [done|lia|lia|dlia].
Qed.

Lemma free_set_ext bm m m' :
  (forall p, 0 <= p < pages bm -> is_free bm m p = is_free bm m' p) -> free_set bm m = free_set bm m'.
Proof.
  intros H. apply set_eq. intros p. rewrite !elem_of_free_set.
  split; intros [Hp Hf]; (split; [done|]); [by rewrite <- H|by rewrite H].
Qed.

Lemma free_set_st32 s m a v :
  vmm_ok s -> 4290772992 <= a -> a + 4 <= 4294967296 ->
  free_set kern_pool (st32 m a v) = free_set kern_pool m.
Proof. intros Hs H1 H2. apply free_set_ext. intros p Hp. by apply (is_free_st32 s). Qed.

#[local] Instance free_set_proper bm : Proper (mem_eq ==> eq) (free_set bm).
Proof. intros m m' H. apply free_set_ext. intros p _. unfold is_free. by rewrite H. Qed.

(** A change of the pool's bytes leaves the page tables alone. *)
Lemma frame_ld32 s m m' a :
  vmm_ok s -> frame kern_bitmap 32768 m m' -> 4290772992 <= a -> a + 4 <= 4294967296 ->
  ld32 m' a = ld32 m a.
Proof.
  intros [_ Hb] Hf H1 H2. unfold ld32.
  assert (E : forall j, 0 <= j < 4 -> ld8 m' (a + j) = ld8 m (a + j)).
  { intros j Hj. apply Hf. intros i Hi. word_tac. }
  pose proof (E 0 ltac:(lia)) as E0. rewrite Z.add_0_r in E0. by rewrite E0, !E by lia.
Qed.

(** ** The common part of the two allocation functions *)

Lemma map_kern_page_head target s :
  map_kern_page target s =
    (phy_page <- pmm_alloc ;;
     if al_state phy_page =? 0 then
       pool <- gets kern_vmm_pool ;;
       on_mem (bitmap_release_one_page pool target) ;;
       ret KERN_VMM_ALLOC_ERRO
     else
       on_mem (store32 (get_pte target)
         (u32 (page_mask (addr phy_page) + PAGE_DESC_RW_W + PAGE_DESC_US_S + PAGE_DESC_G + PAGE_DESC_P))) ;;
       emit (Invlpg (page_mask target)) ;;
       ret target) s.
Proof. unfold map_kern_page. run (p_bit_test_true (get_pde target) s) by idtac. cbv beta iota. by autorewrite with kern. Qed.

(** What a granted page changes: [p] leaves the pool, its entry maps the frame
    [f], and the other entries and the memory below the page-table window are
    as before. *)
Record page_mapped (s s' : vmm P) (target p f : Z) : Prop := {
  pm_ok : vmm_ok s';
  pm_pool : free_set kern_pool (v_mem s') = free_set kern_pool (v_mem s) ∖ {[p]};
  pm_entry : ld32 (v_mem s') (get_pte target) = f + 259;
  pm_others : forall w, 0 <= w < 4294967296 -> w / 4096 <> target / 4096 ->
    ld32 (v_mem s') (get_pte w) = ld32 (v_mem s) (get_pte w);
  pm_low : forall b, 0 <= b < 4290772992 -> b < kern_bitmap \/ kern_bitmap + 32768 <= b ->
    ld8 (v_mem s') b = ld8 (v_mem s) b;
  pm_frame : 0 <= f < 4294967296 /\ f `mod` 4096 = 0;
  pm_flag : USER_PAGE_DIR_IS_LOADED s' = USER_PAGE_DIR_IS_LOADED s
}.

Definition cleared (m : mem) (p : Z) : mem :=
  st8 m (kern_bitmap + p / 8) (ld8 m (kern_bitmap + p / 8) - 2 ^ (7 - p `mod` 8)).

Lemma map_kern_page_spec s F target p :
  vmm_ok s -> pa_inv (v_pages s) F -> pa_ready (v_pages s) -> 0 <= target < 4294967296 ->
  page_of kern_pool target = Some p -> is_free kern_pool (v_mem s) p = true ->
  (F = [] /\ exists m, map_kern_page target (set_mem (cleared (v_mem s) p) s) =
     Ret (set_mem m s) KERN_VMM_ALLOC_ERRO [] /\ mem_eq m (v_mem s)) \/
  (exists s' f F', map_kern_page target (set_mem (cleared (v_mem s) p) s) =
     Ret s' target [Invlpg (page_mask target)] /\
     F ≡ₚ f :: F' /\ pa_inv (v_pages s') F' /\ page_mapped s s' target p f).
Proof.
  intros Hs Hinv Hready Ht Hp Hfree. pose proof (kern_pool_wf s Hs) as Hwf.
  pose proof (page_of_Some _ _ _ Hp) as Hpr. set (m1 := cleared (v_mem s) p).
  rewrite map_kern_page_head.
  destruct (pa_alloc (v_pages s) F Hinv Hready) as [(HF & r & E & Hst)|(p' & r & F' & E & Hst & Hr & Hal & HF & Hinv')].
  - left. split; [done|]. run (pmm_alloc_ret (set_mem m1 s) _ _ E) by idtac.
    rewrite Hst. cbn [Z.eqb]. rewrite bind_gets.
    destruct (alloc_release_same kern_pool target p (v_mem s) Hwf Ht Hp Hfree)
      as (ma & mb & Ea & _ & Eb & Hm).
    rewrite alloc_one_page_eq, Hp, Hfree in Ea by done. injection Ea as Ea.
    change (kern_vmm_pool (set_pages (v_pages s) (set_mem m1 s))) with (kern_vmm_pool s).
    rewrite (ok_pool _ Hs). exists mb. split; [|done].
    rewrite <- Ea in Eb. erewrite bind_ret_eq by (apply on_mem_ret; exact Eb). by destruct s.
  - right. run (pmm_alloc_ret (set_mem m1 s) _ _ E) by idtac. rewrite Hst. cbn [Z.eqb].
    rewrite pte_value_aligned by done. destruct (get_pte_range target Ht) as [Hg1 Hg2].
    run (on_mem_store32 _ _ _) by idtac. rewrite bind_emit. eexists _, (addr r), F'.
    split; [reflexivity|]. split; [done|]. split; [done|].
    assert (Hfr : frame kern_bitmap 32768 (v_mem s) m1) by (by apply (frame_page kern_pool)).
    split; [by destruct Hs| | | | |done|done]; cbn [v_mem set_mem set_pages].
    + rewrite (free_set_st32 s) by done. by apply free_set_clear.
    + rewrite ld32_st32_eq, u32_small; [done|]. assert (addr r <= 4294963200) by dlia. lia.
    + intros w Hw Hne. rewrite ld32_st32_apart by (by apply get_pte_apart; auto).
      destruct (get_pte_range w Hw). by apply (frame_ld32 s).
    + intros b Hb Ho. rewrite ld8_st32_low by done. apply Hfr. destruct Hs as [_ Hkb]. intros i Hi. word_tac.
Qed.

Lemma page_addr_of p :
  0 <= p < pages kern_pool -> 0 <= page_addr kern_pool p < 4294967296 /\
  page_of kern_pool (page_addr kern_pool p) = Some p.
Proof.
  unfold page_of, pages, page_addr. cbn [kern_pool bm_length target_addr_header]. intros Hp. split; [lia|].
  replace (3221225472 + 4096 * p - 3221225472) with (p * 4096) by lia. rewrite Z.div_mul by lia.
  rewrite (proj2 (Z.leb_le _ _)), (proj2 (Z.ltb_lt _ _)) by lia. done.
Qed.

Lemma kern_alloc_one_page_cases s F target :
  vmm_ok s -> pa_inv (v_pages s) F -> pa_ready (v_pages s) -> 0 <= target < 4294967296 ->
  match page_of kern_pool target with
  | Some p =>
      if is_free kern_pool (v_mem s) p then
        (F = [] /\ exists m, vmm_kern_alloc_one_page target s = Ret (set_mem m s) KERN_VMM_ALLOC_ERRO [] /\
           mem_eq m (v_mem s)) \/
        (exists s' f F', vmm_kern_alloc_one_page target s = Ret s' target [Invlpg (page_mask target)] /\
           F ≡ₚ f :: F' /\ pa_inv (v_pages s') F' /\ page_mapped s s' target p f)
      else vmm_kern_alloc_one_page target s = Ret s KERN_VMM_ALLOC_ERRO []
  | None => vmm_kern_alloc_one_page target s = Ret s KERN_VMM_ALLOC_ERRO []
  end.
Proof.
  intros Hs Hinv Hready Ht. pose proof (kern_pool_wf s Hs) as Hwf.
  assert (E : vmm_kern_alloc_one_page target s =
    (vaddr_get <- on_mem (bitmap_alloc_one_page kern_pool target) ;;
     if vaddr_get =? BITMAP_RETURN_ERRO then ret KERN_VMM_ALLOC_ERRO else map_kern_page target) s).
  { unfold vmm_kern_alloc_one_page. by rewrite bind_gets, (ok_pool _ Hs). }
  rewrite E. pose proof (alloc_one_page_eq kern_pool target (v_mem s) Hwf Ht) as Ea.
  destruct (page_of kern_pool target) as [p|] eqn:Hp; [destruct (is_free _ _ p) eqn:Hf|].
  - run (on_mem_ret _ _ _ _ _ Ea) by idtac.
    rewrite (proj2 (Z.eqb_neq _ _)) by (apply page_addr_not_erro; [done|by eapply page_of_Some]).
    by apply map_kern_page_spec.
  - run (on_mem_ret _ _ _ _ _ Ea) by idtac. by rewrite set_mem_same.
  - run (on_mem_ret _ _ _ _ _ Ea) by idtac. by rewrite set_mem_same.
Qed.

(** C11: [vmm_kern_alloc_one_page] on every branch.  An address whose page is
    busy or outside the kernel's pool is refused and nothing changes.  For a
    free page it either maps the page (the page leaves the pool, its page-table
    entry becomes a free frame with the flags present, writable, supervisor,
    global, the other entries stay, the TLB entry is invalidated, and the
    address is returned as given), or, when the physical allocator has no page,
    gives the page back to the pool and fails with the memory as before. *)
Theorem vmm_kern_alloc_one_page_spec s F target :
  vmm_ok s -> pa_inv (v_pages s) F -> pa_ready (v_pages s) -> 0 <= target < 4294967296 ->
  match page_of kern_pool target with
  | Some p =>
      if is_free kern_pool (v_mem s) p then
        (F = [] /\ exists m, vmm_kern_alloc_one_page target s = Ret (set_mem m s) KERN_VMM_ALLOC_ERRO [] /\
           mem_eq m (v_mem s)) \/
        (exists s' f F', vmm_kern_alloc_one_page target s = Ret s' target [Invlpg (page_mask target)] /\
           F ≡ₚ f :: F' /\ pa_inv (v_pages s') F' /\ page_mapped s s' target p f)
      else vmm_kern_alloc_one_page target s = Ret s KERN_VMM_ALLOC_ERRO []
  | None => vmm_kern_alloc_one_page target s = Ret s KERN_VMM_ALLOC_ERRO []
  end.
Proof. apply kern_alloc_one_page_cases. Qed.

(** The outcomes of [vmm_kern_alloc]. *)
Lemma kern_alloc_cases s F :
  vmm_ok s -> pa_inv (v_pages s) F -> pa_ready (v_pages s) ->
  (exists m, vmm_kern_alloc s = Ret (set_mem m s) KERN_VMM_ALLOC_ERRO [] /\ mem_eq m (v_mem s) /\
     (free_set kern_pool (v_mem s) = ∅ \/ F = [])) \/
  (exists s' p f F', p ∈ free_set kern_pool (v_mem s) /\
     (forall q, q ∈ free_set kern_pool (v_mem s) -> p <= q) /\
     vmm_kern_alloc s = Ret s' (page_addr kern_pool p) [Invlpg (page_addr kern_pool p)] /\
     F ≡ₚ f :: F' /\ pa_inv (v_pages s') F' /\ page_mapped s s' (page_addr kern_pool p) p f).
Proof.
  intros Hs Hinv Hready. pose proof (kern_pool_wf s Hs) as Hwf.
  assert (E : vmm_kern_alloc s =
    (target <- on_mem (bitmap_alloc kern_pool) ;;
     if target =? BITMAP_RETURN_ERRO then ret KERN_VMM_ALLOC_ERRO else map_kern_page target) s).
  { unfold vmm_kern_alloc. by rewrite bind_gets, (ok_pool _ Hs). }
  rewrite E. unfold bitmap_alloc.
  destruct (alloc_loop_spec (S (Z.to_nat (bm_length kern_pool))) kern_pool 0 (v_mem s) Hwf)
    as [(p & Hp & Hmin & Ea)|[HF Ea]]; [cbn; lia|cbn; lia|cbn [kern_pool bm_length]; lia|lia| |].
  - pose proof Hp as Hp'. apply elem_of_free_set in Hp' as [Hpr Hf].
    destruct (page_addr_of p Hpr) as [Hr Hpo].
    assert (Hm : page_mask (page_addr kern_pool p) = page_addr kern_pool p).
    { unfold page_mask. rewrite land_page_mask by done. unfold page_addr. cbn [kern_pool target_addr_header].
      dlia. }
    run (on_mem_ret _ _ _ _ _ Ea) by idtac.
    rewrite (proj2 (Z.eqb_neq _ _)) by (by apply page_addr_not_erro).
    destruct (map_kern_page_spec s F _ p Hs Hinv Hready Hr Hpo Hf)
      as [(HF & m & Em & Hmem)|(s' & f & F' & Em & HF & Hinv' & Hmap)].
    + left. exists m. split; [done|]. split; [done|]. by right.
    + right. exists s', p, f, F'. rewrite Hm in Em.
      do 5 (split; [done|]). done.
  - left. exists (v_mem s). run (on_mem_ret _ _ _ _ _ Ea) by idtac. rewrite set_mem_same.
    split; [done|]. split; [done|]. by left.
Qed.

(** [vmm_kern_alloc] maps the lowest free page of the kernel's pool, and
    returns its address; it fails, with the memory as before, exactly when the
    pool or the physical allocator is empty. *)
Lemma vmm_kern_alloc_spec s F :
  vmm_ok s -> pa_inv (v_pages s) F -> pa_ready (v_pages s) ->
  (exists m, vmm_kern_alloc s = Ret (set_mem m s) KERN_VMM_ALLOC_ERRO [] /\ mem_eq m (v_mem s) /\
     (free_set kern_pool (v_mem s) = ∅ \/ F = [])) \/
  (exists s' p f F', p ∈ free_set kern_pool (v_mem s) /\
     (forall q, q ∈ free_set kern_pool (v_mem s) -> p <= q) /\
     vmm_kern_alloc s = Ret s' (page_addr kern_pool p) [Invlpg (page_addr kern_pool p)] /\
     F ≡ₚ f :: F' /\ pa_inv (v_pages s') F' /\ page_mapped s s' (page_addr kern_pool p) p f).
Proof. apply kern_alloc_cases. Qed.

(** [vmm_kern_release_one_page] of an address of the kernel's pool makes
    its page free, clears the present bit of its entry and nothing else of it,
    leaves the other entries, and invalidates the TLB entry; the physical
    allocator is not told (the call is commented out in the source), so the
    frame is lost.  An address below 0xC0000000 is ignored. *)
Lemma vmm_kern_release_one_page_spec s target p :
  vmm_ok s -> 0 <= target < 4294967296 ->
  if decide (target < 3221225472) then vmm_kern_release_one_page target s = Ret s tt []
  else page_of kern_pool target = Some p ->
    exists s', vmm_kern_release_one_page target s = Ret s' tt [Invlpg (page_mask target)] /\
      vmm_ok s' /\ v_pages s' = v_pages s /\
      free_set kern_pool (v_mem s') = {[p]} ∪ free_set kern_pool (v_mem s) /\
      ld32 (v_mem s') (get_pte target) = Z.land (ld32 (v_mem s) (get_pte target)) 4294967294 /\
      forall w, 0 <= w < 4294967296 -> w / 4096 <> target / 4096 ->
        ld32 (v_mem s') (get_pte w) = ld32 (v_mem s) (get_pte w).
Proof.
  intros Hs Ht. pose proof (kern_pool_wf s Hs) as Hwf. unfold vmm_kern_release_one_page. case_decide as B.
  { by rewrite (proj2 (Z.ltb_lt _ _)). }
  intros Hp. rewrite (proj2 (Z.ltb_ge _ _)), bind_gets, (ok_pool _ Hs) by lia.
  pose proof (page_of_Some _ _ _ Hp) as Hpr.
  pose proof (release_one_page_eq kern_pool target (v_mem s) Hwf Ht) as Er. rewrite Hp in Er.
  run (on_mem_ret _ _ _ _ _ Er) by idtac. cbv zeta. run (on_mem_load32 _ _) by idtac.
  run (on_mem_store32 _ _ _) by idtac. destruct (get_pte_range target Ht) as [Hg1 Hg2].
  match type of Er with _ = Ret ?m1 _ _ => set (m1' := m1) end.
  assert (Hfr : frame kern_bitmap 32768 (v_mem s) m1') by (by apply (frame_page kern_pool)).
  eexists. split; [reflexivity|]. split; [by destruct Hs|]. split; [done|]. cbn [v_mem set_mem].
  split; [rewrite (free_set_st32 s) by done; by apply free_set_set|]. split.
  - rewrite ld32_st32_eq, (frame_ld32 s _ m1') by done.
    apply u32_small. pose proof (ld32_range (v_mem s) (get_pte target)).
    split; [apply Z.land_nonneg; lia|].
    destruct (decide (Z.land (ld32 (v_mem s) (get_pte target)) 4294967294 = 0)) as [->|]; [lia|].
    apply (Z.log2_lt_pow2 _ 32); [apply Z.le_neq; split; [apply Z.land_nonneg; lia|done]|].
    eapply Z.le_lt_trans; [apply Z.log2_land; lia|]. apply Z.min_lt_iff. right. by vm_compute.
  - intros w Hw Hne. rewrite ld32_st32_apart by (by apply get_pte_apart; auto).
    destruct (get_pte_range w Hw). by apply (frame_ld32 s).
Qed.

Lemma v2p_eq s vaddr :
  0 <= vaddr < 4294967296 ->
  check_vaddr_present vaddr s = Ret s true [] /\
  vmm_v2p vaddr s =
    Ret s (frame_of (ld32 (v_mem s) (get_pte vaddr)) + vaddr `mod` 4096) [].
Proof.
  intros Hv. assert (E : check_vaddr_present vaddr s = Ret s true []).
  { unfold check_vaddr_present. run (p_bit_test_true (get_pde vaddr) s) by idtac. apply p_bit_test_true. }
  split; [done|]. unfold vmm_v2p. run E by idtac. run (on_mem_load32 _ _) by idtac. unfold ret. f_equal.
  pose proof (ld32_range (v_mem s) (get_pte vaddr)) as Hr. unfold page_mask. rewrite land_page_mask by done.
  rewrite Z.land_comm. change 4095 with (Z.ones 12). rewrite Z.land_ones by lia. change (2 ^ 12) with 4096.
  set (e := ld32 (v_mem s) (get_pte vaddr)) in *. unfold frame_of.
  replace (e - e `mod` 4096) with (Z.shiftl (e / 4096) 12)
    by (rewrite Z.shiftl_mul_pow2 by lia; change (2 ^ 12) with 4096; dlia).
  rewrite lor_shiftl_add by (change (2 ^ 12) with 4096; dlia).
  rewrite Z.shiftl_mul_pow2 by lia. done.
Qed.

(** The presence check never fails, so the translation never reports an
    error: [check_vaddr_present] answers True for every address and every
    content of the page tables, and [vmm_v2p] computes from the entry even
    when its present bit is clear. *)
Theorem check_vaddr_present_always s vaddr :
  0 <= vaddr < 4294967296 ->
  check_vaddr_present vaddr s = Ret s true [] /\
  vmm_v2p vaddr s =
    Ret s (frame_of (ld32 (v_mem s) (get_pte vaddr)) + vaddr `mod` 4096) [].
Proof. apply v2p_eq. Qed.

Lemma pte_frame f : 0 <= f < 4294967296 -> f `mod` 4096 = 0 -> frame_of (f + 259) = f.
Proof. intros Hf Ha. unfold frame_of. dlia. Qed.

(** An address the kernel has just mapped translates to one of the frames
    that were free, with the offset of the address; the pages mapped before
    translate as they did. *)
Theorem kern_alloc_translates s F target s1 :
  vmm_ok s -> pa_inv (v_pages s) F -> pa_ready (v_pages s) -> 0 <= target < 4294967295 ->
  vmm_kern_alloc_one_page target s = Ret s1 target [Invlpg (page_mask target)] ->
  exists f F', F ≡ₚ f :: F' /\ vmm_v2p target s1 = Ret s1 (f + target `mod` 4096) [] /\
    forall w, 0 <= w < 4294967296 -> w / 4096 <> target / 4096 ->
      exists a, vmm_v2p w s = Ret s a [] /\ vmm_v2p w s1 = Ret s1 a [].
Proof.
  intros Hs Hinv Hready Ht E.
  pose proof (kern_alloc_one_page_cases s F target Hs Hinv Hready ltac:(lia)) as H.
  destruct (page_of kern_pool target) as [p|]; [destruct (is_free _ _ p)|].
  - destruct H as [(_ & m & E' & _)|(s' & f & F' & E' & HF & Hinv' & Hm)].
    + rewrite E in E'. injection E' as ? ?. unfold KERN_VMM_ALLOC_ERRO in *. lia.
    + rewrite E in E'. injection E' as <-. exists f, F'. split; [done|].
      destruct (pm_frame _ _ _ _ _ Hm) as [Hf Ha]. split.
      * destruct (v2p_eq s1 target ltac:(lia)) as [_ ->].
        by rewrite (pm_entry _ _ _ _ _ Hm), pte_frame.
      * intros w Hw Hne. destruct (v2p_eq s w Hw) as [_ ->], (v2p_eq s1 w Hw) as [_ ->].
        rewrite (pm_others _ _ _ _ _ Hm w Hw Hne). eauto.
  - rewrite H in E. injection E as ? ?. unfold KERN_VMM_ALLOC_ERRO in *. lia.
  - rewrite H in E. injection E as ? ?. unfold KERN_VMM_ALLOC_ERRO in *. lia.
Qed.

(** ** Initialisation *)

Lemma on_mem_eq {A} (c : M mem A) s m (a : A) t m0 :
  c m0 = Ret m a t -> on_mem c (set_mem m0 s) = Ret (set_mem m s) a t.
Proof. intros E. unfold on_mem, zoom. cbn [v_mem set_mem]. by rewrite E. Qed.

(** Taking pages one by one takes the lowest ones. *)
Lemma reserve_pages_eq bm n a m :
  bitmap_wf bm -> bm_length bm <= 65536 -> 0 <= a -> a + Z.of_nat n <= pages bm ->
  (forall p, p ∈ free_set bm m <-> a <= p < pages bm) ->
  exists m', reserve_pages n bm m = Ret m' tt [] /\
    (forall p, p ∈ free_set bm m' <-> a + Z.of_nat n <= p < pages bm) /\
    frame (vaddr_header bm) (bm_length bm) m m'.
Proof.
  intros Hwf Hlen. revert a m. induction n as [|n IH]; intros a m Ha Hn Hf.
  - exists m. rewrite Z.add_0_r. done.
  - cbn [reserve_pages]. unfold bitmap_alloc.
    destruct (alloc_loop_spec (S (Z.to_nat (bm_length bm))) bm 0 m Hwf Hlen)
      as [(p & Hp & Hmin & E)|[HF E]]; [destruct Hwf; lia|lia|lia| |].
    + assert (p = a) as ->.
      { pose proof (proj1 (Hf p) Hp). pose proof (Hmin a (proj2 (Hf a) ltac:(lia))). lia. }
      run E by idtac. pose proof Hp as Hp'. apply elem_of_free_set in Hp' as [Hpr Hfr].
      set (m1 := st8 _ _ _).
      assert (E1 : free_set bm m1 = free_set bm m ∖ {[a]}) by (by apply free_set_clear).
      destruct (IH (a + 1) m1) as (m' & E' & Hf' & Hfr'); [lia|lia| |].
      { intros q. rewrite E1, elem_of_difference, elem_of_singleton, Hf. lia. }
      exists m'. split; [done|]. split.
      * intros q. rewrite Hf'. lia.
      * eapply frame_trans; [|done]. by apply frame_page.
    + pose proof (proj2 (Hf a) ltac:(lia)) as Hin. rewrite HF in Hin. set_solver.
Qed.

Lemma clear_down_eq n a m :
  0 <= a - Z.of_nat n -> a < 4294967296 ->
  exists m', clear_down n a m = Ret m' tt [] /\
    forall b, 0 <= b < 4294967296 -> ld8 m' b = if decide (a - Z.of_nat n < b <= a) then 0 else ld8 m b.
Proof.
  revert a m. induction n as [|n IH]; intros a m H1 H2.
  - exists m. split; [done|]. intros b Hb. by rewrite decide_False by lia.
  - cbn [clear_down]. rewrite bind_store8, u32_small by lia.
    destruct (IH (a - 1) (st8 m a 0)) as (m' & E & Hb); [lia|lia|]. exists m'. split; [done|].
    intros b Hr. rewrite Hb, ld8_st8, !u32_small by lia. repeat case_decide; lia || done.
Qed.

(** The outcomes of [vmm_init]. *)
Lemma vmm_init_cases s :
  0 <= kern_bitmap -> kern_bitmap + 32768 <= 4290772992 -> 0 <= kern_end ->
  kern_end + 4095 < 4294967296 ->
  let used := (kern_end + 4095) / 4096 in
  if decide (used <= 1024) then
    exists s', vmm_init s = Ret s' tt [] /\ vmm_ok s' /\ v_pages s' = v_pages s /\
      (forall p, p ∈ free_set kern_pool (v_mem s') <-> used <= p < 261120) /\
      frame kern_bitmap 32768 (v_mem s) (v_mem s')
  else exists s' t, vmm_init s = Stop s' t.
Proof.
  intros Hb0 Hb1 He0 He1 used.
  assert (Hwf : bitmap_wf kern_pool) by (split; unfold region; cbn; lia || done).
  assert (Hused : get_kern_used_page_count = used).
  { unfold get_kern_used_page_count, PAGE_SIZE, used. rewrite Z.sub_0_r, u32_sub_l.
    rewrite (u32_small kern_end), u32_small by lia.
    replace (kern_end + 4096 - 1) with (kern_end + 4095) by lia. apply i32_small. dlia. }
  unfold vmm_init, vmm_kern_init. rewrite bind_modify, bind_gets. cbn [kern_vmm_pool set_pool].
  destruct (init_all_free kern_pool (v_mem s) Hwf) as (m1 & E1 & Hf1 & Fr1).
  fold kern_pool. set (s0 := set_pool kern_pool s).
  change (v_mem s) with (v_mem s0) in E1. run (on_mem_ret _ _ _ _ _ E1) by idtac.
  rewrite Hused. case_decide as B.
  - assert (Hg : (used >? 1024) = false)
      by (rewrite Z.gtb_ltb; apply Z.ltb_ge; lia). rewrite Hg.
    assert (Hu : 0 <= used) by (unfold used; apply Z.div_pos; lia).
    destruct (reserve_pages_eq kern_pool (Z.to_nat used) 0 m1 Hwf) as (m2 & E2 & Hf2 & Fr2);
      [cbn; lia|lia|unfold pages; cbn [kern_pool bm_length]; lia|done|].
    rewrite Z2Nat.id, Z.add_0_l in Hf2 by done.
    run (on_mem_eq _ s0 _ _ _ m1 E2) by idtac.
    rewrite (u32_small (kern_bitmap + 32768)), u32_small by lia.
    destruct (clear_down_eq 128 (kern_bitmap + 32768 - 1) m2) as (m3 & E3 & Hb3); [lia|lia|].
    rewrite (on_mem_eq _ s0 _ _ _ m2 E3). eexists. split; [reflexivity|].
    split; [split; [reflexivity|lia]|]. split; [reflexivity|]. cbn [v_mem set_mem]. split.
    + intros p. rewrite elem_of_free_set. unfold pages in *. cbn [kern_pool bm_length] in *.
      unfold is_free. cbn [kern_pool vaddr_header].
      split.
      * intros [Hp Hfr]. rewrite Hb3 in Hfr by dlia. case_decide as D; [by rewrite Z.bits_0 in Hfr|].
        assert (p < 261120) by dlia.
        assert (Hin : p ∈ free_set kern_pool m2) 
          by (apply elem_of_free_set; split; [unfold pages; cbn [kern_pool bm_length]; lia|exact Hfr]).
        apply Hf2 in Hin. lia.
      * intros Hp. split; [lia|]. rewrite Hb3, decide_False by dlia.
        assert (Hin : p ∈ free_set kern_pool m2) by (apply Hf2; lia).
        apply elem_of_free_set in Hin as [_ Hin]. exact Hin.
    + eapply frame_trans; [exact Fr1|]. eapply frame_trans; [exact Fr2|].
      intros b Hb. rewrite <- (ld8_u32 m3), <- (ld8_u32 m2). pose proof (u32_range b).
      rewrite Hb3 by done. rewrite decide_False; [done|]. intros Hr.
      apply (Hb (u32 b - kern_bitmap)); [lia|].
      replace (kern_bitmap + (u32 b - kern_bitmap)) with (u32 b) by lia. apply u32_idem.
  - assert (Hg : (used >? 1024) = true) by (rewrite Z.gtb_ltb; apply Z.ltb_lt; lia). rewrite Hg.
    eexists _, _. reflexivity.
Qed.

(** [vmm_init], with a kernel of at most 1024 pages: afterwards the pages of
    the kernel (from 0xC0000000 on) and the last 1024 pages, the page-table
    window, are busy and all the pages between are free; only the bitmap was
    written.  With a larger kernel it reports the error and stops. *)
Lemma vmm_init_pool s :
  0 <= kern_bitmap -> kern_bitmap + 32768 <= 4290772992 -> 0 <= kern_end ->
  kern_end + 4095 < 4294967296 ->
  let used := (kern_end + 4095) / 4096 in
  if decide (used <= 1024) then
    exists s', vmm_init s = Ret s' tt [] /\ vmm_ok s' /\ v_pages s' = v_pages s /\
      (forall p, p ∈ free_set kern_pool (v_mem s') <-> used <= p < 261120) /\
      frame kern_bitmap 32768 (v_mem s) (v_mem s')
  else exists s' t, vmm_init s = Stop s' t.
Proof. exact (vmm_init_cases s). Qed.

(** [create_kern_page_table] tests the state of the allocation the wrong way
    round: when the physical allocator grants a page it stops the kernel, and
    when it has none it clears the page at address 0 and installs a directory
    entry for it. *)
Theorem create_kern_page_table_inverted s F pde_vaddr :
  pa_inv (v_pages s) F -> pa_ready (v_pages s) ->
  if decide (F = []) then
    (exists r, alloc_one_page (v_pages s) = Ret (v_pages s) r [] /\ (addr r = 0 ->
       create_kern_page_table pde_vaddr s =
         Ret (set_mem (st32 (write_bytes (v_mem s) 0 (replicate (Z.to_nat 4096) 0)) pde_vaddr 3) s) tt []))
  else exists s', create_kern_page_table pde_vaddr s =
    Stop s' [Printk_color "[STOP][%s]%s\n" white black
               [PStr "VMM"; PStr "Fail To Create Kernel Page Table!STOP!"]].
Proof.
  intros Hinv Hready. unfold create_kern_page_table.
  destruct (pa_alloc (v_pages s) F Hinv Hready) as [(HF & r & E & Hst)|(p' & r & F' & E & Hst & _ & _ & HF & _)].
  - rewrite decide_True by done. exists r. split; [done|]. intros Ha.
    run (pmm_alloc_ret s _ _ E) by idtac. rewrite Hst, Ha. cbn [Z.eqb negb].
    assert (Es : set_pages (v_pages s) s = s) by (by destruct s). rewrite Es.
    erewrite bind_ret_eq by (apply on_mem_ret, memset_eq). rewrite prepend_nil, on_mem_store32.
    change (u32 PAGE_SIZE) with 4096. change (u8 0) with 0.
    change (u32 (page_mask 0 + PAGE_DESC_P + PAGE_DESC_RW_W + PAGE_DESC_US_S)) with 3. reflexivity.
  - rewrite decide_False by (intros ->; by apply Permutation_nil_cons in HF).
    run (pmm_alloc_ret s _ _ E) by idtac. rewrite Hst. cbn [Z.eqb negb]. by eexists.
Qed.

(** ** User pages *)

(** A user task: its directory is loaded, its pool is a pool whose bits are
    below the page-table window. *)
Record user_ok s (t : TCB_t) : Prop := {
  us_loaded : USER_PAGE_DIR_IS_LOADED s <> 0;
  us_user : is_kern_thread t = 0;
  us_pool : bitmap_wf (user_vmm_pool t);
  us_low : vaddr_header (user_vmm_pool t) + bm_length (user_vmm_pool t) <= 4290772992
}.

Lemma vmm_user_alloc_head s t vaddr :
  user_ok s t -> 0 <= vaddr < 4294967296 ->
  vmm_user_alloc_one_page t vaddr s =
    (vaddr_get <- on_mem (bitmap_alloc_one_page (user_vmm_pool t) vaddr) ;;
     if vaddr_get =? BITMAP_RETURN_ERRO then user_clean_bitmap_alloc vaddr
     else
       present <- vmm_user_check_pt_present (pdt_vaddr t) vaddr ;;
       created <-
         (if (present : bool) then
            emit Cli ;; emit (Printk "-0x%h\n" [PInt (pdt_vaddr t)]) ;; emit Sti ;; ret true
          else
            let times := Z.land (Z.shiftr vaddr 22) 1023 in
            create_user_page_table (u32 (pdt_vaddr t + times * 4))) ;;
       if negb created then user_clean_bitmap_alloc vaddr
       else
         phy_page <- pmm_alloc ;;
         if al_state phy_page =? 0 then user_clean_bitmap_alloc vaddr
         else
           on_mem (store32 (get_pte vaddr)
             (u32 (page_mask (addr phy_page) + PAGE_DESC_RW_W + PAGE_DESC_US_U + PAGE_DESC_G + PAGE_DESC_P))) ;;
           emit (Invlpg (page_mask vaddr)) ;;
           ret (page_mask vaddr)) s.
Proof.
  intros [Hl Hu Hw _] Hv. unfold vmm_user_alloc_one_page, user_page_begin. rewrite bind_assoc, bind_gets.
  rewrite (proj2 (Z.eqb_neq _ _)), Hu by done. cbn [Z.eqb negb]. cbv zeta. rewrite bind_assoc. apply bind_ext. intros a s1.
  destruct (a =? BITMAP_RETURN_ERRO); [rewrite bind_assoc; apply bind_ret_r|].
  rewrite bind_assoc. apply bind_ext. intros [] s2.
  - rewrite bind_ret, bind_assoc, !bind_emit, bind_assoc, bind_emit, bind_assoc, bind_emit, bind_ret. reflexivity.
  - cbv zeta. rewrite bind_assoc. apply bind_ext. intros [] s3; cbn [negb]; [by rewrite bind_ret|]. rewrite bind_assoc. apply bind_ret_r.
Qed.

Lemma user_clean_eq s vaddr :
  vmm_ok s -> 0 <= vaddr < 4294967296 ->
  exists m, user_clean_bitmap_alloc vaddr s = Ret (set_mem m s) USER_VMM_ALLOC_ERRO [] /\
    match page_of kern_pool vaddr with
    | Some p => free_set kern_pool m = {[p]} ∪ free_set kern_pool (v_mem s)
    | None => m = v_mem s
    end.
Proof.
  intros Hs Hv. pose proof (kern_pool_wf s Hs) as Hwf. unfold user_clean_bitmap_alloc.
  rewrite bind_gets, (ok_pool _ Hs). pose proof (release_one_page_eq kern_pool vaddr (v_mem s) Hwf Hv) as E.
  destruct (page_of kern_pool vaddr) as [p|] eqn:Hp.
  - run (on_mem_ret _ _ _ _ _ E) by idtac. eexists. split; [reflexivity|].
    apply free_set_set; [done|by eapply page_of_Some].
  - run (on_mem_ret _ _ _ _ _ E) by idtac. by eexists.
Qed.

Lemma user_pte_value f : 0 <= f < 4294967296 -> f `mod` 4096 = 0 ->
  u32 (page_mask f + PAGE_DESC_RW_W + PAGE_DESC_US_U + PAGE_DESC_G + PAGE_DESC_P) = f + 263.
Proof.
  intros Hf Ha. unfold page_mask. rewrite land_page_mask, Ha by done.
  unfold PAGE_DESC_RW_W, PAGE_DESC_US_U, PAGE_DESC_G, PAGE_DESC_P. rewrite u32_small; [lia|].
  assert (f <= 4294963200) by dlia. lia.
Qed.

Lemma page_of_kern_low v : 0 <= v < 3221225472 -> page_of kern_pool v = None.
Proof.
  intros Hv. unfold page_of, pages. cbn [kern_pool bm_length target_addr_header].
  destruct (Z.leb_spec 0 ((v - 3221225472) / 4096)); [|done]. exfalso. dlia.
Qed.

Lemma free_set_st32_low bm m a v :
  bitmap_wf bm -> vaddr_header bm + bm_length bm <= 4290772992 ->
  4290772992 <= a -> a + 4 <= 4294967296 -> free_set bm (st32 m a v) = free_set bm m.
Proof.
  intros [Hb _ _ _ _] Hl H1 H2. apply free_set_ext. intros p Hp. unfold is_free, pages, region in *.
  rewrite ld8_st32_low; [done|lia|lia|dlia].
Qed.

(** The two parts of [vmm_user_alloc_one_page] for a page of a task in a region
    with a page table. *)
Definition user_bit_taken s (t : TCB_t) (p : Z) : mem :=
  let U := user_vmm_pool t in
  st8 (v_mem s) (vaddr_header U + p / 8) (ld8 (v_mem s) (vaddr_header U + p / 8) - 2 ^ (7 - p `mod` 8)).

Lemma user_begin_present s t vaddr p :
  let m1 := user_bit_taken s t p in
  user_ok s t -> 0 <= vaddr < 3221225472 -> page_of (user_vmm_pool t) vaddr = Some p -> is_free (user_vmm_pool t) (v_mem s) p = true ->
  Z.testbit (ld32 m1 (user_get_pde (pdt_vaddr t) vaddr)) 0 = true ->
  user_page_begin t vaddr s = Ret (set_mem m1 s) Table_present [] /\
  free_set (user_vmm_pool t) m1 = free_set (user_vmm_pool t) (v_mem s) ∖ {[p]}.
Proof.
  intros m1 Hu Hv Hp Hfree Hpde. pose proof Hu as [Hl Hk Hwf _]. pose proof (page_of_Some _ _ _ Hp) as Hpr.
  split; [|by apply free_set_clear]. unfold user_page_begin. rewrite bind_gets, (proj2 (Z.eqb_neq _ _)), Hk by done. cbn [Z.eqb negb].
  cbv zeta. pose proof (alloc_one_page_eq (user_vmm_pool t) vaddr (v_mem s) Hwf ltac:(lia)) as Ea. rewrite Hp, Hfree in Ea.
  fold (user_bit_taken s t p) in Ea. fold m1 in Ea. run (on_mem_ret _ _ _ _ _ Ea) by idtac.
  rewrite (proj2 (Z.eqb_neq _ _)) by (by apply page_addr_not_erro).
  assert (Ep : vmm_user_check_pt_present (pdt_vaddr t) vaddr (set_mem m1 s) = Ret (set_mem m1 s) true []).
  { unfold vmm_user_check_pt_present. fold (user_get_pde (pdt_vaddr t) vaddr).
    run (on_mem_load32 _ _) by idtac. run (on_mem_load32 _ _) by idtac. cbn [v_mem set_mem].
    unfold ret. f_equal. apply Z.eqb_eq. change 1 with (2 ^ 0). by apply lor_pow2_id_iff. }
  run Ep by idtac. reflexivity.
Qed.

Lemma user_end_cases s F vaddr :
  vmm_ok s -> pa_inv (v_pages s) F -> pa_ready (v_pages s) -> 0 <= vaddr < 3221225472 ->
  if decide (F = []) then user_page_end vaddr s = Ret s USER_VMM_ALLOC_ERRO []
  else exists p' f F', user_page_end vaddr s =
      Ret (set_mem (st32 (v_mem s) (get_pte vaddr) (f + 263)) (set_pages p' s)) (page_mask vaddr) [Invlpg (page_mask vaddr)] /\
    F ≡ₚ f :: F' /\ pa_inv p' F' /\ 0 <= f < 4294967296 /\ f `mod` 4096 = 0.
Proof.
  intros Hs Hinv Hready Hv. unfold user_page_end.
  destruct (pa_alloc (v_pages s) F Hinv Hready) as [(HF & r & E & Hst)|(p' & r & F' & E & Hst & Hr & Hal & HF & Hinv')].
  - rewrite decide_True by done. run (pmm_alloc_ret s _ _ E) by idtac. rewrite Hst. cbn [Z.eqb].
    assert (Es : set_pages (v_pages s) s = s) by (by destruct s). rewrite Es.
    destruct (user_clean_eq s vaddr Hs ltac:(lia)) as (m & Ec & Hm). rewrite page_of_kern_low in Hm by done. subst m.
    by rewrite Ec, set_mem_same.
  - rewrite decide_False by (intros ->; by apply Permutation_nil_cons in HF).
    run (pmm_alloc_ret s _ _ E) by idtac. rewrite Hst. cbn [Z.eqb]. rewrite user_pte_value by done.
    run (on_mem_store32 _ _ _) by idtac. rewrite bind_emit. exists p', (addr r), F'. by split.
Qed.

Lemma user_page_mask t vaddr p :
  bitmap_wf (user_vmm_pool t) -> 0 <= vaddr < 4294967296 -> page_of (user_vmm_pool t) vaddr = Some p ->
  page_mask vaddr = page_addr (user_vmm_pool t) p.
Proof.
  intros Hwf Hv Hp. pose proof (page_of_spec (user_vmm_pool t) vaddr Hwf Hv) as Hsp. rewrite Hp in Hsp. by destruct Hsp as (_ & _ & Hsp & _).
Qed.

(** The memory manager's part of the function; the call of [printk] is the event
    in the middle. *)
Lemma user_alloc_cases s F t vaddr p :
  let U := user_vmm_pool t in
  let m1 := st8 (v_mem s) (vaddr_header U + p / 8) (ld8 (v_mem s) (vaddr_header U + p / 8) - 2 ^ (7 - p `mod` 8)) in
  let pde := u32 (pdt_vaddr t + Z.land (Z.shiftr vaddr 22) 1023 * 4) in
  vmm_ok s -> user_ok s t -> pa_inv (v_pages s) F -> pa_ready (v_pages s) ->
  0 <= vaddr < 3221225472 -> page_of U vaddr = Some p -> is_free U (v_mem s) p = true ->
  Z.testbit (ld32 m1 pde) 0 = true ->
  let tr := [Cli; Printk "-0x%h\n" [PInt (pdt_vaddr t)]; Sti] in
  if decide (F = []) then
    exists s', vmm_user_alloc_one_page t vaddr s = Ret s' USER_VMM_ALLOC_ERRO tr /\
      free_set U (v_mem s') = free_set U (v_mem s) ∖ {[p]} /\ v_pages s' = v_pages s
  else
    exists s' f F', vmm_user_alloc_one_page t vaddr s = Ret s' (page_addr U p) (tr ++ [Invlpg (page_addr U p)]) /\
      F ≡ₚ f :: F' /\ pa_inv (v_pages s') F' /\
      free_set U (v_mem s') = free_set U (v_mem s) ∖ {[p]} /\
      ld32 (v_mem s') (get_pte vaddr) = f + 263 /\ v_mem s' = st32 m1 (get_pte vaddr) (f + 263).
Proof.
  intros U m1 pde Hs Hu Hinv Hready Hv Hp Hfree Hpde tr.
  destruct (user_begin_present s t vaddr p Hu Hv Hp Hfree Hpde) as [E1 Efs]. fold U m1 in E1, Efs.
  pose proof (us_pool _ _ Hu) as Hwf. pose proof (user_end_cases (set_mem m1 s) F vaddr (vmm_ok_mem _ _ Hs) Hinv Hready Hv) as E2.
  unfold vmm_user_alloc_one_page. rewrite (bind_ret_eq _ _ _ _ _ _ E1), prepend_nil, !bind_emit.
  change (user_bit_taken s t p) with m1 in *. case_decide as HF.
  - rewrite E2. eexists. split; [reflexivity|]. by split.
  - destruct E2 as (p' & f & F' & E2 & HF' & Hinv' & Hf & Hal). rewrite E2, (user_page_mask t vaddr p) by (done || lia).
    eexists _, f, F'. split; [reflexivity|]. split; [done|]. split; [done|]. cbn [v_mem set_mem set_pages].
    destruct (get_pte_range vaddr ltac:(lia)) as [Hg1 Hg2]. split.
    + rewrite free_set_st32_low; [exact Efs|done|apply Hu|done|done].
    + split; [|done]. rewrite ld32_st32_eq, u32_small; [done|]. assert (f <= 4294963200) by dlia. lia.
Qed.

(** A request of a user task for a page of the kernel (0xC0000000 and up),
    which its own pool refuses, fails, but its error exit marks that page of
    the kernel free, mapped or not. *)
Theorem user_request_frees_kernel_page s t vaddr p :
  vmm_ok s -> user_ok s t -> 0 <= vaddr < 4294967296 ->
  page_of (user_vmm_pool t) vaddr = None -> page_of kern_pool vaddr = Some p ->
  exists s', vmm_user_alloc_one_page t vaddr s = Ret s' USER_VMM_ALLOC_ERRO [] /\
    free_set kern_pool (v_mem s') = {[p]} ∪ free_set kern_pool (v_mem s).
Proof.
  intros Hs Hu Hv HpU Hp. rewrite vmm_user_alloc_head by done.
  pose proof (alloc_one_page_eq (user_vmm_pool t) vaddr (v_mem s) (us_pool _ _ Hu) Hv) as Ea.
  rewrite HpU in Ea. run (on_mem_ret _ _ _ _ _ Ea) by idtac. rewrite Z.eqb_refl, set_mem_same.
  destruct (user_clean_eq s vaddr Hs Hv) as (m & E & Hm). rewrite Hp in Hm. by eexists.
Qed.

End kern.

(** ** The physical allocator as an instance *)

Definition frames_of (s : pmm) (ls : list (list Z)) : list Z :=
  map (pmm_page_no_to_addr (pmm_page_start s)) (covered ls).

Definition pmm_frames (s : pmm) (F : list Z) : Prop :=
  exists ls, buddy s ls /\ pmm_page_start s `mod` 4096 = 0 /\ F ≡ₚ frames_of s ls.
Definition pmm_ready (s : pmm) : Prop := SINGLE_LINK s = None -> no_split 1 s.

Lemma covered_range s ls p : buddy s ls -> p ∈ covered ls -> 0 <= p < 1048576.
Proof.
  intros H (k & b & Hb & Hp)%elem_of_covered. pose proof (bd_rep _ _ H) as Hr.
  pose proof (rep_max _ _ Hr). pose proof (bd_first _ _ H). apply elem_of_block in Hp.
  assert (Hk : (k < 12)%nat).
  { destruct (decide (k < 12)%nat); [done|]. unfold list_at in Hb.
    rewrite lookup_ge_None_2 in Hb by (rewrite (rep_length _ _ Hr); lia). by apply elem_of_nil in Hb. }
  destruct (decide (k = 11%nat)) as [->|Hne].
  - change (width 11) with 1 in Hp. destruct (rep_list_at _ _ 11 Hr Hk) as (_ & h & _ & Hlk & _).
    assert (0 <= b < pmm_max_page_no s) by (apply (proj2 (rep_array _ _ Hr)); by eapply linked_elem). lia.
  - assert (Hc : is_class k) by (unfold is_class; lia). rewrite class_width in Hp by done.
    destruct (bw_aligned _ _ (bd_wf _ _ H) _ _ Hc Hb) as (? & _ & ?). lia.
Qed.

Lemma pmm_frames_nodup s F : pmm_frames s F -> NoDup F.
Proof.
  intros (ls & H & _ & ->). unfold frames_of. pose proof (bw_nodup _ _ (bd_wf _ _ H)) as Hn.
  assert (Hr : forall p, p ∈ covered ls -> 0 <= p < 1048576) by (intros p; by apply (covered_range s)).
  revert Hn Hr. generalize (covered ls) as l. clear H. induction l as [|p l IH]; intros Hn Hr; [constructor|].
  apply NoDup_cons in Hn as [Hp Hn]. cbn [map]. constructor; [|apply IH; [done|set_solver]].
  intros Hin. apply list_elem_of_In, in_map_iff in Hin as (q & Hq & Hin). apply list_elem_of_In in Hin.
  apply Hp. rewrite <- (page_addr_inverse (pmm_page_start s) p) by (apply Hr; set_solver).
  rewrite <- Hq, page_addr_inverse by (apply Hr; set_solver). done.
Qed.

Lemma to_addr_aligned start z :
  start `mod` 4096 = 0 -> 0 <= pmm_page_no_to_addr start z < 4294967296 /\
  pmm_page_no_to_addr start z `mod` 4096 = 0.
Proof.
  intros Hs. unfold pmm_page_no_to_addr. split; [apply u32_range|].
  rewrite Z.shiftl_mul_pow2 by lia. change (2 ^ 12) with 4096. unfold u32. dlia.
Qed.

Lemma frames_step s s' ls ls' z :
  buddy s' ls' -> cfg s' = cfg s -> pmm_page_start s `mod` 4096 = 0 -> covered ls ≡ₚ z :: covered ls' ->
  frames_of s ls ≡ₚ addr (granted s 0 z) :: frames_of s' ls' /\ pmm_frames s' (frames_of s' ls').
Proof.
  intros H' Hc Ha Hcov. unfold pmm_frames, frames_of. rewrite (cfg_start _ _ Hc). split.
  - by rewrite Hcov.
  - by exists ls'.
Qed.

Lemma pmm_alloc_law s F :
  pmm_frames s F -> pmm_ready s ->
  (F = [] /\ exists r, pmm_alloc_one_page s = Ret s r [] /\ al_state r = 0) \/
  (exists s' r F', pmm_alloc_one_page s = Ret s' r [] /\ al_state r = 1 /\
     0 <= addr r < 4294967296 /\ addr r `mod` 4096 = 0 /\ F ≡ₚ addr r :: F' /\ pmm_frames s' F').
Proof.
  intros (ls & H & Ha & HF) Hready. pose proof (bd_rep _ _ H) as Hr.
  assert (Hgrant : forall s' ls' z, pmm_alloc_one_page s = Ret s' (granted s 0 z) [] -> buddy s' ls' ->
    cfg s' = cfg s -> covered ls ≡ₚ z :: covered ls' ->
    exists s' r F', pmm_alloc_one_page s = Ret s' r [] /\ al_state r = 1 /\
      0 <= addr r < 4294967296 /\ addr r `mod` 4096 = 0 /\ F ≡ₚ addr r :: F' /\ pmm_frames s' F').
  { intros s' ls' z E H' Hc Hcov. destruct (frames_step s s' ls ls' z H' Hc Ha Hcov) as [H1 H2].
    destruct (to_addr_aligned (pmm_page_start s) z Ha) as [H3 H4].
    exists s', (granted s 0 z), (frames_of s' ls'). rewrite HF. done. }
  destruct (last (list_at ls 11)) as [z|] eqn:El.
  - right. pose proof (last_split _ _ El) as Hl.
    destruct (pmm_alloc_one_page_single _ _ _ _ H Hl) as (s' & E & H' & Hc).
    eapply Hgrant; [exact E|exact H'|exact Hc|]. by apply (covered_single_last s).
  - apply last_None in El. destruct (single_root _ _ Hr) as (_ & Hlk & _). rewrite El in Hlk.
    rewrite (pmm_alloc_one_page_empty _ _ Hr El) in *. specialize (Hready Hlk).
    destruct (no_split_spec s ls 1 Hr ltac:(lia) Hready) as [Hf|(z & ls' & Hx)].
    + left. rewrite (pmm_alloc_pages_fail s ls 1 Hr ltac:(lia) Hf). split; [|by eexists].
      unfold alloc_spec in Hf. change (class_nat 1) with 0%nat in Hf.
      destruct (first_block _ _ _) as [[j z]|] eqn:Ef; [by case_bool_decide|].
      assert (Hcov : covered ls = []).
      { apply elem_of_nil_inv. intros q (k & b & Hb & _)%elem_of_covered.
        destruct (decide (k = 11%nat)) as [->|]; [rewrite El in Hb; by apply elem_of_nil in Hb|].
        destruct (decide (k < 11)%nat).
        - rewrite (first_block_none _ _ _ Ef k) in Hb by lia. by apply elem_of_nil in Hb.
        - unfold list_at in Hb. rewrite lookup_ge_None_2 in Hb by (rewrite (rep_length _ _ Hr); lia).
          by apply elem_of_nil in Hb. }
      unfold frames_of in HF. rewrite Hcov in HF. by apply Permutation_nil_r in HF.
    + right. destruct (pmm_alloc_pages_exact s ls 1 z ls' H ltac:(lia) Hx) as (s' & E & H' & Hc & Hcov & _).
      eapply Hgrant; [exact E|exact H'|exact Hc|exact Hcov].
Qed.

#[export] Instance pmm_allocator : PageAllocator pmm := pmm_alloc_one_page.
#[export] Instance pmm_allocator_spec : PageAllocatorSpec pmm :=
  { pa_inv := pmm_frames; pa_ready := pmm_ready; pa_nodup := pmm_frames_nodup; pa_alloc := pmm_alloc_law }.

(** C16: The physical allocator keeps the contract the virtual memory manager
    relies on: with its lists well formed and no block to split for a one-page
    request, a call hands out one of the free frames, page aligned, and removes
    exactly that frame from the free ones, or fails with no frame free and the
    state unchanged. *)
Theorem pmm_keeps_contract s F :
  pmm_frames s F -> pmm_ready s -> NoDup F /\
  ((F = [] /\ exists r, pmm_alloc_one_page s = Ret s r [] /\ al_state r = 0) \/
   (exists s' r F', pmm_alloc_one_page s = Ret s' r [] /\ al_state r = 1 /\
      0 <= addr r < 4294967296 /\ addr r `mod` 4096 = 0 /\ F ≡ₚ addr r :: F' /\ pmm_frames s' F')).
Proof. intros H1 H2. split; [by apply (pmm_frames_nodup s)|by apply pmm_alloc_law]. Qed.

(** ** Concrete instances *)

Definition small_vmm_layout : VmmLayout := Build_VmmLayout 1114112 65536 4096.
#[local] Existing Instance small_vmm_layout.

(** The first eight pages of the kernel's pool are free. *)
Definition small_vmm : vmm pmm := Build_vmm (st8 ∅ 65536 255) small_pmm kern_pool 1.
Definition small_frames : list Z := frames_of small_pmm small_lists.

Lemma small_vmm_ok : vmm_ok small_vmm.
Proof. split; [reflexivity|cbn; lia]. Qed.
Lemma small_pmm_frames : pmm_frames small_pmm small_frames.
Proof. exists small_lists. split; [apply small_buddy|]. split; [by vm_compute|reflexivity]. Qed.
Lemma small_pmm_ready : pmm_ready small_pmm.
Proof. done. Qed.

(** The same facts as the contract states them. *)
Lemma small_inv : pa_inv (v_pages small_vmm) small_frames.
Proof. exact small_pmm_frames. Qed.
Lemma small_ready : pa_ready (v_pages small_vmm).
Proof. exact small_pmm_ready. Qed.

Lemma pmm_keeps_contract_witness :
  exists s' r F', pmm_alloc_one_page small_pmm = Ret s' r [] /\ al_state r = 1 /\
    0 <= addr r < 4294967296 /\ addr r `mod` 4096 = 0 /\ small_frames ≡ₚ addr r :: F' /\ pmm_frames s' F'.
Proof.
  destruct (pmm_keeps_contract small_pmm small_frames small_pmm_frames small_pmm_ready)
    as [_ [[H _]|H]]; [by vm_compute in H|exact H].
Defined.

Lemma vmm_kern_alloc_one_page_spec_witness :
  (small_frames = [] /\ exists m, vmm_kern_alloc_one_page 3221229568 small_vmm =
     Ret (set_mem m small_vmm) KERN_VMM_ALLOC_ERRO [] /\ mem_eq m (v_mem small_vmm)) \/
  (exists s' f F', vmm_kern_alloc_one_page 3221229568 small_vmm = Ret s' 3221229568 [Invlpg 3221229568] /\
     small_frames ≡ₚ f :: F' /\ pmm_frames (v_pages s') F' /\ page_mapped small_vmm s' 3221229568 1 f).
Proof.
  exact (vmm_kern_alloc_one_page_spec small_vmm small_frames 3221229568 small_vmm_ok
    small_inv small_ready ltac:(lia)).
Defined.

Lemma vmm_kern_alloc_spec_witness :
  (exists m, vmm_kern_alloc small_vmm = Ret (set_mem m small_vmm) KERN_VMM_ALLOC_ERRO [] /\
     mem_eq m (v_mem small_vmm) /\ (free_set kern_pool (v_mem small_vmm) = ∅ \/ small_frames = [])) \/
  (exists s' p f F', p ∈ free_set kern_pool (v_mem small_vmm) /\
     (forall q, q ∈ free_set kern_pool (v_mem small_vmm) -> p <= q) /\
     vmm_kern_alloc small_vmm = Ret s' (page_addr kern_pool p) [Invlpg (page_addr kern_pool p)] /\
     small_frames ≡ₚ f :: F' /\ pmm_frames (v_pages s') F' /\
     page_mapped small_vmm s' (page_addr kern_pool p) p f).
Proof.
  exact (vmm_kern_alloc_spec small_vmm small_frames small_vmm_ok small_inv small_ready).
Defined.

Lemma vmm_kern_release_one_page_spec_witness :
  exists s', vmm_kern_release_one_page 3221229568 small_vmm = Ret s' tt [Invlpg 3221229568] /\
    v_pages s' = small_pmm.
Proof.
  destruct (vmm_kern_release_one_page_spec small_vmm 3221229568 1 small_vmm_ok ltac:(lia) eq_refl)
    as (s' & H1 & _ & H2 & _). by exists s'.
Defined.

Lemma check_vaddr_present_always_witness :
  check_vaddr_present 5 small_vmm = Ret small_vmm true [] /\
  vmm_v2p 5 small_vmm = Ret small_vmm (frame_of (ld32 (v_mem small_vmm) (get_pte 5)) + 5) [].
Proof. apply (check_vaddr_present_always small_vmm 5). lia. Defined.

Definition small_vmm_1 : vmm pmm :=
  match vmm_kern_alloc_one_page 3221229571 small_vmm with Ret s _ _ => s | _ => small_vmm end.

Lemma small_vmm_1_eq : vmm_kern_alloc_one_page 3221229571 small_vmm = Ret small_vmm_1 3221229571 [Invlpg 3221229568].
Proof. vm_cast_no_check (eq_refl (Ret small_vmm_1 3221229571 [Invlpg 3221229568])). Qed.

Lemma kern_alloc_translates_witness :
  exists f F', small_frames ≡ₚ f :: F' /\ vmm_v2p 3221229571 small_vmm_1 = Ret small_vmm_1 (f + 3) [].
Proof.
  destruct (kern_alloc_translates small_vmm small_frames 3221229571 small_vmm_1 small_vmm_ok
    small_inv small_ready ltac:(lia) small_vmm_1_eq) as (f & F' & H1 & H2 & _).
  exists f, F'. split; [exact H1|exact H2].
Defined.

Lemma vmm_init_pool_witness :
  exists s', vmm_init small_vmm = Ret s' tt [] /\ vmm_ok s' /\ v_pages s' = v_pages small_vmm /\
    (forall p, p ∈ free_set kern_pool (v_mem s') <-> 272 <= p < 261120) /\
    frame 65536 32768 (v_mem small_vmm) (v_mem s').
Proof.
  pose proof (vmm_init_pool (L := small_vmm_layout) small_vmm ltac:(cbn; lia) ltac:(cbn; lia)
    ltac:(cbn; lia) ltac:(cbn; lia)) as H.
  cbv zeta in H. change ((kern_end + 4095) / 4096) with 272 in H. rewrite decide_True in H by lia. exact H.
Defined.

Lemma create_kern_page_table_inverted_witness :
  exists s', create_kern_page_table 4290772992 small_vmm =
    Stop s' [Printk_color "[STOP][%s]%s\n" white black
               [PStr "VMM"; PStr "Fail To Create Kernel Page Table!STOP!"]].
Proof.
  exact (create_kern_page_table_inverted small_vmm small_frames 4290772992 small_inv small_ready).
Defined.

(** A user task with a pool of eight pages at 0x8000000, whose bits are at 200,
    and a directory at 4096; the memory has the first page free and the
    directory entry present. *)
Definition small_task : TCB_t :=
  Build_TCB_t 0 TASK_READY 0 10 0 1 1 0 0 (Build_bitmap 200 1 134217728) 4096
    (Build_context_t 0 0 0 0 0 0 0 0) TCB_MAGIC_NUMBER.
Definition user_vmm (p : pmm) : vmm pmm :=
  Build_vmm (st32 (st8 (st8 ∅ 65536 255) 200 128) 4224 1) p kern_pool 1.

Lemma user_vmm_ok p : vmm_ok (user_vmm p) /\ user_ok (user_vmm p) small_task.
Proof. split; (split; [..|]); unfold region; cbn; try lia; done. Qed.

Definition empty_pmm : pmm :=
  Build_pmm (mk_array []) no_links None 2097152 2097152 0 0 (replicate 12 0).
Lemma empty_frames : pa_inv (v_pages (user_vmm empty_pmm)) [].
Proof.
  change (pmm_frames empty_pmm []).
  exists (replicate 12 []). split; [|by split; [vm_compute|]]. split.
  - concrete_rep.
  - concrete_wf.
  - intros p pg _ H. change (page_array empty_pmm) with (∅ : gmap Z pm_page_t) in H.
    by rewrite lookup_empty in H.
  - by vm_compute.
Qed.
Lemma empty_ready : pa_ready (v_pages (user_vmm empty_pmm)).
Proof.
  change (pmm_ready empty_pmm). intros _. right. intros j Hj. change (class_nat 1) with 0%nat in Hj.
  assert (Hk : is_class j) by (unfold is_class; lia). case_class Hk; reflexivity. Qed.

Lemma user_request_frees_kernel_page_witness :
  exists s', vmm_user_alloc_one_page small_task 3221233664 (user_vmm small_pmm) = Ret s' USER_VMM_ALLOC_ERRO [] /\
    free_set kern_pool (v_mem s') = {[2]} ∪ free_set kern_pool (v_mem (user_vmm small_pmm)).
Proof.
  destruct (user_vmm_ok small_pmm) as [H1 H2].
  exact (user_request_frees_kernel_page (user_vmm small_pmm) small_task 3221233664 2 H1 H2 ltac:(lia) eq_refl eq_refl).
Defined.
