(* ===== verification/Tss.v ===== *)
(** * kernel/modules/tss/tss.c: the task state segment

    The segment [tss_cpu0] and the global descriptor table are in the linear
    memory; their addresses are parameters, the selectors are the constants of
    boot/boot.s.  The instruction [ltr] is a parameter with the behaviour the
    processor's manual documents: it sets the busy bit of the descriptor. *)

From S2P Require Import Prelude Memory CString Bitmap KernLog Tcb.

Definition GDT_DESC_SIZE : Z := 8.
Definition TSS_CPU0_DESC_POS_ON_GDT : Z := 6.
Definition TSS_ATTR_LOW : Z := 137.
Definition TSS_ATTR_HIGH : Z := 128.
Definition LOG_SRC_TSS : string := "TSS".
Definition SELECTOR_DATA_MEM : Z := 16.
Definition SELECTOR_USER_CODE_MEM : Z := 35.
Definition SELECTOR_USER_DATA_MEM : Z := 43.
Definition SELECTOR_TSS_CPU0_MEM : Z := 48.

(** sizeof(tss_t), and the offsets of the fields the code sets: 27 packed
    words. *)
Definition tss_size : Z := 108.
Definition esp0_off : Z := 4.
Definition ss0_off : Z := 8.
Definition io_base_off : Z := 104.

Record tss_desc_t := {
  limit_low_word : Z;
  base_low_word : Z;
  base_mid_byte : Z;
  attr_low_byte : Z;
  limit_high_attr_high : Z;
  base_high_byte : Z
}.

Class TssLayout := {
  GDT_BASE : Z;          (* addresses of the symbols *)
  tss_cpu0 : Z
}.

(** The effect of [ltr] on memory. *)
Class Processor := ltr : Z -> mem -> mem.

Definition create_tss_desc (desc_base limit attr_low attr_high : Z) : tss_desc_t :=
  {| limit_low_word := u16 (Z.land limit 65535);
     base_low_word := u16 (Z.land desc_base 65535);
     base_mid_byte := u8 (Z.shiftr (Z.land desc_base 16711680) 16);
     attr_low_byte := u8 attr_low;
     limit_high_attr_high := u8 (Z.shiftr (Z.land limit 983040) 16 + u8 attr_high);
     base_high_byte := u8 (Z.shiftr desc_base 24) |}.

(** [*ptr = desc], the packed structure in its order. *)
Definition store_tss_desc (ptr : Z) (d : tss_desc_t) : M mem unit :=
  store16 ptr (limit_low_word d) ;;
  store16 (ptr + 2) (base_low_word d) ;;
  store8 (ptr + 4) (base_mid_byte d) ;;
  store8 (ptr + 5) (attr_low_byte d) ;;
  store8 (ptr + 6) (limit_high_attr_high d) ;;
  store8 (ptr + 7) (base_high_byte d).

Section code.
Context {L : TssLayout} {C : Processor}.

Definition get_tss_desc : Z := u32 (GDT_BASE + GDT_DESC_SIZE * TSS_CPU0_DESC_POS_ON_GDT).

Definition get_TSS_desc_high_word : M mem Z := load32 (get_tss_desc + 4).

(** [tss_init] up to its test: whether the descriptor has changed. *)
Definition tss_load : M mem bool :=
  let tss_cpu0_desc_ptr := get_tss_desc in
  bzero tss_cpu0 tss_size ;;
  store32 (tss_cpu0 + io_base_off) tss_size ;;
  store32 (tss_cpu0 + ss0_off) (Z.land SELECTOR_DATA_MEM 65535) ;;
  store_tss_desc tss_cpu0_desc_ptr
    (create_tss_desc tss_cpu0 (tss_size - 1) TSS_ATTR_LOW TSS_ATTR_HIGH) ;;
  befor_load_val <- get_TSS_desc_high_word ;;
  emit Lgdt ;;
  modify (ltr SELECTOR_TSS_CPU0_MEM) ;; emit (Ltr SELECTOR_TSS_CPU0_MEM) ;;
  after_load_val <- get_TSS_desc_high_word ;;
  ret (negb (after_load_val =? befor_load_val)).

Definition tss_init {S} {HM : Holds mem S} {CO : Console S} : M S unit :=
  loaded <- within tss_load ;;
  if (loaded : bool) then info_kern LOG_SRC_TSS "Init TSS Success!"
  else stop_kern LOG_SRC_TSS "Fail To Load TSS!STOP!".

(** The pointer to the control block, and the block. *)
Definition tss_update (tcb_ptr : Z) (tcb : TCB_t) : M mem unit :=
  store32 (tss_cpu0 + esp0_off) (u32 (tcb_ptr + u32 (page_counte tcb * PAGE_SIZE))).

End code.

(** ** Reading a descriptor back *)

Definition desc_base (m : mem) (p : Z) : Z :=
  ld16 m (p + 2) + 65536 * ld8 m (p + 4) + 16777216 * ld8 m (p + 7).
Definition desc_limit (m : mem) (p : Z) : Z := ld16 m p + 65536 * (ld8 m (p + 6) `mod` 16).
Definition desc_access (m : mem) (p : Z) : Z := ld8 m (p + 5).

Definition desc_bytes (d : tss_desc_t) : list Z :=
  [limit_low_word d; limit_low_word d / 256; base_low_word d; base_low_word d / 256;
   base_mid_byte d; attr_low_byte d; limit_high_attr_high d; base_high_byte d].

Lemma store_tss_desc_eq p d m :
  store_tss_desc p d m = Ret (write_bytes m p (desc_bytes d)) tt [].
Proof.
  unfold store_tss_desc. autorewrite with kern. unfold store8, modify, st16, desc_bytes. cbn [write_bytes].
  replace (p + 2 + 1) with (p + 1 + 1 + 1) by lia. replace (p + 2) with (p + 1 + 1) by lia.
  replace (p + 4) with (p + 1 + 1 + 1 + 1) by lia. replace (p + 5) with (p + 1 + 1 + 1 + 1 + 1) by lia.
  replace (p + 6) with (p + 1 + 1 + 1 + 1 + 1 + 1) by lia.
  by replace (p + 7) with (p + 1 + 1 + 1 + 1 + 1 + 1 + 1) by lia.
Qed.

(** Byte [k] of eight bytes written at [p]. *)
Lemma ld8_written m p l (k : nat) b :
  region p (length l) -> l !! k = Some b -> ld8 (write_bytes m p l) (p + k) = u8 b.
Proof.
  intros Hr Hk. pose proof (lookup_lt_Some _ _ _ Hk). rewrite ld8_write_bytes_in by (done || lia).
  rewrite Nat2Z.id. by rewrite (list_lookup_total_correct _ _ _ Hk).
Qed.

Lemma desc_read m p d :
  region p 8 ->
  let m' := write_bytes m p (desc_bytes d) in
  desc_base m' p = u16 (base_low_word d) + 65536 * u8 (base_mid_byte d) + 16777216 * u8 (base_high_byte d) /\
  desc_limit m' p = u16 (limit_low_word d) + 65536 * (u8 (limit_high_attr_high d) `mod` 16) /\
  desc_access m' p = u8 (attr_low_byte d).
Proof.
  intros Hr m'. pose proof (fun k b => ld8_written m p (desc_bytes d) k b Hr) as R.
  pose proof (R 0%nat _ eq_refl) as R0. pose proof (R 1%nat _ eq_refl) as R1.
  pose proof (R 2%nat _ eq_refl) as R2. pose proof (R 3%nat _ eq_refl) as R3.
  pose proof (R 4%nat _ eq_refl) as R4. pose proof (R 5%nat _ eq_refl) as R5.
  pose proof (R 6%nat _ eq_refl) as R6. pose proof (R 7%nat _ eq_refl) as R7.
  change (Z.of_nat 0) with 0 in R0. rewrite Z.add_0_r in R0.
  change (Z.of_nat 1) with 1 in R1. change (Z.of_nat 2) with 2 in R2. change (Z.of_nat 3) with 3 in R3.
  change (Z.of_nat 4) with 4 in R4. change (Z.of_nat 5) with 5 in R5. change (Z.of_nat 6) with 6 in R6.
  change (Z.of_nat 7) with 7 in R7.
  unfold desc_base, desc_limit, desc_access, ld16. unfold m'. replace (p + 2 + 1) with (p + 3) by lia.
  rewrite R0, R1, R2, R3, R4, R5, R6, R7. unfold u16, u8. split; [dlia|]. split; [dlia|done].
Qed.

(** The fields of a descriptor. *)
Lemma create_tss_desc_fields base limit al ah :
  0 <= base < 4294967296 -> 0 <= limit < 1048576 -> 0 <= al < 256 -> 0 <= ah < 256 -> ah `mod` 16 = 0 ->
  create_tss_desc base limit al ah =
    Build_tss_desc_t (limit `mod` 65536) (base `mod` 65536) ((base / 65536) `mod` 256) al
      (limit / 65536 + ah) (base / 16777216).
Proof.
  intros Hb Hl Hal Hah Hm. unfold create_tss_desc.
  assert (E1 : Z.shiftr (Z.land base 16711680) 16 = (base / 65536) `mod` 256).
  { rewrite Z.shiftr_land. change (Z.shiftr 16711680 16) with (Z.ones 8).
    by rewrite Z.land_ones, Z.shiftr_div_pow2 by lia. }
  assert (E2 : Z.shiftr (Z.land limit 983040) 16 = limit / 65536).
  { rewrite Z.shiftr_land. change (Z.shiftr 983040 16) with (Z.ones 4).
    rewrite Z.land_ones, Z.shiftr_div_pow2 by lia. change (2 ^ 16) with 65536. change (2 ^ 4) with 16.
    apply Z.mod_small. dlia. }
  change 65535 with (Z.ones 16). rewrite !Z.land_ones by lia. change (2 ^ 16) with 65536.
  rewrite E1, E2, (Z.shiftr_div_pow2 base) by lia. change (2 ^ 24) with 16777216.
  assert (0 <= (base / 65536) `mod` 256 < 256) by dlia. assert (0 <= limit `mod` 65536 < 65536) by dlia.
  assert (0 <= base `mod` 65536 < 65536) by dlia. assert (0 <= base / 16777216 < 256) by dlia.
  assert (0 <= limit / 65536 + ah < 256) by dlia.
  rewrite (u8_small ah) by lia. f_equal; word_tac.
Qed.

Lemma stored_desc m p base limit al ah :
  region p 8 -> 0 <= base < 4294967296 -> 0 <= limit < 1048576 -> 0 <= al < 256 -> 0 <= ah < 256 ->
  ah `mod` 16 = 0 ->
  let m' := write_bytes m p (desc_bytes (create_tss_desc base limit al ah)) in
  desc_base m' p = base /\ desc_limit m' p = limit /\ desc_access m' p = al.
Proof.
  intros Hr Hb Hl Hal Hah Hm m'. destruct (desc_read m p (create_tss_desc base limit al ah) Hr) as (E1 & E2 & E3).
  unfold m'. rewrite E1, E2, E3, create_tss_desc_fields by done.
  cbn [base_low_word base_mid_byte base_high_byte limit_low_word limit_high_attr_high attr_low_byte].
  unfold u16, u8. split; [dlia|]. split; [dlia|]. by apply Z.mod_small.
Qed.

(** ** Initialisation *)

(** The six-entry table and the segment do not overlap. *)
Record tss_layout_ok (L : TssLayout) : Prop := {
  tl_gdt : region GDT_BASE 56;
  tl_tss : region tss_cpu0 108;
  tl_disjoint : disjoint_blocks GDT_BASE 56 tss_cpu0 108
}.

(** LTR loads a descriptor of type 9, available 32-bit segment, and marks it
    busy. *)
Class ProcessorSpec {L : TssLayout} (C : Processor) := ltr_busy m sel :
  0 <= sel < 56 -> sel `mod` 8 = 0 -> desc_access m (GDT_BASE + sel) `mod` 16 = 9 ->
  ltr sel m = st8 m (GDT_BASE + sel + 5) (desc_access m (GDT_BASE + sel) + 2).

Lemma get_tss_desc_eq (L : TssLayout) : tss_layout_ok L -> get_tss_desc = GDT_BASE + 48.
Proof. intros [[] _ _]. unfold get_tss_desc, GDT_DESC_SIZE, TSS_CPU0_DESC_POS_ON_GDT. apply u32_small. lia. Qed.

(** Byte [i] of the segment after initialisation. *)
Definition tss_byte (i : Z) : Z := if decide (i = 8) then 16 else if decide (i = 104) then 108 else 0.

Lemma tss_cleared (L : TssLayout) m i :
  tss_layout_ok L -> 0 <= i < 108 ->
  ld8 (st32 (st32 (write_bytes m tss_cpu0 (replicate 108 0)) (tss_cpu0 + 104) 108) (tss_cpu0 + 8) 16)
    (tss_cpu0 + i) = tss_byte i.
Proof.
  intros [_ Hr _] Hi. unfold region in Hr. unfold st32, tss_byte.
  change (16 / 256) with 0. change (16 / 65536) with 0. change (16 / 16777216) with 0.
  change (108 / 256) with 0. change (108 / 65536) with 0. change (108 / 16777216) with 0.
  assert (E0 : ld8 (write_bytes m tss_cpu0 (replicate 108 0)) (tss_cpu0 + i) = 0).
  { rewrite ld8_write_bytes_in by (rewrite length_replicate; unfold region; lia).
    by rewrite lookup_total_replicate_2 by lia. }
  rewrite !ld8_st8, !u32_small, E0 by lia.
  repeat case_decide; try lia; by vm_compute.
Qed.

Section init.
Context {L : TssLayout} {C : Processor} {CS : ProcessorSpec C}.

Lemma tss_load_eq m :
  tss_layout_ok L ->
  let m1 := st32 (st32 (write_bytes m tss_cpu0 (replicate 108 0)) (tss_cpu0 + 104) 108) (tss_cpu0 + 8) 16 in
  let m2 := write_bytes m1 (GDT_BASE + 48) (desc_bytes (create_tss_desc tss_cpu0 107 137 128)) in
  tss_load m = Ret (st8 m2 (GDT_BASE + 48 + 5) 139) true [Lgdt; Ltr 48] /\
  desc_base m2 (GDT_BASE + 48) = tss_cpu0 /\ desc_limit m2 (GDT_BASE + 48) = 107.
Proof.
  intros HL m1 m2. pose proof HL as [Hg Ht Hd]. unfold region in *.
  destruct (stored_desc m1 (GDT_BASE + 48) tss_cpu0 107 137 128) as (Eb & El & Ea);
    [unfold region; lia|lia|lia|lia|lia|done|]. fold m2 in Eb, El, Ea.
  split; [|done]. unfold tss_load. rewrite get_tss_desc_eq by done.
  unfold bzero. run (memset_eq _ _ _ m) by idtac. autorewrite with kern.
  change (Z.to_nat (u32 tss_size)) with 108%nat. change (u8 0) with 0.
  change (Z.land SELECTOR_DATA_MEM 65535) with 16. fold m1. unfold tss_size, TSS_ATTR_LOW, TSS_ATTR_HIGH.
  change (108 - 1) with 107. run (store_tss_desc_eq _ _ m1) by idtac. fold m2.
  unfold get_TSS_desc_high_word. rewrite get_tss_desc_eq by done. autorewrite with kern.
  change SELECTOR_TSS_CPU0_MEM with 48. rewrite (ltr_busy m2 48) by (lia || done || by rewrite Ea).
  rewrite Ea. change (137 + 2) with 139.
  unfold emit, prepend.
  assert (E : ld32 (st8 m2 (GDT_BASE + 48 + 5) 139) (GDT_BASE + 48 + 4) = ld32 m2 (GDT_BASE + 48 + 4) + 512).
  { unfold desc_access in Ea. unfold ld32. rewrite !ld8_st8, !u32_small by lia.
    rewrite (decide_False (P := GDT_BASE + 48 + 5 = GDT_BASE + 48 + 4)) by lia.
    rewrite (decide_True (P := GDT_BASE + 48 + 5 = GDT_BASE + 48 + 4 + 1)) by lia.
    rewrite (decide_False (P := GDT_BASE + 48 + 5 = GDT_BASE + 48 + 4 + 2)) by lia.
    rewrite (decide_False (P := GDT_BASE + 48 + 5 = GDT_BASE + 48 + 4 + 3)) by lia.
    replace (GDT_BASE + 48 + 4 + 1) with (GDT_BASE + 48 + 5) by lia. rewrite Ea.
    change (u8 139) with 139. lia. }
  rewrite E, (proj2 (Z.eqb_neq _ _)) by lia. done.
Qed.

(** [tss_load] ends with the descriptor changed, so that [tss_init] reports
    success, and leaves a busy, present descriptor of the segment with its base
    and its limit; the segment has the kernel's data selector as [ss0],
    sizeof(tss_t) in the member [io_base], and is zero elsewhere; nothing else in
    memory changes.  The 16-bit field at offset 102, which the processor reads as
    the base of the I/O permission map, is zero: the structure gives the word
    before it, [trace], 32 bits. *)
Lemma tss_load_spec m :
  tss_layout_ok L ->
  exists m', tss_load m = Ret m' true [Lgdt; Ltr 48] /\
    desc_base m' (GDT_BASE + 48) = tss_cpu0 /\ desc_limit m' (GDT_BASE + 48) = 107 /\
    desc_access m' (GDT_BASE + 48) = 139 /\
    (forall i, 0 <= i < 108 -> ld8 m' (tss_cpu0 + i) = tss_byte i) /\
    ld16 m' (tss_cpu0 + 102) = 0 /\
    frame2 tss_cpu0 108 (GDT_BASE + 48) 8 m m'.
Proof.
  intros HL. destruct (tss_load_eq m HL) as (E & Eb & El). pose proof HL as [Hg Ht Hd].
  unfold region, disjoint_blocks in *. eexists. split; [exact E|].
  set (m1 := st32 _ _ 16) in *. set (m2 := write_bytes m1 _ _) in *.
  assert (Hbyte : forall i, 0 <= i < 108 -> ld8 (st8 m2 (GDT_BASE + 48 + 5) 139) (tss_cpu0 + i) = tss_byte i).
  { intros i Hi. rewrite ld8_st8_ne by word_tac. unfold m2.
    rewrite ld8_write_bytes_out by (cbn; unfold region; lia). by apply tss_cleared. }
  split; [|split; [|split; [|split; [done|split]]]].
  - rewrite <- Eb. unfold desc_base, ld16. by rewrite !ld8_st8_ne by word_tac.
  - rewrite <- El. unfold desc_limit, ld16. by rewrite !ld8_st8_ne by word_tac.
  - unfold desc_access. by rewrite ld8_st8_eq.
  - unfold ld16. replace (tss_cpu0 + 102 + 1) with (tss_cpu0 + 103) by lia. by rewrite !Hbyte by lia.
  - apply frame2_r with m2.
    + apply frame2_r with m1; [|exact (frame_sub0 (GDT_BASE + 48) 8 m1 (desc_bytes _) (Z.le_refl _))].
      apply frame2_l with m; [done|].
      eapply frame_trans; [apply (frame_sub0 tss_cpu0 108 m (replicate 108 0)); by rewrite length_replicate|].
      unfold m1. eapply frame_trans; [|apply frame_st32; lia]. apply frame_st32; lia.
    + replace (GDT_BASE + 48 + 5) with ((GDT_BASE + 48) + 5) by lia. apply frame_st8. lia.
Qed.

(** [tss_update] sets the stack the processor loads on entry to level 0 to the
    end of the pages of the control block. *)
Lemma tss_update_eq m p tcb :
  0 <= p -> 0 <= page_counte tcb -> p + page_counte tcb * 4096 < 4294967296 ->
  tss_update p tcb m = Ret (st32 m (tss_cpu0 + 4) (p + page_counte tcb * 4096)) tt [].
Proof. intros Hp Hc Hs. unfold tss_update, PAGE_SIZE, esp0_off, store32, modify. by word_tac. Qed.
End init.

(** A processor and a layout for concrete runs. *)
Definition small_tss : TssLayout := Build_TssLayout 1000 2000.
Definition small_cpu : Processor :=
  fun sel m => st8 m (1000 + sel + 5) (desc_access m (1000 + sel) + 2).
Lemma small_cpu_spec : @ProcessorSpec small_tss small_cpu.
Proof. by intros m sel ???. Qed.
Lemma small_tss_ok : tss_layout_ok small_tss.
Proof. split; cbv; intuition congruence. Qed.

Lemma tss_load_spec_witness :
  exists m', @tss_load small_tss small_cpu ∅ = Ret m' true [Lgdt; Ltr 48] /\
    desc_base m' 1048 = 2000 /\ desc_limit m' 1048 = 107 /\ desc_access m' 1048 = 139 /\
    (forall i, 0 <= i < 108 -> ld8 m' (2000 + i) = tss_byte i) /\
    ld16 m' (2000 + 102) = 0 /\ frame2 2000 108 1048 8 ∅ m'.
Proof. exact (@tss_load_spec small_tss small_cpu small_cpu_spec ∅ small_tss_ok). Defined.
