(* ===== verification/Boot.v ===== *)
(** * boot/boot.s and boot/boot.inc: from the boot loader to kern_entry

    The boot code runs at its physical address: it clears and fills the page
    directory and the first page table ([set_page]), turns paging on, and in the
    second part, at its linear address, loads the descriptor table, the segment
    registers and the stack and calls [kern_entry]. *)

From S2P Require Import Prelude Memory PageTable Tss X86.

(** ** boot.inc *)

Definition DESC_G_4K : Z := 2 ^ 23.
Definition DESC_D_32 : Z := 2 ^ 22.
Definition DESC_L : Z := 0.
Definition DESC_AVL : Z := 0.
Definition DESC_LIMIT_CODE2 : Z := Z.shiftl 15 16.
Definition DESC_LIMIT_DATA2 : Z := DESC_LIMIT_CODE2.
Definition DESC_LIMIT_VIDEO2 : Z := 0.
Definition DESC_P : Z := 2 ^ 15.
Definition DESC_DPL_0 : Z := 0.
Definition DESC_DPL_3 : Z := Z.shiftl 3 13.
Definition DESC_S_CODE : Z := 2 ^ 12.
Definition DESC_S_DATA : Z := DESC_S_CODE.
Definition DESC_TYPE_CODE : Z := Z.shiftl 8 8.
Definition DESC_TYPE_DATA : Z := Z.shiftl 2 8.

Definition DESC_CODE_HIGH4 : Z :=
  Z.shiftl 0 24 + DESC_G_4K + DESC_D_32 + DESC_L + DESC_AVL + DESC_LIMIT_CODE2 + DESC_P + DESC_DPL_0 + DESC_S_CODE +
  DESC_TYPE_CODE + 0.
Definition DESC_DATA_HIGH4 : Z :=
  Z.shiftl 0 24 + DESC_G_4K + DESC_D_32 + DESC_L + DESC_AVL + DESC_LIMIT_DATA2 + DESC_P + DESC_DPL_0 + DESC_S_DATA +
  DESC_TYPE_DATA + 0.
Definition DESC_VIDEO_HIGH4 : Z :=
  Z.shiftl 0 24 + DESC_G_4K + DESC_D_32 + DESC_L + DESC_AVL + DESC_LIMIT_VIDEO2 + DESC_P + DESC_DPL_0 + DESC_S_DATA +
  DESC_TYPE_DATA + 11.
Definition DESC_USER_CODE_HIGH4 : Z :=
  Z.shiftl 0 24 + DESC_G_4K + DESC_D_32 + DESC_L + DESC_AVL + DESC_LIMIT_CODE2 + DESC_P + DESC_DPL_3 + DESC_S_CODE +
  DESC_TYPE_CODE + 0.
Definition DESC_USER_DATA_HIGH4 : Z :=
  Z.shiftl 0 24 + DESC_G_4K + DESC_D_32 + DESC_L + DESC_AVL + DESC_LIMIT_DATA2 + DESC_P + DESC_DPL_3 + DESC_S_DATA +
  DESC_TYPE_DATA + 0.

Definition RPL0 : Z := 0.
Definition RPL3 : Z := 3.
Definition TI_GDT : Z := 0.

Definition PG_P : Z := 1.
Definition PG_RW_W : Z := 2.
Definition PG_US_S : Z := 0.

(** ** The data of boot.s *)

(** The descriptor table, as words. *)
Definition gdt_words : list Z :=
  [0; 0; 65535; DESC_CODE_HIGH4; 65535; DESC_DATA_HIGH4; 2147483655; DESC_VIDEO_HIGH4; 65535; DESC_USER_CODE_HIGH4;
   65535; DESC_USER_DATA_HIGH4; 0; 0].
Definition GDT_SIZE : Z := 4 * length gdt_words.
Definition GDT_LIMIT : Z := GDT_SIZE - 1.

Definition SELECTOR_CODE : Z := Z.shiftl 1 3 + TI_GDT + RPL0.
Definition SELECTOR_DATA : Z := Z.shiftl 2 3 + TI_GDT + RPL0.
Definition SELECTOR_VIDEO : Z := Z.shiftl 3 3 + TI_GDT + RPL0.
Definition SELECTOR_USER_CODE : Z := Z.shiftl 4 3 + TI_GDT + RPL3.
Definition SELECTOR_USER_DATA : Z := Z.shiftl 5 3 + TI_GDT + RPL3.
Definition SELECTOR_TSS_CPU0 : Z := Z.shiftl 6 3 + TI_GDT + RPL0.

(** The labels: [temp_mboot_ptr] and [kern_dir_table] are physical addresses,
    the others linear ones; a name of a variable that other files use for its
    value has [_var]. [port92] is what the port gives. *)
Class BootLayout := {
  temp_mboot_ptr : Z;
  kern_dir_table : Z;
  gdt_ptr : Z;
  gdt_base : Z;
  mboot_ptr_var : Z;
  kern_bitmap_var : Z;
  kern_dir_table_paddr_var : Z;
  kern_page_table_paddr_var : Z;
  kern_bitmap_block : Z;
  after_set_page : Z;
  boot_start_after_set_paging : Z;
  far_jmp_target : Z;
  kern_entry_addr : Z;
  after_kern_entry : Z;
  port92 : Z
}.

Section code.
Context {BL : BootLayout}.

(** The tables and the stack behind the directory, and the kernel's stack. *)
Definition kern_page_table : Z := kern_dir_table + 4096.
Definition init_stack : Z := kern_page_table + 4096 * 256.
Definition INIT_STACK_TOP : Z := init_stack + 1024 - 1.
Definition stack : Z := kern_bitmap_block + 4 + 32768.
Definition STACK_TOP : Z := stack + 524288 - 1.

#[local] Existing Instance paging.

(** ** set_page *)

(** The counters of the loops start below this number. *)
Definition boot_fuel : nat := Z.to_nat 1048577.

(** A loop that clears the bytes [base + eax .. base + 1], and byte [base]. *)
Definition clear_table (base n : Z) : M cpu unit :=
  mov EAX n ;;
  do_while boot_fuel (
    i <- get EAX ;;
    store_byte (base + i) 0 ;;
    dec_jnz EAX) ;;
  store_byte base 0.

Definition create_pde : M cpu bool :=
  mov EAX 0 ;;
  mov16 EAX 4096 ;;
  mul16 ECX ;;
  update EAX (fun x => x + kern_page_table) ;;
  update EAX (fun x => Z.lor x (Z.lor (Z.lor PG_US_S PG_RW_W) PG_P)) ;;
  i <- get ECX ;;
  x <- get EAX ;;
  store_word (kern_dir_table + i * 4 + 3072) x ;;
  dec16_jnz ECX.

Definition create_pte : M cpu bool :=
  i <- get EAX ;;
  mov EBX i ;;
  update EBX (fun x => Z.shiftl x 12) ;;
  update EBX (fun x => Z.land x 4294963200) ;;
  update EBX (fun x => Z.lor x (Z.lor (Z.lor PG_US_S PG_RW_W) PG_P)) ;;
  x <- get EBX ;;
  store_word (kern_page_table + i * 4) x ;;
  dec_jnz EAX.

Definition change_last_pde : M cpu unit :=
  mov EAX kern_dir_table ;;
  update EAX (fun x => Z.lor x (Z.lor (Z.lor PG_US_S PG_RW_W) PG_P)) ;;
  x <- get EAX ;;
  store_word (kern_dir_table + 3072 + 255 * 4) x.

(** The entries: the directory entries 255 to 1 of the kernel, then its first
    one and that of the low 4 MB; the first table; the last entry. *)
Definition set_entries : M cpu unit :=
  mov ECX 0 ;;
  mov16 ECX 255 ;;
  do_while boot_fuel create_pde ;;
  mov EAX kern_page_table ;;
  update EAX (fun x => Z.lor x (Z.lor (Z.lor PG_US_S PG_RW_W) PG_P)) ;;
  x <- get EAX ;;
  store_word (kern_dir_table + 3072) x ;;
  store_word kern_dir_table x ;;
  mov EAX 1023 ;;
  do_while boot_fuel create_pte ;;
  mov EBX 0 ;;
  update EBX (fun x => Z.lor x (Z.lor (Z.lor PG_US_S PG_RW_W) PG_P)) ;;
  x <- get EBX ;;
  store_word kern_page_table x ;;
  change_last_pde.

Definition set_page : M cpu unit :=
  clear_table kern_dir_table 4095 ;;
  clear_table kern_page_table (4096 * 256) ;;
  set_entries ;;
  ret_near.

(** ** boot_start *)

Definition far_jmp (sel target : Z) : M cpu unit := mov_seg CS sel ;; modify (set_ip target).

Definition boot_start : M cpu unit :=
  cli ;;
  x <- get EBX ;;
  store_word temp_mboot_ptr x ;;
  mov ESP INIT_STACK_TOP ;;
  update ESP (fun x => Z.land x 4294967280) ;;
  call after_set_page set_page ;;
  x <- load_word temp_mboot_ptr ;;
  mov EBX x ;;
  mov EAX kern_dir_table ;;
  update EAX (fun x => Z.land x 4294963200) ;;
  x <- get EAX ;;
  modify (set_cr3 x) ;;
  x <- gets cr0 ;;
  mov EAX x ;;
  update EAX (fun x => Z.lor x 2147483648) ;;
  x <- get EAX ;;
  modify (set_cr0 x) ;;
  far_jmp SELECTOR_CODE boot_start_after_set_paging.

(** Up to its call of [kern_entry]. *)
Definition after_set_paging : M cpu unit :=
  x <- load_word temp_mboot_ptr ;;
  mov EBX x ;;
  x <- get EBX ;;
  store_word mboot_ptr_var x ;;
  in_al 146 port92 ;;
  update EAX (fun x => x - x `mod` 256 + Z.lor (u8 x) 2) ;;
  out_al 146 ;;
  lgdt gdt_ptr ;;
  x <- gets cr0 ;;
  mov EAX x ;;
  update EAX (fun x => Z.lor x 1) ;;
  x <- get EAX ;;
  modify (set_cr0 x) ;;
  far_jmp SELECTOR_CODE far_jmp_target ;;
  mov16 EAX SELECTOR_DATA ;;
  x <- get EAX ;; mov_seg SS x ;;
  x <- get EAX ;; mov_seg DS x ;;
  mov16 EAX SELECTOR_VIDEO ;;
  x <- get EAX ;; mov_seg GS x ;;
  mov ESP STACK_TOP ;;
  update ESP (fun x => Z.land x 4294967280) ;;
  mov EBP 0 ;;
  mov EAX kern_bitmap_block ;;
  x <- get EAX ;; store_word kern_bitmap_var x ;;
  mov EAX kern_dir_table ;;
  x <- get EAX ;; store_word kern_dir_table_paddr_var x ;;
  mov EAX kern_page_table ;;
  x <- get EAX ;; store_word kern_page_table_paddr_var x ;;
  cli ;;
  call after_kern_entry (modify (set_ip kern_entry_addr)).

Definition boot : M cpu unit := boot_start ;; after_set_paging.

End code.
