(* ===== verification/BootThm.v ===== *)
(** * The tables boot.s builds

    [set_page] run on any memory ends; [boot_tables] is what it leaves.  The
    16-bit product of its first loop makes sixteen directory entries point to
    each page table, which the theorems on the translation show. *)

From S2P Require Import Prelude Memory PageTable Tss X86 Boot.

(** ** Loops that fill memory downwards *)

(** The words [lo .. hi-1] from [base] on are those of [f]; the rest is as in [m0]. *)
Record filled (m0 : mem) (base : Z) (f : Z -> Z) (lo hi : Z) (m : mem) : Prop := {
  fl_words : forall j, lo <= j < hi -> ld32 m (base + 4 * j) = f j;
  fl_rest : forall b, 0 <= b < 4294967296 -> b < base + 4 * lo \/ base + 4 * hi <= b -> ld8 m b = ld8 m0 b
}.

Lemma filled_nil m0 base f n : filled m0 base f n n m0.
Proof. split; [lia|done]. Qed.

Lemma ld8_st32_out m a b v : 0 <= a -> a + 4 <= 4294967296 -> 0 <= b < 4294967296 -> b < a \/ a + 4 <= b ->
  ld8 (st32 m a v) b = ld8 m b.
Proof. intros. apply ld8_st32_ne. intros i Hi. rewrite !u32_small by lia. lia. Qed.
Lemma ld32_st32_out m a b v : 0 <= a -> a + 4 <= 4294967296 -> 0 <= b -> b + 4 <= 4294967296 -> b + 4 <= a \/ a + 4 <= b ->
  ld32 (st32 m a v) b = ld32 m b.
Proof. intros. apply ld32_ext. intros c Hc. apply ld8_st32_out; lia. Qed.

Lemma filled_step m0 base f k hi m :
  0 <= base -> 0 <= k < hi -> base + 4 * hi <= 4294967296 -> 0 <= f k < 4294967296 ->
  filled m0 base f (k + 1) hi m -> filled m0 base f k hi (st32 m (base + 4 * k) (f k)).
Proof.
  intros Hb Hk Hh Hf [Hw Hr]. split.
  - intros j Hj. destruct (decide (j = k)) as [->|]; [by rewrite ld32_st32_eq, u32_small|].
    rewrite ld32_st32_out by lia. apply Hw. lia.
  - intros b Hb1 Ho. rewrite ld8_st32_out by lia. apply Hr; lia.
Qed.

(** The bytes [lo .. hi-1] from [base] on are zero. *)
Record cleared (m0 : mem) (base lo hi : Z) (m : mem) : Prop := {
  cl_bytes : forall j, lo <= j < hi -> ld8 m (base + j) = 0;
  cl_rest : forall b, 0 <= b < 4294967296 -> b < base + lo \/ base + hi <= b -> ld8 m b = ld8 m0 b
}.

Lemma cleared_step m0 base k hi m :
  0 <= base -> 0 <= k < hi -> base + hi <= 4294967296 ->
  cleared m0 base (k + 1) hi m -> cleared m0 base k hi (st8 m (base + k) 0).
Proof.
  intros Hb Hk Hh [Hw Hr]. split.
  - intros j Hj. destruct (decide (j = k)) as [->|]; [by rewrite ld8_st8_eq|].
    rewrite ld8_st8_ne by (rewrite !u32_small by lia; lia). apply Hw. lia.
  - intros b Hb1 Ho. rewrite ld8_st8_ne by (rewrite !u32_small by lia; lia). apply Hr; lia.
Qed.

Lemma lor_flags x : 0 <= x < 4294963200 -> x `mod` 4096 = 0 -> u32 (Z.lor x (Z.lor (Z.lor PG_US_S PG_RW_W) PG_P)) = x + 3.
Proof.
  intros Hx Hm. change (Z.lor (Z.lor PG_US_S PG_RW_W) PG_P) with 3.
  replace x with (Z.shiftl (x / 4096) 12) at 1 by (rewrite Z.shiftl_mul_pow2 by lia; change (2 ^ 12) with 4096; dlia).
  rewrite lor_shiftl_add by (change (2 ^ 12) with 4096; lia). change (2 ^ 12) with 4096. rewrite u32_small; dlia.
Qed.

Section tables.
Context {BL : BootLayout}.

(** .init.text is before .init.data, which is page aligned; both are in the
    first 4 MB. *)
Record boot_layout : Prop := {
  bl_align : kern_dir_table `mod` 4096 = 0;
  bl_temp : 0 <= temp_mboot_ptr /\ temp_mboot_ptr + 4 <= kern_dir_table;
  bl_low : init_stack + 1024 <= 4194304
}.

(** The directory and the tables, by entries: the low 4 MB, nothing up to
    3 GB, then sixteen tables over and over, and the directory itself. *)
Record boot_tables (m : mem) : Prop := {
  bt_low : ld32 m kern_dir_table = kern_page_table + 3;
  bt_user : forall i, 1 <= i < 768 -> ld32 m (kern_dir_table + 4 * i) = 0;
  bt_kern : forall i, 0 <= i < 255 -> ld32 m (kern_dir_table + 4 * (768 + i)) = kern_page_table + 4096 * (i `mod` 16) + 3;
  bt_self : ld32 m (kern_dir_table + 4092) = kern_dir_table + 3;
  bt_first : forall i, 0 <= i < 1024 -> ld32 m (kern_page_table + 4 * i) = 4096 * i + 3;
  bt_rest : forall i, 1024 <= i < 262144 -> ld32 m (kern_page_table + 4 * i) = 0
}.

(** ** The instructions, with paging off *)

#[local] Existing Instance paging.

Context (HB : boot_layout) (sg : segs) (ip fl c0 c3 : Z) (gd : Z * Z) (Hpg : Z.testbit c0 31 = false).
Abbreviation st g m := (Cpu g sg ip fl c0 c3 gd m).

Lemma flat g m a : translate (st g m) a = Some (u32 a).
Proof using Hpg. unfold translate, paging. cbn [cr0]. by rewrite Hpg. Qed.

Lemma flat4 g m a : 0 <= a -> a + 4 <= 4294967296 -> maps4 (st g m) a a.
Proof using Hpg. intros H0 H1 i Hi. rewrite flat, u32_small by lia. done. Qed.

Lemma store_word_flat a v g m : 0 <= a -> a + 4 <= 4294967296 -> store_word a v (st g m) = Ret (st g (st32 m a v)) tt [].
Proof using Hpg. intros H0 H1. rewrite (store_word_eq _ a a) by (by apply flat4). done. Qed.
Lemma store_byte_flat a v g m : 0 <= a < 4294967296 -> store_byte a v (st g m) = Ret (st g (st8 m a v)) tt [].
Proof using Hpg. intros H. rewrite (store_byte_eq _ a a) by (by rewrite flat, u32_small by lia). done. Qed.
Lemma load_word_flat a g m : 0 <= a -> a + 4 <= 4294967296 -> load_word a (st g m) = Ret (st g m) (ld32 m a) [].
Proof using Hpg. intros H0 H1. rewrite (load_word_eq _ a a) by (by apply flat4). done. Qed.

(** One round of a clearing loop. *)
Lemma clear_round base i cx d b sp bp si di m :
  0 <= base -> 0 < i -> base + i < 4294967296 ->
  (j <- get EAX ;; store_byte (base + j) 0 ;; dec_jnz EAX) (st (Gprs i cx d b sp bp si di) m) =
    Ret (st (Gprs (i - 1) cx d b sp bp si di) (st8 m (base + i) 0)) (negb (i - 1 =? 0)) [].
Proof using Hpg.
  intros Hb Hi Hbi. exec. run (store_byte_flat (base + i) 0) by lia. unfold dec_jnz. exec.
  by rewrite u32_small by lia.
Qed.

Lemma clear_table_eq base n a cx d b sp bp si di m :
  0 <= base -> 0 < n -> base + n < 4294967296 -> n < 1048577 ->
  exists m', clear_table base n (st (Gprs a cx d b sp bp si di) m) = Ret (st (Gprs 0 cx d b sp bp si di) m') tt [] /\
    cleared m base 0 (n + 1) m'.
Proof using Hpg.
  intros Hb Hn Hbn Hf. unfold clear_table. exec.
  rewrite u32_small by lia.
  edestruct (do_while_down (fun k c => exists m', c = st (Gprs k cx d b sp bp si di) m' /\ cleared m base (k + 1) (n + 1) m')
    (j <- get EAX ;; store_byte (base + j) 0 ;; dec_jnz EAX) (Z.to_nat n) boot_fuel) as (c' & E & m' & -> & Hc).
  - unfold boot_fuel. lia.
  - rewrite Z2Nat.id by lia. exists m. split; [done|]. split; [lia|done].
  - intros k c Hk (m1 & -> & H1). rewrite clear_round by lia. eexists. split; [done|].
    exists (st8 m1 (base + k) 0). split; [done|]. replace (k - 1 + 1) with k by lia. apply cleared_step; [lia..|done].
  - rewrite (bind_ret_eq _ _ _ _ _ _ E), prepend_nil. eexists. rewrite store_byte_flat by lia. split; [done|].
    replace base with (base + 0) at 2 by lia. apply cleared_step; [lia..|done].
Qed.

(** The word the loop stores for counter [k]: the low half of 4096*k only. *)
Definition pde_word (k : Z) : Z := kern_page_table + 4096 * (k `mod` 16) + 3.

Lemma layout_range : 0 <= kern_dir_table /\ kern_dir_table + 4096 + 1048576 + 1024 <= 4194304.
Proof using HB. pose proof (bl_low HB). destruct (bl_temp HB). unfold init_stack, kern_page_table in *. lia. Qed.

Lemma create_pde_round k a d b sp bp si di m :
  0 < k < 256 ->
  exists a' d', create_pde (st (Gprs a k d b sp bp si di) m) =
    Ret (st (Gprs a' (k - 1) d' b sp bp si di) (st32 m (kern_dir_table + 3072 + 4 * k) (pde_word k))) (negb (k - 1 =? 0)) [].
Proof using HB Hpg.
  intros Hk. pose proof layout_range as [Hd Hd1]. pose proof (bl_align HB) as Hal.
  unfold create_pde, mul16, dec16_jnz. exec.
  change (u32 0 - u32 0 `mod` 65536 + u16 4096) with 4096. set (p := u16 4096 * u16 k).
  assert (Ep : u16 p = 4096 * (k `mod` 16)).
  { unfold p, u16. rewrite (Z.mod_small k) by lia. change (4096 `mod` 65536) with 4096. dlia. }
  rewrite Ep. change (4096 - 4096 `mod` 65536) with 0. rewrite Z.add_0_l.
  assert (0 <= k `mod` 16 < 16) by (apply Z.mod_pos_bound; lia).
  assert (Ew : u32 (Z.lor (u32 (4096 * (k `mod` 16) + kern_page_table)) (Z.lor (Z.lor PG_US_S PG_RW_W) PG_P)) = pde_word k).
  { unfold pde_word, kern_page_table. clear Ep. set (j := k `mod` 16) in *. clearbody j. rewrite (u32_small (4096 * j + _)) by lia.
    rewrite lor_flags by dlia. lia. }
  rewrite Ew. run store_word_flat by lia. exec.
  unfold u16 at 2. rewrite (Z.mod_small k), Z.sub_diag, Z.add_0_l by lia. rewrite u16_small by lia.
  rewrite (u16_small (k - 1)) by lia. do 2 eexists. do 3 f_equal. lia.
Qed.

Lemma create_pte_round k cx d b sp bp si di m :
  0 < k < 1024 ->
  exists b', create_pte (st (Gprs k cx d b sp bp si di) m) =
    Ret (st (Gprs (k - 1) cx d b' sp bp si di) (st32 m (kern_page_table + 4 * k) (4096 * k + 3))) (negb (k - 1 =? 0)) [].
Proof using HB Hpg.
  intros Hk. pose proof layout_range as [Hd Hd1]. unfold create_pte, dec_jnz. exec.
  assert (Ew : u32 (Z.lor (u32 (Z.land (u32 (Z.shiftl (u32 k) 12)) 4294963200)) (Z.lor (Z.lor PG_US_S PG_RW_W) PG_P)) = 4096 * k + 3).
  { rewrite (u32_small k), Z.shiftl_mul_pow2 by lia. change (2 ^ 12) with 4096. rewrite (u32_small (k * 4096)) by lia.
    rewrite land_page_mask by lia. rewrite Z.mod_mul, Z.sub_0_r by lia. rewrite (u32_small (k * 4096)) by lia.
    rewrite lor_flags; [lia|lia|by apply Z.mod_mul]. }
  rewrite Ew. unfold kern_page_table. run store_word_flat by lia. exec. rewrite u32_small by lia.
  eexists. do 3 f_equal. lia.
Qed.

(** The memory from which the entries are written. *)
Definition all_clear (m : mem) : Prop := forall j, 0 <= j < 4096 + 1048576 -> ld8 m (kern_dir_table + j) = 0.

Lemma pde_word_range k : 0 <= pde_word k < 4294967296.
Proof using HB. pose proof layout_range. unfold pde_word, kern_page_table. pose proof (Z.mod_pos_bound k 16 ltac:(lia)). lia. Qed.

(** The words the entries consist of, in the order they are written. *)
Record entries_written (m0 m : mem) : Prop := {
  ew_dir : exists m3, filled m0 (kern_dir_table + 3072) pde_word 1 256 m3 /\
    exists m5, filled (st32 (st32 m3 (kern_dir_table + 3072) (kern_page_table + 3)) kern_dir_table (kern_page_table + 3))
      kern_page_table (fun j => 4096 * j + 3) 1 1024 m5 /\
    m = st32 (st32 m5 kern_page_table 3) (kern_dir_table + 4092) (kern_dir_table + 3)
}.

Lemma set_entries_eq a cx d b sp bp si di m :
  exists a' d' b' m', set_entries (st (Gprs a cx d b sp bp si di) m) = Ret (st (Gprs a' 0 d' b' sp bp si di) m') tt [] /\
    entries_written m m'.
Proof using HB Hpg.
  pose proof layout_range as [Hd Hd1]. pose proof (bl_align HB) as Hal. unfold set_entries. exec.
  change (u32 0 - u32 0 `mod` 65536 + u16 255) with 255.
  edestruct (do_while_down (fun k c => exists a' d' m', c = st (Gprs a' k d' b sp bp si di) m' /\
    filled m (kern_dir_table + 3072) pde_word (k + 1) 256 m') create_pde 255 boot_fuel) as (c1 & E1 & a1 & d1 & m1 & -> & F1).
  - unfold boot_fuel. lia.
  - exists a, d, m. split; [reflexivity|]. apply filled_nil.
  - intros k c Hk (a' & d' & m1 & -> & F1). destruct (create_pde_round k a' d' b sp bp si di m1 ltac:(lia)) as (a2 & d2 & E2).
    eexists. split; [exact E2|]. eexists _, _, _. split; [reflexivity|]. replace (k - 1 + 1) with k by lia.
    apply filled_step; [lia..|apply pde_word_range|done].
  - rewrite (bind_ret_eq _ _ _ _ _ _ E1), prepend_nil. clear E1. exec.
    assert (Hl : u32 (Z.lor (u32 kern_page_table) (Z.lor (Z.lor PG_US_S PG_RW_W) PG_P)) = kern_page_table + 3).
    { unfold kern_page_table. rewrite (u32_small (_ + _)) by lia. by rewrite lor_flags by dlia. }
    rewrite Hl. run store_word_flat by lia. run store_word_flat by lia. exec.
    set (m4 := st32 (st32 m1 _ _) _ _). change (u32 1023) with 1023.
    edestruct (do_while_down (fun k c => exists b' m', c = st (Gprs k 0 d1 b' sp bp si di) m' /\
      filled m4 kern_page_table (fun j => 4096 * j + 3) (k + 1) 1024 m') create_pte 1023 boot_fuel) as (c2 & E2 & b2 & m5 & -> & F5).
    + unfold boot_fuel. lia.
    + exists b, m4. split; [reflexivity|]. apply filled_nil.
    + intros k c Hk (b' & m2 & -> & F2). destruct (create_pte_round k 0 d1 b' sp bp si di m2 ltac:(lia)) as (b3 & E3).
      eexists. split; [exact E3|]. eexists _, _. split; [reflexivity|]. replace (k - 1 + 1) with k by lia.
      unfold kern_page_table in *. apply (filled_step _ _ (fun j => 4096 * j + 3)); [lia..|done].
    + rewrite (bind_ret_eq _ _ _ _ _ _ E2), prepend_nil. clear E2. exec.
      change (u32 (Z.lor (u32 0) (Z.lor (Z.lor PG_US_S PG_RW_W) PG_P))) with 3.
      run store_word_flat by (unfold kern_page_table; lia).
      unfold change_last_pde. exec. rewrite (u32_small kern_dir_table), lor_flags by lia.
      rewrite store_word_flat by lia. replace (kern_dir_table + 3072 + 255 * 4) with (kern_dir_table + 4092) by lia.
      eexists _, _, _, _. split; [reflexivity|]. split. exists m1. split; [exact F1|]. by exists m5.
Qed.

(** Reading the entries back. *)
Lemma entries_tables m m' : all_clear m -> entries_written m m' ->
  boot_tables m' /\
  forall b, 0 <= b < 4294967296 -> b < kern_dir_table \/ kern_page_table + 1048576 <= b -> ld8 m' b = ld8 m b.
Proof using HB.
  pose proof layout_range as [Hd Hd1]. intros Hc [(m3 & [W3 R3] & m5 & [W5 R5] & ->)]. unfold kern_page_table in *.
  set (D := kern_dir_table) in *. set (m4 := st32 (st32 m3 _ _) _ _) in *.
  assert (Z0 : forall a, D <= a -> a + 4 <= D + 4096 + 1048576 -> ld32 m a = 0).
  { assert (Z1 : forall a, D <= a -> a < D + 4096 + 1048576 -> ld8 m a = 0)
      by (intros a H0 H1; replace a with (D + (a - D)) by lia; apply Hc; lia).
    intros a H0 H1. unfold ld32. by rewrite !Z1 by lia. }
  assert (R4 : forall a, D + 4096 <= a -> a + 4 <= 4294967296 -> ld32 m4 a = ld32 m a).
  { intros a H0 H1. unfold m4. rewrite !ld32_st32_out by lia. apply ld32_ext. intros b Hb. apply R3; lia. }
  assert (S5 : forall a, 0 <= a -> a + 4 <= D + 4096 -> ld32 m5 a = ld32 m4 a)
    by (intros a H0 H1; apply ld32_ext; intros b Hb; apply R5; lia).
  split; [split|]; unfold kern_page_table; fold D.
  - rewrite !ld32_st32_out by lia. rewrite S5 by lia. unfold m4. rewrite ld32_st32_eq. apply u32_small. lia.
  - intros i Hi. rewrite !ld32_st32_out by lia. rewrite S5 by lia. unfold m4. rewrite !ld32_st32_out by lia.
    rewrite <- (Z0 (D + 4 * i)) by lia. apply ld32_ext. intros b Hb. apply R3; lia.
  - intros i Hi. rewrite !ld32_st32_out by lia. rewrite S5 by lia. unfold m4. rewrite (ld32_st32_out _ D) by lia.
    replace (D + 4 * (768 + i)) with (D + 3072 + 4 * i) by lia. destruct (decide (i = 0)) as [->|].
    + rewrite !Z.mul_0_r, Z.add_0_r, ld32_st32_eq. change (0 `mod` 16) with 0. rewrite u32_small by lia. lia.
    + rewrite ld32_st32_out by lia. rewrite W3 by lia. done.
  - rewrite ld32_st32_eq. apply u32_small. lia.
  - intros i Hi. rewrite ld32_st32_out by lia. destruct (decide (i = 0)) as [->|].
    + rewrite !Z.mul_0_r, Z.add_0_r, ld32_st32_eq. done.
    + rewrite ld32_st32_out by lia. apply W5. lia.
  - intros i Hi. rewrite !ld32_st32_out by lia. rewrite <- (Z0 (D + 4096 + 4 * i)) by lia. rewrite <- R4 by lia.
    apply ld32_ext. intros b Hb. apply R5; lia.
  - intros b Hb Ho. rewrite !ld8_st32_out by lia. rewrite R5 by lia. unfold m4. rewrite !ld8_st32_out by lia. apply R3; lia.
Qed.

Lemma set_page_eq a cx d b sp bp si di m :
  init_stack + 1 <= sp -> sp + 4 <= 4294967296 - 4 ->
  exists a' d' b' m', set_page (st (Gprs a cx d b sp bp si di) m) =
    Ret (Cpu (Gprs a' 0 d' b' (sp + 4) bp si di) sg (ld32 m sp) fl c0 c3 gd m') tt [] /\ boot_tables m' /\
    forall b, 0 <= b < 4294967296 -> b < kern_dir_table \/ init_stack < b -> ld8 m' b = ld8 m b.
Proof using HB Hpg.
  pose proof layout_range as [Hd Hd1]. unfold init_stack, kern_page_table. intros Hs Hs1. unfold set_page.
  destruct (clear_table_eq kern_dir_table 4095 a cx d b sp bp si di m) as (m1 & E1 & [B1 R1]); [lia..|].
  run E1 by idtac.
  destruct (clear_table_eq kern_page_table (4096 * 256) 0 cx d b sp bp si di m1) as (m2 & E2 & [B2 R2]);
    unfold kern_page_table in *; [lia..|].
  run E2 by idtac.
  destruct (set_entries_eq 0 cx d b sp bp si di m2) as (a' & d' & b' & m3 & E3 & W). run E3 by idtac.
  destruct (entries_tables m2 m3) as [T3 R3]; [|done|].
  { intros j Hj. destruct (decide (j < 4096)).
    - rewrite R2 by lia. apply B1. lia.
    - replace (kern_dir_table + j) with (kern_dir_table + 4096 + (j - 4096)) by lia. apply B2. lia. }
  unfold kern_page_table in R3.
  assert (R : forall b, 0 <= b < 4294967296 -> b < kern_dir_table \/ kern_dir_table + 4096 + 4096 * 256 < b -> ld8 m3 b = ld8 m b).
  { intros x Hx Ho. rewrite R3, R2, R1 by lia. done. }
  unfold ret_near, pop. exec. run load_word_flat by lia. exec. exists a', d', b', m3. split; [|by split].
  unfold modify. cpu_cbn. rewrite u32_small by lia. do 2 f_equal. apply ld32_ext. intros x Hx. apply R; lia.
Qed.
End tables.

Section boot.
Context {BL : BootLayout}.
#[local] Existing Instance paging.

(** The machine when paging is on. *)
Record boot_paged (c c' : cpu) : Prop := {
  bp_tables : boot_tables (ram c');
  bp_cr3 : cr3 c' = kern_dir_table;
  bp_cr0 : cr0 c' = Z.lor (cr0 c) 2147483648;
  bp_cs : s_cs (seg c') = SELECTOR_CODE;
  bp_eip : x_eip c' = boot_start_after_set_paging;
  bp_flags : x_eflags c' = clear_if (x_eflags c);
  bp_temp : ld32 (ram c') temp_mboot_ptr = g_ebx (gpr c);
  bp_rest : forall b, 0 <= b < 4294967296 -> b < temp_mboot_ptr \/ temp_mboot_ptr + 4 <= b ->
    b < kern_dir_table \/ init_stack + 1024 <= b -> ld8 (ram c') b = ld8 (ram c) b
}.

Lemma land_16 x : 0 <= x < 4294967296 -> Z.land x 4294967280 = x - x `mod` 16.
Proof.
  intros Hx. assert (E : Z.land x 4294967280 = Z.shiftl (Z.shiftr x 4) 4).
  { apply Z.bits_inj'. intros k Hk. rewrite Z.land_spec. change 4294967280 with (Z.shiftl (Z.ones 28) 4).
    destruct (decide (k < 4)); [by rewrite !Z.shiftl_spec_low, andb_false_r by lia|].
    rewrite !Z.shiftl_spec, Z.shiftr_spec by lia. replace (k - 4 + 4) with k by lia. destruct (decide (k < 32)).
    - rewrite Z.ones_spec_low by lia. apply andb_true_r.
    - assert (Z.testbit x k = false) as ->; [|done]. destruct (decide (x = 0)) as [->|]; [apply Z.bits_0|].
      apply Z.bits_above_log2; [lia|]. assert (Z.log2 x < 32); [apply Z.log2_lt_pow2; lia|lia]. }
  rewrite E, Z.shiftl_mul_pow2, Z.shiftr_div_pow2 by lia. change (2 ^ 4) with 16. dlia.
Qed.

Lemma init_stack_top (HB : boot_layout) : Z.land (u32 INIT_STACK_TOP) 4294967280 = init_stack + 1008.
Proof.
  destruct (layout_range HB) as [Hd Hd1]. pose proof (bl_align HB) as Hal.
  unfold INIT_STACK_TOP, init_stack, kern_page_table. rewrite u32_small, land_16 by lia. dlia.
Qed.

Lemma boot_start_eq (HB : boot_layout) c :
  Z.testbit (cr0 c) 31 = false -> 0 <= g_ebx (gpr c) < 4294967296 -> 0 <= cr0 c < 4294967296 ->
  exists c', boot_start c = Ret c' tt [Cli] /\ boot_paged c c'.
Proof.
  intros Hpg Hebx Hcr0. pose proof (layout_range HB) as [Hd Hd1]. pose proof (bl_align HB) as Hal. destruct (bl_temp HB) as [Ht Ht1].
  destruct c as [[a cx d b sp bp si di] sg ip fl c0 c3 gd m]. cbn [cr0 gpr g_ebx] in *.
  unfold boot_start, cli. rewrite bind_assoc, bind_modify, bind_emit. cpu_cbn. exec.
  run store_word_flat by (done || lia). exec. rewrite (init_stack_top HB). unfold init_stack, kern_page_table in *.
  set (S0 := kern_dir_table + 4096 + 4096 * 256) in *. rewrite (u32_small (S0 + 1008)) by lia.
  unfold call, push. exec. replace (S0 + 1008 - 4) with (S0 + 1004) by lia. rewrite (u32_small (S0 + 1004)) by lia.
  run store_word_flat by (done || lia).
  set (m1 := st32 (st32 m temp_mboot_ptr b) (S0 + 1004) after_set_page).
  destruct (set_page_eq HB sg ip (clear_if fl) c0 c3 gd Hpg a cx d b (S0 + 1004) bp si di m1)
    as (a1 & d1 & b1 & m2 & E2 & T2 & R2); unfold init_stack, kern_page_table; fold S0; [lia..|].
  unfold init_stack, kern_page_table in R2. fold S0 in R2. run E2 by idtac.
  run load_word_flat by (done || lia). exec.
  assert (Et : ld32 m2 temp_mboot_ptr = b).
  { transitivity (ld32 m1 temp_mboot_ptr); [apply ld32_ext; intros x Hx; apply R2; lia|].
    unfold m1. rewrite ld32_st32_out by lia. rewrite ld32_st32_eq. by apply u32_small. }
  rewrite (u32_small kern_dir_table), (u32_small c0), land_page_mask, Hal, Z.sub_0_r by lia.
  rewrite (u32_small kern_dir_table) by lia.
  unfold far_jmp. exec. unfold modify. cpu_cbn. cbn [prepend app].
  eexists. split; [reflexivity|]. split; cbn [ram cr0 cr3 seg x_eip s_cs gpr g_ebx]; try done.
  - rewrite u32_small; [done|]. apply lor_range; lia.
  - intros x Hx H1 H2. unfold init_stack, kern_page_table in H2. fold S0 in H2. rewrite R2 by lia.
    unfold m1. rewrite !ld8_st32_out by lia. done.
Qed.
End boot.
