(* ===== verification/BootMap.v ===== *)
(** * What the tables of boot.s translate

    The translation of the processor over the tables that [boot_start] leaves
    ([boot_tables]): sixteen page tables
    serve the kernel's gigabyte, so that the linear addresses above 3 GB repeat
    every 64 MB, and so do the cells of their page-table entries. *)

From S2P Require Import Prelude Memory PageTable Tss X86 Boot BootThm.

Section map.
Context {BL : BootLayout} (HB : boot_layout).
#[local] Existing Instance paging.

Lemma flags3 x : 0 <= x -> x `mod` 4096 = 0 -> Z.testbit (x + 3) 0 = true /\ frame_of (x + 3) = x.
Proof.
  intros Hx Hm. split; [|unfold frame_of; dlia]. apply Z.testbit_true; [lia|]. change (2 ^ 0) with 1. dlia.
Qed.

Lemma boot_recursive m : boot_tables m -> recursive m kern_dir_table.
Proof using HB.
  intros [_ _ _ Hs _ _]. destruct (layout_range HB) as [Hd _]. pose proof (bl_align HB) as Ha.
  destruct (flags3 _ Hd Ha) as [H1 H2]. split; [done|by rewrite Hs|by rewrite Hs].
Qed.

(** The table of the kernel's directory entry [i]. *)
Definition table_of (i : Z) : Z := kern_page_table + 4096 * (i `mod` 16).

Lemma table_flags i : Z.testbit (table_of i + 3) 0 = true /\ frame_of (table_of i + 3) = table_of i.
Proof using HB.
  pose proof (layout_range HB). pose proof (bl_align HB) as Ha. apply flags3; unfold table_of, kern_page_table;
    pose proof (Z.mod_pos_bound i 16 ltac:(lia)); [lia|]. set (j := i `mod` 16) in *. clearbody j. dlia.
Qed.

Lemma table_entry m i k : boot_tables m -> 0 <= k < 1024 ->
  ld32 m (table_of i + 4 * k) = if decide (i `mod` 16 = 0) then 4096 * k + 3 else 0.
Proof using.
  intros [_ _ _ _ Hf Hr] Hk. unfold table_of. pose proof (Z.mod_pos_bound i 16 ltac:(lia)). case_decide as E.
  - rewrite E, Z.mul_0_r, Z.add_0_r. by apply Hf.
  - rewrite <- Z.add_assoc. replace (4096 * (i `mod` 16) + 4 * k) with (4 * (1024 * (i `mod` 16) + k)) by lia. apply Hr. lia.
Qed.

(** Where the page tables map an address: 3 GB as 0. *)
Definition boot_map (v : Z) : option Z :=
  if decide (v < 4194304) then Some v
  else if decide (v < 3221225472) then None
  else if decide ((v - 3221225472) `mod` 67108864 < 4194304) then Some ((v - 3221225472) `mod` 67108864) else None.

Lemma walk_boot m v : boot_tables m -> 0 <= v < 4290772992 -> walk m kern_dir_table v = boot_map v.
Proof using HB.
  intros Hm Hv. unfold walk, boot_map. assert (Hi : 0 <= pde_index v < 1023) by (unfold pde_index; dlia).
  assert (Hk : 0 <= pte_index v < 1024) by (unfold pte_index; apply Z.mod_pos_bound; lia).
  assert (Ev : v = 4194304 * pde_index v + 4096 * pte_index v + v `mod` 4096) by (unfold pde_index, pte_index; dlia).
  assert (Hlo : 0 <= v `mod` 4096 < 4096) by (apply Z.mod_pos_bound; lia).
  set (i := pde_index v) in *. set (k := pte_index v) in *. set (o := v `mod` 4096) in *. clearbody i k o.
  assert (Hpte : forall j, ld32 m (kern_dir_table + 4 * i) = table_of j + 3 ->
    (if Z.testbit (ld32 m (kern_dir_table + 4 * i)) 0
     then if Z.testbit (ld32 m (frame_of (ld32 m (kern_dir_table + 4 * i)) + 4 * k)) 0
          then Some (frame_of (ld32 m (frame_of (ld32 m (kern_dir_table + 4 * i)) + 4 * k)) + o) else None
     else None) = if decide (j `mod` 16 = 0) then Some (4096 * k + o) else None).
  { intros j Ej. destruct (table_flags j) as [T1 T2]. rewrite Ej, T1, T2, table_entry by done. case_decide; [|done].
    destruct (flags3 (4096 * k)) as [F1 F2]; [lia|dlia|]. by rewrite F1, F2. }
  destruct (decide (v < 4194304)).
  - assert (i = 0) as -> by lia. rewrite Hpte with (j := 0); [rewrite decide_True by done; f_equal; lia|].
    rewrite Z.mul_0_r, Z.add_0_r, (bt_low _ Hm). unfold table_of. change (0 `mod` 16) with 0. lia.
  - destruct (decide (v < 3221225472)).
    + rewrite (bt_user _ Hm) by lia. by rewrite Z.testbit_0_l.
    + rewrite Hpte with (j := i - 768).
      * assert (Hd : (i - 768) `mod` 16 = (i - 768) - 16 * ((i - 768) / 16)) by dlia.
        assert (Eq : (v - 3221225472) `mod` 67108864 = 4194304 * ((i - 768) `mod` 16) + 4096 * k + o).
        { symmetry. apply (Z.mod_unique _ _ ((i - 768) / 16)); [left|]; dlia. }
        rewrite Eq. pose proof (Z.mod_pos_bound (i - 768) 16 ltac:(lia)).
        destruct (decide ((i - 768) `mod` 16 = 0)) as [E|E].
        -- rewrite decide_True by lia. f_equal. lia.
        -- by rewrite decide_False by lia.
      * replace i with (768 + (i - 768)) at 1 by lia. rewrite (bt_kern _ Hm) by lia. done.
Qed.

(** The cell of a kernel address' entry. *)
Lemma walk_boot_pte m v : boot_tables m -> 3221225472 <= v < 4290772992 ->
  walk m kern_dir_table (get_pte v) = Some (kern_page_table + 4 * (((v - 3221225472) / 4096) `mod` 16384)).
Proof using HB.
  intros Hm Hv. rewrite (walk_pte _ _ _ (boot_recursive _ Hm)) by lia.
  assert (Hi : 768 <= pde_index v < 1023) by (unfold pde_index; dlia).
  replace (pde_index v) with (768 + (pde_index v - 768)) by lia. rewrite (bt_kern _ Hm) by lia.
  destruct (table_flags (pde_index v - 768)) as [T1 T2]. unfold table_of in T1, T2. rewrite T1, T2.
  f_equal. unfold pte_index, pde_index. set (q := v / 4096).
  assert (E1 : v / 4194304 = q / 1024) by (unfold q; by rewrite Z.div_div by lia).
  assert (E2 : (v - 3221225472) / 4096 = q - 786432).
  { unfold q. replace (v - 3221225472) with (v + -786432 * 4096) by lia. by rewrite Z.div_add by lia. }
  rewrite E1, E2. clearbody q. dlia.
Qed.

(** ** Properties *)

Lemma tables_translation m v :
  boot_tables m -> 0 <= v < 4294967296 ->
  (v < 4194304 -> walk m kern_dir_table v = Some v) /\
  (4194304 <= v < 3221225472 -> walk m kern_dir_table v = None) /\
  (3221225472 <= v < 4290772992 -> let o := (v - 3221225472) `mod` 67108864 in
    walk m kern_dir_table v = if decide (o < 4194304) then Some o else None) /\
  recursive m kern_dir_table.
Proof using HB.
  intros Hm Hv. split; [|split; [|split]].
  - intros H. rewrite walk_boot by (done || lia). unfold boot_map. by rewrite decide_True by lia.
  - intros H. rewrite walk_boot by (done || lia). unfold boot_map. by rewrite decide_False, decide_True by lia.
  - intros H o. rewrite walk_boot by (done || lia). unfold boot_map. by rewrite !decide_False by lia.
  - by apply boot_recursive.
Qed.

Lemma tables_shared m v w :
  boot_tables m -> 3221225472 <= v < 4290772992 -> 3221225472 <= w < 4290772992 ->
  (walk m kern_dir_table (get_pte v) = walk m kern_dir_table (get_pte w) <-> (v / 4096 - w / 4096) `mod` 16384 = 0) /\
  forall a e, walk m kern_dir_table (get_pte v) = Some a -> 0 <= e < 4294967296 -> Z.testbit e 0 = true ->
    (v / 4096 - w / 4096) `mod` 16384 = 0 -> walk (st32 m a e) kern_dir_table w = Some (frame_of e + w `mod` 4096).
Proof using HB.
  intros Hm Hv Hw. pose proof (layout_range HB) as [Hd Hd1]. rewrite !walk_boot_pte by done.
  assert (S : forall x, (x - 3221225472) / 4096 = x / 4096 - 786432).
  { intros x. replace (x - 3221225472) with (x + -786432 * 4096) by lia. by rewrite Z.div_add by lia. }
  rewrite !S. assert (Eq : (v / 4096 - 786432) `mod` 16384 = (w / 4096 - 786432) `mod` 16384 <-> (v / 4096 - w / 4096) `mod` 16384 = 0).
  { set (x := v / 4096). set (y := w / 4096). clearbody x y. dlia. }
  split.
  - rewrite <- Eq. split; [intros [= E]; lia|by intros ->].
  - intros a e [= <-] He Hp Hz. apply Eq in Hz. rewrite Hz.
    assert (Hc : walk m kern_dir_table (get_pte w) = Some (kern_page_table + 4 * ((w / 4096 - 786432) `mod` 16384)))
      by (rewrite walk_boot_pte by done; by rewrite S).
    pose proof (Z.mod_pos_bound (w / 4096 - 786432) 16384 ltac:(lia)) as Hb. set (o := (w / 4096 - 786432) `mod` 16384) in *.
    assert (Hi : 768 <= pde_index w < 1023) by (unfold pde_index; dlia).
    rewrite walk_pte in Hc by (by apply boot_recursive || lia).
    destruct (Z.testbit (ld32 m (kern_dir_table + 4 * pde_index w)) 0) eqn:Hpd; [|done]. injection Hc as Hc.
    unfold walk. unfold kern_page_table in *. rewrite (ld32_st32_out _ _ (kern_dir_table + 4 * pde_index w)) by lia.
    rewrite Hpd, Hc, ld32_st32_eq, u32_small by done. by rewrite Hp.
Qed.

(** C21: What the first part of boot.s maps.  On a machine with paging off,
    [boot_start] ends with paging on and cr3 at the directory it has filled; then
    the low 4 MB are mapped where they are, nothing else is below 3 GB, the last
    4 MB are the page tables, and an address above 3 GB is mapped to its distance to
    3 GB modulo 64 MB, or not at all; so the first 4 MB of memory are visible at
    sixteen linear addresses. *)
Theorem boot_translation c :
  Z.testbit (cr0 c) 31 = false -> 0 <= g_ebx (gpr c) < 4294967296 -> 0 <= cr0 c < 4294967296 ->
  exists c', boot_start c = Ret c' tt [Cli] /\ Z.testbit (cr0 c') 31 = true /\ cr3 c' = kern_dir_table /\
    recursive (ram c') kern_dir_table /\
    forall v, 0 <= v < 4294967296 ->
      (v < 4194304 -> translate c' v = Some v) /\
      (4194304 <= v < 3221225472 -> translate c' v = None) /\
      (3221225472 <= v < 4290772992 -> let o := (v - 3221225472) `mod` 67108864 in
        translate c' v = if decide (o < 4194304) then Some o else None).
Proof using HB.
  intros H0 H1 H2. destruct (boot_start_eq HB c H0 H1 H2) as (c' & E & [T C3 C0 _ _ _ _ _]). exists c'.
  assert (Hp : Z.testbit (cr0 c') 31 = true) by (rewrite C0, Z.lor_spec; apply orb_true_r).
  split; [done|]. split; [done|]. split; [done|]. split; [by apply boot_recursive|]. intros v Hv.
  assert (Et : translate c' v = walk (ram c') kern_dir_table v) by (unfold translate, paging; by rewrite Hp, C3, u32_small).
  rewrite Et. destruct (tables_translation (ram c') v T Hv) as (A1 & A2 & A3 & _). by split.
Qed.

(** C22: The page tables [boot_start] makes are shared: when it has ended, the
    entries of two kernel pages are the same cell of memory exactly when the pages
    are a multiple of 64 MB apart, although [get_pte] gives them different
    addresses.  So an entry stored for a page maps all the pages a multiple of
    64 MB away from it, whatever they were mapped to. *)
Theorem boot_tables_shared c :
  Z.testbit (cr0 c) 31 = false -> 0 <= g_ebx (gpr c) < 4294967296 -> 0 <= cr0 c < 4294967296 ->
  exists c', boot_start c = Ret c' tt [Cli] /\
    forall v w, 3221225472 <= v < 4290772992 -> 3221225472 <= w < 4290772992 ->
      (translate c' (get_pte v) = translate c' (get_pte w) <-> (v / 4096 - w / 4096) `mod` 16384 = 0) /\
      forall a e, translate c' (get_pte v) = Some a -> 0 <= e < 4294967296 -> Z.testbit e 0 = true ->
        (v / 4096 - w / 4096) `mod` 16384 = 0 ->
        translate (set_ram (st32 (ram c') a e) c') w = Some (frame_of e + w `mod` 4096).
Proof using HB.
  intros H0 H1 H2. destruct (boot_start_eq HB c H0 H1 H2) as (c' & E & [T C3 C0 _ _ _ _ _]). exists c'.
  assert (Hp : Z.testbit (cr0 c') 31 = true) by (rewrite C0, Z.lor_spec; apply orb_true_r).
  split; [done|]. intros v w Hv Hw. unfold translate, paging. cbn [ram cr0 cr3 set_ram]. rewrite Hp, C3.
  assert (G : forall x, 3221225472 <= x < 4290772992 -> u32 (get_pte x) = get_pte x)
    by (intros x Hx; rewrite get_pte_eq by lia; apply u32_small; dlia).
  rewrite (G v Hv), (G w Hw), (u32_small w) by lia. exact (tables_shared (ram c') v w T Hv Hw).
Qed.
End map.

(** ** The tables of one machine *)

Module Small.
Definition layout : BootLayout := {|
  temp_mboot_ptr := 0; kern_dir_table := 4096; gdt_ptr := 0; gdt_base := 0; mboot_ptr_var := 0; kern_bitmap_var := 0;
  kern_dir_table_paddr_var := 0; kern_page_table_paddr_var := 0; kern_bitmap_block := 0; after_set_page := 0;
  boot_start_after_set_paging := 0; far_jmp_target := 0; kern_entry_addr := 0; after_kern_entry := 0; port92 := 0 |}.
#[local] Existing Instance layout.
Lemma layout_ok : boot_layout.
Proof. split; [done|cbn; lia|unfold init_stack, kern_page_table; cbn; lia]. Qed.
(** A machine with paging off. *)
Definition paging_off : cpu := Cpu (Gprs 0 0 0 0 0 0 0 0) (Segs 0 0 0 0 0 0) 0 2 0 0 (0, 0) ∅.
End Small.

Lemma boot_translation_witness :
  exists c', @boot_start Small.layout Small.paging_off = Ret c' tt [Cli] /\
    @translate paging c' 70000 = Some 70000 /\ @translate paging c' 3221291223 = Some 65751 /\
    @translate paging c' 3288400087 = Some 65751 /\ @translate paging c' 3225419776 = None.
Proof.
  destruct (boot_translation (BL := Small.layout) Small.layout_ok Small.paging_off eq_refl) as (c' & E & _ & _ & _ & H);
    [cbn; lia|cbn; lia|].
  exists c'. split; [exact E|]. split; [|split; [|split]].
  - destruct (H 70000 ltac:(lia)) as (H1 & _). exact (H1 ltac:(lia)).
  - destruct (H 3221291223 ltac:(lia)) as (_ & _ & H3). exact (H3 ltac:(lia)).
  - destruct (H 3288400087 ltac:(lia)) as (_ & _ & H3). exact (H3 ltac:(lia)).
  - destruct (H 3225419776 ltac:(lia)) as (_ & _ & H3). exact (H3 ltac:(lia)).
Defined.

(** The entries of the pages at 3 GB and at 3 GB + 64 MB are one cell. *)
Lemma boot_tables_shared_witness :
  exists c', @boot_start Small.layout Small.paging_off = Ret c' tt [Cli] /\
    @translate paging c' (get_pte 3288334336) = @translate paging c' (get_pte 3221225472).
Proof.
  destruct (boot_tables_shared (BL := Small.layout) Small.layout_ok Small.paging_off eq_refl) as (c' & E & H);
    [cbn; lia|cbn; lia|].
  exists c'. split; [exact E|]. destruct (H 3288334336 3221225472 ltac:(lia) ltac:(lia)) as [[_ H1] _]. exact (H1 eq_refl).
Defined.
