(* ===== verification/BootRun.v ===== *)
(** * The second part of boot.s, and the machine kern_entry starts on

    [after_set_paging] runs at its linear address over the tables of the first
    part; no access of it faults.  [kernel_entered] is the machine at the call
    of [kern_entry]. *)

From S2P Require Import Prelude Memory PageTable Tss X86 Boot BootThm BootMap.

Section run.
Context {BL : BootLayout} (HB : boot_layout).
#[local] Existing Instance paging.

(** [n] bytes at the linear address [a] are in the first 4 MB, behind the
    tables and the first stack. *)
Definition in_kernel (a n : Z) : Prop := 3221225472 + init_stack + 1024 <= a /\ a + n <= 3225419776.

(** The variables of the second part, and the stack. *)
Record kernel_layout : Prop := {
  kl_mboot : in_kernel mboot_ptr_var 4;
  kl_bitmap : in_kernel kern_bitmap_var 4;
  kl_dir : in_kernel kern_dir_table_paddr_var 4;
  kl_page : in_kernel kern_page_table_paddr_var 4;
  kl_gdt_ptr : in_kernel gdt_ptr 6;
  kl_block : in_kernel kern_bitmap_block (4 + 32768 + 524288);
  kl_apart : Forall (fun b => disjoint_blocks b.1 b.2 mboot_ptr_var 4)
    [(kern_bitmap_var, 4); (kern_dir_table_paddr_var, 4); (kern_page_table_paddr_var, 4); (gdt_ptr, 6)];
  kl_apart2 : disjoint_blocks kern_bitmap_var 4 kern_dir_table_paddr_var 4 /\
    disjoint_blocks kern_bitmap_var 4 kern_page_table_paddr_var 4 /\
    disjoint_blocks kern_dir_table_paddr_var 4 kern_page_table_paddr_var 4;
  kl_stack : Forall (fun a => disjoint_blocks a 4 stack 524288)
    [mboot_ptr_var; kern_bitmap_var; kern_dir_table_paddr_var; kern_page_table_paddr_var]
}.

(** The machine with paging on. *)
Definition paged (c : cpu) : Prop :=
  Z.testbit (cr0 c) 31 = true /\ cr3 c = kern_dir_table /\ boot_tables (ram c).

Lemma boot_tables_ext m m' : (forall b, kern_dir_table <= b < init_stack -> ld8 m' b = ld8 m b) -> boot_tables m -> boot_tables m'.
Proof using HB.
  unfold init_stack, kern_page_table. intros H [T1 T2 T3 T4 T5 T6]. unfold kern_page_table in *. split; unfold kern_page_table; intros.
  - rewrite <- T1. apply ld32_ext. intros b Hb. apply H. lia.
  - rewrite <- (T2 i) by lia. apply ld32_ext. intros b Hb. apply H. lia.
  - rewrite <- (T3 i) by lia. apply ld32_ext. intros b Hb. apply H. lia.
  - rewrite <- T4. apply ld32_ext. intros b Hb. apply H. lia.
  - rewrite <- (T5 i) by lia. apply ld32_ext. intros b Hb. apply H. lia.
  - rewrite <- (T6 i) by lia. apply ld32_ext. intros b Hb. apply H. lia.
Qed.

Lemma translate_low c a : paged c -> 0 <= a < 4194304 -> translate c a = Some a.
Proof using HB.
  intros (Hp & Hc & Ht) Ha. unfold translate, paging. rewrite Hp, Hc, u32_small by lia.
  rewrite (walk_boot HB) by (done || lia). unfold boot_map. by rewrite decide_True by lia.
Qed.
Lemma translate_kernel c a : paged c -> 3221225472 <= a < 3225419776 -> translate c a = Some (a - 3221225472).
Proof using HB.
  intros (Hp & Hc & Ht) Ha. unfold translate, paging. rewrite Hp, Hc, u32_small by lia.
  rewrite (walk_boot HB) by (done || lia). unfold boot_map. rewrite !decide_False by lia.
  rewrite Z.mod_small by lia. by rewrite decide_True by lia.
Qed.

Lemma kernel4 c a : paged c -> in_kernel a 4 -> maps4 c a (a - 3221225472).
Proof using HB.
  intros Hp [H0 H1] i Hi. destruct (layout_range HB). unfold init_stack, kern_page_table in *.
  rewrite translate_kernel by (done || lia). f_equal. lia.
Qed.

(** A store to a variable of the kernel. *)
Lemma store_kernel c a v : paged c -> in_kernel a 4 ->
  store_word a v c = Ret (set_ram (st32 (ram c) (a - 3221225472) v) c) tt [] /\
  paged (set_ram (st32 (ram c) (a - 3221225472) v) c).
Proof using HB.
  intros Hp Ha. split; [by apply store_word_eq, kernel4|]. destruct Hp as (Hp & Hc & Ht). split; [done|]. split; [done|].
  cbn [ram set_ram]. apply (boot_tables_ext (ram c)); [|done]. intros b Hb. destruct (layout_range HB). destruct Ha.
  unfold init_stack, kern_page_table in *. rewrite ld8_st32_out by lia. done.
Qed.
Lemma load_kernel c a : paged c -> in_kernel a 4 -> load_word a c = Ret c (ld32 (ram c) (a - 3221225472)) [].
Proof using HB. intros Hp Ha. by apply load_word_eq, kernel4. Qed.

(** The machine at the entry of [kern_entry], with the words in memory at
    their physical addresses. *)
Record kernel_entered (c c' : cpu) : Prop := {
  ke_paged : paged c';
  ke_eip : x_eip c' = kern_entry_addr;
  ke_segs : s_cs (seg c') = SELECTOR_CODE /\ s_ss (seg c') = SELECTOR_DATA /\ s_ds (seg c') = SELECTOR_DATA /\
    s_gs (seg c') = SELECTOR_VIDEO;
  ke_stack : exists sp, g_esp (gpr c') = sp - 4 /\ sp `mod` 16 = 0 /\ stack + 524288 - 16 <= sp <= stack + 524288 /\
    ld32 (ram c') (sp - 4 - 3221225472) = u32 after_kern_entry;
  ke_ebp : g_ebp (gpr c') = 0;
  ke_gdtr : gdtr c' = (ld16 (ram c) (gdt_ptr - 3221225472), ld32 (ram c) (gdt_ptr + 2 - 3221225472));
  ke_if : x_eflags c' = clear_if (clear_if (x_eflags c));
  ke_mboot : ld32 (ram c') (mboot_ptr_var - 3221225472) = g_ebx (gpr c);
  ke_bitmap : ld32 (ram c') (kern_bitmap_var - 3221225472) = kern_bitmap_block;
  ke_dir : ld32 (ram c') (kern_dir_table_paddr_var - 3221225472) = kern_dir_table;
  ke_page : ld32 (ram c') (kern_page_table_paddr_var - 3221225472) = kern_page_table;
  ke_rest : forall b, 0 <= b < 4294967296 ->
    Forall (fun x => b < x.1 \/ x.1 + x.2 <= b)
      [(temp_mboot_ptr, 4); (kern_dir_table, 4096 + 1048576 + 1024); (mboot_ptr_var - 3221225472, 4);
       (kern_bitmap_var - 3221225472, 4); (kern_dir_table_paddr_var - 3221225472, 4);
       (kern_page_table_paddr_var - 3221225472, 4); (stack - 3221225472, 524288)] ->
    ld8 (ram c') b = ld8 (ram c) b
}.

Lemma u16_ld32 m a : u16 (ld32 m a) = ld16 m a.
Proof.
  unfold u16, ld32, ld16. pose proof (ld8_range m a). pose proof (ld8_range m (a + 1)).
  replace (_ + _ + _ + _) with (ld8 m a + 256 * ld8 m (a + 1) + (ld8 m (a + 2) + 256 * ld8 m (a + 3)) * 65536) by lia.
  rewrite Z.mod_add by lia. apply Z.mod_small. lia.
Qed.

(** One store, or one load, in the middle of a computation. *)
Ltac kstore P K :=
  match goal with |- context [bind (store_word ?a ?v) _ ?c] =>
    let E := fresh "E" in let P' := fresh "P" in
    destruct (store_kernel c a v P K) as [E P']; rewrite (bind_ret_eq _ _ _ _ _ _ E), ?prepend_nil; clear E; cpu_cbn; exec
  end.
Ltac kload P K :=
  match goal with |- context [bind (load_word ?a) _ ?c] =>
    rewrite (bind_ret_eq _ _ _ _ _ _ (load_kernel c a P K)), ?prepend_nil; cpu_cbn; exec
  end.

Lemma after_set_paging_eq c c1 :
  kernel_layout -> boot_paged c c1 -> 0 <= g_ebx (gpr c) < 4294967296 -> 0 <= cr0 c < 4294967296 ->
  exists c' x, after_set_paging c1 = Ret c' tt [Inb 146; Outb 146 x; Lgdt; Cli] /\ kernel_entered c c'.
Proof using HB.
  intros HK [T C3 C0 _ _ Fl Temp Rest] Hebx Hcr0. destruct (layout_range HB) as [Hd Hd1]. destruct (bl_temp HB) as [Ht Ht1].
  destruct HK as [K1 K2 K3 K4 [K5 K5'] [K6 K6'] KA [KB [KC KD]] KS].
  assert (Hc0 : Z.testbit (cr0 c1) 31 = true) by (rewrite C0, Z.lor_spec; change (Z.testbit 2147483648 31) with true; apply orb_true_r).
  assert (P1 : paged c1) by done.
  assert (Hcr0' : 0 <= cr0 c1 < 4294967296) by (rewrite C0; apply lor_range; lia).
  destruct c1 as [[a cx d b sp bp si di] [scs sds ses sfs sgs sss] ip fl c0 c3 gd m]. cbn [cr0 cr3 ram x_eflags] in *. subst c3.
  unfold after_set_paging.
  run (load_word_eq _ temp_mboot_ptr temp_mboot_ptr) by (intros i Hi; apply translate_low; [done|lia]).
  exec. cbn [ram] in *. rewrite Temp, (u32_small (g_ebx (gpr c))) by done. set (bx := g_ebx (gpr c)) in *.
  kstore P1 K1. unfold in_al. rewrite bind_assoc, bind_emit. exec. unfold out_al. rewrite bind_assoc. exec.
  rewrite bind_emit. unfold lgdt. exec.
  assert (KG : in_kernel gdt_ptr 4) by (split; lia). assert (KG2 : in_kernel (gdt_ptr + 2) 4) by (split; lia).
  kload P KG. kload P KG2. rewrite bind_emit. exec.
  unfold far_jmp. exec. rewrite !u16_low. set (c0' := u32 (Z.lor (u32 c0) 1)).
  set (m1 := st32 m _ bx) in *. assert (P2 : Z.testbit c0' 31 = true /\ kern_dir_table = kern_dir_table /\ boot_tables m1).
  { split; [|by destruct P as (_ & _ & P)]. unfold c0'. rewrite (u32_small c0) by done.
    assert (Hl : 0 <= Z.lor c0 1 < 4294967296) by (apply lor_range; lia). rewrite u32_small by done.
    rewrite Z.lor_spec, Hc0. done. }
  assert (Hb32 : 0 <= kern_bitmap_block < 4294967296 /\ 0 <= kern_page_table < 4294967296)
    by (unfold init_stack, kern_page_table in *; lia).
  rewrite (u32_small kern_bitmap_block) by lia. kstore P2 K2.
  rewrite (u32_small kern_dir_table) by lia. kstore P0 K3.
  rewrite (u32_small kern_page_table) by lia. kstore P3 K4. unfold cli. rewrite bind_assoc, bind_modify, bind_emit. cpu_cbn.
  unfold call, push. exec.
  set (sp0 := u32 (Z.land (u32 STACK_TOP) 4294967280)).
  assert (Hsp : sp0 `mod` 16 = 0 /\ stack + 524288 - 16 <= sp0 <= stack + 524288 - 1).
  { unfold sp0, STACK_TOP. unfold stack, init_stack, kern_page_table in *. rewrite (u32_small (_ - 1)), land_16 by lia.
    rewrite u32_small by dlia. dlia. }
  clearbody sp0. destruct Hsp as [Hsp0 Hsp]. 
  apply Forall_cons in KA as [KA1 KA]. apply Forall_cons in KA as [KA2 KA]. apply Forall_cons in KA as [KA3 KA].
  apply Forall_cons in KA as [KA4 _]. apply Forall_cons in KS as [KS1 KS]. apply Forall_cons in KS as [KS2 KS].
  apply Forall_cons in KS as [KS3 KS]. apply Forall_cons in KS as [KS4 _].
  unfold disjoint_blocks, in_kernel in *. cbn [fst snd] in *.
  assert (Hst : 3221225472 + init_stack + 1024 <= stack /\ stack + 524288 <= 3225419776) by (unfold stack; lia).
  rewrite (u32_small (sp0 - 4)) by (clear -Hst Hsp Hd1 Hd; unfold init_stack, kern_page_table in *; lia).
  assert (K7 : in_kernel (sp0 - 4) 4) by (clear -Hst Hsp; unfold in_kernel; lia).
  kstore P4 K7. unfold modify. cpu_cbn. cbn [prepend app]. eexists _, _. split; [reflexivity|]. clear P P0 P2 P3 P1 P4.
  set (m5 := st32 _ _ after_kern_entry) in *.
  assert (N : 0 <= temp_mboot_ptr /\ temp_mboot_ptr + 4 <= kern_dir_table /\ kern_dir_table + 4096 < init_stack /\ init_stack + 1024 <= 4194304)
    by (clear -Hd Hd1 Ht Ht1; unfold init_stack, kern_page_table in *; lia).
  assert (L : forall v, in_kernel v 4 -> sp0 <= v \/ v + 4 <= sp0 - 4 -> ld32 m5 (v - 3221225472) = ld32 (st32 (st32 (st32 m1
    (kern_bitmap_var - 3221225472) kern_bitmap_block) (kern_dir_table_paddr_var - 3221225472) kern_dir_table)
    (kern_page_table_paddr_var - 3221225472) kern_page_table) (v - 3221225472)).
  { clear -K7 Hst Hsp N. unfold in_kernel in *. intros v Hv Ho. apply ld32_st32_out; lia. }
  split; cpu_cbn.
  - exact P5.
  - done.
  - done.
  - exists sp0. split; [done|]. split; [done|]. split; [lia|]. apply ld32_st32_eq.
  - done.
  - unfold m1. f_equal.
    + clear -Rest N K5 K5' K1 KA4. rewrite u16_ld32. unfold ld16. rewrite !ld8_st32_out by lia. rewrite !Rest by lia. done.
    + clear -Rest N K5 K5' K1 KA4. rewrite ld32_st32_out by lia. apply ld32_ext. intros x Hx. apply Rest; lia.
  - by rewrite Fl.
  - rewrite L by (done || lia). rewrite !ld32_st32_out by lia. unfold m1. rewrite ld32_st32_eq. by apply u32_small.
  - rewrite L by (done || lia). rewrite !ld32_st32_out by lia. rewrite ld32_st32_eq. apply u32_small. lia.
  - rewrite L by (done || lia). rewrite !ld32_st32_out by lia. rewrite ld32_st32_eq. apply u32_small. lia.
  - rewrite L by (done || lia). rewrite ld32_st32_eq. apply u32_small. lia.
  - intros x Hx Hl. apply Forall_cons in Hl as [L1 Hl]. apply Forall_cons in Hl as [L2 Hl]. apply Forall_cons in Hl as [L3 Hl].
    apply Forall_cons in Hl as [L4 Hl]. apply Forall_cons in Hl as [L5 Hl]. apply Forall_cons in Hl as [L6 Hl].
    apply Forall_cons in Hl as [L7 _]. cbn [fst snd] in *. unfold m5, m1. cpu_cbn.
    rewrite ld8_st32_out by (clear -L7 Hst Hsp N Hx; lia). rewrite ld8_st32_out by (clear -L6 K4 N Hx; lia).
    rewrite ld8_st32_out by (clear -L5 K3 N Hx; lia). rewrite ld8_st32_out by (clear -L4 K2 N Hx; lia).
    rewrite ld8_st32_out by (clear -L3 K1 N Hx; lia). clear -Rest L1 L2 Hx.
    apply Rest; unfold init_stack, kern_page_table in *; lia.
Qed.
End run.
