(* ===== verification/IntrAsm.v ===== *)
(** * interrupt_asm.s and common_asm.s: the way in and out of the kernel

    What the processor does for an interrupt ([deliver]) and at [iret], and
    between them the code of interrupt_asm.s, instruction by instruction, with
    the C function [int_func_route] as a parameter; [exit_int] of common_asm.s,
    which leaves the kernel for a new user task.  Memory is the linear memory.  The
    [and] of the entry code changes arithmetic flags on the machine and not here
    ([X86]); iret restores them all. *)

From S2P Require Import Prelude Memory PageTable Tss X86 Boot.

(** ** The processor *)

Definition have_errocode : list Z := [8; 10; 11; 12; 13; 14; 17].

(** The privilege level of a selector's descriptor in the table of boot.s. *)
Definition dpl_of (sel : Z) : Z :=
  Z.land (Z.shiftr (gdt_words !!! Z.to_nat (2 * (sel / 8) + 1)) 13) 3.
(** On a return to an outer level, a data segment that level may not use is
    replaced by the null selector. *)
Definition checked (cpl sel : Z) : Z := if sel / 4 =? 0 then sel else if dpl_of sel <? cpl then 0 else sel.

Section instructions.
Context {T : Translation} {TL : TssLayout}.

Definition iret : M cpu unit :=
  cs0 <- get_seg CS ;;
  ip <- pop ;;
  cs <- pop ;;
  fl <- pop ;;
  modify (set_ip ip) ;;
  mov_seg CS cs ;;
  modify (set_flags fl) ;;
  (if Z.land cs 3 =? Z.land cs0 3 then ret tt
   else
     sp <- pop ;;
     ss <- pop ;;
     mov ESP sp ;;
     mov_seg SS ss ;;
     modify (fun c => let g := seg c in let chk := checked (Z.land cs 3) in
       set_seg (Segs (s_cs g) (chk (s_ds g)) (chk (s_es g)) (chk (s_fs g)) (chk (s_gs g)) (s_ss g)) c)) ;;
  emit Iret.

(** An interrupt through a gate for level 0 to the code at [handler]; [err] is
    the error code of the exceptions that have one.  From an outer level the
    stack of the task state segment is taken. *)
Definition deliver (handler : Z) (err : option Z) : M cpu unit :=
  cs0 <- get_seg CS ;;
  ss0 <- get_seg SS ;;
  sp0 <- get ESP ;;
  fl <- gets x_eflags ;;
  ip <- gets x_eip ;;
  (if Z.land cs0 3 =? 0 then ret tt
   else
     sp <- load_word (tss_cpu0 + esp0_off) ;;
     ss <- load_word (tss_cpu0 + ss0_off) ;;
     mov ESP sp ;;
     mov_seg SS ss ;;
     push ss0 ;;
     push sp0) ;;
  push fl ;;
  push cs0 ;;
  push ip ;;
  (match err with Some e => push e | None => ret tt end) ;;
  mov_seg CS SELECTOR_CODE ;;
  modify (set_ip handler) ;;
  modify (set_flags (clear_if fl)).

(** ** interrupt_asm.s *)

Definition KERN_DATA_SELECTOR : Z := Z.shiftl 2 3 + 0.
Definition KERN_VGA_SELECTOR : Z := Z.shiftl 3 3 + 0.

(** [mov ax, seg; and eax, 0xffff; push eax] *)
Definition push_seg (r : sreg) : M cpu unit :=
  x <- get_seg r ;; mov16 EAX x ;;
  update EAX (fun x => Z.land x 65535) ;;
  x <- get EAX ;; push x.
(** [pop eax; mov seg, ax] *)
Definition pop_seg (r : sreg) : M cpu unit :=
  x <- pop ;; mov EAX x ;;
  x <- get EAX ;; mov_seg r x.

(** The registers saved, and the arguments of the C function: the number, from
    behind the saved registers, and ebx. *)
Definition enter_handler : M cpu unit :=
  pushad ;;
  sp <- get ESP ;;
  x <- load_word (sp + 32) ;; mov ECX x ;;
  push_seg ES ;;
  push_seg FS ;;
  push_seg GS ;;
  mov16 EAX KERN_DATA_SELECTOR ;;
  x <- get EAX ;; mov_seg ES x ;;
  x <- get EAX ;; mov_seg FS x ;;
  mov16 EAX KERN_VGA_SELECTOR ;;
  x <- get EAX ;; mov_seg GS x ;;
  x <- get EBX ;; push x ;;
  x <- get ECX ;; push x.

Definition restore_registers : M cpu unit :=
  update ESP (fun x => x + 8) ;;
  pop_seg GS ;;
  pop_seg FS ;;
  pop_seg ES ;;
  popad ;;
  update ESP (fun x => x + 8).

Definition leave_handler : M cpu unit :=
  restore_registers ;;
  x <- get EAX ;; push x ;;
  mov8 EAX 32 ;;
  out_al 160 ;;
  out_al 32 ;;
  x <- pop ;; mov EAX x ;;
  iret.

(** [route] is [int_func_route], from its entry to behind its return; [ra]
    the address behind the call. *)
Definition pre_handle (ra : Z) (route : M cpu unit) : M cpu unit :=
  enter_handler ;;
  call ra route ;;
  leave_handler.

Definition isr_code (n ra : Z) (route : M cpu unit) : M cpu unit :=
  (if decide (n ∈ have_errocode) then push n else push 0 ;; push n) ;;
  pre_handle ra route.

(** ** common_asm.s *)

(** The function is called with [esp_arg] as its argument and does not
    return. *)
Definition exit_int_code : M cpu unit :=
  sp <- get ESP ;;
  x <- load_word (sp + 4) ;; mov EAX x ;;
  x <- get EAX ;; mov ESP x ;;
  restore_registers ;;
  iret.

End instructions.
