(* ===== verification/IntrAsmThm.v ===== *)
(** * Interrupts are transparent, and where they are not

    The stack as a list of words carries the proofs: the entry code pushes the
    registers on the frame of the processor, the exit code pops them.  An
    interrupt of the kernel gives all registers back; so does one of a user task
    whose data segments are the user's.  A task that [exit_int] started has no
    data segment, nor has the kernel while it handles the interrupts of
    that task. *)

From S2P Require Import Prelude Memory PageTable Tss X86 Boot BootThm IntrAsm.

(** ** The stack *)

(** From [sp] on the words of [l]; the bytes below [sp] and from [sp0] on are
    those of [m0]. *)
Record stacked (m0 : mem) (sp0 : Z) (m : mem) (sp : Z) (l : list Z) : Prop := {
  sk_range : 0 <= sp /\ sp <= sp0 /\ sp0 <= 4294967296 /\ sp + 4 * length l < 4294967296;
  sk_words : forall (i : nat) x, l !! i = Some x -> ld32 m (sp + 4 * i) = x;
  sk_rest : forall b, 0 <= b < 4294967296 -> b < sp \/ sp0 <= b -> ld8 m b = ld8 m0 b
}.

Lemma stacked_push m0 sp0 m sp l v :
  4 <= sp -> 0 <= v < 4294967296 -> stacked m0 sp0 m sp l -> stacked m0 sp0 (st32 m (sp - 4) v) (sp - 4) (v :: l).
Proof.
  intros Hs Hv [Hr Hw Hb]. split.
  - cbn [length]. lia.
  - intros [|i] x Hx; cbn in Hx.
    + injection Hx as <-. rewrite Z.mul_0_r, Z.add_0_r, ld32_st32_eq. by apply u32_small.
    + pose proof (lookup_lt_Some _ _ _ Hx). rewrite ld32_st32_out by lia.
      replace (sp - 4 + 4 * S i) with (sp + 4 * i) by lia. by apply Hw.
  - intros b Hb1 Ho. rewrite ld8_st32_out by lia. apply Hb; lia.
Qed.
Lemma stacked_head m0 sp0 m sp v l : stacked m0 sp0 m sp (v :: l) -> ld32 m sp = v.
Proof. intros [_ Hw _]. rewrite <- (Hw 0%nat v eq_refl). f_equal. lia. Qed.

(** What is left of it: only the words. *)
Definition stack_at (m : mem) (sp : Z) (l : list Z) : Prop :=
  0 <= sp /\ sp + 4 * length l < 4294967296 /\ forall (i : nat) x, l !! i = Some x -> ld32 m (sp + 4 * i) = x.

Lemma stacked_at m0 sp0 m sp l : stacked m0 sp0 m sp l -> stack_at m sp l.
Proof. intros [Hr Hw _]. split; [lia|]. split; [lia|done]. Qed.
Lemma at_stacked m sp l : stack_at m sp l -> stacked m sp m sp l.
Proof. intros (H0 & H1 & Hw). split; [lia|done|done]. Qed.
Lemma stack_at_drop m sp l k : stack_at m sp (k ++ l) -> stack_at m (sp + 4 * length k) l.
Proof.
  intros (H0 & H1 & Hw). rewrite length_app in H1. split; [lia|]. split; [lia|]. intros i x Hx.
  rewrite <- (Hw (length k + i)%nat x); [f_equal; lia|]. rewrite lookup_app_r by lia. by replace (length k + i - length k)%nat with i by lia.
Qed.
Lemma stack_at_head m sp v l : stack_at m sp (v :: l) -> ld32 m sp = v /\ stack_at m (sp + 4) l.
Proof.
  intros H. split; [|exact (stack_at_drop m sp l [v] H)]. destruct H as (_ & _ & Hw). rewrite <- (Hw 0%nat v eq_refl). f_equal. lia.
Qed.
Lemma stack_at_cons m sp l : 0 <= sp -> stack_at m (sp + 4) l -> stack_at m sp (ld32 m sp :: l).
Proof.
  intros Hs (H0 & H1 & Hw). split; [done|]. split; [cbn [length]; lia|]. intros [|i] x Hx; cbn in Hx.
  - injection Hx as <-. f_equal. lia.
  - rewrite <- (Hw i x Hx). f_equal. lia.
Qed.
Lemma stack_at_range m sp l x : stack_at m sp l -> x ∈ l -> 0 <= x < 4294967296.
Proof. intros (_ & _ & Hw) [i Hi]%list_elem_of_lookup. rewrite <- (Hw _ _ Hi). apply ld32_range. Qed.
Lemma stack_at_ext m m' sp l : stack_at m sp l -> (forall b, sp <= b < sp + 4 * length l -> ld8 m' b = ld8 m b) -> stack_at m' sp l.
Proof.
  intros (H0 & H1 & Hw) H. split; [done|]. split; [done|]. intros i x Hx. rewrite <- (Hw _ _ Hx).
  apply lookup_lt_Some in Hx. apply ld32_ext. intros b Hb. apply H. lia.
Qed.

Section code.
#[local] Existing Instance linear.
Context {TL : TssLayout}.
Implicit Types (m : mem).

Lemma linear4 c a : 0 <= a -> a + 4 <= 4294967296 -> maps4 c a a.
Proof. intros H0 H1 i Hi. unfold translate, linear. by rewrite u32_small by lia. Qed.
Lemma load_linear c a : 0 <= a -> a + 4 <= 4294967296 -> load_word a c = Ret c (ld32 (ram c) a) [].
Proof. intros H0 H1. by apply load_word_eq, linear4. Qed.
Lemma store_linear c a v : 0 <= a -> a + 4 <= 4294967296 -> store_word a v c = Ret (set_ram (st32 (ram c) a v) c) tt [].
Proof. intros H0 H1. by apply store_word_eq, linear4. Qed.

Context (ip fl c0 c3 : Z) (gd : Z * Z).
Abbreviation st g sg m := (Cpu g sg ip fl c0 c3 gd m).

Lemma push_eq v a cx d b sp bp si di sg m :
  4 <= sp < 4294967296 ->
  push v (st (Gprs a cx d b sp bp si di) sg m) = Ret (st (Gprs a cx d b (sp - 4) bp si di) sg (st32 m (sp - 4) v)) tt [].
Proof. intros H. unfold push. exec. rewrite (u32_small (sp - 4)) by lia. by rewrite store_linear by lia. Qed.

Lemma pop_eq v l a cx d b sp bp si di sg m :
  stack_at m sp (v :: l) ->
  pop (st (Gprs a cx d b sp bp si di) sg m) = Ret (st (Gprs a cx d b (sp + 4) bp si di) sg m) v [].
Proof.
  intros H. destruct (stack_at_head _ _ _ _ H) as [Hv _]. destruct H as (H0 & H1 & _). cbn [length] in H1.
  unfold pop. exec. run load_linear by lia. exec. cbn [ram]. by rewrite u32_small, Hv by lia.
Qed.
End code.

(** The next [push], with the stack it leaves in [H]; the next [pop]. *)
Ltac kpush H :=
  run push_eq by lia;
  match goal with |- context [st32 ?m ?a ?v] =>
    apply (stacked_push _ _ _ _ _ v) in H; [|lia|lia]; let m1 := fresh "m" in set (m1 := st32 m a v) in *; clearbody m1
  end; exec.
Ltac kpop H :=
  run pop_eq by (exact H);
  apply stack_at_head in H as [_ H]; exec.

Ltac split_Forall :=
  repeat match goal with
    | H : Forall _ (_ :: _) |- _ => let H1 := fresh "R" in apply Forall_cons in H as [H1 H]; cbn beta in H1
    | H : Forall _ [] |- _ => clear H
    end.

Ltac solve_Forall := repeat (apply Forall_cons; split; [lia|]); apply Forall_nil_2.

Lemma u8_low x v : u8 (x - x `mod` 256 + u8 v) = u8 v.
Proof.
  unfold u8. replace (x - x `mod` 256 + v `mod` 256) with (v `mod` 256 + x / 256 * 256)
    by (pose proof (Z.div_mod x 256 ltac:(lia)); lia).
  by rewrite Z.mod_add, Z.mod_mod by lia.
Qed.
Lemma land_65535 x : Z.land x 65535 = u16 x.
Proof. change 65535 with (Z.ones 16). by rewrite Z.land_ones. Qed.

Section handlers.
#[local] Existing Instance linear.
Context {TL : TssLayout}.
Context (ip fl c0 c3 : Z) (gd : Z * Z).
Abbreviation st g sg m := (Cpu g sg ip fl c0 c3 gd m).

Lemma enter_handler_eq a cx d b sp bp si di cs ds es fs gs ss m m0 sp0 n l :
  stacked m0 sp0 m sp (n :: l) -> 64 <= sp ->
  Forall (fun x => 0 <= x < 4294967296) [a; cx; d; b; bp; si; di] -> Forall (fun x => 0 <= x < 65536) [es; fs; gs] ->
  exists a' m', enter_handler (st (Gprs a cx d b sp bp si di) (Segs cs ds es fs gs ss) m) =
      Ret (st (Gprs a' n d b (sp - 52) bp si di) (Segs cs ds KERN_DATA_SELECTOR KERN_DATA_SELECTOR KERN_VGA_SELECTOR ss) m') tt [] /\
    stacked m0 sp0 m' (sp - 52) ([n; b; gs; fs; es; di; si; bp; sp; b; d; cx; a] ++ n :: l).
Proof.
  intros H Hs Hg Hseg. split_Forall.
  pose proof (sk_range _ _ _ _ _ H) as Hr. cbn [length] in Hr. pose proof (stack_at_range _ _ _ n (stacked_at _ _ _ _ _ H) ltac:(by left)) as Hn.
  unfold enter_handler, pushad, push_seg. exec.
  kpush H. kpush H. kpush H. kpush H. kpush H. kpush H. kpush H. kpush H.
  assert (En : ld32 m8 (sp - 4 - 4 - 4 - 4 - 4 - 4 - 4 - 4 + 32) = n)
    by (replace (sp - 4 - 4 - 4 - 4 - 4 - 4 - 4 - 4 + 32) with (sp - 4 - 4 - 4 - 4 - 4 - 4 - 4 - 4 + 4 * 8%nat) by lia;
        by apply (sk_words _ _ _ _ _ H 8%nat)).
  run load_linear by lia. exec. cbn [ram]. rewrite En, (u32_small n) by done.
  rewrite land_65535, u16_low, (u16_small es), (u32_small es) by lia. kpush H.
  rewrite land_65535, u16_low, (u16_small fs), (u32_small fs) by lia. kpush H.
  rewrite land_65535, u16_low, (u16_small gs), (u32_small gs) by lia. kpush H.
  rewrite !u16_low. kpush H. rewrite push_eq by lia. apply (stacked_push _ _ _ _ _ n) in H; [|lia|lia].
  replace (sp - 52) with (sp - 4 - 4 - 4 - 4 - 4 - 4 - 4 - 4 - 4 - 4 - 4 - 4 - 4) by lia.
  eexists _, _. split; [reflexivity|exact H].
Qed.

(** The exit code takes the registers from the stack. *)
Lemma restore_registers_eq a cx d b bp si di cs ds es fs gs ss m sp r0 sg x y z w e rest :
  s_cs sg = cs -> s_ds sg = ds -> s_ss sg = ss ->
  stack_at m sp ([x; y; gs; fs; es; di; si; bp; z; b; d; cx; a; w; e] ++ rest) -> g_esp r0 = sp ->
  restore_registers (st r0 sg m) =
    Ret (st (Gprs a cx d b (sp + 60) bp si di) (Segs cs ds (u16 es) (u16 fs) (u16 gs) ss) m) tt [] /\
  stack_at m (sp + 60) rest.
Proof.
  intros Hc Hd Hs H Hsp. pose proof (fun v => stack_at_range _ _ _ v H) as Hv. pose proof H as (Hr0 & Hr1 & _).
  destruct r0 as [r1 r2 r3 r4 r5 r6 r7 r8], sg as [q1 q2 q3 q4 q5 q6]. cbn in Hc, Hd, Hs, Hsp. subst.
  rewrite length_app in Hr1. cbn [length] in Hr1.
  assert (Hg : Forall (fun v => 0 <= v < 4294967296) [gs; fs; es; di; si; bp; z; b; d; cx; a]).
  { repeat (apply Forall_cons; split; [apply Hv; set_solver|]). apply Forall_nil_2. }
  split_Forall. clear Hv. apply (stack_at_drop _ _ _ [x; y]) in H as H2. cbn [length] in H2.
  unfold restore_registers, pop_seg, popad. exec. rewrite (u32_small (sp + 8)) by lia.
  replace (sp + 4 * 2%nat) with (sp + 8) in H2 by lia.
  cbn [app] in H2. kpop H2. kpop H2. kpop H2. kpop H2. kpop H2. kpop H2. kpop H2. kpop H2. kpop H2. kpop H2. kpop H2.
  unfold modify. cpu_cbn. rewrite !u32_small by lia.
  split; [by replace (sp + 60) with (sp + 8 + 4 + 4 + 4 + 4 + 4 + 4 + 4 + 4 + 4 + 4 + 4 + 8) by lia|].
  apply (stack_at_drop _ _ _ [w; e]) in H2. cbn [length] in H2. by replace (sp + 60) with (sp + 8 + 4 + 4 + 4 + 4 + 4 + 4 + 4 + 4 + 4 + 4 + 4 + 4 * 2%nat) by lia.
Qed.

(** [iret] to the same and to an outer level. *)
Lemma iret_inner a cx d b sp bp si di cs0 ds es fs gs ss m ip' cs fl' rest :
  stack_at m sp ([ip'; cs; fl'] ++ rest) -> 0 <= cs < 65536 -> Z.land cs 3 = Z.land cs0 3 ->
  iret (st (Gprs a cx d b sp bp si di) (Segs cs0 ds es fs gs ss) m) =
    Ret (Cpu (Gprs a cx d b (sp + 12) bp si di) (Segs cs ds es fs gs ss) ip' fl' c0 c3 gd m) tt [Iret].
Proof.
  intros H Hcs Hl. cbn [app] in H. unfold iret. exec. kpop H. kpop H. kpop H.
  rewrite u16_small by lia. rewrite Hl, Z.eqb_refl. exec. unfold emit. by replace (sp + 12) with (sp + 4 + 4 + 4) by lia.
Qed.

Lemma iret_outer a cx d b sp bp si di cs0 ds es fs gs ss0 m ip' cs fl' sp' ss rest :
  stack_at m sp ([ip'; cs; fl'; sp'; ss] ++ rest) -> 0 <= cs < 65536 -> 0 <= ss < 65536 -> Z.land cs 3 <> Z.land cs0 3 ->
  iret (st (Gprs a cx d b sp bp si di) (Segs cs0 ds es fs gs ss0) m) =
    Ret (Cpu (Gprs a cx d b sp' bp si di) (let chk := checked (Z.land cs 3) in Segs cs (chk ds) (chk es) (chk fs) (chk gs) ss)
      ip' fl' c0 c3 gd m) tt [Iret].
Proof.
  intros H Hcs Hss Hl. pose proof (stack_at_range _ _ _ sp' H ltac:(cbn; set_solver)) as Hsp.
  cbn [app] in H. unfold iret. exec. kpop H. kpop H. kpop H.
  rewrite (u16_small cs) by lia. rewrite (proj2 (Z.eqb_neq _ _) Hl). exec. kpop H. kpop H.
  rewrite (u16_small ss), (u32_small sp') by lia. unfold emit. done.
Qed.
End handlers.

(** ** One interrupt *)

(** The processor's part, then the code of the entry [n]. *)
Definition interrupt {T : Translation} {TL : TssLayout} (handler : Z) (err : option Z) (n ra : Z) (route : M cpu unit) : M cpu unit :=
  deliver handler err ;; isr_code n ra route.

(** What a compiled C function keeps, from its entry in [c1], with the return
    address on the stack, to behind its return in [c2]: the registers the
    calling convention names, the segments, and [k] bytes of its caller's stack
    behind its two arguments. *)
Record abi (k : Z) (c1 c2 : cpu) : Prop := {
  ab_ebx : g_ebx (gpr c2) = g_ebx (gpr c1);
  ab_ebp : g_ebp (gpr c2) = g_ebp (gpr c1);
  ab_esi : g_esi (gpr c2) = g_esi (gpr c1);
  ab_edi : g_edi (gpr c2) = g_edi (gpr c1);
  ab_esp : g_esp (gpr c2) = g_esp (gpr c1) + 4;
  ab_eip : x_eip c2 = ld32 (ram c1) (g_esp (gpr c1));
  ab_seg : seg c2 = seg c1;
  ab_stack : forall b, g_esp (gpr c1) + 12 <= b < g_esp (gpr c1) + 12 + k -> ld8 (ram c2) b = ld8 (ram c1) b
}.

(** The call of [int_func_route] for an interrupt [n] of [c]: its arguments, the
    segments of the kernel but for ds, interrupts off, the stack below [top];
    memory is that of [c] but from [top - 64] to [sp0 - 1]. *)
Record at_handler (c : cpu) (n ra top sp0 ss : Z) (c1 : cpu) : Prop := {
  ah_esp : g_esp (gpr c1) = top - 64;
  ah_words : ld32 (ram c1) (top - 64) = ra /\ ld32 (ram c1) (top - 60) = n /\ ld32 (ram c1) (top - 56) = g_ebx (gpr c);
  ah_regs : g_ebx (gpr c1) = g_ebx (gpr c) /\ g_ebp (gpr c1) = g_ebp (gpr c) /\ g_esi (gpr c1) = g_esi (gpr c) /\
    g_edi (gpr c1) = g_edi (gpr c);
  ah_segs : seg c1 = Segs SELECTOR_CODE (s_ds (seg c)) KERN_DATA_SELECTOR KERN_DATA_SELECTOR KERN_VGA_SELECTOR ss;
  ah_flags : x_eflags c1 = clear_if (x_eflags c);
  ah_control : cr0 c1 = cr0 c /\ cr3 c1 = cr3 c /\ gdtr c1 = gdtr c;
  ah_rest : forall b, 0 <= b < 4294967296 -> b < top - 64 \/ sp0 <= b -> ld8 (ram c1) b = ld8 (ram c) b
}.

(** Registers of 32 and selectors of 16 bits. *)
Record widths (c : cpu) : Prop := {
  wd_gpr : Forall (fun x => 0 <= x < 4294967296) [g_eax (gpr c); g_ecx (gpr c); g_edx (gpr c); g_ebx (gpr c); g_esp (gpr c);
    g_ebp (gpr c); g_esi (gpr c); g_edi (gpr c); x_eip c; x_eflags c];
  wd_seg : Forall (fun x => 0 <= x < 65536) [s_cs (seg c); s_ds (seg c); s_es (seg c); s_fs (seg c); s_gs (seg c); s_ss (seg c)]
}.

Section interrupt.
#[local] Existing Instance linear.
Context {TL : TssLayout}.

(** The words from [top - 64] on at the call, below the frame of the processor. *)
Definition saved (ra n v a cx d b top bp si di es fs gs : Z) : list Z :=
  [ra; n; b; gs; fs; es; di; si; bp; top - 8; b; d; cx; a; n; v].

(** From the frame [F] of the processor, and the error code [e] if there is one,
    to the handler. *)
Lemma isr_enter n e ra route F m0 sp0 a cx d b top bp si di ds es fs gs ss ip fl c0 c3 gd m :
  let sp := if decide (n ∈ have_errocode) then top - 4 else top in
  stacked m0 sp0 m sp ((if decide (n ∈ have_errocode) then [e] else []) ++ F) -> 128 <= top ->
  Forall (fun x => 0 <= x < 4294967296) [a; cx; d; b; bp; si; di; n; ra] -> Forall (fun x => 0 <= x < 65536) [es; fs; gs] ->
  exists a1 v m1, stacked m0 sp0 m1 (top - 64) (saved ra n v a cx d b top bp si di es fs gs ++ F) /\
    isr_code n ra route (Cpu (Gprs a cx d b sp bp si di) (Segs SELECTOR_CODE ds es fs gs ss) ip fl c0 c3 gd m) =
      (route ;; leave_handler) (Cpu (Gprs a1 n d b (top - 64) bp si di)
        (Segs SELECTOR_CODE ds KERN_DATA_SELECTOR KERN_DATA_SELECTOR KERN_VGA_SELECTOR ss) ip fl c0 c3 gd m1).
Proof.
  intros sp H Htop Hg Hs. split_Forall. set (c := Cpu _ _ ip fl c0 c3 gd m).
  assert (Hn : exists v m1, (if decide (n ∈ have_errocode) then push n else push 0 ;; push n) c =
      Ret (Cpu (Gprs a cx d b (top - 8) bp si di) (Segs SELECTOR_CODE ds es fs gs ss) ip fl c0 c3 gd m1) tt [] /\
      stacked m0 sp0 m1 (top - 8) (n :: v :: F)).
  { subst sp c. pose proof (sk_range _ _ _ _ _ H) as Hr. rewrite length_app in Hr.
    case_decide; cbn [length app] in *.
    - rewrite push_eq by lia. eexists e, _. replace (top - 8) with (top - 4 - 4) by lia. split; [reflexivity|].
      by apply stacked_push; [lia|lia|].
    - kpush H. rewrite push_eq by lia. eexists 0, _. replace (top - 8) with (top - 4 - 4) by lia. split; [reflexivity|].
      by apply stacked_push; [lia|lia|]. }
  destruct Hn as (v & m1 & E1 & H1). pose proof (sk_range _ _ _ _ _ H1) as Hr. cbn [length] in Hr.
  destruct (enter_handler_eq ip fl c0 c3 gd a cx d b (top - 8) bp si di SELECTOR_CODE ds es fs gs ss m1 m0 sp0 n (v :: F))
    as (a2 & m2 & E2 & H2); [done|lia|solve_Forall|solve_Forall|].
  replace (top - 8 - 52) with (top - 60) in * by lia. exists a2, v, (st32 m2 (top - 64) ra). split.
  - replace (top - 64) with (top - 60 - 4) by lia. by apply stacked_push; [lia|lia|].
  - unfold isr_code, pre_handle, call. rewrite (bind_ret_eq _ _ _ _ _ _ E1), prepend_nil.
    rewrite (bind_ret_eq _ _ _ _ _ _ E2), prepend_nil. rewrite bind_assoc. run push_eq by lia.
    by replace (top - 60 - 4) with (top - 64) by lia.
Qed.

(** The exit code, over the saved words. *)
Lemma leave_handler_eq F a cx d b top bp si di ds es fs gs ss ip fl c0 c3 gd m a4 cx4 d4 es4 fs4 gs4 z n v :
  stack_at m (top - 52) ([gs; fs; es; di; si; bp; z; b; d; cx; a; n; v] ++ F) -> 128 <= top ->
  Forall (fun x => 0 <= x < 65536) [es; fs; gs] ->
  exists m', leave_handler (Cpu (Gprs a4 cx4 d4 b (top - 60) bp si di) (Segs SELECTOR_CODE ds es4 fs4 gs4 ss) ip fl c0 c3 gd m) =
      prepend [Outb 160 32; Outb 32 32]
        (iret (Cpu (Gprs a cx d b top bp si di) (Segs SELECTOR_CODE ds es fs gs ss) ip fl c0 c3 gd m')) /\
    stack_at m' top F /\ forall x, top <= x < 4294967296 -> ld8 m' x = ld8 m x.
Proof.
  intros S4 Htop Hs. split_Forall. pose proof (stack_at_range _ _ _ a S4 ltac:(cbn; do 10 right; left)) as Ha.
  replace (top - 52) with (top - 60 + 4 + 4) in S4 by lia.
  apply stack_at_cons in S4; [|lia]. apply stack_at_cons in S4; [|lia].
  destruct (restore_registers_eq ip fl c0 c3 gd a cx d b bp si di SELECTOR_CODE ds es fs gs ss m (top - 60)
    (Gprs a4 cx4 d4 b (top - 60) bp si di) (Segs SELECTOR_CODE ds es4 fs4 gs4 ss)
    _ _ _ _ _ _ eq_refl eq_refl eq_refl S4 eq_refl) as [E5 S5].
  unfold leave_handler. rewrite (bind_ret_eq _ _ _ _ _ _ E5), prepend_nil. replace (top - 60 + 60) with top in * by lia.
  rewrite (u16_small es), (u16_small fs), (u16_small gs) by lia.
  exec. assert (Htop' : top < 4294967296) by (destruct S5 as (_ & S5 & _); lia). run push_eq by lia. unfold out_al. exec.
  rewrite bind_emit. exec. rewrite bind_emit. exec. rewrite !u8_low. change (u8 32) with 32.
  assert (S6 : stacked m top (st32 m (top - 4) a) (top - 4) (a :: F)) by (apply stacked_push; [lia|lia|]; by apply at_stacked).
  pose proof (sk_rest _ _ _ _ _ S6) as R6'. apply stacked_at in S6. set (m5 := st32 m (top - 4) a) in *. clearbody m5.
  kpop S6. rewrite (u32_small a) by lia. replace (top - 4 + 4) with top in * by lia.
  exists m5. split; [|split; [exact S6|intros x Hx; apply R6'; lia]]. by rewrite prepend_app.
Qed.

(** The two parts around a C function that keeps the calling convention. *)
Lemma isr_return route F a cx d b top bp si di ds es fs gs ss ip fl c0 c3 gd m0 sp0 m1 a1 n v ra c2 t :
  let c1 := Cpu (Gprs a1 n d b (top - 64) bp si di)
    (Segs SELECTOR_CODE ds KERN_DATA_SELECTOR KERN_DATA_SELECTOR KERN_VGA_SELECTOR ss) ip fl c0 c3 gd m1 in
  stacked m0 sp0 m1 (top - 64) (saved ra n v a cx d b top bp si di es fs gs ++ F) -> 128 <= top ->
  Forall (fun x => 0 <= x < 65536) [es; fs; gs] -> route c1 = Ret c2 tt t -> abi (52 + 4 * length F) c1 c2 ->
  exists m', (route ;; leave_handler) c1 = prepend (t ++ [Outb 160 32; Outb 32 32])
      (iret (Cpu (Gprs a cx d b top bp si di) (Segs SELECTOR_CODE ds es fs gs ss) (x_eip c2) (x_eflags c2) (cr0 c2) (cr3 c2)
        (gdtr c2) m')) /\
    stack_at m' top F /\ forall x, top <= x < 4294967296 -> ld8 m' x = ld8 (ram c2) x.
Proof.
  intros c1 H3 Htop Hs Er [Ab1 Ab2 Ab3 Ab4 Ab5 Ab6 Ab7 Ab8]. subst c1.
  destruct c2 as [[a4 cx4 d4 b4 sp4 bp4 si4 di4] sg4 ip4 fl4 c04 c34 gd4 m4].
  cbn [gpr g_ebx g_ebp g_esi g_edi g_esp seg ram x_eip x_eflags cr0 cr3 gdtr] in *. subst b4 bp4 si4 di4 sp4 sg4.
  replace (top - 64 + 4) with (top - 60) in * by lia. replace (top - 64 + 12) with (top - 52) in Ab8 by lia.
  destruct (leave_handler_eq F a cx d b top bp si di ds es fs gs ss ip4 fl4 c04 c34 gd4 m4 a4 cx4 d4 KERN_DATA_SELECTOR
    KERN_DATA_SELECTOR KERN_VGA_SELECTOR (top - 8) n v) as (m' & E & S' & R'); [|done|done|].
  - apply (stack_at_ext m1).
    + unfold saved in H3. apply stacked_at, (stack_at_drop _ _ _ [ra; n; b]) in H3. cbn [length] in H3.
      by replace (top - 64 + 4 * 3%nat) with (top - 52) in H3 by lia.
    + intros x Hx. apply Ab8. rewrite length_app in Hx. cbn [length] in Hx. lia.
  - exists m'. split; [|by split]. rewrite (bind_ret_eq _ _ _ _ _ _ Er), E. by rewrite prepend_app.
Qed.

(** The error code the processor gives, as in its manual. *)
Definition error_ok (n : Z) (err : option Z) : Prop :=
  match err with Some e => 0 <= e < 4294967296 /\ n ∈ have_errocode | None => n ∉ have_errocode end.
Definition errs (n : Z) (err : option Z) : list Z := if decide (n ∈ have_errocode) then [default 0 err] else [].

(** The processor pushes its frame [F] and the code. *)
Lemma push_frame handler err n fl0 ip0 cs0 a cx d b sp bp si di sg ip fl c0 c3 gd m m0 sp0 rest :
  stacked m0 sp0 m sp rest -> 128 <= sp -> error_ok n err -> 0 <= fl0 < 4294967296 -> 0 <= cs0 < 65536 -> 0 <= ip0 < 4294967296 ->
  let sp' := if decide (n ∈ have_errocode) then sp - 12 - 4 else sp - 12 in
  exists m', (push fl0 ;; push cs0 ;; push ip0 ;; (match err with Some e => push e | None => ret tt end) ;;
      mov_seg CS SELECTOR_CODE ;; modify (set_ip handler) ;; modify (set_flags (clear_if fl0)))
        (Cpu (Gprs a cx d b sp bp si di) sg ip fl c0 c3 gd m) =
      Ret (Cpu (Gprs a cx d b sp' bp si di) (swr CS SELECTOR_CODE sg) handler (clear_if fl0) c0 c3 gd m') tt [] /\
    stacked m0 sp0 m' sp' (errs n err ++ [ip0; cs0; fl0] ++ rest).
Proof.
  intros H Hsp He Hfl Hcs Hip. pose proof (sk_range _ _ _ _ _ H) as Hr. unfold errs. destruct sg as [q1 q2 q3 q4 q5 q6].
  kpush H. kpush H. kpush H. replace (sp - 4 - 4 - 4) with (sp - 12) in * by lia. destruct err as [e|]; cbn [error_ok] in He.
  - destruct He as [He Hn]. rewrite !decide_True by done. kpush H. unfold modify. cpu_cbn.
    change (u16 SELECTOR_CODE) with SELECTOR_CODE. eexists. split; [reflexivity|exact H].
  - rewrite !decide_False by done. exec. unfold modify. cpu_cbn. change (u16 SELECTOR_CODE) with SELECTOR_CODE.
    eexists. split; [reflexivity|exact H].
Qed.

(** *** Interrupts of the kernel *)

Definition top_inner (c : cpu) : Z := g_esp (gpr c) - 12.

Lemma interrupt_enters c handler err n ra route :
  widths c -> Z.land (s_cs (seg c)) 3 = 0 -> 256 <= g_esp (gpr c) -> error_ok n err -> 0 <= n < 256 -> 0 <= ra < 4294967296 ->
  exists a1 v m1, let g := gpr c in let s := seg c in
    let c1 := Cpu (Gprs a1 n (g_edx g) (g_ebx g) (top_inner c - 64) (g_ebp g) (g_esi g) (g_edi g))
      (Segs SELECTOR_CODE (s_ds s) KERN_DATA_SELECTOR KERN_DATA_SELECTOR KERN_VGA_SELECTOR (s_ss s)) handler
      (clear_if (x_eflags c)) (cr0 c) (cr3 c) (gdtr c) m1 in
    interrupt handler err n ra route c = (route ;; leave_handler) c1 /\
    stacked (ram c) (g_esp g) m1 (top_inner c - 64)
      (saved ra n v (g_eax g) (g_ecx g) (g_edx g) (g_ebx g) (top_inner c) (g_ebp g) (g_esi g) (g_edi g) (s_es s) (s_fs s) (s_gs s) ++
        [x_eip c; s_cs s; x_eflags c]).
Proof.
  destruct c as [[a cx d b sp bp si di] [cs ds es fs gs ss] ip fl c0 c3 gd m]. intros [Hg Hs] Hl Hsp He Hn Hra.
  unfold top_inner. cbn [gpr seg ram x_eip x_eflags cr0 cr3 gdtr g_eax g_ecx g_edx g_ebx g_esp g_ebp g_esi g_edi s_cs s_ds s_es s_fs s_gs s_ss] in *.
  split_Forall.
  destruct (push_frame handler err n fl ip cs a cx d b sp bp si di (Segs cs ds es fs gs ss) ip fl c0 c3 gd m m sp [])
    as (m' & E & H); [split; [cbn [length]; lia|done|done]|lia|done|lia|lia|lia|].
  set (c := Cpu _ _ ip fl c0 c3 gd m) in *. cbn [swr s_cs s_ds s_es s_fs s_gs s_ss] in E.
  assert (E0 : deliver handler err c = _) by (unfold c, deliver; exec; rewrite Hl; cbn [Z.eqb]; rewrite bind_ret; exact E).
  destruct (isr_enter n (default 0 err) ra route [ip; cs; fl] m sp a cx d b (sp - 12) bp si di ds es fs gs ss handler (clear_if fl)
    c0 c3 gd m') as (a1 & v & m1 & S1 & E1); [exact H|lia|solve_Forall|solve_Forall|].
  exists a1, v, m1. split; [|exact S1]. unfold interrupt. rewrite (bind_ret_eq _ _ _ _ _ _ E0), prepend_nil. exact E1.
Qed.

(** The state at the call, read off the saved words. *)
Lemma saved_at_handler c m1 a1 v n ra top sp0 ss handler F :
  let g := gpr c in let s := seg c in
  stacked (ram c) sp0 m1 (top - 64)
    (saved ra n v (g_eax g) (g_ecx g) (g_edx g) (g_ebx g) top (g_ebp g) (g_esi g) (g_edi g) (s_es s) (s_fs s) (s_gs s) ++ F) ->
  at_handler c n ra top sp0 ss (Cpu (Gprs a1 n (g_edx g) (g_ebx g) (top - 64) (g_ebp g) (g_esi g) (g_edi g))
    (Segs SELECTOR_CODE (s_ds s) KERN_DATA_SELECTOR KERN_DATA_SELECTOR KERN_VGA_SELECTOR ss) handler
    (clear_if (x_eflags c)) (cr0 c) (cr3 c) (gdtr c) m1).
Proof.
  intros g s [Hr Hw Hb]. split; cpu_cbn; try done.
  pose proof (Hw 0%nat ra eq_refl) as W0. pose proof (Hw 1%nat n eq_refl) as W1. pose proof (Hw 2%nat (g_ebx g) eq_refl) as W2.
  replace (top - 64 + 4 * 0%nat) with (top - 64) in W0 by lia. replace (top - 64 + 4 * 1%nat) with (top - 60) in W1 by lia.
  replace (top - 64 + 4 * 2%nat) with (top - 56) in W2 by lia. done.
Qed.

(** An interrupt in the kernel. *)
Lemma kernel_interrupt_eq c handler err n ra route :
  widths c -> Z.land (s_cs (seg c)) 3 = 0 -> 256 <= g_esp (gpr c) -> error_ok n err -> 0 <= n < 256 -> 0 <= ra < 4294967296 ->
  (forall c1, at_handler c n ra (top_inner c) (g_esp (gpr c)) (s_ss (seg c)) c1 -> exists c2 t, route c1 = Ret c2 tt t /\ abi 64 c1 c2) ->
  exists c1 c2 t m', at_handler c n ra (top_inner c) (g_esp (gpr c)) (s_ss (seg c)) c1 /\ route c1 = Ret c2 tt t /\
    interrupt handler err n ra route c =
      Ret (Cpu (gpr c) (seg c) (x_eip c) (x_eflags c) (cr0 c2) (cr3 c2) (gdtr c2) m') tt (t ++ [Outb 160 32; Outb 32 32; Iret]) /\
    forall b, g_esp (gpr c) <= b < 4294967296 -> ld8 m' b = ld8 (ram c2) b.
Proof.
  intros Hw Hl Hsp He Hn Hra Hroute.
  destruct (interrupt_enters c handler err n ra route Hw Hl Hsp He Hn Hra) as (a1 & v & m1 & E & S1). cbv zeta in E.
  pose proof (saved_at_handler c m1 a1 v n ra (top_inner c) _ (s_ss (seg c)) handler _ S1) as HA. set (c1 := Cpu _ _ handler _ _ _ _ m1) in *.
  destruct (Hroute c1 HA) as (c2 & t & Er & Hab). exists c1, c2, t. destruct Hw as [Hg Hs]. split_Forall. unfold top_inner in *.
  destruct (isr_return route [x_eip c; s_cs (seg c); x_eflags c] (g_eax (gpr c)) (g_ecx (gpr c)) (g_edx (gpr c)) (g_ebx (gpr c))
    (g_esp (gpr c) - 12) (g_ebp (gpr c)) (g_esi (gpr c)) (g_edi (gpr c)) (s_ds (seg c)) (s_es (seg c)) (s_fs (seg c)) (s_gs (seg c))
    (s_ss (seg c)) handler (clear_if (x_eflags c)) (cr0 c) (cr3 c) (gdtr c) (ram c) (g_esp (gpr c)) m1 a1 n v ra c2 t)
    as (m' & E' & S' & R'); [exact S1|lia|solve_Forall|exact Er|exact Hab|].
  exists m'. split; [exact HA|]. split; [exact Er|]. split.
  - rewrite E. etrans; [exact E'|].
    rewrite iret_inner with (ip' := x_eip c) (cs := s_cs (seg c)) (fl' := x_eflags c) (rest := []); [|exact S'|lia|exact Hl].
    replace (g_esp (gpr c) - 12 + 12) with (g_esp (gpr c)) by lia. cbn [prepend]. rewrite <- app_assoc.
    destruct c as [[] [] ? ? ? ? ? ?]. reflexivity.
  - intros x Hx. apply R'. lia.
Qed.

(** C6: Interrupts are transparent.  In the kernel, an interrupt or exception [n]
    calls [int_func_route] with its number and with the kernel's segments, whether
    the processor pushed an error code or not; and when that function returns
    as a compiled function does, the interrupted code goes on with all its
    registers, segments, flags and its program counter as they were, with the
    memory the handler left, after an end-of-interrupt command to both
    controllers. *)
Theorem interrupt_transparent c handler err n ra route :
  widths c -> Z.land (s_cs (seg c)) 3 = 0 -> 256 <= g_esp (gpr c) -> error_ok n err -> 0 <= n < 256 -> 0 <= ra < 4294967296 ->
  (forall c1, at_handler c n ra (top_inner c) (g_esp (gpr c)) (s_ss (seg c)) c1 -> exists c2 t, route c1 = Ret c2 tt t /\ abi 64 c1 c2) ->
  exists c1 c2 t m', at_handler c n ra (top_inner c) (g_esp (gpr c)) (s_ss (seg c)) c1 /\ route c1 = Ret c2 tt t /\
    interrupt handler err n ra route c =
      Ret (Cpu (gpr c) (seg c) (x_eip c) (x_eflags c) (cr0 c2) (cr3 c2) (gdtr c2) m') tt (t ++ [Outb 160 32; Outb 32 32; Iret]) /\
    forall b, g_esp (gpr c) <= b < 4294967296 -> ld8 m' b = ld8 (ram c2) b.
Proof. exact (kernel_interrupt_eq c handler err n ra route). Qed.

(** *** Interrupts of user tasks *)

(** The stack of the task state segment, and the frame on it. *)
Definition tss_esp (c : cpu) : Z := ld32 (ram c) (tss_cpu0 + esp0_off).
Definition tss_ss (c : cpu) : Z := u16 (ld32 (ram c) (tss_cpu0 + ss0_off)).
Definition top_outer (c : cpu) : Z := tss_esp c - 20.
Definition user_frame (c : cpu) : list Z := [x_eip c; s_cs (seg c); x_eflags c; g_esp (gpr c); s_ss (seg c)].

Record user_level (c : cpu) : Prop := {
  ul_widths : widths c;
  ul_cs : Z.land (s_cs (seg c)) 3 = 3;
  ul_tss : 0 <= tss_cpu0 /\ tss_cpu0 + 12 <= 4294967296;
  ul_stack : 256 <= tss_esp c
}.

Lemma user_interrupt_enters c handler err n ra route :
  user_level c -> error_ok n err -> 0 <= n < 256 -> 0 <= ra < 4294967296 ->
  exists a1 v m1, let g := gpr c in let s := seg c in
    let c1 := Cpu (Gprs a1 n (g_edx g) (g_ebx g) (top_outer c - 64) (g_ebp g) (g_esi g) (g_edi g))
      (Segs SELECTOR_CODE (s_ds s) KERN_DATA_SELECTOR KERN_DATA_SELECTOR KERN_VGA_SELECTOR (tss_ss c)) handler
      (clear_if (x_eflags c)) (cr0 c) (cr3 c) (gdtr c) m1 in
    interrupt handler err n ra route c = (route ;; leave_handler) c1 /\
    stacked (ram c) (tss_esp c) m1 (top_outer c - 64)
      (saved ra n v (g_eax g) (g_ecx g) (g_edx g) (g_ebx g) (top_outer c) (g_ebp g) (g_esi g) (g_edi g) (s_es s) (s_fs s) (s_gs s) ++
        user_frame c).
Proof.
  destruct c as [[a cx d b sp bp si di] [cs ds es fs gs ss] ip fl c0 c3 gd m]. intros [[Hg Hs] Hl [Ht0 Ht1] Hsp] He Hn Hra.
  unfold top_outer, tss_esp, tss_ss, user_frame in *. unfold esp0_off, ss0_off in *.
  cbn [gpr seg ram x_eip x_eflags cr0 cr3 gdtr g_eax g_ecx g_edx g_ebx g_esp g_ebp g_esi g_edi s_cs s_ds s_es s_fs s_gs s_ss] in *.
  split_Forall. pose proof (ld32_range m (tss_cpu0 + 4)) as Hk. set (kp := ld32 m (tss_cpu0 + 4)) in *.
  assert (H0 : stacked m kp m kp []) by (split; [cbn [length]; lia|done|done]).
  apply (stacked_push _ _ _ _ _ ss) in H0; [|lia|lia]. apply (stacked_push _ _ _ _ _ sp) in H0; [|lia|lia].
  destruct (push_frame handler err n fl ip cs a cx d b (kp - 4 - 4) bp si di (Segs cs ds es fs gs (u16 (ld32 m (tss_cpu0 + 8)))) ip fl c0 c3 gd
    (st32 (st32 m (kp - 4) ss) (kp - 4 - 4) sp) m kp [sp; ss])
    as (m' & E & H); [done|lia|done|lia|lia|lia|].
  set (c := Cpu _ _ ip fl c0 c3 gd m) in *. cbn [swr s_cs s_ds s_es s_fs s_gs s_ss] in E.
  match type of E with _ = ?r => assert (E0 : deliver handler err c = r) end.
  { unfold c, deliver. exec. rewrite Hl. cbn [Z.eqb]. unfold esp0_off, ss0_off. rewrite ?bind_assoc.
    run load_linear by lia. rewrite ?bind_assoc. run load_linear by lia. exec. cbn [ram]. fold kp. rewrite (u32_small kp) by lia.
    run push_eq by lia. run push_eq by lia. exact E. }
  replace (kp - 4 - 4 - 12) with (kp - 20) in * by lia.
  destruct (isr_enter n (default 0 err) ra route [ip; cs; fl; sp; ss] m kp a cx d b (kp - 20) bp si di ds es fs gs
    (u16 (ld32 m (tss_cpu0 + 8))) handler (clear_if fl) c0 c3 gd m') as (a1 & v & m1 & S1 & E1); [exact H|lia|solve_Forall|solve_Forall|].
  exists a1, v, m1. split; [|exact S1]. unfold interrupt. rewrite (bind_ret_eq _ _ _ _ _ _ E0), prepend_nil. exact E1.
Qed.

(** The data segments a return to level 3 leaves. *)
Definition user_segs (s : segs) : segs :=
  Segs (s_cs s) (checked 3 (s_ds s)) (checked 3 (s_es s)) (checked 3 (s_fs s)) (checked 3 (s_gs s)) (s_ss s).

Lemma user_interrupt_cases c handler err n ra route :
  user_level c -> error_ok n err -> 0 <= n < 256 -> 0 <= ra < 4294967296 ->
  (forall c1, at_handler c n ra (top_outer c) (tss_esp c) (tss_ss c) c1 -> exists c2 t, route c1 = Ret c2 tt t /\ abi 72 c1 c2) ->
  exists c1 c2 t m', at_handler c n ra (top_outer c) (tss_esp c) (tss_ss c) c1 /\ route c1 = Ret c2 tt t /\
    interrupt handler err n ra route c =
      Ret (Cpu (gpr c) (user_segs (seg c)) (x_eip c) (x_eflags c) (cr0 c2) (cr3 c2) (gdtr c2) m') tt
        (t ++ [Outb 160 32; Outb 32 32; Iret]) /\
    forall b, tss_esp c <= b < 4294967296 -> ld8 m' b = ld8 (ram c2) b.
Proof.
  intros Hu He Hn Hra Hroute. destruct (user_interrupt_enters c handler err n ra route Hu He Hn Hra) as (a1 & v & m1 & E & S1). cbv zeta in E.
  destruct Hu as [[Hg Hs] Hl Ht Hsp].
  pose proof (saved_at_handler c m1 a1 v n ra (top_outer c) _ (tss_ss c) handler _ S1) as HA. set (c1 := Cpu _ _ handler _ _ _ _ m1) in *.
  destruct (Hroute c1 HA) as (c2 & t & Er & Hab). exists c1, c2, t. split_Forall. unfold top_outer in *.
  destruct (isr_return route (user_frame c) (g_eax (gpr c)) (g_ecx (gpr c)) (g_edx (gpr c)) (g_ebx (gpr c))
    (tss_esp c - 20) (g_ebp (gpr c)) (g_esi (gpr c)) (g_edi (gpr c)) (s_ds (seg c)) (s_es (seg c)) (s_fs (seg c)) (s_gs (seg c))
    (tss_ss c) handler (clear_if (x_eflags c)) (cr0 c) (cr3 c) (gdtr c) (ram c) (tss_esp c) m1 a1 n v ra c2 t)
    as (m' & E' & S' & R'); [exact S1|lia|solve_Forall|exact Er|exact Hab|].
  exists m'. split; [exact HA|]. split; [exact Er|]. split.
  - rewrite E. etrans; [exact E'|].
    rewrite iret_outer with (ip' := x_eip c) (cs := s_cs (seg c)) (fl' := x_eflags c) (sp' := g_esp (gpr c)) (ss := s_ss (seg c))
      (rest := []); [|exact S'|lia|lia|by rewrite Hl].
    rewrite Hl. cbv zeta. cbn [prepend]. rewrite <- app_assoc.
    destruct c as [[] [] ? ? ? ? ? ?]. reflexivity.
  - intros x Hx. apply R'. lia.
Qed.

(** An interrupt of a user task runs on the stack of the task state segment,
    and the task goes on with its registers, its stack and its flags.  Its data
    segments come back unless the level may not use them; while the handler
    runs, es, fs and gs are the kernel's but ds is still the task's. *)
Lemma user_interrupt_transparent c handler err n ra route :
  user_level c -> error_ok n err -> 0 <= n < 256 -> 0 <= ra < 4294967296 ->
  Forall (fun s => s / 4 = 0 \/ dpl_of s = 3) [s_ds (seg c); s_es (seg c); s_fs (seg c); s_gs (seg c)] ->
  (forall c1, at_handler c n ra (top_outer c) (tss_esp c) (tss_ss c) c1 -> exists c2 t, route c1 = Ret c2 tt t /\ abi 72 c1 c2) ->
  exists c1 c2 t m', at_handler c n ra (top_outer c) (tss_esp c) (tss_ss c) c1 /\ route c1 = Ret c2 tt t /\
    interrupt handler err n ra route c =
      Ret (Cpu (gpr c) (seg c) (x_eip c) (x_eflags c) (cr0 c2) (cr3 c2) (gdtr c2) m') tt (t ++ [Outb 160 32; Outb 32 32; Iret]).
Proof.
  intros Hu He Hn Hra Hd Hroute.
  destruct (user_interrupt_cases c handler err n ra route Hu He Hn Hra Hroute) as (c1 & c2 & t & m' & HA & Er & E & _).
  exists c1, c2, t, m'. split; [done|]. split; [done|]. rewrite E. split_Forall.
  assert (K : forall s, s / 4 = 0 \/ dpl_of s = 3 -> checked 3 s = s).
  { intros s [H|H]; unfold checked; [by rewrite H|]. rewrite H. by destruct (s / 4 =? 0). }
  unfold user_segs. rewrite !K by done. by destruct (seg c).
Qed.
End interrupt.

(** ** A concrete interrupt: a handler that uses the registers it may use *)

Module Small.
#[local] Existing Instance linear.
Definition tss : TssLayout := Build_TssLayout 4096 8192.
#[local] Existing Instance tss.
(** It changes eax, ecx and edx, and a word of the memory. *)
Definition route : M cpu unit := fun c =>
  let g := gpr c in
  Ret (Cpu (Gprs 1 2 3 (g_ebx g) (g_esp g + 4) (g_ebp g) (g_esi g) (g_edi g)) (seg c) (ld32 (ram c) (g_esp g)) (x_eflags c)
    (cr0 c) (cr3 c) (gdtr c) (st32 (ram c) 12288 7)) tt [Inb 96].
Definition kernel_cpu : cpu := Cpu (Gprs 10 11 12 13 65536 15 16 17) (Segs 8 16 16 16 24 16) 1000 518 0 0 (0, 0) ∅.
Definition user_cpu : cpu :=
  Cpu (Gprs 10 11 12 13 65536 15 16 17) (Segs 35 43 43 43 0 43) 1000 518 0 0 (0, 0) (st32 (st32 ∅ 8196 32768) 8200 16).

Lemma route_abi k c1 : 16384 <= g_esp (gpr c1) -> g_esp (gpr c1) + 12 + k <= 4294967296 ->
  exists c2 t, route c1 = Ret c2 tt t /\ abi k c1 c2.
Proof.
  intros H H1. eexists _, _. split; [reflexivity|]. split; cpu_cbn; try done.
  intros b Hb. apply ld8_st32_out; lia.
Qed.

Lemma kernel_cpu_widths : widths kernel_cpu.
Proof. split; cbn; solve_Forall. Qed.
Lemma user_cpu_ok : user_level user_cpu.
Proof. split; [split; cbn; solve_Forall|done|cbn; lia|by vm_compute]. Qed.
End Small.

Lemma interrupt_transparent_witness :
  exists m', @interrupt linear Small.tss 5000 None 33 6000 Small.route Small.kernel_cpu =
    Ret (Cpu (gpr Small.kernel_cpu) (seg Small.kernel_cpu) 1000 518 0 0 (0, 0) m') tt [Inb 96; Outb 160 32; Outb 32 32; Iret].
Proof.
  destruct (interrupt_transparent (TL := Small.tss) Small.kernel_cpu 5000 None 33 6000 Small.route Small.kernel_cpu_widths eq_refl)
    as (c1 & c2 & t & m' & HA & Er & E & _); [cbn; lia|unfold error_ok, have_errocode; set_solver|lia|lia| |].
  - intros c1 HA. apply Small.route_abi; rewrite (ah_esp _ _ _ _ _ _ _ HA); unfold top_inner; cbn; lia.
  - injection Er as <- <-. exists m'. rewrite E. destruct (ah_control _ _ _ _ _ _ _ HA) as (H1 & H2 & H3). cpu_cbn.
    by rewrite H1, H2, H3.
Defined.

Lemma user_interrupt_transparent_witness :
  exists m', @interrupt linear Small.tss 5000 (Some 4) 14 6000 Small.route Small.user_cpu =
    Ret (Cpu (gpr Small.user_cpu) (seg Small.user_cpu) 1000 518 0 0 (0, 0) m') tt [Inb 96; Outb 160 32; Outb 32 32; Iret].
Proof.
  destruct (user_interrupt_transparent (TL := Small.tss) Small.user_cpu 5000 (Some 4) 14 6000 Small.route Small.user_cpu_ok)
    as (c1 & c2 & t & m' & HA & Er & E); [unfold error_ok, have_errocode; split; [lia|set_solver]|lia|lia| | |].
  - cbn. repeat (apply Forall_cons; split; [by (left; done) || (right; vm_compute; done)|]). apply Forall_nil_2.
  - intros c1 HA. assert (T : top_outer (TL := Small.tss) Small.user_cpu = 32748) by (by vm_compute).
    apply Small.route_abi; rewrite (ah_esp _ _ _ _ _ _ _ HA), T; lia.
  - injection Er as <- <-. exists m'. rewrite E. destruct (ah_control _ _ _ _ _ _ _ HA) as (H1 & H2 & H3). cpu_cbn.
    by rewrite H1, H2, H3.
Defined.
