(* ===== verification/UserVm.v ===== *)
(** * kernel/modules/user_task/user_task.c: the address space of a task

    The page pool and the page directory of a user task, and [active_task],
    which loads the directory of the task the scheduler switches to.  The rest
    of the file, which creates and starts tasks, is in [UserTask]. *)

From S2P Require Import Prelude Memory CString Bitmap KernLog Pmm PageTable Tcb Vmm Tss.

Definition LOG_SRC_USER_TASK : string := "USER_TASK".
Definition USER_TASK_INIT_ERRO : Z := 4294967295.
Definition val_4KB : Z := 4096.

Section code.
Context {P : Type} {PA : PageAllocator P} {L : VmmLayout} {TL : TssLayout}.

(** [for(int item=0;item<23;item++)], broken off by a failure: the value of
    [alloc_flag]. *)
Fixpoint alloc_pages_loop (n : nat) (addr_for : Z) : M (vmm P) bool :=
  match n with
  | O => ret true
  | S n' =>
      r <- vmm_kern_alloc_one_page addr_for ;;
      if r =? KERN_VMM_ALLOC_ERRO then ret false
      else alloc_pages_loop n' (u32 (addr_for + val_4KB))
  end.

Definition create_user_task_bitmap : M (vmm P) bitmap :=
  vm_head <- vmm_kern_alloc ;;
  if vm_head =? KERN_VMM_ALLOC_ERRO then emit (Printk "[ERRO]:user_task.c/0" []) ;; stop
  else
    alloc_flag <- alloc_pages_loop 23 (u32 (vm_head + val_4KB)) ;;
    if negb alloc_flag then emit (Printk "[ERRO]:user_task.c/1" []) ;; stop
    else
      let re_bitmap := Build_bitmap vm_head 98304 0 in
      on_mem (bitmap_init_mem re_bitmap) ;;
      ret re_bitmap.

Fixpoint release_pages_loop (n : nat) (vm : Z) : M (vmm P) unit :=
  match n with
  | O => ret tt
  | S n' => vmm_kern_release_one_page vm ;; release_pages_loop n' (u32 (vm + val_4KB))
  end.

Definition release_user_task_bitmap (bm : bitmap) : M (vmm P) unit :=
  release_pages_loop 24 (vaddr_header bm).

Definition pdt_mapping_helper (pdt_vaddr : Z) : M (vmm P) unit :=
  on_mem (memcpy (u32 (pdt_vaddr + 3072)) (get_pde 3221225472) 1024).

Definition mapping_last_pde (last_pte_vaddr pdt_paddr : Z) : M (vmm P) unit :=
  on_mem (store32 last_pte_vaddr
    (u32 (page_mask pdt_paddr + PAGE_DESC_RW_W + PAGE_DESC_US_S + PAGE_DESC_G + PAGE_DESC_P))).

Definition create_user_task_pdt : M (vmm P) Z :=
  pdt_vaddr <- vmm_kern_alloc ;;
  if pdt_vaddr =? KERN_VMM_ALLOC_ERRO then ret USER_TASK_INIT_ERRO
  else
    on_mem (memset pdt_vaddr 0 4096) ;;
    pdt_mapping_helper pdt_vaddr ;;
    paddr <- vmm_v2p pdt_vaddr ;;
    mapping_last_pde (u32 (pdt_vaddr + 4096 - 4)) paddr ;;
    ret pdt_vaddr.

(** Empty in the source: the page tables of a task are not given back. *)
Definition pt_release_helper (pdt_vaddr : Z) : M (vmm P) unit := ret tt.

Definition release_user_task_pdt (pdt_vaddr : Z) : M (vmm P) unit :=
  pt_release_helper pdt_vaddr ;;
  vmm_kern_release_one_page pdt_vaddr.

Definition active_pdt (pdt_paddr : Z) : M (vmm P) unit := emit (Load_cr3 pdt_paddr).
Definition active_kern_pdt : M (vmm P) unit := active_pdt kern_dir_table_paddr.
Definition active_user_pdt (pdt_paddr : Z) : M (vmm P) unit := active_pdt pdt_paddr.

(** The pointer to the control block, and the block. *)
Definition active_task (tcb_ptr : Z) (tcb : TCB_t) : M (vmm P) unit :=
  if negb (is_kern_thread tcb =? 0) then active_kern_pdt
  else
    user_task_pdt_paddr <- vmm_v2p (pdt_vaddr tcb) ;;
    if user_task_pdt_paddr =? V2P_ERROR then stop_kern LOG_SRC_USER_TASK "V2P Error!STOP!"
    else
      active_user_pdt user_task_pdt_paddr ;;
      on_mem (tss_update tcb_ptr tcb).

End code.
