(* ===== verification/Threads.v ===== *)
(** * kernel/modules/threads/threads.c and threads_asm.s: the scheduler

    Control blocks are objects in a store of their own, [tcbs], named by their
    addresses; the rest of a block's pages, the kernel stack, is in the linear
    memory.  The registers [switch_to] saves and the place control goes to are
    part of the state: [regs] is what the processor holds when a function of
    this file is called, [eip] where the last [ret] of [switch_to] went.

    A call of [schedule] that switches does not return to its caller before
    another thread switches back.  The model ends at the switch: [schedule]
    gives [true] when it switched away and [false] when it returned, and what
    the caller does after it is modelled as a function of its own
    ([Sync.resume]). *)

From S2P Require Import Prelude Memory CString Bitmap KernLog Pmm PageTable Tcb Vmm Tss UserVm.

Definition TIME_CONT : Z := 10.
Definition LOG_SRC_THREADS : string := "THREADS".

(** The addresses of main_TCB and of [exit], and what the bytes of a page that
    never held a control block read as. *)
Class ThreadLayout := {
  main_TCB : Z;
  exit_addr : Z;
  raw_TCB : Z -> TCB_t
}.

Record kern (P : Type) := Build_kern {
  k_vmm : vmm P;
  tcbs : gmap Z TCB_t;
  cur_tcb : Z;
  regs : context_t;
  eip : Z
}.
Arguments Build_kern {P} k_vmm tcbs cur_tcb regs eip.
Arguments k_vmm {P} k.
Arguments tcbs {P} k.
Arguments cur_tcb {P} k.
Arguments regs {P} k.
Arguments eip {P} k.

Definition set_vmm {P} (v : vmm P) (s : kern P) : kern P :=
  Build_kern v (tcbs s) (cur_tcb s) (regs s) (eip s).
Definition set_tcbs {P} (f : gmap Z TCB_t -> gmap Z TCB_t) (s : kern P) : kern P :=
  Build_kern (k_vmm s) (f (tcbs s)) (cur_tcb s) (regs s) (eip s).
Definition set_cur {P} (a : Z) (s : kern P) : kern P :=
  Build_kern (k_vmm s) (tcbs s) a (regs s) (eip s).
Definition set_regs {P} (r : context_t) (s : kern P) : kern P :=
  Build_kern (k_vmm s) (tcbs s) (cur_tcb s) r (eip s).
Definition set_eip {P} (a : Z) (s : kern P) : kern P :=
  Build_kern (k_vmm s) (tcbs s) (cur_tcb s) (regs s) a.

Definition with_eflags (v : Z) (r : context_t) : context_t :=
  Build_context_t (ebp r) (ebx r) (ecx r) (edx r) (esi r) (edi r) v (esp r).
Definition with_esp (v : Z) (r : context_t) : context_t :=
  Build_context_t (ebp r) (ebx r) (ecx r) (edx r) (esi r) (edi r) (eflags r) v.

Section code.
Context {P : Type} {PA : PageAllocator P} {L : VmmLayout} {TL : TssLayout} {HL : ThreadLayout}.

Definition in_vmm {A} (c : M (vmm P) A) : M (kern P) A := zoom k_vmm set_vmm c.
Definition in_mem {A} (c : M mem A) : M (kern P) A := in_vmm (on_mem c).

Definition get_tcb (a : Z) : M (kern P) TCB_t :=
  fun s => match tcbs s !! a with Some t => Ret s t [] | None => Undef end.
Definition upd_tcb (a : Z) (f : TCB_t -> TCB_t) : M (kern P) unit :=
  get_tcb a ;; modify (set_tcbs (alter f a)).

(** ** interrupt.c: the interrupt flag, bit 9 of EFLAGS *)

Definition cli : M (kern P) unit :=
  modify (fun s => set_regs (with_eflags (Z.land (eflags (regs s)) 4294966783) (regs s)) s) ;; emit Cli.
Definition sti : M (kern P) unit :=
  modify (fun s => set_regs (with_eflags (Z.lor (eflags (regs s)) 512) (regs s)) s) ;; emit Sti.

Definition get_int_flag : M (kern P) bool :=
  r <- gets regs ;; ret (Z.land (Z.shiftr (eflags r) 9) 1 =? 1).

Definition cli_condition : M (kern P) bool :=
  f <- get_int_flag ;;
  if (f : bool) then cli ;; ret true else ret false.

Definition sti_condition (condition : bool) : M (kern P) unit :=
  if condition then sti else cli.

(** ** Creation *)

Definition get_running_progress : M (kern P) Z := gets cur_tcb.

Definition check_kern_stack_overflow (t : TCB_t) : bool := tcb_magic_number t =? TCB_MAGIC_NUMBER.

Definition kern_overflow_handler {A} : M (kern P) A :=
  stop_kern LOG_SRC_THREADS "Thread Kern Stack Overflow!STOP!".

(** The fields [_init_main_thread] and [create_TCB] assign; the others keep
    what the memory held. *)
Definition main_fields (self : Z) (t : TCB_t) : TCB_t :=
  Build_TCB_t 0 TASK_RUNNING 0 TIME_CONT self 0 0 0 1 (user_vmm_pool t) (pdt_vaddr t) (context t)
    TCB_MAGIC_NUMBER.
Definition create_fields (id page_addr count : Z) (t : TCB_t) : TCB_t :=
  Build_TCB_t (u32 (page_addr + u32 (count * PAGE_SIZE))) TASK_READY 0 TIME_CONT (next_tcb t) id count page_addr
    (is_kern_thread t) (user_vmm_pool t) (pdt_vaddr t) (context t) TCB_MAGIC_NUMBER.

Definition at_address (a : Z) (f : TCB_t -> TCB_t) : M (kern P) unit :=
  modify (set_tcbs (fun m => <[a := f (default (raw_TCB a) (m !! a))]> m)).

Definition init_main_thread (main_tcb : Z) : M (kern P) unit := at_address main_tcb (main_fields main_tcb).

Definition threads_init : M (kern P) unit :=
  init_main_thread main_TCB ;;
  modify (set_cur main_TCB).

Definition create_TCB (tid page_addr page_counte : Z) : M (kern P) Z :=
  at_address page_addr (create_fields tid page_addr page_counte) ;; ret page_addr.

Definition set_kind (kern_thread : Z) (pool : bitmap) (pdt : Z) (t : TCB_t) : TCB_t :=
  Build_TCB_t (kern_stack_top t) (task_status t) (time_counter t) (time_left t) (next_tcb t) (tid t)
    (page_counte t) (tcb_page_addr t) kern_thread
    (if kern_thread =? 0 then pool else user_vmm_pool t) (if kern_thread =? 0 then pdt else pdt_vaddr t)
    (context t) (tcb_magic_number t).

(** [*(--new_tcb->kern_stack_top)=v] *)
Definition push_kern_stack (tcb v : Z) : M (kern P) unit :=
  upd_tcb tcb (fun t => set_stack_top (u32 (kern_stack_top t - 4)) t) ;;
  t <- get_tcb tcb ;;
  in_mem (store32 (kern_stack_top t) v).

Definition create_thread (tid func args addr page_counte is_kern_thread : Z) (user_vmm_pool : bitmap)
    (pdt_vaddr : Z) : M (kern P) unit :=
  cli ;;
  new_tcb <- create_TCB tid addr page_counte ;;
  cur <- gets cur_tcb ;;
  c <- get_tcb cur ;;
  let temp_next := next_tcb c in
  upd_tcb cur (set_next_tcb new_tcb) ;;
  upd_tcb new_tcb (set_next_tcb temp_next) ;;
  upd_tcb new_tcb (set_kind is_kern_thread user_vmm_pool pdt_vaddr) ;;
  push_kern_stack new_tcb args ;;
  push_kern_stack new_tcb exit_addr ;;
  push_kern_stack new_tcb func ;;
  upd_tcb new_tcb (fun t => set_context (with_eflags 514 (context t)) t) ;;
  upd_tcb new_tcb (fun t => set_context (with_esp (kern_stack_top t) (context t)) t) ;;
  sti.

(** [default_bitmap] is not initialised; it is not read for a kernel thread. *)
Definition create_kern_thread (default_bitmap : bitmap) (tid func args : Z) : M (kern P) unit :=
  TCB_page <- in_vmm vmm_kern_alloc ;;
  if TCB_page =? KERN_VMM_ALLOC_ERRO then
    stop_kern LOG_SRC_THREADS
      "Can`t Create New User Task Because Of Error When Alloc TCB Page From Kernel VMM!STOP!"
  else create_thread tid func args TCB_page 1 1 default_bitmap 0.

(** ** Switching *)

(** [switch_to]: the two addresses are those of the contexts of two blocks.
    The pushes and pops write below the stack pointer; [ret] takes the address
    on top of the new stack. *)
Definition switch_to (now next : Z) : M (kern P) unit :=
  r <- gets regs ;;
  upd_tcb now (set_context r) ;;
  in_mem (store32 (u32 (esp r - 4)) (ebx r)) ;;
  in_mem (store32 (u32 (esp r - 8)) (eflags r)) ;;
  t <- get_tcb next ;;
  let c := context t in
  in_mem (store32 (u32 (esp c - 4)) (eflags c)) ;;
  emit (Outb 160 32) ;;
  emit (Outb 32 32) ;;
  a <- in_mem (load32 (esp c)) ;;
  modify (set_regs (with_esp (u32 (esp c + 4)) c)) ;;
  modify (set_eip a).

(** The search for the next ready thread: [None] when it came back to the
    current one. *)
Fixpoint find_next (fuel : nat) (cur probe : Z) : M (kern P) (option Z) :=
  match fuel with
  | O => nofuel
  | S fuel' =>
      p <- get_tcb probe ;;
      let probe := next_tcb p in
      if probe =? cur then ret None
      else
        t <- get_tcb probe ;;
        if bool_decide (task_status t = TASK_READY) then ret (Some probe)
        else find_next fuel' cur probe
  end.

Definition ring_fuel (s : kern P) : nat := S (base.size (tcbs s)).

Definition schedule : M (kern P) bool :=
  cur <- get_running_progress ;;
  if cur =? 0 then ret false
  else
    t <- get_tcb cur ;;
    (if negb (check_kern_stack_overflow t) then kern_overflow_handler else ret tt) ;;
    fuel <- gets ring_fuel ;;
    r <- find_next fuel cur cur ;;
    match r with
    | None =>
        t <- get_tcb cur ;;
        if negb (bool_decide (task_status t = TASK_READY)) && negb (bool_decide (task_status t = TASK_RUNNING)) then
          warning_kern LOG_SRC_THREADS "ALL OF THE THREADS ARE BLOCKED,SELF WAKE UP ONE!WARNNING!" ;;
          upd_tcb cur (set_time_left TIME_CONT) ;;
          upd_tcb cur (set_status TASK_RUNNING) ;;
          ret false
        else
          upd_tcb cur (set_time_left TIME_CONT) ;;
          ret false
    | Some next =>
        now <- get_tcb cur ;;
        (if bool_decide (task_status now = TASK_RUNNING) then upd_tcb cur (set_status TASK_READY) else ret tt) ;;
        upd_tcb next (set_status TASK_RUNNING) ;;
        upd_tcb next (set_time_left TIME_CONT) ;;
        modify (set_cur next) ;;
        n <- get_tcb next ;;
        in_vmm (active_task next n) ;;
        switch_to cur next ;;
        ret true
    end.

(** ** Blocking *)

(** [thread_block] up to [schedule]; the flag to restore, and whether
    [schedule] switched.  What follows is [sti_condition] on the flag. *)
Definition thread_block_begin : M (kern P) (bool * bool) :=
  now <- get_running_progress ;;
  condition <- cli_condition ;;
  upd_tcb now (set_status TASK_BLOCKED) ;;
  switched <- schedule ;;
  ret (condition, switched).

Definition thread_wakeup (target_thread : Z) : M (kern P) unit :=
  cur <- get_running_progress ;;
  get_tcb cur ;;
  condition <- cli_condition ;;
  upd_tcb target_thread (set_status TASK_READY) ;;
  sti_condition condition.

(** ** The end of a thread *)

(** [for(;temp->next!=cur_tcb;temp=temp->next);] *)
Fixpoint find_previous (fuel : nat) (cur temp : Z) : M (kern P) Z :=
  match fuel with
  | O => nofuel
  | S fuel' =>
      t <- get_tcb temp ;;
      if next_tcb t =? cur then ret temp else find_previous fuel' cur (next_tcb t)
  end.

Definition remove_thread : M (kern P) unit :=
  cli ;;
  cur <- gets cur_tcb ;;
  c <- get_tcb cur ;;
  if tid c =? 0 then emit (Printk "ERRO:main thread can`t use function exit\n" [])
  else
    fuel <- gets ring_fuel ;;
    temp <- find_previous fuel cur cur ;;
    upd_tcb temp (set_next_tcb (next_tcb c)).

Definition exit : M (kern P) unit :=
  remove_thread ;;
  now <- gets cur_tcb ;;
  c <- get_tcb now ;;
  let next_tcb := next_tcb c in
  upd_tcb next_tcb (set_time_left TIME_CONT) ;;
  modify (set_cur next_tcb) ;;
  switch_to now next_tcb.

End code.
