(* ===== verification/Ring.v ===== *)
(** * The cyclic list of control blocks

    The scheduler's threads are linked through [next] into a ring: [ring tc a l]
    says that the blocks after [a] are those of [l], in order, and that the
    last one leads back to [a].  The lemmas cover what threads.c does with it:
    walking, inserting after a block, taking a block out. *)

From S2P Require Import Prelude Memory Bitmap Tcb.

(** From [a], the successors are [l] and then [z]. *)
Fixpoint chain (nx : gmap Z Z) (a : Z) (l : list Z) (z : Z) : Prop :=
  match l with
  | [] => nx !! a = Some z
  | b :: l' => nx !! a = Some b /\ chain nx b l' z
  end.

Lemma chain_app nx a l1 b l2 z :
  chain nx a (l1 ++ b :: l2) z <-> chain nx a l1 b /\ chain nx b l2 z.
Proof. revert a. induction l1 as [|c l1 IH]; intros a; simpl; [done|]. rewrite IH. tauto. Qed.

Lemma chain_insert_ne nx k v a l z :
  k ∉ a :: l -> chain (<[k := v]> nx) a l z <-> chain nx a l z.
Proof.
  revert a. induction l as [|b l IH]; intros a Hk; apply not_elem_of_cons in Hk as [Hk Hk'];
    simpl; rewrite lookup_insert_ne by done; [done|]. by rewrite IH.
Qed.

(** Redirecting the last block. *)
Lemma chain_redirect nx a l z w x :
  NoDup (a :: l) -> chain nx a l z -> last (a :: l) = Some x -> chain (<[x := w]> nx) a l w.
Proof.
  revert a. induction l as [|b l IH]; intros a Hn Hc Hx; simpl in *.
  - injection Hx as <-. by rewrite lookup_insert_eq.
  - destruct Hc as [Ha Hc]. apply NoDup_cons in Hn as [Hn1 Hn2].
    assert (Hin : x ∈ b :: l) by (apply last_Some in Hx as [l' ->]; set_solver).
    split; [|by apply IH]. rewrite lookup_insert_ne; [done|]. intros ->. done.
Qed.

Lemma chain_lookup nx a l z x : chain nx a l z -> x ∈ a :: l -> is_Some (nx !! x).
Proof.
  revert a. induction l as [|b l IH]; intros a Hc Hx; simpl in Hc.
  - apply list_elem_of_singleton in Hx as ->. eauto.
  - destruct Hc as [Ha Hc]. apply elem_of_cons in Hx as [->|Hx]; eauto.
Qed.

(** ** Rings *)

Definition nexts (tc : gmap Z TCB_t) : gmap Z Z := next_tcb <$> tc.

Record ring (tc : gmap Z TCB_t) (a : Z) (l : list Z) : Prop := {
  ring_nodup : NoDup (a :: l);
  ring_chain : chain (nexts tc) a l a
}.

Lemma ring_ext tc tc' a l : nexts tc' = nexts tc -> ring tc a l -> ring tc' a l.
Proof. intros E [Hn Hc]. split; [done|]. by rewrite E. Qed.

Lemma ring_lookup tc a l x : ring tc a l -> x ∈ a :: l -> exists t, tc !! x = Some t.
Proof.
  intros [_ Hc] Hx. destruct (chain_lookup _ _ _ _ _ Hc Hx) as [v Hv].
  unfold nexts in Hv. rewrite lookup_fmap in Hv. destruct (tc !! x); eauto. done.
Qed.

(** The same ring, seen from another of its blocks. *)
Lemma ring_rotate tc a l1 b l2 : ring tc a (l1 ++ b :: l2) -> ring tc b (l2 ++ a :: l1).
Proof.
  intros [Hn Hc]. apply chain_app in Hc as [Hc1 Hc2]. split.
  - eapply (NoDup_Permutation_proper _ (a :: l1 ++ b :: l2)); [|done]. 
    rewrite (Permutation_app_comm l2). change (a :: l1 ++ b :: l2) with ((a :: l1) ++ b :: l2).
    change (b :: (a :: l1) ++ l2) with ((b :: (a :: l1)) ++ l2).
    by rewrite <- Permutation_middle.
  - by apply chain_app.
Qed.

(** A new block after the current one. *)
Lemma ring_insert tc tc' a l n v :
  ring tc a l -> n ∉ a :: l -> nexts tc !! a = Some v ->
  nexts tc' = <[n := v]> (<[a := n]> (nexts tc)) -> ring tc' a (n :: l).
Proof.
  intros [Hn Hc] Hnew Hv E. apply not_elem_of_cons in Hnew as [H1 H2]. apply NoDup_cons in Hn as [Hn1 Hn2].
  split.
  - apply NoDup_cons. split; [set_solver|]. by apply NoDup_cons.
  - cbn [chain]. rewrite E. split; [by rewrite lookup_insert_ne, lookup_insert_eq by done|].
    destruct l as [|b l]; cbn [chain] in *.
    + rewrite Hv in Hc. by rewrite lookup_insert_eq.
    + destruct Hc as [Ha Hc]. rewrite Hv in Ha. injection Ha as ->.
      split; [by rewrite lookup_insert_eq|]. by rewrite !chain_insert_ne.
Qed.

(** The current block taken out, seen from its successor. *)
Lemma ring_remove tc tc' a b l x :
  ring tc a (b :: l) -> last (b :: l) = Some x -> nexts tc' = <[x := b]> (nexts tc) -> ring tc' b l.
Proof.
  intros [Hn [Ha Hc]] Hx E. apply NoDup_cons in Hn as [_ Hn]. split; [done|].
  rewrite E. by eapply chain_redirect.
Qed.

(** The ring has at most as many blocks as the store. *)
Lemma ring_length tc a l : ring tc a l -> (length (a :: l) <= base.size tc)%nat.
Proof.
  intros H. pose proof (ring_nodup _ _ _ H) as Hn.
  rewrite <- (size_list_to_set (C := gset Z)) by done.
  rewrite <- size_dom. apply subseteq_size. intros x Hx. apply elem_of_list_to_set in Hx.
  destruct (ring_lookup _ _ _ _ H Hx) as [t Ht]. apply elem_of_dom. eauto.
Qed.

(** ** Updates of single blocks *)

Lemma nexts_alter f a tc :
  (forall t, next_tcb (f t) = next_tcb t) -> nexts (alter f a tc) = nexts tc.
Proof.
  intros H. apply map_eq. intros k. unfold nexts. rewrite !lookup_fmap.
  destruct (decide (k = a)) as [->|Hk].
  - rewrite lookup_alter_eq. destruct (tc !! a); simpl; by rewrite ?H.
  - by rewrite lookup_alter_ne.
Qed.

Lemma nexts_set_next v a tc : is_Some (tc !! a) -> nexts (alter (set_next_tcb v) a tc) = <[a := v]> (nexts tc).
Proof.
  intros [t Ht]. apply map_eq. intros k. unfold nexts. rewrite !lookup_fmap.
  destruct (decide (k = a)) as [->|Hk].
  - by rewrite lookup_alter_eq, lookup_insert_eq, Ht.
  - by rewrite lookup_alter_ne, lookup_insert_ne, lookup_fmap by done.
Qed.

(** ** The search for a ready thread *)

Definition ready (tc : gmap Z TCB_t) (a : Z) : bool :=
  match tc !! a with Some t => bool_decide (task_status t = TASK_READY) | None => false end.

(** The first ready block of a list. *)
Fixpoint first_ready (tc : gmap Z TCB_t) (l : list Z) : option Z :=
  match l with
  | [] => None
  | a :: l' => if ready tc a then Some a else first_ready tc l'
  end.

Lemma first_ready_Some tc l x :
  first_ready tc l = Some x ->
  exists l1 l2, l = l1 ++ x :: l2 /\ ready tc x = true /\ Forall (fun a => ready tc a = false) l1.
Proof.
  induction l as [|a l IH]; simpl; [done|]. destruct (ready tc a) eqn:E.
  - intros [= ->]. exists [], l. done.
  - intros H. destruct (IH H) as (l1 & l2 & -> & Hx & Hl). exists (a :: l1), l2.
    split; [done|]. split; [done|]. by constructor.
Qed.

Lemma first_ready_None tc l : first_ready tc l = None <-> Forall (fun a => ready tc a = false) l.
Proof.
  induction l as [|a l IH]; simpl; [done|]. rewrite Forall_cons, <- IH.
  destruct (ready tc a); naive_solver.
Qed.

(** A ready thread of the list is the first one, or comes after it. *)
Lemma first_ready_le tc l (k : nat) t :
  l !! k = Some t -> ready tc t = true ->
  exists (j : nat) x, (j <= k)%nat /\ l !! j = Some x /\ first_ready tc l = Some x /\ ready tc x = true /\
    (x = t \/ (j < k)%nat).
Proof.
  revert k. induction l as [|a l IH]; intros k Hk Hr; [done|]. simpl. destruct (ready tc a) eqn:E.
  - exists 0%nat, a. split; [lia|]. split; [done|]. split; [done|]. split; [done|].
    destruct k; simpl in Hk; [left; congruence|right; lia].
  - destruct k as [|k]; simpl in Hk; [congruence|].
    destruct (IH k Hk Hr) as (j & x & Hj & Hl & Hf & Hx & Hd). exists (S j), x.
    split; [lia|]. split; [done|]. split; [done|]. split; [done|]. destruct Hd; [by left|right; lia].
Qed.
