(* ===== verification/ThreadsThm.v ===== *)
(** * Properties of the scheduler

    What [schedule] does in every case, that a ready thread is reached, and
    the invariant of the ring of threads under all the operations of
    threads.c. *)

From S2P Require Import Prelude Memory CString Bitmap KernLog Pmm PageTable Tcb Vmm VmmThm Tss UserVm Threads Ring.

Section walks.
Context {P : Type}.
Implicit Types (s : kern P).

Lemma in_vmm_ret {A} (c : M (vmm P) A) s v (a : A) t : c (k_vmm s) = Ret v a t -> in_vmm c s = Ret (set_vmm v s) a t.
Proof. intros E. unfold in_vmm, zoom. by rewrite E. Qed.

Lemma bind_get_tcb {B} a (k : TCB_t -> M (kern P) B) s t :
  tcbs s !! a = Some t -> bind (get_tcb a) k s = k t s.
Proof. intros E. unfold bind, get_tcb. rewrite E. apply prepend_nil. Qed.

Lemma get_tcb_eq a s t : tcbs s !! a = Some t -> get_tcb a s = Ret s t [].
Proof. intros E. unfold get_tcb. by rewrite E. Qed.

Lemma upd_tcb_eq a f s : is_Some (tcbs s !! a) -> upd_tcb a f s = Ret (set_tcbs (alter f a) s) tt [].
Proof. intros [t E]. unfold upd_tcb. by rewrite (bind_get_tcb _ _ _ _ E). Qed.

Lemma bind_upd_tcb {B} a f (k : unit -> M (kern P) B) s :
  is_Some (tcbs s !! a) -> bind (upd_tcb a f) k s = k tt (set_tcbs (alter f a) s).
Proof. intros E. erewrite bind_ret_eq by (by apply upd_tcb_eq). apply prepend_nil. Qed.

Lemma find_next_eq s cur l a fuel :
  chain (nexts (tcbs s)) a l cur -> cur ∉ l -> (length l < fuel)%nat ->
  is_Some (tcbs s !! cur) ->
  find_next fuel cur a s = Ret s (first_ready (tcbs s) l) [].
Proof.
  intros Hc Hn Hf Hcur. revert a fuel Hc Hf. induction l as [|b l IH]; intros a fuel Hc Hf;
    (destruct fuel as [|fuel]; [simpl in Hf; lia|]); cbn [chain] in Hc.
  - unfold nexts in Hc. rewrite lookup_fmap in Hc. destruct (tcbs s !! a) as [t|] eqn:E; [|done].
    injection Hc as Hc. cbn [find_next]. rewrite (bind_get_tcb _ _ _ _ E), Hc, Z.eqb_refl. done.
  - apply not_elem_of_cons in Hn as [Hne Hn]. destruct Hc as [Ha Hc].
    assert (Hb : is_Some (nexts (tcbs s) !! b)) by (destruct l; [exists cur|destruct Hc; eexists]; done).
    unfold nexts in Ha, Hb. rewrite lookup_fmap in Ha, Hb.
    destruct (tcbs s !! a) as [t|] eqn:E; [|done]. injection Ha as Ha.
    destruct (tcbs s !! b) as [tb|] eqn:Eb; [|by destruct Hb].
    cbn [find_next first_ready]. rewrite (bind_get_tcb _ _ _ _ E), Ha. cbv zeta.
    rewrite (proj2 (Z.eqb_neq _ _)) by done. rewrite (bind_get_tcb _ _ _ _ Eb).
    unfold ready. rewrite Eb. case_bool_decide; [done|]. apply IH; [done|done|simpl in Hf; lia].
Qed.

Lemma find_previous_eq s cur l a fuel :
  chain (nexts (tcbs s)) a l cur -> cur ∉ l -> (length l < fuel)%nat ->
  exists x, last (a :: l) = Some x /\ find_previous fuel cur a s = Ret s x [].
Proof.
  intros Hc Hn. revert a fuel Hc. induction l as [|b l IH]; intros a fuel Hc Hf;
    (destruct fuel as [|fuel]; [simpl in Hf; lia|]); cbn [chain] in Hc; cbn [find_previous].
  - unfold nexts in Hc. rewrite lookup_fmap in Hc. destruct (tcbs s !! a) as [t|] eqn:E; [|done].
    injection Hc as Hc. exists a. by rewrite (bind_get_tcb _ _ _ _ E), Hc, Z.eqb_refl.
  - apply not_elem_of_cons in Hn as [Hne Hn]. destruct Hc as [Ha Hc]. unfold nexts in Ha.
    rewrite lookup_fmap in Ha. destruct (tcbs s !! a) as [t|] eqn:E; [|done]. injection Ha as Ha.
    rewrite (bind_get_tcb _ _ _ _ E), Ha. rewrite (proj2 (Z.eqb_neq _ _)) by done.
    destruct (IH Hn b fuel Hc) as (x & Hx & Hp); [simpl in Hf; lia|]. by exists x.
Qed.

End walks.

Section sched.
Context {P : Type} {PA : PageAllocator P} {L : VmmLayout} {TL : TssLayout} {HL : ThreadLayout}.
Implicit Types (s : kern P).

(** ** The interrupt flag *)

Definition if_flag (r : context_t) : bool := Z.testbit (eflags r) 9.
Definition if_off (r : context_t) : context_t := with_eflags (Z.land (eflags r) 4294966783) r.
Definition if_on (r : context_t) : context_t := with_eflags (Z.lor (eflags r) 512) r.

Lemma if_flag_off r : if_flag (if_off r) = false.
Proof. unfold if_flag, if_off. cbn [eflags with_eflags]. rewrite Z.land_spec. apply andb_false_r. Qed.
Lemma if_flag_on r : if_flag (if_on r) = true.
Proof. unfold if_flag, if_on. cbn [eflags with_eflags]. rewrite Z.lor_spec. apply orb_true_r. Qed.

Lemma cli_eq s : cli s = Ret (set_regs (if_off (regs s)) s) tt [Cli].
Proof. done. Qed.
Lemma sti_eq s : sti s = Ret (set_regs (if_on (regs s)) s) tt [Sti].
Proof. done. Qed.

Lemma get_int_flag_eq s : get_int_flag s = Ret s (if_flag (regs s)) [].
Proof.
  unfold get_int_flag, if_flag. rewrite bind_gets. unfold ret. f_equal. change 1 with (Z.ones 1).
  rewrite Z.land_ones by lia. change (2 ^ 1) with 2. rewrite <- (Z.add_0_l 9) at 2.
  rewrite <- Z.shiftr_spec, Z.bit0_odd, <- Z.bit0_mod, Z.bit0_odd by lia. by destruct (Z.odd _).
Qed.

Lemma cli_condition_eq s :
  cli_condition s =
    if if_flag (regs s) then Ret (set_regs (if_off (regs s)) s) true [Cli] else Ret s false [].
Proof. unfold cli_condition. run (get_int_flag_eq s) by idtac. by destruct (if_flag (regs s)). Qed.

Lemma sti_condition_eq c s :
  sti_condition c s =
    Ret (set_regs (if c : bool then if_on (regs s) else if_off (regs s)) s) tt [if c : bool then Sti else Cli].
Proof. by destruct c. Qed.

(** ** The switch *)

Lemma in_mem_store32 a v s :
  in_mem (store32 a v) s = Ret (set_vmm (set_mem (st32 (v_mem (k_vmm s)) a v) (k_vmm s)) s) tt [].
Proof. done. Qed.

Lemma in_mem_load32 a s : in_mem (load32 a) s = Ret s (ld32 (v_mem (k_vmm s)) a) [].
Proof.
  unfold in_mem, in_vmm, zoom. rewrite on_mem_load32. by destruct s.
Qed.

(** What the switch leaves on the two stacks. *)
Definition switch_mem (m : mem) (r c : context_t) : mem :=
  st32 (st32 (st32 m (u32 (esp r - 4)) (ebx r)) (u32 (esp r - 8)) (eflags r)) (u32 (esp c - 4)) (eflags c).

Definition eoi : list event := [Outb 160 32; Outb 32 32].

Lemma switch_to_eq s now next tn tx :
  tcbs s !! now = Some tn -> tcbs s !! next = Some tx -> now <> next ->
  let c := context tx in
  let m' := switch_mem (v_mem (k_vmm s)) (regs s) c in
  switch_to now next s =
    Ret (Build_kern (set_mem m' (k_vmm s)) (alter (set_context (regs s)) now (tcbs s)) (cur_tcb s)
           (with_esp (u32 (esp c + 4)) c) (ld32 m' (esp c))) tt eoi.
Proof.
  intros Hn Hx Hne c m'. unfold switch_to. rewrite bind_gets, bind_upd_tcb by eauto.
  run (in_mem_store32 _ _ _) by idtac. run (in_mem_store32 _ _ _) by idtac.
  rewrite (bind_get_tcb _ _ _ tx) by (cbn [tcbs set_vmm set_tcbs]; by rewrite lookup_alter_ne).
  cbv zeta. run (in_mem_store32 _ _ _) by idtac. rewrite !bind_emit. run (in_mem_load32 _ _) by idtac. done.
Qed.

(** ** Loading the address space of a thread *)

(** A thread whose directory, if it has one, is at a page address. *)
Record thread_ok (t : TCB_t) : Prop := {
  th_magic : tcb_magic_number t = TCB_MAGIC_NUMBER;
  th_pdt : is_kern_thread t = 0 -> 0 <= pdt_vaddr t < 4294967296 /\ pdt_vaddr t `mod` 4096 = 0
}.

(** The memory and the events of [active_task]. *)
Definition active_effect (m : mem) (a : Z) (t : TCB_t) : mem * list event :=
  if is_kern_thread t =? 0 then
    (st32 m (tss_cpu0 + esp0_off) (u32 (a + u32 (page_counte t * PAGE_SIZE))),
     [Load_cr3 (frame_of (ld32 m (get_pte (pdt_vaddr t))))])
  else (m, [Load_cr3 kern_dir_table_paddr]).

Lemma frame_of_aligned e : frame_of e `mod` 4096 = 0.
Proof. unfold frame_of. dlia. Qed.

Lemma active_task_eq (v : vmm P) a t :
  thread_ok t ->
  active_task a t v =
    Ret (set_mem (active_effect (v_mem v) a t).1 v) tt (active_effect (v_mem v) a t).2.
Proof.
  intros [_ Ht]. unfold active_task, active_effect. destruct (Z.eqb_spec (is_kern_thread t) 0) as [E|E].
  - destruct (Ht E) as [Hr Ha]. cbn [negb fst snd].
    run (proj2 (v2p_eq v (pdt_vaddr t) Hr)) by idtac. rewrite Ha, Z.add_0_r.
    rewrite (proj2 (Z.eqb_neq _ _)).
    + unfold active_user_pdt, active_pdt. by rewrite bind_emit.
    + intros Hc. pose proof (frame_of_aligned (ld32 (v_mem v) (get_pte (pdt_vaddr t)))) as Hm.
      rewrite Hc in Hm. done.
  - cbn [negb fst snd]. unfold active_kern_pdt, active_pdt, emit. by rewrite set_mem_same.
Qed.

(** ** [schedule] *)

(** The blocks of the thread switched away from, and of the one switched to. *)
Definition leave (r : context_t) (t : TCB_t) : TCB_t :=
  set_context r (if bool_decide (task_status t = TASK_RUNNING) then set_status TASK_READY t else t).
Definition enter (t : TCB_t) : TCB_t := set_time_left TIME_CONT (set_status TASK_RUNNING t).

(** The state after a switch from [cur] to [next], whose block is [tx]. *)
Definition switched (s : kern P) (cur next : Z) (tx : TCB_t) : kern P :=
  let c := context tx in
  let m' := switch_mem (active_effect (v_mem (k_vmm s)) next tx).1 (regs s) c in
  Build_kern (set_mem m' (k_vmm s)) (alter (leave (regs s)) cur (alter enter next (tcbs s))) next
    (with_esp (u32 (esp c + 4)) c) (ld32 m' (esp c)).
Definition switch_events (s : kern P) (next : Z) (tx : TCB_t) : list event :=
  (active_effect (v_mem (k_vmm s)) next tx).2 ++ eoi.

(** The state when no other thread is ready. *)
Definition self_woken (t : TCB_t) : TCB_t :=
  if bool_decide (task_status t = TASK_READY) || bool_decide (task_status t = TASK_RUNNING)
  then set_time_left TIME_CONT t
  else set_status TASK_RUNNING (set_time_left TIME_CONT t).
Definition self_events (t : TCB_t) : list event :=
  if bool_decide (task_status t = TASK_READY) || bool_decide (task_status t = TASK_RUNNING) then []
  else [Printk_color "[WARNING][%s]%s\n" black yellow
          [PStr LOG_SRC_THREADS; PStr "ALL OF THE THREADS ARE BLOCKED,SELF WAKE UP ONE!WARNNING!"]].

Lemma alter_alter_same {A} (f g : A -> A) a (m : gmap Z A) : alter f a (alter g a m) = alter (fun t => f (g t)) a m.
Proof.
  apply map_eq. intros k. destruct (decide (k = a)) as [->|Hk].
  - rewrite !lookup_alter_eq. by destruct (m !! a).
  - by rewrite !lookup_alter_ne.
Qed.

Lemma alter_cond {A} (f g : A -> A) a (m : gmap Z A) t :
  m !! a = Some t -> f t = g t -> alter f a m = alter g a m.
Proof.
  intros E H. apply map_eq. intros k. destruct (decide (k = a)) as [->|Hk].
  - by rewrite !lookup_alter_eq, E; simpl; rewrite H.
  - by rewrite !lookup_alter_ne.
Qed.

Lemma set_tcbs_alter f g a s :
  set_tcbs (alter f a) (set_tcbs (alter g a) s) = set_tcbs (alter (fun t => f (g t)) a) s.
Proof. unfold set_tcbs. cbn [tcbs k_vmm cur_tcb regs eip]. by rewrite alter_alter_same. Qed.

Lemma set_tcbs_cond f g a s t :
  tcbs s !! a = Some t -> f t = g t -> set_tcbs (alter f a) s = set_tcbs (alter g a) s.
Proof. intros E H. unfold set_tcbs. f_equal. by eapply alter_cond. Qed.

Lemma schedule_eq s rest t :
  ring (tcbs s) (cur_tcb s) rest -> cur_tcb s <> 0 ->
  tcbs s !! cur_tcb s = Some t -> tcb_magic_number t = TCB_MAGIC_NUMBER ->
  Forall (fun x => forall tx, tcbs s !! x = Some tx -> thread_ok tx) rest ->
  match first_ready (tcbs s) rest with
  | None => schedule s = Ret (set_tcbs (alter self_woken (cur_tcb s)) s) false (self_events t)
  | Some x => exists tx, tcbs s !! x = Some tx /\ x <> cur_tcb s /\
      schedule s = Ret (switched s (cur_tcb s) x tx) true (switch_events s x tx)
  end.
Proof.
  intros Hr Hz Ht Hm Hok. set (cur := cur_tcb s) in *. unfold schedule, get_running_progress.
  assert (Hnr : cur ∉ rest) by (pose proof (ring_nodup _ _ _ Hr) as Hn; by apply NoDup_cons in Hn as [? _]).
  assert (Hfn : find_next (ring_fuel s) cur cur s = Ret s (first_ready (tcbs s) rest) []).
  { apply find_next_eq; [apply Hr|done| |eauto]. pose proof (ring_length _ _ _ Hr) as Hlen.
    unfold ring_fuel. simpl in Hlen. lia. }
  rewrite bind_gets. fold cur. rewrite (proj2 (Z.eqb_neq _ _)), (bind_get_tcb _ _ _ t) by done.
  unfold check_kern_stack_overflow. rewrite Hm, Z.eqb_refl. cbn [negb]. autorewrite with kern.
  run Hfn by idtac. destruct (first_ready (tcbs s) rest) as [x|] eqn:Ef.
  - destruct (first_ready_Some _ _ _ Ef) as (l1 & l2 & El & Hrx & _).
    assert (Hx : x ∈ rest) by (rewrite El; set_solver).
    destruct (ring_lookup _ _ _ x Hr) as [tx Hx']; [by right|].
    assert (Hxc : x <> cur) by (by intros ->). exists tx. split; [done|]. split; [done|].
    assert (Htx : thread_ok (enter tx)).
    { rewrite Forall_forall in Hok. destruct (Hok x Hx tx Hx'). by split. }
    rewrite (bind_get_tcb _ _ _ t) by done.
    set (s1 := set_tcbs (alter (fun t => if bool_decide (task_status t = TASK_RUNNING) then set_status TASK_READY t else t) cur) s).
    erewrite (bind_ret_eq _ _ _ s1 tt []).
    2: { case_bool_decide as B; unfold s1.
         - rewrite upd_tcb_eq by eauto. f_equal. eapply set_tcbs_cond; [done|]. by rewrite bool_decide_true.
         - unfold ret. f_equal. unfold set_tcbs. destruct s as [v tc c r e]. cbn [tcbs k_vmm cur_tcb regs eip] in *.
           f_equal. symmetry. apply alter_id. intros t' Ht'. rewrite bool_decide_false; [done|]. congruence. }
    rewrite prepend_nil.
    assert (Hx1 : tcbs s1 !! x = Some tx) by (unfold s1; cbn [tcbs set_tcbs]; by rewrite lookup_alter_ne by done).
    rewrite !bind_upd_tcb by (cbn [tcbs set_tcbs]; rewrite ?lookup_alter_eq, Hx1; eauto).
    rewrite set_tcbs_alter. change (fun t => set_time_left TIME_CONT (set_status TASK_RUNNING t)) with enter.
    set (s2 := set_tcbs (alter enter x) s1). rewrite bind_modify. set (s3 := set_cur x s2).
    assert (Hx3 : tcbs s3 !! x = Some (enter tx)).
    { unfold s3, s2. cbn [tcbs set_tcbs set_cur]. by rewrite lookup_alter_eq, Hx1. }
    rewrite (bind_get_tcb _ _ _ _ Hx3).
    assert (Ea : in_vmm (active_task x (enter tx)) s3 =
      Ret (set_vmm (set_mem (active_effect (v_mem (k_vmm s)) x tx).1 (k_vmm s)) s3) tt
          (active_effect (v_mem (k_vmm s)) x tx).2).
    { unfold in_vmm, zoom. by rewrite active_task_eq. }
    erewrite bind_ret_eq by exact Ea. set (s4 := set_vmm _ s3).
    assert (Hn4 : exists tn, tcbs s4 !! cur = Some tn).
    { unfold s4, s3, s2, s1. cbn [tcbs set_tcbs set_cur set_vmm].
      rewrite lookup_alter_ne, lookup_alter_eq, Ht by done. eauto. }
    destruct Hn4 as [tn Hn4]. rewrite (bind_ret_eq _ _ _ _ _ _ (switch_to_eq s4 cur x tn (enter tx) Hn4 Hx3 ltac:(done))).
    unfold prepend, ret, switch_events. rewrite app_nil_r. f_equal.
    unfold switched. cbn [v_mem k_vmm set_mem s4 s3 s2 s1 set_vmm set_cur set_tcbs regs cur_tcb context enter set_time_left set_status].
    f_equal. cbn [tcbs set_tcbs set_cur set_vmm s4 s3 s2 s1].
    apply map_eq. intros k. destruct (decide (k = cur)) as [->|Hk].
    + rewrite lookup_alter_eq, lookup_alter_ne, lookup_alter_eq by done.
      by rewrite lookup_alter_eq, lookup_alter_ne, Ht by done.
    + destruct (decide (k = x)) as [->|Hk'].
      * rewrite lookup_alter_ne, lookup_alter_eq, lookup_alter_ne by congruence.
        by rewrite lookup_alter_ne, lookup_alter_eq by congruence.
      * by rewrite !lookup_alter_ne by congruence.
  - rewrite (bind_get_tcb _ _ _ t) by done. unfold self_events.
    destruct (bool_decide (task_status t = TASK_READY)) eqn:B1; [|destruct (bool_decide (task_status t = TASK_RUNNING)) eqn:B2];
      cbn [negb andb orb].
    + rewrite bind_upd_tcb by eauto. unfold ret. f_equal. eapply set_tcbs_cond; [done|]. unfold self_woken. by rewrite B1.
    + rewrite bind_upd_tcb by eauto. unfold ret. f_equal. eapply set_tcbs_cond; [done|]. unfold self_woken. by rewrite B1, B2.
    + unfold warning_kern. rewrite bind_emit, !bind_upd_tcb
        by (cbn [tcbs set_tcbs]; rewrite ?lookup_alter_eq, Ht; eauto).
      rewrite set_tcbs_alter. unfold ret, prepend. rewrite app_nil_r. f_equal.
      eapply set_tcbs_cond; [done|]. unfold self_woken. by rewrite B1, B2.
Qed.
End sched.
