(* ===== verification/AsmCalls.v ===== *)
(** * The assembly functions the C code calls

    [switch_to] of threads_asm.s and the functions of common_asm.s and
    interrupt_asm.s that return to their caller, instruction by instruction.
    The C code is modelled over [Threads.switch_to], a step on control blocks
    and saved registers; [switch_to_refined] shows that the instructions do
    that step. *)

From S2P Require Import Prelude Memory Bitmap PageTable Tcb Pmm Vmm Tss UserVm Threads ThreadsThm X86 Boot BootThm BootMap IntrAsm IntrAsmThm.

Section code.
Context {T : Translation} {BL : BootLayout}.

Definition pushf : M cpu unit := fl <- gets x_eflags ;; push fl.
Definition popf : M cpu unit := fl <- pop ;; modify (set_flags fl).

(** [mov [a+off], r] and [mov r, [a+off]] with the address in a register. *)
Definition save_at (a : reg) (off : Z) (r : reg) : M cpu unit :=
  p <- get a ;; x <- get r ;; store_word (p + off) x.
Definition load_at (r a : reg) (off : Z) : M cpu unit :=
  p <- get a ;; x <- load_word (p + off) ;; mov r x.
Definition mov_reg (r q : reg) : M cpu unit := x <- get q ;; mov r x.

(** ** threads_asm.s *)

Definition get_esp_code : M cpu unit :=
  mov_reg EAX ESP ;;
  ret_near.

Definition get_eflags_code : M cpu unit :=
  pushf ;;
  x <- pop ;; mov EAX x ;;
  ret_near.

(** The registers into the context of the first argument. *)
Definition save_context : M cpu unit :=
  load_at EAX ESP 4 ;;
  save_at EAX 0 EBP ;;
  save_at EAX 4 EBX ;;
  save_at EAX 8 ECX ;;
  save_at EAX 12 EDX ;;
  save_at EAX 16 ESI ;;
  save_at EAX 20 EDI ;;
  save_at EAX 28 ESP ;;
  x <- get EBX ;; push x ;;
  mov_reg EBX EAX ;;
  pushf ;;
  x <- pop ;; mov EAX x ;;
  save_at EBX 24 EAX ;;
  mov_reg EAX EBX ;;
  x <- pop ;; mov EBX x.

(** The registers from the context of the second argument, on its stack. *)
Definition load_context : M cpu unit :=
  load_at EAX ESP 8 ;;
  load_at ESP EAX 28 ;;
  load_at EBP EAX 0 ;;
  load_at EBX EAX 4 ;;
  load_at ECX EAX 8 ;;
  load_at EDX EAX 12 ;;
  load_at ESI EAX 16 ;;
  load_at EDI EAX 20 ;;
  update EAX (fun x => x + 24) ;;
  p <- get EAX ;; x <- load_word p ;; push x ;;
  popf.

Definition switch_to_code : M cpu unit :=
  save_context ;;
  load_context ;;
  mov8 EAX 32 ;;
  out_al 160 ;;
  out_al 32 ;;
  ret_near.

(** ** common_asm.s *)

(** The argument is the address of the result. *)
Definition get_eflag_code : M cpu unit :=
  load_at EAX ESP 4 ;;
  x <- get EBX ;; push x ;;
  pushf ;;
  x <- pop ;; mov EBX x ;;
  save_at EAX 0 EBX ;;
  x <- pop ;; mov EBX x ;;
  ret_near.

Definition reload_gdt_code : M cpu unit :=
  lgdt gdt_ptr ;;
  ret_near.

Definition reload_kern_page_table_code : M cpu unit :=
  load_at EAX ESP 4 ;;
  update EAX (fun x => Z.land x 4294963200) ;;
  x <- get EAX ;; modify (set_cr3 x) ;; emit (Load_cr3 x) ;;
  ret_near.

(** ** interrupt_asm.s *)

Definition load_idt_code : M cpu unit :=
  load_at EAX ESP 4 ;;
  x <- get EAX ;; emit (Lidt x) ;;
  ret_near.

(** [cr2] is what the register holds, [_CR2] the address of that variable. *)
Definition get_cr2_code (cr2 _CR2 : Z) : M cpu unit :=
  mov EAX cr2 ;;
  x <- get EAX ;; store_word _CR2 x ;;
  ret_near.

(** ** user_task_asm.s *)

Definition asm_change_esp : M cpu unit := ret_near.
Definition asm_active_page_dir_table : M cpu unit := ret_near.

End code.

(** ** Words in memory *)

(** The same memory but for the context at [na]. *)
Definition agree_but (na : Z) (m m' : mem) : Prop :=
  forall b, 0 <= b < 4294967296 -> b < na \/ na + 32 <= b -> ld8 m b = ld8 m' b.

Definition ctx_words (r : context_t) : list Z := [ebp r; ebx r; ecx r; edx r; esi r; edi r; eflags r; esp r].
(** The registers [context_t] has. *)
Definition context_of (c : cpu) : context_t :=
  let g := gpr c in Build_context_t (g_ebp g) (g_ebx g) (g_ecx g) (g_edx g) (g_esi g) (g_edi g) (x_eflags c) (g_esp g).

Lemma words_at_st32 m a l b v :
  0 <= a -> a + 4 * length l <= 4294967296 -> 0 <= b -> b + 4 <= 4294967296 -> disjoint_blocks b 4 a (4 * length l) ->
  words_at m a l -> words_at (st32 m b v) a l.
Proof.
  intros H0 H1 H2 H3 Hd H i x Hx. pose proof (lookup_lt_Some _ _ _ Hx). unfold disjoint_blocks in Hd.
  rewrite ld32_st32_out by lia. by apply H.
Qed.
Lemma agree_but_st32_in na m m' a v :
  na <= a -> a + 4 <= na + 32 -> 0 <= na -> na + 32 <= 4294967296 -> agree_but na m m' -> agree_but na (st32 m a v) m'.
Proof. intros H0 H1 H2 H3 H b Hb Ho. rewrite ld8_st32_out by lia. by apply H. Qed.
Lemma agree_but_st32 na m m' a v :
  0 <= a -> a + 4 <= 4294967296 -> agree_but na m m' -> agree_but na (st32 m a v) (st32 m' a v).
Proof.
  intros H0 H1 H b Hb Ho. unfold st32. rewrite !ld8_st8, !(u32_small b) by lia. repeat case_decide; try done. by apply H.
Qed.
Lemma agree_but_ld32 na m m' a : 0 <= a -> a + 4 <= 4294967296 -> disjoint_blocks a 4 na 32 -> agree_but na m m' -> ld32 m a = ld32 m' a.
Proof. intros H0 H1 Hd H. apply ld32_ext. intros b Hb. unfold disjoint_blocks in Hd. apply H; lia. Qed.

(** A word of the kernel's range. *)
Definition word_ok (x : Z) : Prop := 0 <= x < 4294967296.

(** ** switch_to *)

Section switch.
#[local] Existing Instance linear.

Lemma load_at_eq r q off c :
  0 <= rd q (gpr c) + off -> rd q (gpr c) + off + 4 <= 4294967296 ->
  load_at r q off c = Ret (set_gpr (wr r (ld32 (ram c) (rd q (gpr c) + off)) (gpr c)) c) tt [].
Proof.
  intros H0 H1. unfold load_at, get, mov. rewrite bind_gets. run load_linear by lia. unfold modify.
  by rewrite u32_small by apply ld32_range.
Qed.
Lemma save_at_eq a off r c :
  0 <= rd a (gpr c) + off -> rd a (gpr c) + off + 4 <= 4294967296 ->
  save_at a off r c = Ret (set_ram (st32 (ram c) (rd a (gpr c) + off) (rd r (gpr c))) c) tt [].
Proof. intros H0 H1. unfold save_at, get. rewrite !bind_gets. by rewrite store_linear by lia. Qed.
Lemma mov_reg_eq r q c : word_ok (rd q (gpr c)) -> mov_reg r q c = Ret (set_gpr (wr r (rd q (gpr c)) (gpr c)) c) tt [].
Proof. intros H. unfold mov_reg, get, mov. rewrite bind_gets. unfold modify. by rewrite (u32_small (rd q (gpr c))) by exact H. Qed.

(** What the first half writes. *)
Definition saved_mem (m : mem) (na : Z) (r : context_t) : mem :=
  let m1 := st32 (st32 (st32 (st32 (st32 (st32 (st32 m na (ebp r)) (na + 4) (ebx r)) (na + 8) (ecx r))
    (na + 12) (edx r)) (na + 16) (esi r)) (na + 20) (edi r)) (na + 28) (esp r) in
  st32 (st32 (st32 m1 (esp r - 4) (ebx r)) (esp r - 8) (eflags r)) (na + 24) (eflags r).

Lemma pop_word c :
  0 <= g_esp (gpr c) -> g_esp (gpr c) + 4 <= 4294967296 ->
  pop c = Ret (set_gpr (wr ESP (u32 (g_esp (gpr c) + 4)) (gpr c)) c) (ld32 (ram c) (g_esp (gpr c))) [].
Proof. intros H0 H1. unfold pop. exec. run load_linear by lia. exec. reflexivity. Qed.
Lemma push_word c v :
  4 <= g_esp (gpr c) < 4294967296 ->
  push v c = Ret (set_ram (st32 (ram c) (g_esp (gpr c) - 4) v) (set_gpr (wr ESP (g_esp (gpr c) - 4) (gpr c)) c)) tt [].
Proof. intros H. unfold push. exec. rewrite (u32_small (g_esp (gpr c) - 4)) by lia. by rewrite store_linear by lia. Qed.

(** A call of [switch_to] with the addresses of two contexts. *)
Record call_ok (c : cpu) (na xa : Z) : Prop := {
  co_stack : 8 <= g_esp (gpr c) /\ g_esp (gpr c) + 12 <= 4294967296;
  co_args : ld32 (ram c) (g_esp (gpr c) + 4) = na /\ ld32 (ram c) (g_esp (gpr c) + 8) = xa;
  co_regs : Forall word_ok (ctx_words (context_of c));
  co_now : 0 <= na /\ na + 32 <= 4294967296;
  co_apart : disjoint_blocks na 32 (g_esp (gpr c) - 8) 20
}.

Ltac step_asm lem := rewrite (bind_ret_eq _ _ _ _ _ _ lem), prepend_nil; cpu_cbn.

Lemma save_context_eq c na xa :
  call_ok c na xa ->
  save_context c = Ret (set_ram (saved_mem (ram c) na (context_of c)) (set_gpr (wr EAX na (gpr c)) c)) tt [].
Proof.
  intros [Hs [Ha _] Hr Hn Hd]. destruct c as [[a cx d b sp bp si di] sg ip fl c0 c3 gd m].
  unfold context_of, ctx_words, disjoint_blocks in *. cbn in Hs, Ha, Hr, Hd. split_Forall. unfold word_ok in *.
  unfold save_context.
  run load_at_eq by (cbn; lia). cpu_cbn. rewrite Ha.
  do 7 (run save_at_eq by (cbn; lia); cpu_cbn).
  exec. run push_word by (cbn; lia). cpu_cbn. run mov_reg_eq by (cbn; unfold word_ok; lia). cpu_cbn.
  unfold pushf. exec. run push_word by (cbn; lia). cpu_cbn.
  run pop_word by (cbn; lia). cpu_cbn. exec. rewrite ld32_st32_eq, !(u32_small fl) by lia.
  run save_at_eq by (cbn; lia). cpu_cbn. run mov_reg_eq by (cbn; unfold word_ok; lia). cpu_cbn.
  rewrite (u32_small (sp - 4 - 4 + 4)) by lia. run pop_word by (cbn; lia). cpu_cbn. unfold mov, modify. cpu_cbn.
  replace (sp - 4 - 4 + 4) with (sp - 4) by lia. rewrite !ld32_st32_out, ld32_st32_eq, !(u32_small b) by lia.
  rewrite u32_small by lia. unfold saved_mem. cbn [ebp ebx ecx edx esi edi eflags esp].
  by replace (na + 0) with na by lia; replace (sp - 4 + 4) with sp by lia; replace (sp - 8) with (sp - 4 - 4) by lia.
Qed.

Ltac offset :=
  match goal with |- context [?a + 4 * Z.of_nat ?i] =>
    let k := eval vm_compute in (4 * Z.of_nat i) in change (4 * Z.of_nat i) with k; rewrite ?Z.add_0_r
  end.
Ltac ld32s := repeat first [rewrite ld32_st32_eq | rewrite ld32_st32_out by lia].

Lemma saved_words c na xa : call_ok c na xa -> words_at (saved_mem (ram c) na (context_of c)) na (ctx_words (context_of c)).
Proof.
  intros [Hs _ Hr Hn Hd]. revert Hs Hr Hd. generalize (ram c). intros m.
  destruct c as [[a cx d b sp bp si di] sg ip fl c0 c3 gd m']. unfold context_of, ctx_words, disjoint_blocks, saved_mem.
  cbn. intros Hs Hr Hd. split_Forall. unfold word_ok in *.
  intros i x Hx. do 8 (destruct i as [|i]; [injection Hx as <-; offset; ld32s; by rewrite ?u32_small by lia|]). done.
Qed.
Lemma saved_agree c na xa m' :
  call_ok c na xa -> agree_but na (ram c) m' ->
  let r := context_of c in
  agree_but na (saved_mem (ram c) na r) (st32 (st32 m' (esp r - 4) (ebx r)) (esp r - 8) (eflags r)).
Proof.
  intros [Hs _ _ Hn _] H. change (g_esp (gpr c)) with (esp (context_of c)) in Hs. unfold saved_mem. cbv zeta.
  apply agree_but_st32_in; [lia..|]. apply agree_but_st32; [lia..|]. apply agree_but_st32; [lia..|].
  by do 7 (apply agree_but_st32_in; [lia..|]).
Qed.

Lemma load_context_eq c xa x :
  0 <= g_esp (gpr c) -> g_esp (gpr c) + 12 <= 4294967296 -> ld32 (ram c) (g_esp (gpr c) + 8) = xa ->
  0 <= xa -> xa + 32 <= 4294967296 -> words_at (ram c) xa (ctx_words x) -> 4 <= esp x ->
  load_context c = Ret (Cpu (Gprs (xa + 24) (ecx x) (edx x) (ebx x) (esp x) (ebp x) (esi x) (edi x)) (seg c) (x_eip c) (eflags x)
    (cr0 c) (cr3 c) (gdtr c) (st32 (ram c) (esp x - 4) (eflags x))) tt [].
Proof.
  destruct c as [[a cx d b sp bp si di] sg ip fl c0 c3 gd m]. cpu_cbn. intros H0 H1 Ha H2 H3 Hw Hx.
  assert (L : forall (i : nat) v, ctx_words x !! i = Some v -> ld32 m (xa + 4 * i) = v) by exact Hw.
  pose proof (L 0%nat _ eq_refl) as L0. pose proof (L 1%nat _ eq_refl) as L1. pose proof (L 2%nat _ eq_refl) as L2.
  pose proof (L 3%nat _ eq_refl) as L3. pose proof (L 4%nat _ eq_refl) as L4. pose proof (L 5%nat _ eq_refl) as L5.
  pose proof (L 6%nat _ eq_refl) as L6. pose proof (L 7%nat _ eq_refl) as L7. clear L Hw.
  assert (R : Forall word_ok (ctx_words x)) by (unfold ctx_words; rewrite <- L0, <- L1, <- L2, <- L3, <- L4, <- L5, <- L6, <- L7; repeat (apply Forall_cons; split; [apply ld32_range|]); apply Forall_nil_2).
  unfold ctx_words in R. split_Forall. unfold word_ok in *.
  change (4 * 0%nat) with 0 in L0. change (4 * 1%nat) with 4 in L1. change (4 * 2%nat) with 8 in L2. change (4 * 3%nat) with 12 in L3.
  change (4 * 4%nat) with 16 in L4. change (4 * 5%nat) with 20 in L5. change (4 * 6%nat) with 24 in L6. change (4 * 7%nat) with 28 in L7.
  unfold load_context. run load_at_eq by (cbn; lia). cpu_cbn. rewrite Ha.
  do 7 (run load_at_eq by (cbn; lia); cpu_cbn). rewrite L0, L1, L2, L3, L4, L5, L7. exec. rewrite (u32_small (xa + 24)) by lia.
  run load_linear by lia. cpu_cbn. rewrite L6. run push_word by (cbn; lia). cpu_cbn.
  unfold popf. run pop_word by (cbn; lia). cpu_cbn. rewrite ld32_st32_eq, (u32_small (eflags x)) by lia.
  unfold modify. cpu_cbn. rewrite u32_small by lia. by replace (esp x - 4 + 4) with (esp x) by lia.
Qed.

(** The context of the second argument is [x], in a block of its own, and its
    stack has the address to return to. *)
Record resumes (c : cpu) (na xa : Z) (x : context_t) : Prop := {
  re_words : words_at (ram c) xa (ctx_words x);
  re_range : 0 <= xa /\ xa + 32 <= 4294967296;
  re_stack : 4 <= esp x /\ esp x + 4 <= 4294967296;
  re_apart : disjoint_blocks xa 32 na 32 /\ disjoint_blocks xa 32 (g_esp (gpr c) - 8) 8;
  re_stack_apart : disjoint_blocks na 32 (esp x - 4) 8 /\ disjoint_blocks xa 32 (esp x - 4) 8
}.

(** The processor after [switch_to]. *)
Definition switched_cpu (c : cpu) (na xa : Z) (x : context_t) : cpu :=
  let m := st32 (saved_mem (ram c) na (context_of c)) (esp x - 4) (eflags x) in
  let a := xa + 24 in
  Cpu (Gprs (a - a `mod` 256 + 32) (ecx x) (edx x) (ebx x) (u32 (esp x + 4)) (ebp x) (esi x) (edi x)) (seg c)
    (ld32 m (esp x)) (eflags x) (cr0 c) (cr3 c) (gdtr c) m.

Lemma saved_keeps c na xa b l :
  call_ok c na xa -> words_at (ram c) b l -> 0 <= b -> b + 4 * length l <= 4294967296 ->
  disjoint_blocks b (4 * length l) na 32 -> disjoint_blocks b (4 * length l) (g_esp (gpr c) - 8) 8 ->
  words_at (saved_mem (ram c) na (context_of c)) b l.
Proof.
  intros [Hs _ _ Hn _] Hw H0 H1 Hd1 Hd2. change (g_esp (gpr c)) with (esp (context_of c)) in *. unfold disjoint_blocks in *.
  unfold saved_mem. repeat (apply words_at_st32; [lia|lia|lia|lia|unfold disjoint_blocks; lia|]). done.
Qed.

Lemma switch_to_code_eq c na xa x :
  call_ok c na xa -> resumes c na xa x -> switch_to_code c = Ret (switched_cpu c na xa x) tt eoi.
Proof.
  intros H [Hw Hr Hs Hd1 Hd2]. unfold switch_to_code.
  rewrite (bind_ret_eq _ _ _ _ _ _ (save_context_eq _ _ _ H)), prepend_nil.
  assert (Ha : ld32 (saved_mem (ram c) na (context_of c)) (g_esp (gpr c) + 8) = xa).
  { pose proof H as [Hs0 [_ Ha] _ _ Hd]. assert (W : words_at (saved_mem (ram c) na (context_of c)) (g_esp (gpr c) + 8) [xa]).
    { apply (saved_keeps c na xa); [exact H|intros [|i] y Hy; [injection Hy as <-; offset; done|done]|cbn; lia..| |];
        unfold disjoint_blocks in *; cbn; lia. }
    rewrite <- (W 0%nat xa eq_refl). f_equal. lia. }
  pose proof (co_stack _ _ _ H) as Hs0.
  pose proof (saved_keeps c na xa xa _ H Hw ltac:(lia) ltac:(cbn; lia) ltac:(cbn; tauto) ltac:(cbn; tauto)) as W.
  run (load_context_eq _ xa x) by (first [exact Ha | exact W | cpu_cbn; lia]). cpu_cbn.
  unfold out_al. exec. rewrite bind_emit. exec. rewrite bind_emit, !u8_low. unfold ret_near. run pop_word by (cbn; lia).
  unfold modify. cpu_cbn. reflexivity.
Qed.

(** The processor and the kernel at a call [switch_to(now, next)]: the same
    registers, and the same memory but for the blocks' contexts, which the
    kernel has in its store of control blocks. *)
Record at_switch {P} (c : cpu) (k : kern P) (now next na xa : Z) (tn tx : TCB_t) : Prop := {
  as_call : call_ok c na xa;
  as_next : resumes c na xa (context tx);
  as_tcbs : tcbs k !! now = Some tn /\ tcbs k !! next = Some tx /\ now <> next;
  as_regs : regs k = context_of c;
  as_mem : agree_but na (ram c) (v_mem (k_vmm k))
}.

(** C8: The instructions of [switch_to] do the step the scheduler is verified
    over: the same registers and program counter, the same memory outside the
    contexts, the two end-of-interrupt commands in the same order; and in the
    block of the old thread are the registers it had. *)
Theorem switch_to_refined {P} `{!VmmLayout} c (k : kern P) now next na xa tn tx :
  at_switch c k now next na xa tn tx ->
  exists c' k', switch_to_code c = Ret c' tt eoi /\ switch_to now next k = Ret k' tt eoi /\
    regs k' = context_of c' /\ Threads.eip k' = x_eip c' /\ agree_but na (ram c') (v_mem (k_vmm k')) /\
    tcbs k' !! now = Some (set_context (context_of c) tn) /\
    words_at (ram c') na (ctx_words (context_of c)) /\ words_at (ram c') xa (ctx_words (context tx)).
Proof.
  intros [Hc Hx (Hn & Hx' & Hne) Hr Hm]. exists (switched_cpu c na xa (context tx)). eexists.
  split; [exact (switch_to_code_eq _ _ _ _ Hc Hx)|]. split; [exact (switch_to_eq _ _ _ _ _ Hn Hx' Hne)|].
  pose proof (saved_words _ _ _ Hc) as Sw. pose proof (saved_agree _ _ _ _ Hc Hm) as Sa.
  destruct Hx as [Hw Hr0 Hs Hd1 Hd2]. pose proof (co_stack _ _ _ Hc) as Hs0. pose proof (co_now _ _ _ Hc) as Hn0.
  assert (A : agree_but na (ram (switched_cpu c na xa (context tx))) (switch_mem (v_mem (k_vmm k)) (regs k) (context tx))).
  { unfold switched_cpu, switch_mem. cpu_cbn. rewrite Hr, !(u32_small (_ - _)) by (unfold context_of; cbn; lia).
    by apply agree_but_st32; [lia..|]. }
  unfold set_mem. cbn [k_vmm v_mem tcbs regs Threads.eip]. split; [reflexivity|].
  split; [symmetry; apply (agree_but_ld32 na); [lia..| |exact A]; unfold disjoint_blocks in *; lia|]. split; [exact A|].
  split; [by rewrite lookup_alter_eq, Hn, Hr|].
  destruct Hd2. unfold disjoint_blocks in *.
  split; (apply words_at_st32; [lia|cbn; lia|lia|lia|unfold disjoint_blocks; cbn; lia|]); [exact Sw|].
  apply (saved_keeps c na xa); [exact Hc|exact Hw|lia|cbn; lia|unfold disjoint_blocks; cbn; lia..].
Qed.

(** ** The other functions *)

(** The calling convention at a return: the program counter is the return
    address and the stack pointer behind it, the interrupt flag and the
    registers the caller relies on are kept, and so is the memory but for the
    words at [ws]. *)
Record returned (ws : list Z) (c c' : cpu) : Prop := {
  rt_eip : x_eip c' = ld32 (ram c) (g_esp (gpr c));
  rt_esp : g_esp (gpr c') = u32 (g_esp (gpr c) + 4);
  rt_saved : (g_ebx (gpr c'), g_ebp (gpr c'), g_esi (gpr c'), g_edi (gpr c')) = (g_ebx (gpr c), g_ebp (gpr c), g_esi (gpr c), g_edi (gpr c));
  rt_intr : Z.testbit (x_eflags c') 9 = Z.testbit (x_eflags c) 9;
  rt_seg : seg c' = seg c;
  rt_mem : forall b, 0 <= b < 4294967296 -> Forall (fun a => b < a \/ a + 4 <= b) ws -> ld8 (ram c') b = ld8 (ram c) b
}.

(** A stack with a return address and a word behind it. *)
Definition stack_ok (c : cpu) : Prop := 8 <= g_esp (gpr c) /\ g_esp (gpr c) + 8 <= 4294967296.
Definition argument (c : cpu) : Z := ld32 (ram c) (g_esp (gpr c) + 4).

(** The bytes outside the words written. *)
Ltac frame := intros b' Hb' Hf'; cpu_cbn; split_Forall; by rewrite ?ld8_st32_out by lia.

Lemma get_eflag_returns c p :
  stack_ok c -> argument c = p -> p + 4 <= 4294967296 -> disjoint_blocks p 4 (g_esp (gpr c) - 8) 12 ->
  word_ok (g_ebx (gpr c)) -> word_ok (x_eflags c) ->
  exists c', get_eflag_code c = Ret c' tt [] /\ returned [p; g_esp (gpr c) - 4; g_esp (gpr c) - 8] c c' /\ ld32 (ram c') p = x_eflags c.
Proof.
  destruct c as [[a cx d b sp bp si di] sg ip fl c0 c3 gd m]. unfold stack_ok, argument. cpu_cbn. intros [H0 H1] Ha H2 Hd Hb Hf.
  pose proof (ld32_range m (sp + 4)) as Hp. rewrite Ha in Hp. unfold disjoint_blocks, word_ok in *.
  eexists. split; [|split].
  - unfold get_eflag_code. run load_at_eq by (cbn; lia). cpu_cbn. rewrite Ha. exec. run push_word by (cbn; lia). cpu_cbn.
    unfold pushf. exec. run push_word by (cbn; lia). cpu_cbn. run pop_word by (cbn; lia). cpu_cbn. exec.
    rewrite ld32_st32_eq, !(u32_small fl), (u32_small (sp - 4 - 4 + 4)) by lia.
    run save_at_eq by (cbn; lia). cpu_cbn. run pop_word by (cbn; lia). cpu_cbn. exec.
    replace (sp - 4 - 4 + 4) with (sp - 4) by lia. rewrite !ld32_st32_out, ld32_st32_eq, !(u32_small b) by lia.
    rewrite (u32_small (sp - 4 + 4)) by lia. unfold ret_near. run pop_word by (cbn; lia). cpu_cbn. unfold modify. cpu_cbn.
    reflexivity.
  - split; [cpu_cbn..|frame]; try done; replace (sp - 4 + 4) with sp by lia; [by ld32s|done].
  - cpu_cbn. by rewrite Z.add_0_r, ld32_st32_eq, u32_small by lia.
Qed.

Lemma reload_gdt_returns {BL : BootLayout} c :
  stack_ok c -> 0 <= gdt_ptr -> gdt_ptr + 6 <= 4294967296 ->
  exists c', reload_gdt_code c = Ret c' tt [Lgdt] /\ returned [] c c' /\
    gdtr c' = (u16 (ld32 (ram c) gdt_ptr), ld32 (ram c) (gdt_ptr + 2)).
Proof.
  destruct c as [[a cx d b sp bp si di] sg ip fl c0 c3 gd m]. unfold stack_ok. cpu_cbn. intros [H0 H1] H2 H3. eexists. split.
  - unfold reload_gdt_code, lgdt. exec. run load_linear by lia. exec. run load_linear by lia. exec. rewrite bind_emit.
    unfold ret_near. run pop_word by (cbn; lia). reflexivity.
  - split; [by split|done].
Qed.

Lemma reload_kern_page_table_returns c :
  stack_ok c ->
  exists c', let pdt := frame_of (argument c) in
    reload_kern_page_table_code c = Ret c' tt [Load_cr3 pdt] /\ returned [] c c' /\ cr3 c' = pdt.
Proof.
  destruct c as [[a cx d b sp bp si di] sg ip fl c0 c3 gd m]. unfold stack_ok, argument. cpu_cbn. intros [H0 H1]. eexists.
  pose proof (ld32_range m (sp + 4)) as Hp.
  assert (E : u32 (Z.land (ld32 m (sp + 4)) 4294963200) = frame_of (ld32 m (sp + 4)))
    by (unfold frame_of; rewrite land_page_mask by lia; apply u32_small; dlia).
  cbv zeta. split.
  - unfold reload_kern_page_table_code. run load_at_eq by (cbn; lia). cpu_cbn. exec. rewrite E, bind_emit.
    unfold ret_near. run pop_word by (cbn; lia). reflexivity.
  - split; [by split|done].
Qed.

Lemma load_idt_returns c :
  stack_ok c -> exists c', load_idt_code c = Ret c' tt [Lidt (argument c)] /\ returned [] c c'.
Proof.
  destruct c as [[a cx d b sp bp si di] sg ip fl c0 c3 gd m]. unfold stack_ok, argument. cpu_cbn. intros [H0 H1]. eexists. split.
  - unfold load_idt_code. run load_at_eq by (cbn; lia). cpu_cbn. exec. rewrite bind_emit. unfold ret_near.
    run pop_word by (cbn; lia). reflexivity.
  - by split.
Qed.

Lemma get_cr2_returns c cr2 p :
  stack_ok c -> word_ok cr2 -> 0 <= p -> p + 4 <= 4294967296 -> disjoint_blocks p 4 (g_esp (gpr c)) 4 ->
  exists c', get_cr2_code cr2 p c = Ret c' tt [] /\ returned [p] c c' /\ ld32 (ram c') p = cr2.
Proof.
  destruct c as [[a cx d b sp bp si di] sg ip fl c0 c3 gd m]. unfold stack_ok, word_ok, disjoint_blocks. cpu_cbn.
  intros [H0 H1] H2 H3 H4 Hd. eexists. split; [|split].
  - unfold get_cr2_code. exec. rewrite u32_small by lia. run store_linear by lia. cpu_cbn. unfold ret_near. run pop_word by (cbn; lia). reflexivity.
  - split; [cpu_cbn..|frame]; try done. by ld32s.
  - cpu_cbn. by rewrite ld32_st32_eq, u32_small by lia.
Qed.

Lemma get_esp_returns c :
  stack_ok c -> exists c', get_esp_code c = Ret c' tt [] /\ returned [] c c' /\ g_eax (gpr c') = g_esp (gpr c).
Proof.
  destruct c as [[a cx d b sp bp si di] sg ip fl c0 c3 gd m]. unfold stack_ok. cpu_cbn. intros [H0 H1]. eexists. split.
  - unfold get_esp_code. run mov_reg_eq by (cbn; unfold word_ok; lia). cpu_cbn. unfold ret_near. run pop_word by (cbn; lia). reflexivity.
  - split; [by split|done].
Qed.

Lemma get_eflags_returns c :
  stack_ok c -> word_ok (x_eflags c) ->
  exists c', get_eflags_code c = Ret c' tt [] /\ returned [g_esp (gpr c) - 4] c c' /\ g_eax (gpr c') = x_eflags c.
Proof.
  destruct c as [[a cx d b sp bp si di] sg ip fl c0 c3 gd m]. unfold stack_ok, word_ok. cpu_cbn. intros [H0 H1] Hf. eexists. split.
  - unfold get_eflags_code, pushf. exec. run push_word by (cbn; lia). cpu_cbn. run pop_word by (cbn; lia). cpu_cbn. exec.
    rewrite ld32_st32_eq, !(u32_small fl), (u32_small (sp - 4 + 4)) by lia. unfold ret_near. run pop_word by (cbn; lia). reflexivity.
  - split; [split; [cpu_cbn..|frame]|done]; replace (sp - 4 + 4) with sp by lia; try done. by ld32s.
Qed.

(** C26: The assembly functions the C code calls return to their caller by the
    calling convention, with the interrupt flag, the segment registers and the
    memory they do not write as they were, and do what their callers rely on:
    [get_eflag] writes the flags at its argument, so that the bit
    [get_int_flag] tests is the interrupt flag; [get_eflags] and [get_esp] give
    the flags and the stack pointer of the call; [reload_gdt] loads the table of
    boot.s; [reload_kern_page_table] loads the directory's frame; [load_idt]
    loads from its argument; [get_cr2] leaves the faulting address in its
    variable. *)
Theorem asm_calls_return {BL : BootLayout} {P} c cr2 _CR2 (k : kern P) :
  stack_ok c -> argument c + 4 <= 4294967296 -> disjoint_blocks (argument c) 4 (g_esp (gpr c) - 8) 12 ->
  Forall word_ok [g_ebx (gpr c); x_eflags c; cr2] -> 0 <= gdt_ptr -> gdt_ptr + 6 <= 4294967296 ->
  0 <= _CR2 -> _CR2 + 4 <= 4294967296 -> disjoint_blocks _CR2 4 (g_esp (gpr c)) 4 -> eflags (regs k) = x_eflags c ->
  (exists c', get_eflag_code c = Ret c' tt [] /\ returned [argument c; g_esp (gpr c) - 4; g_esp (gpr c) - 8] c c' /\
    ld32 (ram c') (argument c) = x_eflags c /\
    get_int_flag k = Ret k (Z.land (Z.shiftr (ld32 (ram c') (argument c)) 9) 1 =? 1) []) /\
  (exists c', get_eflags_code c = Ret c' tt [] /\ returned [g_esp (gpr c) - 4] c c' /\ g_eax (gpr c') = x_eflags c) /\
  (exists c', get_esp_code c = Ret c' tt [] /\ returned [] c c' /\ g_eax (gpr c') = g_esp (gpr c)) /\
  (exists c', reload_gdt_code c = Ret c' tt [Lgdt] /\ returned [] c c' /\
    gdtr c' = (u16 (ld32 (ram c) gdt_ptr), ld32 (ram c) (gdt_ptr + 2))) /\
  (exists c', reload_kern_page_table_code c = Ret c' tt [Load_cr3 (frame_of (argument c))] /\ returned [] c c' /\
    cr3 c' = frame_of (argument c)) /\
  (exists c', load_idt_code c = Ret c' tt [Lidt (argument c)] /\ returned [] c c') /\
  (exists c', get_cr2_code cr2 _CR2 c = Ret c' tt [] /\ returned [_CR2] c c' /\ ld32 (ram c') _CR2 = cr2).
Proof.
  intros Hs Ha Hd Hw Hg Hg' H0 H1 Hd2 Hk. split_Forall.
  destruct (get_eflag_returns c _ Hs eq_refl) as (c' & E & Hr & Ep); [done..|].
  split_and!; [exists c'|by apply get_eflags_returns|by apply get_esp_returns|by apply reload_gdt_returns
    |exact (reload_kern_page_table_returns c Hs)|by apply load_idt_returns|by apply get_cr2_returns].
  split_and!; [exact E|exact Hr|exact Ep|]. unfold get_int_flag. by rewrite bind_gets, Hk, Ep.
Qed.
End switch.

(** ** A concrete switch *)

Module Small.
Definition writes (m : mem) (a : Z) (l : list Z) : mem := foldl (fun m p => st32 m (a + 4 * p.1) p.2) m (imap (fun i x => (Z.of_nat i, x)) l).
Definition next_ctx : context_t := Build_context_t 21 22 23 24 25 26 514 12280.
Definition ram0 : mem := writes (writes (writes ∅ 65536 [5000; 4148; 8244]) 8244 (ctx_words next_ctx)) 12280 [6000].
Definition caller : cpu := Cpu (Gprs 10 11 12 13 65536 14 15 16) (Segs 8 16 16 16 24 16) 0 2 0 0 (0, 0) ram0.
Definition block (c : context_t) : TCB_t := Build_TCB_t 0 TASK_READY 0 10 0 1 1 0 1 (Build_bitmap 0 0 0) 0 c TCB_MAGIC_NUMBER.
Definition kernel : kern unit :=
  Build_kern (Build_vmm ram0 tt (Build_bitmap 0 0 0) 1)
    {[ 4096 := block (context_of caller); 8192 := block next_ctx ]} 8192 (context_of caller) 0.

Lemma switching : at_switch caller kernel 4096 8192 4148 8244 (block (context_of caller)) (block next_ctx).
Proof.
  split.
  - split; try (unfold disjoint_blocks; cbn; lia); [by vm_compute|].
    repeat (apply Forall_cons; split; [unfold word_ok; cbn; lia|]). apply Forall_nil_2.
  - split; try (unfold disjoint_blocks; cbn; lia).
    intros i x Hx. do 8 (destruct i as [|i]; [injection Hx as <-; by vm_compute|]). done.
  - by split_and!.
  - done.
  - by intros b _ _.
Qed.
End Small.

Lemma switch_to_refined_witness :
  exists c' (k' : kern unit), switch_to_code (T := linear) Small.caller = Ret c' tt eoi /\ x_eip c' = Threads.eip k' /\
    g_esp (gpr c') = 12284 /\ Threads.eip k' = 6000.
Proof.
  pose (VL := Build_VmmLayout 0 0 0).
  destruct (switch_to_refined Small.caller Small.kernel 4096 8192 4148 8244 _ _ Small.switching) as (c' & k' & E & E' & Er & Ei & _).
  exists c', k'. split; [exact E|]. split; [by rewrite Ei|]. clear Er. vm_compute in E. injection E as <-. split; [done|]. by rewrite Ei.
Defined.

Lemma asm_calls_return_witness :
  exists c', get_eflag_code (T := linear) Small.caller = Ret c' tt [] /\ returned [argument Small.caller; 65532; 65528] Small.caller c' /\
    ld32 (ram c') (argument Small.caller) = 2.
Proof.
  assert (Ea : argument Small.caller = 4148) by (by vm_compute).
  destruct (asm_calls_return (BL := BootMap.Small.layout) Small.caller 4096 20000 Small.kernel) as ((c' & E & Hr & Ep & _) & _);
    rewrite ?Ea; try first [reflexivity | unfold stack_ok, disjoint_blocks; cbn [gdt_ptr BootMap.Small.layout Small.caller gpr g_esp]; lia].
  - repeat (apply Forall_cons; split; [by split|]). apply Forall_nil_2.
  - exists c'. split; [exact E|]. split; [exact Hr|exact Ep].
Defined.
