(* ===== verification/Preempt.v ===== *)
(** * Preemption

    A timer interrupt ends in [schedule], which calls [switch_to] on the stack of
    the interrupted thread; much later another thread's call of [switch_to]
    comes back there, the handler returns, and the interrupted code goes on.
    This file puts the entry and exit code of interrupts around two executions of
    [switch_to], with the C code between them and all that happens while the
    thread is away as parameters. *)

From S2P Require Import Prelude Memory Bitmap PageTable Tcb Pmm Vmm Tss UserVm Threads ThreadsThm X86 Boot BootThm IntrAsm IntrAsmThm AsmCalls.

Section preempt.
#[local] Existing Instance linear.
Context {TL : TssLayout}.

(** ** Away and back *)

(** [len] bytes at [a] are the same. *)
Definition same_bytes (m m' : mem) (a len : Z) : Prop := forall b, a <= b < a + len -> ld8 m' b = ld8 m b.

Lemma same_bytes_trans m1 m2 m3 a len : same_bytes m1 m2 a len -> same_bytes m2 m3 a len -> same_bytes m1 m3 a len.
Proof. intros H1 H2 b Hb. by rewrite H2, H1. Qed.
Lemma same_bytes_sub m m' a len a' len' : a <= a' -> a' + len' <= a + len -> same_bytes m m' a len -> same_bytes m m' a' len'.
Proof. intros H0 H1 H b Hb. apply H. lia. Qed.
Lemma same_bytes_word m m' a len b : same_bytes m m' a len -> a <= b -> b + 4 <= a + len -> ld32 m' b = ld32 m b.
Proof. intros H H0 H1. apply ld32_ext. intros i Hi. apply H. lia. Qed.
Lemma same_bytes_words m m' a l : same_bytes m m' a (4 * length l) -> words_at m a l -> words_at m' a l.
Proof.
  intros H Hw i x Hx. rewrite <- (Hw _ _ Hx). pose proof (lookup_lt_Some _ _ _ Hx). apply (same_bytes_word _ _ a (4 * length l)); [done|lia|lia].
Qed.

(** What [switch_to] writes: the context of the old thread, two words below its
    stack pointer, and one below that of the new thread. *)
Lemma saved_same c na xa a len :
  call_ok c na xa -> 0 <= a -> a + len <= 4294967296 ->
  disjoint_blocks a len na 32 -> disjoint_blocks a len (g_esp (gpr c) - 8) 8 ->
  same_bytes (ram c) (saved_mem (ram c) na (context_of c)) a len.
Proof.
  intros [Hs _ _ Hn _] H0 H1 D1 D2 b Hb. change (g_esp (gpr c)) with (esp (context_of c)) in *. unfold disjoint_blocks, saved_mem in *.
  by rewrite !ld8_st32_out by lia.
Qed.
Lemma switched_same c na xa x a len :
  call_ok c na xa -> resumes c na xa x -> 0 <= a -> a + len <= 4294967296 ->
  disjoint_blocks a len na 32 -> disjoint_blocks a len (g_esp (gpr c) - 8) 8 -> disjoint_blocks a len (esp x - 4) 4 ->
  same_bytes (ram c) (ram (switched_cpu c na xa x)) a len.
Proof.
  intros H [_ _ Hs _ _] H0 H1 D1 D2 D3. eapply same_bytes_trans; [by apply (saved_same c na xa)|].
  intros b Hb. unfold switched_cpu, disjoint_blocks in *. cpu_cbn. by rewrite ld8_st32_out by lia.
Qed.

(** The thread that called [switch_to] in [c] is left alone until the call of
    [switch_to] in [c3]: its context, at [na], is as it was saved, and of its
    stack the [len] bytes from the return address on; the caller in [c3] has
    its own context, at [na3], and its own stack; and the segments are the same. *)
Record left_alone (c : cpu) (na xa : Z) (x : context_t) (len : Z) (c3 : cpu) (na3 : Z) : Prop := {
  la_context : same_bytes (ram (switched_cpu c na xa x)) (ram c3) na 32;
  la_stack : same_bytes (ram (switched_cpu c na xa x)) (ram c3) (g_esp (gpr c)) len;
  la_call : call_ok c3 na3 na;
  la_next : disjoint_blocks (g_esp (gpr c) - 8) (8 + len) (esp x - 4) 4;
  la_own : disjoint_blocks (g_esp (gpr c) - 8) (8 + len) na 32 /\ disjoint_blocks (g_esp (gpr c) - 8) (8 + len) na3 32 /\
    disjoint_blocks (g_esp (gpr c) - 8) (8 + len) (g_esp (gpr c3) - 8) 8;
  la_apart : disjoint_blocks na 32 na3 32 /\ disjoint_blocks na 32 (g_esp (gpr c3) - 8) 8;
  la_segs : seg c3 = seg c
}.

(** The second call finds the thread as it was at the first. *)
Lemma left_alone_resumes c na xa x len c3 na3 :
  call_ok c na xa -> resumes c na xa x -> left_alone c na xa x len c3 na3 -> 4 <= len ->
  g_esp (gpr c) + len <= 4294967296 -> resumes c3 na3 na (context_of c).
Proof.
  intros H Hx [L1 L2 L3 L4 (L5 & L6 & L7) (L8 & L9) L10] Hlen Hr. pose proof (co_stack _ _ _ H) as Hs. pose proof (co_now _ _ _ H) as Hn.
  change (esp (context_of c)) with (g_esp (gpr c)) in *.
  split.
  - apply (same_bytes_words (ram (switched_cpu c na xa x))); [exact L1|]. unfold switched_cpu. cpu_cbn.
    destruct (re_stack _ _ _ _ Hx). destruct (re_stack_apart _ _ _ _ Hx) as [D _]. unfold disjoint_blocks in *.
    apply words_at_st32; [lia|cbn; lia|lia|lia|unfold disjoint_blocks; cbn; lia|]. by apply (saved_words _ _ xa).
  - done.
  - change (esp (context_of c)) with (g_esp (gpr c)). lia.
  - done.
  - change (esp (context_of c)) with (g_esp (gpr c)). unfold disjoint_blocks in *. lia.
Qed.

(** Seen from the thread, [switch_to] is a function that returns as compiled
    functions do, with all registers of the context back. *)
Lemma switched_back c na xa x len c3 na3 :
  call_ok c na xa -> resumes c na xa x -> left_alone c na xa x len c3 na3 -> 12 <= len -> g_esp (gpr c) + len <= 4294967296 ->
  exists c4, switch_to_code c3 = Ret c4 tt eoi /\ abi (len - 12) c c4 /\
    x_eflags c4 = x_eflags c /\ g_ecx (gpr c4) = g_ecx (gpr c) /\ g_edx (gpr c4) = g_edx (gpr c) /\
    cr0 c4 = cr0 c3 /\ cr3 c4 = cr3 c3 /\ gdtr c4 = gdtr c3.
Proof.
  intros H Hx HL Hlen Hr. pose proof (left_alone_resumes _ _ _ _ _ _ _ H Hx HL ltac:(lia) Hr) as Hx3.
  destruct HL as [L1 L2 L3 L4 (L5 & L6 & L7) (L8 & L9) L10]. pose proof (co_stack _ _ _ H) as Hs.
  exists (switched_cpu c3 na3 na (context_of c)). split; [by apply switch_to_code_eq|].
  assert (S : same_bytes (ram c) (ram (switched_cpu c3 na3 na (context_of c))) (g_esp (gpr c)) len).
  { unfold disjoint_blocks in *. eapply same_bytes_trans; [apply (switched_same c na xa x); [done|done|lia|lia|unfold disjoint_blocks; lia..]|].
    eapply same_bytes_trans; [exact L2|]. apply (switched_same c3 na3 na (context_of c)); [done|done|lia|lia|unfold disjoint_blocks; lia..|].
    change (esp (context_of c)) with (g_esp (gpr c)). unfold disjoint_blocks. lia. }
  split; [|by split_and!]. split; try done.
  - unfold switched_cpu. cpu_cbn. change (esp (context_of c)) with (g_esp (gpr c)). apply u32_small. lia.
  - change (x_eip (switched_cpu c3 na3 na (context_of c))) with (ld32 (ram (switched_cpu c3 na3 na (context_of c))) (g_esp (gpr c))).
    apply (same_bytes_word _ _ _ _ _ S); lia.
  - intros b Hb. apply S. lia.
Qed.

(** ** The interrupted thread *)

(** The timer's handler: the C code [pre] up to the call of [switch_to], what
    happens until another thread calls it again, and the C code [post] that the
    thread still has to do. *)
Definition preempted (pre away post : M cpu unit) : M cpu unit :=
  pre ;; switch_to_code ;; away ;; switch_to_code ;; post.

(** [pre] and [post] are compiled code around a call: with [len] bytes of stack
    between the call and the [k] bytes behind the arguments of the function,
    [post] returns as the calling convention says when the callee did.  And the
    thread is left alone while it is away. *)
Record preemption (k : Z) (pre away post : M cpu unit) (c1 : cpu) (c3 : cpu) : Prop := {
  pe_run : exists c na xa x na3 t1 t2,
    pre c1 = Ret c tt t1 /\ call_ok c na xa /\ resumes c na xa x /\
    away (switched_cpu c na xa x) = Ret c3 tt t2 /\
    left_alone c na xa x (g_esp (gpr c1) + 12 + k - g_esp (gpr c)) c3 na3 /\
    0 <= k /\ g_esp (gpr c) <= g_esp (gpr c1) /\ g_esp (gpr c1) + 12 + k <= 4294967296 /\
    forall c4, abi (g_esp (gpr c1) + k - g_esp (gpr c)) c c4 -> cr0 c4 = cr0 c3 -> cr3 c4 = cr3 c3 -> gdtr c4 = gdtr c3 ->
      exists c2 t3, post c4 = Ret c2 tt t3 /\ abi k c1 c2 /\ cr0 c2 = cr0 c4 /\ cr3 c2 = cr3 c4 /\ gdtr c2 = gdtr c4
}.

Lemma preempted_abi k pre away post c1 c3 :
  preemption k pre away post c1 c3 ->
  exists c2 t, preempted pre away post c1 = Ret c2 tt t /\ abi k c1 c2 /\ cr0 c2 = cr0 c3 /\ cr3 c2 = cr3 c3 /\ gdtr c2 = gdtr c3.
Proof.
  intros [(c & na & xa & x & na3 & t1 & t2 & E1 & H & Hx & E2 & HL & Hk & Hs & Hr & Hpost)].
  destruct (switched_back _ _ _ _ _ _ _ H Hx HL) as (c4 & E3 & A & _ & _ & _ & R0 & R3 & RG); [lia|lia|].
  destruct (Hpost c4) as (c2 & t3 & E4 & A2 & Q0 & Q3 & QG); [|done..|].
  { replace (g_esp (gpr c1) + 12 + k - g_esp (gpr c) - 12) with (g_esp (gpr c1) + k - g_esp (gpr c)) in A by lia. exact A. }
  exists c2. eexists. split; [|by split_and!; [|congruence..]].
  unfold preempted. rewrite (bind_ret_eq _ _ _ _ _ _ E1), (bind_ret_eq _ _ _ _ _ _ (switch_to_code_eq _ _ _ _ H Hx)),
    (bind_ret_eq _ _ _ _ _ _ E2), (bind_ret_eq _ _ _ _ _ _ E3), E4. reflexivity.
Qed.

(** C7: Preemption is transparent to a thread of the kernel: interrupted anywhere
    by [n], switched away from by its handler and switched back to by some other
    thread, the code goes on with all its registers, segments, flags and its
    program counter as they were, provided that nobody wrote to the thread's
    context and to the part of its stack in use, and with the address space the
    other thread has loaded for it. *)
Theorem preemption_transparent c handler n ra pre away post :
  widths c -> Z.land (s_cs (seg c)) 3 = 0 -> 256 <= g_esp (gpr c) -> n ∉ have_errocode -> 0 <= n < 256 -> 0 <= ra < 4294967296 ->
  (forall c1, at_handler c n ra (top_inner c) (g_esp (gpr c)) (s_ss (seg c)) c1 -> exists c3, preemption 64 pre away post c1 c3) ->
  exists c1 c3 t m', at_handler c n ra (top_inner c) (g_esp (gpr c)) (s_ss (seg c)) c1 /\ preemption 64 pre away post c1 c3 /\
    interrupt handler None n ra (preempted pre away post) c =
      Ret (Cpu (gpr c) (seg c) (x_eip c) (x_eflags c) (cr0 c3) (cr3 c3) (gdtr c3) m') tt (t ++ [Outb 160 32; Outb 32 32; Iret]).
Proof.
  intros Hw Hl Hs Hn Hn2 Hra Hpre.
  destruct (kernel_interrupt_eq c handler None n ra (preempted pre away post) Hw Hl Hs Hn Hn2 Hra) as (c1 & c2 & t & m' & HA & Er & E & _).
  - intros c1 HA. destruct (Hpre c1 HA) as (c3 & HP). destruct (preempted_abi _ _ _ _ _ _ HP) as (c2 & t & E & A & _). by exists c2, t.
  - destruct (Hpre c1 HA) as (c3 & HP). destruct (preempted_abi _ _ _ _ _ _ HP) as (c2' & t' & E' & _ & Q0 & Q3 & QG).
    rewrite Er in E'. injection E' as <- <-. exists c1, c3, t, m'. rewrite E, Q0, Q3, QG. by split_and!.
Qed.

(** The same for a user task, up to the segments its level may not use. *)
Lemma user_preemption_transparent c handler n ra pre away post :
  user_level c -> n ∉ have_errocode -> 0 <= n < 256 -> 0 <= ra < 4294967296 ->
  (forall c1, at_handler c n ra (top_outer c) (tss_esp c) (tss_ss c) c1 -> exists c3, preemption 72 pre away post c1 c3) ->
  exists c1 c3 t m', at_handler c n ra (top_outer c) (tss_esp c) (tss_ss c) c1 /\ preemption 72 pre away post c1 c3 /\
    interrupt handler None n ra (preempted pre away post) c =
      Ret (Cpu (gpr c) (user_segs (seg c)) (x_eip c) (x_eflags c) (cr0 c3) (cr3 c3) (gdtr c3) m') tt
        (t ++ [Outb 160 32; Outb 32 32; Iret]).
Proof.
  intros Hu Hn Hn2 Hra Hpre.
  destruct (user_interrupt_cases c handler None n ra (preempted pre away post) Hu Hn Hn2 Hra) as (c1 & c2 & t & m' & HA & Er & E & _).
  - intros c1 HA. destruct (Hpre c1 HA) as (c3 & HP). destruct (preempted_abi _ _ _ _ _ _ HP) as (c2 & t & E & A & _). by exists c2, t.
  - destruct (Hpre c1 HA) as (c3 & HP). destruct (preempted_abi _ _ _ _ _ _ HP) as (c2' & t' & E' & _ & Q0 & Q3 & QG).
    rewrite Er in E'. injection E' as <- <-. exists c1, c3, t, m'. rewrite E, Q0, Q3, QG. by split_and!.
Qed.
End preempt.

(** ** A concrete preemption *)

Module Preempted.
#[local] Existing Instance linear.
#[local] Existing Instance IntrAsmThm.Small.tss.

Ltac words := repeat first [rewrite ld32_st32_eq | rewrite ld32_st32_out by lia]; reflexivity.

(** The contexts of the interrupted thread and of the other one are at 4148
    and 8244; the other one goes on at 6000, with its stack at 12280. *)
Definition other : context_t := Build_context_t 21 22 23 24 25 26 514 12280.
Definition ram0 : mem := AsmCalls.Small.writes (AsmCalls.Small.writes ∅ 8244 (ctx_words other)) 12280 [6000].
Definition thread : cpu := Cpu (Gprs 10 11 12 13 65536 15 16 17) (Segs 8 16 16 16 24 16) 1000 518 0 0 (0, 0) ram0.

(** The handler clears the scratch registers and calls [switch_to]; the other
    thread calls it back at once; the handler returns. *)
Definition pre : M cpu unit := mov ECX 0 ;; mov EDX 0 ;; push 8244 ;; push 4148 ;; push 7000.
Definition away : M cpu unit := push 4148 ;; push 8244 ;; push 9000.
Definition post : M cpu unit := update ESP (fun x => x + 8) ;; ret_near.

Definition at_call (c1 : cpu) : cpu :=
  Cpu (Gprs (g_eax (gpr c1)) 0 0 13 65448 15 16 17) (seg c1) (x_eip c1) (x_eflags c1) (cr0 c1) (cr3 c1) (gdtr c1)
    (st32 (st32 (st32 (ram c1) 65456 8244) 65452 4148) 65448 7000).

Section handler.
Context (c1 : cpu).
Hypothesis (HA : at_handler thread 32 6500 (top_inner thread) 65536 16 c1).

Lemma handler_regs : g_esp (gpr c1) = 65460 /\ g_ebx (gpr c1) = 13 /\ g_ebp (gpr c1) = 15 /\ g_esi (gpr c1) = 16 /\ g_edi (gpr c1) = 17 /\
  x_eflags c1 = clear_if 518 /\ ld32 (ram c1) 65460 = 6500.
Proof.
  destruct HA as [H1 (H2 & _) (H3 & H4 & H5 & H6) _ H7 _ _]. change (top_inner thread) with 65524 in *.
  split; [rewrite H1; lia|]. by split_and!.
Qed.

Lemma pre_eq : pre c1 = Ret (at_call c1) tt [].
Proof.
  destruct handler_regs as (R1 & R2 & R3 & R4 & R5 & _). clear HA. unfold at_call.
  destruct c1 as [[a cx d b sp bp si di] sg ip fl r0 r3 gd m]. cbn in R1, R2, R3, R4, R5. subst. cpu_cbn.
  unfold pre. exec. run push_word by (cbn; lia). cpu_cbn. run push_word by (cbn; lia). cpu_cbn. rewrite push_word by (cbn; lia). reflexivity.
Qed.

(** The memory below the handler's stack is that of the thread. *)
Lemma ram_low b : 0 <= b < 65448 -> ld8 (ram (at_call c1)) b = ld8 ram0 b.
Proof.
  intros Hb. unfold at_call. cpu_cbn. rewrite !ld8_st32_out by lia. apply (ah_rest _ _ _ _ _ _ _ HA); [lia|].
  change (top_inner thread) with 65524. lia.
Qed.
Lemma words_low a l : 0 <= a -> a + 4 * length l <= 65448 -> words_at ram0 a l -> words_at (ram (at_call c1)) a l.
Proof. intros H0 H1 Hw. apply (same_bytes_words ram0); [|done]. intros b Hb. apply ram_low. lia. Qed.

Lemma call_at : call_ok (at_call c1) 4148 8244.
Proof.
  destruct handler_regs as (_ & _ & _ & _ & _ & R6 & _). unfold at_call. split; cpu_cbn; try (unfold disjoint_blocks; lia).
  - change (65448 + 4) with 65452. change (65448 + 8) with 65456. split; words.
  - rewrite R6. change (clear_if 518) with 6. unfold context_of, ctx_words. cbn. repeat (apply Forall_cons; split; [unfold word_ok, clear_if; cbn; lia|]). apply Forall_nil_2.
Qed.
Lemma next_at : resumes (at_call c1) 4148 8244 other.
Proof.
  split; try (unfold disjoint_blocks, at_call; cbn; lia).
  apply words_low; [lia|cbn; lia|]. intros i x Hx. do 8 (destruct i as [|i]; [injection Hx as <-; by vm_compute|]). done.
Qed.

Definition away_cpu : cpu := switched_cpu (at_call c1) 4148 8244 other.
Definition back_cpu : cpu :=
  Cpu (Gprs (g_eax (gpr away_cpu)) 23 24 22 12272 21 25 26) (seg away_cpu) (x_eip away_cpu) (x_eflags away_cpu) (cr0 away_cpu) (cr3 away_cpu)
    (gdtr away_cpu) (st32 (st32 (st32 (ram away_cpu) 12280 4148) 12276 8244) 12272 9000).

Lemma away_eq : away away_cpu = Ret back_cpu tt [].
Proof.
  unfold away, back_cpu. assert (E : exists a m, away_cpu = Cpu (Gprs a 23 24 22 12284 21 25 26) (seg away_cpu) (x_eip away_cpu)
    (x_eflags away_cpu) (cr0 away_cpu) (cr3 away_cpu) (gdtr away_cpu) m) by (eexists _, _; reflexivity).
  destruct E as (a & m & E). rewrite E. cpu_cbn.
  run push_word by (cbn; lia). cpu_cbn. run push_word by (cbn; lia). cpu_cbn. rewrite push_word by (cbn; lia). reflexivity.
Qed.

Lemma back_left_alone : left_alone (at_call c1) 4148 8244 other 88 back_cpu 8244.
Proof.
  assert (W : forall b, 0 <= b < 12272 \/ 12284 <= b < 4294967296 -> ld8 (ram back_cpu) b = ld8 (ram away_cpu) b).
  { intros b Hb. unfold back_cpu. cpu_cbn. by rewrite !ld8_st32_out by lia. }
  split; try (unfold disjoint_blocks, at_call, back_cpu; cbn; lia).
  - intros b Hb. apply W. lia.
  - intros b Hb. unfold at_call in Hb. cbn in Hb. apply W. lia.
  - unfold back_cpu. split; cpu_cbn; try (unfold disjoint_blocks; lia).
    + change (12272 + 4) with 12276. change (12272 + 8) with 12280. split; words.
    + unfold context_of, ctx_words. cbn. repeat (apply Forall_cons; split; [unfold word_ok; cbn; lia|]). apply Forall_nil_2.
  - done.
Qed.

Lemma post_eq c4 : abi 76 (at_call c1) c4 -> exists c2, post c4 = Ret c2 tt [] /\ abi 64 c1 c2 /\ cr0 c2 = cr0 c4 /\ cr3 c2 = cr3 c4 /\ gdtr c2 = gdtr c4.
Proof.
  destruct handler_regs as (R1 & R2 & R3 & R4 & R5 & _ & R7). intros [A1 A2 A3 A4 A5 A6 A7 A8]. unfold at_call in *. cpu_cbn.
  cbn in A1, A2, A3, A4, A5, A7. cbn [gpr g_esp ram] in A8.
  assert (S : forall b, 65460 <= b < 65536 -> ld8 (ram c4) b = ld8 (ram c1) b).
  { intros b Hb. rewrite A8 by lia. by rewrite !ld8_st32_out by lia. }
  assert (Era : ld32 (ram c4) 65460 = 6500) by (rewrite <- R7; apply ld32_ext; intros b Hb; apply S; lia).
  clear A6 A8. destruct c4 as [[a cx d b sp bp si di] sg ip fl r0 r3 gd m]. cbn [gpr g_ebx g_ebp g_esi g_edi g_esp seg ram] in *. subst.
  eexists. split.
  - unfold post. exec. unfold ret_near. change (u32 (65448 + 4 + 8)) with 65460. run pop_word by (cbn; lia). reflexivity.
  - split; [|by split_and!]. split; cpu_cbn; rewrite ?R1, ?R7; try done.
    intros b Hb. apply S. lia.
Qed.

Lemma preemption_ok : preemption 64 pre away post c1 back_cpu.
Proof.
  destruct handler_regs as (R1 & _). split. exists (at_call c1), 4148, 8244, other, 8244, [], [].
  rewrite R1. split; [exact pre_eq|]. split; [exact call_at|]. split; [exact next_at|]. split; [exact away_eq|].
  split; [exact back_left_alone|]. split; [lia|]. split; [by cbn|]. split; [lia|].
  intros c4 A4 _ _ _. destruct (post_eq c4 A4) as (c2 & E & A & Q). by exists c2, [].
Qed.
End handler.

Lemma thread_widths : widths thread.
Proof. split; cbn; solve_Forall. Qed.
End Preempted.

Lemma preemption_transparent_witness :
  exists r0 r3 gd m' t, @interrupt linear IntrAsmThm.Small.tss 5000 None 32 6500 (preempted Preempted.pre Preempted.away Preempted.post) Preempted.thread =
    Ret (Cpu (gpr Preempted.thread) (seg Preempted.thread) 1000 518 r0 r3 gd m') tt t.
Proof.
  destruct (preemption_transparent (TL := IntrAsmThm.Small.tss) Preempted.thread 5000 32 6500 Preempted.pre Preempted.away Preempted.post
    Preempted.thread_widths eq_refl) as (c1 & c3 & t & m' & _ & _ & E);
    [cbn; lia|unfold have_errocode; set_solver|lia|lia| |].
  - intros c1 HA. exists (Preempted.back_cpu c1). by apply Preempted.preemption_ok.
  - exists (cr0 c3), (cr3 c3), (gdtr c3), m', (t ++ [Outb 160 32; Outb 32 32; Iret]). exact E.
Defined.
