(* ===== verification/ThreadsInv.v ===== *)
(** * The invariant of the threads

    [threads_inv] holds after [threads_init] and is kept by every operation of
    threads.c as its callers use it; in its states the operations return. *)

From S2P Require Import Prelude Memory CString Bitmap KernLog Pmm PageTable Tcb Vmm VmmThm Tss UserVm Threads Ring ThreadsThm.

Section inv.
Context {P : Type} {PA : PageAllocator P} {L : VmmLayout} {TL : TssLayout} {HL : ThreadLayout}.
Implicit Types (s : kern P) (tc : gmap Z TCB_t).

(** The current thread [cur] and the others, [rest], form a ring of well-formed
    threads; only the current one may be marked running; the main thread is
    among them, with the number 0. *)
Record threads_inv tc (cur : Z) (rest : list Z) : Prop := {
  ti_ring : ring tc cur rest;
  ti_nz : 0 ∉ cur :: rest;
  ti_ok : forall x t, x ∈ cur :: rest -> tc !! x = Some t -> thread_ok t;
  ti_running : forall x t, x ∈ rest -> tc !! x = Some t -> task_status t <> TASK_RUNNING;
  ti_main_in : main_TCB ∈ cur :: rest;
  ti_main_tid : exists t, tc !! main_TCB = Some t /\ tid t = 0
}.

(** Updates of a block that keep what the ring is made of. *)
Record keeps (f : TCB_t -> TCB_t) : Prop := {
  kp_next : forall t, next_tcb (f t) = next_tcb t;
  kp_tid : forall t, tid (f t) = tid t;
  kp_ok : forall t, thread_ok t -> thread_ok (f t)
}.

Lemma keeps_status v : keeps (set_status v).
Proof. split; try done. by intros t []. Qed.
Lemma keeps_time v : keeps (set_time_left v).
Proof. split; try done. by intros t []. Qed.
Lemma keeps_context v : keeps (set_context v).
Proof. split; try done. by intros t []. Qed.
Lemma keeps_comp f g : keeps f -> keeps g -> keeps (fun t => f (g t)).
Proof. intros [F1 F2 F3] [G1 G2 G3]. split; intros t; [by rewrite F1|by rewrite F2|auto]. Qed.
Lemma keeps_if (b : TCB_t -> bool) f g : keeps f -> keeps g -> keeps (fun t => if b t then f t else g t).
Proof. intros [] []. split; intros t; destruct (b t); auto. Qed.
Lemma keeps_id : keeps (fun t => t).
Proof. by split. Qed.
Hint Resolve keeps_status keeps_time keeps_context keeps_id : core.

Lemma keeps_enter : keeps enter.
Proof. apply (keeps_comp (set_time_left TIME_CONT)); auto. Qed.
Lemma keeps_leave r : keeps (leave r).
Proof.
  apply (keeps_comp (set_context r) (fun t => if bool_decide (task_status t = TASK_RUNNING) then _ else _)); [auto|].
  apply (keeps_if _ (set_status TASK_READY) (fun t => t)); auto.
Qed.
Lemma keeps_self_woken : keeps self_woken.
Proof. apply keeps_if; [auto|]. apply (keeps_comp (set_status TASK_RUNNING)); auto. Qed.
Hint Resolve keeps_enter keeps_leave keeps_self_woken : core.

Lemma lookup_alter_Some {A} (f : A -> A) a (m : gmap Z A) k y :
  alter f a m !! k = Some y -> exists x, m !! k = Some x /\ (y = x /\ k <> a \/ y = f x /\ k = a).
Proof.
  destruct (decide (k = a)) as [->|Hk].
  - rewrite lookup_alter_eq. destruct (m !! a) as [x|]; [|done]. intros [= <-]. eauto.
  - rewrite lookup_alter_ne by congruence. intros H. eauto.
Qed.

Lemma alter_lookup {A} (f : A -> A) a (m : gmap Z A) k x :
  m !! k = Some x -> exists y, alter f a m !! k = Some y /\ (y = x \/ y = f x).
Proof.
  intros E. destruct (decide (k = a)) as [->|Hk].
  - rewrite lookup_alter_eq, E. eauto.
  - rewrite lookup_alter_ne by congruence. eauto.
Qed.

(** A block changed in a way that keeps the ring, and does not mark a thread
    other than the current one as running. *)
Lemma inv_alter tc cur rest f a :
  threads_inv tc cur rest -> keeps f ->
  (a ∈ rest -> forall t, tc !! a = Some t -> task_status (f t) <> TASK_RUNNING) ->
  threads_inv (alter f a tc) cur rest.
Proof.
  intros [Hr Hz Hok Hrun Hm [tm [Htm Htid]]] [K1 K2 K3] Ha. split; [|done| | |done|].
  - eapply ring_ext; [|exact Hr]. by apply nexts_alter.
  - intros x t Hx Ht. apply lookup_alter_Some in Ht as (t0 & Ht0 & [[-> _]|[-> _]]); eauto.
  - intros x t Hx Ht. apply lookup_alter_Some in Ht as (t0 & Ht0 & [[-> _]|[-> ->]]); eauto.
  - destruct (decide (main_TCB = a)) as [<-|Hne].
    + rewrite lookup_alter_eq, Htm. eexists. split; [done|]. by rewrite K2.
    + rewrite lookup_alter_ne by congruence. eauto.
Qed.

Lemma leave_not_running r t : task_status (leave r t) <> TASK_RUNNING.
Proof. unfold leave. by case_bool_decide. Qed.

(** The switch from [cur] to one of the others. *)
Lemma inv_switch tc cur l1 x l2 r :
  threads_inv tc cur (l1 ++ x :: l2) ->
  threads_inv (alter (leave r) cur (alter enter x tc)) x (l2 ++ cur :: l1).
Proof.
  intros H. pose proof (ring_nodup _ _ _ (ti_ring _ _ _ H)) as Hn.
  assert (Hne : x <> cur) by (apply NoDup_cons in Hn as [Hn _]; set_solver).
  assert (Hx : x ∉ l1 /\ x ∉ l2).
  { apply NoDup_cons in Hn as [_ Hn]. apply NoDup_app in Hn as (_ & H1 & H2). apply NoDup_cons in H2 as [H2 _].
    split; [|done]. intros Hin. apply (H1 _ Hin). by left. }
  assert (Hp : forall y, y ∈ x :: l2 ++ cur :: l1 <-> y ∈ cur :: l1 ++ x :: l2) by set_solver.
  destruct H as [Hr Hz Hok Hrun Hm Htm].
  split; [|by rewrite Hp| | |by rewrite Hp|].
  - apply ring_rotate. eapply ring_ext; [|exact Hr].
    by rewrite !nexts_alter by (apply keeps_leave || apply keeps_enter).
  - intros y t Hy Ht. rewrite Hp in Hy. apply lookup_alter_Some in Ht as (t1 & Ht & [[-> _]|[-> _]]);
      apply lookup_alter_Some in Ht as (t2 & Ht & [[-> _]|[-> _]]);
      try apply (kp_ok _ (keeps_leave r)); try apply (kp_ok _ keeps_enter); eauto.
  - intros y t Hy Ht. apply lookup_alter_Some in Ht as (t1 & Ht & [[-> Hyc]|[-> _]]); [|apply leave_not_running].
    apply lookup_alter_Some in Ht as (t2 & Ht & [[-> _]|[-> ->]]); [|set_solver].
    apply (Hrun y); [set_solver|done].
  - destruct Htm as (tm & Htm & Htid). destruct (alter_lookup enter x _ _ _ Htm) as (t1 & E1 & H1).
    destruct (alter_lookup (leave r) cur _ _ _ E1) as (t2 & E2 & H2). exists t2. split; [done|].
    destruct H1 as [->| ->], H2 as [->| ->]; by rewrite ?(kp_tid _ (keeps_leave r)), ?(kp_tid _ keeps_enter).
Qed.

Lemma inv_cur_lookup tc cur rest : threads_inv tc cur rest -> exists t, tc !! cur = Some t /\ thread_ok t.
Proof.
  intros H. destruct (ring_lookup _ _ _ cur (ti_ring _ _ _ H)) as [t Ht]; [by left|].
  exists t. split; [done|]. eapply (ti_ok _ _ _ H); [by left|done].
Qed.

(** ** [schedule] *)

Lemma schedule_cases s rest :
  threads_inv (tcbs s) (cur_tcb s) rest ->
  exists t, tcbs s !! cur_tcb s = Some t /\
  match first_ready (tcbs s) rest with
  | None => schedule s = Ret (set_tcbs (alter self_woken (cur_tcb s)) s) false (self_events t)
  | Some x => exists tx, tcbs s !! x = Some tx /\ x <> cur_tcb s /\
      schedule s = Ret (switched s (cur_tcb s) x tx) true (switch_events s x tx)
  end.
Proof.
  intros H. destruct (inv_cur_lookup _ _ _ H) as (t & Ht & Hok). exists t. split; [done|].
  apply schedule_eq; [apply H| |done|apply Hok|].
  - intros E. apply (ti_nz _ _ _ H). rewrite E. by left.
  - apply Forall_forall. intros x Hx tx Htx. eapply (ti_ok _ _ _ H); [by right|done].
Qed.

Lemma schedule_inv s rest :
  threads_inv (tcbs s) (cur_tcb s) rest ->
  exists s' b t rest', schedule s = Ret s' b t /\ threads_inv (tcbs s') (cur_tcb s') rest'.
Proof.
  intros H. destruct (schedule_cases s rest H) as (t & Ht & Hc).
  destruct (first_ready (tcbs s) rest) as [x|] eqn:E.
  - destruct Hc as (tx & Hx & Hne & Hs). destruct (first_ready_Some _ _ _ E) as (l1 & l2 & -> & _).
    eexists _, _, _, (l2 ++ cur_tcb s :: l1). split; [exact Hs|].
    unfold switched. cbn [tcbs cur_tcb]. by apply inv_switch.
  - eexists _, _, _, rest. split; [exact Hc|]. cbn [tcbs cur_tcb set_tcbs].
    apply inv_alter; [done|auto|]. intros Hin. exfalso.
    pose proof (ring_nodup _ _ _ (ti_ring _ _ _ H)) as Hn. apply NoDup_cons in Hn as [Hn _]. done.
Qed.


(** ** Blocking and waking *)

(** The state [cli_condition] leaves. *)
Definition cli_state (s : kern P) : kern P :=
  if if_flag (regs s) then set_regs (if_off (regs s)) s else s.
Lemma cli_condition_ret s :
  cli_condition s = Ret (cli_state s) (if_flag (regs s)) (if if_flag (regs s) then [Cli] else []).
Proof. rewrite cli_condition_eq. unfold cli_state. by destruct (if_flag (regs s)). Qed.
Lemma cli_state_tcbs s : tcbs (cli_state s) = tcbs s /\ cur_tcb (cli_state s) = cur_tcb s.
Proof. unfold cli_state. by destruct (if_flag (regs s)). Qed.
Lemma cli_state_off s : if_flag (regs (cli_state s)) = false.
Proof. unfold cli_state. destruct (if_flag (regs s)) eqn:E; [apply if_flag_off|done]. Qed.

Lemma cur_not_in tc cur rest : threads_inv tc cur rest -> cur ∉ rest.
Proof. intros H. pose proof (ring_nodup _ _ _ (ti_ring _ _ _ H)) as Hn. by apply NoDup_cons in Hn as [? _]. Qed.

(** The state in which [thread_block] calls [schedule]. *)
Definition block_state (s : kern P) : kern P :=
  set_tcbs (alter (set_status TASK_BLOCKED) (cur_tcb s)) (cli_state s).

Lemma thread_block_eq s rest :
  threads_inv (tcbs s) (cur_tcb s) rest ->
  thread_block_begin s =
    prepend (if if_flag (regs s) then [Cli] else [])
      (bind schedule (fun switched => ret (if_flag (regs s), switched)) (block_state s)) /\
  threads_inv (tcbs (block_state s)) (cur_tcb (block_state s)) rest.
Proof.
  intros H. destruct (cli_state_tcbs s) as [E1 E2]. split.
  - unfold thread_block_begin, get_running_progress. rewrite bind_gets.
    erewrite bind_ret_eq by apply cli_condition_ret.
    destruct (inv_cur_lookup _ _ _ H) as (t & Ht & _). by rewrite bind_upd_tcb by (rewrite E1; eauto).
  - unfold block_state. cbn [tcbs cur_tcb set_tcbs]. rewrite E1, E2. apply inv_alter; [done|auto|].
    intros Hin. by destruct (cur_not_in _ _ _ H).
Qed.

Lemma thread_block_inv s rest :
  threads_inv (tcbs s) (cur_tcb s) rest ->
  exists s' r t rest', thread_block_begin s = Ret s' r t /\ threads_inv (tcbs s') (cur_tcb s') rest'.
Proof.
  intros H. destruct (thread_block_eq s rest H) as [-> Hb].
  destruct (schedule_inv _ _ Hb) as (s' & b & t & rest' & E & Hi).
  erewrite bind_ret_eq by exact E. cbn [prepend ret]. eexists _, _, _, rest'. split; [reflexivity|done].
Qed.

Lemma thread_wakeup_eq s rest a :
  threads_inv (tcbs s) (cur_tcb s) rest -> is_Some (tcbs s !! a) ->
  exists r t, thread_wakeup a s = Ret (set_regs r (set_tcbs (alter (set_status TASK_READY) a) s)) tt t /\
    if_flag r = if_flag (regs s).
Proof.
  intros H Ha. destruct (inv_cur_lookup _ _ _ H) as (t & Ht & _). destruct (cli_state_tcbs s) as [E1 _].
  unfold thread_wakeup, get_running_progress. rewrite bind_gets, (bind_get_tcb _ _ _ _ Ht).
  erewrite bind_ret_eq by apply cli_condition_ret. rewrite bind_upd_tcb by (by rewrite E1).
  rewrite sti_condition_eq. unfold cli_state, prepend. destruct (if_flag (regs s)) eqn:Ef.
  - eexists _, _. split; [reflexivity|]. apply if_flag_on.
  - eexists _, _. split; [reflexivity|]. apply if_flag_off.
Qed.

Lemma thread_wakeup_inv s rest a :
  threads_inv (tcbs s) (cur_tcb s) rest -> is_Some (tcbs s !! a) ->
  exists s' t, thread_wakeup a s = Ret s' tt t /\ threads_inv (tcbs s') (cur_tcb s') rest.
Proof.
  intros H Ha. destruct (thread_wakeup_eq s rest a H Ha) as (r & t & E & _). eexists _, t. split; [exact E|].
  cbn [tcbs cur_tcb set_regs set_tcbs]. by apply inv_alter.
Qed.

(** ** Creation *)

(** The block of a new thread, and its kernel stack: the three words pushed
    under the end of its pages. *)
Definition new_block (tid addr count kind : Z) (pool : bitmap) (pdt next_ : Z) (raw : TCB_t) : TCB_t :=
  let top := addr + count * 4096 - 12 in
  Build_TCB_t top TASK_READY 0 TIME_CONT next_ tid count addr kind
    (if kind =? 0 then pool else user_vmm_pool raw) (if kind =? 0 then pdt else pdt_vaddr raw)
    (with_esp top (with_eflags 514 (context raw))) TCB_MAGIC_NUMBER.

Definition new_stack (m : mem) (addr count func args : Z) : mem :=
  let top := addr + count * 4096 in
  st32 (st32 (st32 m (top - 4) args) (top - 8) exit_addr) (top - 12) func.

Lemma alter_insert_same {A} (f : A -> A) a v (m : gmap Z A) : alter f a (<[a := v]> m) = <[a := f v]> m.
Proof.
  apply map_eq. intros k. destruct (decide (k = a)) as [->|Hk].
  - by rewrite lookup_alter_eq, !lookup_insert_eq.
  - by rewrite lookup_alter_ne, !lookup_insert_ne by congruence.
Qed.
Lemma alter_insert_other {A} (f : A -> A) a b v (m : gmap Z A) :
  a <> b -> alter f a (<[b := v]> m) = <[b := v]> (alter f a m).
Proof.
  intros Hne. apply map_eq. intros k. destruct (decide (k = a)), (decide (k = b)); subst.
  - done.
  - by rewrite lookup_alter_eq, !lookup_insert_ne, lookup_alter_eq by congruence.
  - by rewrite lookup_alter_ne, !lookup_insert_eq by congruence.
  - by rewrite lookup_alter_ne, !lookup_insert_ne, lookup_alter_ne by congruence.
Qed.

Lemma upd_inserted a f t m (V : vmm P) c r e :
  upd_tcb a f (Build_kern V (<[a := t]> m) c r e) = Ret (Build_kern V (<[a := f t]> m) c r e) tt [].
Proof.
  rewrite upd_tcb_eq by (cbn [tcbs]; rewrite lookup_insert_eq; eauto). unfold set_tcbs.
  cbn [tcbs k_vmm cur_tcb regs eip]. by rewrite alter_insert_same.
Qed.

Lemma push_inserted a v t m (V : vmm P) c r e :
  4 <= kern_stack_top t < 4294967296 ->
  push_kern_stack a v (Build_kern V (<[a := t]> m) c r e) =
    Ret (Build_kern (set_mem (st32 (v_mem V) (kern_stack_top t - 4) v) V)
           (<[a := set_stack_top (kern_stack_top t - 4) t]> m) c r e) tt [].
Proof.
  intros Ht. unfold push_kern_stack. rewrite (bind_ret_eq _ _ _ _ _ _ (upd_inserted _ _ _ _ _ _ _ _)).
  rewrite prepend_nil. rewrite (bind_get_tcb _ _ _ (set_stack_top (u32 (kern_stack_top t - 4)) t))
    by (cbn [tcbs]; by rewrite lookup_insert_eq).
  cbn [kern_stack_top set_stack_top]. rewrite u32_small by lia. by rewrite in_mem_store32.
Qed.

Lemma create_TCB_eq tid a count s :
  create_TCB tid a count s =
    Ret (set_tcbs (fun _ => <[a := create_fields tid a count (default (raw_TCB a) (tcbs s !! a))]> (tcbs s)) s) a [].
Proof. done. Qed.

Lemma create_thread_eq s tid func args addr count kind pool pdt c :
  tcbs s !! cur_tcb s = Some c -> addr <> cur_tcb s -> 0 <= addr -> 1 <= count -> addr + count * 4096 < 4294967296 ->
  let raw := default (raw_TCB addr) (tcbs s !! addr) in
  create_thread tid func args addr count kind pool pdt s =
    Ret (Build_kern (set_mem (new_stack (v_mem (k_vmm s)) addr count func args) (k_vmm s))
           (<[addr := new_block tid addr count kind pool pdt (next_tcb c) raw]>
              (alter (set_next_tcb addr) (cur_tcb s) (tcbs s)))
           (cur_tcb s) (if_on (if_off (regs s))) (eip s)) tt [Cli; Sti].
Proof.
  intros Hc Hne Ha Hn Hb raw. unfold create_thread. rewrite (bind_ret_eq _ _ _ _ _ _ (cli_eq s)).
  run (create_TCB_eq tid addr count _) by idtac. rewrite bind_gets. cbn [cur_tcb set_tcbs set_regs tcbs]. fold raw.
  rewrite (bind_get_tcb _ _ _ c) by (cbn [tcbs set_tcbs]; by rewrite lookup_insert_ne). cbv zeta.
  rewrite bind_upd_tcb by (cbn [tcbs set_tcbs]; rewrite lookup_insert_ne by done; eauto).
  unfold set_tcbs, set_regs. cbn [tcbs k_vmm cur_tcb regs eip]. rewrite alter_insert_other by done.
  assert (Et : kern_stack_top (create_fields tid addr count raw) = addr + count * 4096).
  { cbn [create_fields kern_stack_top]. unfold PAGE_SIZE. by rewrite (u32_small (count * 4096)), u32_small by lia. }
  set (t0 := create_fields tid addr count raw) in *. set (m := alter _ _ _).
  rewrite !(bind_ret_eq _ _ _ _ _ _ (upd_inserted _ _ _ _ _ _ _ _)), !prepend_nil.
  set (t1 := set_kind _ _ _ _).
  assert (E1 : kern_stack_top t1 = addr + count * 4096) by done.
  rewrite (bind_ret_eq _ _ _ _ _ _ (push_inserted addr args t1 _ _ _ _ _ ltac:(lia))), prepend_nil, E1.
  set (t2 := set_stack_top (addr + count * 4096 - 4) t1).
  assert (E2 : kern_stack_top t2 = addr + count * 4096 - 4) by done.
  rewrite (bind_ret_eq _ _ _ _ _ _ (push_inserted addr exit_addr t2 _ _ _ _ _ ltac:(lia))), prepend_nil, E2.
  set (t3 := set_stack_top (addr + count * 4096 - 4 - 4) t2).
  assert (E3 : kern_stack_top t3 = addr + count * 4096 - 4 - 4) by done.
  rewrite (bind_ret_eq _ _ _ _ _ _ (push_inserted addr func t3 _ _ _ _ _ ltac:(lia))), prepend_nil, E3.
  rewrite !(bind_ret_eq _ _ _ _ _ _ (upd_inserted _ _ _ _ _ _ _ _)), !prepend_nil, sti_eq.
  unfold prepend. cbn [app]. unfold set_regs. cbn [tcbs k_vmm cur_tcb regs eip].
  unfold set_mem, new_stack. cbn [v_mem v_pages kern_vmm_pool USER_PAGE_DIR_IS_LOADED].
  replace (addr + count * 4096 - 4 - 4) with (addr + count * 4096 - 8) in * by lia.
  replace (addr + count * 4096 - 8 - 4) with (addr + count * 4096 - 12) in * by lia. done.
Qed.

Lemma nexts_insert tc a t : nexts (<[a := t]> tc) = <[a := next_tcb t]> (nexts tc).
Proof. unfold nexts. by rewrite fmap_insert. Qed.

(** A new thread, on pages that held none, joins the ring after the current
    thread. *)
Lemma inv_create tc cur rest addr t c :
  threads_inv tc cur rest -> tc !! cur = Some c -> tc !! addr = None -> addr <> 0 ->
  thread_ok t -> task_status t = TASK_READY -> next_tcb t = next_tcb c ->
  threads_inv (<[addr := t]> (alter (set_next_tcb addr) cur tc)) cur (addr :: rest).
Proof.
  intros H Hc Hnew Ha0 Hok Hst Hnx. pose proof H as [Hr Hz Hoks Hrun Hm (tm & Htm & Htid)].
  assert (Hnin : addr ∉ cur :: rest).
  { intros Hin. destruct (ring_lookup _ _ _ _ Hr Hin) as [u Hu]. congruence. }
  split; [| |intros x u Hx Hu|intros x u Hx Hu| |].
  - eapply ring_insert; [exact Hr|done| |].
    + unfold nexts. by rewrite lookup_fmap, Hc.
    + rewrite nexts_insert, nexts_set_next, Hnx by eauto. done.
  - intros [Hin|[Hin|Hin]%elem_of_cons]%elem_of_cons;
      [apply Hz; rewrite Hin; by left|congruence|apply Hz; by right].
  - destruct (decide (x = addr)) as [->|Hne]; [rewrite lookup_insert_eq in Hu; congruence|].
    apply elem_of_cons in Hx as [Hx|Hx]; [by subst x; rewrite lookup_insert_ne, lookup_alter_eq, Hc in Hu by done;
      injection Hu as <-; destruct (Hoks cur c); [by left|done|split]|].
    apply elem_of_cons in Hx as [Hx|Hx]; [done|].
    rewrite lookup_insert_ne in Hu by done. apply lookup_alter_Some in Hu as (u' & Hu' & [[-> _]|[-> _]]).
    + apply (Hoks x); [by right|done].
    + destruct (Hoks x u'); [by right|done|]. by split.
  - apply elem_of_cons in Hx as [Hx|Hx]; [by rewrite Hx, lookup_insert_eq in Hu; injection Hu as <-; rewrite Hst|].
    assert (Hne : x <> addr) by (intros ->; apply Hnin; by right).
    rewrite lookup_insert_ne in Hu by done. apply lookup_alter_Some in Hu as (u' & Hu' & [[-> _]|[-> _]]);
      exact (Hrun x u' Hx Hu').
  - apply elem_of_cons in Hm as [Hm|Hm]; [rewrite Hm; by left|]. right. by right.
  - rewrite lookup_insert_ne by congruence. destruct (alter_lookup (set_next_tcb addr) cur _ _ _ Htm) as (y & Hy & [->| ->]); eauto.
Qed.

(** ** The end of a thread *)

Lemma remove_thread_eq s rest c :
  threads_inv (tcbs s) (cur_tcb s) rest -> tcbs s !! cur_tcb s = Some c ->
  if decide (tid c = 0) then
    remove_thread s = Ret (set_regs (if_off (regs s)) s) tt [Cli; Printk "ERRO:main thread can`t use function exit\n" []]
  else exists x, last rest = Some x /\
    remove_thread s =
      Ret (set_tcbs (alter (set_next_tcb (next_tcb c)) x) (set_regs (if_off (regs s)) s)) tt [Cli].
Proof.
  intros H Hc. unfold remove_thread. rewrite (bind_ret_eq _ _ _ _ _ _ (cli_eq s)), bind_gets.
  cbn [cur_tcb set_regs]. rewrite (bind_get_tcb _ _ _ c) by done. case_decide as E.
  - by rewrite E.
  - rewrite (proj2 (Z.eqb_neq _ _)), bind_gets by done. pose proof (ti_ring _ _ _ H) as Hr.
    set (s1 := set_regs _ s). pose proof (ring_length _ _ _ Hr) as Hlen. simpl in Hlen.
    destruct (find_previous_eq s1 (cur_tcb s) rest (cur_tcb s) (ring_fuel s1)) as (x & Hx & Ep);
      [exact (ring_chain _ _ _ Hr)|exact (cur_not_in _ _ _ H)|unfold ring_fuel, s1; cbn [tcbs set_regs]; lia|].
    run Ep by idtac. destruct rest as [|b l].
    + exfalso. destruct (ti_main_tid _ _ _ H) as (tm & Htm & Ht0). pose proof (ti_main_in _ _ _ H) as Hin.
      apply list_elem_of_singleton in Hin as Hin. rewrite Hin, Hc in Htm. congruence.
    + exists x. rewrite last_cons_cons in Hx. split; [done|]. rewrite upd_tcb_eq; [done|].
      apply last_Some in Hx as [l' Hl]. destruct (ring_lookup _ _ _ x Hr) as [t Ht]; [|eauto].
      rewrite Hl. right. apply elem_of_app. right. by left.
Qed.

(** The state after [exit] switched from [cur] to the block [b]: no status
    changes, and the address space is not loaded. *)
Definition exited (s : kern P) (tc : gmap Z TCB_t) (b : Z) (tb : TCB_t) : kern P :=
  let r := if_off (regs s) in
  let c := context tb in
  let m' := switch_mem (v_mem (k_vmm s)) r c in
  Build_kern (set_mem m' (k_vmm s)) (alter (set_context r) (cur_tcb s) (alter (set_time_left TIME_CONT) b tc)) b
    (with_esp (u32 (esp c + 4)) c) (ld32 m' (esp c)).

Lemma exit_eq s b l c tb :
  threads_inv (tcbs s) (cur_tcb s) (b :: l) -> tcbs s !! cur_tcb s = Some c -> tcbs s !! b = Some tb ->
  if decide (tid c = 0) then
    exit s = Ret (exited s (tcbs s) b tb) tt ([Cli; Printk "ERRO:main thread can`t use function exit\n" []] ++ eoi)
  else exists x, last (b :: l) = Some x /\
    exit s = Ret (exited s (alter (set_next_tcb b) x (tcbs s)) b tb) tt ([Cli] ++ eoi).
Proof.
  intros H Hc Hb. pose proof (remove_thread_eq s (b :: l) c H Hc) as Hrem.
  assert (Hcb : next_tcb c = b).
  { destruct (ring_chain _ _ _ (ti_ring _ _ _ H)) as [Hn _]. unfold nexts in Hn. rewrite lookup_fmap, Hc in Hn.
    by injection Hn. }
  assert (Hne : cur_tcb s <> b) by (intros E; apply (cur_not_in _ _ _ H); rewrite E; by left).
  assert (G : forall tc u t0, tc !! cur_tcb s = Some c -> tc !! b = Some u -> context u = context tb ->
    remove_thread s = Ret (set_tcbs (fun _ => tc) (set_regs (if_off (regs s)) s)) tt t0 ->
    exit s = Ret (exited s tc b tb) tt (t0 ++ eoi)).
  { intros tc u t0 Hc' Hb' Hu Hr. unfold exit. erewrite bind_ret_eq by exact Hr. rewrite bind_gets.
    cbn [cur_tcb set_tcbs set_regs]. rewrite (bind_get_tcb _ _ _ c) by done. cbv zeta. rewrite Hcb.
    rewrite bind_upd_tcb by (cbn [tcbs set_tcbs]; eauto). rewrite bind_modify.
    rewrite (switch_to_eq _ _ _ c (set_time_left TIME_CONT u)).
    - cbn [context set_time_left]. rewrite Hu. done.
    - cbn [tcbs set_tcbs set_cur]. by rewrite lookup_alter_ne.
    - cbn [tcbs set_tcbs set_cur]. by rewrite lookup_alter_eq, Hb'.
    - done. }
  case_decide.
  - rewrite (G (tcbs s) tb _ Hc Hb eq_refl Hrem). done.
  - destruct Hrem as (x & Hx & Hrem). exists x. split; [done|]. rewrite Hcb in Hrem.
    destruct (alter_lookup (set_next_tcb b) x _ _ _ Hb) as (u & Hu & Hu').
    assert (Hxc : x <> cur_tcb s).
    { apply last_Some in Hx as [l' Hl]. intros ->. apply (cur_not_in _ _ _ H). rewrite Hl. apply elem_of_app. right. by left. }
    eapply (G _ u); [by rewrite lookup_alter_ne|done|by destruct Hu' as [->| ->]|exact Hrem].
Qed.

Lemma exit_inv s b l c tb :
  threads_inv (tcbs s) (cur_tcb s) (b :: l) -> tcbs s !! cur_tcb s = Some c -> tcbs s !! b = Some tb ->
  tid c <> 0 ->
  exists s', exit s = Ret s' tt ([Cli] ++ eoi) /\ threads_inv (tcbs s') (cur_tcb s') l /\ cur_tcb s' = b.
Proof.
  intros H Hc Hb Ht. pose proof (exit_eq s b l c tb H Hc Hb) as E. rewrite decide_False in E by done.
  destruct E as (x & Hx & E). eexists. split; [exact E|]. split; [|done].
  unfold exited. cbn [tcbs cur_tcb]. pose proof H as [Hr Hz Hoks Hrun Hm (tm & Htm & Htid)].
  assert (Hm' : main_TCB ∈ b :: l).
  { apply elem_of_cons in Hm as [Hm|Hm]; [|done]. rewrite Hm, Hc in Htm. congruence. }
  assert (Hb0 : threads_inv (alter (set_next_tcb b) x (tcbs s)) b l).
  { split; [|by intros Hin; apply Hz; right| | |done|].
    - eapply ring_remove; [exact Hr|exact Hx|]. apply nexts_set_next. apply last_Some in Hx as [l' Hl].
      destruct (ring_lookup _ _ _ x Hr) as [t Ht']; [rewrite Hl; right; apply elem_of_app; right; by left|eauto].
    - intros y t Hy Hty. apply lookup_alter_Some in Hty as (t0 & Ht0 & [[-> _]|[-> _]]).
      + apply (Hoks y); [by right|done].
      + destruct (Hoks y t0); [by right|done|]. by split.
    - intros y t Hy Hty. apply lookup_alter_Some in Hty as (t0 & Ht0 & [[-> _]|[-> _]]);
        apply (Hrun y _ ltac:(by right) Ht0).
    - destruct (alter_lookup (set_next_tcb b) x _ _ _ Htm) as (y & Hy & [->| ->]); eauto. }
  assert (Hcn : cur_tcb s ∉ b :: l) by (by eapply cur_not_in).
  apply inv_alter; [apply inv_alter; [done|auto|]|auto|].
  - intros Hin. by destruct (cur_not_in _ _ _ Hb0).
  - intros Hin. destruct Hcn. by right.
Qed.
End inv.
