(* ===== verification/ThreadsSys.v ===== *)
(** * The threads as a system: invariant, fairness, creation and end

    [thread_step] is what can happen while a thread runs: it computes, it is
    preempted, blocks, wakes another thread, creates one, or ends.  Every state
    reachable from [threads_init] satisfies [threads_inv]. *)

From S2P Require Import Prelude Memory CString Bitmap KernLog Pmm PageTable Tcb Vmm VmmThm Tss UserVm Threads.
From S2P Require Import Ring ThreadsThm ThreadsInv.

Section sys.
Context {P : Type} {PA : PageAllocator P} {L : VmmLayout} {TL : TssLayout} {HL : ThreadLayout}.
Implicit Types (s : kern P).

(** ** Computing *)

(** The part of a block the scheduler's decisions depend on. *)
Definition sched_view (t : TCB_t) : Z * task_status_t * Z * (Z * Z * Z) :=
  (next_tcb t, task_status t, tid t, (tcb_magic_number t, is_kern_thread t, pdt_vaddr t)).

(** While the current thread computes, memory, registers and the clock change;
    the blocks, but for their times and contexts, do not. *)
Definition runs (s s1 : kern P) : Prop :=
  cur_tcb s1 = cur_tcb s /\ sched_view <$> tcbs s1 = sched_view <$> tcbs s.

Lemma runs_refl s : runs s s.
Proof. done. Qed.

Lemma runs_lookup s s1 a t1 :
  runs s s1 -> tcbs s1 !! a = Some t1 -> exists t, tcbs s !! a = Some t /\ sched_view t1 = sched_view t.
Proof.
  intros [_ E] Ht. assert (Ha : (sched_view <$> tcbs s1) !! a = (sched_view <$> tcbs s) !! a) by (by rewrite E).
  rewrite !lookup_fmap, Ht in Ha. destruct (tcbs s !! a) as [t|]; [|done]. exists t. split; [done|].
  by apply (inj Some).
Qed.

Lemma runs_sym s s1 : runs s s1 -> runs s1 s.
Proof. intros [E1 E2]. split; symmetry; assumption. Qed.

Lemma runs_nexts s s1 : runs s s1 -> nexts (tcbs s1) = nexts (tcbs s).
Proof.
  intros [_ E]. unfold nexts.
  assert (F : forall tc : gmap Z TCB_t, next_tcb <$> tc = (fun v => v.1.1.1) <$> (sched_view <$> tc))
    by (intros tc; by rewrite <- map_fmap_compose). by rewrite !F, E.
Qed.

Lemma runs_ready s s1 a : runs s s1 -> ready (tcbs s1) a = ready (tcbs s) a.
Proof.
  intros H. unfold ready. destruct (tcbs s1 !! a) as [t1|] eqn:E1.
  - destruct (runs_lookup _ _ _ _ H E1) as (t & -> & Ev). unfold sched_view in Ev. by injection Ev as _ -> _ _ _ _.
  - destruct (tcbs s !! a) as [t|] eqn:E; [|done].
    destruct (runs_lookup _ _ _ _ (runs_sym _ _ H) E) as (t1 & Ht & _). congruence.
Qed.

Lemma runs_inv s s1 rest :
  runs s s1 -> threads_inv (tcbs s) (cur_tcb s) rest -> threads_inv (tcbs s1) (cur_tcb s1) rest.
Proof.
  intros H [Hr Hz Hok Hrun Hm (tm & Htm & Htid)]. pose proof H as [Hc _]. rewrite Hc. split; [|done| | |done|].
  - eapply ring_ext; [by apply runs_nexts|done].
  - intros x t1 Hx Ht1. destruct (runs_lookup _ _ _ _ H Ht1) as (t & Ht & Ev). destruct (Hok x t Hx Ht) as [K1 K2].
    unfold sched_view in Ev. injection Ev as E1 E2 E3 E4 E5 E6. split; [congruence|]. rewrite E5, E6. done.
  - intros x t1 Hx Ht1. destruct (runs_lookup _ _ _ _ H Ht1) as (t & Ht & Ev). pose proof (Hrun x t Hx Ht).
    unfold sched_view in Ev. injection Ev as E1 E2 E3 E4 E5 E6. congruence.
  - destruct (runs_lookup _ _ _ _ (runs_sym _ _ H) Htm) as (t1 & Ht1 & Ev). exists t1. split; [done|].
    unfold sched_view in Ev. injection Ev as E1 E2 E3 E4 E5 E6. congruence.
Qed.

(** ** The steps *)

(** Pages for a new thread: never used for one before, as threads.c never
    gives pages back, and inside the address space. *)
Record fresh_pages (s : kern P) (addr count : Z) : Prop := {
  fp_new : tcbs s !! addr = None;
  fp_addr : 1 <= addr;
  fp_count : 1 <= count;
  fp_end : addr + count * 4096 < 4294967296
}.

Inductive thread_step : kern P -> kern P -> Prop :=
  | step_run s s1 : runs s s1 -> thread_step s s1
  | step_schedule s s' b t : schedule s = Ret s' b t -> thread_step s s'
  | step_block s s' r t : thread_block_begin s = Ret s' r t -> thread_step s s'
  | step_wakeup s s' a t : is_Some (tcbs s !! a) -> thread_wakeup a s = Ret s' tt t -> thread_step s s'
  | step_create s s' id func args addr count kind pool pdt t :
      fresh_pages s addr count -> (kind = 0 -> 0 <= pdt < 4294967296 /\ pdt `mod` 4096 = 0) ->
      create_thread id func args addr count kind pool pdt s = Ret s' tt t -> thread_step s s'
  | step_exit s s' c t :
      tcbs s !! cur_tcb s = Some c -> tid c <> 0 -> exit s = Ret s' tt t -> thread_step s s'.

Lemma create_inv s rest id func args addr count kind pool pdt :
  threads_inv (tcbs s) (cur_tcb s) rest -> fresh_pages s addr count ->
  (kind = 0 -> 0 <= pdt < 4294967296 /\ pdt `mod` 4096 = 0) ->
  exists s' t, create_thread id func args addr count kind pool pdt s = Ret s' tt t /\
    threads_inv (tcbs s') (cur_tcb s') (addr :: rest).
Proof.
  intros H [Hn Ha Hc He] Hk. destruct (inv_cur_lookup _ _ _ H) as (c & Hcur & _).
  rewrite (create_thread_eq s id func args addr count kind pool pdt c Hcur);
    [|intros ->; congruence|lia|lia|lia].
  eexists _, _. split; [reflexivity|]. cbn [tcbs cur_tcb].
  eapply inv_create; [done|done|done|lia| |done|done].
  split; [done|]. cbn [is_kern_thread new_block pdt_vaddr]. intros ->. cbn [Z.eqb]. by apply Hk.
Qed.

Lemma exit_rest s rest c :
  threads_inv (tcbs s) (cur_tcb s) rest -> tcbs s !! cur_tcb s = Some c -> tid c <> 0 ->
  exists b l tb, rest = b :: l /\ tcbs s !! b = Some tb.
Proof.
  intros H Hc Ht. destruct rest as [|b l].
  - exfalso. destruct (ti_main_tid _ _ _ H) as (tm & Htm & Htid). pose proof (ti_main_in _ _ _ H) as Hin.
    apply list_elem_of_singleton in Hin as Hin. rewrite Hin, Hc in Htm. congruence.
  - destruct (ring_lookup _ _ _ b (ti_ring _ _ _ H)) as [tb Hb]; [right; by left|]. eauto.
Qed.

Lemma thread_step_inv s s' rest :
  threads_inv (tcbs s) (cur_tcb s) rest -> thread_step s s' ->
  exists rest', threads_inv (tcbs s') (cur_tcb s') rest'.
Proof.
  intros H Hst. destruct Hst as [s s1 Hr|s s' b t E|s s' r t E|s s' a t Ha E|s s' id f g ad n k pool pdt t Hf Hk E|s s' c t Hc Ht E].
  - exists rest. by eapply runs_inv.
  - destruct (schedule_inv s rest H) as (s1 & b1 & t1 & rest' & E1 & Hi). rewrite E in E1. injection E1 as <- _ _. eauto.
  - destruct (thread_block_inv s rest H) as (s1 & b1 & t1 & rest' & E1 & Hi). rewrite E in E1. injection E1 as <- _ _. eauto.
  - destruct (thread_wakeup_inv s rest a H Ha) as (s1 & t1 & E1 & Hi). rewrite E in E1. injection E1 as <- _. eauto.
  - destruct (create_inv s rest id f g ad n k pool pdt H Hf Hk) as (s1 & t1 & E1 & Hi).
    rewrite E in E1. injection E1 as <- _. eauto.
  - destruct (exit_rest s rest c H Hc Ht) as (b & l & tb & -> & Hb).
    destruct (exit_inv s b l c tb H Hc Hb Ht) as (s1 & E1 & Hi & _). rewrite E in E1. injection E1 as <- _. eauto.
Qed.

Lemma threads_init_inv s :
  main_TCB <> 0 ->
  exists s', threads_init s = Ret s' tt [] /\ threads_inv (tcbs s') (cur_tcb s') [] /\ cur_tcb s' = main_TCB.
Proof.
  intros Hm. eexists. split; [reflexivity|]. cbn [cur_tcb set_cur tcbs set_tcbs]. split; [|done].
  set (t := main_fields _ _).
  assert (Ht : <[main_TCB := t]> (tcbs s) !! main_TCB = Some t) by (by rewrite lookup_insert_eq).
  split.
  - split; [apply NoDup_singleton|]. cbn [chain]. unfold nexts. by rewrite lookup_fmap, Ht.
  - intros Hin%list_elem_of_singleton. congruence.
  - intros x u Hx Hu. apply list_elem_of_singleton in Hx as Hx. rewrite Hx, Ht in Hu. injection Hu as <-. by split.
  - intros x u Hx. by apply not_elem_of_nil in Hx.
  - by left.
  - by exists t.
Qed.

(** C10: From initialisation on, whatever the threads do (compute, be preempted,
    block, wake each other, create threads on fresh pages, end, the main thread
    excepted), the threads form one ring that contains the main thread, every
    block is intact, and no thread but the current one is marked running; and
    in every such state [schedule], [thread_block] and [thread_wakeup] return:
    their searches end and follow no bad pointer. *)
Theorem threads_invariant s0 s1 s :
  main_TCB <> 0 -> threads_init s0 = Ret s1 tt [] -> rtc thread_step s1 s ->
  exists rest, threads_inv (tcbs s) (cur_tcb s) rest /\
    (exists s' b t, schedule s = Ret s' b t) /\ (exists s' r t, thread_block_begin s = Ret s' r t) /\
    (forall a, is_Some (tcbs s !! a) -> exists s' t, thread_wakeup a s = Ret s' tt t).
Proof.
  intros Hm E Hst. destruct (threads_init_inv s0 Hm) as (s1' & E' & Hi & _).
  rewrite E in E'. injection E' as <-.
  assert (H : exists rest, threads_inv (tcbs s) (cur_tcb s) rest).
  { clear E. revert Hi. generalize ([] : list Z). induction Hst as [s|s s2 s3 Hs _ IH]; intros rest Hi; [eauto|].
    destruct (thread_step_inv _ _ _ Hi Hs) as [rest' Hi']. by apply (IH rest'). }
  destruct H as [rest H]. exists rest. split; [done|]. split; [|split].
  - destruct (schedule_inv s rest H) as (s' & b & t & _ & E' & _). eauto.
  - destruct (thread_block_inv s rest H) as (s' & r & t & _ & E' & _). eauto.
  - intros a Ha. destruct (thread_wakeup_inv s rest a H Ha) as (s' & t & E' & _). eauto.
Qed.


(** ** What [schedule] does *)

(** C27: [schedule] takes the first ready thread after the current one in the
    ring: the current thread, if it was running, becomes ready, its registers
    go to its block, the next one becomes running with a full time slice, its
    address space is loaded, its registers are restored, and the ring turns.
    When no other thread is ready it returns to its caller with a new slice; a
    blocked caller is marked running again, with a warning. *)
Theorem schedule_spec s rest :
  threads_inv (tcbs s) (cur_tcb s) rest ->
  (exists l1 x l2 tx, rest = l1 ++ x :: l2 /\ ready (tcbs s) x = true /\
     Forall (fun a => ready (tcbs s) a = false) l1 /\ tcbs s !! x = Some tx /\
     schedule s = Ret (switched s (cur_tcb s) x tx) true (switch_events s x tx) /\
     threads_inv (tcbs (switched s (cur_tcb s) x tx)) x (l2 ++ cur_tcb s :: l1)) \/
  (exists t, Forall (fun a => ready (tcbs s) a = false) rest /\ tcbs s !! cur_tcb s = Some t /\
     schedule s = Ret (set_tcbs (alter self_woken (cur_tcb s)) s) false (self_events t)).
Proof.
  intros H. destruct (schedule_cases s rest H) as (t & Ht & Hc).
  destruct (first_ready (tcbs s) rest) as [x|] eqn:E.
  - left. destruct Hc as (tx & Hx & _ & Hs). destruct (first_ready_Some _ _ _ E) as (l1 & l2 & -> & Hr & Hl).
    exists l1, x, l2, tx. do 5 (split; [done|]). by apply inv_switch.
  - right. exists t. split; [by apply first_ready_None|]. done.
Qed.

(** ** Every ready thread gets its turn *)

(** Whatever the threads compute between, one of the next [n] calls of
    [schedule] makes the thread [a] current. *)
Fixpoint served (n : nat) (a : Z) (s : kern P) : Prop :=
  match n with
  | O => False
  | S n' => forall s1, runs s s1 -> exists s2 b t, schedule s1 = Ret s2 b t /\ (cur_tcb s2 = a \/ served n' a s2)
  end.

Lemma switched_other s cur x tx a : a <> cur -> a <> x -> tcbs (switched s cur x tx) !! a = tcbs s !! a.
Proof. intros H1 H2. unfold switched. cbn [tcbs]. by rewrite !lookup_alter_ne by congruence. Qed.

Lemma served_ready n k a s rest :
  (k < n)%nat -> threads_inv (tcbs s) (cur_tcb s) rest -> rest !! k = Some a -> ready (tcbs s) a = true ->
  served n a s.
Proof.
  revert k s rest. induction n as [|n IH]; intros k s rest Hk H Ha Hr; [lia|]. intros s1 Hs1.
  pose proof (runs_inv _ _ _ Hs1 H) as H1. rewrite <- (runs_ready _ _ _ Hs1) in Hr.
  destruct (first_ready_le _ _ _ _ Ha Hr) as (j & x & Hj & Hx & Hf & Hrx & Hd).
  destruct (schedule_cases s1 rest H1) as (t & Ht & Hc). rewrite Hf in Hc. destruct Hc as (tx & Htx & Hne & E).
  eexists _, _, _. split; [exact E|]. destruct Hd as [->|Hd]; [by left|].
  assert (Hnd : NoDup rest) by (pose proof (ring_nodup _ _ _ (ti_ring _ _ _ H1)) as Hn; by apply NoDup_cons in Hn as [_ Hn]).
  right. destruct (decide (x = a)) as [->|Hxa]; [pose proof (NoDup_lookup _ _ _ _ Hnd Hx Ha); lia|].
  assert (Hca : a <> cur_tcb s1).
  { intros ->. apply (cur_not_in _ _ _ H1). by eapply list_elem_of_lookup_2. }
  apply (IH (k - S j)%nat _ (drop (S j) rest ++ cur_tcb s1 :: take j rest)); [lia| | |].
  - cbn [cur_tcb switched]. apply inv_switch. by rewrite take_drop_middle.
  - rewrite lookup_app_l by (rewrite length_drop; apply lookup_lt_Some in Ha; lia).
    rewrite lookup_drop. by replace (S j + (k - S j))%nat with k by lia.
  - unfold ready in *. by rewrite switched_other.
Qed.

(** C28: No ready thread starves: a ready thread at distance [k] from the current
    one in the ring is current after at most [k+1] calls of [schedule],
    whatever the threads compute between the calls. *)
Theorem round_robin s rest k a :
  threads_inv (tcbs s) (cur_tcb s) rest -> rest !! k = Some a -> ready (tcbs s) a = true -> served (S k) a s.
Proof. intros H Ha Hr. apply (served_ready (S k) k a s rest); [lia|done|done|done]. Qed.

(** ** Switching back *)

(** A thread that is switched out and later switched in again finds its
    registers as they were at its call, the stack pointer past the return
    address, and control at the return address on its stack. *)
Theorem switch_roundtrip s rest s1 t1 s2 rest2 s3 t3 c1 c2 :
  threads_inv (tcbs s) (cur_tcb s) rest -> schedule s = Ret s1 true t1 ->
  threads_inv (tcbs s2) (cur_tcb s2) rest2 -> cur_tcb s2 <> cur_tcb s ->
  tcbs s1 !! cur_tcb s = Some c1 -> tcbs s2 !! cur_tcb s = Some c2 -> context c2 = context c1 ->
  schedule s2 = Ret s3 true t3 -> cur_tcb s3 = cur_tcb s ->
  regs s3 = with_esp (u32 (esp (regs s) + 4)) (regs s) /\
  eip s3 = ld32 (v_mem (k_vmm s3)) (esp (regs s)).
Proof.
  intros H E H2 Hne Hc1 Hc2 Hc E2 Hcur.
  destruct (schedule_cases s rest H) as (t & Ht & Hs).
  destruct (first_ready (tcbs s) rest) as [x|]; [|by rewrite E in Hs].
  destruct Hs as (tx & Htx & Hxc & Hs). rewrite E in Hs. injection Hs as -> ->.
  assert (Hctx : context c1 = regs s).
  { unfold switched in Hc1. cbn [tcbs] in Hc1. rewrite lookup_alter_eq, lookup_alter_ne, Ht in Hc1 by done.
    injection Hc1 as <-. done. }
  destruct (schedule_cases s2 rest2 H2) as (t2 & Ht2 & Hs2).
  destruct (first_ready (tcbs s2) rest2) as [x2|]; [|by rewrite E2 in Hs2].
  destruct Hs2 as (tx2 & Htx2 & _ & Hs2). rewrite E2 in Hs2. injection Hs2 as -> ->.
  cbn [cur_tcb switched] in Hcur. subst x2. rewrite Hc2 in Htx2. injection Htx2 as <-.
  unfold switched. cbn [regs eip k_vmm v_mem set_mem]. by rewrite Hc, Hctx.
Qed.

(** ** The first run of a thread *)

(** C29: A new kernel thread is next in the ring, and starts as [func] called
    with [args] and returning to [exit], with interrupts enabled, on its own
    stack. *)
Theorem new_thread_starts s rest id func args addr count kind pool pdt :
  threads_inv (tcbs s) (cur_tcb s) rest -> fresh_pages s addr count -> kind <> 0 ->
  let top := addr + count * 4096 in
  8 <= esp (regs s) < 4294967296 -> (esp (regs s) <= top - 16 \/ top <= esp (regs s) - 8) ->
  exists s1 t1 s2 t2, create_thread id func args addr count kind pool pdt s = Ret s1 tt t1 /\
    schedule s1 = Ret s2 true t2 /\ cur_tcb s2 = addr /\ eip s2 = u32 func /\
    esp (regs s2) = top - 8 /\ ld32 (v_mem (k_vmm s2)) (top - 8) = u32 exit_addr /\
    ld32 (v_mem (k_vmm s2)) (top - 4) = u32 args /\ if_flag (regs s2) = true.
Proof.
  intros H Hf Hk top He Hap. pose proof Hf as [Hn Ha Hcnt Hend]. fold top in Hend.
  destruct (inv_cur_lookup _ _ _ H) as (c & Hc & _).
  assert (Hne : addr <> cur_tcb s) by (intros ->; congruence).
  pose proof (create_thread_eq s id func args addr count kind pool pdt c Hc Hne ltac:(lia) Hcnt Hend) as E1.
  cbv zeta in E1. rewrite Hn in E1. cbn [default] in E1. set (nb := new_block _ _ _ _ _ _ _ _) in E1.
  set (s1 := Build_kern _ _ _ _ _) in E1.
  assert (H1 : threads_inv (tcbs s1) (cur_tcb s1) (addr :: rest)).
  { unfold s1. cbn [tcbs cur_tcb]. apply (inv_create _ _ _ _ _ c); try done. lia. }
  destruct (schedule_cases s1 (addr :: rest) H1) as (t & Ht & Hs).
  assert (Hnb : tcbs s1 !! addr = Some nb) by (unfold s1; cbn [tcbs]; by rewrite lookup_insert_eq).
  cbn [first_ready] in Hs. unfold ready in Hs. rewrite Hnb in Hs. cbn [task_status nb new_block] in Hs.
  rewrite bool_decide_true in Hs by done. destruct Hs as (tx & Htx & _ & Hs). rewrite Hnb in Htx. injection Htx as <-.
  exists s1. eexists _, _, _. split; [exact E1|]. split; [exact Hs|]. split; [done|].
  unfold switched. cbn [eip regs k_vmm v_mem set_mem].
  assert (Ha0 : active_effect (v_mem (k_vmm s1)) addr nb = (v_mem (k_vmm s1), [Load_cr3 kern_dir_table_paddr])).
  { unfold active_effect. cbn [is_kern_thread nb new_block]. by rewrite (proj2 (Z.eqb_neq _ _)). }
  rewrite Ha0. cbn [fst].
  change (context nb) with (with_esp (addr + count * 4096 - 12) (with_eflags 514 (context (raw_TCB addr)))).
  cbn [esp with_esp eflags with_eflags]. fold top.
  assert (Hsw : forall b, top - 12 <= b <= top - 4 ->
    ld32 (switch_mem (v_mem (k_vmm s1)) (regs s1) (with_esp (top - 12) (with_eflags 514 (context (raw_TCB addr))))) b
      = ld32 (v_mem (k_vmm s1)) b).
  { intros b Hb. unfold switch_mem. cbn [esp with_esp eflags with_eflags regs s1 if_on if_off ebx].
    rewrite (u32_small (esp (regs s) - 4)), (u32_small (esp (regs s) - 8)), (u32_small (top - 12 - 4)) by lia.
    rewrite !ld32_st32_apart by (apply apart_range; lia). done. }
  assert (Hm1 : v_mem (k_vmm s1) = new_stack (v_mem (k_vmm s)) addr count func args) by done.
  rewrite !Hsw, Hm1 by lia. unfold new_stack. fold top. split; [apply ld32_st32_eq|].
  split; [rewrite u32_small by lia; lia|]. split; [|split; [|done]].
  - rewrite ld32_st32_apart by (apply apart_range; lia). apply ld32_st32_eq.
  - rewrite !ld32_st32_apart by (apply apart_range; lia). apply ld32_st32_eq.
Qed.

(** ** The end of a thread *)

(** [exit] of a thread other than the main one takes it out of the ring and
    continues the next thread with a full slice.  It looks neither at the
    status of that thread, which is run even when it is blocked and is not
    marked running, nor at its address space, which is not loaded: no other
    event happens than closing the interrupts and the two end-of-interrupt
    commands of the switch. *)
Theorem exit_spec s rest c :
  threads_inv (tcbs s) (cur_tcb s) rest -> tcbs s !! cur_tcb s = Some c -> tid c <> 0 ->
  exists b l tb s' tb', rest = b :: l /\ tcbs s !! b = Some tb /\
    exit s = Ret s' tt [Cli; Outb 160 32; Outb 32 32] /\ cur_tcb s' = b /\
    threads_inv (tcbs s') b l /\ tcbs s' !! b = Some tb' /\
    task_status tb' = task_status tb /\ time_left tb' = TIME_CONT /\
    regs s' = with_esp (u32 (esp (context tb) + 4)) (context tb) /\ cur_tcb s ∉ b :: l.
Proof.
  intros H Hc Ht. destruct (exit_rest s rest c H Hc Ht) as (b & l & tb & -> & Hb).
  destruct (exit_inv s b l c tb H Hc Hb Ht) as (s' & E & Hi & Hcur). rewrite Hcur in Hi.
  pose proof (exit_eq s b l c tb H Hc Hb) as Eq. rewrite decide_False in Eq by done.
  destruct Eq as (x & _ & Eq). rewrite E in Eq. injection Eq as ->.
  assert (Hne : b <> cur_tcb s) by (intros E'; apply (cur_not_in _ _ _ H); rewrite <- E'; by left).
  destruct (alter_lookup (set_next_tcb b) x _ _ _ Hb) as (u & Hu & Hu').
  exists b, l, tb, (exited s (alter (set_next_tcb b) x (tcbs s)) b tb), (set_time_left TIME_CONT u).
  split; [done|]. split; [done|]. split; [exact E|]. split; [done|]. split; [exact Hi|]. split.
  - unfold exited. cbn [tcbs]. by rewrite lookup_alter_ne, lookup_alter_eq, Hu by congruence.
  - split; [by destruct Hu' as [->| ->]|]. split; [done|]. split; [done|]. exact (cur_not_in _ _ _ H).
Qed.

(** The thread [a] is not made current by any of the next [n] calls of
    [schedule], whatever the threads compute between. *)
Fixpoint starved (n : nat) (a : Z) (s : kern P) : Prop :=
  match n with
  | O => True
  | S n' => forall s1, runs s s1 -> exists s2 b t, schedule s1 = Ret s2 b t /\ cur_tcb s2 <> a /\ starved n' a s2
  end.

(** A thread marked running that is not the current one. *)
Record stranded (s : kern P) (a : Z) (rest : list Z) : Prop := {
  sd_ring : ring (tcbs s) (cur_tcb s) rest;
  sd_nz : 0 ∉ cur_tcb s :: rest;
  sd_ok : forall x t, x ∈ cur_tcb s :: rest -> tcbs s !! x = Some t -> thread_ok t;
  sd_not_cur : a <> cur_tcb s;
  sd_running : exists t, tcbs s !! a = Some t /\ task_status t = TASK_RUNNING
}.

Lemma stranded_runs s s1 a rest : runs s s1 -> stranded s a rest -> stranded s1 a rest.
Proof.
  intros H [Hr Hz Hok Hne (t & Ht & Hst)]. pose proof H as [Hc _]. split; rewrite ?Hc; try done.
  - eapply ring_ext; [by apply runs_nexts|done].
  - intros x t1 Hx Ht1. destruct (runs_lookup _ _ _ _ H Ht1) as (t0 & Ht0 & Ev). destruct (Hok x t0 Hx Ht0) as [K1 K2].
    unfold sched_view in Ev. injection Ev as E1 E2 E3 E4 E5 E6. split; [congruence|]. by rewrite E5, E6.
  - destruct (runs_lookup _ _ _ _ (runs_sym _ _ H) Ht) as (t1 & Ht1 & Ev). exists t1. split; [done|].
    unfold sched_view in Ev. injection Ev as E1 E2 E3 E4 E5 E6. congruence.
Qed.

Lemma stranded_schedule s a rest :
  stranded s a rest -> exists s2 b t rest', schedule s = Ret s2 b t /\ stranded s2 a rest'.
Proof.
  intros [Hr Hz Hok Hne (ta & Hta & Hst)].
  destruct (ring_lookup _ _ _ (cur_tcb s) Hr) as [t Ht]; [by left|].
  assert (Hcr : cur_tcb s ∉ rest) by (pose proof (ring_nodup _ _ _ Hr) as Hn; by apply NoDup_cons in Hn as [? _]).
  assert (Hs : match first_ready (tcbs s) rest with
    | None => schedule s = Ret (set_tcbs (alter self_woken (cur_tcb s)) s) false (self_events t)
    | Some x => exists tx, tcbs s !! x = Some tx /\ x <> cur_tcb s /\
        schedule s = Ret (switched s (cur_tcb s) x tx) true (switch_events s x tx) end).
  { apply schedule_eq; [done| |done| |].
    - intros E. apply Hz. rewrite E. by left.
    - eapply Hok; [by left|done].
    - apply Forall_forall. intros x Hx tx Htx. eapply Hok; [by right|done]. }
  destruct (first_ready (tcbs s) rest) as [x|] eqn:E.
  - destruct Hs as (tx & Htx & Hxc & Hs). destruct (first_ready_Some _ _ _ E) as (l1 & l2 & -> & Hrx & _).
    assert (Hxa : a <> x) by (intros ->; unfold ready in Hrx; rewrite Hta, Hst in Hrx; by rewrite bool_decide_false in Hrx).
    assert (Hp : forall y, y ∈ x :: l2 ++ cur_tcb s :: l1 <-> y ∈ cur_tcb s :: l1 ++ x :: l2) by (clear; set_solver).
    eexists _, _, _, (l2 ++ cur_tcb s :: l1). split; [exact Hs|]. split; cbn [cur_tcb switched tcbs].
    + apply ring_rotate. eapply ring_ext; [|exact Hr].
      by rewrite !nexts_alter by (apply keeps_leave || apply keeps_enter).
    + by rewrite Hp.
    + intros y u Hy Hu. rewrite Hp in Hy. apply lookup_alter_Some in Hu as (u1 & Hu & [[-> _]|[-> _]]);
        apply lookup_alter_Some in Hu as (u2 & Hu & [[-> _]|[-> _]]);
        try apply (kp_ok _ (keeps_leave (regs s))); try apply (kp_ok _ keeps_enter); eauto.
    + done.
    + exists ta. split; [|done]. by rewrite !lookup_alter_ne by congruence.
  - eexists _, _, _, rest. split; [exact Hs|]. split; cbn [cur_tcb set_tcbs tcbs]; [|done| |done|].
    + eapply ring_ext; [|exact Hr]. by rewrite nexts_alter by apply keeps_self_woken.
    + intros y u Hy Hu. apply lookup_alter_Some in Hu as (u1 & Hu & [[-> _]|[-> _]]); [eauto|].
      apply (kp_ok _ keeps_self_woken); eauto.
    + exists ta. split; [|done]. by rewrite lookup_alter_ne by congruence.
Qed.

Lemma stranded_starved n s a rest : stranded s a rest -> starved n a s.
Proof.
  revert s rest. induction n as [|n IH]; intros s rest H; [done|]. intros s1 H1.
  destruct (stranded_schedule s1 a rest (stranded_runs _ _ _ _ H1 H)) as (s2 & b & t & rest' & E & H').
  exists s2, b, t. split; [done|]. split; [|by eapply IH]. intros Ec. by destruct (sd_not_cur _ _ _ H').
Qed.

(** When the main thread calls [exit], the error message does not keep it
    from being switched away: it stays in the ring, marked running while
    another thread is current, so no call of [schedule] ever takes it again. *)
Lemma main_exit_starves s b l c tb n :
  threads_inv (tcbs s) (cur_tcb s) (b :: l) -> tcbs s !! cur_tcb s = Some c -> tcbs s !! b = Some tb ->
  tid c = 0 -> task_status c = TASK_RUNNING ->
  exists s', exit s = Ret s' tt
      [Cli; Printk "ERRO:main thread can`t use function exit\n" []; Outb 160 32; Outb 32 32] /\
    cur_tcb s' = b /\ (exists l', ring (tcbs s') b l' /\ cur_tcb s ∈ l') /\ starved n (cur_tcb s) s'.
Proof.
  intros H Hc Hb Ht Hst. pose proof (exit_eq s b l c tb H Hc Hb) as E. rewrite decide_True in E by done.
  eexists. split; [exact E|]. split; [done|]. pose proof H as [Hr Hz Hok Hrun _ _].
  assert (Hne : b <> cur_tcb s) by (intros E'; apply (cur_not_in _ _ _ H); rewrite <- E'; by left).
  assert (Hr' : ring (tcbs (exited s (tcbs s) b tb)) b (l ++ [cur_tcb s])).
  { unfold exited. cbn [tcbs]. apply (ring_rotate _ _ []). eapply ring_ext; [|exact Hr].
    by rewrite !nexts_alter. }
  split; [exists (l ++ [cur_tcb s]); split; [done|]; apply elem_of_app; right; by left|].
  apply (stranded_starved n _ _ (l ++ [cur_tcb s])). split; cbn [cur_tcb exited]; [done| | |congruence|].
  - intros [Hin|[Hin|Hin%list_elem_of_singleton]%elem_of_app]%elem_of_cons; apply Hz;
      [rewrite Hin; right; by left|right; by right|rewrite Hin; by left].
  - intros x u Hx Hu. cbn [tcbs exited] in Hu.
    assert (Hx' : x ∈ cur_tcb s :: b :: l).
    { apply elem_of_cons in Hx as [->|[Hx|Hx%list_elem_of_singleton]%elem_of_app];
        [right; by left|right; by right|rewrite Hx; by left]. }
    apply lookup_alter_Some in Hu as (u1 & Hu & [[-> _]|[-> _]]);
      apply lookup_alter_Some in Hu as (u2 & Hu & [[-> _]|[-> _]]); destruct (Hok x u2 Hx' Hu); by split.
  - exists (set_context (if_off (regs s)) c). split; [|done]. cbn [tcbs exited].
    by rewrite lookup_alter_eq, lookup_alter_ne, Hc by congruence.
Qed.
End sys.

(** ** A concrete ring of three threads *)

#[local] Existing Instance small_vmm_layout.
#[local] Existing Instance small_tss.
Definition ex_threads : ThreadLayout :=
  Build_ThreadLayout 4096 7000 (fun _ => Build_TCB_t 0 TASK_DIED 0 0 0 0 0 0 0 kern_pool 0
    (Build_context_t 0 0 0 0 0 0 0 0) 0).
Definition ex_block (next tid : Z) (st : task_status_t) : TCB_t :=
  Build_TCB_t 0 st 0 TIME_CONT next tid 1 0 1 kern_pool 0 (Build_context_t 1 2 3 4 5 6 514 (8000 + tid)) TCB_MAGIC_NUMBER.
Definition ex_tcbs : gmap Z TCB_t :=
  <[4096 := ex_block 8192 0 TASK_RUNNING]> (<[8192 := ex_block 12288 1 TASK_BLOCKED]>
    (<[12288 := ex_block 4096 2 TASK_READY]> ∅)).
Definition ex_regs : context_t := Build_context_t 11 12 13 14 15 16 530 9000.
#[local] Existing Instance ex_threads.
Definition ex_kern : kern pmm := Build_kern small_vmm ex_tcbs 4096 ex_regs 0.

Lemma ex_lookup x t :
  ex_tcbs !! x = Some t -> (x = 4096 /\ t = ex_block 8192 0 TASK_RUNNING) \/
    (x = 8192 /\ t = ex_block 12288 1 TASK_BLOCKED) \/ (x = 12288 /\ t = ex_block 4096 2 TASK_READY).
Proof.
  unfold ex_tcbs. intros H. apply lookup_insert_Some in H as [[<- <-]|[_ H]]; [by left|].
  apply lookup_insert_Some in H as [[<- <-]|[_ H]]; [by right; left|].
  apply lookup_insert_Some in H as [[<- <-]|[_ H]]; [by right; right|]. by rewrite lookup_empty in H.
Qed.

Lemma ex_inv : threads_inv (tcbs ex_kern) (cur_tcb ex_kern) [8192; 12288].
Proof.
  split.
  - split; [|done]. repeat (apply NoDup_cons; split; [set_solver|]). apply NoDup_nil_2.
  - set_solver.
  - intros x t _ Ht. destruct (ex_lookup x t Ht) as [[_ ->]|[[_ ->]|[_ ->]]]; by split.
  - intros x t Hx Ht. destruct (ex_lookup x t Ht) as [[-> _]|[[_ ->]|[_ ->]]]; [set_solver|done|done].
  - by left.
  - by eexists.
Qed.

Lemma threads_invariant_witness :
  exists s1, threads_init ex_kern = Ret s1 tt [] /\
  exists rest, threads_inv (tcbs s1) (cur_tcb s1) rest /\
    (exists s' b t, schedule s1 = Ret s' b t) /\ (exists s' r t, thread_block_begin s1 = Ret s' r t) /\
    (forall a, is_Some (tcbs s1 !! a) -> exists s' t, thread_wakeup a s1 = Ret s' tt t).
Proof.
  eexists. split; [reflexivity|]. eapply (threads_invariant ex_kern); [done|reflexivity|apply rtc_refl].
Defined.

Lemma schedule_spec_witness :
  (exists l1 x l2 tx, [8192; 12288] = l1 ++ x :: l2 /\ ready (tcbs ex_kern) x = true /\
     Forall (fun a => ready (tcbs ex_kern) a = false) l1 /\ tcbs ex_kern !! x = Some tx /\
     schedule ex_kern = Ret (switched ex_kern 4096 x tx) true (switch_events ex_kern x tx) /\
     threads_inv (tcbs (switched ex_kern 4096 x tx)) x (l2 ++ 4096 :: l1)) \/
  (exists t, Forall (fun a => ready (tcbs ex_kern) a = false) [8192; 12288] /\ tcbs ex_kern !! 4096 = Some t /\
     schedule ex_kern = Ret (set_tcbs (alter self_woken 4096) ex_kern) false (self_events t)).
Proof. exact (schedule_spec ex_kern [8192; 12288] ex_inv). Defined.

Lemma round_robin_witness : served 2 12288 ex_kern.
Proof. apply (round_robin ex_kern [8192; 12288] 1 12288 ex_inv); reflexivity. Defined.

Lemma new_thread_starts_witness :
  exists s1 t1 s2 t2, create_thread 3 5000 6000 20480 1 1 kern_pool 0 ex_kern = Ret s1 tt t1 /\
    schedule s1 = Ret s2 true t2 /\ cur_tcb s2 = 20480 /\ eip s2 = 5000 /\
    esp (regs s2) = 24568 /\ ld32 (v_mem (k_vmm s2)) 24568 = 7000 /\
    ld32 (v_mem (k_vmm s2)) 24572 = 6000 /\ if_flag (regs s2) = true.
Proof.
  apply (new_thread_starts ex_kern [8192; 12288] 3 5000 6000 20480 1 1 kern_pool 0 ex_inv);
    [split; [reflexivity|lia|lia|lia]|lia|cbn; lia|cbn; lia].
Defined.

(** The thread 12288 is current. *)
Definition ex_kern2 : kern pmm := Build_kern small_vmm (alter (set_status TASK_READY) 4096 ex_tcbs) 12288 ex_regs 0.
Lemma ex_inv2 : threads_inv (tcbs ex_kern2) (cur_tcb ex_kern2) [4096; 8192].
Proof.
  pose proof (ti_ring _ _ _ ex_inv) as Hr. apply (ring_rotate _ _ [8192]) in Hr. split.
  - eapply ring_ext; [|exact Hr]. by apply nexts_alter.
  - set_solver.
  - intros x t _ Ht. apply lookup_alter_Some in Ht as (u & Hu & [[-> _]|[-> _]]);
      destruct (ex_lookup x u Hu) as [[_ ->]|[[_ ->]|[_ ->]]]; by split.
  - intros x t Hx Ht. apply lookup_alter_Some in Ht as (u & Hu & [[-> Hn]|[-> _]]); [|done].
    destruct (ex_lookup x u Hu) as [[-> _]|[[_ ->]|[_ ->]]]; done.
  - right. by left.
  - by eexists.
Qed.

Lemma exit_spec_witness :
  exists b l tb s' tb', [4096; 8192] = b :: l /\ tcbs ex_kern2 !! b = Some tb /\
    exit ex_kern2 = Ret s' tt [Cli; Outb 160 32; Outb 32 32] /\ cur_tcb s' = b /\
    threads_inv (tcbs s') b l /\ tcbs s' !! b = Some tb' /\
    task_status tb' = task_status tb /\ time_left tb' = TIME_CONT /\
    regs s' = with_esp (u32 (esp (context tb) + 4)) (context tb) /\ 12288 ∉ b :: l.
Proof. exact (exit_spec ex_kern2 [4096; 8192] _ ex_inv2 eq_refl ltac:(done)). Defined.

Lemma main_exit_starves_witness :
  exists s', exit ex_kern = Ret s' tt
      [Cli; Printk "ERRO:main thread can`t use function exit\n" []; Outb 160 32; Outb 32 32] /\
    cur_tcb s' = 8192 /\ (exists l', ring (tcbs s') 8192 l' /\ 4096 ∈ l') /\ starved 100 4096 s'.
Proof. exact (main_exit_starves ex_kern 8192 [12288] _ _ 100 ex_inv eq_refl eq_refl eq_refl eq_refl). Defined.

(** Two switches: to 12288 and back. *)
Definition ex_s1 : kern pmm := switched ex_kern 4096 12288 (ex_block 4096 2 TASK_READY).
Definition ex_back : TCB_t := leave ex_regs (ex_block 8192 0 TASK_RUNNING).
Definition ex_s3 : kern pmm := switched ex_s1 12288 4096 ex_back.

Lemma ex_inv1 : threads_inv (tcbs ex_s1) (cur_tcb ex_s1) [4096; 8192].
Proof. exact (inv_switch _ _ [8192] 12288 [] ex_regs ex_inv). Qed.

Lemma ex_tcbs1 : tcbs ex_s1 = alter (leave ex_regs) 4096 (alter enter 12288 ex_tcbs).
Proof. reflexivity. Qed.

Lemma ex_lookup1 : tcbs ex_s1 !! 4096 = Some ex_back.
Proof. rewrite ex_tcbs1, lookup_alter_eq, lookup_alter_ne by done. reflexivity. Qed.

Lemma ex_sched1 : schedule ex_kern = Ret ex_s1 true (switch_events ex_kern 12288 (ex_block 4096 2 TASK_READY)).
Proof.
  destruct (schedule_cases ex_kern _ ex_inv) as (t & _ & Hc).
  assert (E : first_ready (tcbs ex_kern) [8192; 12288] = Some 12288) by reflexivity.
  rewrite E in Hc. destruct Hc as (tx & Htx & _ & Hc).
  assert (tx = ex_block 4096 2 TASK_READY) as -> by (change (Some (ex_block 4096 2 TASK_READY) = Some tx) in Htx; congruence).
  exact Hc.
Qed.

Lemma ex_sched2 : schedule ex_s1 = Ret ex_s3 true (switch_events ex_s1 4096 ex_back).
Proof.
  destruct (schedule_cases ex_s1 _ ex_inv1) as (t & _ & Hc).
  assert (E : first_ready (tcbs ex_s1) [4096; 8192] = Some 4096)
    by (cbn [first_ready]; unfold ready; by rewrite ex_lookup1).
  rewrite E, ex_lookup1 in Hc. destruct Hc as (tx & [= <-] & _ & Hc). exact Hc.
Qed.

Lemma switch_roundtrip_witness :
  exists s1 t1 s3 t3, schedule ex_kern = Ret s1 true t1 /\ schedule s1 = Ret s3 true t3 /\
    regs s3 = with_esp 9004 ex_regs /\ eip s3 = ld32 (v_mem (k_vmm s3)) 9000.
Proof.
  exists ex_s1. eexists. exists ex_s3. eexists. split; [exact ex_sched1|]. split; [exact ex_sched2|].
  exact (switch_roundtrip ex_kern _ ex_s1 _ ex_s1 _ ex_s3 _ _ _ ex_inv ex_sched1 ex_inv1 ltac:(done)
    ex_lookup1 ex_lookup1 eq_refl ex_sched2 eq_refl).
Defined.
