(* ===== verification/ThreadsView.v ===== *)
(** * The threads as the synchronisation module sees them

    The status of a thread, the interrupt flag it has (in the processor for the
    current one, saved in its block for the others), and what blocking, waking
    and preemption change of them. *)

From S2P Require Import Prelude Memory Tcb Pmm Vmm Tss UserVm Threads Ring ThreadsThm ThreadsInv.

Section view.
Context {P : Type} {PA : PageAllocator P} {L : VmmLayout} {TL : TssLayout} {HL : ThreadLayout}.
Implicit Types (k : kern P).

Definition status k (a : Z) : option task_status_t := task_status <$> tcbs k !! a.
Definition own_if k (a : Z) : bool :=
  if decide (a = cur_tcb k) then if_flag (regs k)
  else match tcbs k !! a with Some t => if_flag (context t) | None => false end.

(** The threads of a state are well formed. *)
Definition threads_wf k : Prop := exists rest, threads_inv (tcbs k) (cur_tcb k) rest.

Lemma status_alter f a k b :
  status (set_tcbs (alter f a) k) b = if decide (b = a) then task_status <$> (f <$> tcbs k !! a) else status k b.
Proof.
  unfold status. cbn [tcbs set_tcbs]. case_decide as E.
  - subst. by rewrite lookup_alter_eq.
  - by rewrite lookup_alter_ne by congruence.
Qed.

Lemma own_if_regs r k a : own_if (set_regs r k) a = if decide (a = cur_tcb k) then if_flag r else own_if k a.
Proof. unfold own_if. cbn [cur_tcb set_regs regs tcbs]. by case_decide. Qed.

Lemma own_if_alter f b k a :
  (forall t, context (f t) = context t) -> own_if (set_tcbs (alter f b) k) a = own_if k a.
Proof.
  intros H. unfold own_if. cbn [cur_tcb set_tcbs regs tcbs]. case_decide; [done|].
  destruct (decide (a = b)) as [->|Hne].
  - rewrite lookup_alter_eq. destruct (tcbs k !! b); simpl; by rewrite ?H.
  - by rewrite lookup_alter_ne by congruence.
Qed.

Lemma threads_wf_regs r k : threads_wf k -> threads_wf (set_regs r k).
Proof. done. Qed.

Lemma cur_nonzero k : threads_wf k -> cur_tcb k <> 0.
Proof. intros [rest H] E. apply (ti_nz _ _ _ H). rewrite E. by left. Qed.

(** A switch from the current thread to [x]. *)
Record switch_to_thread k k' (x : Z) : Prop := {
  st_cur : cur_tcb k' = x;
  st_ready : status k x = Some TASK_READY;
  st_ne : x <> cur_tcb k;
  st_new : status k' x = Some TASK_RUNNING;
  st_old : status k' (cur_tcb k) =
    if decide (status k (cur_tcb k) = Some TASK_RUNNING) then Some TASK_READY else status k (cur_tcb k);
  st_others : forall a, a <> x -> a <> cur_tcb k -> status k' a = status k a;
  st_if : forall a, own_if k' a = own_if k a;
  st_wf : threads_wf k'
}.

Lemma switched_own_if k x tx a :
  tcbs k !! x = Some tx -> x <> cur_tcb k -> is_Some (tcbs k !! cur_tcb k) ->
  own_if (switched k (cur_tcb k) x tx) a = own_if k a.
Proof.
  intros Hx Hne [tc Hc]. unfold own_if, switched. cbn [cur_tcb regs tcbs].
  destruct (decide (a = x)) as [->|Hax].
  - by rewrite decide_False, Hx.
  - destruct (decide (a = cur_tcb k)) as [->|Hac].
    + rewrite lookup_alter_eq, lookup_alter_ne, Hc by done. done.
    + by rewrite !lookup_alter_ne by congruence.
Qed.

Lemma schedule_effect k rest :
  threads_inv (tcbs k) (cur_tcb k) rest ->
  match first_ready (tcbs k) rest with
  | Some x => exists k' t, schedule k = Ret k' true t /\ switch_to_thread k k' x
  | None => exists t0, tcbs k !! cur_tcb k = Some t0 /\
      schedule k = Ret (set_tcbs (alter self_woken (cur_tcb k)) k) false (self_events t0)
  end.
Proof.
  intros H. destruct (schedule_cases k rest H) as (t & Ht & Hc).
  destruct (first_ready (tcbs k) rest) as [x|] eqn:E; [|by exists t].
  destruct Hc as (tx & Hx & Hne & Hs). eexists _, _. split; [exact Hs|].
  destruct (first_ready_Some _ _ _ E) as (l1 & l2 & El & Hr & _).
  unfold ready in Hr. rewrite Hx in Hr. apply bool_decide_eq_true in Hr.
  split; [done| |done| | | | |].
  - unfold status. by rewrite Hx, <- Hr.
  - unfold status, switched. cbn [tcbs]. by rewrite lookup_alter_ne, lookup_alter_eq, Hx by congruence.
  - unfold status, switched. cbn [tcbs]. rewrite lookup_alter_eq, lookup_alter_ne, Ht by done. cbn [fmap option_fmap option_map].
    unfold leave. destruct (decide (task_status t = TASK_RUNNING)) as [Es|Es].
    + by rewrite bool_decide_true, decide_True by (done || congruence).
    + rewrite bool_decide_false, decide_False by (done || congruence). done.
  - intros a Ha Hac. unfold status, switched. cbn [tcbs]. by rewrite !lookup_alter_ne by congruence.
  - intros a. apply switched_own_if; eauto.
  - exists (l2 ++ cur_tcb k :: l1). unfold switched. cbn [tcbs cur_tcb]. apply inv_switch. by rewrite <- El.
Qed.

(** No other thread of the ring is ready. *)
Definition alone k : Prop :=
  exists rest, threads_inv (tcbs k) (cur_tcb k) rest /\ first_ready (tcbs k) rest = None.

Lemma first_ready_alter f a tc l : a ∉ l -> first_ready (alter f a tc) l = first_ready tc l.
Proof.
  induction l as [|b l IH]; intros Hn; [done|]. apply not_elem_of_cons in Hn as [Hne Hn]. cbn [first_ready].
  unfold ready. rewrite lookup_alter_ne by done. by rewrite IH.
Qed.

(** [thread_block] called with interrupts off: it switches, or finds the
    current thread alone and returns with the thread marked running again. *)
Lemma block_effect_at k rest :
  threads_inv (tcbs k) (cur_tcb k) rest -> if_flag (regs k) = false ->
  match first_ready (tcbs k) rest with
  | Some x => exists k' t, thread_block_begin k = Ret k' (false, true) t /\
      switch_to_thread (set_tcbs (alter (set_status TASK_BLOCKED) (cur_tcb k)) k) k' x
  | None => exists k' t, thread_block_begin k = Ret k' (false, false) t /\ alone k' /\ cur_tcb k' = cur_tcb k /\
      regs k' = regs k
  end.
Proof.
  intros H Hif. destruct (thread_block_eq k rest H) as [Eb Hb]. rewrite Hif in Eb.
  assert (Ebs : block_state k = set_tcbs (alter (set_status TASK_BLOCKED) (cur_tcb k)) k)
    by (unfold block_state, cli_state; by rewrite Hif).
  rewrite Eb. pose proof (schedule_effect _ _ Hb) as Hs. pose proof (cur_not_in _ _ _ H) as Hn.
  assert (Hfr : first_ready (tcbs (block_state k)) rest = first_ready (tcbs k) rest).
  { rewrite Ebs. cbn [tcbs set_tcbs]. by apply first_ready_alter. }
  rewrite Hfr in Hs. destruct (first_ready (tcbs k) rest) as [x|] eqn:E.
  - destruct Hs as (k' & t & Es & Hsw). rewrite (bind_ret_eq _ _ _ _ _ _ Es).
    eexists k', _. split; [reflexivity|]. by rewrite <- Ebs.
  - destruct Hs as (t0 & Ht0 & Es). rewrite (bind_ret_eq _ _ _ _ _ _ Es).
    eexists _, _. split; [reflexivity|]. rewrite Ebs in *. cbn [cur_tcb set_tcbs regs tcbs] in *.
    split; [|done]. exists rest. cbn [cur_tcb set_tcbs tcbs]. split.
    + apply inv_alter; [done|apply keeps_self_woken|]. by intros Hin.
    + by rewrite first_ready_alter, Hfr.
Qed.

Lemma wakeup_effect k a st :
  threads_wf k -> status k a = Some st ->
  exists k' t, thread_wakeup a k = Ret k' tt t /\ threads_wf k' /\ cur_tcb k' = cur_tcb k /\
    if_flag (regs k') = if_flag (regs k) /\
    (forall b, status k' b = if decide (b = a) then Some TASK_READY else status k b) /\
    (forall b, own_if k' b = own_if k b).
Proof.
  intros [rest H] Ha. unfold status in Ha. destruct (tcbs k !! a) as [ta|] eqn:Eta; [|done].
  destruct (thread_wakeup_eq k rest a H) as (r & t & E & Hr); [eauto|].
  destruct (thread_wakeup_inv k rest a H) as (k' & t' & E' & Hi); [eauto|].
  rewrite E in E'. injection E' as <- _. eexists _, t. split; [exact E|]. split; [by exists rest|].
  split; [done|]. split; [done|]. split.
  - intros b. change (status (set_regs r (set_tcbs (alter (set_status TASK_READY) a) k)) b)
      with (status (set_tcbs (alter (set_status TASK_READY) a) k) b).
    rewrite status_alter. case_decide; [|done]. by rewrite Eta.
  - intros b. rewrite own_if_regs. cbn [cur_tcb set_tcbs]. rewrite own_if_alter by done. unfold own_if.
    case_decide; done.
Qed.

End view.
