(* ===== verification/Port.v ===== *)
(** * kernel/drivers/port/port.c: the ports

    A write to a port is an event.  The values ports give are arguments of the
    functions that read them. *)

From S2P Require Import Prelude.

Section ports.
Context {S : Type}.

Definition outb (port value : Z) : M S unit := emit (Outb (u16 port) (u8 value)).
(** [value] is what the device gives. *)
Definition inb (port value : Z) : M S Z := emit (Inb (u16 port)) ;; ret (u8 value).
Definition inw (port value : Z) : M S Z := emit (Inb (u16 port)) ;; ret (u16 value).

End ports.
