(* ===== verification/Vga.v ===== *)
(** * kernel/drivers/vga/vga_basic.c: the text screen

    The screen is 25 lines of 80 cells of two bytes, character and attribute,
    in the linear memory from [video_memory] on; the cursor is two variables of
    the driver.  The second half shows that the driver is a terminal: [term] is
    the sequence of cells and the position of the cursor, [term_put] writes a
    cell and scrolls at the end of the screen, and the functions of the driver
    do on the memory what the terminal does on the cells. *)

From S2P Require Import Prelude Memory CString KernLog Port.

Definition tab_length : Z := 4.
Definition video_memory : Z := 3222011904.

Record vga := Build_vga { g_mem : mem; cursor_x : Z; cursor_y : Z }.
Definition set_gmem (m : mem) (s : vga) : vga := Build_vga m (cursor_x s) (cursor_y s).
Definition set_x (x : Z) (s : vga) : vga := Build_vga (g_mem s) x (cursor_y s).
Definition set_y (y : Z) (s : vga) : vga := Build_vga (g_mem s) (cursor_x s) y.

Definition in_video {A} (c : M mem A) : M vga A := zoom g_mem set_gmem c.

(** [uint16_t cursorLocation = cursor_y * 80 + cursor_x;] *)
Definition cursorLocation (s : vga) : Z := u16 (cursor_y s * 80 + cursor_x s).

Definition move_cursor : M vga unit :=
  loc <- gets cursorLocation ;;
  outb 980 14 ;;
  outb 981 (Z.shiftr loc 8) ;;
  outb 980 15 ;;
  outb 981 loc.

Definition move_cursor_by_XY (x y : Z) : M vga unit :=
  if (x >? 79) || (y >? 24) then ret tt
  else modify (set_x x) ;; modify (set_y y) ;; move_cursor.

(** A cell of the row [j] copied to the row above. *)
Definition uproll_cell (j i : Z) : M vga unit :=
  let loc := u16 (j * 80 + i) in
  let target := u16 ((j - 1) * 80 + i) in
  v <- in_video (load16 (video_memory + 2 * loc)) ;;
  in_video (store16 (video_memory + 2 * target) v).

Definition screen_uproll_once : M vga unit :=
  each (seqZ 1 24) (fun j => each (seqZ 0 80) (uproll_cell j)) ;;
  each (seqZ 0 80) (fun i =>
    let location := 24 * 80 + i in
    in_video (store16 (video_memory + 2 * location) (Z.lor (Z.shiftl 15 8) 0))) ;;
  y <- gets cursor_y ;;
  if negb (y =? 0) then modify (set_y (u8 (y - 1))) ;; move_cursor else ret tt.

Definition vga_putc (input back fore : Z) : M vga unit :=
  loc <- gets cursorLocation ;;
  in_video (store8 (video_memory + 2 * loc) input) ;;
  in_video (store8 (video_memory + 2 * loc + 1) (Z.lor (Z.shiftl back 4) (Z.land fore 15))) ;;
  x <- gets cursor_x ;;
  (if x =? 79 then
     y <- gets cursor_y ;;
     if y =? 24 then
       screen_uproll_once ;;
       modify (set_x 0) ;;
       modify (set_y 24)
     else
       modify (set_x 0) ;;
       modify (set_y (u8 (y + 1)))
   else modify (set_x (u8 (x + 1)))) ;;
  move_cursor.

Definition clear_screen : M vga unit :=
  modify (set_x 0) ;;
  modify (set_y 0) ;;
  each (seqZ 0 25) (fun _ => each (seqZ 0 80) (fun _ => vga_putc 0 black white)) ;;
  modify (set_x 0) ;;
  modify (set_y 0) ;;
  move_cursor.

Definition kputc_color (input back fore : Z) : M vga unit :=
  if input =? 9 then each (seqZ 0 tab_length) (fun _ => vga_putc 0 back fore)
  else if input =? 10 then
    x <- gets cursor_x ;;
    let temp_num := u8 (80 - x) in
    let temp_num := if temp_num =? 0 then 80 else temp_num in
    each (seqZ 0 temp_num) (fun _ => vga_putc 0 back fore)
  else vga_putc input back fore.

Definition kputc (input : Z) : M vga unit := kputc_color input black white.

(** [while ( *probe!='\0') kputc_color( *probe++,back,fore);] *)
Fixpoint kputs_loop (fuel : nat) (probe back fore : Z) : M vga unit :=
  match fuel with
  | O => nofuel
  | S fuel' =>
      c <- in_video (load8 probe) ;;
      if c =? 0 then ret tt
      else
        c <- in_video (load8 probe) ;;
        kputc_color c back fore ;;
        kputs_loop fuel' (probe + 1) back fore
  end.

Definition kputs_fuel : nat := Z.to_nat 65536.

Definition kputs_color (input_str back fore : Z) : M vga unit := kputs_loop kputs_fuel input_str back fore.
Definition kputs (input_str : Z) : M vga unit := kputs_color input_str black white.

Definition vga_init : M vga unit := clear_screen.

(** Empty in the source. *)
Definition vga_test_clear_last_row : M vga unit := ret tt.

(** ** The terminal *)

(** Cells are numbered from the top left; [pos] is the cell of the cursor. *)
Record term := Build_term { cells : Z -> Z; pos : Z }.

Definition cell (input back fore : Z) : Z := u8 input + 256 * u8 (Z.lor (Z.shiftl back 4) (Z.land fore 15)).
Definition blank : Z := 3840.

Definition write_cell (f : Z -> Z) (p c : Z) (i : Z) : Z := if i =? p then c else f i.
Definition scroll (f : Z -> Z) (i : Z) : Z := if i <? 1920 then f (i + 80) else blank.

Definition term_put (c : Z) (t : term) : term :=
  let f := write_cell (cells t) (pos t) c in
  if pos t =? 1999 then Build_term (scroll f) 1920 else Build_term f (pos t + 1).

Definition term_char (back fore input : Z) (t : term) : term :=
  if input =? 9 then Nat.iter 4 (term_put (cell 0 back fore)) t
  else if input =? 10 then Nat.iter (Z.to_nat (80 - pos t `mod` 80)) (term_put (cell 0 back fore)) t
  else term_put (cell input back fore) t.

Definition term_text (back fore : Z) (l : list Z) (t : term) : term := foldl (fun t c => term_char back fore c t) t l.

(** ** What the memory shows *)

Definition vcell (m : mem) (i : Z) : Z := ld16 m (video_memory + 2 * i).

Record shows (s : vga) (t : term) : Prop := {
  sh_cells : forall i, 0 <= i < 2000 -> vcell (g_mem s) i = cells t i;
  sh_x : 0 <= cursor_x s < 80;
  sh_y : 0 <= cursor_y s < 25;
  sh_pos : cursor_y s * 80 + cursor_x s = pos t
}.

(** Memory outside of the screen. *)
Definition kept (m m' : mem) : Prop := forall a, 0 <= a < 4294967296 -> a < video_memory \/ video_memory + 4000 <= a -> ld8 m' a = ld8 m a.

Lemma kept_refl m : kept m m.
Proof. done. Qed.
Lemma kept_trans m1 m2 m3 : kept m1 m2 -> kept m2 m3 -> kept m1 m3.
Proof. intros H1 H2 a Ha Hv. rewrite H2, H1 by done. done. Qed.

Lemma video_addr i : 0 <= i < 4000 -> u32 (video_memory + i) = video_memory + i.
Proof. intros H. unfold video_memory. by rewrite u32_small by lia. Qed.

Lemma ld8_st8_video m i v a :
  0 <= i < 4000 -> 0 <= a < 4294967296 -> ld8 (st8 m (video_memory + i) v) a = if a =? video_memory + i then u8 v else ld8 m a.
Proof.
  intros Hi Ha. rewrite ld8_st8, video_addr by done. rewrite (u32_small a) by done.
  destruct (Z.eqb_spec a (video_memory + i)) as [->|Hne]; [by rewrite decide_True|by rewrite decide_False by congruence].
Qed.

(** A cell written as two bytes. *)
Definition put_cell (m : mem) (p lo hi : Z) : mem := st8 (st8 m (video_memory + 2 * p) lo) (video_memory + 2 * p + 1) hi.

Lemma vcell_put m p lo hi i :
  0 <= p < 2000 -> 0 <= i < 2000 -> vcell (put_cell m p lo hi) i = write_cell (vcell m) p (u8 lo + 256 * u8 hi) i.
Proof.
  intros Hp Hi. unfold vcell, put_cell, ld16, write_cell. rewrite <- !Z.add_assoc.
  rewrite !ld8_st8_video by (unfold video_memory; lia). unfold video_memory.
  destruct (Z.eqb_spec i p) as [->|Hne]; repeat case_match; try lia.
Qed.

Lemma put_cell_kept m p lo hi : 0 <= p < 2000 -> kept m (put_cell m p lo hi).
Proof.
  intros Hp a Ha Hv. unfold put_cell. rewrite <- Z.add_assoc. rewrite !ld8_st8_video by lia.
  unfold video_memory in *. repeat case_match; lia.
Qed.

Lemma st16_put_cell m p v : st16 m (video_memory + 2 * p) v = put_cell m p v (v / 256).
Proof. done. Qed.

Lemma ld16_bytes m a : u8 (ld16 m a) + 256 * u8 (ld16 m a / 256) = ld16 m a.
Proof. unfold ld16. pose proof (ld8_range m a). pose proof (ld8_range m (a + 1)). unfold u8. dlia. Qed.

(** ** The operations *)

Lemma move_cursor_ret s : exists t, move_cursor s = Ret s tt t.
Proof. eexists. reflexivity. Qed.

(** Row [j] copied up to the column [k]. *)
Record rolled (m0 m : mem) (n : Z) : Prop := {
  rl_up : forall i, 0 <= i < n -> vcell m i = vcell m0 (i + 80);
  rl_rest : forall i, n <= i < 2000 -> vcell m i = vcell m0 i;
  rl_kept : kept m0 m
}.

Lemma uproll_cell_spec m0 s j k :
  1 <= j < 25 -> 0 <= k < 80 -> rolled m0 (g_mem s) ((j - 1) * 80 + k) ->
  exists s' t, uproll_cell j k s = Ret s' tt t /\ cursor_x s' = cursor_x s /\ cursor_y s' = cursor_y s /\
    rolled m0 (g_mem s') ((j - 1) * 80 + k + 1).
Proof.
  intros Hj Hk [H1 H2 H3]. unfold uproll_cell. rewrite !u16_small by lia.
  set (p := (j - 1) * 80 + k) in *. set (m := g_mem s) in *. set (v := ld16 m (video_memory + 2 * (j * 80 + k))).
  rewrite (bind_ret_eq _ _ _ s v []) by (unfold in_video, zoom, load16, gets; by destruct s).
  eexists (set_gmem (put_cell m p v (v / 256)) s), []. split; [by rewrite prepend_nil|]. split; [done|]. split; [done|].
  cbn [g_mem set_gmem]. assert (Hv : u8 v + 256 * u8 (v / 256) = vcell m0 (p + 80)).
  { unfold v. rewrite ld16_bytes. change (vcell m (j * 80 + k) = vcell m0 (p + 80)). rewrite H2 by lia. f_equal. lia. }
  split.
  - intros i Hi. rewrite vcell_put by lia. unfold write_cell. destruct (Z.eqb_spec i p) as [->|Hne]; [done|]. apply H1. lia.
  - intros i Hi. rewrite vcell_put by lia. unfold write_cell. destruct (Z.eqb_spec i p) as [->|Hne]; [lia|]. apply H2. lia.
  - eapply kept_trans; [exact H3|]. apply put_cell_kept. lia.
Qed.

(** The screen scrolls by one line; the cursor's line is the one it was on. *)
Lemma screen_uproll_spec s :
  0 <= cursor_y s < 256 ->
  exists s' t, screen_uproll_once s = Ret s' tt t /\ cursor_x s' = cursor_x s /\
    cursor_y s' = (if cursor_y s =? 0 then 0 else cursor_y s - 1) /\
    (forall i, 0 <= i < 2000 -> vcell (g_mem s') i = scroll (vcell (g_mem s)) i) /\ kept (g_mem s) (g_mem s').
Proof.
  intros Hy. unfold screen_uproll_once.
  destruct (each_seqZ (fun k s1 => cursor_x s1 = cursor_x s /\ cursor_y s1 = cursor_y s /\ rolled (g_mem s) (g_mem s1) (k * 80))
    (fun j => each (seqZ 0 80) (uproll_cell j)) 1 24 s) as (s1 & t1 & E1 & X1 & Y1 & [R1 R2 R3]).
  { intros k s1 Hk (X1 & Y1 & R1).
    destruct (each_seqZ (fun i s2 => cursor_x s2 = cursor_x s /\ cursor_y s2 = cursor_y s /\ rolled (g_mem s) (g_mem s2) (k * 80 + i))
      (uproll_cell (1 + k)) 0 80 s1) as (s2 & t2 & E2 & X2 & Y2 & R2).
    - intros i s2 Hi (X2 & Y2 & R2). destruct (uproll_cell_spec (g_mem s) s2 (1 + k) i) as (s3 & t3 & E3 & X3 & Y3 & R3);
        [lia|lia|by replace ((1 + k - 1) * 80 + i) with (k * 80 + i) by lia|].
      exists s3, t3. split; [done|]. split; [congruence|]. split; [congruence|].
      by replace (k * 80 + (i + 1)) with ((1 + k - 1) * 80 + i + 1) by lia.
    - by rewrite Z.add_0_r.
    - exists s2, t2. split; [done|]. split; [done|]. split; [done|].
      by replace ((k + 1) * 80) with (k * 80 + 80%nat) by lia. }
  { split; [done|]. split; [done|]. split; [intros i Hi; lia|done|done]. }
  rewrite (bind_ret_eq _ _ _ _ _ _ E1). clear E1. change (Z.lor (Z.shiftl 15 8) 0) with 3840.
  destruct (each_seqZ (fun k s2 => cursor_x s2 = cursor_x s /\ cursor_y s2 = cursor_y s /\ kept (g_mem s) (g_mem s2) /\
      (forall i, 0 <= i < 1920 -> vcell (g_mem s2) i = vcell (g_mem s) (i + 80)) /\
      (forall i, 1920 <= i < 1920 + k -> vcell (g_mem s2) i = blank))
    (fun i => in_video (store16 (video_memory + 2 * (24 * 80 + i)) 3840)) 0 80 s1) as (s2 & t2 & E2 & X2 & Y2 & K2 & U2 & B2).
  { intros k s2 Hk (X2 & Y2 & K2 & U2 & B2). eexists (set_gmem _ s2), []. split; [reflexivity|]. cbn [cursor_x cursor_y g_mem set_gmem].
    rewrite !st16_put_cell. split; [done|]. split; [done|]. split; [eapply kept_trans; [exact K2|apply put_cell_kept; lia]|].
    split; intros i Hi; rewrite vcell_put by lia; unfold write_cell; destruct (Z.eqb_spec i (24 * 80 + (0 + k))) as [->|Hne].
    - lia.
    - by apply U2.
    - done.
    - apply B2. lia. }
  { split; [done|]. split; [done|]. split; [done|]. split; [|intros; lia]. intros i Hi. apply R1. lia. }
  rewrite (bind_ret_eq _ _ _ _ _ _ E2), bind_gets, Y2. clear E2.
  assert (Hs : forall i, 0 <= i < 2000 -> vcell (g_mem s2) i = scroll (vcell (g_mem s)) i).
  { intros i Hi. unfold scroll. destruct (Z.ltb_spec i 1920); [apply U2; lia|apply B2; cbn; lia]. }
  destruct (Z.eqb_spec (cursor_y s) 0) as [E0|E0]; cbn [negb].
  - eexists s2, _. split; [reflexivity|]. split; [done|]. split; [lia|]. by split.
  - rewrite bind_modify. eexists _, _. split; [reflexivity|]. cbn [cursor_x cursor_y g_mem set_y].
    split; [done|]. split; [rewrite u8_small; lia|]. by split.
Qed.

(** [vga_putc] puts a cell on the terminal. *)
Lemma vga_putc_shows s t input back fore :
  shows s t -> exists s' tr, vga_putc input back fore s = Ret s' tt tr /\ shows s' (term_put (cell input back fore) t) /\
    kept (g_mem s) (g_mem s').
Proof.
  intros [Hc Hx Hy Hp]. unfold vga_putc. rewrite bind_gets.
  assert (Hloc : cursorLocation s = pos t) by (unfold cursorLocation; rewrite u16_small; lia). rewrite Hloc.
  set (hi := Z.lor _ _). set (m1 := put_cell (g_mem s) (pos t) input hi). set (s1 := set_gmem m1 s).
  rewrite (bind_ret_eq _ _ _ (set_gmem (st8 (g_mem s) (video_memory + 2 * pos t) input) s) tt []) by done.
  rewrite prepend_nil, (bind_ret_eq _ _ _ s1 tt []) by done. rewrite prepend_nil, bind_gets.
  assert (Hw : forall i, 0 <= i < 2000 -> vcell m1 i = write_cell (cells t) (pos t) (cell input back fore) i).
  { intros i Hi. unfold m1. rewrite vcell_put by lia. unfold write_cell. rewrite Hc by lia. done. }
  assert (Hk : kept (g_mem s) m1) by (apply put_cell_kept; lia). unfold term_put.
  change (cursor_x s1) with (cursor_x s). destruct (Z.eqb_spec (cursor_x s) 79) as [Ex|Ex].
  - change (cursor_y s1) with (cursor_y s). destruct (Z.eqb_spec (cursor_y s) 24) as [Ey|Ey].
    + replace (pos t =? 1999) with true by (symmetry; apply Z.eqb_eq; lia).
      destruct (screen_uproll_spec s1) as (s2 & t2 & E2 & _ & _ & U2 & K2); [change (cursor_y s1) with (cursor_y s); lia|].
      rewrite (bind_ret_eq _ _ _ (set_y 24 (set_x 0 s2)) tt (t2 ++ [])) by (rewrite bind_gets, (proj2 (Z.eqb_eq (cursor_y s1) 24)) by exact Ey; by rewrite (bind_ret_eq _ _ _ _ _ _ E2), bind_modify).
      clear E2. eexists (set_y 24 (set_x 0 s2)), _. split; [reflexivity|]. split; [|by eapply kept_trans].
      split; cbn [g_mem cursor_x cursor_y set_x set_y cells pos]; [|lia..].
      intros i Hi. rewrite U2 by done. unfold scroll. destruct (Z.ltb_spec i 1920); [apply Hw; lia|reflexivity].
    + replace (pos t =? 1999) with false by (symmetry; apply Z.eqb_neq; lia).
      rewrite (bind_ret_eq _ _ _ (set_y (cursor_y s + 1) (set_x 0 s1)) tt []) by (rewrite bind_gets, (proj2 (Z.eqb_neq (cursor_y s1) 24)) by exact Ey; rewrite bind_modify; unfold modify; by rewrite u8_small by (cbn; lia)).
      eexists (set_y (cursor_y s + 1) (set_x 0 s1)), _. split; [reflexivity|]. split; [|exact Hk].
      split; cbn [g_mem cursor_x cursor_y set_x set_y cells pos]; [exact Hw|lia..].
  - replace (pos t =? 1999) with false by (symmetry; apply Z.eqb_neq; lia).
    rewrite (bind_ret_eq _ _ _ (set_x (cursor_x s + 1) s1) tt []) by (unfold modify; rewrite u8_small by lia; done).
    eexists (set_x (cursor_x s + 1) s1), _. split; [reflexivity|]. split; [|exact Hk].
    split; cbn [g_mem cursor_x cursor_y set_x set_y cells pos]; [exact Hw|cbn; lia..].
Qed.

(** A loop of writes of the same cell. *)
Lemma each_putc_shows s t input back fore a (n : nat) :
  shows s t ->
  exists s' tr, each (seqZ a n) (fun _ => vga_putc input back fore) s = Ret s' tt tr /\
    shows s' (Nat.iter n (term_put (cell input back fore)) t) /\ kept (g_mem s) (g_mem s').
Proof.
  intros H. destruct (each_seqZ (fun k s1 => shows s1 (Nat.iter (Z.to_nat k) (term_put (cell input back fore)) t) /\
      kept (g_mem s) (g_mem s1)) (fun _ => vga_putc input back fore) a n s) as (s' & tr & E & H1 & H2).
  - intros k s1 Hk [H1 K1]. destruct (vga_putc_shows s1 _ input back fore H1) as (s2 & t2 & E2 & H2 & K2).
    exists s2, t2. split; [exact E2|]. split; [|by eapply kept_trans]. by replace (Z.to_nat (k + 1)) with (S (Z.to_nat k)) by lia.
  - by split.
  - exists s', tr. rewrite Nat2Z.id in H1. by split.
Qed.

Lemma kputc_color_shows s t input back fore :
  shows s t ->
  exists s' tr, kputc_color input back fore s = Ret s' tt tr /\ shows s' (term_char back fore input t) /\
    kept (g_mem s) (g_mem s').
Proof.
  intros H. unfold kputc_color, term_char. destruct (Z.eqb_spec input 9) as [_|_]; [exact (each_putc_shows s t 0 back fore 0 4 H)|].
  destruct (Z.eqb_spec input 10) as [_|_]; [|exact (vga_putc_shows s t input back fore H)].
  destruct H as [H1 H2 H3 H4]. assert (E : 80 - pos t `mod` 80 = 80 - cursor_x s).
  { rewrite <- H4. rewrite Z.add_comm, Z.mod_add by lia. by rewrite Z.mod_small by lia. }
  rewrite bind_gets, u8_small by lia. rewrite (proj2 (Z.eqb_neq _ _)) by lia. rewrite E.
  assert (H : shows s t) by done. pose proof (each_putc_shows s t 0 back fore 0 (Z.to_nat (80 - cursor_x s)) H) as Hp.
  rewrite Z2Nat.id in Hp by lia. exact Hp.
Qed.

Lemma kputs_loop_shows fuel s t a back fore l :
  shows s t -> cstr (g_mem s) a l -> a + length l < video_memory \/ video_memory + 4000 <= a -> (length l < fuel)%nat ->
  exists s' tr, kputs_loop fuel a back fore s = Ret s' tt tr /\ shows s' (term_text back fore l t) /\ kept (g_mem s) (g_mem s').
Proof.
  revert fuel s t a. induction l as [|c l IH]; intros fuel s t a Hs Ha Hd Hf; (destruct fuel as [|fuel]; [cbn in Hf; lia|]); cbn [kputs_loop].
  - pose proof (cstr_nul _ _ _ Ha) as Hn. cbn [length] in Hn. rewrite Z.add_0_r in Hn.
    rewrite (bind_ret_eq _ _ _ s 0 []) by (unfold in_video, zoom, load8, gets; rewrite Hn; by destruct s).
    eexists s, _. split; [reflexivity|]. by split.
  - destruct (cstr_cons _ _ _ _ Ha) as (Hc & Hr & Hl). pose proof (cstr_region _ _ _ Ha) as Hreg. cbn [length] in *.
    assert (E0 : in_video (load8 a) s = Ret s c []) by (unfold in_video, zoom, load8, gets; rewrite Hc; by destruct s).
    rewrite !(bind_ret_eq _ _ _ _ _ _ E0), (proj2 (Z.eqb_neq _ _)) by lia. rewrite (bind_ret_eq _ _ _ _ _ _ E0).
    destruct (kputc_color_shows s t c back fore Hs) as (s1 & t1 & E1 & H1 & K1). rewrite (bind_ret_eq _ _ _ _ _ _ E1). clear E1.
    destruct (IH fuel s1 (term_char back fore c t) (a + 1)) as (s2 & t2 & E2 & H2 & K2); [done| |lia|lia|].
    + destruct Hl as [L1 L2 L3 L4]. unfold region in *. split; [done|done| |]; [intros i Hi; rewrite K1 by lia; by apply L3|].
      rewrite K1 by lia. done.
    + rewrite E2. eexists s2, _. split; [reflexivity|]. split; [done|]. by eapply kept_trans.
Qed.

(** [clear_screen] from any state blanks every cell and puts the cursor at the
    top left. *)
Lemma clear_iter t :
  pos t = 0 -> forall k : nat, (k < 2000)%nat ->
  pos (Nat.iter k (term_put blank) t) = k /\ (forall i, 0 <= i < k -> cells (Nat.iter k (term_put blank) t) i = blank).
Proof.
  intros H0. induction k as [|k IH]; intros Hk; [split; [done|intros; lia]|]. cbn [Nat.iter nat_rect].
  destruct IH as [Hp Hc]; [lia|]. set (u := Nat.iter k _ t) in *. change (nat_rect _ _ _ k) with u. unfold term_put.
  rewrite Hp, (proj2 (Z.eqb_neq _ _)) by lia. cbn [pos cells]. split; [lia|]. intros i Hi. unfold write_cell.
  destruct (Z.eqb_spec i k); [done|]. apply Hc. lia.
Qed.

(** The screen after a text that fits before its last cell. *)
Lemma term_text_plain back fore l t :
  Forall (fun c => c <> 9 /\ c <> 10) l -> 0 <= pos t -> pos t + length l < 2000 ->
  pos (term_text back fore l t) = pos t + length l /\
  (forall i : nat, (i < length l)%nat -> cells (term_text back fore l t) (pos t + i) = cell (l !!! i) back fore) /\
  (forall i, i < pos t \/ pos t + length l <= i -> cells (term_text back fore l t) i = cells t i).
Proof.
  unfold term_text. revert t. induction l as [|c l IH]; intros t Hl Hp0 Hp; cbn [foldl length] in *.
  - split; [lia|]. split; [intros; lia|done].
  - inversion_clear Hl as [|? ? [H9 H10] Hl']. set (t1 := term_char back fore c t).
    assert (Et : t1 = Build_term (write_cell (cells t) (pos t) (cell c back fore)) (pos t + 1)).
    { unfold t1, term_char, term_put. rewrite !(proj2 (Z.eqb_neq _ _)) by lia. done. }
    assert (Pt : pos t1 = pos t + 1) by (by rewrite Et). destruct (IH t1) as (I1 & I2 & I3); [done|lia|lia|].
    split; [lia|]. split.
    + intros [|i] Hi.
      * change ((c :: l) !!! 0%nat) with c. rewrite I3 by lia. rewrite Et. cbn [cells]. unfold write_cell. by rewrite Z.add_0_r, Z.eqb_refl.
      * change ((c :: l) !!! S i) with (l !!! i). rewrite <- (I2 i) by lia. f_equal. lia.
    + intros i Hi. rewrite I3 by lia. rewrite Et. cbn [cells]. unfold write_cell. by rewrite (proj2 (Z.eqb_neq _ _)) by lia.
Qed.

Lemma putc_rows s t (n : nat) :
  shows s t ->
  exists s' tr, each (seqZ 0 n) (fun _ => each (seqZ 0 80) (fun _ => vga_putc 0 black white)) s = Ret s' tt tr /\
    shows s' (Nat.iter (80 * n) (term_put blank) t) /\ kept (g_mem s) (g_mem s').
Proof.
  intros H. destruct (each_seqZ (fun k s1 => shows s1 (Nat.iter (80 * Z.to_nat k) (term_put blank) t) /\ kept (g_mem s) (g_mem s1))
    (fun _ => each (seqZ 0 80) (fun _ => vga_putc 0 black white)) 0 n s) as (s' & tr & E & H1 & H2).
  - intros k s1 Hk [H1 K1]. destruct (each_putc_shows s1 _ 0 black white 0 80 H1) as (s2 & t2 & E2 & H2 & K2).
    exists s2, t2. split; [exact E2|]. split; [|by eapply kept_trans]. change (cell 0 black white) with blank in H2.
    rewrite <- Nat.iter_add in H2. by replace (80 * Z.to_nat (k + 1))%nat with (80 + 80 * Z.to_nat k)%nat by lia.
  - by split.
  - exists s', tr. rewrite Nat2Z.id in H1. by split.
Qed.

(** Whatever the screen and the cursor were, after [clear_screen] every cell is
    blank, light on dark, and the cursor is at the top left; memory outside of
    the screen is as before. *)
Theorem clear_screen_blank s :
  exists s' tr, clear_screen s = Ret s' tt tr /\ shows s' (Build_term (fun _ => blank) 0) /\ kept (g_mem s) (g_mem s').
Proof.
  set (s0 := Build_vga (g_mem s) 0 0). set (t0 := Build_term (vcell (g_mem s)) 0).
  assert (H0 : shows s0 t0) by (split; cbn [g_mem cursor_x cursor_y s0 t0 cells pos]; [done|lia|lia|lia]).
  destruct (putc_rows s0 t0 25 H0) as (s1 & t1 & E1 & [C1 _ _ _] & K1).
  assert (Hb : forall i, 0 <= i < 2000 -> vcell (g_mem s1) i = blank).
  { assert (Hn : exists n, (80 * 25)%nat = S n /\ Z.of_nat n = 1999) by (exists (Nat.pred (80 * 25)); split; [reflexivity|lia]).
    destruct Hn as (n & En & Zn). rewrite En in C1. clear En E1. destruct (clear_iter t0 eq_refl n ltac:(lia)) as [Hp Hc].
    intros i Hi. rewrite C1 by done. cbn [Nat.iter nat_rect]. change (nat_rect _ t0 _ n) with (Nat.iter n (term_put blank) t0).
    set (u := Nat.iter n _ t0) in *. clearbody u. unfold term_put. rewrite Hp, Zn. cbn [Z.eqb Pos.eqb cells]. unfold scroll, write_cell.
    destruct (Z.ltb_spec i 1920); [|done]. destruct (Z.eqb_spec (i + 80) 1999); [done|]. apply Hc. lia. }
  unfold clear_screen. rewrite !bind_modify. change (set_y 0 (set_x 0 s)) with s0. rewrite (bind_ret_eq _ _ _ _ _ _ E1). clear E1.
  rewrite !bind_modify. eexists (set_y 0 (set_x 0 s1)), _. split; [reflexivity|]. split; [|exact K1].
  split; cbn [g_mem cursor_x cursor_y set_x set_y cells pos]; [exact Hb|lia..].
Qed.

(** C36: The driver refines the terminal: [kputs_color] does to the screen what
    writing the characters one by one does to the terminal, tabs, line ends and
    scrolling included, for a string stored outside of the screen; it leaves
    the cursor on the screen and the rest of memory as it was. *)
Theorem kputs_color_terminal s t a back fore l :
  shows s t -> cstr (g_mem s) a l -> a + length l < video_memory \/ video_memory + 4000 <= a -> length l < 65536 ->
  exists s' tr, kputs_color a back fore s = Ret s' tt tr /\ shows s' (term_text back fore l t) /\ kept (g_mem s) (g_mem s').
Proof. intros Hs Ha Hd Hl. unfold kputs_color. apply kputs_loop_shows; [done..|]. unfold kputs_fuel. lia. Qed.

(** A text without tabs and line ends that ends before the last cell appears
    from the cursor on, in the given colours, and changes nothing else. *)
Theorem kputs_plain s t a l :
  shows s t -> cstr (g_mem s) a l -> a + length l < video_memory \/ video_memory + 4000 <= a ->
  Forall (fun c => c <> 9 /\ c <> 10) l -> pos t + length l < 2000 ->
  exists s' tr, kputs a s = Ret s' tt tr /\
    (forall i : nat, (i < length l)%nat -> vcell (g_mem s') (pos t + i) = (l !!! i) + 256 * 15) /\
    (forall i, 0 <= i < 2000 -> i < pos t \/ pos t + length l <= i -> vcell (g_mem s') i = vcell (g_mem s) i) /\
    cursor_y s' * 80 + cursor_x s' = pos t + length l.
Proof.
  intros Hs Ha Hd Hpl Hp. pose proof Hs as [C X Y Q]. unfold kputs, kputs_color.
  destruct (kputs_loop_shows kputs_fuel s t a black white l Hs Ha Hd) as (s' & tr & E & [C' X' Y' Q'] & _); [unfold kputs_fuel; lia|].
  destruct (term_text_plain black white l t Hpl ltac:(lia) Hp) as (T1 & T2 & T3). exists s', tr. split; [exact E|].
  split; [|split; [|by rewrite Q']].
  - intros i Hi. rewrite C' by lia. rewrite T2 by done. unfold cell. change (u8 (Z.lor (Z.shiftl black 4) (Z.land white 15))) with 15.
    rewrite u8_small; [lia|]. pose proof (cstr_chars _ _ _ Ha) as Hc. rewrite Forall_lookup in Hc.
    specialize (Hc i (l !!! i) (list_lookup_lookup_total_lt _ _ Hi)). lia.
  - intros i Hi Ho. rewrite C' by lia. rewrite T3 by done. by rewrite C.
Qed.

(** ** A concrete screen *)

Definition ex_text : list Z := [72; 105].
Definition ex_vga : vga := Build_vga (write_bytes ∅ 4096 (ex_text ++ [0])) 78 3.
Definition ex_term : term := Build_term (vcell (g_mem ex_vga)) 318.

Lemma ex_shows : shows ex_vga ex_term.
Proof. split; [done|cbn; lia|cbn; lia|done]. Qed.
Lemma ex_cstr : cstr (g_mem ex_vga) 4096 ex_text.
Proof. apply cstr_write; [split; cbn; lia|]. repeat constructor. Qed.

Lemma kputs_color_terminal_witness :
  exists s' tr, kputs_color 4096 1 2 ex_vga = Ret s' tt tr /\ shows s' (term_text 1 2 ex_text ex_term) /\
    kept (g_mem ex_vga) (g_mem s').
Proof. apply (kputs_color_terminal ex_vga ex_term); [apply ex_shows|apply ex_cstr|left; reflexivity|reflexivity]. Defined.

Lemma kputs_plain_witness :
  exists s' tr, kputs 4096 ex_vga = Ret s' tt tr /\
    (forall i : nat, (i < 2)%nat -> vcell (g_mem s') (318 + i) = (ex_text !!! i) + 256 * 15) /\
    (forall i, 0 <= i < 2000 -> i < 318 \/ 320 <= i -> vcell (g_mem s') i = vcell (g_mem ex_vga) i) /\
    cursor_y s' * 80 + cursor_x s' = 320.
Proof.
  apply (kputs_plain ex_vga ex_term 4096 ex_text); [apply ex_shows|apply ex_cstr|left; reflexivity| |reflexivity].
  repeat constructor; done.
Defined.
