(* ===== verification/Interrupt.v ===== *)
(** * kernel/modules/interrupt/interrupt.c, _8259A.c, keyboard.c: interrupts

    The descriptor table and the table of handlers, the initialisation of the
    two interrupt controllers and of the timer, and the handler of the timer.  A
    handler is named by the C function it is; the entry points isr0..isr47 of
    interrupt_asm.s are addresses.  The handlers that print and the routing of an
    interrupt to its handler are in [Handlers], the functions of the interrupt
    flag in [Threads]. *)

From S2P Require Import Prelude Memory Tcb Pmm Vmm Tss UserVm Threads Port.

Record interrupt_discripter_t := {
  offset_low : Z;
  selector : Z;
  default_bit8 : Z;
  inf : Z;
  offset_high : Z
}.

(** The functions registered as handlers. *)
Inductive int_server_func_t :=
  | default_server_func
  | timer_server_func
  | page_fault_func
  | interrupt_handler_keyboard.

#[export] Instance int_server_func_eq_dec : EqDecision int_server_func_t.
Proof. solve_decision. Defined.

Record lidt_target_t := { lidt_limit : Z; lidt_base : Z }.

Record intr := {
  int_server_func_list : gmap Z int_server_func_t;      (* absent is NULL *)
  idt_entries : gmap Z interrupt_discripter_t;
  lidt_target : lidt_target_t
}.

Class IntrLayout := {
  isr : Z -> Z;              (* the address of the label isr<n> *)
  idt_entries_addr : Z;
  lidt_target_addr : Z
}.

Definition default_inf : Z := 142.
Definition kern_cs : Z := 8.
Definition KEYBOARD_INT_NO : Z := 33.
Definition KEYBOARD_DATA_PORT : Z := 96.

Definition set_list f (s : intr) : intr := Build_intr (f (int_server_func_list s)) (idt_entries s) (lidt_target s).
Definition set_idt f (s : intr) : intr := Build_intr (int_server_func_list s) (f (idt_entries s)) (lidt_target s).
Definition set_lidt v (s : intr) : intr := Build_intr (int_server_func_list s) (idt_entries s) v.

(** ** _8259A.c *)

Definition m_control_port : Z := 32.
Definition m_data_port : Z := 33.
Definition o_control_port : Z := 160.
Definition o_data_port : Z := 161.

Section ports.
Context {S : Type}.

Definition _8259A_init : M S unit :=
  outb m_control_port 17 ;;
  outb m_data_port 32 ;;
  outb m_data_port 4 ;;
  outb m_data_port 1 ;;
  outb o_control_port 17 ;;
  outb o_data_port 40 ;;
  outb o_data_port 2 ;;
  outb o_data_port 1.

Definition timer_init (frequency : Z) : M S unit :=
  if frequency =? 0 then undef
  else
    let divisor := 1193180 / frequency in
    outb 67 54 ;;
    let low := u8 (Z.land divisor 255) in
    let hign := u8 (Z.land (Z.shiftr divisor 8) 255) in
    outb 64 low ;;
    outb 64 hign.
End ports.

(** ** The tables *)

(** The tables have 256 entries. *)
Definition in_table (int_no : Z) : bool := (0 <=? int_no) && (int_no <? 256).

Definition set_int_disc (int_no offset sel inf : Z) : M intr unit :=
  if in_table int_no then
    modify (set_idt (insert int_no
      {| offset_low := u16 offset; offset_high := u16 (Z.shiftr offset 16); selector := sel; inf := inf;
         default_bit8 := 0 |}))
  else undef.

Definition register_interrupt (int_no : Z) (target_func : int_server_func_t) : M intr unit :=
  if in_table int_no then modify (set_list (insert int_no target_func)) else undef.

Section init.
Context {IL : IntrLayout}.

(** The calls of the source are written out one by one; here they are the
    elements of lists of numbers. *)
Definition idt_init : M intr unit :=
  _8259A_init ;;
  each (seqZ 0 48) (fun n => set_int_disc n (isr n) kern_cs default_inf) ;;
  each (seqZ 0 32) (fun n => register_interrupt n default_server_func) ;;
  each (seqZ 33 15) (fun n => register_interrupt n default_server_func) ;;
  register_interrupt 14 page_fault_func ;;
  register_interrupt 32 timer_server_func ;;
  modify (set_lidt {| lidt_limit := u16 (8 * 256); lidt_base := idt_entries_addr |}) ;;
  timer_init 1000 ;;
  emit (Lidt lidt_target_addr) ;;
  emit Cli.

End init.

Definition keyboard_init : M intr unit := register_interrupt KEYBOARD_INT_NO interrupt_handler_keyboard.

(** ** The handlers *)

Section handlers.
Context {P : Type} {PA : PageAllocator P} {L : VmmLayout} {TL : TssLayout} {HL : ThreadLayout}.

Definition count_tick (t : TCB_t) : TCB_t :=
  set_time_counter (u32 (time_counter t + 1)) (set_time_left (u32 (time_left t - 1)) t).

(** As [schedule], the result tells whether it switched. *)
Definition timer_server : M (kern P) bool :=
  cur <- gets cur_tcb ;;
  t <- get_tcb cur ;;
  if negb (time_left t =? 0) then upd_tcb cur count_tick ;; ret false
  else schedule.

(** The call of [printk] that [page_fault_func] makes; [cr2] is the content of that
    register. *)
Definition page_fault_line (cr2 : Z) : M (kern P) (string * list parg) :=
  cur <- get_running_progress ;;
  if cur =? 0 then ret ("INT 14:Page Fault:0x%h IN before init threads\n", [PInt cr2])
  else
    t <- get_tcb cur ;;
    ret ("INT 14:Page Fault:0x%h IN TASK:%d\n", [PInt cr2; PInt (tid t)]).

(** kernel/modules/syscall/syscall.c: the two functions are empty, and nothing
    calls or registers them. *)
Definition interrupt_handler_syscall : M (kern P) unit := ret tt.
Definition syscall_init : M (kern P) unit := ret tt.

End handlers.
