(* ===== verification/InterruptThm.v ===== *)
(** * The interrupt tables after their initialisation, and the clock

    What [idt_init] and [keyboard_init] leave in the tables, and how the timer
    interrupt counts a thread's time down. *)

From S2P Require Import Prelude Memory Tcb Pmm Vmm VmmThm Tss UserVm Threads Ring ThreadsThm ThreadsInv ThreadsSys ThreadsView Port Interrupt.

(** ** The tables *)

Section tables.
Context {IL : IntrLayout}.

(** The 32-bit address the processor takes from a descriptor. *)
Definition entry_offset (d : interrupt_discripter_t) : Z := Z.lor (offset_low d) (Z.shiftl (offset_high d) 16).

(** The descriptor [idt_init] writes for the entry [n]. *)
Definition entry_of (n : Z) : interrupt_discripter_t :=
  {| offset_low := u16 (isr n); offset_high := u16 (Z.shiftr (isr n) 16); selector := kern_cs;
     inf := default_inf; default_bit8 := 0 |}.

Lemma entry_offset_of n : 0 <= isr n < 4294967296 -> entry_offset (entry_of n) = isr n.
Proof.
  intros H. unfold entry_offset, entry_of. cbn [offset_low offset_high]. unfold u16.
  rewrite Z.lor_comm, lor_shiftl_add by (change (2 ^ 16) with 65536; pose proof (u16_range (isr n)); unfold u16 in *; lia). rewrite Z.shiftr_div_pow2 by lia. change (2 ^ 16) with 65536. dlia.
Qed.

(** Inserting the same kind of entry under all the keys of a list. *)
Definition insert_all {V} (f : Z -> V) (l : list Z) (m : gmap Z V) : gmap Z V := foldl (fun m n => <[n := f n]> m) m l.

Lemma insert_all_lookup {V} (f : Z -> V) l m k :
  insert_all f l m !! k = if decide (k ∈ l) then Some (f k) else m !! k.
Proof.
  unfold insert_all. revert m. induction l as [|n l IH]; intros m; [by rewrite decide_False by apply not_elem_of_nil|].
  cbn [foldl]. rewrite IH. destruct (decide (k ∈ l)) as [Hl|Hl].
  - by rewrite decide_True by (by right).
  - destruct (decide (k = n)) as [->|Hne].
    + by rewrite lookup_insert_eq, decide_True by (by left).
    + rewrite lookup_insert_ne by congruence. rewrite decide_False; [done|]. by intros [?|?]%elem_of_cons.
Qed.

Lemma each_set_disc (f : Z -> Z) l i :
  Forall (fun n => 0 <= n < 256) l ->
  each l (fun n => set_int_disc n (f n) kern_cs default_inf) i =
    Ret (set_idt (insert_all (fun n => {| offset_low := u16 (f n); offset_high := u16 (Z.shiftr (f n) 16);
           selector := kern_cs; inf := default_inf; default_bit8 := 0 |}) l) i) tt [].
Proof.
  intros H. revert i. induction H as [|n l Hn _ IH]; intros i; [by destruct i|]. cbn [each]. unfold set_int_disc at 1.
  replace (in_table n) with true by (symmetry; unfold in_table; lia). by rewrite bind_modify, IH.
Qed.

Lemma each_register v l i :
  Forall (fun n => 0 <= n < 256) l ->
  each l (fun n => register_interrupt n v) i = Ret (set_list (insert_all (fun _ => v) l) i) tt [].
Proof.
  intros H. revert i. induction H as [|n l Hn _ IH]; intros i; [by destruct i|]. cbn [each]. unfold register_interrupt at 1.
  replace (in_table n) with true by (symmetry; unfold in_table; lia). by rewrite bind_modify, IH.
Qed.

Lemma seqZ_in_table a n : 0 <= a -> a + n <= 256 -> Forall (fun k => 0 <= k < 256) (seqZ a n).
Proof. intros Ha Hn. apply Forall_forall. intros k Hk%elem_of_seqZ. lia. Qed.

(** What is written to the ports of the controllers and of the timer. *)
Definition idt_events : list event :=
  [Outb 32 17; Outb 33 32; Outb 33 4; Outb 33 1; Outb 160 17; Outb 161 40; Outb 161 2; Outb 161 1;
   Outb 67 54; Outb 64 169; Outb 64 4; Lidt lidt_target_addr; Cli].

(** The handler of an interrupt after [idt_init]. *)
Definition handler_of (n : Z) : int_server_func_t :=
  if decide (n = 14) then page_fault_func else if decide (n = 32) then timer_server_func else default_server_func.

(** The tables [idt_init] leaves. *)
Definition idt_tables (i : intr) : intr :=
  Build_intr
    (<[32 := timer_server_func]> (<[14 := page_fault_func]>
       (insert_all (fun _ => default_server_func) (seqZ 33 15)
          (insert_all (fun _ => default_server_func) (seqZ 0 32) (int_server_func_list i)))))
    (insert_all entry_of (seqZ 0 48) (idt_entries i))
    {| lidt_limit := 2048; lidt_base := idt_entries_addr |}.

Lemma idt_init_eq i : idt_init i = Ret (idt_tables i) tt idt_events.
Proof.
  unfold idt_init. erewrite (bind_ret_eq _8259A_init) by reflexivity.
  erewrite bind_ret_eq by (apply each_set_disc, seqZ_in_table; lia).
  erewrite bind_ret_eq by (apply each_register, seqZ_in_table; lia).
  erewrite bind_ret_eq by (apply each_register, seqZ_in_table; lia). rewrite !prepend_nil. reflexivity.
Qed.

Lemma idt_tables_handler i n : 0 <= n < 48 -> int_server_func_list (idt_tables i) !! n = Some (handler_of n).
Proof.
  intros Hn. unfold handler_of. cbn [int_server_func_list idt_tables].
  destruct (decide (n = 32)) as [->|H32]; [by rewrite lookup_insert_eq|].
  rewrite lookup_insert_ne by done. destruct (decide (n = 14)) as [->|H14]; [by rewrite lookup_insert_eq|].
  rewrite lookup_insert_ne by done. rewrite !insert_all_lookup.
  destruct (decide (n ∈ seqZ 33 15)) as [?|Hs]; [done|]. rewrite decide_True; [done|].
  rewrite elem_of_seqZ in Hs |- *. lia.
Qed.

(** [idt_init] sets the descriptors 0..47, each with the address of its isr in
    its two halves, the kernel code selector and the flags of a present
    interrupt gate; it leaves the others as they were.  The handlers of these
    vectors are the default one, except the page fault's and the timer's. *)
Lemma idt_init_spec i :
  (forall n, 0 <= isr n < 4294967296) ->
  exists i', idt_init i = Ret i' tt idt_events /\
    (forall n, 0 <= n < 48 -> exists d, idt_entries i' !! n = Some d /\ entry_offset d = isr n /\
       selector d = 8 /\ inf d = 142 /\ default_bit8 d = 0) /\
    (forall n, ~ 0 <= n < 48 -> idt_entries i' !! n = idt_entries i !! n) /\
    (forall n, 0 <= n < 48 -> int_server_func_list i' !! n = Some (handler_of n)) /\
    (forall n, ~ 0 <= n < 48 -> int_server_func_list i' !! n = int_server_func_list i !! n) /\
    lidt_base (lidt_target i') = idt_entries_addr /\ lidt_limit (lidt_target i') = 2048.
Proof.
  intros Hisr. exists (idt_tables i). split; [apply idt_init_eq|]. split; [|split; [|split; [|split; [|done]]]].
  - intros n Hn. exists (entry_of n). cbn [idt_entries idt_tables].
    rewrite insert_all_lookup, decide_True by (apply elem_of_seqZ; lia). split; [done|]. split; [by apply entry_offset_of|done].
  - intros n Hn. cbn [idt_entries idt_tables]. rewrite insert_all_lookup, decide_False; [done|]. intros ?%elem_of_seqZ. lia.
  - apply idt_tables_handler.
  - intros n Hn. cbn [int_server_func_list idt_tables]. rewrite !lookup_insert_ne by lia. rewrite !insert_all_lookup.
    rewrite !decide_False; [done|intros ?%elem_of_seqZ; lia..].
Qed.

End tables.

(** ** The clock *)

Section clock.
Context {P : Type} {PA : PageAllocator P} {L : VmmLayout} {TL : TssLayout} {HL : ThreadLayout}.
Implicit Types (k : kern P).

Lemma keeps_tick : keeps count_tick.
Proof. split; try done. by intros t []. Qed.

(** A call of the timer's handler that returns leaves the other threads and
    the registers as they were. *)
Record returned k k' : Prop := {
  rt_cur : cur_tcb k' = cur_tcb k;
  rt_regs : regs k' = regs k;
  rt_others : forall a, a <> cur_tcb k -> tcbs k' !! a = tcbs k !! a;
  rt_wf : threads_wf k'
}.

Lemma returned_alter k rest f :
  threads_inv (tcbs k) (cur_tcb k) rest -> keeps f -> returned k (set_tcbs (alter f (cur_tcb k)) k).
Proof.
  intros H Hk. split; [done|done| |].
  - intros a Ha. cbn [tcbs set_tcbs]. by rewrite lookup_alter_ne by congruence.
  - exists rest. apply inv_alter; [done|done|]. intros Hin. by destruct (cur_not_in _ _ _ H).
Qed.

Lemma timer_cases k :
  threads_wf k ->
  exists k' b t, timer_server k = Ret k' b t /\
    if b : bool then exists x, switch_to_thread k k' x else returned k k'.
Proof.
  intros [rest H]. destruct (inv_cur_lookup _ _ _ H) as (tc & Htc & _). unfold timer_server.
  rewrite bind_gets, (bind_get_tcb _ _ _ _ Htc). destruct (Z.eqb_spec (time_left tc) 0) as [E|E]; cbn [negb].
  - pose proof (schedule_effect k rest H) as Hs. destruct (first_ready (tcbs k) rest) as [x|].
    + destruct Hs as (k' & t & Es & Hsw). exists k', true, t. split; [done|]. by exists x.
    + destruct Hs as (t0 & _ & Es). eexists _, false, _. split; [exact Es|]. eapply returned_alter; [exact H|].
      apply keeps_self_woken.
  - rewrite bind_upd_tcb by eauto. eexists _, false, _. split; [reflexivity|]. eapply returned_alter; [exact H|apply keeps_tick].
Qed.

(** The handler called [n] times in a row, without a switch. *)
Fixpoint ticks (n : nat) : M (kern P) unit :=
  match n with
  | O => ret tt
  | S n' => b <- timer_server ;; if (b : bool) then undef else ticks n'
  end.

(** C33: A thread with [time_left] ticks keeps the processor for that many timer
    interrupts, each counted in [time_counter] modulo 2^32; the interrupt after
    them calls [schedule]. *)
Theorem time_slice k t n :
  tcbs k !! cur_tcb k = Some t -> 0 <= time_left t < 4294967296 -> Z.of_nat n <= time_left t ->
  exists k' t', ticks n k = Ret k' tt [] /\ cur_tcb k' = cur_tcb k /\ tcbs k' !! cur_tcb k = Some t' /\
    time_left t' = time_left t - Z.of_nat n /\ u32 (time_counter t') = u32 (time_counter t + Z.of_nat n) /\
    (forall a, a <> cur_tcb k -> tcbs k' !! a = tcbs k !! a) /\
    (Z.of_nat n = time_left t -> timer_server k' = schedule k').
Proof.
  intros Ht Hr. revert k t Ht Hr. induction n as [|n IH]; intros k t Ht Hr Hn.
  - exists k, t. split; [done|]. split; [done|]. split; [done|]. split; [lia|]. split; [by rewrite Z.add_0_r|].
    split; [done|]. intros E. unfold timer_server. rewrite bind_gets, (bind_get_tcb _ _ _ _ Ht).
    rewrite (proj2 (Z.eqb_eq _ _)) by lia. done.
  - set (k1 := set_tcbs (alter count_tick (cur_tcb k)) k).
    assert (E1 : timer_server k = Ret k1 false []).
    { unfold timer_server. rewrite bind_gets, (bind_get_tcb _ _ _ _ Ht), (proj2 (Z.eqb_neq _ _)) by lia. cbn [negb].
      by rewrite bind_upd_tcb by eauto. }
    destruct (IH k1 (count_tick t)) as (k' & t' & E & C & T & L' & K & O & X).
    + cbn [k1 tcbs set_tcbs cur_tcb]. by rewrite lookup_alter_eq, Ht.
    + cbn [count_tick time_left set_time_counter set_time_left]. rewrite u32_small; lia.
    + cbn [count_tick time_left set_time_counter set_time_left]. rewrite u32_small; lia.
    + cbn [count_tick time_left time_counter set_time_counter set_time_left] in L', K, X. rewrite u32_small in L', X by lia.
      cbn [cur_tcb k1 set_tcbs] in C, T, O. exists k', t'. cbn [ticks]. rewrite (bind_ret_eq _ _ _ _ _ _ E1), E.
      split; [done|]. split; [done|]. split; [done|]. split; [lia|]. split; [|split; [|intros; apply X; lia]].
      * rewrite K. rewrite u32_add_l. f_equal. lia.
      * intros a Ha. rewrite O by done. cbn [tcbs set_tcbs k1]. by rewrite lookup_alter_ne by congruence.
Qed.

(** The tables after both initialisations. *)
Context {IL : IntrLayout}.

Definition init_tables (i : intr) : intr := set_list (insert KEYBOARD_INT_NO interrupt_handler_keyboard) (idt_tables i).

Lemma init_tables_eq i : (idt_init ;; keyboard_init) i = Ret (init_tables i) tt idt_events.
Proof. by rewrite (bind_ret_eq _ _ _ _ _ _ (idt_init_eq i)). Qed.

Lemma init_tables_handler i n : 0 <= n < 48 ->
  int_server_func_list (init_tables i) !! n = Some (if decide (n = 33) then interrupt_handler_keyboard else handler_of n).
Proof.
  intros Hn. unfold init_tables. cbn [int_server_func_list set_list]. unfold KEYBOARD_INT_NO. destruct (decide (n = 33)) as [->|H33].
  - by rewrite lookup_insert_eq.
  - rewrite lookup_insert_ne by congruence. by apply idt_tables_handler.
Qed.

End clock.

(** ** Concrete instances *)

#[local] Existing Instance small_vmm_layout.
#[local] Existing Instance small_tss.
#[local] Existing Instance ex_threads.
Definition ex_isr : IntrLayout := Build_IntrLayout (fun n => 1048576 + 16 * (n `mod` 48)) 65536 70000.
#[local] Existing Instance ex_isr.
Definition ex_intr : intr := Build_intr ∅ ∅ {| lidt_limit := 0; lidt_base := 0 |}.

Lemma idt_init_spec_witness :
  exists i', idt_init ex_intr = Ret i' tt idt_events /\
    (forall n, 0 <= n < 48 -> exists d, idt_entries i' !! n = Some d /\ entry_offset d = isr n /\
       selector d = 8 /\ inf d = 142 /\ default_bit8 d = 0) /\
    (forall n, ~ 0 <= n < 48 -> idt_entries i' !! n = idt_entries ex_intr !! n) /\
    (forall n, 0 <= n < 48 -> int_server_func_list i' !! n = Some (handler_of n)) /\
    (forall n, ~ 0 <= n < 48 -> int_server_func_list i' !! n = int_server_func_list ex_intr !! n) /\
    lidt_base (lidt_target i') = idt_entries_addr /\ lidt_limit (lidt_target i') = 2048.
Proof. apply (idt_init_spec ex_intr). intros n. cbn [isr ex_isr]. pose proof (Z.mod_pos_bound n 48). lia. Defined.

Lemma time_slice_witness :
  exists k' t', ticks 10 ex_kern = Ret k' tt [] /\ cur_tcb k' = 4096 /\ tcbs k' !! 4096 = Some t' /\
    time_left t' = 0 /\ u32 (time_counter t') = u32 10 /\
    (forall a, a <> 4096 -> tcbs k' !! a = tcbs ex_kern !! a) /\ (10 = 10 -> timer_server k' = schedule k').
Proof. exact (time_slice ex_kern (ex_block 8192 0 TASK_RUNNING) 10 eq_refl ltac:(by split) ltac:(done)). Defined.
