(* ===== verification/Sync.v ===== *)
(** * kernel/modules/sync/sync.c: semaphores and locks

    Semaphores, the nodes of their wait queues (locals of [sem_P], on the
    stacks of the waiting threads) and the holders of locks are stores by
    address, beside the state of the threads.  The queue of a semaphore and the
    semaphore of a lock are named by the address of the structure they are in.

    [sem_P] and [lock_acquire] can be switched away from inside
    [thread_block].  They then end [Suspended], with the list of the activations
    on the thread's stack, innermost first; [resume] runs what is left of them
    when the thread is current again. *)

From S2P Require Import Prelude Memory Tcb Pmm Vmm Tss UserVm Threads.

Record sync_tool_sem_queue_node_t := { nd_thread : Z; nd_next : option Z }.
Record sem_t := { sem_val : Z; sem_head : option Z }.

Record sync (P : Type) := Build_sync {
  y_kern : kern P;
  sems : gmap Z sem_t;
  nodes : gmap Z sync_tool_sem_queue_node_t;
  holders : gmap Z Z               (* the field [holder] of lock_t; 0 is NULL *)
}.
Arguments Build_sync {P} y_kern sems nodes holders.
Arguments y_kern {P} s : rename.
Arguments sems {P} s : rename.
Arguments nodes {P} s : rename.
Arguments holders {P} s : rename.

Definition set_kern {P} (k : kern P) (s : sync P) : sync P := Build_sync k (sems s) (nodes s) (holders s).
Definition set_sems {P} (f : gmap Z sem_t -> gmap Z sem_t) (s : sync P) : sync P :=
  Build_sync (y_kern s) (f (sems s)) (nodes s) (holders s).
Definition set_nodes {P} f (s : sync P) : sync P := Build_sync (y_kern s) (sems s) (f (nodes s)) (holders s).
Definition set_holders {P} f (s : sync P) : sync P := Build_sync (y_kern s) (sems s) (nodes s) (f (holders s)).

(** The field [sem] of lock_t. *)
Definition lock_sem (lock : Z) : Z := lock + 4.

(** An activation interrupted by a switch, with its local variables: inside
    [thread_block], [sem_P] or [lock_acquire], or in the timer interrupt, which
    returns to code with the saved flags. *)
Inductive frame :=
  | In_thread_block (condition : bool)
  | In_sem_P (sem node : Z) (condition : bool)
  | In_lock_acquire (lock : Z) (condition : bool)
  | In_interrupt (saved_eflags : Z).

Inductive flow :=
  | Returned
  | Suspended (fs : list frame).

Section code.
Context {P : Type} {PA : PageAllocator P} {L : VmmLayout} {TL : TssLayout} {HL : ThreadLayout}.

Definition in_kern {A} (c : M (kern P) A) : M (sync P) A := zoom y_kern set_kern c.

Definition get_sem (a : Z) : M (sync P) sem_t :=
  fun s => match sems s !! a with Some x => Ret s x [] | None => Undef end.
Definition put_sem (a : Z) (x : sem_t) : M (sync P) unit := modify (set_sems (insert a x)).
Definition get_node (a : Z) : M (sync P) sync_tool_sem_queue_node_t :=
  fun s => match nodes s !! a with Some x => Ret s x [] | None => Undef end.
Definition set_node_next (a : Z) (v : option Z) : M (sync P) unit :=
  n <- get_node a ;; modify (set_nodes (insert a {| nd_thread := nd_thread n; nd_next := v |})).
(** The local [node] of [sem_P], with its thread assigned; [next] holds what
    the stack held. *)
Definition declare_node (a thread : Z) : M (sync P) unit :=
  modify (set_nodes (fun m => <[a := {| nd_thread := thread; nd_next := m !! a ≫= nd_next |}]> m)).
Definition set_queue_head (q : Z) (v : option Z) : M (sync P) unit :=
  s <- get_sem q ;; put_sem q {| sem_val := sem_val s; sem_head := v |}.
Definition set_sem_val (a v : Z) : M (sync P) unit :=
  s <- get_sem a ;; put_sem a {| sem_val := v; sem_head := sem_head s |}.

(** ** The queue *)

Definition sync_tool_sem_init_queue (queue : Z) : M (sync P) unit := set_queue_head queue None.

Definition sync_tool_get (queue : Z) : M (sync P) (option Z) :=
  s <- get_sem queue ;;
  match sem_head s with
  | None => ret None
  | Some probe =>
      n <- get_node probe ;;
      set_queue_head queue (nd_next n) ;;
      set_node_next probe None ;;
      ret (Some probe)
  end.

(** [while (probe->next!=NULL) probe = probe->next;] *)
Fixpoint queue_last (fuel : nat) (probe : Z) : M (sync P) Z :=
  match fuel with
  | O => nofuel
  | S fuel' =>
      n <- get_node probe ;;
      match nd_next n with None => ret probe | Some q => queue_last fuel' q end
  end.

Definition queue_fuel (s : sync P) : nat := S (base.size (nodes s)).

Definition sync_tool_add (queue node : Z) : M (sync P) unit :=
  set_node_next node None ;;
  s <- get_sem queue ;;
  match sem_head s with
  | None => set_queue_head queue (Some node)
  | Some h =>
      fuel <- gets queue_fuel ;;
      probe <- queue_last fuel h ;;
      set_node_next probe (Some node)
  end.

Definition sync_tool_is_empty (queue : Z) : M (sync P) bool :=
  s <- get_sem queue ;; ret (bool_decide (sem_head s = None)).

(** ** Semaphores *)

(** The structure at [sem] holds anything before. *)
Definition sem_init (sem val : Z) : M (sync P) unit :=
  modify (set_sems (fun m => <[sem := default {| sem_val := 0; sem_head := None |} (m !! sem)]> m)) ;;
  sync_tool_sem_init_queue sem ;;
  set_sem_val sem val.

(** The loop of [sem_P] and its end; [node] is where its local is. *)
Fixpoint sem_P_loop (fuel : nat) (sem node : Z) (condition : bool) : M (sync P) flow :=
  match fuel with
  | O => nofuel
  | S fuel' =>
      s <- get_sem sem ;;
      if sem_val s =? 0 then
        running <- in_kern get_running_progress ;;
        declare_node node running ;;
        sync_tool_add sem node ;;
        r <- in_kern thread_block_begin ;;
        if r.2 then ret (Suspended [In_thread_block r.1; In_sem_P sem node condition])
        else in_kern (sti_condition r.1) ;; sem_P_loop fuel' sem node condition
      else
        set_sem_val sem (u32 (sem_val s - 1)) ;;
        in_kern (sti_condition condition) ;;
        ret Returned
  end.

Definition sem_P (fuel : nat) (sem node : Z) : M (sync P) flow :=
  condition <- in_kern cli_condition ;;
  sem_P_loop fuel sem node condition.

Definition sem_V (sem : Z) : M (sync P) unit :=
  condition <- in_kern cli_condition ;;
  empty <- sync_tool_is_empty sem ;;
  (if (empty : bool) then ret tt
   else
     node <- sync_tool_get sem ;;
     match node with
     | None => ret tt
     | Some n => nd <- get_node n ;; in_kern (thread_wakeup (nd_thread nd))
     end) ;;
  s <- get_sem sem ;;
  set_sem_val sem (u32 (sem_val s + 1)) ;;
  in_kern (sti_condition condition).

(** ** Locks *)

Definition get_holder (lock : Z) : M (sync P) Z :=
  fun s => match holders s !! lock with Some x => Ret s x [] | None => Undef end.
Definition set_holder (lock v : Z) : M (sync P) unit := modify (set_holders (insert lock v)).

Definition lock_init (lock : Z) : M (sync P) unit :=
  sem_init (lock_sem lock) 1 ;; set_holder lock 0.

(** After [sem_P] in [lock_acquire]. *)
Definition lock_acquired (lock : Z) : M (sync P) unit :=
  running <- in_kern get_running_progress ;; set_holder lock running.

Definition lock_acquire (fuel : nat) (lock node : Z) : M (sync P) flow :=
  condition <- in_kern cli_condition ;;
  h <- get_holder lock ;;
  running <- in_kern get_running_progress ;;
  if negb (h =? running) then
    r <- sem_P fuel (lock_sem lock) node ;;
    match r with
    | Returned => lock_acquired lock ;; in_kern (sti_condition condition) ;; ret Returned
    | Suspended fs => ret (Suspended (fs ++ [In_lock_acquire lock condition]))
    end
  else in_kern (sti_condition condition) ;; ret Returned.

Definition lock_release (lock : Z) : M (sync P) unit :=
  condition <- in_kern cli_condition ;;
  h <- get_holder lock ;;
  running <- in_kern get_running_progress ;;
  (if h =? running then set_holder lock 0 ;; sem_V (lock_sem lock) else ret tt) ;;
  in_kern (sti_condition condition).

(** ** After a switch back *)

Definition restore_eflags (v : Z) : M (kern P) unit := modify (fun k => set_regs (with_eflags v (regs k)) k).

Fixpoint resume (fuel : nat) (fs : list frame) : M (sync P) flow :=
  match fs with
  | [] => ret Returned
  | In_thread_block condition :: fs' => in_kern (sti_condition condition) ;; resume fuel fs'
  | In_sem_P sem node condition :: fs' =>
      r <- sem_P_loop fuel sem node condition ;;
      match r with
      | Returned => resume fuel fs'
      | Suspended fs2 => ret (Suspended (fs2 ++ fs'))
      end
  | In_lock_acquire lock condition :: fs' =>
      lock_acquired lock ;; in_kern (sti_condition condition) ;; resume fuel fs'
  | In_interrupt saved :: fs' => in_kern (restore_eflags saved) ;; resume fuel fs'
  end.

End code.
