(* ===== verification/SyncThm.v ===== *)
(** * The wait queues and the operations of sync.c

    The queue of a semaphore is a list of nodes, [qlist]; the queue functions
    are those of a first-in first-out queue.  [own_if] is the interrupt flag a
    thread has, in the processor or saved in its block: switching does not
    change it. *)

From S2P Require Import Prelude Memory Tcb Pmm Vmm Tss UserVm Threads Ring ThreadsThm ThreadsInv ThreadsView Sync.

(** ** Queues as lists *)

Fixpoint qlist (nm : gmap Z sync_tool_sem_queue_node_t) (h : option Z) (q : list Z) : Prop :=
  match q with
  | [] => h = None
  | n :: q' => h = Some n /\ exists nd, nm !! n = Some nd /\ qlist nm (nd_next nd) q'
  end.

Lemma qlist_insert_ne nm h q n x : n ∉ q -> qlist (<[n := x]> nm) h q <-> qlist nm h q.
Proof.
  revert h. induction q as [|m q IH]; intros h Hn; cbn [qlist]; [done|].
  apply not_elem_of_cons in Hn as [Hne Hn]. rewrite lookup_insert_ne by done.
  split; intros (E & nd & Hnd & Hq); (split; [done|]); exists nd; (split; [done|]); by apply (IH (nd_next nd)).
Qed.

Lemma qlist_lookup nm h q n : qlist nm h q -> n ∈ q -> is_Some (nm !! n).
Proof.
  revert h. induction q as [|m q IH]; intros h Hq Hn; [by apply not_elem_of_nil in Hn|].
  destruct Hq as (_ & nd & Hnd & Hq). apply elem_of_cons in Hn as [->|Hn]; eauto.
Qed.

Lemma qlist_length nm h q : qlist nm h q -> NoDup q -> (length q <= base.size nm)%nat.
Proof.
  intros H Hn. rewrite <- (size_list_to_set (C := gset Z)), <- size_dom by done.
  apply subseteq_size. intros x Hx. apply elem_of_list_to_set in Hx. apply elem_of_dom. by eapply qlist_lookup.
Qed.

(** A node appended to a queue. *)
Lemma qlist_snoc nm h q x n nd :
  qlist nm h (q ++ [x]) -> NoDup (q ++ [x]) -> n ∉ q ++ [x] -> nm !! n = Some nd -> nd_next nd = None ->
  exists ndx, nm !! x = Some ndx /\ nd_next ndx = None /\
    qlist (<[x := {| nd_thread := nd_thread ndx; nd_next := Some n |}]> nm) h (q ++ [x; n]).
Proof.
  revert h. induction q as [|m q IH]; intros h Hq Hnd Hn Hnn Hnx.
  - destruct Hq as (-> & ndx & Hx & Hq). cbn [qlist] in Hq. exists ndx. split; [done|]. split; [done|].
    cbn [qlist app]. split; [done|]. eexists. split; [by rewrite lookup_insert_eq|]. cbn [nd_next].
    split; [done|]. exists nd. split; [|done]. rewrite lookup_insert_ne; [done|].
    intros ->. apply Hn. by left.
  - destruct Hq as (-> & ndm & Hm & Hq). cbn [app] in *. apply NoDup_cons in Hnd as [Hmq Hnd].
    apply not_elem_of_cons in Hn as [Hne Hn].
    destruct (IH _ Hq Hnd Hn Hnn Hnx) as (ndx & Hx & Hxn & Hq'). exists ndx. split; [done|]. split; [done|].
    split; [done|]. exists ndm. split; [|done]. rewrite lookup_insert_ne; [done|].
    intros ->. apply Hmq. apply elem_of_app. right. by left.
Qed.

Section queue.
Context {P : Type}.
Implicit Types (s : sync P).

Lemma bind_get_sem {B} a (k : sem_t -> M (sync P) B) s x : sems s !! a = Some x -> bind (get_sem a) k s = k x s.
Proof. intros E. unfold bind, get_sem. rewrite E. apply prepend_nil. Qed.
Lemma bind_get_node {B} a (k : _ -> M (sync P) B) s x : nodes s !! a = Some x -> bind (get_node a) k s = k x s.
Proof. intros E. unfold bind, get_node. rewrite E. apply prepend_nil. Qed.
Lemma set_node_next_eq a v s nd :
  nodes s !! a = Some nd ->
  set_node_next a v s = Ret (set_nodes (insert a {| nd_thread := nd_thread nd; nd_next := v |}) s) tt [].
Proof. intros E. unfold set_node_next. by rewrite (bind_get_node _ _ _ _ E). Qed.
Lemma set_queue_head_eq a v s x :
  sems s !! a = Some x ->
  set_queue_head a v s = Ret (set_sems (insert a {| sem_val := sem_val x; sem_head := v |}) s) tt [].
Proof. intros E. unfold set_queue_head. by rewrite (bind_get_sem _ _ _ _ E). Qed.
Lemma set_sem_val_eq a v s x :
  sems s !! a = Some x ->
  set_sem_val a v s = Ret (set_sems (insert a {| sem_val := v; sem_head := sem_head x |}) s) tt [].
Proof. intros E. unfold set_sem_val. by rewrite (bind_get_sem _ _ _ _ E). Qed.

Lemma queue_last_eq s h q fuel :
  qlist (nodes s) (Some h) (h :: q) -> (length q < fuel)%nat ->
  exists x q0, h :: q = q0 ++ [x] /\ queue_last fuel h s = Ret s x [].
Proof.
  revert h fuel. induction q as [|m q IH]; intros h fuel (_ & nd & Hnd & Hq) Hf;
    (destruct fuel as [|fuel]; [simpl in Hf; lia|]); cbn [queue_last]; rewrite (bind_get_node _ _ _ _ Hnd).
  - cbn [qlist] in Hq. rewrite Hq. by exists h, [].
  - destruct Hq as [E Hq]. rewrite E. destruct (IH m fuel) as (x & q0 & Ex & Eq);
      [by split|simpl in Hf; lia|]. exists x, (h :: q0). split; [by rewrite Ex|done].
Qed.

(** What both queue operations keep. *)
Record queue_frame (s s' : sync P) (ns : list Z) : Prop := {
  qf_kern : y_kern s' = y_kern s;
  qf_holders : holders s' = holders s;
  qf_others : forall m, m ∉ ns -> nodes s' !! m = nodes s !! m;
  qf_threads : forall m, nd_thread <$> nodes s' !! m = nd_thread <$> nodes s !! m
}.

Lemma thread_insert (nm : gmap Z sync_tool_sem_queue_node_t) n nd v m :
  nm !! n = Some nd ->
  nd_thread <$> <[n := {| nd_thread := nd_thread nd; nd_next := v |}]> nm !! m = nd_thread <$> nm !! m.
Proof.
  intros E. destruct (decide (m = n)) as [->|Hne]; [by rewrite lookup_insert_eq, E|].
  by rewrite lookup_insert_ne by congruence.
Qed.

Lemma sync_tool_add_spec s a n q x nd :
  sems s !! a = Some x -> qlist (nodes s) (sem_head x) q -> NoDup q -> n ∉ q -> nodes s !! n = Some nd ->
  exists s' h, sync_tool_add a n s = Ret s' tt [] /\ queue_frame s s' (n :: q) /\
    sems s' = <[a := {| sem_val := sem_val x; sem_head := h |}]> (sems s) /\ qlist (nodes s') h (q ++ [n]).
Proof.
  intros Ha Hq Hnd Hn Hnode. unfold sync_tool_add. run (set_node_next_eq _ None _ _ Hnode) by idtac.
  set (nd' := {| nd_thread := nd_thread nd; nd_next := None |}). set (s1 := set_nodes _ s).
  assert (Ha1 : sems s1 !! a = Some x) by done. rewrite (bind_get_sem _ _ _ _ Ha1).
  assert (Hq1 : qlist (nodes s1) (sem_head x) q) by (by apply qlist_insert_ne).
  assert (Hn1 : nodes s1 !! n = Some nd') by (unfold s1; cbn [nodes set_nodes]; by rewrite lookup_insert_eq).
  destruct q as [|h q].
  - cbn [qlist] in Hq1. rewrite Hq1, (set_queue_head_eq _ _ _ _ Ha1). eexists _, (Some n). split; [reflexivity|].
    split; [split|]; [done|done| | |].
    + intros m Hm. apply not_elem_of_cons in Hm as [Hm _]. cbn [nodes set_sems set_nodes s1].
      by rewrite lookup_insert_ne by congruence.
    + intros m. by apply thread_insert.
    + split; [done|]. cbn [app qlist]. split; [done|]. exists nd'. split; [done|]. done.
  - pose proof (qlist_length _ _ _ Hq1 Hnd) as Hlen. pose proof Hq1 as [E _]. rewrite E, bind_gets. rewrite E in Hq1.
    destruct (queue_last_eq s1 h q (queue_fuel s1) Hq1) as (y & q0 & Ey & Eq).
    { unfold queue_fuel. cbn [length] in Hlen. lia. }
    run Eq by idtac. rewrite Ey in Hq1, Hnd, Hn.
    destruct (qlist_snoc _ _ _ _ _ nd' Hq1 Hnd Hn Hn1 eq_refl) as (ndy & Hy & _ & Hq2).
    rewrite (set_node_next_eq _ _ _ _ Hy). eexists _, (Some h). split; [reflexivity|].
    split; [split|]; [done|done| | |split].
    + intros m Hm. cbn [nodes set_nodes s1]. apply not_elem_of_cons in Hm as [Hm Hmq]. rewrite Ey in Hmq.
      rewrite !lookup_insert_ne; [done|congruence|]. intros ->. apply Hmq. apply elem_of_app. right. by left.
    + intros m. cbn [nodes set_nodes]. rewrite thread_insert by done. by apply thread_insert.
    + cbn [sems set_nodes s1]. rewrite insert_id; [done|]. rewrite Ha. by destruct x; cbn in E; rewrite E.
    + rewrite Ey, <- app_assoc. exact Hq2.
Qed.

Lemma sync_tool_get_spec s a q x :
  sems s !! a = Some x -> qlist (nodes s) (sem_head x) q -> NoDup q ->
  match q with
  | [] => sync_tool_get a s = Ret s None []
  | n :: q' => exists s' h, sync_tool_get a s = Ret s' (Some n) [] /\ queue_frame s s' [n] /\
      sems s' = <[a := {| sem_val := sem_val x; sem_head := h |}]> (sems s) /\ qlist (nodes s') h q'
  end.
Proof.
  intros Ha Hq Hnd. unfold sync_tool_get. rewrite (bind_get_sem _ _ _ _ Ha). destruct q as [|n q].
  - cbn [qlist] in Hq. by rewrite Hq.
  - destruct Hq as (E & nd & Hn & Hq). rewrite E, (bind_get_node _ _ _ _ Hn).
    run (set_queue_head_eq _ (nd_next nd) _ _ Ha) by idtac.
    run (set_node_next_eq n None (set_sems _ s) nd) by done.
    eexists _, (nd_next nd). split; [reflexivity|]. split; [split|]; [done|done| | |].
    + intros m Hm. apply not_elem_of_cons in Hm as [Hm _]. cbn [nodes set_sems set_nodes].
      by rewrite lookup_insert_ne by congruence.
    + intros m. by apply thread_insert.
    + split; [done|]. apply NoDup_cons in Hnd as [Hnd _]. by apply qlist_insert_ne.
Qed.
End queue.

(** ** [sem_P] *)

Section sem.
Context {P : Type} {PA : PageAllocator P} {L : VmmLayout} {TL : TssLayout} {HL : ThreadLayout}.
Implicit Types (s : sync P).

Lemma in_kern_ret {A} (c : M (kern P) A) s k (a : A) t :
  c (y_kern s) = Ret k a t -> in_kern c s = Ret (set_kern k s) a t.
Proof. intros E. unfold in_kern, zoom. by rewrite E. Qed.

Lemma set_kern_same s : set_kern (y_kern s) s = s.
Proof. by destruct s. Qed.

(** The registers after [sti_condition]. *)
Definition restored (c : bool) (r : context_t) : context_t := if c then if_on r else if_off r.
Lemma in_kern_sti c s :
  in_kern (sti_condition c) s =
    Ret (set_kern (set_regs (restored c (regs (y_kern s))) (y_kern s)) s) tt [if c : bool then Sti else Cli].
Proof. erewrite in_kern_ret by apply sti_condition_eq. done. Qed.

(** A permit is there: it is taken. *)
Lemma sem_P_loop_take fuel a n c s x :
  sems s !! a = Some x -> sem_val x <> 0 -> 0 <= sem_val x < 4294967296 ->
  sem_P_loop (S fuel) a n c s =
    Ret (Build_sync (set_regs (restored c (regs (y_kern s))) (y_kern s))
           (<[a := {| sem_val := sem_val x - 1; sem_head := sem_head x |}]> (sems s)) (nodes s) (holders s))
        Returned [if c : bool then Sti else Cli].
Proof.
  intros Ha Hv Hr. cbn [sem_P_loop]. rewrite (bind_get_sem _ _ _ _ Ha). rewrite (proj2 (Z.eqb_neq _ _)) by done.
  run (set_sem_val_eq _ (u32 (sem_val x - 1)) _ _ Ha) by idtac. rewrite u32_small by lia.
  erewrite bind_ret_eq by apply in_kern_sti. done.
Qed.

(** The node of the current thread, unlinked. *)
Definition own_node s : sync_tool_sem_queue_node_t := {| nd_thread := cur_tcb (y_kern s); nd_next := None |}.

(** The state in which the loop adds the node. *)
Lemma declare_eq a n c fuel s x :
  sems s !! a = Some x -> sem_val x = 0 ->
  exists s1 nd, sem_P_loop (S fuel) a n c s =
      (sync_tool_add a n ;;
       r <- in_kern thread_block_begin ;;
       if r.2 then ret (Suspended [In_thread_block r.1; In_sem_P a n c])
       else in_kern (sti_condition r.1) ;; sem_P_loop fuel a n c) s1 /\
    y_kern s1 = y_kern s /\ sems s1 = sems s /\ holders s1 = holders s /\
    nodes s1 = <[n := nd]> (nodes s) /\ nd_thread nd = cur_tcb (y_kern s).
Proof.
  intros Ha Hv. eexists (set_nodes _ s), _. split; [|split; [|split; [|split; [|split]]]];
    [|reflexivity|reflexivity|reflexivity|reflexivity|].
  - cbn [sem_P_loop]. rewrite (bind_get_sem _ _ _ _ Ha), Hv. cbn [Z.eqb].
    erewrite bind_ret_eq by (apply in_kern_ret; reflexivity). rewrite prepend_nil, set_kern_same.
    unfold declare_node. rewrite bind_modify. reflexivity.
  - done.
Qed.

(** No permit, and another thread is ready: the current thread joins the queue
    and is switched away. *)
Lemma sem_P_loop_block fuel a n c s x q rest y :
  sems s !! a = Some x -> sem_val x = 0 -> qlist (nodes s) (sem_head x) q -> NoDup q -> n ∉ q ->
  threads_inv (tcbs (y_kern s)) (cur_tcb (y_kern s)) rest -> if_flag (regs (y_kern s)) = false ->
  first_ready (tcbs (y_kern s)) rest = Some y ->
  exists s' t h nd, sem_P_loop (S fuel) a n c s = Ret s' (Suspended [In_thread_block false; In_sem_P a n c]) t /\
    sems s' = <[a := {| sem_val := sem_val x; sem_head := h |}]> (sems s) /\ holders s' = holders s /\
    qlist (nodes s') h (q ++ [n]) /\ nodes s' !! n = Some nd /\ nd_thread nd = cur_tcb (y_kern s) /\
    (forall m, m <> n -> nd_thread <$> nodes s' !! m = nd_thread <$> nodes s !! m) /\
    (forall m, m ∉ n :: q -> nodes s' !! m = nodes s !! m) /\
    switch_to_thread
      (set_tcbs (alter (set_status TASK_BLOCKED) (cur_tcb (y_kern s))) (y_kern s)) (y_kern s') y.
Proof.
  intros Ha Hv Hq Hnd Hn Hth Hif Hy. destruct (declare_eq a n c fuel s x Ha Hv) as (s1 & nd & -> & K1 & S1 & H1 & N1 & T1).
  destruct (sync_tool_add_spec s1 a n q x nd) as (s2 & h & E2 & [F1 F2 F3 F4] & S2 & Q2);
    [by rewrite S1|by rewrite N1; apply qlist_insert_ne|done|done|by rewrite N1, lookup_insert_eq|].
  run E2 by idtac. pose proof (block_effect_at (y_kern s) rest Hth Hif) as Hb. rewrite Hy in Hb.
  destruct Hb as (k' & t & Eb & Hsw). rewrite <- K1, <- F1 in Eb. rewrite (bind_ret_eq _ _ _ _ _ _ (in_kern_ret _ _ _ _ _ Eb)).
  assert (Hn2 : exists nd2, nodes s2 !! n = Some nd2 /\ nd_thread nd2 = cur_tcb (y_kern s)).
  { specialize (F4 n). rewrite N1, lookup_insert_eq in F4. destruct (nodes s2 !! n) as [nd2|]; [|done].
    injection F4 as F4. exists nd2. by rewrite F4, T1. }
  destruct Hn2 as (nd2 & Hn2 & T2). eexists (set_kern k' s2), _, h, nd2. split; [reflexivity|].
  cbn [sems holders nodes y_kern set_kern]. split; [by rewrite S2, S1|]. split; [by rewrite F2|]. split; [done|].
  split; [done|]. split; [done|]. split; [|split; [|done]].
  - intros m Hm. by rewrite F4, N1, lookup_insert_ne by congruence.
  - intros m Hm. rewrite F3 by done. rewrite N1, lookup_insert_ne; [done|]. intros ->. apply Hm. by left.
Qed.

(** *** No other thread is ready *)

Lemma qlist_last nm h q n : qlist nm h (q ++ [n]) -> exists nd, nm !! n = Some nd /\ nd_next nd = None.
Proof.
  revert h. induction q as [|m q IH]; intros h Hq; destruct Hq as (_ & nd & Hn & Hq); [|by eapply IH].
  exists nd. done.
Qed.

(** Adding the node that is already the last one of the queue makes it its own
    successor. *)
Lemma sync_tool_add_again s a n q x nd :
  sems s !! a = Some x -> nodes s !! n = Some nd ->
  let nm := <[n := {| nd_thread := nd_thread nd; nd_next := None |}]> (nodes s) in
  qlist nm (sem_head x) (q ++ [n]) -> NoDup (q ++ [n]) ->
  sync_tool_add a n s =
    Ret (set_nodes (fun _ => <[n := {| nd_thread := nd_thread nd; nd_next := Some n |}]> nm) s) tt [].
Proof.
  intros Ha Hn nm Hq Hnd. unfold sync_tool_add. run (set_node_next_eq _ None _ _ Hn) by idtac.
  set (s1 := set_nodes _ s). assert (Ha1 : sems s1 !! a = Some x) by done. rewrite (bind_get_sem _ _ _ _ Ha1).
  pose proof (qlist_length _ _ _ Hq Hnd) as Hlen.
  destruct (q ++ [n]) as [|h q'] eqn:Eq; [by apply app_eq_nil in Eq as [_ ?]|]. pose proof Hq as [E _]. rewrite E.
  rewrite bind_gets. rewrite E in Hq. destruct (queue_last_eq s1 h q' (queue_fuel s1) Hq) as (y & q0 & Ey & El).
  { unfold queue_fuel. change (nodes s1) with nm. cbn [length] in Hlen. lia. }
  run El by idtac. rewrite <- Eq in Ey. apply app_inj_tail in Ey as [_ <-].
  erewrite set_node_next_eq by (unfold s1; cbn [nodes set_nodes]; by rewrite lookup_insert_eq). done.
Qed.

(** The current thread waits for a permit nobody can give: its node is not in
    the queue yet, or it is the last one. *)
Record deadlocked (a n : Z) s : Prop := {
  dl_alone : alone (y_kern s);
  dl_off : if_flag (regs (y_kern s)) = false;
  dl_queue : exists x q, sems s !! a = Some x /\ sem_val x = 0 /\
    ((qlist (nodes s) (sem_head x) q /\ NoDup q /\ n ∉ q) \/
     (qlist (<[n := own_node s]> (nodes s)) (sem_head x) (q ++ [n]) /\ NoDup (q ++ [n])))
}.

Lemma deadlocked_add a n c fuel s :
  deadlocked a n s ->
  exists s2, sem_P_loop (S fuel) a n c s =
      (r <- in_kern thread_block_begin ;;
       if r.2 then ret (Suspended [In_thread_block r.1; In_sem_P a n c])
       else in_kern (sti_condition r.1) ;; sem_P_loop fuel a n c) s2 /\
    y_kern s2 = y_kern s /\ exists x q, sems s2 !! a = Some x /\ sem_val x = 0 /\
      qlist (<[n := own_node s]> (nodes s2)) (sem_head x) (q ++ [n]) /\ NoDup (q ++ [n]).
Proof.
  intros [Hal Hoff (x & q & Ha & Hv & Hq)].
  destruct (declare_eq a n c fuel s x Ha Hv) as (s1 & nd & -> & K1 & S1 & H1 & N1 & T1).
  destruct Hq as [(Hq & Hnd & Hn)|[Hq Hnd]].
  - destruct (sync_tool_add_spec s1 a n q x nd) as (s2 & h & E2 & [F1 F2 F3 F4] & S2 & Q2);
      [by rewrite S1|by rewrite N1; apply qlist_insert_ne|done|done|by rewrite N1, lookup_insert_eq|].
    exists s2. run E2 by idtac. split; [done|]. split; [congruence|].
    exists {| sem_val := sem_val x; sem_head := h |}, q. split; [by rewrite S2, lookup_insert_eq|].
    split; [done|]. split.
    + destruct (qlist_last _ _ _ _ Q2) as (nd2 & Hn2 & Hx2). rewrite insert_id; [done|]. rewrite Hn2. f_equal.
      specialize (F4 n). rewrite N1, lookup_insert_eq, Hn2 in F4. injection F4 as F4.
      unfold own_node. rewrite <- T1, <- F4. destruct nd2; cbn in *. by rewrite Hx2.
    + apply NoDup_app. split; [done|]. split; [|apply NoDup_singleton]. intros m Hm ->%list_elem_of_singleton. done.
  - assert (E0 : <[n := {| nd_thread := nd_thread nd; nd_next := None |}]> (nodes s1) = <[n := own_node s]> (nodes s)).
    { rewrite N1, insert_insert_eq. unfold own_node. by rewrite T1. }
    assert (Ha1 : sems s1 !! a = Some x) by (by rewrite S1).
    assert (Hn1 : nodes s1 !! n = Some nd) by (by rewrite N1, lookup_insert_eq).
    eexists. split; [run (sync_tool_add_again s1 a n q x nd Ha1 Hn1) by (try rewrite E0; done); reflexivity|].
    cbn [y_kern set_nodes sems nodes]. split; [done|]. exists x, q. split; [done|]. split; [done|].
    by rewrite insert_insert_eq, E0, insert_insert_eq.
Qed.

Lemma deadlocked_diverges fuel a n c s : deadlocked a n s -> sem_P_loop fuel a n c s = NoFuel.
Proof.
  revert s. induction fuel as [|fuel IH]; intros s H; [done|].
  destruct (deadlocked_add a n c fuel s H) as (s2 & -> & K2 & x & q & Ha & Hv & Hq & Hnd).
  destruct (dl_alone _ _ _ H) as (rest & Hth & Hfr).
  pose proof (block_effect_at (y_kern s) rest Hth (dl_off _ _ _ H)) as Hb. rewrite Hfr in Hb.
  destruct Hb as (k' & t & Eb & Hal & Hc & Hr). rewrite <- K2 in Eb.
  rewrite (bind_ret_eq _ _ _ _ _ _ (in_kern_ret _ _ _ _ _ Eb)). cbn [fst snd].
  rewrite (bind_ret_eq _ _ _ _ _ _ (in_kern_sti false _)). cbn [y_kern set_kern]. rewrite IH; [done|].
  split; cbn [y_kern set_kern].
  - destruct Hal as (r & Hr1 & Hr2). by exists r.
  - apply if_flag_off.
  - exists x, q. split; [done|]. split; [done|]. right. split; [|done]. cbn [nodes set_kern].
    unfold own_node in *. cbn [y_kern set_kern cur_tcb set_regs]. by rewrite Hc.
Qed.
End sem.
