(* ===== verification/SemInv.v ===== *)
(** * The invariant of one semaphore

    A semaphore at [a] with the threads that wait for it: [q] the nodes in its
    queue, [w] the threads already woken that have not run yet.  [wt t] is the
    semaphore and the node the thread [t] is suspended on in [sem_P].  The
    invariant is stated over the statuses [st] and the current thread [cur]
    alone, so each operation of sync.c needs one lemma here. *)

From S2P Require Import Prelude Memory Tcb Sync SyncThm.

Record sem_inv (nm : gmap Z sync_tool_sem_queue_node_t) (a : Z) (x : sem_t) (wt : Z -> option (Z * Z))
    (st : Z -> option task_status_t) (cur : Z) (q w : list Z) : Prop := {
  si_list : qlist nm (sem_head x) q;
  si_nodup : NoDup q;
  si_wait : forall n, n ∈ q -> exists nd, nm !! n = Some nd /\ wt (nd_thread nd) = Some (a, n) /\
    st (nd_thread nd) = Some TASK_BLOCKED /\ nd_thread nd <> cur;
  si_woken_nodup : NoDup w;
  si_woken : forall t, t ∈ w -> exists n, wt t = Some (a, n) /\ n ∉ q /\ (t = cur \/ st t = Some TASK_READY);
  si_all : forall t n, wt t = Some (a, n) -> n ∉ q -> t ∈ w;
  si_count : q = [] \/ sem_val x <= length w;
  si_range : 0 <= sem_val x < 4294967296
}.

(** Removing a thread from the woken ones. *)
Definition without (c : Z) (w : list Z) : list Z := filter (fun t => t <> c) w.

Lemma elem_of_without c w t : t ∈ without c w <-> t <> c /\ t ∈ w.
Proof. unfold without. by rewrite list_elem_of_filter. Qed.
Lemma without_nodup c w : NoDup w -> NoDup (without c w).
Proof. intros H. apply NoDup_filter, H. Qed.
Lemma without_notin c w : c ∉ w -> without c w = w.
Proof.
  induction w as [|t w IH]; intros Hn; [done|]. apply not_elem_of_cons in Hn as [Hne Hn]. unfold without.
  rewrite filter_cons_True by congruence. f_equal. by apply IH.
Qed.
Lemma without_length c w : NoDup w -> (length w <= S (length (without c w)))%nat.
Proof.
  induction w as [|t w IH]; intros Hn; [simpl; lia|]. apply NoDup_cons in Hn as [Ht Hn]. unfold without in *.
  destruct (decide (t = c)) as [->|Hne].
  - rewrite filter_cons_False by congruence. fold (without c w). rewrite without_notin by done. simpl. lia.
  - rewrite filter_cons_True by congruence. specialize (IH Hn). simpl. lia.
Qed.

(** A change that leaves the semaphore, its nodes and the waits for it alone,
    and keeps its blocked threads blocked and its woken ones ready. *)
Lemma sem_inv_ext nm nm' a x wt wt' st st' cur cur' q w :
  sem_inv nm a x wt st cur q w ->
  (forall n, n ∈ q -> nm' !! n = nm !! n) ->
  (forall t n, wt' t = Some (a, n) <-> wt t = Some (a, n)) ->
  (forall t n, wt t = Some (a, n) -> st t = Some TASK_BLOCKED -> t <> cur -> st' t = Some TASK_BLOCKED /\ t <> cur') ->
  (forall t n, wt t = Some (a, n) -> t = cur \/ st t = Some TASK_READY -> t = cur' \/ st' t = Some TASK_READY) ->
  sem_inv nm' a x wt' st' cur' q w.
Proof.
  intros [H1 H2 H3 H4 H5 H6 H7 H8] Hnm Hwt Hb Hr. split; try done.
  - clear -H1 Hnm. revert H1 Hnm. generalize (sem_head x). induction q as [|n q IH]; intros h H1 Hnm; [done|].
    destruct H1 as (-> & nd & Hn & Hq). split; [done|]. exists nd.
    split; [rewrite Hnm; [done|by left]|]. apply IH; [done|]. intros m Hm. apply Hnm. by right.
  - intros n Hn. destruct (H3 n Hn) as (nd & Hnd & Hw & Hs & Hc). exists nd. rewrite Hnm by done.
    split; [done|]. split; [by apply Hwt|]. by eapply Hb.
  - intros t Ht. destruct (H5 t Ht) as (n & Hw & Hn & Hd). exists n. split; [by apply Hwt|]. split; [done|]. by eapply Hr.
  - intros t n Hw Hn. apply (H6 t n); [by apply Hwt|done].
Qed.

(** The current thread takes a permit. *)
Lemma sem_inv_take nm a x wt wt' st cur q w :
  sem_inv nm a x wt st cur q w -> sem_val x <> 0 -> wt' cur = None -> (forall t, t <> cur -> wt' t = wt t) ->
  sem_inv nm a {| sem_val := sem_val x - 1; sem_head := sem_head x |} wt' st cur q (without cur w).
Proof.
  intros [H1 H2 H3 H4 H5 H6 H7 H8] Hv Hc Ho. split; cbn [sem_val sem_head]; try done.
  - intros n Hn. destruct (H3 n Hn) as (nd & Hnd & Hw & Hs & Hne). exists nd. by rewrite Ho.
  - by apply without_nodup.
  - intros t [Hne Ht]%elem_of_without. destruct (H5 t Ht) as (n & Hw & Hn & Hd). exists n. by rewrite Ho.
  - intros t n Hw Hn. destruct (decide (t = cur)) as [->|Hne]; [congruence|]. apply elem_of_without. split; [done|].
    rewrite Ho in Hw by done. eauto.
  - destruct H7 as [->|H7]; [by left|]. right. pose proof (without_length cur w H4). lia.
  - lia.
Qed.

(** The current thread joins the queue and another one is switched to. *)
Lemma sem_inv_block nm nm' a x h wt wt' st st' cur cur' q w n nd :
  sem_inv nm a x wt st cur q w -> sem_val x = 0 -> n ∉ q -> qlist nm' h (q ++ [n]) ->
  (forall m, m ∈ q -> nd_thread <$> nm' !! m = nd_thread <$> nm !! m) -> nm' !! n = Some nd -> nd_thread nd = cur ->
  wt' cur = Some (a, n) -> (forall t, t <> cur -> wt' t = wt t) ->
  (forall t, t <> cur -> wt t <> Some (a, n)) ->
  st cur' = Some TASK_READY -> cur' <> cur -> st' cur = Some TASK_BLOCKED ->
  (forall t, t <> cur' -> t <> cur -> st' t = st t) ->
  sem_inv nm' a {| sem_val := sem_val x; sem_head := h |} wt' st' cur' (q ++ [n]) (without cur w).
Proof.
  intros [H1 H2 H3 H4 H5 H6 H7 H8] Hv Hn Hq Hth Hnn Hnt Hwc Hwo Hfree Hr Hne Hsc Hso.
  split; cbn [sem_val sem_head]; try done.
  - apply NoDup_app. split; [done|]. split; [|apply NoDup_singleton]. intros m Hm ->%list_elem_of_singleton. done.
  - intros m [Hm|Hm%list_elem_of_singleton]%elem_of_app.
    + destruct (H3 m Hm) as (nd0 & Hnd & Hw & Hs & Hc). specialize (Hth m Hm). rewrite Hnd in Hth.
      destruct (nm' !! m) as [nd1|]; [|done]. injection Hth as Hth. exists nd1. split; [done|]. rewrite Hth.
      assert (nd_thread nd0 <> cur') by (intros E; rewrite E in Hs; congruence).
      rewrite Hwo, Hso by done. done.
    + subst m. exists nd. rewrite Hnt. split; [done|]. split; [done|]. split; [done|]. by apply not_eq_sym.
  - by apply without_nodup.
  - intros t [Htc Ht]%elem_of_without. destruct (H5 t Ht) as (m & Hw & Hm & Hd). exists m. rewrite Hwo by done.
    split; [done|]. split.
    + intros [Hin|Hin%list_elem_of_singleton]%elem_of_app; [done|]. subst m. by apply (Hfree t).
    + destruct (decide (t = cur')) as [->|Hx]; [by left|]. right. rewrite Hso by done. by destruct Hd.
  - intros t m Hw Hm. apply elem_of_without. destruct (decide (t = cur)) as [->|Htc].
    + exfalso. rewrite Hwc in Hw. injection Hw as <-. apply Hm. apply elem_of_app. right. by left.
    + split; [done|]. rewrite Hwo in Hw by done. apply (H6 t m Hw). intros Hin. apply Hm. apply elem_of_app. by left.
  - right. rewrite Hv. lia.
Qed.

(** The first waiting thread is woken. *)
Lemma sem_inv_wake nm nm' a x h wt st st' cur n q w nd :
  sem_inv nm a x wt st cur (n :: q) w -> sem_val x + 1 < 4294967296 -> qlist nm' h q ->
  (forall m, m ∈ q -> nm' !! m = nm !! m) -> nm !! n = Some nd ->
  (forall t, wt t = Some (a, n) -> t = nd_thread nd) ->
  st' (nd_thread nd) = Some TASK_READY -> (forall t, t <> nd_thread nd -> st' t = st t) ->
  sem_inv nm' a {| sem_val := sem_val x + 1; sem_head := h |} wt st' cur q (nd_thread nd :: w).
Proof.
  intros [H1 H2 H3 H4 H5 H6 H7 H8] Hv Hq Hnm Hn Hinj Hs1 Hs2. apply NoDup_cons in H2 as [Hnq H2].
  destruct (H3 n ltac:(by left)) as (nd0 & Hn0 & Hwn & Hsn & Hcn). rewrite Hn in Hn0. injection Hn0 as <-.
  split; cbn [sem_val sem_head]; try done.
  - intros m Hm. destruct (H3 m ltac:(by right)) as (nd1 & Hn1 & Hw & Hs & Hc). exists nd1. rewrite Hnm by done.
    split; [done|]. split; [done|]. split; [|done]. rewrite Hs2; [done|]. intros E. rewrite E, Hwn in Hw.
    injection Hw as ->. done.
  - apply NoDup_cons. split; [|done]. intros Hin. destruct (H5 _ Hin) as (m & Hw & Hm & _).
    rewrite Hwn in Hw. injection Hw as <-. apply Hm. by left.
  - intros t [->|Ht]%elem_of_cons; [by exists n; auto|]. destruct (H5 t Ht) as (m & Hw & Hm & Hd). exists m.
    split; [done|]. split; [intros Hin; apply Hm; by right|]. destruct Hd as [->|Hd]; [by left|right].
    destruct (decide (t = nd_thread nd)) as [->|Hne]; [done|]. by rewrite Hs2.
  - intros t m Hw Hm. destruct (decide (m = n)) as [->|Hne]; [rewrite (Hinj t Hw); by left|].
    right. apply (H6 t m Hw). by intros [->|Hin]%elem_of_cons.
  - right. destruct H7 as [?|H7]; [done|]. simpl. lia.
  - lia.
Qed.

(** A permit given back with no thread in the queue. *)
Lemma sem_inv_give nm a x wt st cur w :
  sem_inv nm a x wt st cur [] w -> sem_val x + 1 < 4294967296 ->
  sem_inv nm a {| sem_val := sem_val x + 1; sem_head := sem_head x |} wt st cur [] w.
Proof. intros [H1 H2 H3 H4 H5 H6 H7 H8] Hv. split; cbn [sem_val sem_head]; try done; [by left|lia]. Qed.
