(* ===== verification/SyncCore.v ===== *)
(** * What the semaphore operations keep

    [core] is the invariant of the threads and all semaphores together: every
    semaphore satisfies [sem_inv] for some queue and some woken threads, and no
    two threads wait with the same node.  [core_P] and [core_V] show that the
    two operations keep it, with the exact effect of each on the semaphores,
    the current thread and the interrupt flags. *)

From S2P Require Import Prelude Memory Tcb Pmm Vmm Tss UserVm Threads Ring ThreadsThm ThreadsInv ThreadsView.
From S2P Require Import Sync SyncThm SemInv.

Section core.
Context {P : Type} {PA : PageAllocator P} {L : VmmLayout} {TL : TssLayout} {HL : ThreadLayout}.
Implicit Types (s : sync P).

Definition sem_ok s (wt : Z -> option (Z * Z)) (a : Z) (x : sem_t) : Prop :=
  exists q w, sem_inv (nodes s) a x wt (status (y_kern s)) (cur_tcb (y_kern s)) q w.

(** The part of the invariant about threads and semaphores, for any waits. *)
Record core s (wt : Z -> option (Z * Z)) : Prop := {
  co_threads : threads_wf (y_kern s);
  co_sems : forall a x, sems s !! a = Some x -> sem_ok s wt a x;
  co_inj : forall t1 t2 a1 a2 n, wt t1 = Some (a1, n) -> wt t2 = Some (a2, n) -> t1 = t2
}.

Lemma own_if_cur (k : kern P) : own_if k (cur_tcb k) = if_flag (regs k).
Proof. unfold own_if. by rewrite decide_True. Qed.

(** ** The loop of [sem_P] *)

(** How a call of the loop that ends leaves the state. *)
Inductive P_outcome (a n : Z) (c : bool) (s : sync P) (x : sem_t) (q : list Z) : sync P -> flow -> Prop :=
  | P_took :
      sem_val x <> 0 ->
      P_outcome a n c s x q
        (Build_sync (set_regs (restored c (regs (y_kern s))) (y_kern s))
           (<[a := {| sem_val := sem_val x - 1; sem_head := sem_head x |}]> (sems s)) (nodes s) (holders s)) Returned
  | P_blocked s' h nd y :
      sem_val x = 0 -> sems s' = <[a := {| sem_val := sem_val x; sem_head := h |}]> (sems s) ->
      holders s' = holders s -> qlist (nodes s') h (q ++ [n]) -> nodes s' !! n = Some nd ->
      nd_thread nd = cur_tcb (y_kern s) ->
      (forall m, m <> n -> nd_thread <$> nodes s' !! m = nd_thread <$> nodes s !! m) ->
      (forall m, m ∉ n :: q -> nodes s' !! m = nodes s !! m) ->
      switch_to_thread
        (set_tcbs (alter (set_status TASK_BLOCKED) (cur_tcb (y_kern s))) (y_kern s)) (y_kern s') y ->
      P_outcome a n c s x q s' (Suspended [In_thread_block false; In_sem_P a n c]).

Lemma sem_P_loop_cases fuel a n c s x wt q w s' r t :
  sem_P_loop fuel a n c s = Ret s' r t -> sems s !! a = Some x -> threads_wf (y_kern s) ->
  if_flag (regs (y_kern s)) = false ->
  sem_inv (nodes s) a x wt (status (y_kern s)) (cur_tcb (y_kern s)) q w -> n ∉ q ->
  P_outcome a n c s x q s' r.
Proof.
  intros E Ha [rest Hth] Hif Hi Hn. destruct fuel as [|fuel]; [done|].
  destruct (decide (sem_val x = 0)) as [Hv|Hv].
  - destruct (first_ready (tcbs (y_kern s)) rest) as [y|] eqn:Hy.
    + destruct (sem_P_loop_block fuel a n c s x q rest y Ha Hv (si_list _ _ _ _ _ _ _ _ Hi) (si_nodup _ _ _ _ _ _ _ _ Hi)
        Hn Hth Hif Hy) as (s2 & t2 & h & nd & E2 & B1 & B2 & B3 & B4 & B5 & B6 & B7 & B8).
      rewrite E in E2. injection E2 as <- -> _. by eapply P_blocked.
    + exfalso. rewrite deadlocked_diverges in E; [done|]. split; [by exists rest|done|].
      exists x, q. split; [done|]. split; [done|]. left. destruct Hi. done.
  - rewrite (sem_P_loop_take fuel a n c s x Ha Hv (si_range _ _ _ _ _ _ _ _ Hi)) in E.
    injection E as <- <- _. by apply P_took.
Qed.

(** ** What [sem_P] keeps *)

Definition wt_set (wt : Z -> option (Z * Z)) (c : Z) (v : option (Z * Z)) (t : Z) : option (Z * Z) :=
  if decide (t = c) then v else wt t.

Lemma wt_set_eq wt c v : wt_set wt c v c = v.
Proof. unfold wt_set. by rewrite decide_True. Qed.
Lemma wt_set_ne wt c v t : t <> c -> wt_set wt c v t = wt t.
Proof. intros H. unfold wt_set. by rewrite decide_False. Qed.

(** The switch that ends [thread_block], from the state before it. *)
Lemma blocked_switch (k k' : kern P) y :
  threads_wf k ->
  switch_to_thread (set_tcbs (alter (set_status TASK_BLOCKED) (cur_tcb k)) k) k' y ->
  cur_tcb k' = y /\ y <> cur_tcb k /\ status k y = Some TASK_READY /\ status k' (cur_tcb k) = Some TASK_BLOCKED /\
  (forall t, t <> y -> t <> cur_tcb k -> status k' t = status k t) /\
  (forall t, own_if k' t = own_if k t) /\ threads_wf k'.
Proof.
  intros [rest Hth] [H1 H2 H3 H4 H5 H6 H7 H8]. cbn [cur_tcb set_tcbs] in *.
  destruct (inv_cur_lookup _ _ _ Hth) as (tc & Htc & _).
  assert (Hb : status (set_tcbs (alter (set_status TASK_BLOCKED) (cur_tcb k)) k) (cur_tcb k) = Some TASK_BLOCKED)
    by (by rewrite status_alter, decide_True, Htc).
  rewrite status_alter, decide_False in H2 by done. rewrite Hb, decide_False in H5 by done.
  split; [done|]. split; [done|]. split; [done|]. split; [|split; [|split; [|done]]].
  - done.
  - intros t Hy Hc. rewrite H6 by done. by rewrite status_alter, decide_False.
  - intros t. rewrite H7. by apply own_if_alter.
Qed.

(** Nodes of different semaphores' queues are different. *)
Lemma queues_apart nm a b x x' wt st cur q w q' w' m :
  sem_inv nm a x wt st cur q w -> sem_inv nm b x' wt st cur q' w' -> a <> b -> m ∈ q' -> m ∉ q.
Proof.
  intros H H' Hab Hm Hm'. destruct (si_wait _ _ _ _ _ _ _ _ H m Hm') as (nd & Hn & Hw & _).
  destruct (si_wait _ _ _ _ _ _ _ _ H' m Hm) as (nd' & Hn' & Hw' & _). congruence.
Qed.

Lemma core_P fuel a n c s r s' t wt x :
  core s wt -> sems s !! a = Some x -> (forall b m, wt (cur_tcb (y_kern s)) = Some (b, m) -> b = a) ->
  (forall u b, u <> cur_tcb (y_kern s) -> wt u <> Some (b, n)) -> if_flag (regs (y_kern s)) = false ->
  sem_P_loop fuel a n c s = Ret s' r t ->
  holders s' = holders s /\
  match r with
  | Returned => sem_val x <> 0 /\ core s' (wt_set wt (cur_tcb (y_kern s)) None) /\
      sems s' = <[a := {| sem_val := sem_val x - 1; sem_head := sem_head x |}]> (sems s) /\
      y_kern s' = set_regs (restored c (regs (y_kern s))) (y_kern s)
  | Suspended fs => sem_val x = 0 /\ fs = [In_thread_block false; In_sem_P a n c] /\
      core s' (wt_set wt (cur_tcb (y_kern s)) (Some (a, n))) /\
      (forall b, own_if (y_kern s') b = own_if (y_kern s) b) /\
      exists h, sems s' = <[a := {| sem_val := sem_val x; sem_head := h |}]> (sems s)
  end.
Proof.
  intros [Hth Hs Hinj] Ha Hcur Hfree Hif E. destruct (Hs a x Ha) as (q & w & Hi). set (cur := cur_tcb (y_kern s)) in *.
  assert (Hn : n ∉ q).
  { intros Hin. destruct (si_wait _ _ _ _ _ _ _ _ Hi n Hin) as (nd & _ & Hw & _ & Hne). by apply (Hfree _ a Hne). }
  destruct (sem_P_loop_cases fuel a n c s x wt q w s' r t E Ha Hth Hif Hi Hn)
    as [Hv|s' h nd y Hv S1 S2 Q1 N1 T1 N2 N3 Hsw].
  - split; [done|]. split; [done|]. split; [|done]. split; cbn [y_kern sems].
    + done.
    + intros b x' Hb. destruct (decide (b = a)) as [->|Hne].
      * rewrite lookup_insert_eq in Hb. injection Hb as <-. exists q, (without cur w).
        eapply sem_inv_take; [exact Hi|done|apply wt_set_eq|]. intros u Hu. by apply wt_set_ne.
      * rewrite lookup_insert_ne in Hb by done. destruct (Hs b x' Hb) as (q' & w' & Hi'). exists q', w'.
        eapply sem_inv_ext; [exact Hi'|done| |by intros|by intros].
        intros u m. destruct (decide (u = cur)) as [->|Hu]; [|by rewrite wt_set_ne].
        rewrite wt_set_eq. split; [done|]. intros Hw. by apply Hcur in Hw.
    + intros t1 t2 a1 a2 m. unfold wt_set. repeat case_decide; try done. apply Hinj.
  - split; [done|]. split; [done|]. split; [done|].
    destruct (blocked_switch _ _ _ Hth Hsw) as (C1 & C2 & C3 & C4 & C5 & C6 & C7). fold cur in C2, C4, C5.
    split; [|split; [done|by exists h]]. split; [done| |].
    + intros b x' Hb. rewrite S1 in Hb. destruct (decide (b = a)) as [->|Hne].
      * rewrite lookup_insert_eq in Hb. injection Hb as <-. exists (q ++ [n]), (without cur w).
        rewrite C1. eapply sem_inv_block; [exact Hi|done|done|done| |done|done|apply wt_set_eq| | |done|done|done|done].
        -- intros m Hm. apply N2. by intros ->.
        -- intros u Hu. by apply wt_set_ne.
        -- intros u Hu. by apply Hfree.
      * rewrite lookup_insert_ne in Hb by done. destruct (Hs b x' Hb) as (q' & w' & Hi'). exists q', w'.
        assert (Hcw : forall u m, wt u = Some (b, m) -> u <> cur) by (intros u m Hw ->; by apply Hcur in Hw).
        rewrite C1. eapply sem_inv_ext; [exact Hi'| | | |].
        -- intros m Hm. apply N3. apply not_elem_of_cons. split; [|by eapply (queues_apart _ a b)].
           intros ->. destruct (si_wait _ _ _ _ _ _ _ _ Hi' n Hm) as (nd' & _ & Hw & _ & Hc). by apply (Hfree _ b Hc).
        -- intros u m. destruct (decide (u = cur)) as [->|Hu]; [|by rewrite wt_set_ne].
           rewrite wt_set_eq. split; [intros [= -> ->]; done|]. intros Hw. by apply Hcw in Hw.
        -- intros u m Hw Hb' _. assert (u <> y) by (intros ->; congruence). pose proof (Hcw u m Hw).
           by rewrite C5.
        -- intros u m Hw [->|Hr]; [by apply Hcw in Hw|]. destruct (decide (u = y)) as [->|Hu]; [by left|].
           right. pose proof (Hcw u m Hw). by rewrite C5.
    + intros t1 t2 a1 a2 m. unfold wt_set. repeat case_decide; subst; try done.
      * intros [= <- <-] H2. exfalso. by apply (Hfree t2 a2).
      * intros H1 [= <- <-]. exfalso. by apply (Hfree t1 a1).
      * apply Hinj.
Qed.

(** ** What the other operations keep *)

Lemma core_ext s wt wt' : core s wt -> (forall t, wt' t = wt t) -> core s wt'.
Proof.
  intros [H1 H2 H3] E. split; [done| |].
  - intros a x Ha. destruct (H2 a x Ha) as (q & w & Hi). exists q, w.
    eapply sem_inv_ext; [exact Hi|done| |by intros|by intros]. intros t n. by rewrite E.
  - intros t1 t2 a1 a2 n. rewrite !E. apply H3.
Qed.

(** Another state of the threads, in which the waiting threads are as before. *)
Lemma core_kern s wt k' :
  core s wt -> threads_wf k' ->
  (forall t p, wt t = Some p -> t <> cur_tcb (y_kern s)) ->
  (forall t p, wt t = Some p -> status (y_kern s) t = Some TASK_BLOCKED ->
     status k' t = Some TASK_BLOCKED /\ t <> cur_tcb k') ->
  (forall t p, wt t = Some p -> status (y_kern s) t = Some TASK_READY ->
     t = cur_tcb k' \/ status k' t = Some TASK_READY) ->
  core (set_kern k' s) wt.
Proof.
  intros [H1 H2 H3] Hwf Hc Hb Hr. split; [done| |done].
  intros a x Ha. destruct (H2 a x Ha) as (q & w & Hi). exists q, w. cbn [nodes y_kern set_kern].
  eapply sem_inv_ext; [exact Hi|done|done| |].
  - intros t n Hw Hs _. by eapply Hb.
  - intros t n Hw [->|Hs]; [by destruct (Hc _ _ Hw)|by eapply Hr].
Qed.

(** The same threads, with other registers. *)
Lemma core_same s s' wt :
  core s wt -> nodes s' = nodes s -> sems s' = sems s -> cur_tcb (y_kern s') = cur_tcb (y_kern s) ->
  tcbs (y_kern s') = tcbs (y_kern s) -> core s' wt.
Proof.
  intros [H1 H2 H3] En Es Ec Et. split; [unfold threads_wf; by rewrite Et, Ec| |done].
  intros a x Ha. rewrite Es in Ha. destruct (H2 a x Ha) as (q & w & Hi). exists q, w. rewrite En, Ec.
  eapply sem_inv_ext; [exact Hi|done|done| |]; unfold status; rewrite Et; by intros.
Qed.

(** ** [sem_V] *)

(** What a call of [sem_V] on a semaphore with queue [q] does, apart from the
    threads: the first node is taken and the permit given. *)
Record gives (a : Z) (x : sem_t) (q : list Z) s s' : Prop := {
  gv_holders : holders s' = holders s;
  gv_sems : exists h, sems s' = <[a := {| sem_val := sem_val x + 1; sem_head := h |}]> (sems s) /\
    qlist (nodes s') h (tail q);
  gv_cur : cur_tcb (y_kern s') = cur_tcb (y_kern s);
  gv_if : forall t, own_if (y_kern s') t = own_if (y_kern s) t;
  gv_wf : threads_wf (y_kern s');
  gv_nodes : forall m, Some m <> head q -> nodes s' !! m = nodes s !! m;
  gv_status : forall t, status (y_kern s') t =
    if decide (Some t = n ← head q; nd_thread <$> nodes s !! n) then Some TASK_READY else status (y_kern s) t
}.


Lemma own_if_back (k k' : kern P) r t :
  cur_tcb k' = cur_tcb k -> (forall b, own_if k' b = own_if (cli_state k) b) ->
  own_if (set_regs (restored (if_flag (regs k)) r) k') t = own_if k t.
Proof.
  intros Ec Eo. rewrite own_if_regs, Ec. case_decide as E.
  - subst. rewrite own_if_cur. unfold restored. destruct (if_flag (regs k)); by rewrite ?if_flag_on, ?if_flag_off.
  - rewrite Eo. unfold cli_state. destruct (if_flag (regs k)); [|done]. by rewrite own_if_regs, decide_False.
Qed.

(** The end of [sem_V]: the permit is given and the flag restored. *)
Lemma sem_V_end a c s x :
  sems s !! a = Some x -> 0 <= sem_val x -> sem_val x + 1 < 4294967296 ->
  (x <- get_sem a ;; set_sem_val a (u32 (sem_val x + 1)) ;; in_kern (sti_condition c)) s =
    Ret (Build_sync (set_regs (restored c (regs (y_kern s))) (y_kern s))
           (<[a := {| sem_val := sem_val x + 1; sem_head := sem_head x |}]> (sems s)) (nodes s) (holders s))
        tt [if c : bool then Sti else Cli].
Proof.
  intros Ha H0 Hv. rewrite (bind_get_sem _ _ _ _ Ha). run (set_sem_val_eq _ (u32 (sem_val x + 1)) _ _ Ha) by idtac.
  rewrite u32_small by lia. by rewrite in_kern_sti.
Qed.

Lemma sem_V_gives a s wt x q w :
  threads_wf (y_kern s) -> sems s !! a = Some x -> sem_val x + 1 < 4294967296 ->
  sem_inv (nodes s) a x wt (status (y_kern s)) (cur_tcb (y_kern s)) q w ->
  exists s' t, sem_V a s = Ret s' tt t /\ gives a x q s s'.
Proof.
  intros Hth Ha Hv Hi. pose proof (si_list _ _ _ _ _ _ _ _ Hi) as Hq. pose proof (si_nodup _ _ _ _ _ _ _ _ Hi) as Hnd.
  pose proof (si_range _ _ _ _ _ _ _ _ Hi) as Hr. unfold sem_V.
  set (k := y_kern s) in *. set (k0 := cli_state k). destruct (cli_state_tcbs k) as [T0 C0]. fold k0 in T0, C0.
  assert (Hth0 : threads_wf k0) by (unfold threads_wf; by rewrite T0, C0).
  assert (St0 : forall t, status k0 t = status k t) by (intros t; unfold status; by rewrite T0).
  erewrite bind_ret_eq by apply (in_kern_ret _ _ _ _ _ (cli_condition_ret k)). fold k0.
  assert (Ha0 : sems (set_kern k0 s) !! a = Some x) by done. unfold sync_tool_is_empty.
  destruct q as [|n q].
  - cbn [qlist] in Hq. erewrite (bind_ret_eq _ _ _ _ true) by (rewrite (bind_get_sem _ _ _ _ Ha0), bool_decide_true; done).
    rewrite bind_ret, (sem_V_end _ _ _ _ Ha0) by lia. eexists _, _. split; [reflexivity|].
    split; cbn [y_kern sems nodes holders set_kern tcbs cur_tcb set_regs]; try done.
    + eexists. split; [reflexivity|]. done.
    + intros t. by apply own_if_back.
  - pose proof Hq as [Eh _].
    erewrite (bind_ret_eq _ _ _ _ false) by (rewrite (bind_get_sem _ _ _ _ Ha0), bool_decide_false by (by rewrite Eh); done).
    destruct (sync_tool_get_spec (set_kern k0 s) a (n :: q) x Ha0 Hq Hnd) as (s2 & h & E2 & [F1 F2 F3 F4] & S2 & Q2).
    destruct (si_wait _ _ _ _ _ _ _ _ Hi n ltac:(by left)) as (nd & Hn & _ & Hst & Hne).
    assert (Hn2 : exists nd2, nodes s2 !! n = Some nd2 /\ nd_thread nd2 = nd_thread nd).
    { specialize (F4 n). cbn [nodes set_kern] in F4. rewrite Hn in F4. destruct (nodes s2 !! n) as [nd2|]; [|done].
      exists nd2. split; [done|]. by injection F4. }
    destruct Hn2 as (nd2 & Hn2 & Tn).
    destruct (wakeup_effect k0 (nd_thread nd) TASK_BLOCKED Hth0) as (k1 & t1 & E1 & W1 & C1 & I1 & S1 & O1);
      [by rewrite St0|]. cbn [y_kern set_kern] in F1.
    erewrite (bind_ret_eq (bind (sync_tool_get a) _)).
    2:{ run E2 by idtac. rewrite (bind_get_node _ _ _ _ Hn2), Tn. apply in_kern_ret. rewrite F1. exact E1. }
    rewrite (sem_V_end _ _ (set_kern k1 s2) {| sem_val := sem_val x; sem_head := h |});
      [|cbn [sems set_kern]; by rewrite S2, lookup_insert_eq|cbn; lia|cbn; lia].
    eexists _, _. split; [reflexivity|]. split; cbn [y_kern sems nodes holders set_kern tcbs cur_tcb set_regs tail head].
    + done.
    + exists h. split; [|done]. cbn [sem_val sem_head]. by rewrite S2, insert_insert_eq.
    + by rewrite C1.
    + intros t. apply own_if_back; [by rewrite C1|done].
    + done.
    + intros m Hm. rewrite F3; [done|]. intros ->%list_elem_of_singleton. by apply Hm.
    + intros t. change (status (set_regs (restored (if_flag (regs k)) (regs k1)) k1) t) with (status k1 t).
      rewrite S1, St0. cbn [mbind option_bind]. rewrite Hn. cbn [fmap option_fmap option_map].
      destruct (decide (t = nd_thread nd)) as [->|Ht]; [by rewrite decide_True|by rewrite decide_False by congruence].
Qed.

Lemma core_V a s wt x :
  core s wt -> sems s !! a = Some x -> sem_val x + 1 < 4294967296 ->
  exists s' t q, sem_V a s = Ret s' tt t /\ qlist (nodes s) (sem_head x) q /\ gives a x q s s' /\ core s' wt.
Proof.
  intros Hco Ha Hv. pose proof Hco as [Hth Hs Hinj]. destruct (Hs a x Ha) as (q & w & Hi).
  destruct (sem_V_gives a s wt x q w Hth Ha Hv Hi) as (s' & t & E & G). pose proof G as [G1 (h & G2 & G3) G4 G5 G6 G7 G8].
  exists s', t, q. split; [done|]. split; [by destruct Hi|]. split; [done|]. split; [done| |done].
  intros b x' Hb. rewrite G2 in Hb. unfold sem_ok. rewrite G4. destruct (decide (b = a)) as [->|Hne].
  - rewrite lookup_insert_eq in Hb. injection Hb as <-. destruct q as [|n q].
    + exists [], w. cbn [tail qlist] in G3. subst h.
      pose proof (sem_inv_give _ _ _ _ _ _ _ Hi Hv) as Hg. pose proof (si_list _ _ _ _ _ _ _ _ Hi) as Hh.
      cbn [qlist] in Hh. rewrite Hh in Hg.
      eapply sem_inv_ext; [exact Hg|by intros ? ?%not_elem_of_nil|done| |]; intros u m _; rewrite G8; cbn; intros; done.
    + destruct (si_wait _ _ _ _ _ _ _ _ Hi n ltac:(by left)) as (nd & Hn & Hw & _).
      exists q, (nd_thread nd :: w). cbn [head mbind option_bind] in G8. rewrite Hn in G8.
      eapply sem_inv_wake; [exact Hi|done|exact G3| |exact Hn| | |].
      * intros m Hm. apply G7. cbn [head]. intros [= ->]. pose proof (si_nodup _ _ _ _ _ _ _ _ Hi) as Hnd.
        by apply NoDup_cons in Hnd as [? _].
      * intros u Hu. eauto.
      * rewrite G8. by rewrite decide_True.
      * intros u Hu. rewrite G8. rewrite decide_False; [done|]. cbn. congruence.
  - rewrite lookup_insert_ne in Hb by done. destruct (Hs b x' Hb) as (q' & w' & Hi'). exists q', w'.
    eapply sem_inv_ext; [exact Hi'| |done| |].
    + intros m Hm. apply G7. intros Em. destruct q as [|n q]; [done|]. injection Em as ->.
      eapply (queues_apart _ a b); [exact Hi|exact Hi'|done|exact Hm|by left].
    + intros u m Hu Hbl Hc. rewrite G8. destruct (head q) as [n|] eqn:Eh; cbn [mbind option_bind]; [|done].
      rewrite decide_False; [done|]. destruct q as [|n' q]; [done|]. injection Eh as ->.
      destruct (si_wait _ _ _ _ _ _ _ _ Hi n ltac:(by left)) as (nd & Hn & Hw & _). rewrite Hn. cbn. congruence.
    + intros u m Hu [->|Hr]; [by left|right]. rewrite G8. by case_decide.
Qed.
End core.
