(* ===== verification/SyncSys.v ===== *)
(** * Threads, semaphores and locks as one system

    A state of [sys] is the state of the modules and, for every thread that was
    switched away from inside one of their functions, the activations it has to
    finish.  [sys_step] is one uninterrupted stretch of execution: a call of a
    function of sync.c by the current thread, the rest of such a call after a
    switch back, a computation of the current thread, or a timer interrupt,
    which happens only with interrupts enabled. *)

From S2P Require Import Prelude Memory Tcb Pmm Vmm Tss UserVm Threads Ring ThreadsThm ThreadsInv ThreadsView.
From S2P Require Import Interrupt InterruptThm Sync SyncThm SemInv SyncCore.

Record sys (P : Type) := Build_sys { sy : sync P; pend : gmap Z (list frame) }.
Arguments Build_sys {P} sy pend.
Arguments sy {P} s : rename.
Arguments pend {P} s : rename.

(** What a suspended thread waits for: the semaphore and its node. *)
Definition waiting (fs : list frame) : option (Z * Z) :=
  match fs with
  | In_thread_block _ :: In_sem_P a n _ :: _ => Some (a, n)
  | _ => None
  end.

Section sys.
Context {P : Type} {PA : PageAllocator P} {L : VmmLayout} {TL : TssLayout} {HL : ThreadLayout}.
(** The addresses of the locks. *)
Context (locks : gset Z).
Implicit Types (S : sys P) (s : sync P).

Definition kern_of S : kern P := y_kern (sy S).
Definition current S : Z := cur_tcb (kern_of S).
Definition waits S (t : Z) : option (Z * Z) := pend S !! t ≫= waiting.

(** The state after an operation of the thread [cur] that ended as [r] says. *)
Definition continue S s' (r : flow) : sys P :=
  Build_sys s' (match r with Returned => delete (current S) (pend S) | Suspended fs => <[current S := fs]> (pend S) end).

Definition is_lock_sem (a : Z) : Prop := exists l, l ∈ locks /\ a = lock_sem l.

(** The stack slot of a new activation of [sem_P] is not that of a suspended
    one. *)
Definition node_free S (n : Z) : Prop := forall t a, waits S t <> Some (a, n).

Inductive sys_step : sys P -> sys P -> Prop :=
  | sys_P S fuel a n s' r t :
      pend S !! current S = None -> ~ is_lock_sem a -> node_free S n ->
      sem_P fuel a n (sy S) = Ret s' r t -> sys_step S (continue S s' r)
  | sys_V S a x s' t :
      pend S !! current S = None -> ~ is_lock_sem a -> sems (sy S) !! a = Some x ->
      sem_val x + 1 < 4294967296 ->
      sem_V a (sy S) = Ret s' tt t -> sys_step S (continue S s' Returned)
  | sys_acquire S fuel l n s' r t :
      pend S !! current S = None -> l ∈ locks -> node_free S n ->
      lock_acquire fuel l n (sy S) = Ret s' r t -> sys_step S (continue S s' r)
  | sys_release S l s' t :
      pend S !! current S = None -> l ∈ locks ->
      lock_release l (sy S) = Ret s' tt t -> sys_step S (continue S s' Returned)
  | sys_resume S fuel fs s' r t :
      pend S !! current S = Some fs -> resume fuel fs (sy S) = Ret s' r t -> sys_step S (continue S s' r)
  | sys_compute S v r e :
      pend S !! current S = None ->
      sys_step S (Build_sys (set_kern (Build_kern v (tcbs (kern_of S)) (current S) r e) (sy S)) (pend S))
  | sys_timer S k' t :
      if_flag (regs (kern_of S)) = true ->
      timer_server (set_regs (if_off (regs (kern_of S))) (kern_of S)) = Ret k' true t ->
      sys_step S (Build_sys (set_kern k' (sy S)) (<[current S := [In_interrupt (eflags (regs (kern_of S)))]]> (pend S)))
  | sys_tick S k' t :
      if_flag (regs (kern_of S)) = true ->
      timer_server (set_regs (if_off (regs (kern_of S))) (kern_of S)) = Ret k' false t ->
      sys_step S (Build_sys (set_kern (set_regs (with_eflags (eflags (regs (kern_of S))) (regs k')) k') (sy S)) (pend S)).

(** ** The invariant *)

(** The activations a thread can be suspended in. *)
Inductive frames_ok : list frame -> Prop :=
  | fo_interrupt e : frames_ok [In_interrupt e]
  | fo_sem a n c : ~ is_lock_sem a -> frames_ok [In_thread_block false; In_sem_P a n c]
  | fo_lock l n c : l ∈ locks ->
      frames_ok [In_thread_block false; In_sem_P (lock_sem l) n false; In_lock_acquire l c].

(** A lock is free with one permit, or held with none. *)
Definition lock_ok s (l : Z) : Prop :=
  exists h x, holders s !! l = Some h /\ sems s !! lock_sem l = Some x /\
    (h = 0 /\ sem_val x = 1 \/ h <> 0 /\ sem_val x = 0).

Record sys_inv S : Prop := {
  sv_core : core (sy S) (waits S);
  sv_frames : forall t fs, pend S !! t = Some fs -> frames_ok fs;
  sv_if : forall t fs, pend S !! t = Some fs -> own_if (kern_of S) t = false;
  sv_locks : forall l, l ∈ locks -> lock_ok (sy S) l
}.

(** A suspended thread is not preempted. *)
Lemma pend_none S : sys_inv S -> if_flag (regs (kern_of S)) = true -> pend S !! current S = None.
Proof.
  intros H Hif. destruct (pend S !! current S) as [fs|] eqn:E; [|done].
  pose proof (sv_if _ H _ _ E) as Ho. unfold current in Ho. rewrite own_if_cur in Ho. congruence.
Qed.

Lemma waits_none S t : pend S !! t = None -> waits S t = None.
Proof. intros E. unfold waits. by rewrite E. Qed.


(** ** Stretches that end with [sem_P]'s loop *)

Definition flow_wait (r : flow) : option (Z * Z) :=
  match r with Returned => None | Suspended fs => waiting fs end.

Lemma waits_continue S s' r t :
  waits (continue S s' r) t = wt_set (waits S) (current S) (flow_wait r) t.
Proof.
  unfold waits, continue, wt_set. cbn [pend]. case_decide as E; [subst|]; destruct r; cbn [flow_wait];
    by rewrite ?lookup_delete_eq, ?lookup_insert_eq, ?lookup_delete_ne, ?lookup_insert_ne by congruence.
Qed.

(** What is left to show of a stretch of the current thread. *)
Lemma inv_continue S s' r :
  sys_inv S -> core s' (wt_set (waits S) (current S) (flow_wait r)) ->
  (forall t, t <> current S -> own_if (y_kern s') t = own_if (kern_of S) t) ->
  (forall fs, r = Suspended fs -> frames_ok fs /\ own_if (y_kern s') (current S) = false) ->
  (forall l, l ∈ locks -> lock_ok s' l) -> sys_inv (continue S s' r).
Proof.
  intros H Hc Ho Hr Hl. split; [|intros t fs E|intros t fs E|exact Hl].
  - eapply core_ext; [exact Hc|]. apply waits_continue.
  - revert E. cbn [continue pend]. destruct r as [|fs'].
    + intros [_ E]%lookup_delete_Some. by eapply sv_frames.
    + intros [[_ <-]|[_ E]]%lookup_insert_Some; [by apply Hr|by eapply sv_frames].
  - revert E. unfold kern_of. cbn [continue pend sy]. destruct r as [|fs'].
    + intros [Ht E]%lookup_delete_Some. rewrite Ho by congruence. by eapply sv_if.
    + intros [[<- <-]|[Ht E]]%lookup_insert_Some; [by eapply Hr|]. rewrite Ho by congruence. by eapply sv_if.
Qed.

(** Only registers differ. *)
Record regs_only s s0 : Prop := {
  ro_nodes : nodes s0 = nodes s;
  ro_sems : sems s0 = sems s;
  ro_holders : holders s0 = holders s;
  ro_cur : cur_tcb (y_kern s0) = cur_tcb (y_kern s);
  ro_tcbs : tcbs (y_kern s0) = tcbs (y_kern s)
}.

Lemma own_if_other s s0 t : regs_only s s0 -> t <> cur_tcb (y_kern s) -> own_if (y_kern s0) t = own_if (y_kern s) t.
Proof. intros [_ _ _ Ec Et] Ht. unfold own_if. rewrite Ec, Et. by rewrite !decide_False. Qed.

Lemma regs_only_kern s r : regs_only s (set_kern (set_regs r (y_kern s)) s).
Proof. done. Qed.
Lemma regs_only_cli s : regs_only s (set_kern (cli_state (y_kern s)) s).
Proof. destruct (cli_state_tcbs (y_kern s)) as [E1 E2]. by split. Qed.

Definition permits (r : flow) (v : Z) : Z := match r with Returned => v - 1 | Suspended _ => v end.

Record loop_effect S (a n : Z) (c : bool) s' (r : flow) : Prop := {
  le_core : core s' (wt_set (waits S) (current S) (flow_wait r));
  le_holders : holders s' = holders (sy S);
  le_others : forall t, t <> current S -> own_if (y_kern s') t = own_if (kern_of S) t;
  le_sems : exists x h, sems (sy S) !! a = Some x /\ (r = Returned -> sem_val x <> 0) /\
    sems s' = <[a := {| sem_val := permits r (sem_val x); sem_head := h |}]> (sems (sy S));
  le_returned : r = Returned -> cur_tcb (y_kern s') = current S;
  le_suspended : forall fs, r = Suspended fs ->
    fs = [In_thread_block false; In_sem_P a n c] /\ own_if (y_kern s') (current S) = false
}.

Lemma loop_step S s0 fuel a n c s' r t :
  sys_inv S -> regs_only (sy S) s0 -> if_flag (regs (y_kern s0)) = false ->
  (waits S (current S) = None /\ node_free S n \/ waits S (current S) = Some (a, n)) ->
  sem_P_loop fuel a n c s0 = Ret s' r t -> loop_effect S a n c s' r.
Proof.
  intros H Hro Hif Hw E. pose proof Hro as [R1 R2 R3 R4 R5]. change (cur_tcb (y_kern (sy S))) with (current S) in R4.
  assert (Hx : is_Some (sems s0 !! a)).
  { destruct fuel as [|fuel]; [done|]. cbn [sem_P_loop] in E. unfold bind, get_sem in E.
    destruct (sems s0 !! a); [eauto|done]. }
  destruct Hx as [x Hx].
  destruct (core_P fuel a n c s0 r s' t (waits S) x) as [P1 P2]; [|done| | |done|exact E|].
  - by eapply core_same; [apply (sv_core _ H)|..].
  - rewrite R4. intros b m Eb. destruct Hw as [[Hw _]|Hw]; congruence.
  - rewrite R4. intros u b Hu. destruct Hw as [[_ Hw]|Hw]; [apply Hw|]. intros Eu.
    by pose proof (co_inj _ _ (sv_core _ H) _ _ _ _ _ Eu Hw).
  - rewrite R4 in P2. destruct r as [|fs].
    + destruct P2 as (V & C & S1 & K). split; [done|congruence| | | |done].
      * intros u Hu. rewrite K. rewrite own_if_regs, R4, decide_False by done. by apply own_if_other.
      * exists x, (sem_head x). rewrite <- R2. done.
      * intros _. by rewrite K.
    + destruct P2 as (V & -> & C & O & h & S1). split; [done|congruence| | |done|].
      * intros u Hu. rewrite O. by apply own_if_other.
      * exists x, h. rewrite <- R2. done.
      * intros fs [= <-]. split; [done|]. rewrite O. rewrite <- R4. by rewrite own_if_cur.
Qed.

(** ** Locks *)

Lemma lock_ok_ext s s' l :
  lock_ok s l -> holders s' !! l = holders s !! l ->
  sem_val <$> sems s' !! lock_sem l = sem_val <$> sems s !! lock_sem l -> lock_ok s' l.
Proof.
  intros (h & x & H1 & H2 & H3) E1 E2. rewrite H2 in E2. destruct (sems s' !! lock_sem l) as [x'|] eqn:Ex; [|done].
  injection E2 as E2. exists h, x'. rewrite E1, E2. done.
Qed.

Lemma lock_sem_inj l1 l2 : lock_sem l1 = lock_sem l2 -> l1 = l2.
Proof. unfold lock_sem. lia. Qed.

(** A lock whose permit the loop did not take. *)
Lemma loop_lock_kept S a n c s' r l :
  sys_inv S -> loop_effect S a n c s' r -> l ∈ locks -> (a = lock_sem l -> r <> Returned) -> lock_ok s' l.
Proof.
  intros H [_ L2 _ (x & h & Ex & _ & Es) _ _] Hl Hr. eapply lock_ok_ext; [by apply (sv_locks _ H)|by rewrite L2|].
  rewrite Es. destruct (decide (lock_sem l = a)) as [<-|Hne]; [|by rewrite lookup_insert_ne].
  rewrite lookup_insert_eq, Ex. destruct r; [by destruct Hr|done].
Qed.

(** The current thread takes the lock and returns. *)
Lemma lock_taken S l n c c' s1 :
  sys_inv S -> l ∈ locks -> loop_effect S (lock_sem l) n c s1 Returned ->
  exists s' t, (lock_acquired l ;; in_kern (sti_condition c') ;; ret Returned) s1 = Ret s' Returned t /\
    sys_inv (continue S s' Returned) /\ holders (sy S) !! l = Some 0 /\
    holders s' = <[l := current S]> (holders (sy S)) /\ current (continue S s' Returned) = current S.
Proof.
  intros H Hl L0. pose proof L0 as [L1 L2 L3 (x & h & Ex & Hx & Es) L5 _]. specialize (L5 eq_refl). specialize (Hx eq_refl).
  unfold lock_acquired, set_holder. erewrite bind_ret_eq.
  2:{ erewrite bind_ret_eq by (apply in_kern_ret; reflexivity). rewrite prepend_nil. reflexivity. }
  rewrite set_kern_same, L5. erewrite bind_ret_eq by apply in_kern_sti. eexists _, _. split; [reflexivity|].
  cbn [holders set_kern set_holders]. split; [|split; [|split; [by rewrite L2|exact L5]]].
  2:{ destruct (sv_locks _ H l Hl) as (h0 & x0 & H1 & H2 & H3). rewrite Ex in H2. injection H2 as <-.
      destruct H3 as [[-> _]|[_ ?]]; [done|lia]. }
  apply inv_continue; [done| | |done|].
  - eapply core_same; [exact L1|done..].
  - intros t Ht. cbn [y_kern set_kern set_holders]. rewrite own_if_regs, L5, decide_False by done. by apply L3.
  - intros l' Hl'. destruct (decide (l' = l)) as [->|Hne].
    + destruct (sv_locks _ H l Hl) as (h0 & x0 & H1 & H2 & H3). rewrite Ex in H2. injection H2 as <-.
      destruct H3 as [[-> Hv]|[_ Hv]]; [|lia]. exists (current S), {| sem_val := sem_val x - 1; sem_head := h |}.
      cbn [holders sems set_kern set_holders sem_val]. rewrite lookup_insert_eq, Es, lookup_insert_eq. split; [done|].
      split; [done|]. right. split; [|lia]. apply (cur_nonzero (kern_of S)), (co_threads _ _ (sv_core _ H)).
    + eapply lock_ok_ext; [eapply (loop_lock_kept S); [done|exact L0|exact Hl'|by intros ?%lock_sem_inj]| |done].
      cbn [holders set_kern set_holders]. by rewrite lookup_insert_ne.
Qed.

Lemma sem_P_inv fuel a n s s' r t :
  sem_P fuel a n s = Ret s' r t ->
  exists t', sem_P_loop fuel a n (if_flag (regs (y_kern s))) (set_kern (cli_state (y_kern s)) s) = Ret s' r t'.
Proof.
  unfold sem_P. erewrite bind_ret_eq by apply (in_kern_ret _ _ _ _ _ (cli_condition_ret (y_kern s))).
  destruct (sem_P_loop _ _ _ _ _) as [s1 r1 t1| | |]; try done. intros [= -> -> _]. by exists t1.
Qed.

Lemma step_P S fuel a n s' r t :
  sys_inv S -> pend S !! current S = None -> ~ is_lock_sem a -> node_free S n ->
  sem_P fuel a n (sy S) = Ret s' r t -> sys_inv (continue S s' r) /\ holders s' = holders (sy S).
Proof.
  intros H Hp Ha Hn (t' & E)%sem_P_inv.
  assert (L0 : loop_effect S a n (if_flag (regs (y_kern (sy S)))) s' r).
  { eapply loop_step; [done|apply regs_only_cli|apply cli_state_off| |exact E]. left. split; [by apply waits_none|done]. }
  pose proof L0 as [L1 L2 L3 L4 L5 L6]. split; [|exact L2]. apply inv_continue; [done..| |].
  - intros fs Er. destruct (L6 fs Er) as [-> Ho]. split; [by constructor|done].
  - intros l Hl. eapply (loop_lock_kept S); [done|exact L0|done|]. intros ->. destruct Ha. by exists l.
Qed.

(** The calls of [lock_acquire]: the lock is held by the caller, it is taken,
    or the caller waits for it. *)
Lemma acquire_cases S fuel l n s' r t :
  sys_inv S -> pend S !! current S = None -> l ∈ locks -> node_free S n ->
  lock_acquire fuel l n (sy S) = Ret s' r t ->
  sys_inv (continue S s' r) /\
  match r with
  | Returned => (holders (sy S) !! l = Some 0 \/ holders (sy S) !! l = Some (current S)) /\
      holders s' = <[l := current S]> (holders (sy S)) /\ current (continue S s' r) = current S
  | Suspended _ => holders s' = holders (sy S)
  end.
Proof.
  intros H Hp Hl Hn. unfold lock_acquire.
  erewrite bind_ret_eq by apply (in_kern_ret _ _ _ _ _ (cli_condition_ret (y_kern (sy S)))).
  destruct (sv_locks _ H l Hl) as (h & x & Hh & Hx & Hv). set (s0 := set_kern _ (sy S)).
  assert (R0 : regs_only (sy S) s0) by apply regs_only_cli. pose proof R0 as [_ _ _ R4 _].
  assert (Hoff : if_flag (regs (y_kern s0)) = false) by apply cli_state_off.
  erewrite (bind_ret_eq (get_holder l)) by (unfold get_holder; cbn [holders s0 set_kern]; by rewrite Hh).
  rewrite prepend_nil, (bind_ret_eq (in_kern get_running_progress) _ s0 s0 (cur_tcb (y_kern s0)) []) by done.
  rewrite prepend_nil, R4. change (cur_tcb (y_kern (sy S))) with (current S).
  destruct (decide (h = current S)) as [->|Hne].
  - rewrite Z.eqb_refl. cbn [negb]. erewrite bind_ret_eq by apply in_kern_sti. intros [= <- <- _].
    set (s1 := set_kern _ s0). assert (R1 : regs_only (sy S) s1) by (by destruct R0).
    rewrite insert_id by done. split; [|by split; [right|]].
    apply inv_continue; [done| | |done|].
    + eapply core_ext; [|intros u; unfold wt_set; case_decide as E; [subst; by rewrite waits_none|reflexivity]].
      eapply core_same; [apply (sv_core _ H)|done|done|exact R4|apply R0].
    + intros u Hu. by apply own_if_other.
    + intros l' Hl'. by eapply lock_ok_ext; [apply (sv_locks _ H)|..].
  - rewrite (proj2 (Z.eqb_neq _ _) Hne). cbn [negb]. intros E.
    assert (E2 : (r <- sem_P fuel (lock_sem l) n ;;
      match r with
      | Returned => lock_acquired l ;; in_kern (sti_condition (if_flag (regs (y_kern (sy S))))) ;; ret Returned
      | Suspended fs => ret (Suspended (fs ++ [In_lock_acquire l (if_flag (regs (y_kern (sy S))))]))
      end) s0 = Ret s' r (drop (length (if if_flag (regs (y_kern (sy S))) then [Cli] else [])) t)).
    { destruct (bind _ _ s0) as [s2 r2 t2| | |]; try done. injection E as -> -> <-. by rewrite drop_app_length. }
    clear E. apply bind_inv in E2 as (s1 & r1 & t1 & t2 & (t' & E1)%sem_P_inv & E2 & _).
    assert (L0 : loop_effect S (lock_sem l) n (if_flag (regs (y_kern s0))) s1 r1).
    { eapply loop_step; [done| | |left; split; [by apply waits_none|done]|exact E1].
      - cbn [s0 y_kern set_kern]. destruct (cli_state_tcbs (cli_state (y_kern (sy S)))) as [B1 B2].
        destruct R0 as [A1 A2 A3 A4 A5]. split; try done; cbn [y_kern set_kern]; [by rewrite B2|by rewrite B1].
      - apply cli_state_off. }
    destruct r1 as [|fs].
    + destruct (lock_taken S l n _ (if_flag (regs (y_kern (sy S)))) s1 H Hl L0) as (s2 & t3 & E3 & I & H0 & Ho & Ec).
      rewrite E3 in E2. injection E2 as <- <- _. split; [done|]. split; [by left|done].
    + injection E2 as <- <- _. pose proof L0 as [L1 L2 L3 L4 L5 L6]. destruct (L6 fs eq_refl) as [-> Ho]. split; [|done].
      rewrite Hoff in *. apply inv_continue; [done|exact L1|done| |].
      * intros fs [= <-]. split; [|done]. by constructor.
      * intros l' Hl'. by eapply (loop_lock_kept S); [done|exact L0|done|].
Qed.

(** A call of the current thread that changes neither who is current nor what
    the threads wait for. *)
Lemma inv_call S s' :
  sys_inv S -> waits S (current S) = None -> core s' (waits S) ->
  (forall t, t <> current S -> own_if (y_kern s') t = own_if (kern_of S) t) ->
  (forall l, l ∈ locks -> lock_ok s' l) -> sys_inv (continue S s' Returned).
Proof.
  intros H Hp Hc Ho Hl. apply inv_continue; [done| |done|done|done].
  eapply core_ext; [exact Hc|]. intros u. unfold wt_set. case_decide as E; [by subst|done].
Qed.

Lemma step_V S a x s' t :
  sys_inv S -> pend S !! current S = None -> ~ is_lock_sem a -> sems (sy S) !! a = Some x ->
  sem_val x + 1 < 4294967296 -> sem_V a (sy S) = Ret s' tt t ->
  sys_inv (continue S s' Returned) /\ holders s' = holders (sy S).
Proof.
  intros H Hp Ha Hx Hv E. destruct (core_V a (sy S) _ x (sv_core _ H) Hx Hv) as (s2 & t2 & q & E2 & _ & G & C).
  rewrite E in E2. injection E2 as <- _.
  split; [|apply (gv_holders _ _ _ _ _ G)]. apply inv_call; [done|by apply waits_none|done| |].
  - intros u _. apply (gv_if _ _ _ _ _ G).
  - intros l Hl. eapply lock_ok_ext; [by apply (sv_locks _ H)|by rewrite (gv_holders _ _ _ _ _ G)|].
    destruct (gv_sems _ _ _ _ _ G) as (h & -> & _). rewrite lookup_insert_ne; [done|]. intros ->. apply Ha. by exists l.
Qed.

(** The calls of [lock_release]: by the holder, and by another thread. *)
Lemma release_cases S l :
  sys_inv S -> pend S !! current S = None -> l ∈ locks ->
  exists s' t, lock_release l (sy S) = Ret s' tt t /\ sys_inv (continue S s' Returned) /\
    current (continue S s' Returned) = current S /\
    holders s' = (if decide (holders (sy S) !! l = Some (current S)) then <[l := 0]> (holders (sy S)) else holders (sy S)).
Proof.
  intros H Hp Hl. unfold lock_release.
  erewrite bind_ret_eq by apply (in_kern_ret _ _ _ _ _ (cli_condition_ret (y_kern (sy S)))).
  destruct (sv_locks _ H l Hl) as (h & x & Hh & Hx & Hv). set (s0 := set_kern _ (sy S)).
  assert (R0 : regs_only (sy S) s0) by apply regs_only_cli. pose proof R0 as [_ _ _ R4 _].
  erewrite (bind_ret_eq (get_holder l)) by (unfold get_holder; cbn [holders s0 set_kern]; by rewrite Hh).
  rewrite prepend_nil, (bind_ret_eq (in_kern get_running_progress) _ s0 s0 (cur_tcb (y_kern s0)) []) by done.
  rewrite prepend_nil, R4. change (cur_tcb (y_kern (sy S))) with (current S).
  destruct (decide (h = current S)) as [->|Hne].
  - rewrite Z.eqb_refl, decide_True by done. unfold set_holder. set (s1 := set_holders (insert l 0) s0).
    assert (Hcur : current S <> 0) by (apply (cur_nonzero (kern_of S)), (co_threads _ _ (sv_core _ H))).
    destruct Hv as [[? _]|[_ Hv]]; [done|].
    assert (C1 : core s1 (waits S)) by (eapply core_same; [apply (sv_core _ H)|by destruct R0..]).
    destruct (core_V (lock_sem l) s1 _ x C1 Hx) as (s2 & t2 & q & E2 & _ & [G1 (hh & G2 & _) G3 G4 _ _ _] & C2); [lia|].
    erewrite (bind_ret_eq (_ ;; _)) by (rewrite bind_modify; exact E2). rewrite in_kern_sti.
    set (s3 := set_kern _ s2). assert (R3 : regs_only s2 s3) by done. rewrite prepend_nil || idtac.
    eexists s3, _. split; [reflexivity|]. cbn [holders set_kern s3]. split; [|split; [exact (eq_trans G3 R4)|by rewrite G1]].
    assert (E3 : cur_tcb (y_kern s2) = current S) by exact (eq_trans G3 R4).
    apply inv_call; [done|by apply waits_none| | |].
    + by eapply core_same; [exact C2|..].
    + intros u Hu. rewrite (own_if_other s2 s3) by (done || by rewrite E3). rewrite G4. by apply (own_if_other (sy S) s0).
    + intros l' Hl'. destruct (decide (l' = l)) as [->|Hl'l].
      * exists 0, {| sem_val := sem_val x + 1; sem_head := hh |}. cbn [holders sems set_kern s3].
        rewrite G1, G2, lookup_insert_eq. cbn [holders s1 set_holders]. rewrite lookup_insert_eq. split; [done|].
        split; [done|]. left. cbn [sem_val]. lia.
      * eapply lock_ok_ext; [by apply (sv_locks _ H)| |]; cbn [holders sems set_kern s3].
        -- rewrite G1. cbn [holders s1 set_holders]. by rewrite lookup_insert_ne.
        -- rewrite G2, lookup_insert_ne; [done|]. by intros ?%lock_sem_inj.
  - rewrite (proj2 (Z.eqb_neq _ _) Hne), bind_ret, in_kern_sti, decide_False by congruence.
    set (s1 := set_kern _ s0). assert (R1 : regs_only (sy S) s1) by (by destruct R0).
    eexists s1, _. split; [reflexivity|]. split; [|by split]. apply inv_call; [done|by apply waits_none| | |].
    + eapply core_same; [apply (sv_core _ H)|by destruct R1..].
    + intros u Hu. by apply own_if_other.
    + intros l' Hl'. by eapply lock_ok_ext; [apply (sv_locks _ H)|..].
Qed.

(** The rest of a suspended call: the loop goes on with interrupts off. *)
Lemma resume_loop S fuel a n c fs s' r t :
  sys_inv S -> waits S (current S) = Some (a, n) ->
  resume fuel (In_thread_block false :: In_sem_P a n c :: fs) (sy S) = Ret s' r t ->
  exists s1 r1 t1, loop_effect S a n c s1 r1 /\
    match r1 with Returned => resume fuel fs | Suspended fs2 => ret (Suspended (fs2 ++ fs)) end s1 = Ret s' r t1.
Proof.
  intros H Hw. cbn [resume]. intros E. apply bind_inv in E as (s0 & [] & t1 & t2 & E0 & E1 & _).
  rewrite in_kern_sti in E0. injection E0 as <- <-. apply bind_inv in E1 as (s1 & r1 & t3 & t4 & E1 & E2 & _).
  exists s1, r1, t4. split; [|done]. eapply loop_step; [done|apply regs_only_kern|apply if_flag_off|by right|exact E1].
Qed.

Lemma step_resume S fuel fs s' r t :
  sys_inv S -> pend S !! current S = Some fs -> resume fuel fs (sy S) = Ret s' r t ->
  sys_inv (continue S s' r) /\
  (holders s' = holders (sy S) \/
   exists l, l ∈ locks /\ holders (sy S) !! l = Some 0 /\ holders s' = <[l := current S]> (holders (sy S)) /\ r = Returned /\
     current (continue S s' r) = current S).
Proof.
  intros H Hp. pose proof (sv_frames _ H _ _ Hp) as Hf. assert (Hw : waits S (current S) = waiting fs) by (unfold waits; by rewrite Hp).
  destruct Hf as [e|a n c Ha|l n c Hl].
  - cbn [resume]. erewrite bind_ret_eq by (apply in_kern_ret; reflexivity). intros [= <- <- _]. split; [|by left].
    set (s1 := set_kern _ (sy S)). assert (R1 : regs_only (sy S) s1) by done. apply inv_call; [done..| | |].
    + eapply core_same; [apply (sv_core _ H)|by destruct R1..].
    + intros u Hu. by apply own_if_other.
    + intros l' Hl'. by eapply lock_ok_ext; [apply (sv_locks _ H)|..].
  - intros E. destruct (resume_loop S fuel a n c [] s' r t H Hw E) as (s1 & r1 & t1 & L0 & E1).
    assert (Es : s' = s1 /\ r = r1). { destruct r1; injection E1 as <- <- _; [done|]. by rewrite app_nil_r. }
    destruct Es as [-> ->]. pose proof L0 as [L1 L2 L3 L4 L5 L6]. split; [|by left]. apply inv_continue; [done..| |].
    + intros fs Er. destruct (L6 fs Er) as [-> Ho]. split; [by constructor|done].
    + intros l Hl. eapply (loop_lock_kept S); [done|exact L0|done|]. intros ->. destruct Ha. by exists l.
  - intros E. destruct (resume_loop S fuel _ n _ _ s' r t H Hw E) as (s1 & r1 & t1 & L0 & E1). destruct r1 as [|fs].
    + destruct (lock_taken S l n _ c s1 H Hl L0) as (s2 & t2 & E2 & I & H0 & Ho & Ec). cbn [resume] in E1.
      change (resume fuel []) with (@ret (sync P) flow Returned) in E1. rewrite E2 in E1. injection E1 as <- <- _.
      split; [done|]. right. by exists l.
    + injection E1 as <- <- _. pose proof L0 as [L1 L2 L3 L4 L5 L6]. destruct (L6 fs eq_refl) as [-> Ho].
      split; [|by left]. apply inv_continue; [done|exact L1|done| |].
      * intros fs [= <-]. split; [|done]. by constructor.
      * intros l' Hl'. by eapply (loop_lock_kept S); [done|exact L0|done|].
Qed.

Lemma step_compute S v r e :
  sys_inv S -> pend S !! current S = None ->
  sys_inv (Build_sys (set_kern (Build_kern v (tcbs (kern_of S)) (current S) r e) (sy S)) (pend S)).
Proof.
  intros H Hp. split; [|exact (sv_frames _ H)| |].
  - eapply core_same; [apply (sv_core _ H)|done..].
  - intros t fs Ht. cbn [pend] in Ht. assert (Hne : t <> current S) by (intros ->; congruence).
    pose proof (sv_if _ H _ _ Ht) as Ho. unfold own_if, kern_of in *. cbn [sy y_kern set_kern cur_tcb tcbs].
    by rewrite decide_False in Ho |- * by done.
  - intros l Hl. by eapply lock_ok_ext; [apply (sv_locks _ H)|..].
Qed.

Lemma step_timer S k' t :
  sys_inv S -> if_flag (regs (kern_of S)) = true ->
  timer_server (set_regs (if_off (regs (kern_of S))) (kern_of S)) = Ret k' true t ->
  sys_inv (Build_sys (set_kern k' (sy S)) (<[current S := [In_interrupt (eflags (regs (kern_of S)))]]> (pend S))).
Proof.
  intros H Hif E. pose proof (pend_none _ H Hif) as Hp. pose proof (waits_none _ _ Hp) as Hw.
  set (k1 := set_regs _ (kern_of S)) in E. destruct (timer_cases k1) as (k2 & b & t2 & E2 & Hb);
    [apply (co_threads _ _ (sv_core _ H))|]. rewrite E in E2. injection E2 as <- <- _.
  destruct Hb as [x [C1 C2 C3 C4 C5 C6 C7 C8]]. change (cur_tcb k1) with (current S) in *.
  assert (Hwc : forall u p, waits S u = Some p -> u <> current S) by (intros u p Eu ->; congruence).
  apply (inv_continue S (set_kern k' (sy S)) (Suspended [In_interrupt (eflags (regs (kern_of S)))])); [done| | | |].
  - apply (core_ext _ (waits S)); [|intros u; unfold wt_set; destruct (decide (u = current S)) as [->|]; done].
    apply core_kern; [apply (sv_core _ H)|done|exact Hwc| |].
    + intros u p Hu Hs. assert (u <> x) by (intros ->; change (status (y_kern (sy S)) x = Some TASK_READY) in C2; congruence).
      rewrite C6, C1 by eauto. done.
    + intros u p Hu Hs. destruct (decide (u = x)) as [->|Hne]; [by left|]. right. rewrite C6 by eauto. done.
  - intros u Hu. cbn [y_kern set_kern]. rewrite C7. unfold k1. rewrite own_if_regs. by rewrite decide_False.
  - intros fs [= <-]. split; [constructor|]. cbn [y_kern set_kern]. rewrite C7. unfold k1.
    rewrite own_if_regs, decide_True by done. apply if_flag_off.
  - intros l Hl. by eapply lock_ok_ext; [apply (sv_locks _ H)|..].
Qed.

Lemma step_tick S k' t :
  sys_inv S -> if_flag (regs (kern_of S)) = true ->
  timer_server (set_regs (if_off (regs (kern_of S))) (kern_of S)) = Ret k' false t ->
  sys_inv (Build_sys (set_kern (set_regs (with_eflags (eflags (regs (kern_of S))) (regs k')) k') (sy S)) (pend S)).
Proof.
  intros H Hif E. pose proof (pend_none _ H Hif) as Hp. pose proof (waits_none _ _ Hp) as Hw.
  set (k1 := set_regs _ (kern_of S)) in E. destruct (timer_cases k1) as (k2 & b & t2 & E2 & Hb);
    [apply (co_threads _ _ (sv_core _ H))|]. rewrite E in E2. injection E2 as <- <- _.
  destruct Hb as [C1 C2 C3 C4]. change (cur_tcb k1) with (current S) in *. change (tcbs k1) with (tcbs (kern_of S)) in *.
  assert (Hst : forall u, u <> current S -> status k' u = status (kern_of S) u) by (intros u Hu; unfold status; by rewrite C3).
  assert (Hwc : forall u p, waits S u = Some p -> u <> current S) by (intros u p Eu ->; congruence).
  split; [|exact (sv_frames _ H)| |].
  - apply core_kern; [apply (sv_core _ H)|done|exact Hwc| |]; cbn [cur_tcb set_regs]; rewrite C1; intros u p Hu Hs.
    + split; [|by eauto]. change (status k' u = Some TASK_BLOCKED). rewrite Hst by eauto. done.
    + right. change (status k' u = Some TASK_READY). rewrite Hst by eauto. done.
  - intros u fs Hu. cbn [pend] in Hu. assert (Hne : u <> current S) by (intros ->; congruence).
    pose proof (sv_if _ H _ _ Hu) as Ho. unfold kern_of at 1. cbn [sy y_kern set_kern]. rewrite own_if_regs, C1, decide_False by done.
    unfold own_if in *. rewrite C1, C3 by done. by rewrite decide_False in Ho |- * by done.
  - intros l Hl. by eapply lock_ok_ext; [apply (sv_locks _ H)|..].
Qed.

(** How the holder of a lock can change: it is taken free by the current
    thread, or given back by it. *)
Definition holder_step S S' (l : Z) : Prop :=
  holders (sy S') !! l = holders (sy S) !! l \/
  (holders (sy S) !! l = Some 0 /\ holders (sy S') !! l = Some (current S) /\ current S' = current S) \/
  (holders (sy S) !! l = Some (current S) /\ holders (sy S') !! l = Some 0 /\ current S' = current S).

Lemma holder_taken S s' r l l' :
  holders (sy S) !! l = Some 0 \/ holders (sy S) !! l = Some (current S) ->
  holders s' = <[l := current S]> (holders (sy S)) -> current (continue S s' r) = current S ->
  holder_step S (continue S s' r) l'.
Proof.
  intros H0 E Ec. unfold holder_step. cbn [sy continue]. rewrite E. destruct (decide (l' = l)) as [->|Hne].
  - rewrite lookup_insert_eq. destruct H0 as [H0|H0]; [right; left; done|left; by rewrite H0].
  - rewrite lookup_insert_ne by congruence. by left.
Qed.

Lemma sys_step_inv S S' :
  sys_step S S' -> sys_inv S -> sys_inv S' /\ forall l, l ∈ locks -> holder_step S S' l.
Proof.
  intros [S0 fuel a n s' r t Hp Ha Hn E|S0 a x s' t Hp Ha Hx Hv E|S0 fuel l n s' r t Hp Hl Hn E|S0 l s' t Hp Hl E
    |S0 fuel fs s' r t Hp E|S0 v r e Hp|S0 k' t Hif E|S0 k' t Hif E] H.
  - destruct (step_P S0 fuel a n s' r t H Hp Ha Hn E) as [I Ho]. split; [done|]. intros l _. left. cbn [sy continue]. by rewrite Ho.
  - destruct (step_V S0 a x s' t H Hp Ha Hx Hv E) as [I Ho]. split; [done|]. intros l _. left. cbn [sy continue]. by rewrite Ho.
  - destruct (acquire_cases S0 fuel l n s' r t H Hp Hl Hn E) as [I Ho]. split; [done|]. intros l' _. destruct r as [|fs].
    + destruct Ho as (H0 & Ho & Ec). by eapply holder_taken.
    + left. cbn [sy continue]. by rewrite Ho.
  - destruct (release_cases S0 l H Hp Hl) as (s2 & t2 & E2 & I & Ec & Ho). rewrite E in E2. injection E2 as <- _.
    split; [done|]. intros l' _. unfold holder_step. cbn [sy continue]. rewrite Ho. case_decide as Hh; [|by left].
    destruct (decide (l' = l)) as [->|Hne]; [rewrite lookup_insert_eq; by right; right|].
    rewrite lookup_insert_ne by congruence. by left.
  - destruct (step_resume S0 fuel fs s' r t H Hp E) as [I Ho]. split; [done|]. intros l' _.
    destruct Ho as [Ho|(l & _ & H0 & Ho & _ & Ec)]; [left; cbn [sy continue]; by rewrite Ho|].
    eapply holder_taken; [by left|done|done].
  - split; [by apply step_compute|]. intros l _. by left.
  - split; [by eapply step_timer|]. intros l _. by left.
  - split; [by eapply step_tick|]. intros l _. by left.
Qed.

(** ** The initial states *)

(** No thread is suspended, the queues are empty and the locks free. *)
Record sys_start S : Prop := {
  ss_threads : threads_wf (kern_of S);
  ss_pend : pend S = ∅;
  ss_sems : forall a x, sems (sy S) !! a = Some x -> sem_head x = None /\ 0 <= sem_val x < 4294967296;
  ss_locks : forall l, l ∈ locks -> holders (sy S) !! l = Some 0 /\ sem_val <$> sems (sy S) !! lock_sem l = Some 1
}.

Lemma sys_start_inv S : sys_start S -> sys_inv S.
Proof.
  intros [H1 H2 H3 H4]. assert (Hw : forall t, waits S t = None) by (intros t; unfold waits; by rewrite H2, lookup_empty).
  split.
  - split; [done| |].
    + intros a x Ha. destruct (H3 a x Ha) as [Hh Hv]. exists [], []. split; try done.
      * apply NoDup_nil_2.
      * by intros n ?%not_elem_of_nil.
      * apply NoDup_nil_2.
      * by intros t ?%not_elem_of_nil.
      * intros t n E. by rewrite Hw in E.
      * by left.
    + intros t1 t2 a1 a2 n E. by rewrite Hw in E.
  - intros t fs E. by rewrite H2, lookup_empty in E.
  - intros t fs E. by rewrite H2, lookup_empty in E.
  - intros l Hl. destruct (H4 l Hl) as [Hh Hs]. destruct (sems (sy S) !! lock_sem l) as [x|] eqn:E; [|done].
    injection Hs as Hs. exists 0, x. split; [done|]. split; [done|]. by left.
Qed.

Lemma reachable_inv S0 S : sys_start S0 -> rtc sys_step S0 S -> sys_inv S.
Proof.
  intros H0 H. apply sys_start_inv in H0. induction H as [|S1 S2 S3 H1 _ IH]; [done|]. apply IH. by eapply sys_step_inv.
Qed.
End sys.
