(* ===== verification/SyncProp.v ===== *)
(** * Semaphores and locks: what they guarantee

    The functions of sync.c in every state reachable from one in which no
    thread is suspended, the queues are empty and the locks free: permits are
    not lost, waiting threads are served in the order they came, a lock has one
    holder, and [sem_P] never returns when there is no permit and no other
    thread that could run. *)

From S2P Require Import Prelude Memory Tcb Pmm Vmm VmmThm Tss UserVm Threads Ring ThreadsThm ThreadsInv ThreadsSys ThreadsView.
From S2P Require Import Interrupt InterruptThm Sync SyncThm SemInv SyncCore SyncSys.

Section prop.
Context {P : Type} {PA : PageAllocator P} {L : VmmLayout} {TL : TssLayout} {HL : ThreadLayout}.
Context (locks : gset Z).
Implicit Types (S : sys P) (s : sync P).

(** The state in which [sem_P] enters its loop. *)
Definition loop_state s : sync P := set_kern (cli_state (y_kern s)) s.

Lemma sem_P_eq fuel a n s :
  sem_P fuel a n s =
    prepend (if if_flag (regs (y_kern s)) then [Cli] else []) (sem_P_loop fuel a n (if_flag (regs (y_kern s))) (loop_state s)).
Proof. unfold sem_P. by erewrite bind_ret_eq by apply (in_kern_ret _ _ _ _ _ (cli_condition_ret (y_kern s))). Qed.

(** A free node is in no queue. *)
Lemma node_notin s wt a x n q w :
  (forall t b, wt t <> Some (b, n)) -> sem_inv (nodes s) a x wt (status (y_kern s)) (cur_tcb (y_kern s)) q w -> n ∉ q.
Proof. intros Hf Hi Hn. destruct (si_wait _ _ _ _ _ _ _ _ Hi n Hn) as (nd & _ & Hw & _). by apply (Hf _ _ Hw). Qed.

(** The three outcomes of [sem_P]. *)
Definition P_taken S a x s' : Prop :=
  sems s' = <[a := {| sem_val := sem_val x - 1; sem_head := sem_head x |}]> (sems (sy S)) /\
  tcbs (y_kern s') = tcbs (kern_of S) /\ cur_tcb (y_kern s') = current S /\ k_vmm (y_kern s') = k_vmm (kern_of S) /\
  if_flag (regs (y_kern s')) = if_flag (regs (kern_of S)).

Definition P_queued S a n x s' y : Prop :=
  cur_tcb (y_kern s') = y /\ status (y_kern s') (current S) = Some TASK_BLOCKED /\
  exists q h nd, qlist (nodes (sy S)) (sem_head x) q /\ qlist (nodes s') h (q ++ [n]) /\
    sems s' = <[a := {| sem_val := sem_val x; sem_head := h |}]> (sems (sy S)) /\
    nodes s' !! n = Some nd /\ nd_thread nd = current S.

Lemma sem_P_total S fuel a n x rest :
  core (sy S) (waits S) -> (forall t b, waits S t <> Some (b, n)) -> sems (sy S) !! a = Some x ->
  threads_inv (tcbs (kern_of S)) (current S) rest ->
  if sem_val x =? 0 then
    match first_ready (tcbs (kern_of S)) rest with
    | Some y => exists s' t,
        sem_P (Datatypes.S fuel) a n (sy S) = Ret s' (Suspended [In_thread_block false; In_sem_P a n (if_flag (regs (kern_of S)))]) t /\
        P_queued S a n x s' y
    | None => forall f, sem_P f a n (sy S) = NoFuel
    end
  else exists s' t, sem_P (Datatypes.S fuel) a n (sy S) = Ret s' Returned t /\ P_taken S a x s' /\ holders s' = holders (sy S).
Proof.
  intros Hco Hf Hx Hth. destruct (co_sems _ _ Hco a x Hx) as (q & w & Hi). pose proof (node_notin _ _ _ _ _ _ _ Hf Hi) as Hn.
  pose proof (si_list _ _ _ _ _ _ _ _ Hi) as Hq. pose proof (si_nodup _ _ _ _ _ _ _ _ Hi) as Hnd.
  set (c := if_flag (regs (kern_of S))). unfold kern_of in *. set (s0 := loop_state (sy S)).
  destruct (cli_state_tcbs (y_kern (sy S))) as [T0 C0]. assert (Hx0 : sems s0 !! a = Some x) by done.
  assert (Hth0 : threads_inv (tcbs (y_kern s0)) (cur_tcb (y_kern s0)) rest) by (cbn [y_kern s0 loop_state set_kern]; by rewrite T0, C0).
  pose proof (cli_state_off (y_kern (sy S))) as Hoff.
  destruct (Z.eqb_spec (sem_val x) 0) as [Hv|Hv].
  - destruct (first_ready (tcbs (y_kern (sy S))) rest) as [y|] eqn:Hy.
    + destruct (sem_P_loop_block fuel a n c s0 x q rest y Hx0 Hv Hq Hnd Hn Hth0 Hoff) as
        (s' & t & h & nd & E & S1 & H1 & Q1 & N1 & N2 & _ & _ & Hsw); [cbn [y_kern s0 loop_state set_kern]; by rewrite T0|].
      rewrite sem_P_eq. fold s0 c. rewrite E. eexists s', _. split; [reflexivity|].
      destruct (blocked_switch (y_kern s0) (y_kern s') y) as (B1 & B2 & B3 & B4 & _); [by exists rest|done|].
      cbn [y_kern s0 loop_state set_kern] in B4, N2. rewrite C0 in B4, N2. split; [done|]. split; [done|]. by exists q, h, nd.
    + intros f. rewrite sem_P_eq. fold s0 c. rewrite deadlocked_diverges; [done|]. split; [|done|].
      * exists rest. split; [done|]. cbn [y_kern s0 loop_state set_kern]. by rewrite T0.
      * exists x, q. split; [done|]. split; [done|]. by left.
  - rewrite sem_P_eq. fold s0 c. rewrite (sem_P_loop_take fuel a n c s0 x Hx0 Hv (si_range _ _ _ _ _ _ _ _ Hi)).
    eexists _, _. split; [reflexivity|]. split; [|done]. unfold P_taken, kern_of.
    cbn [sems y_kern tcbs cur_tcb k_vmm regs set_regs s0 loop_state set_kern]. split; [done|]. split; [done|]. split; [done|].
    split; [unfold cli_state; by case_match|].
    fold c. unfold restored. destruct c; [apply if_flag_on|apply if_flag_off].
Qed.

(** C31: In every reachable state, for a thread that calls [sem_P] on a semaphore: if
    there is a permit it takes one and goes on; if there is none and another
    thread is ready, its node becomes the last of the queue, it is blocked and
    the next ready thread of the ring runs; if no other thread is ready, the
    call never returns, for any number of rounds of its loop, although
    [schedule] wakes the caller up each time. *)
Theorem sem_P_spec S0 S fuel a n x rest :
  sys_start locks S0 -> rtc (sys_step locks) S0 S -> node_free S n -> sems (sy S) !! a = Some x ->
  threads_inv (tcbs (kern_of S)) (current S) rest ->
  if sem_val x =? 0 then
    match first_ready (tcbs (kern_of S)) rest with
    | Some y => exists s' t,
        sem_P (Datatypes.S fuel) a n (sy S) = Ret s' (Suspended [In_thread_block false; In_sem_P a n (if_flag (regs (kern_of S)))]) t /\
        P_queued S a n x s' y
    | None => forall f, sem_P f a n (sy S) = NoFuel
    end
  else exists s' t, sem_P (Datatypes.S fuel) a n (sy S) = Ret s' Returned t /\ P_taken S a x s' /\ holders s' = holders (sy S).
Proof.
  intros H0 Hr Hf Hx Hth. eapply sem_P_total; [|exact Hf|done|done].
  apply (sv_core locks), (reachable_inv locks S0 S H0 Hr).
Qed.

(** C32: In every reachable state [sem_V] returns; it adds a permit, takes the first
    node off the queue and makes the thread of that node ready, the other
    threads and the order of the other nodes staying as they were. *)
Theorem sem_V_spec S0 S a x :
  sys_start locks S0 -> rtc (sys_step locks) S0 S -> sems (sy S) !! a = Some x -> sem_val x + 1 < 4294967296 ->
  exists s' t q h, sem_V a (sy S) = Ret s' tt t /\ qlist (nodes (sy S)) (sem_head x) q /\
    sems s' = <[a := {| sem_val := sem_val x + 1; sem_head := h |}]> (sems (sy S)) /\ qlist (nodes s') h (tail q) /\
    cur_tcb (y_kern s') = current S /\
    match q with
    | [] => forall u, status (y_kern s') u = status (kern_of S) u
    | n :: _ => exists nd, nodes (sy S) !! n = Some nd /\ status (kern_of S) (nd_thread nd) = Some TASK_BLOCKED /\
        status (y_kern s') (nd_thread nd) = Some TASK_READY /\
        (forall u, u <> nd_thread nd -> status (y_kern s') u = status (kern_of S) u)
    end.
Proof.
  intros H0 Hr Hx Hv. pose proof (sv_core _ _ (reachable_inv locks S0 S H0 Hr)) as Hco.
  destruct (co_sems _ _ Hco a x Hx) as (q & w & Hi).
  destruct (sem_V_gives a (sy S) _ x q w (co_threads _ _ Hco) Hx Hv Hi) as (s' & t & E & [G1 (h & G2 & G3) G4 _ _ _ G7]).
  exists s', t, q, h. split; [done|]. split; [by destruct Hi|]. split; [done|]. split; [done|]. split; [done|].
  destruct q as [|n q]; cbn [head mbind option_bind] in G7; [intros u; by rewrite G7|].
  destruct (si_wait _ _ _ _ _ _ _ _ Hi n ltac:(by left)) as (nd & Hn & _ & Hs & _). rewrite Hn in G7. cbn in G7.
  exists nd. split; [done|]. split; [done|]. split; [by rewrite G7, decide_True|].
  intros u Hu. rewrite G7, decide_False; [done|congruence].
Qed.

(** C9: No permit is lost: in every reachable state the nodes in the queue of a
    semaphore are those of blocked threads inside [sem_P], and while there are
    any, every permit is matched by a different thread that was woken for it
    and can run (it is current or ready). *)
Theorem no_lost_wakeup S0 S a x :
  sys_start locks S0 -> rtc (sys_step locks) S0 S -> sems (sy S) !! a = Some x ->
  0 <= sem_val x < 4294967296 /\
  exists q w, qlist (nodes (sy S)) (sem_head x) q /\ NoDup q /\
    (forall n, n ∈ q -> exists nd, nodes (sy S) !! n = Some nd /\ waits S (nd_thread nd) = Some (a, n) /\
       status (kern_of S) (nd_thread nd) = Some TASK_BLOCKED) /\
    NoDup w /\
    (forall t, t ∈ w -> exists n, waits S t = Some (a, n) /\ n ∉ q /\
       (t = current S \/ status (kern_of S) t = Some TASK_READY)) /\
    (q = [] \/ sem_val x <= length w).
Proof.
  intros H0 Hr Hx. pose proof (sv_core _ _ (reachable_inv locks S0 S H0 Hr)) as Hco.
  destruct (co_sems _ _ Hco a x Hx) as (q & w & [H1 H2 H3 H4 H5 H6 H7 H8]). split; [done|]. exists q, w.
  split; [done|]. split; [done|]. split; [|done]. intros n Hn. destruct (H3 n Hn) as (nd & ? & ? & ? & ?). by exists nd.
Qed.

(** ** Locks *)

(** C30: The lock is used as a boolean: whoever holds it, one thread at a time. A
    step from a reachable state leaves the holder of a lock as it is, or the
    lock was free and the current thread takes it, or the current thread held
    it and gives it back. *)
Theorem lock_exclusive S0 S S' l :
  sys_start locks S0 -> rtc (sys_step locks) S0 S -> sys_step locks S S' -> l ∈ locks ->
  is_Some (holders (sy S) !! l) /\ holder_step S S' l.
Proof.
  intros H0 Hr Hs Hl. pose proof (reachable_inv locks S0 S H0 Hr) as H. split.
  - destruct (sv_locks _ _ H l Hl) as (h & x & Hh & _). by exists h.
  - by eapply sys_step_inv.
Qed.

(** [lock_acquire] up to its test of the holder. *)
Lemma lock_acquire_eq fuel l n s h :
  holders s !! l = Some h ->
  lock_acquire fuel l n s =
    prepend (if if_flag (regs (y_kern s)) then [Cli] else [])
      ((if negb (h =? cur_tcb (y_kern s)) then
          r <- sem_P fuel (lock_sem l) n ;;
          match r with
          | Returned => lock_acquired l ;; in_kern (sti_condition (if_flag (regs (y_kern s)))) ;; ret Returned
          | Suspended fs => ret (Suspended (fs ++ [In_lock_acquire l (if_flag (regs (y_kern s)))]))
          end
        else in_kern (sti_condition (if_flag (regs (y_kern s)))) ;; ret Returned) (loop_state s)).
Proof.
  intros Hh. unfold lock_acquire. erewrite bind_ret_eq by apply (in_kern_ret _ _ _ _ _ (cli_condition_ret (y_kern s))).
  fold (loop_state s). rewrite (bind_ret_eq (get_holder l) _ _ (loop_state s) h []) by (unfold get_holder; cbn [holders loop_state set_kern]; by rewrite Hh).
  rewrite prepend_nil, (bind_ret_eq (in_kern get_running_progress) _ _ (loop_state s) (cur_tcb (y_kern s)) []); [by rewrite prepend_nil|].
  destruct (cli_state_tcbs (y_kern s)) as [_ Ec]. unfold in_kern, zoom, get_running_progress, gets. by rewrite <- Ec.
Qed.

(** The core of a state is that of its loop state. *)
Lemma loop_state_core S :
  core (sy S) (waits S) -> core (loop_state (sy S)) (waits (Build_sys (loop_state (sy S)) (pend S))).
Proof. destruct (cli_state_tcbs (y_kern (sy S))) as [Et Ec]. intros H. by eapply core_same; [exact H|..]. Qed.

Lemma lock_acquire_total S fuel l n rest h :
  sys_inv locks S -> pend S !! current S = None -> node_free S n -> l ∈ locks -> holders (sy S) !! l = Some h ->
  threads_inv (tcbs (kern_of S)) (current S) rest ->
  if h =? current S then exists s' t, lock_acquire fuel l n (sy S) = Ret s' Returned t /\ holders s' = holders (sy S) /\
    k_vmm (y_kern s') = k_vmm (kern_of S)
  else if h =? 0 then exists s' t, lock_acquire (Datatypes.S fuel) l n (sy S) = Ret s' Returned t /\
    holders s' = <[l := current S]> (holders (sy S)) /\ k_vmm (y_kern s') = k_vmm (kern_of S)
  else match first_ready (tcbs (kern_of S)) rest with
    | Some y => exists s' t, lock_acquire (Datatypes.S fuel) l n (sy S) = Ret s'
        (Suspended [In_thread_block false; In_sem_P (lock_sem l) n false; In_lock_acquire l (if_flag (regs (kern_of S)))]) t /\
        cur_tcb (y_kern s') = y
    | None => forall f, lock_acquire f l n (sy S) = NoFuel
    end.
Proof.
  intros H Hp Hf Hl Hh Hth. pose proof (fun f => lock_acquire_eq f l n (sy S) h Hh) as Eq.
  change (cur_tcb (y_kern (sy S))) with (current S) in Eq. unfold kern_of in *.
  destruct (h =? current S) eqn:Ec; cbn [negb] in Eq.
  { rewrite Eq. erewrite bind_ret_eq by apply in_kern_sti. eexists _, _. split; [reflexivity|]. split; [done|].
    cbn [y_kern k_vmm set_kern set_regs loop_state]. unfold cli_state. by case_match. }
  destruct (cli_state_tcbs (y_kern (sy S))) as [Et Ecu].
  destruct (sv_locks _ _ H l Hl) as (h0 & x & Hh0 & Hx & Hv). rewrite Hh in Hh0. injection Hh0 as <-.
  pose proof (sem_P_total (Build_sys (loop_state (sy S)) (pend S)) fuel (lock_sem l) n x rest
    (loop_state_core S (sv_core _ _ H)) Hf Hx) as Ht. unfold current, kern_of in Ht. cbn [sy y_kern loop_state set_kern] in Ht.
  rewrite Et, Ecu, cli_state_off in Ht. specialize (Ht Hth).
  destruct (Z.eqb_spec h 0) as [->|Hh0].
  - destruct Hv as [[_ Hv]|[? _]]; [|done]. rewrite Hv in Ht. destruct Ht as (s1 & t1 & E1 & (_ & _ & C1 & V1 & _) & O1).
    rewrite Eq. erewrite bind_ret_eq by exact E1. unfold lock_acquired.
    erewrite bind_ret_eq by (erewrite bind_ret_eq by (apply in_kern_ret; reflexivity); rewrite prepend_nil; reflexivity).
    rewrite set_kern_same. erewrite bind_ret_eq by apply in_kern_sti. eexists _, _. split; [reflexivity|].
    split; [|cbn [y_kern k_vmm set_kern set_holders set_regs]; rewrite V1; unfold kern_of; cbn [sy y_kern set_kern loop_state];
      unfold cli_state; by case_match].
    cbn [holders set_kern set_holders]. rewrite O1, C1. cbn [holders set_kern sy loop_state]. unfold current, kern_of. cbn [sy y_kern set_kern loop_state].
    by rewrite Ecu.
  - destruct Hv as [[? _]|[_ Hv]]; [done|]. rewrite Hv in Ht. cbn [Z.eqb] in Ht.
    destruct (first_ready (tcbs (y_kern (sy S))) rest) as [y|].
    + destruct Ht as (s1 & t1 & E1 & C1 & _). rewrite Eq. erewrite bind_ret_eq by exact E1. eexists _, _. split; [reflexivity|done].
    + intros f. rewrite Eq. unfold bind. change (set_kern (cli_state (y_kern (sy S))) (sy S)) with (loop_state (sy S)) in Ht. by rewrite Ht.
Qed.

(** [lock_acquire] in every reachable state: the holder gets it again at once; a
    free lock is taken without waiting; for a lock another thread holds the
    caller is suspended inside [sem_P] and a ready thread runs, or, when no
    other thread is ready, the call never returns. *)
Lemma lock_acquire_spec S0 S fuel l n rest h :
  sys_start locks S0 -> rtc (sys_step locks) S0 S -> pend S !! current S = None -> node_free S n -> l ∈ locks ->
  holders (sy S) !! l = Some h -> threads_inv (tcbs (kern_of S)) (current S) rest ->
  if h =? current S then exists s' t, lock_acquire fuel l n (sy S) = Ret s' Returned t /\ holders s' = holders (sy S) /\
    k_vmm (y_kern s') = k_vmm (kern_of S)
  else if h =? 0 then exists s' t, lock_acquire (Datatypes.S fuel) l n (sy S) = Ret s' Returned t /\
    holders s' = <[l := current S]> (holders (sy S)) /\ k_vmm (y_kern s') = k_vmm (kern_of S)
  else match first_ready (tcbs (kern_of S)) rest with
    | Some y => exists s' t, lock_acquire (Datatypes.S fuel) l n (sy S) = Ret s'
        (Suspended [In_thread_block false; In_sem_P (lock_sem l) n false; In_lock_acquire l (if_flag (regs (kern_of S)))]) t /\
        cur_tcb (y_kern s') = y
    | None => forall f, lock_acquire f l n (sy S) = NoFuel
    end.
Proof. intros H0 Hr. apply lock_acquire_total. by eapply reachable_inv. Qed.

(** A call of [lock_acquire] that returns keeps what the next call needs. *)
Lemma acquire_again S fuel l n s' t :
  sys_inv locks S -> pend S !! current S = None -> node_free S n -> l ∈ locks ->
  lock_acquire fuel l n (sy S) = Ret s' Returned t ->
  let S' := continue S s' Returned in
  sys_inv locks S' /\ pend S' !! current S' = None /\ node_free S' n /\ holders (sy S') !! l = Some (current S').
Proof.
  intros H Hp Hf Hl E S'. destruct (acquire_cases locks S fuel l n s' Returned t H Hp Hl Hf E) as (I & _ & O & C).
  fold S' in C. split; [done|]. rewrite C. split; [apply lookup_delete_eq|]. split.
  - intros u b. unfold S'. rewrite waits_continue. unfold wt_set. case_decide; [done|]. apply Hf.
  - cbn [sy S' continue]. by rewrite O, lookup_insert_eq.
Qed.

(** The calls a thread makes are not counted: after it has acquired a free lock
    twice, one release makes the lock free for the others. *)
Theorem lock_not_counted S0 S fuel l n :
  sys_start locks S0 -> rtc (sys_step locks) S0 S -> pend S !! current S = None -> node_free S n -> l ∈ locks ->
  holders (sy S) !! l = Some 0 ->
  exists s1 t1 s2 t2 s3 t3,
    lock_acquire (Datatypes.S fuel) l n (sy S) = Ret s1 Returned t1 /\
    lock_acquire (Datatypes.S fuel) l n s1 = Ret s2 Returned t2 /\
    lock_release l s2 = Ret s3 tt t3 /\ holders s3 !! l = Some 0.
Proof.
  intros H0 Hr Hp Hf Hl Hh. pose proof (reachable_inv locks S0 S H0 Hr) as H.
  pose proof (cur_nonzero (kern_of S) (co_threads _ _ (sv_core _ _ H))) as Hcur.
  destruct (co_threads _ _ (sv_core _ _ H)) as [rest Hth].
  pose proof (lock_acquire_total S fuel l n rest 0 H Hp Hf Hl Hh Hth) as A1.
  rewrite (proj2 (Z.eqb_neq _ _)) in A1 by (unfold current; congruence).
  destruct A1 as (s1 & t1 & E1 & _). destruct (acquire_again S _ l n s1 t1 H Hp Hf Hl E1) as (I1 & P1 & F1 & O1).
  destruct (co_threads _ _ (sv_core _ _ I1)) as [rest1 Hth1].
  pose proof (lock_acquire_total _ (Datatypes.S fuel) l n rest1 _ I1 P1 F1 Hl O1 Hth1) as A2. rewrite Z.eqb_refl in A2.
  destruct A2 as (s2 & t2 & E2 & _). destruct (acquire_again _ _ l n s2 t2 I1 P1 F1 Hl E2) as (I2 & P2 & F2 & O2).
  destruct (release_cases locks _ l I2 P2 Hl) as (s3 & t3 & E3 & _ & _ & O3).
  exists s1, t1, s2, t2, s3, t3. split; [done|]. split; [done|]. split; [exact E3|].
  by rewrite O3, decide_True, lookup_insert_eq.
Qed.
End prop.

(** ** A concrete system *)

#[local] Existing Instance small_vmm_layout.
#[local] Existing Instance small_tss.
#[local] Existing Instance ex_threads.

(** Three threads, a lock at 500 and a semaphore at 600 without permits. *)
Definition ex_locks : gset Z := {[500]}.
Definition ex_sync : sync pmm :=
  Build_sync ex_kern (<[504 := {| sem_val := 1; sem_head := None |}]> (<[600 := {| sem_val := 0; sem_head := None |}]> ∅)) ∅
    (<[500 := 0]> ∅).
Definition ex_sys : sys pmm := Build_sys ex_sync ∅.

Lemma ex_start : sys_start ex_locks ex_sys.
Proof.
  split.
  - exists [8192; 12288]. exact ex_inv.
  - done.
  - intros a x Hx. cbn [sems sy ex_sys ex_sync] in Hx. apply lookup_insert_Some in Hx as [[_ <-]|[_ Hx]]; [split; [done|cbn [sem_val]; lia]|].
    apply lookup_insert_Some in Hx as [[_ <-]|[_ Hx]]; [split; [done|cbn [sem_val]; lia]|]. by rewrite lookup_empty in Hx.
  - intros l Hl%elem_of_singleton. subst l. by split.
Qed.

Lemma ex_node_free n : node_free ex_sys n.
Proof. intros t a. unfold waits. cbn [pend ex_sys]. by rewrite lookup_empty. Qed.

(** 4096 waits for the semaphore and 12288 runs. *)
Lemma sem_P_spec_witness :
  exists s' t, sem_P 5 600 9000 ex_sync = Ret s' (Suspended [In_thread_block false; In_sem_P 600 9000 true]) t /\
    P_queued ex_sys 600 9000 {| sem_val := 0; sem_head := None |} s' 12288.
Proof. exact (sem_P_spec ex_locks ex_sys ex_sys 4 600 9000 _ _ ex_start (rtc_refl _ _) (ex_node_free _) eq_refl ex_inv). Defined.

(** The state after 4096 has blocked on the semaphore. *)
Definition after {A} (d : A) {B} (r : result A B) : A := match r with Ret s _ _ => s | _ => d end.
Definition ex_blocked : sys pmm :=
  continue ex_sys (after ex_sync (sem_P 5 600 9000 ex_sync)) (Suspended [In_thread_block false; In_sem_P 600 9000 true]).

Lemma ex_not_lock : ~ is_lock_sem ex_locks 600.
Proof. intros (l & Hl%elem_of_singleton & E). subst l. done. Qed.

Lemma ex_step : sys_step ex_locks ex_sys ex_blocked.
Proof.
  destruct (sem_P_total ex_sys 4 600 9000 {| sem_val := 0; sem_head := None |} [8192; 12288]
    (sv_core _ _ (sys_start_inv _ _ ex_start)) (ex_node_free 9000) eq_refl ex_inv) as (s' & t & E & _).
  unfold ex_blocked. change (sy ex_sys) with ex_sync in E. rewrite E. cbn [after].
  eapply (sys_P ex_locks ex_sys 5 600 9000); [done|apply ex_not_lock|apply ex_node_free|exact E].
Qed.

Lemma ex_reach : rtc (sys_step ex_locks) ex_sys ex_blocked.
Proof. apply rtc_once, ex_step. Qed.

(** The waiting thread is made ready. *)
Lemma sem_V_spec_witness :
  exists x, sems (sy ex_blocked) !! 600 = Some x /\ exists s' t q h, sem_V 600 (sy ex_blocked) = Ret s' tt t /\
    qlist (nodes (sy ex_blocked)) (sem_head x) q /\
    sems s' = <[600 := {| sem_val := sem_val x + 1; sem_head := h |}]> (sems (sy ex_blocked)) /\ qlist (nodes s') h (tail q) /\
    cur_tcb (y_kern s') = current ex_blocked /\
    match q with
    | [] => forall u, status (y_kern s') u = status (kern_of ex_blocked) u
    | n :: _ => exists nd, nodes (sy ex_blocked) !! n = Some nd /\
        status (kern_of ex_blocked) (nd_thread nd) = Some TASK_BLOCKED /\
        status (y_kern s') (nd_thread nd) = Some TASK_READY /\
        (forall u, u <> nd_thread nd -> status (y_kern s') u = status (kern_of ex_blocked) u)
    end.
Proof.
  exists {| sem_val := 0; sem_head := Some 9000 |}. assert (E : sems (sy ex_blocked) !! 600 = Some {| sem_val := 0; sem_head := Some 9000 |}) by (vm_compute; reflexivity).
  split; [exact E|]. apply (sem_V_spec ex_locks ex_sys ex_blocked 600 _ ex_start ex_reach E). reflexivity.
Defined.

Lemma no_lost_wakeup_witness :
  exists x, sems (sy ex_blocked) !! 600 = Some x /\ 0 <= sem_val x < 4294967296 /\
  exists q w, qlist (nodes (sy ex_blocked)) (sem_head x) q /\ NoDup q /\
    (forall n, n ∈ q -> exists nd, nodes (sy ex_blocked) !! n = Some nd /\ waits ex_blocked (nd_thread nd) = Some (600, n) /\
       status (kern_of ex_blocked) (nd_thread nd) = Some TASK_BLOCKED) /\
    NoDup w /\
    (forall t, t ∈ w -> exists n, waits ex_blocked t = Some (600, n) /\ n ∉ q /\
       (t = current ex_blocked \/ status (kern_of ex_blocked) t = Some TASK_READY)) /\
    (q = [] \/ sem_val x <= length w).
Proof.
  exists {| sem_val := 0; sem_head := Some 9000 |}. assert (E : sems (sy ex_blocked) !! 600 = Some {| sem_val := 0; sem_head := Some 9000 |}) by (vm_compute; reflexivity).
  split; [exact E|]. apply (no_lost_wakeup ex_locks ex_sys ex_blocked 600 _ ex_start ex_reach E).
Defined.

Lemma lock_acquire_spec_witness :
  exists s' t, lock_acquire 1 500 9000 ex_sync = Ret s' Returned t /\ holders s' = <[500 := 4096]> (holders ex_sync) /\
    k_vmm (y_kern s') = k_vmm ex_kern.
Proof.
  exact (lock_acquire_spec ex_locks ex_sys ex_sys 0 500 9000 [8192; 12288] 0 ex_start (rtc_refl _ _) eq_refl (ex_node_free _)
    ltac:(by apply elem_of_singleton) eq_refl ex_inv).
Defined.

Lemma lock_not_counted_witness :
  exists s1 t1 s2 t2 s3 t3,
    lock_acquire 1 500 9000 ex_sync = Ret s1 Returned t1 /\ lock_acquire 1 500 9000 s1 = Ret s2 Returned t2 /\
    lock_release 500 s2 = Ret s3 tt t3 /\ holders s3 !! 500 = Some 0.
Proof.
  exact (lock_not_counted ex_locks ex_sys ex_sys 0 500 9000 ex_start (rtc_refl _ _) eq_refl (ex_node_free _)
    ltac:(by apply elem_of_singleton) eq_refl).
Defined.

Lemma lock_exclusive_witness : is_Some (holders ex_sync !! 500) /\ holder_step ex_sys ex_blocked 500.
Proof. exact (lock_exclusive ex_locks ex_sys ex_sys ex_blocked 500 ex_start (rtc_refl _ _) ex_step ltac:(by apply elem_of_singleton)). Defined.
