(* ===== verification/Printk.v ===== *)
(** * libs/printk/printk.c: formatted output

    [printk] copies the format to a local array of 100 bytes and replaces the
    directives in place, shifting the rest of the text with a second array of
    100 bytes; then it prints the array.  The arrays, the lock and the strings
    are in the linear memory.  The functions are written over the class
    [VaList] of include/vargs.h: its instance [va_list] reads the words the caller
    has pushed, and lists are the reference the theorems are stated with.

    Printing runs on the state [io]: the kernel's, with the cursor of the
    screen.  The lock can suspend the caller, so the two functions end as those
    of [Sync] do, and [printk_locked] is what is left to do when the lock was
    obtained. *)

From S2P Require Import Prelude Memory CString StringThm KernLog Port Vga Tcb Pmm Vmm Tss UserVm Threads Sync.

Class PrintkLayout := {
  staticArry : Z;       (* local of printk and printk_color *)
  insert_m : Z;         (* local [m] of insert_str *)
  printk_lock : Z
}.

(** ** include/vargs.h *)

(** [va_arg] gives the next argument, and the list behind it.  The types the
    functions ask for, [int] and [char*], are words. *)
Class VaList (V : Type) := va_arg : V -> M mem (Z * V).

(** The pointer of i386: arguments are words on the stack, and [va_start] gives
    the address behind the last one that has a name. *)
Inductive va_list := VaPtr (ap : Z).
Definition va_start (last : Z) : va_list := VaPtr (u32 (last + 4)).
Definition va_list_arg (ptr : va_list) : M mem (Z * va_list) :=
  let 'VaPtr ap := ptr in x <- load32 ap ;; ret (x, VaPtr (u32 (ap + 4))).
#[export] Instance va_list_VaList : VaList va_list := va_list_arg.

(** The words as a list. *)
#[export] Instance words_arg : VaList (list Z) := fun ptr =>
  match ptr with [] => undef | x :: ptr' => ret (x, ptr') end.

Section format.
Context {SL : StringLayout} {KL : PrintkLayout}.
Context {V : Type} {VA : VaList V}.

Definition insert_str (inserted_str inserting_str offset : Z) : M mem unit :=
  memset insert_m 0 100 ;;
  strcpy insert_m (inserted_str + offset + 2) ;;
  n <- strlen inserting_str ;;
  memcpy (inserted_str + offset) inserting_str n ;;
  n <- strlen inserting_str ;;
  store8 (inserted_str + offset + n) 0 ;;
  strcat inserted_str insert_m ;;
  ret tt.

(** A directive: the text of the argument is inserted; the new offset is that
    of its last character. *)
Definition insert_arg (output_str offset arg_str_ptr : Z) : M mem Z :=
  insert_str output_str arg_str_ptr offset ;;
  n <- strlen arg_str_ptr ;;
  ret (offset + n - 1).

(** The loop of [printk] and of [printk_color]; [ptr] are the arguments left. *)
Fixpoint printk_loop (fuel : nat) (output_str : Z) (ptr : V) (offset : Z) : M mem unit :=
  match fuel with
  | O => nofuel
  | S fuel' =>
      c <- load8 (output_str + offset) ;;
      if c =? 0 then ret tt
      else if c =? 37 then
        d <- load8 (output_str + offset + 1) ;;
        if d =? 115 then
          r <- va_arg ptr ;;
          o <- insert_arg output_str offset (fst r) ;; printk_loop fuel' output_str (snd r) (o + 1)
        else if d =? 100 then
          r <- va_arg ptr ;;
          t <- uintTostring (fst r) ;; o <- insert_arg output_str offset t ;; printk_loop fuel' output_str (snd r) (o + 1)
        else if d =? 99 then printk_loop fuel' output_str ptr (offset + 1)
        else if (d =? 72) || (d =? 104) then
          r <- va_arg ptr ;;
          t <- num2hexstr (fst r) (if d =? 72 then 1 else 0) ;; o <- insert_arg output_str offset t ;;
          printk_loop fuel' output_str (snd r) (o + 1)
        else printk_loop fuel' output_str ptr (offset + 1)
      else printk_loop fuel' output_str ptr (offset + 1)
  end.

(** From the declaration of the array to [va_end]. *)
Definition printk_format (input_str : Z) (args : V) : M mem unit :=
  memset staticArry 0 100 ;;
  strcpy staticArry input_str ;;
  printk_loop str_fuel staticArry args 0.

(** [i] is not moved past an inserted text. *)
Fixpoint printbasic_loop (fuel : nat) (head m i : Z) : M mem unit :=
  match fuel with
  | O => nofuel
  | S fuel' =>
      c <- load8 (head + i) ;;
      if c =? 0 then ret tt
      else
        (if c =? 37 then
           d <- load8 (head + i + 1) ;;
           if d =? 115 then insert_str head m i else ret tt
         else ret tt) ;;
        printbasic_loop fuel' head m (i + 1)
  end.

Definition printbasic (format_str m : Z) : M mem unit := printbasic_loop str_fuel format_str m 0.

End format.

(** ** Printing *)

Record io (P : Type) := Build_io {
  io_sync : sync P;
  io_x : Z;
  io_y : Z;
  printk_lock_init_flag : bool
}.
Arguments Build_io {P} io_sync io_x io_y printk_lock_init_flag.
Arguments io_sync {P} s : rename.
Arguments io_x {P} s : rename.
Arguments io_y {P} s : rename.
Arguments printk_lock_init_flag {P} s : rename.

Section print.
Context {P : Type} {PA : PageAllocator P} {VL : VmmLayout} {TL : TssLayout} {HL : ThreadLayout}.
Context {SL : StringLayout} {KL : PrintkLayout}.
Context {V : Type} {VA : VaList V}.

Definition io_mem (s : io P) : mem := v_mem (k_vmm (y_kern (io_sync s))).
Definition set_io_mem (m : mem) (s : sync P) : sync P :=
  set_kern (set_vmm (set_mem m (k_vmm (y_kern s))) (y_kern s)) s.

(** The screen of the kernel. *)
Definition io_vga (s : io P) : vga := Build_vga (io_mem s) (io_x s) (io_y s).
Definition set_io_vga (v : vga) (s : io P) : io P :=
  Build_io (set_io_mem (g_mem v) (io_sync s)) (cursor_x v) (cursor_y v) (printk_lock_init_flag s).
Definition in_vga {A} (c : M vga A) : M (io P) A := zoom io_vga set_io_vga c.
Definition in_sync {A} (c : M (sync P) A) : M (io P) A :=
  zoom io_sync (fun y s => Build_io y (io_x s) (io_y s) (printk_lock_init_flag s)) c.

Definition printk_text (input_str : Z) (args : V) (back fore : Z) : M vga unit :=
  in_video (printk_format input_str args) ;; kputs_color staticArry back fore.

(** After the lock was obtained. *)
Definition printk_locked (input_str : Z) (args : V) (back fore : Z) : M (io P) unit :=
  in_vga (printk_text input_str args back fore) ;;
  flag <- gets printk_lock_init_flag ;;
  if (flag : bool) then in_sync (lock_release printk_lock) else ret tt.

Definition printk_color (fuel : nat) (node input_str back fore : Z) (args : V) : M (io P) flow :=
  flag <- gets printk_lock_init_flag ;;
  r <- (if (flag : bool) then in_sync (lock_acquire fuel printk_lock node) else ret Returned) ;;
  match r with
  | Returned => printk_locked input_str args back fore ;; ret Returned
  | Suspended fs => ret (Suspended fs)
  end.

(** [kputs] prints white on black. *)
Definition printk (fuel : nat) (node input_str : Z) (args : V) : M (io P) flow :=
  printk_color fuel node input_str black white args.

Definition printk_init_lock : M (io P) unit :=
  in_sync (lock_init printk_lock) ;;
  modify (fun s => Build_io (io_sync s) (io_x s) (io_y s) true).

End print.

(** ** Calls *)

(** The two functions with their parameters where the caller has pushed them,
    from the address [frame] of the first one on. *)
Section calls.
Context {P : Type} {PA : PageAllocator P} {VL : VmmLayout} {TL : TssLayout} {HL : ThreadLayout}.
Context {SL : StringLayout} {KL : PrintkLayout}.

Definition param (frame i : Z) : M (io P) Z := gets (fun s => ld32 (io_mem s) (frame + 4 * i)).

Definition printk_call (fuel : nat) (node frame : Z) : M (io P) flow :=
  input_str <- param frame 0 ;;
  printk fuel node input_str (va_start frame).

Definition printk_color_call (fuel : nat) (node frame : Z) : M (io P) flow :=
  input_str <- param frame 0 ;;
  back <- param frame 1 ;;
  fore <- param frame 2 ;;
  printk_color fuel node input_str back fore (va_start (frame + 8)).
End calls.
