(* ===== verification/PrintkThm.v ===== *)
(** * What [printk] prints

    [formats] says what a format and its arguments mean; [printk_loop_formats]
    that the loop of [printk] leaves that text in its array, when the longest
    intermediate text fits; the theorems compose this with the screen of
    [Vga]. *)

From S2P Require Import Prelude Memory CString StringThm KernLog Port Vga Tcb Pmm Vmm VmmThm Tss UserVm Threads ThreadsSys Sync Printk.

(** ** Formats *)

(** An argument, with the string a pointer stands for. *)
Inductive parg :=
  | AStr (a : Z) (s : list Z)
  | AInt (n : Z).

Definition word (x : parg) : Z := match x with AStr a _ => a | AInt n => n end.

Definition decimal (n : Z) (s : list Z) : Prop :=
  Forall is_digit s /\ dec_val s = u32 n /\ (1 <= length s <= 10)%nat /\ (u32 n <> 0 -> head s <> Some 48).
Definition hexadecimal (n : Z) (s : list Z) : Prop := length s = 8%nat /\ Forall is_hex s /\ hex_val s = u32 n.

Definition is_directive (l : list Z) : bool :=
  match l with c :: _ => (c =? 115) || (c =? 100) || (c =? 72) || (c =? 104) | [] => false end.

(** The directives of a format consume arguments of their types. *)
Inductive takes : list Z -> list parg -> Prop :=
  | tk_nil args : takes [] args
  | tk_char c l args : c <> 37 -> takes l args -> takes (c :: l) args
  | tk_str l a s args : takes l args -> takes (37 :: 115 :: l) (AStr a s :: args)
  | tk_dec l n args : takes l args -> takes (37 :: 100 :: l) (AInt n :: args)
  | tk_hex k l n args : k = 72 \/ k = 104 -> takes l args -> takes (37 :: k :: l) (AInt n :: args)
  | tk_other l args : is_directive l = false -> takes l args -> takes (37 :: l) args.

(** The text of a format. *)
Inductive formats : list Z -> list parg -> list Z -> Prop :=
  | fm_nil args : formats [] args []
  | fm_char c l args out : c <> 37 -> formats l args out -> formats (c :: l) args (c :: out)
  | fm_str l a s args out : formats l args out -> formats (37 :: 115 :: l) (AStr a s :: args) (s ++ out)
  | fm_dec l n s args out : decimal n s -> formats l args out -> formats (37 :: 100 :: l) (AInt n :: args) (s ++ out)
  | fm_hex l n s args out : hexadecimal n s -> formats l args out -> formats (37 :: 104 :: l) (AInt n :: args) (s ++ out)
  | fm_hex0x l n s args out : hexadecimal n s -> formats l args out ->
      formats (37 :: 72 :: l) (AInt n :: args) (([48; 120] ++ s) ++ out)
  | fm_other l args out : is_directive l = false -> formats l args out -> formats (37 :: l) args (37 :: out).

(** The most an argument can add. *)
Definition width (x : parg) : nat := match x with AStr _ s => length s | AInt _ => 10%nat end.
Definition widths (l : list parg) : nat := sum_list_with width l.

(** ** Memory *)

Lemma cstr_suffix m a l1 l2 : cstr m a (l1 ++ l2) -> cstr m (a + length l1) l2.
Proof.
  revert a. induction l1 as [|c l1 IH]; intros a H; [by rewrite Z.add_0_r|]. cbn [app] in H.
  apply cstr_cons in H as (_ & _ & H). apply IH in H. by replace (a + length (c :: l1)) with (a + 1 + length l1) by (cbn; lia).
Qed.

Lemma cstr_char m a l1 c l2 : cstr m a (l1 ++ c :: l2) -> ld8 m (a + length l1) = c /\ 0 < c < 256.
Proof. intros H%cstr_suffix. apply cstr_cons in H as (? & ? & _). done. Qed.

Lemma cstr_read m a s : cstr m a s -> read_bytes m a (length s) = s.
Proof.
  intros H. apply list_eq_same_length with (length s); [done|apply length_read_bytes|]. intros i x y Hi Hx Hy.
  apply list_lookup_total_correct in Hx, Hy. rewrite read_bytes_lookup in Hx by done. rewrite (cstr_bytes _ _ _ H) in Hx by done. congruence.
Qed.

Lemma write_read_frame a n b k m l : region a n -> length l <= n -> frame2 a n b k m (write_bytes m a l).
Proof. intros Ha Hl c H1 H2. by apply (frame_sub0 a n m l Hl). Qed.

(** [m'] is [m] outside of the blocks [l]. *)
Definition agree_outside (l : list (Z * Z)) (m m' : mem) : Prop :=
  forall c, 0 <= c < 4294967296 -> Forall (fun b => c < b.1 \/ b.1 + b.2 <= c) l -> ld8 m' c = ld8 m c.

Lemma agree_trans l m1 m2 m3 : agree_outside l m1 m2 -> agree_outside l m2 m3 -> agree_outside l m1 m3.
Proof. intros H1 H2 c Hc Hl. by rewrite H2, H1. Qed.

Lemma agree_frame l b n m m' : (b, n) ∈ l -> 0 <= b -> b + n <= 4294967296 -> Memory.frame b n m m' -> agree_outside l m m'.
Proof.
  intros Hin Hb Hn Hf c Hc Hl. rewrite Forall_forall in Hl. specialize (Hl _ Hin). cbn [fst snd] in Hl.
  apply Hf. intros i Hi. rewrite !u32_small by lia. lia.
Qed.

Lemma agree_bytes l m m' a (n : Z) :
  agree_outside l m m' -> 0 <= a -> a + n <= 4294967296 -> Forall (fun b => disjoint_blocks b.1 b.2 a n) l ->
  forall i, 0 <= i < n -> ld8 m' (a + i) = ld8 m (a + i).
Proof.
  intros H Ha Hn Hd i Hi. apply H; [lia|]. eapply Forall_impl; [exact Hd|].
  intros [b k] Hb. unfold disjoint_blocks in Hb. cbn [fst snd] in *. lia.
Qed.

Lemma cstr_same m m' a s :
  cstr m a s -> (forall i, 0 <= i < length s + 1 -> ld8 m' (a + i) = ld8 m (a + i)) -> cstr m' a s.
Proof.
  intros [Hr Hc Hb Hn] E. split; [done|done| |].
  - intros i Hi. rewrite E by lia. by apply Hb.
  - rewrite E by lia. done.
Qed.

Lemma cstr_agree l m m' a s :
  cstr m a s -> agree_outside l m m' -> Forall (fun b => disjoint_blocks b.1 b.2 a (length s + 1)) l -> cstr m' a s.
Proof.
  intros H Hu Ha. apply (cstr_same m); [done|]. destruct H as [Hr _ _ _]. unfold region in *.
  apply (agree_bytes l); [done|lia|lia|done].
Qed.

Lemma agree_weaken l l' m m' : (forall b, b ∈ l -> b ∈ l') -> agree_outside l m m' -> agree_outside l' m m'.
Proof. intros Hl H c Hc Hf. apply H; [done|]. rewrite Forall_forall in *. auto. Qed.

Section insert.
Context {SL : StringLayout} {KL : PrintkLayout}.

(** The arrays of [printk] and of the number printers. *)
Definition buffers : list (Z * Z) :=
  [(staticArry, 100); (insert_m, 100); (uint_m, 32); (static_hexstr, 11); (temp_arry, 9); (temp_arry2, 9)].
Definition away (a n : Z) : Prop := Forall (fun b => disjoint_blocks b.1 b.2 a n) buffers.

Record printk_layout_ok : Prop := {
  pl_string : layout_ok SL;
  pl_array : region staticArry 100;
  pl_m : region insert_m 100;
  pl_am : disjoint_blocks staticArry 100 insert_m 100;
  pl_others : Forall (fun b => disjoint_blocks staticArry 100 b.1 b.2 /\ disjoint_blocks insert_m 100 b.1 b.2)
    [(uint_m, 32); (static_hexstr, 11); (temp_arry, 9); (temp_arry2, 9)];
  pl_lit0x : away lit_hex0x 11;
  pl_lit0 : away lit_hex0 9
}.

(** Memory outside of the arrays. *)
Definition untouched (m m' : mem) : Prop := agree_outside buffers m m'.

(** What printing writes. *)
Definition console_writes : list (Z * Z) := (video_memory, 4000) :: buffers.

Lemma untouched_trans m1 m2 m3 : untouched m1 m2 -> untouched m2 m3 -> untouched m1 m3.
Proof. intros H1 H2 c Hc Hb. by rewrite H2, H1. Qed.

Lemma cstr_untouched m m' a s : cstr m a s -> untouched m m' -> away a (length s + 1) -> cstr m' a s.
Proof.
  intros [Hr Hc Hb Hn] Hu Ha. unfold region in *.
  assert (E : forall i, 0 <= i <= length s -> ld8 m' (a + i) = ld8 m (a + i)).
  { intros i Hi. apply Hu; [lia|]. eapply Forall_impl; [exact Ha|]. intros [b k] Hd. unfold disjoint_blocks in Hd. cbn [fst snd] in *. lia. }
  split; [done|done| |].
  - intros i Hi. rewrite E by lia. by apply Hb.
  - by rewrite E by lia.
Qed.

Lemma frame_in_buffers b n m m' :
  (b, n) ∈ buffers -> region b n -> Memory.frame b n m m' -> untouched m m'.
Proof.
  intros Hin Hr Hf c Hc Hb. apply Hf. intros i Hi. unfold region in Hr. rewrite Forall_forall in Hb. specialize (Hb _ Hin). cbn [fst snd] in Hb.
  rewrite !u32_small by lia. lia.
Qed.

(** A string in one array after a change of the other arrays. *)
Lemma insert_str_spec m pre d post a s :
  printk_layout_ok -> cstr m staticArry (pre ++ 37 :: d :: post) -> cstr m a s ->
  disjoint_blocks staticArry 100 a (length s + 1) -> disjoint_blocks insert_m 100 a (length s + 1) ->
  (length pre + length s + length post <= 99)%nat -> (length pre + 2 + length post <= 99)%nat ->
  exists m', insert_str staticArry a (length pre) m = Ret m' tt [] /\ cstr m' staticArry (pre ++ s ++ post) /\
    cstr m' a s /\ untouched m m'.
Proof.
  intros HL HB Hs D1 D2 L1 L2. destruct HL as [_ RB RM DBM _ _ _]. pose proof (cstr_region _ _ _ Hs) as Rs.
  unfold region, disjoint_blocks in *. assert (HF : (100 < str_fuel)%nat) by (unfold str_fuel; lia).
  unfold insert_str. run (memset_eq _ _ _ _) by idtac. change (Z.to_nat (u32 100)) with 100%nat. set (m1 := write_bytes m insert_m _).
  assert (F1 : Memory.frame insert_m 100 m m1) by (apply frame_sub0; rewrite length_replicate; lia).
  assert (Hpost : cstr m (staticArry + length pre + 2) post).
  { replace (staticArry + length pre + 2) with (staticArry + length (pre ++ [37; d])) by (rewrite length_app; cbn; lia).
    apply cstr_suffix. by rewrite <- app_assoc. }
  assert (P1 : cstr m1 (staticArry + length pre + 2) post) by (eapply cstr_frame; [exact Hpost|exact F1|..]; unfold region, disjoint_blocks; lia).
  run (strcpy_eq m1 insert_m (staticArry + length pre + 2) post P1) by (unfold region, disjoint_blocks; lia).
  set (m2 := write_bytes m1 insert_m _).
  assert (F2 : Memory.frame insert_m 100 m m2) by (eapply frame_trans; [exact F1|apply frame_sub0; rewrite length_app; cbn; lia]).
  assert (S2 : cstr m2 a s) by (eapply cstr_frame; [exact Hs|exact F2|..]; unfold region, disjoint_blocks; lia).
  assert (M2 : cstr m2 insert_m post) by (apply cstr_write; [unfold region; lia|apply Hpost]).
  run (strlen_eq m2 a s S2) by lia.
  run (memcpy_eq (staticArry + length pre) a (length s) m2) by (unfold region, disjoint_blocks; lia).
  rewrite Nat2Z.id, (cstr_read _ _ _ S2). set (m3 := write_bytes m2 (staticArry + length pre) s).
  assert (F3 : Memory.frame staticArry 100 m2 m3) by (apply frame_sub; lia).
  assert (S3 : cstr m3 a s) by (eapply cstr_frame; [exact S2|exact F3|..]; unfold region, disjoint_blocks; lia).
  run (strlen_eq m3 a s S3) by lia. rewrite bind_store8.
  change (st8 m3 (staticArry + length pre + length s) 0) with (write_bytes m3 (staticArry + length pre + length s) [0]).
  unfold m3. rewrite <- write_bytes_app. set (m4 := write_bytes m2 (staticArry + length pre) (s ++ [0])).
  assert (F4 : Memory.frame staticArry 100 m2 m4) by (apply frame_sub; rewrite ?length_app; cbn; lia).
  assert (M4 : cstr m4 insert_m post) by (eapply cstr_frame; [exact M2|exact F4|..]; unfold region, disjoint_blocks; lia).
  assert (B4 : cstr m4 staticArry (pre ++ s)).
  { apply cstr_app_intro; [lia| | |].
    - pose proof (cstr_chars _ _ _ HB) as Hc. by apply Forall_app in Hc as [? _].
    - intros i Hi. unfold m4. rewrite ld8_write_bytes_out by (unfold region; rewrite ?length_app; cbn; lia).
      rewrite (F2 (staticArry + i)) by (intros j Hj; word_tac). rewrite (cstr_bytes _ _ _ HB) by (rewrite length_app; cbn; lia).
      by rewrite lookup_total_app_l.
    - apply cstr_write; [unfold region; lia|apply Hs]. }
  assert (Lps : Z.of_nat (length (pre ++ s)) = length pre + length s) by (rewrite length_app; lia).
  run (strcat_eq m4 staticArry insert_m (pre ++ s) post B4 M4) by (unfold region, disjoint_blocks; rewrite ?Lps; lia).
  set (m5 := write_bytes m4 _ _). assert (F5 : Memory.frame staticArry 100 m4 m5) by (apply frame_sub; rewrite ?length_app; cbn; lia).
  exists m5. split; [reflexivity|]. split; [|split].
  - rewrite app_assoc. apply cstr_append; [exact B4|unfold region; rewrite Lps; lia|apply Hpost].
  - assert (F35 : Memory.frame staticArry 100 m2 m5) by (eapply frame_trans; [exact F4|exact F5]).
    eapply cstr_frame; [exact S2|exact F35|..]; unfold region, disjoint_blocks; lia.
  - eapply untouched_trans; [eapply (frame_in_buffers insert_m 100); [right; left|unfold region; lia|exact F2]; done|].
    eapply (frame_in_buffers staticArry 100); [by left|unfold region; lia|]. eapply frame_trans; [exact F4|exact F5].
Qed.

Lemma insert_arg_spec m pre d post a s :
  printk_layout_ok -> cstr m staticArry (pre ++ 37 :: d :: post) -> cstr m a s ->
  disjoint_blocks staticArry 100 a (length s + 1) -> disjoint_blocks insert_m 100 a (length s + 1) ->
  (length pre + length s + length post <= 99)%nat -> (length pre + 2 + length post <= 99)%nat ->
  exists m', insert_arg staticArry (length pre) a m = Ret m' (length (pre ++ s) - 1) [] /\
    cstr m' staticArry ((pre ++ s) ++ post) /\ untouched m m'.
Proof.
  intros HL HB Hs D1 D2 L1 L2. destruct (insert_str_spec m pre d post a s HL HB Hs D1 D2 L1 L2) as (m' & E & B' & S' & U).
  exists m'. unfold insert_arg. run E by idtac. run (strlen_eq m' a s S') by (unfold str_fuel; lia).
  rewrite <- app_assoc, length_app. split; [|done]. unfold ret. do 2 f_equal. lia.
Qed.

(** The strings among the arguments are stored away from the arrays. *)
Definition arg_ok (m : mem) (x : parg) : Prop :=
  match x with AStr a s => cstr m a s /\ away a (length s + 1) | AInt _ => True end.

Lemma args_untouched m m' args : Forall (arg_ok m) args -> untouched m m' -> Forall (arg_ok m') args.
Proof.
  intros H Hu. eapply Forall_impl; [exact H|]. intros [a s|n]; [|done]. intros [Hs Ha]. split; [|done]. by eapply cstr_untouched.
Qed.

Lemma literals_untouched m m' : printk_layout_ok -> literals_ok SL m -> untouched m m' -> literals_ok SL m'.
Proof.
  intros HL [L1 L2] Hu. split; [eapply cstr_untouched; [exact L1|exact Hu|apply HL]|eapply cstr_untouched; [exact L2|exact Hu|apply HL]].
Qed.

Lemma widths_cons x l : widths (x :: l) = (width x + widths l)%nat.
Proof. done. Qed.

(** A number converted: the text is in a buffer of its own. *)
Record converted (m m1 : mem) (l : list Z) (t : Z) (s : list Z) : Prop := {
  cv_array : cstr m1 staticArry l;
  cv_text : cstr m1 t s;
  cv_array_apart : disjoint_blocks staticArry 100 t (length s + 1);
  cv_m_apart : disjoint_blocks insert_m 100 t (length s + 1);
  cv_untouched : untouched m m1
}.

Lemma uintTostring_converted m n l :
  printk_layout_ok -> cstr m staticArry l -> (length l <= 99)%nat ->
  exists m1 s, uintTostring n m = Ret m1 uint_m [] /\ decimal n s /\ converted m m1 l uint_m s.
Proof.
  intros HL HB Hl. pose proof HL as [[R1 _ _ _ _ _ _] RB RM _ Ho _ _]. apply Forall_cons in Ho as [[D1 D2] _]. cbn [fst snd] in *.
  destruct (uintTostring_correct m n R1) as (m1 & s & E & C & Hd & Hv & Hlen & Hz & F). exists m1, s. split; [done|]. split; [done|].
  unfold region, disjoint_blocks in *. split; [|done|unfold disjoint_blocks; lia|unfold disjoint_blocks; lia|].
  - eapply cstr_frame; [exact HB|exact F|done|unfold disjoint_blocks; lia].
  - eapply (frame_in_buffers uint_m 32); [right; right; by left|done|exact F].
Qed.

Lemma hex_untouched m m' : printk_layout_ok -> hex_frame m m' -> untouched m m'.
Proof.
  intros [[_ R1 R2 R3 _ _ _] _ _ _ _ _ _] Hf c Hc Hb. unfold region in *.
  do 3 (apply Forall_cons in Hb as [_ Hb]). apply Forall_cons in Hb as [B1 Hb]. apply Forall_cons in Hb as [B2 Hb].
  apply Forall_cons in Hb as [B3 _]. cbn [fst snd] in *. apply Hf; intros i Hi; rewrite !u32_small by lia; lia.
Qed.

Lemma cstr_hex_frame m m' a l :
  printk_layout_ok -> hex_frame m m' -> cstr m a l ->
  (forall b, b ∈ [(static_hexstr, 11); (temp_arry, 9); (temp_arry2, 9)] -> disjoint_blocks a (length l + 1) b.1 b.2) -> cstr m' a l.
Proof.
  intros [[_ R1 R2 R3 _ _ _] _ _ _ _ _ _] Hf [Hr Hc Hb Hn] Hd. unfold region, disjoint_blocks in *.
  pose proof (Hd (static_hexstr, 11) ltac:(by left)). pose proof (Hd (temp_arry, 9) ltac:(right; by left)).
  pose proof (Hd (temp_arry2, 9) ltac:(right; right; by left)). cbn [fst snd] in *.
  assert (E : forall i, 0 <= i <= length l -> ld8 m' (a + i) = ld8 m (a + i)).
  { intros i Hi. apply Hf; intros j Hj; rewrite !u32_small by lia; lia. }
  split; [done|done| |].
  - intros i Hi. rewrite E by lia. by apply Hb.
  - by rewrite E by lia.
Qed.

Lemma num2hexstr_converted m n need0x l :
  printk_layout_ok -> literals_ok SL m -> cstr m staticArry l -> (length l <= 99)%nat ->
  exists m1 t s, num2hexstr n need0x m = Ret m1 t [] /\ hexadecimal n s /\ converted m m1 l t (prefix_0x need0x ++ s).
Proof.
  intros HL HM HB Hl. pose proof HL as [LS RB RM _ Ho P1 P2].
  destruct (num2hexstr_spec m n need0x LS HM) as (m1 & t & s & E & C & Ls & Hx & Hv & Hp & Hf).
  exists m1, t, s. split; [done|]. split; [done|].
  assert (Lp : (length (prefix_0x need0x ++ s) <= 10)%nat) by (rewrite length_app; unfold prefix_0x; case_match; cbn; lia).
  assert (Lp0 : need0x = 0 -> (length (prefix_0x need0x ++ s) <= 8)%nat) by (intros ->; cbn; lia).
  apply Forall_cons in Ho as [_ Ho]. apply Forall_cons in Ho as [[A1 A2] Ho]. apply Forall_cons in Ho as [[A3 _] Ho].
  apply Forall_cons in Ho as [[A5 _] _]. apply Forall_cons in P1 as [P1 Q1]. apply Forall_cons in Q1 as [Q1 _].
  apply Forall_cons in P2 as [P2 Q2]. apply Forall_cons in Q2 as [Q2 _]. unfold disjoint_blocks in *. cbn [fst snd] in *.
  assert (Hap : disjoint_blocks staticArry 100 t (length (prefix_0x need0x ++ s) + 1) /\
    disjoint_blocks insert_m 100 t (length (prefix_0x need0x ++ s) + 1)).
  { unfold disjoint_blocks. destruct Hp as [->|[[_ ->]|[Hn ->]]]; [lia|lia|]. specialize (Lp0 Hn). lia. }
  destruct Hap as [D1 D2]. split; [|done|done|done|by apply hex_untouched].
  eapply cstr_hex_frame; [done|exact Hf|exact HB|]. unfold disjoint_blocks.
  intros b [->|[->|[->|[]%elem_of_nil]%elem_of_cons]%elem_of_cons]%elem_of_cons; cbn [fst snd]; lia.
Qed.

(** ** Variable arguments *)

(** What the arguments left are.  The caller's words are not among what printing
    writes, so the pointer keeps supplying them. *)
Class VaListSpec (V : Type) {VA : VaList V} := {
  supplies : mem -> V -> list Z -> Prop;
  supplies_next m v x l : supplies m v (x :: l) -> exists v', va_arg v m = Ret m (x, v') [] /\ supplies m v' l;
  supplies_untouched m m' v l : supplies m v l -> untouched m m' -> supplies m' v l
}.

#[export] Program Instance words_spec : VaListSpec (list Z) := {| supplies _ v l := v = l |}.
Next Obligation. intros m ? x l ->. by exists l. Qed.
Next Obligation. done. Qed.

(** The words are on the stack, away from the arrays. *)
Definition pushed (m : mem) (ptr : va_list) (l : list Z) : Prop :=
  let 'VaPtr ap := ptr in l = [] \/ 0 <= ap /\ ap + 4 * length l <= 4294967296 /\ words_at m ap l /\ away ap (4 * length l).

Lemma away_sub a n b k : a <= b -> b + k <= a + n -> away a n -> away b k.
Proof. intros H0 H1 H. eapply Forall_impl; [exact H|]. intros [c j] Hd. unfold disjoint_blocks in *. cbn [fst snd] in *. lia. Qed.

Lemma words_at_tail m a x l : words_at m a (x :: l) -> words_at m (a + 4) l.
Proof. intros H i y Hy. rewrite <- (H (S i) y Hy). f_equal. lia. Qed.

Lemma words_untouched m m' a l :
  0 <= a -> a + 4 * length l <= 4294967296 -> away a (4 * length l) -> untouched m m' -> words_at m a l -> words_at m' a l.
Proof.
  intros H0 H1 Ha Hu H i x Hx. rewrite <- (H i x Hx). pose proof (lookup_lt_Some _ _ _ Hx). apply ld32_ext. intros b Hb.
  apply Hu; [lia|]. eapply Forall_impl; [exact Ha|]. intros [c j] Hd. unfold disjoint_blocks in Hd. cbn [fst snd] in *. lia.
Qed.

#[export] Program Instance va_list_spec : VaListSpec va_list := {| supplies := pushed |}.
Next Obligation.
  intros m [ap] x l [[=]|(H0 & H1 & Hw & Ha)]. cbn [length] in *. exists (VaPtr (u32 (ap + 4))). split.
  - unfold va_arg, va_list_VaList, va_list_arg. rewrite bind_load32. rewrite <- (Hw 0%nat x eq_refl), Z.add_0_r. done.
  - destruct l as [|y l]; [by left|]. right. cbn [length] in *. rewrite u32_small by lia. split_and!; [lia|lia| |].
    + by eapply words_at_tail.
    + eapply away_sub; [..|exact Ha]; lia.
Qed.
Next Obligation.
  intros m m' [ap] l [->|(H0 & H1 & Hw & Ha)] Hu; [by left|]. right. split_and!; [done|done| |done]. by eapply words_untouched.
Qed.

(** The arguments behind the last parameter with a name. *)
Lemma pushed_start m last x l :
  0 <= last -> last + 4 * (1 + length l) <= 4294967296 -> words_at m last (x :: l) -> away last (4 * (1 + length l)) -> pushed m (va_start last) l.
Proof.
  intros H0 H1 Hw Ha. unfold pushed, va_start. destruct l as [|y l]; [by left|]. right. cbn [length] in *. rewrite u32_small by lia.
  split_and!; [lia|lia| |].
  - by eapply words_at_tail.
  - eapply away_sub; [..|exact Ha]; lia.
Qed.

(** ** The loop *)

Section loop.
Context {V : Type} {VA : VaList V} {VS : VaListSpec V}.

Definition loop_prints (l : list Z) (args : list parg) : Prop := forall fuel pre m v,
  cstr m staticArry (pre ++ l) -> literals_ok SL m -> Forall (arg_ok m) args -> supplies m v (map word args) -> (length l < fuel)%nat ->
  (length pre + length l + widths args <= 99)%nat ->
  exists m' out, printk_loop fuel staticArry v (length pre) m = Ret m' tt [] /\
    formats l args out /\ cstr m' staticArry (pre ++ out) /\ untouched m m'.

(** The text [s] found at [t] is inserted and the loop goes on. *)
Lemma insert_prints l args fuel pre m0 m v d t s :
  printk_layout_ok -> loop_prints l args -> converted m0 m (pre ++ 37 :: d :: l) t s -> literals_ok SL m0 ->
  Forall (arg_ok m0) args -> supplies m0 v (map word args) -> (length l < fuel)%nat ->
  (length pre + length s + length l + widths args <= 99)%nat -> (length pre + 2 + length l <= 99)%nat ->
  exists m' out, (o <- insert_arg staticArry (length pre) t ;; printk_loop fuel staticArry v (o + 1)) m = Ret m' tt [] /\
    formats l args out /\ cstr m' staticArry (pre ++ s ++ out) /\ untouched m0 m'.
Proof.
  intros HL IH [C1 C2 C3 C4 C5] HM HA HV Hf H1 H2.
  destruct (insert_arg_spec m pre d l t s HL C1 C2 C3 C4) as (m1 & E1 & B1 & U1); [lia|lia|].
  assert (U : untouched m0 m1) by (by eapply untouched_trans).
  destruct (IH fuel (pre ++ s) m1 v B1) as (m2 & out & E2 & F2 & B2 & U2);
    [by eapply literals_untouched|by eapply args_untouched|by eapply supplies_untouched|done|rewrite length_app; lia|].
  exists m2, out. rewrite (bind_ret_eq _ _ _ _ _ _ E1). rewrite Z.sub_add, E2. split; [done|]. split; [done|].
  split; [by rewrite app_assoc|]. by eapply untouched_trans.
Qed.

(** One character is passed over. *)
Lemma skip_prints l args fuel pre m v c :
  loop_prints l args -> cstr m staticArry (pre ++ c :: l) -> literals_ok SL m -> Forall (arg_ok m) args -> supplies m v (map word args) ->
  (length l < fuel)%nat -> (length pre + S (length l) + widths args <= 99)%nat ->
  exists m' out, printk_loop fuel staticArry v (length pre + 1) m = Ret m' tt [] /\
    formats l args out /\ cstr m' staticArry (pre ++ c :: out) /\ untouched m m'.
Proof.
  intros IH HB HM HA HV Hf Hw.
  destruct (IH fuel (pre ++ [c]) m v) as (m' & out & E & F & B & U); [by rewrite <- app_assoc|done|done|done|done|rewrite length_app; cbn; lia|].
  exists m', out. rewrite length_app, Nat2Z.inj_add in E. split; [exact E|]. split; [done|]. rewrite <- app_assoc in B. done.
Qed.

Lemma printk_loop_formats l args : takes l args -> printk_layout_ok -> loop_prints l args.
Proof.
  intros Ht HL. induction Ht as [args|c l args Hc Ht IH|l a s args Ht IH|l n args Ht IH|k l n args Hk Ht IH|l args Hd Ht IH];
    intros fuel pre m v HB HM HA HV Hf Hw; (destruct fuel as [|fuel]; [cbn [length] in Hf; lia|]); cbn [printk_loop]; rewrite bind_load8;
    rewrite ?widths_cons in Hw; cbn [length width map word] in *.
  - rewrite app_nil_r in HB. rewrite (cstr_nul _ _ _ HB). cbn [Z.eqb]. exists m, []. split; [done|]. split; [constructor|].
    by rewrite app_nil_r.
  - destruct (cstr_char _ _ _ _ _ HB) as [Ec Hr]. rewrite Ec, !(proj2 (Z.eqb_neq _ _)) by lia.
    destruct (skip_prints l args fuel pre m v c IH HB HM HA HV) as (m' & out & E & F & B & U); [lia|lia|].
    exists m', (c :: out). by split; [|split; [constructor|]].
  - destruct (cstr_char _ _ _ _ _ HB) as [-> _]. cbn [Z.eqb Pos.eqb]. rewrite bind_load8.
    assert (HB' : cstr m staticArry ((pre ++ [37]) ++ 115 :: l)) by (by rewrite <- app_assoc).
    destruct (cstr_char _ _ _ _ _ HB') as [Ed _]. rewrite length_app, Nat2Z.inj_add, Z.add_assoc in Ed. change (Z.of_nat (length [37])) with 1 in Ed. rewrite Ed.
    cbn [Z.eqb Pos.eqb]. apply Forall_cons in HA as [[Hs Ha] HA]. destruct (supplies_next _ _ _ _ HV) as (v' & EV & HV').
    rewrite (bind_ret_eq _ _ _ _ _ _ EV), prepend_nil. cbn [fst snd]. pose proof Ha as Ha'.
    apply Forall_cons in Ha' as [A1 Ha']. apply Forall_cons in Ha' as [A2 _].
    destruct (insert_prints l args fuel pre m m v' 115 a s HL IH) as (m' & out & E & F & B & U); [by split|done|done|done|lia|lia|lia|].
    exists m', (s ++ out). by split; [|split; [constructor|]].
  - destruct (cstr_char _ _ _ _ _ HB) as [-> _]. cbn [Z.eqb Pos.eqb]. rewrite bind_load8.
    assert (HB' : cstr m staticArry ((pre ++ [37]) ++ 100 :: l)) by (by rewrite <- app_assoc).
    destruct (cstr_char _ _ _ _ _ HB') as [Ed _]. rewrite length_app, Nat2Z.inj_add, Z.add_assoc in Ed. change (Z.of_nat (length [37])) with 1 in Ed. rewrite Ed.
    cbn [Z.eqb Pos.eqb]. apply Forall_cons in HA as [_ HA]. destruct (supplies_next _ _ _ _ HV) as (v' & EV & HV').
    rewrite (bind_ret_eq _ _ _ _ _ _ EV), prepend_nil. cbn [fst snd].
    destruct (uintTostring_converted m n _ HL HB) as (m1 & s & E1 & Hdec & C1); [rewrite length_app; cbn; lia|].
    rewrite (bind_ret_eq _ _ _ _ _ _ E1), prepend_nil. pose proof Hdec as (_ & _ & Hlen & _).
    destruct (insert_prints l args fuel pre m m1 v' 100 _ s HL IH C1) as (m' & out & E & F & B & U); [done|done|done|lia|lia|lia|].
    exists m', (s ++ out). by split; [|split; [constructor|]].
  - destruct (cstr_char _ _ _ _ _ HB) as [-> _]. cbn [Z.eqb Pos.eqb]. rewrite bind_load8.
    assert (HB' : cstr m staticArry ((pre ++ [37]) ++ k :: l)) by (by rewrite <- app_assoc).
    destruct (cstr_char _ _ _ _ _ HB') as [Ed _]. rewrite length_app, Nat2Z.inj_add, Z.add_assoc in Ed. change (Z.of_nat (length [37])) with 1 in Ed. rewrite Ed.
    apply Forall_cons in HA as [_ HA]. destruct (supplies_next _ _ _ _ HV) as (v' & EV & HV').
    destruct (num2hexstr_converted m n (if k =? 72 then 1 else 0) _ HL HM HB) as (m1 & t & s & E1 & Hhex & C1); [rewrite length_app; cbn; lia|].
    pose proof Hhex as (Hlen & _). assert (Lp : (length (prefix_0x (if (k =? 72)%Z then 1%Z else 0%Z) ++ s) <= 10)%nat)
      by (rewrite length_app; unfold prefix_0x; case_match; cbn; lia).
    destruct (insert_prints l args fuel pre m m1 v' k _ _ HL IH C1) as (m' & out & E & F & B & U); [done|done|done|lia|lia|lia|].
    exists m', ((prefix_0x (if k =? 72 then 1 else 0) ++ s) ++ out).
    split; [|split; [|by split; [rewrite <- app_assoc in B; rewrite <- app_assoc|]]].
    + destruct Hk as [-> | ->]; cbn [Z.eqb Pos.eqb orb] in *; rewrite (bind_ret_eq _ _ _ _ _ _ EV), prepend_nil; cbn [fst snd]; by rewrite (bind_ret_eq _ _ _ _ _ _ E1), prepend_nil.
    + destruct Hk as [-> | ->]; by constructor.
  - destruct (cstr_char _ _ _ _ _ HB) as [-> _]. cbn [Z.eqb Pos.eqb]. rewrite bind_load8.
    destruct (skip_prints l args fuel pre m v 37 IH HB HM HA HV) as (m' & out & E & F & B & U); [lia|lia|].
    exists m', (37 :: out). split; [|by split; [constructor|]].
    assert (Ed : is_directive [ld8 m (staticArry + length pre + 1)] = false).
    { assert (HB' : cstr m staticArry ((pre ++ [37]) ++ l)) by (by rewrite <- app_assoc). apply cstr_suffix in HB'.
      rewrite length_app, Nat2Z.inj_add, Z.add_assoc in HB'. change (Z.of_nat (length [37])) with 1 in HB'. destruct l as [|d l].
      - pose proof (cstr_nul _ _ _ HB') as Hn. rewrite Z.add_0_r in Hn. by rewrite Hn.
      - apply cstr_cons in HB' as [-> _]. exact Hd. }
    cbn [is_directive] in Ed. apply orb_false_iff in Ed as [Ed E4]. apply orb_false_iff in Ed as [Ed E3].
    apply orb_false_iff in Ed as [E1 E2]. rewrite E1, E2, E3, E4. cbn [orb]. destruct (_ =? 99); exact E.
Qed.
End loop.
End insert.

(** ** The text on the screen *)

Section text.
Context {SL : StringLayout} {KL : PrintkLayout}.
Context {V : Type} {VA : VaList V} {VS : VaListSpec V}.

(** What a call needs: the format and the strings among the arguments are
    stored away from the arrays, and every intermediate text fits. *)
Record call_ok (m : mem) (input_str : Z) (fmt : list Z) (args : list parg) : Prop := {
  ca_layout : printk_layout_ok;
  ca_literals : literals_ok SL m;
  ca_format : cstr m input_str fmt;
  ca_away : away input_str (length fmt + 1);
  ca_takes : takes fmt args;
  ca_args : Forall (arg_ok m) args;
  ca_fits : (length fmt + widths args <= 99)%nat
}.

Lemma printk_format_eq m input_str fmt args v :
  call_ok m input_str fmt args -> supplies m v (map word args) ->
  exists m' out, printk_format input_str v m = Ret m' tt [] /\ formats fmt args out /\
    cstr m' staticArry out /\ untouched m m'.
Proof.
  intros [HL HM Hf Ha Ht HA Hw] HV. pose proof HL as [_ RB _ _ _ _ _]. pose proof (cstr_region _ _ _ Hf) as Rf.
  pose proof Ha as Ha1. apply Forall_cons in Ha1 as [A1 _]. unfold region, disjoint_blocks in *. cbn [fst snd] in *.
  assert (HF : (100 < str_fuel)%nat) by (unfold str_fuel; lia).
  unfold printk_format. run (memset_eq _ _ _ _) by idtac. change (Z.to_nat (u32 100)) with 100%nat. set (m1 := write_bytes m staticArry _).
  assert (F1 : Memory.frame staticArry 100 m m1) by (apply frame_sub0; rewrite length_replicate; lia).
  assert (U1 : untouched m m1) by (eapply (frame_in_buffers staticArry 100); [by left|done|done]).
  assert (C1 : cstr m1 input_str fmt) by (by eapply cstr_untouched).
  run (strcpy_eq m1 staticArry input_str fmt C1) by (unfold region, disjoint_blocks; lia). set (m2 := write_bytes m1 staticArry _).
  assert (U2 : untouched m m2).
  { eapply untouched_trans; [exact U1|]. eapply (frame_in_buffers staticArry 100); [by left|done|].
    apply frame_sub0; rewrite length_app; cbn; lia. }
  destruct (printk_loop_formats fmt args Ht HL str_fuel [] m2 v) as (m3 & out & E & F & B & U3);
    [cbn [app]; apply cstr_write; [unfold region; lia|apply Hf]|by eapply literals_untouched|by eapply args_untouched|by eapply supplies_untouched|lia|cbn; lia|].
  exists m3, out. split; [exact E|]. split; [done|]. split; [done|]. by eapply untouched_trans.
Qed.

Lemma formats_length fmt args out : formats fmt args out -> (length out <= length fmt + widths args)%nat.
Proof.
  induction 1 as [| |? ? ? ? ? ? IH|? ? ? ? ? (_ & _ & Hl & _) ? IH|? ? ? ? ? (Hl & _) ? IH|? ? ? ? ? (Hl & _) ? IH|];
    rewrite ?widths_cons; cbn [length width]; rewrite ?length_app; cbn [length]; lia.
Qed.

(** Printing on the screen: the terminal has written the text. *)
Lemma printk_text_prints s t input_str fmt args v back fore :
  call_ok (g_mem s) input_str fmt args -> supplies (g_mem s) v (map word args) -> away video_memory 4000 -> shows s t ->
  exists s' tr out, printk_text input_str v back fore s = Ret s' tt tr /\ formats fmt args out /\
    shows s' (term_text back fore out t) /\ agree_outside console_writes (g_mem s) (g_mem s').
Proof.
  intros Hc HV Hv Hs. destruct (printk_format_eq _ _ _ _ _ Hc HV) as (m1 & out & E & F & B & U).
  pose proof (ca_layout _ _ _ _ Hc) as [_ RB _ _ _ _ _]. pose proof (formats_length _ _ _ F) as Hl.
  pose proof (ca_fits _ _ _ _ Hc) as Hw. set (s1 := set_gmem m1 s).
  assert (Hs1 : shows s1 t).
  { destruct Hs as [C X Y Q]. split; [|done..]. intros i Hi. rewrite <- C by done. unfold vcell, ld16. cbn [g_mem s1 set_gmem].
    rewrite !U; [done|unfold video_memory; lia| |unfold video_memory; lia|]; (eapply Forall_impl; [exact Hv|]);
      intros [b k] Hd; unfold disjoint_blocks in Hd; cbn [fst snd] in *; unfold video_memory in *; lia. }
  apply Forall_cons in Hv as [V1 _]. unfold disjoint_blocks, region in *. cbn [fst snd] in V1.
  destruct (kputs_loop_shows kputs_fuel s1 t staticArry back fore out Hs1 B) as (s2 & tr & E2 & S2 & K2);
    [lia|unfold kputs_fuel; lia|].
  exists s2, tr, out. unfold printk_text. rewrite (bind_ret_eq _ _ _ s1 tt []) by (unfold in_video, zoom; by rewrite E).
  rewrite prepend_nil. split; [exact E2|]. split; [done|]. split; [done|].
  intros c Hc2 Hb. apply Forall_cons in Hb as [Hb0 Hb]. rewrite K2 by done. by apply U.
Qed.

(** C37: [printk] copies the format before it looks at anything, so a format of 100
    characters or more overwrites memory behind its array of 100 bytes: each byte
    from 100 on is the character of the format there, and the byte behind the last
    character, at 100 or later, is its terminator. *)
Theorem printk_overflow m input_str fmt args :
  cstr m input_str fmt -> 100 <= length fmt < 65536 -> region staticArry (length fmt + 1) ->
  disjoint_blocks staticArry (length fmt + 1) input_str (length fmt + 1) ->
  exists m1, printk_format input_str args m = printk_loop str_fuel staticArry args 0 m1 /\
    forall i : nat, (100 <= i <= length fmt)%nat -> ld8 m1 (staticArry + i) = (fmt ++ [0]) !!! i.
Proof.
  intros Hf Hl Hr Hd. unfold region, disjoint_blocks in *. unfold printk_format. run (memset_eq _ _ _ _) by idtac.
  change (Z.to_nat (u32 100)) with 100%nat. set (m1 := write_bytes m staticArry _).
  assert (C1 : cstr m1 input_str fmt).
  { assert (F1 : Memory.frame staticArry 100 m m1) by (apply frame_sub0; rewrite length_replicate; lia).
    eapply cstr_frame; [exact Hf|exact F1|unfold region; lia|unfold disjoint_blocks; lia]. }
  run (strcpy_eq m1 staticArry input_str fmt C1) by (unfold region, disjoint_blocks, str_fuel; lia).
  eexists. split; [reflexivity|]. intros i Hi. rewrite ld8_write_bytes_in by (unfold region; rewrite ?length_app; cbn; lia).
  rewrite Nat2Z.id. apply u8_small.
  assert (Hc : Forall (fun c => 0 <= c < 256) (fmt ++ [0])).
  { apply Forall_app. split; [|by repeat constructor]. eapply Forall_impl; [exact (cstr_chars _ _ _ Hf)|]. intros c Hc. cbn beta in *. lia. }
  rewrite Forall_lookup in Hc. apply (Hc i). apply list_lookup_lookup_total_lt. rewrite length_app. cbn. lia.
Qed.

End text.

(** ** A concrete call *)

Definition ex_arrays : PrintkLayout := Build_PrintkLayout 7000 7200 500.
Definition ex_fmt : list Z := [110; 61; 37; 100].
Definition ex_pk_mem : mem := write_bytes (st32 (st32 small_literals 9200 9000) 9204 42) 9000 (ex_fmt ++ [0]).

Lemma ex_arrays_ok : @printk_layout_ok small_layout ex_arrays.
Proof.
  split; [apply small_layout_ok|unfold region; cbn; lia|unfold region; cbn; lia|unfold disjoint_blocks; cbn; lia| | |];
    repeat (apply Forall_cons; split; [unfold disjoint_blocks; cbn; lia|]); apply Forall_nil_2.
Qed.

Lemma ex_call : @call_ok small_layout ex_arrays ex_pk_mem 9000 ex_fmt [AInt 42].
Proof.
  split.
  - apply ex_arrays_ok.
  - split; concrete_cstr.
  - apply cstr_write; [unfold region; cbn; lia|]. repeat constructor; lia.
  - repeat (apply Forall_cons; split; [unfold disjoint_blocks; cbn; lia|]); apply Forall_nil_2.
  - apply tk_char; [lia|]. apply tk_char; [lia|]. apply tk_dec. constructor.
  - by repeat constructor.
  - cbn. lia.
Qed.

Lemma ex_away : @away small_layout ex_arrays video_memory 4000.
Proof. repeat (apply Forall_cons; split; [unfold disjoint_blocks, video_memory; cbn; lia|]); apply Forall_nil_2. Qed.

(** The parameters on the stack. *)
Lemma ex_pushed : ld32 ex_pk_mem 9200 = 9000 /\ words_at ex_pk_mem 9204 [42].
Proof. split; [by vm_compute|]. intros [|[|i]] x [= <-]. by vm_compute. Qed.
Lemma ex_pushed_away : @away small_layout ex_arrays 9200 8.
Proof. repeat (apply Forall_cons; split; [unfold disjoint_blocks; cbn; lia|]); apply Forall_nil_2. Qed.

(** A format of 120 characters at 9000. *)
Definition ex_long : list Z := replicate 120 97.
Lemma printk_overflow_witness :
  exists m1, @printk_format small_layout ex_arrays (list Z) words_arg 9000 [] (write_bytes ∅ 9000 (ex_long ++ [0])) =
      @printk_loop small_layout ex_arrays (list Z) words_arg str_fuel 7000 [] 0 m1 /\
    forall i : nat, (100 <= i <= 120)%nat -> ld8 m1 (7000 + i) = (ex_long ++ [0]) !!! i.
Proof.
  apply (@printk_overflow small_layout ex_arrays (list Z) words_arg (write_bytes ∅ 9000 (ex_long ++ [0])) 9000 ex_long []);
    [|cbn; lia|unfold region; cbn; lia|unfold disjoint_blocks; cbn; lia].
  apply cstr_write; [unfold region; cbn; lia|]. apply Forall_replicate. lia.
Defined.
