(* ===== verification/PrintkSys.v ===== *)
(** * [printk] with its lock

    The composition of formatting, screen and lock in a reachable state of the
    system of threads and locks: what a call prints, and what it leaves of the
    lock. *)

From S2P Require Import Prelude Memory CString StringThm KernLog Port Vga Tcb Pmm Vmm VmmThm Tss UserVm Threads Ring ThreadsThm ThreadsInv ThreadsSys ThreadsView.
From S2P Require Import Interrupt InterruptThm Sync SyncThm SemInv SyncCore SyncSys SyncProp Printk PrintkThm.

Section printk.
Context {P : Type} {PA : PageAllocator P} {VL : VmmLayout} {TL : TssLayout} {HL : ThreadLayout}.
Context {SL : StringLayout} {KL : PrintkLayout}.
Context (locks : gset Z).
Implicit Types (S : sys P) (s : io P).

Lemma in_sync_ret {A} (c : M (sync P) A) s y (a : A) t :
  c (io_sync s) = Ret y a t -> in_sync c s = Ret (Build_io y (io_x s) (io_y s) (printk_lock_init_flag s)) a t.
Proof. intros E. unfold in_sync, zoom. by rewrite E. Qed.

Lemma in_vga_ret {A} (c : M vga A) s v (a : A) t : c (io_vga s) = Ret v a t -> in_vga c s = Ret (set_io_vga v s) a t.
Proof. intros E. unfold in_vga, zoom. by rewrite E. Qed.

Lemma io_vga_set v s : io_vga (set_io_vga v s) = v.
Proof. by destruct v. Qed.

(** Releasing a lock does not change memory. *)
Lemma preserves_in_kern {A} (c : M (kern P) A) : preserves k_vmm c -> preserves (fun y => k_vmm (y_kern y)) (in_kern c).
Proof.
  intros H y y' a t. unfold in_kern, zoom. destruct (c (y_kern y)) eqn:E; try done. intros [= <- _ _]. by apply H in E.
Qed.
Lemma preserves_reader {A} (c : M (sync P) A) : (forall y y' a t, c y = Ret y' a t -> y' = y) -> preserves (fun y => k_vmm (y_kern y)) c.
Proof. intros H s s' a t E. by rewrite (H _ _ _ _ E). Qed.

Lemma preserves_upd_tcb a g : preserves k_vmm (upd_tcb (P := P) a g).
Proof. intros y y' b t. unfold upd_tcb, bind, get_tcb. destruct (tcbs y !! a); [|done]. by intros [= <- _ _]. Qed.
Lemma preserves_get_tcb a : preserves k_vmm (get_tcb (P := P) a).
Proof. intros y y' b t. unfold get_tcb. destruct (tcbs y !! a); [|done]. by intros [= <- _ _]. Qed.
Hint Resolve preserves_upd_tcb preserves_get_tcb preserves_in_kern : keeps_part.

Lemma release_keeps_vmm l (s s' : sync P) t : lock_release l s = Ret s' tt t -> k_vmm (y_kern s') = k_vmm (y_kern s).
Proof.
  revert s s' t. enough (H : preserves (fun y : sync P => k_vmm (y_kern y)) (lock_release l)) by (intros s s' t; apply H).
  assert (Hcli : preserves k_vmm (cli_condition (P := P)))
    by (unfold cli_condition, get_int_flag, Threads.cli; eauto 20 with keeps_part).
  assert (Hsti : forall c, preserves k_vmm (sti_condition (P := P) c))
    by (intros c; unfold sti_condition, Threads.sti, Threads.cli; eauto 20 with keeps_part).
  assert (Hwake : forall a, preserves k_vmm (thread_wakeup (P := P) a))
    by (intros a; unfold thread_wakeup, get_running_progress; eauto 20 with keeps_part).
  assert (Hsem : forall a, preserves (fun y : sync P => k_vmm (y_kern y)) (get_sem a)).
  { intros a. apply preserves_reader. intros y y' x t. unfold get_sem. destruct (_ !! _); [|done]. by intros [= <- _ _]. }
  assert (Hnode : forall a, preserves (fun y : sync P => k_vmm (y_kern y)) (get_node a)).
  { intros a. apply preserves_reader. intros y y' x t. unfold get_node. destruct (_ !! _); [|done]. by intros [= <- _ _]. }
  assert (Hhold : forall a, preserves (fun y : sync P => k_vmm (y_kern y)) (get_holder a)).
  { intros a. apply preserves_reader. intros y y' x t. unfold get_holder. destruct (_ !! _); [|done]. by intros [= <- _ _]. }
  assert (Hget : forall a, preserves (fun y : sync P => k_vmm (y_kern y)) (sync_tool_get a)).
  { intros a. unfold sync_tool_get, set_queue_head, set_node_next, put_sem. apply preserves_bind; [done|]. intros x.
    destruct (sem_head x); eauto 20 with keeps_part. }
  assert (HV : forall a, preserves (fun y : sync P => k_vmm (y_kern y)) (sem_V a)).
  { intros a. unfold sem_V, sync_tool_is_empty, set_sem_val, put_sem. apply preserves_bind; [eauto with keeps_part|]. intros c.
    apply preserves_bind; [eauto with keeps_part|]. intros e. apply preserves_bind; [|eauto 20 with keeps_part].
    apply preserves_if; [eauto with keeps_part|]. apply preserves_bind; [done|]. intros [n|]; eauto 20 with keeps_part. }
  unfold lock_release, get_running_progress, set_holder. eauto 20 with keeps_part.
Qed.

(** Printing is a computation of the current thread. *)
Lemma print_step S s v :
  sys_inv locks S -> pend S !! current S = None -> io_sync s = sy S ->
  let S' := Build_sys (io_sync (set_io_vga v s)) (pend S) in
  sys_inv locks S' /\ pend S' !! current S' = None /\ current S' = current S /\ holders (sy S') = holders (sy S).
Proof.
  intros H Hp Es S'. unfold S', set_io_vga. cbn [io_sync]. rewrite Es. split; [|done].
  exact (step_compute locks S (set_mem (g_mem v) (k_vmm (kern_of S))) (regs (kern_of S)) (eip (kern_of S)) H Hp).
Qed.

(** Before [printk_init_lock], a call takes no lock. *)
Lemma printk_color_unlocked {L} {VA : VaList L} {VS : VaListSpec L} s fuel node input_str back fore fmt args (v : L) t :
  printk_lock_init_flag s = false ->
  call_ok (io_mem s) input_str fmt args -> supplies (io_mem s) v (map word args) -> away video_memory 4000 -> shows (io_vga s) t ->
  exists g tr out, printk_color fuel node input_str back fore v s = Ret (set_io_vga g s) Returned tr /\
    formats fmt args out /\ shows g (term_text back fore out t) /\ agree_outside console_writes (io_mem s) (g_mem g).
Proof.
  intros Hflag Hc HV Hv Hs.
  destruct (printk_text_prints (io_vga s) t input_str fmt args v back fore Hc HV Hv Hs) as (g & tr & out & E & F & T & A).
  exists g. eexists _, out. split; [|done]. unfold printk_color. rewrite bind_gets, Hflag, bind_ret. unfold printk_locked.
  erewrite (bind_ret_eq (_ ;; _)); [reflexivity|]. rewrite (bind_ret_eq _ _ _ _ _ _ (in_vga_ret _ _ _ _ _ E)), bind_gets.
  cbn [printk_lock_init_flag set_io_vga]. rewrite Hflag. reflexivity.
Qed.

(** What a call that obtains the lock at once needs: a reachable state in which
    the current thread runs, and the lock is free or its own. *)
Record can_print (S0 S : sys P) (s : io P) (node h : Z) : Prop := {
  cp_start : sys_start locks S0;
  cp_reach : rtc (sys_step locks) S0 S;
  cp_runs : pend S !! current S = None;
  cp_node : node_free S node;
  cp_lock : printk_lock ∈ locks;
  cp_holder : holders (sy S) !! printk_lock = Some h;
  cp_free : h = 0 \/ h = current S;
  cp_sync : io_sync s = sy S;
  cp_flag : printk_lock_init_flag s = true
}.

(** Afterwards the terminal shows the text of the format, and the lock is free. *)
Definition printed (fmt : list Z) (args : list parg) (back fore : Z) (t : term) (r : result (io P) flow) : Prop :=
  exists s' tr out, r = Ret s' Returned tr /\ formats fmt args out /\ shows (io_vga s') (term_text back fore out t) /\
    holders (io_sync s') !! printk_lock = Some 0.

(** All of the state after such a call: the screen, the memory and the lock. *)
Lemma printk_color_runs {L} {VA : VaList L} {VS : VaListSpec L} S0 S s fuel node input_str back fore fmt args (v : L) t h :
  can_print S0 S s node h ->
  call_ok (io_mem s) input_str fmt args -> supplies (io_mem s) v (map word args) -> away video_memory 4000 -> shows (io_vga s) t ->
  exists s' tr out, printk_color (Datatypes.S fuel) node input_str back fore v s = Ret s' Returned tr /\
    formats fmt args out /\ shows (io_vga s') (term_text back fore out t) /\ holders (io_sync s') !! printk_lock = Some 0 /\
    k_vmm (y_kern (io_sync s')) = set_mem (io_mem s') (k_vmm (kern_of S)) /\ agree_outside console_writes (io_mem s) (io_mem s').
Proof.
  intros [H0 Hr Hp Hn Hl Hh Hc0 Es Hflag] Hc HV Hv Hs. pose proof (reachable_inv locks S0 S H0 Hr) as H.
  destruct (co_threads _ _ (sv_core _ _ H)) as [rest Hth].
  assert (Hacq : exists y t1, lock_acquire (Datatypes.S fuel) printk_lock node (sy S) = Ret y Returned t1 /\ k_vmm (y_kern y) = k_vmm (kern_of S)).
  { pose proof (fun f => lock_acquire_total locks S f printk_lock node rest h H Hp Hn Hl Hh Hth) as A.
    destruct (Z.eqb_spec h (current S)) as [Eh|Eh].
    - destruct (A (Datatypes.S fuel)) as (y & t1 & E & _ & V). by exists y, t1.
    - destruct Hc0 as [->|?]; [|done]. destruct (A fuel) as (y & t1 & E & _ & V). by exists y, t1. }
  destruct Hacq as (y & t1 & E1 & V1). destruct (acquire_again locks S _ _ _ y t1 H Hp Hn Hl E1) as (I1 & P1 & _ & O1).
  set (S1 := continue S y Returned) in *. set (s1 := Build_io y (io_x s) (io_y s) true).
  assert (Ev : io_vga s1 = io_vga s).
  { unfold io_vga, io_mem. cbn [s1 io_sync io_x io_y]. rewrite V1. unfold kern_of. by rewrite Es. }
  destruct (printk_text_prints (io_vga s1) t input_str fmt args v back fore) as (g & tr & out & E2 & F & T & A);
    [rewrite Ev; exact Hc|rewrite Ev; exact HV|done|by rewrite Ev|].
  destruct (print_step S1 s1 g I1 P1 eq_refl) as (I2 & P2 & C2 & O2). set (S2 := Build_sys _ (pend S1)) in *.
  destruct (release_cases locks S2 printk_lock I2 P2 Hl) as (y3 & t3 & E3 & _ & _ & O3).
  assert (Hh2 : holders (sy S2) !! printk_lock = Some (current S2)) by (by rewrite O2, C2).
  rewrite decide_True in O3 by exact Hh2. set (s2 := set_io_vga g s1).
  assert (Hk : k_vmm (y_kern y3) = set_mem (g_mem g) (k_vmm (kern_of S))).
  { rewrite (release_keeps_vmm _ _ _ _ E3). change (k_vmm (y_kern (sy S2))) with (set_mem (g_mem g) (k_vmm (y_kern y))). by rewrite V1. }
  assert (Em : io_vga (Build_io y3 (io_x s2) (io_y s2) true) = g).
  { unfold io_vga, io_mem. cbn [io_sync io_x io_y]. rewrite Hk. by destruct g. }
  assert (Eg : io_mem (Build_io y3 (io_x s2) (io_y s2) true) = g_mem g) by (by rewrite <- Em).
  exists (Build_io y3 (io_x s2) (io_y s2) true). eexists _, out.
  split; [|split; [done|split; [by rewrite Em|split; [by cbn [io_sync]; rewrite O3, lookup_insert_eq|split]]]].
  - unfold printk_color. rewrite bind_gets, Hflag.
    rewrite (bind_ret_eq _ _ _ s1 Returned t1) by (erewrite in_sync_ret by (rewrite Es; exact E1); by rewrite Hflag).
    unfold printk_locked. erewrite (bind_ret_eq (_ ;; _)); [reflexivity|].
    rewrite (bind_ret_eq _ _ _ _ _ _ (in_vga_ret _ _ _ _ _ E2)). fold s2. rewrite bind_gets. cbn [printk_lock_init_flag s2 set_io_vga s1].
    rewrite (in_sync_ret _ s2 _ _ _ E3). reflexivity.
  - rewrite Eg. exact Hk.
  - rewrite Eg. change (g_mem (io_vga s1)) with (io_mem s1) in A.
    replace (io_mem s) with (io_mem s1); [exact A|]. exact (f_equal g_mem Ev).
Qed.

Lemma printk_color_prints {L} {VA : VaList L} {VS : VaListSpec L} S0 S s fuel node input_str back fore fmt args (v : L) t h :
  can_print S0 S s node h ->
  call_ok (io_mem s) input_str fmt args -> supplies (io_mem s) v (map word args) -> away video_memory 4000 -> shows (io_vga s) t ->
  printed fmt args back fore t (printk_color (Datatypes.S fuel) node input_str back fore v s).
Proof.
  intros H1 H2 H3 H4 H5. destruct (printk_color_runs S0 S s fuel node input_str back fore fmt args v t h H1 H2 H3 H4 H5)
    as (s' & tr & out & E & F & T & Hh & _). by exists s', tr, out.
Qed.

(** The parameters on the stack. *)
Lemma bind_param {A} frame i (k : Z -> M (io P) A) s : bind (param frame i) k s = k (ld32 (io_mem s) (frame + 4 * i)) s.
Proof. apply prepend_nil. Qed.

Lemma printk_color_call_prints S0 S s fuel node frame back fore fmt args t h :
  can_print S0 S s node h -> 0 <= frame -> frame + 4 * (3 + length args) <= 4294967296 -> away frame (4 * (3 + length args)) ->
  words_at (io_mem s) (frame + 4) (back :: fore :: map word args) ->
  call_ok (io_mem s) (ld32 (io_mem s) frame) fmt args -> away video_memory 4000 -> shows (io_vga s) t ->
  printed fmt args back fore t (printk_color_call (Datatypes.S fuel) node frame s).
Proof.
  intros H H0 H1 Ha Hw Hc Hv Hs. pose proof (Hw 0%nat _ eq_refl) as W0. pose proof (Hw 1%nat _ eq_refl) as W1.
  assert (HP : pushed (io_mem s) (va_start (frame + 8)) (map word args)).
  { eapply (pushed_start _ _ fore); rewrite ?length_map; [lia|lia| |eapply away_sub; [..|exact Ha]; lia].
    apply words_at_tail in Hw. by replace (frame + 8) with (frame + 4 + 4) by lia. }
  unfold printk_color_call. rewrite !bind_param, Z.add_0_r.
  replace (frame + 4 * 1) with (frame + 4 + 4 * 0%nat) by lia. replace (frame + 4 * 2) with (frame + 4 + 4 * 1%nat) by lia. rewrite W0, W1.
  exact (printk_color_prints S0 S s fuel node _ back fore fmt args (va_start (frame + 8)) t h H Hc HP Hv Hs).
Qed.

(** C35: A call of printk that obtains the lock at once, because it is free or
    because the caller holds it already, with the format and the arguments on the
    stack where the caller pushed them: the text of the format is on the screen,
    and the lock is free afterwards.  In the second case, a call from an interrupt
    that came while the same thread was printing, the outer call has lost the
    lock. *)
Theorem printk_spec S0 S s fuel node frame fmt args t h :
  can_print S0 S s node h -> 0 <= frame -> frame + 4 * (1 + length args) <= 4294967296 -> away frame (4 * (1 + length args)) ->
  words_at (io_mem s) (frame + 4) (map word args) ->
  call_ok (io_mem s) (ld32 (io_mem s) frame) fmt args -> away video_memory 4000 -> shows (io_vga s) t ->
  exists s' tr out, printk_call (Datatypes.S fuel) node frame s = Ret s' Returned tr /\
    formats fmt args out /\ shows (io_vga s') (term_text black white out t) /\
    holders (io_sync s') !! printk_lock = Some 0.
Proof.
  intros H H0 H1 Ha Hw Hc Hv Hs.
  assert (HP : pushed (io_mem s) (va_start frame) (map word args)).
  { eapply (pushed_start _ _ (ld32 (io_mem s) frame)); rewrite ?length_map; [lia|lia| |exact Ha].
    intros [|i] x Hx; [injection Hx as <-; f_equal; lia|]. rewrite <- (Hw i x Hx). f_equal. lia. }
  unfold printk_call. rewrite bind_param, Z.add_0_r.
  exact (printk_color_prints S0 S s fuel node _ black white fmt args (va_start frame) t h H Hc HP Hv Hs).
Qed.
End printk.

(** ** A concrete call *)

#[local] Existing Instance small_vmm_layout.
#[local] Existing Instance small_tss.
#[local] Existing Instance ex_threads.
#[local] Existing Instance small_layout.
#[local] Existing Instance ex_arrays.

Definition ex_pk_kern : kern pmm := set_vmm (set_mem ex_pk_mem (k_vmm ex_kern)) ex_kern.
Definition ex_pk_sys : sys pmm := Build_sys (set_kern ex_pk_kern ex_sync) ∅.
Definition ex_io : io pmm := Build_io (sy ex_pk_sys) 0 0 true.

Lemma ex_pk_start : sys_start ex_locks ex_pk_sys.
Proof. pose proof ex_start as [H1 H2 H3 H4]. by split. Qed.

(** The format is at 9000, and the caller has pushed 42 and its address. *)
Lemma printk_spec_witness :
  exists s' tr out, printk_call 1 8000 9200 ex_io = Ret s' Returned tr /\ formats ex_fmt [AInt 42] out /\
    shows (io_vga s') (term_text black white out (Build_term (vcell ex_pk_mem) 0)) /\
    holders (io_sync s') !! printk_lock = Some 0.
Proof.
  apply (printk_spec ex_locks ex_pk_sys ex_pk_sys ex_io 0 8000 9200 ex_fmt [AInt 42] (Build_term (vcell ex_pk_mem) 0) 0).
  - split; [exact ex_pk_start|apply rtc_refl|done| |by apply elem_of_singleton|done|by left|done|done].
    intros t a. unfold waits. cbn [pend ex_pk_sys]. by rewrite lookup_empty.
  - lia.
  - cbn. lia.
  - exact ex_pushed_away.
  - exact (proj2 ex_pushed).
  - change (ld32 (io_mem ex_io) 9200) with (ld32 ex_pk_mem 9200). rewrite (proj1 ex_pushed). exact ex_call.
  - exact ex_away.
  - split; [done|cbn; lia|cbn; lia|done].
Defined.
