(* ===== verification/Machine.v ===== *)
(** * The whole kernel's state, and printing on it

    [machine] holds every component: the threads, locks and the screen ([io])
    over one memory and the page allocator of pmm.c, and the tables of the
    interrupts.  The code of the boot sequence, written over [Holds] and
    [Console], runs here with the real [printk]: the strings of the source are
    in memory, at the addresses of the class [Literals]. *)

From Stdlib Require Import Ascii.
From S2P Require Import Prelude Memory CString StringThm KernLog Pmm Tcb Vmm Tss UserVm Threads.
From S2P Require Import Port Vga Interrupt Sync Printk PrintkThm PrintkSys.

Record machine := Build_machine { m_io : io pmm; m_intr : intr }.

Definition m_kern (s : machine) : kern pmm := y_kern (io_sync (m_io s)).
Definition set_m_kern (k : kern pmm) (s : machine) : machine :=
  Build_machine (Build_io (set_kern k (io_sync (m_io s))) (io_x (m_io s)) (io_y (m_io s))
    (printk_lock_init_flag (m_io s))) (m_intr s).

Definition in_io {A} (c : M (io pmm) A) : M machine A := zoom m_io (fun y s => Build_machine y (m_intr s)) c.
Definition in_intr {A} (c : M intr A) : M machine A := zoom m_intr (fun i s => Build_machine (m_io s) i) c.
Definition in_threads {A} (c : M (kern pmm) A) : M machine A := zoom m_kern set_m_kern c.
Definition in_pages {A} (c : M pmm A) : M machine A := in_threads (in_vmm (zoom v_pages set_pages c)).

#[export] Instance machine_mem : Holds mem machine := fun A c => in_threads (in_mem c).
#[export] Instance machine_pages : Holds pmm machine := fun A c => in_pages c.

(** ** String literals *)

(** The address of a literal of the source. *)
Class Literals := literal : string -> Z.

(** The characters of a literal: the backslash and the n stand for a new line. *)
Fixpoint c_bytes (s : string) : list Z :=
  match s with
  | EmptyString => []
  | String "\"%char (String "n"%char s') => 10 :: c_bytes s'
  | String c s' => Z.of_N (N_of_ascii c) :: c_bytes s'
  end.

(** The word of an argument. *)
Definition arg_word `{Literals} (x : Prelude.parg) : Z :=
  match x with PInt n => n | Prelude.PStr s => literal s end.

Section console.
Context {VL : VmmLayout} {TL : TssLayout} {HL : ThreadLayout}.
Context {SL : StringLayout} {KL : PrintkLayout} {LL : Literals}.

(** A call of [printk] before [printk_init_lock]: it takes no lock and cannot
    wait, so the fuel of the lock and the local of [sem_P] do not matter. *)
#[export] Instance machine_console : Console machine := fun fmt args =>
  r <- in_io (printk 1 0 (literal fmt) (map arg_word args)) ;;
  match r with
  | Returned => ret tt
  | Suspended _ => undef
  end.
End console.

(** Strings in slots of 64 bytes from [a] on. *)
Fixpoint slot_of (x : string) (l : list string) : Z :=
  match l with
  | [] => 0
  | y :: l' => if decide (x = y) then 0 else 64 + slot_of x l'
  end.
Definition slots (a : Z) (l : list string) : Literals := fun x => a + slot_of x l.
Fixpoint store_slots (a : Z) (l : list string) (m : mem) : mem :=
  match l with
  | [] => m
  | x :: l' => store_slots (a + 64) l' (write_bytes m a (c_bytes x ++ [0]))
  end.

(** ** What the boot sequence prints *)

(** A call of [printk]: its format and its arguments. *)
Definition line : Type := string * list Prelude.parg.

Definition arg_of `{Literals} (x : Prelude.parg) : PrintkThm.parg :=
  match x with PInt n => AInt n | Prelude.PStr s => AStr (literal s) (c_bytes s) end.

(** The text of a list of calls. *)
Inductive says `{Literals} : list line -> list Z -> Prop :=
  | says_nil : says [] []
  | says_cons f a o l out : formats (c_bytes f) (map arg_of a) o -> says l out -> says ((f, a) :: l) (o ++ out).

Lemma says_app `{Literals} l1 l2 o1 o2 : says l1 o1 -> says l2 o2 -> says (l1 ++ l2) (o1 ++ o2).
Proof. induction 1 as [|f a o l out Hf _ IH]; [done|]. intros H2. rewrite <- app_assoc. cbn [app]. constructor; auto. Qed.

Lemma says_one `{Literals} f a o : formats (c_bytes f) (map arg_of a) o -> says [(f, a)] o.
Proof. intros Hf. rewrite <- (app_nil_r o). by repeat constructor. Qed.

Lemma term_text_app back fore l1 l2 t : term_text back fore (l1 ++ l2) t = term_text back fore l2 (term_text back fore l1 t).
Proof. unfold term_text. apply foldl_app. Qed.

Definition m_mem (s : machine) : mem := v_mem (k_vmm (m_kern s)).
Definition m_pages (s : machine) : pmm := v_pages (k_vmm (m_kern s)).
Definition set_m_vga (g : vga) (s : machine) : machine := Build_machine (set_io_vga g (m_io s)) (m_intr s).
Definition set_m_pages (p : pmm) (s : machine) : machine := set_m_kern (set_vmm (set_pages p (k_vmm (m_kern s))) (m_kern s)) s.

Lemma in_pages_ret {A} (c : M pmm A) s p (a : A) t :
  c (m_pages s) = Ret p a t -> in_pages c s = Ret (set_m_pages p s) a t.
Proof. intros E. unfold in_pages, in_threads, in_vmm, zoom. fold (m_pages s). by rewrite E. Qed.

(** A computation that reads memory. *)
Lemma machine_reads {A} (c : M mem A) s (a : A) t : c (m_mem s) = Ret (m_mem s) a t -> within c s = Ret s a t.
Proof.
  intros E. unfold within, machine_mem, in_threads, in_mem, in_vmm, on_mem, zoom. fold (m_mem s). rewrite E.
  by destruct s as [[[[[] ? ? ? ?] ? ? ?] ? ? ?] ?].
Qed.

Section says.
Context {VL : VmmLayout} {TL : TssLayout} {HL : ThreadLayout}.
Context {SL : StringLayout} {KL : PrintkLayout} {LL : Literals}.

(** From [s], with the terminal [t] on the screen, to [s'] with [t']: the lines
    [l] were printed; the memory the screen and [printk] do not use is as before,
    and so is everything else, apart from the page allocator. *)
Definition prints (l : list line) (s : machine) (t : term) (s' : machine) (t' : term) : Prop :=
  exists g out, s' = set_m_vga g (set_m_pages (m_pages s') s) /\ says l out /\ t' = term_text black white out t /\
    shows g t' /\ agree_outside console_writes (m_mem s) (g_mem g).

Lemma prints_shows l s t s' t' : prints l s t s' t' -> shows (io_vga (m_io s')) t'.
Proof. intros (g & out & -> & _ & _ & H & _). by destruct g, s as [[[[[]]]]]. Qed.

Lemma prints_agree l s t s' t' : prints l s t s' t' -> agree_outside console_writes (m_mem s) (m_mem s').
Proof. intros (g & out & -> & _ & _ & _ & H). by destruct g, s as [[[[[]]]]]. Qed.

Lemma prints_flag l s t s' t' : prints l s t s' t' -> printk_lock_init_flag (m_io s') = printk_lock_init_flag (m_io s).
Proof. intros (g & out & -> & _). done. Qed.

Lemma prints_trans l1 l2 s t s1 t1 s2 t2 : prints l1 s t s1 t1 -> prints l2 s1 t1 s2 t2 -> prints (l1 ++ l2) s t s2 t2.
Proof.
  intros (g1 & o1 & E1 & S1 & -> & H1 & A1) (g2 & o2 & E2 & S2 & -> & H2 & A2). exists g2, (o1 ++ o2).
  split; [|split; [by apply says_app|split; [by rewrite term_text_app|split; [exact H2|]]]].
  - rewrite E2 at 1. rewrite E1. by destruct g1, g2, s as [[[[[]]]]].
  - eapply agree_trans; [exact A1|]. rewrite E1 in A2. by destruct g1, s as [[[[[]]]]].
Qed.

(** A step of the page allocator. *)
Lemma prints_pages s t p : shows (io_vga (m_io s)) t -> prints [] s t (set_m_pages p s) t.
Proof.
  intros H. exists (io_vga (m_io s)), []. split; [by destruct s as [[[[[]]]]]|]. split; [constructor|]. split; [done|]. split; [done|].
  intros c _ _. by destruct s as [[[[[]]]]].
Qed.

(** The strings of a line are in memory, away from what printing writes, and its
    text fits in the array of [printk]. *)
Record line_ok (m : mem) (l : line) : Prop := {
  li_text : cstr m (literal l.1) (c_bytes l.1);
  li_away : away (literal l.1) (length (c_bytes l.1) + 1);
  li_takes : takes (c_bytes l.1) (map arg_of l.2);
  li_args : Forall (arg_ok m) (map arg_of l.2);
  li_fits : (length (c_bytes l.1) + widths (map arg_of l.2) <= 99)%nat
}.

(** What printing needs of the memory besides. *)
Record console_ok (m : mem) : Prop := {
  co_layout : printk_layout_ok;
  co_literals : literals_ok SL m;
  co_screen : away video_memory 4000
}.

Lemma words_of args : map word (map arg_of args) = map arg_word args.
Proof. rewrite map_map. apply map_ext. by intros []. Qed.

(** One call of [printk] during the boot sequence. *)
Lemma machine_print_step s t f a :
  printk_lock_init_flag (m_io s) = false -> console_ok (m_mem s) -> line_ok (m_mem s) (f, a) -> shows (io_vga (m_io s)) t ->
  exists s' t' tr, print f a s = Ret s' tt tr /\ prints [(f, a)] s t s' t' /\ m_pages s' = m_pages s.
Proof.
  intros Hf [C1 C2 C3] [L1 L2 L3 L4 L5] Hs. cbn [fst snd] in *.
  destruct (printk_color_unlocked (m_io s) 1 0 (literal f) black white (c_bytes f) (map arg_of a) (map arg_word a) t)
    as (g & tr & out & E & F & T & A); [done|by split|by symmetry; apply words_of|done|done|].
  exists (set_m_vga g s), (term_text black white out t). eexists. split; [|split].
  - unfold print, machine_console, printk, in_io, bind, zoom. rewrite E. cbn [ret prepend]. reflexivity.
  - exists g, out. split; [by destruct g, s as [[[[[]]]]]|]. split; [by apply says_one|]. split; [done|]. split; [exact T|exact A].
  - by destruct g, s as [[[[[]]]]].
Qed.
End says.

(** One string of a concrete machine. *)
Ltac concrete_string :=
  apply cstr_check; [split; [|split]; vm_compute; discriminate|apply (bool_decide_unpack _); by vm_compute|by vm_compute].
