(* ===== verification/UserPage.v ===== *)
(** * A page of a user task, with its line on the screen

    [vmm_user_alloc_one_page] of [Vmm] calls [printk] with interrupts off when the
    task has a page table for the address.  Here the function runs on the state
    with the screen and the locks, and the call is made: it takes the lock of
    [printk], so that the function can be suspended in the middle. *)

From S2P Require Import Prelude Memory CString StringThm Bitmap KernLog Port Vga Pmm PmmSpec PmmThm PageTable Tcb Vmm VmmThm Tss UserVm Threads.
From S2P Require Import Ring ThreadsThm ThreadsInv ThreadsSys ThreadsView Interrupt InterruptThm Sync SyncThm SemInv SyncCore SyncSys SyncProp.
From S2P Require Import Printk PrintkThm PrintkSys Machine.

Section page.
Context {P : Type} {PA : PageAllocator P} {VL : VmmLayout} {TL : TssLayout} {HL : ThreadLayout}.
Context {SL : StringLayout} {KL : PrintkLayout} {LL : Literals}.

Definition io_kern {A} (c : M (kern P) A) : M (io P) A := in_sync (in_kern c).
Definition io_vmm {A} (c : M (vmm P) A) : M (io P) A := io_kern (in_vmm c).

(** What follows the call of [printk]. *)
Definition user_page_rest (vaddr : Z) : M (io P) Z :=
  io_kern sti ;;
  io_vmm (user_page_end vaddr).

(** The function: its result, or the frames of a caller that waits for the lock
    of [printk]; such a caller goes on with [user_page_resumed]. *)
Definition user_alloc_page (fuel : nat) (node : Z) (tcb_ptr : TCB_t) (vaddr : Z) : M (io P) (Z + list frame) :=
  r <- io_vmm (user_page_begin tcb_ptr vaddr) ;;
  match r with
  | Page_refused v => ret (inl v)
  | Table_present =>
      io_kern cli ;;
      f <- printk fuel node (literal "-0x%h\n") [pdt_vaddr tcb_ptr] ;;
      match f with
      | Returned => v <- user_page_rest vaddr ;; ret (inl v)
      | Suspended fs => ret (inr fs)
      end
  | Table_created => v <- io_vmm (user_page_end vaddr) ;; ret (inl v)
  end.

Definition user_page_resumed (tcb_ptr : TCB_t) (vaddr : Z) : M (io P) Z :=
  printk_locked (literal "-0x%h\n") [pdt_vaddr tcb_ptr] black white ;;
  user_page_rest vaddr.

Definition io_v (s : io P) : vmm P := k_vmm (y_kern (io_sync s)).
Definition set_io_kern (k : kern P) (s : io P) : io P :=
  Build_io (set_kern k (io_sync s)) (io_x s) (io_y s) (printk_lock_init_flag s).

Lemma io_kern_ret {A} (c : M (kern P) A) s k (a : A) t : c (y_kern (io_sync s)) = Ret k a t -> io_kern c s = Ret (set_io_kern k s) a t.
Proof. intros E. unfold io_kern. exact (in_sync_ret _ _ _ _ _ (in_kern_ret _ _ _ _ _ E)). Qed.

Lemma io_vmm_ret {A} (c : M (vmm P) A) s v (a : A) t :
  c (io_v s) = Ret v a t -> io_vmm c s = Ret (set_io_kern (set_vmm v (y_kern (io_sync s))) s) a t.
Proof. intros E. apply io_kern_ret. by apply in_vmm_ret. Qed.
End page.

Section spec.
Context {P : Type} {PA : PageAllocator P} {PS : PageAllocatorSpec P} {VL : VmmLayout} {TL : TssLayout} {HL : ThreadLayout}.
Context {SL : StringLayout} {KL : PrintkLayout} {LL : Literals}.
Context (locks : gset Z).
Implicit Types (S : sys P) (s : io P).

(** The text of the format. *)
Definition page_fmt : list Z := [45; 48; 120; 37; 104; 10].

Lemma page_formats n out : formats page_fmt [AInt n] out -> exists d, hexadecimal n d /\ out = [45; 48; 120] ++ d ++ [10].
Proof.
  intros H. do 3 (inversion H as [|? ? ? ? _ H'| | | | |]; subst; clear H; rename H' into H).
  inversion H as [|? ? ? ? N| | |? ? d ? o3 Hd H3| |? ? ? N]; subst; [done| |done].
  inversion H3 as [|? ? ? o4 _ H4| | | | |]; subst. inversion H4; subst. by exists d.
Qed.

(** The bits of the task's pool are apart from what printing reads and writes. *)
Definition pool_apart (U : bitmap) : Prop :=
  Forall (fun b => disjoint_blocks (vaddr_header U) (bm_length U) b.1 b.2)
    (console_writes ++ [(literal "-0x%h\n", 7); (lit_hex0x, 11); (lit_hex0, 9)]).

Lemma bit_frame s (t : TCB_t) p : bitmap_wf (user_vmm_pool t) -> 0 <= p < pages (user_vmm_pool t) ->
  agree_outside [(vaddr_header (user_vmm_pool t), bm_length (user_vmm_pool t))] (v_mem (io_v s)) (user_bit_taken (io_v s) t p).
Proof.
  intros [Hr _ _ _ _] Hp c Hc Hl. apply Forall_cons in Hl as [Hl _]. cbn [fst snd] in Hl. unfold user_bit_taken, pages, region in *.
  apply ld8_st8_ne. rewrite !u32_small by dlia. dlia.
Qed.

Lemma apart_text m m' a l U :
  cstr m a l -> agree_outside [(vaddr_header U, bm_length U)] m m' ->
  disjoint_blocks (vaddr_header U) (bm_length U) a (length l + 1) -> cstr m' a l.
Proof. intros H Ha Hd. eapply cstr_agree; [exact H|exact Ha|]. apply Forall_cons. split; [exact Hd|apply Forall_nil_2]. Qed.

(** The part of a call before the line is printed, as a step of the thread. *)
Lemma page_ready S0 S s node h v :
  can_print locks S0 S s node h ->
  let k := set_regs (if_off (regs (kern_of S))) (set_vmm v (kern_of S)) in
  can_print locks S0 (Build_sys (set_kern k (sy S)) (pend S)) (set_io_kern k s) node h.
Proof.
  intros [H0 Hr Hp Hn Hl Hh Hc Es Hf] k. split; try done.
  - eapply rtc_r; [exact Hr|].
    exact (sys_compute locks S v (if_off (regs (kern_of S))) (eip (kern_of S)) Hp).
  - unfold set_io_kern. cbn [io_sync sy]. by rewrite Es.
Qed.

(** C23: A user task below 0xC0000000 asks for a free page in a region with a page
    table, in a reachable state of the system in which the lock of [printk] is free
    or the caller's.  The function prints the address of the directory on the screen
    with interrupts off, the lock is free afterwards and interrupts are on.  With a
    free frame it maps the page with user access, takes it from the pool of the task
    and returns its address.  Without one it fails, but the page it took from the
    pool of the task is not given back: the error exit releases from the pool of the
    kernel.  Besides the bits of the pool and the entry of the page only the screen
    and the arrays of [printk] are written. *)
Theorem user_alloc_page_spec S0 S s fuel node h F t vaddr p tm :
  let U := user_vmm_pool t in
  let v := io_v s in
  can_print locks S0 S s node h ->
  vmm_ok v -> user_ok v t -> pa_inv (v_pages v) F -> pa_ready (v_pages v) ->
  0 <= vaddr < 3221225472 -> page_of U vaddr = Some p -> is_free U (v_mem v) p = true ->
  Z.testbit (ld32 (user_bit_taken v t p) (user_get_pde (pdt_vaddr t) vaddr)) 0 = true ->
  call_ok (v_mem v) (literal "-0x%h\n") page_fmt [AInt (pdt_vaddr t)] -> away video_memory 4000 -> shows (io_vga s) tm ->
  pool_apart U ->
  exists s' r tr d, user_alloc_page (Datatypes.S fuel) node t vaddr s = Ret s' (inl r) tr /\
    hexadecimal (pdt_vaddr t) d /\
    shows (io_vga s') (term_text black white ([45; 48; 120] ++ d ++ [10]) tm) /\
    holders (io_sync s') !! printk_lock = Some 0 /\ if_flag (regs (y_kern (io_sync s'))) = true /\
    free_set U (v_mem (io_v s')) = free_set U (v_mem v) ∖ {[p]} /\
    agree_outside ((vaddr_header U, bm_length U) :: (get_pte vaddr, 4) :: console_writes) (v_mem v) (v_mem (io_v s')) /\
    if decide (F = []) then r = USER_VMM_ALLOC_ERRO /\ v_pages (io_v s') = v_pages v
    else r = page_addr U p /\ exists f F', F ≡ₚ f :: F' /\ pa_inv (v_pages (io_v s')) F' /\
      ld32 (v_mem (io_v s')) (get_pte vaddr) = f + 263.
Proof.
  intros U v Hcp Hv Hu Hinv Hready Hva Hp Hfree Hpde Hcall Haway Hshows Hapart.
  destruct (user_begin_present v t vaddr p Hu Hva Hp Hfree Hpde) as [E1 Efs]. fold U in Efs. set (m1 := user_bit_taken v t p) in *.
  pose proof (us_pool _ _ Hu) as Hwf. fold U in Hwf. pose proof (page_of_Some _ _ _ Hp) as Hpr.
  pose proof (bit_frame s t p Hwf Hpr) as Hbit. fold U in Hbit. change (user_bit_taken (io_v s) t p) with m1 in Hbit.
  pose proof (cp_sync _ _ _ _ _ _ Hcp) as Es. assert (Ek : y_kern (io_sync s) = kern_of S) by (unfold kern_of; by rewrite Es).
  pose proof (page_ready S0 S s node h (set_mem m1 v) Hcp) as Hcp1. cbv zeta in Hcp1. set (k1 := set_regs _ _) in Hcp1.
  set (S1 := Build_sys _ (pend S)) in Hcp1. set (s1 := set_io_kern k1 s) in *.
  pose proof Hapart as Hap. unfold pool_apart in Hap. apply Forall_app in Hap as [Hap1 Hap2].
  rewrite !Forall_cons in Hap2. destruct Hap2 as (Ha1 & Ha2 & Ha3 & _). cbn [fst snd] in Ha1, Ha2, Ha3.
  assert (Em1 : io_mem s1 = m1) by done.
  assert (Hcall1 : call_ok (io_mem s1) (literal "-0x%h\n") page_fmt [AInt (pdt_vaddr t)]).
  { rewrite Em1. destruct Hcall as [C1 [L1 L2] C3 C4 C5 C6 C7]. split; try done.
    - split; by eapply apart_text.
    - by eapply apart_text.
    - by repeat constructor. }
  assert (Hshows1 : shows (io_vga s1) tm).
  { destruct Hshows as [C X Y Q]. split; [|done..]. intros i Hi. rewrite <- C by done. unfold vcell, ld16.
    change (g_mem (io_vga s1)) with m1. change (g_mem (io_vga s)) with (v_mem v).
    apply Forall_cons in Hap1 as [Hd _]. unfold disjoint_blocks in Hd. cbn [fst snd] in Hd.
    rewrite !Hbit; [done|unfold video_memory in *; lia|apply Forall_cons; split; [cbn [fst snd]; lia|apply Forall_nil_2]|unfold video_memory in *; lia|apply Forall_cons; split; [cbn [fst snd]; lia|apply Forall_nil_2]]. }
  destruct (printk_color_runs locks S0 S1 s1 fuel node (literal "-0x%h\n") black white page_fmt [AInt (pdt_vaddr t)]
    [pdt_vaddr t] tm h Hcp1 Hcall1) as (s2 & tr2 & out & E2 & Hf & Hsh & Hh & Hk2 & Hag); [done..|].
  destruct (page_formats _ _ Hf) as (d & Hd & ->).
  set (s3 := set_io_kern (set_regs (if_on (regs (y_kern (io_sync s2)))) (y_kern (io_sync s2))) s2).
  assert (E3 : io_kern sti s2 = Ret s3 tt [Sti]) by (apply io_kern_ret, sti_eq).
  assert (Ev3 : io_v s3 = set_mem (io_mem s2) (set_mem m1 v)) by (exact Hk2).
  assert (Efs2 : free_set U (io_mem s2) = free_set U m1).
  { apply free_set_ext. intros q Hq. unfold is_free. unfold pages in Hq. destruct Hwf as [Hr _ _ _ _]. unfold region in Hr.
    rewrite Hag; [by rewrite Em1|dlia|]. eapply Forall_impl; [exact Hap1|]. intros [b k] Hdb. unfold disjoint_blocks in Hdb. cbn [fst snd] in *. dlia. }
  pose proof (user_end_cases (io_v s3) F vaddr) as E4. rewrite Ev3 in E4.
  specialize (E4 (vmm_ok_mem _ _ (vmm_ok_mem _ _ Hv)) Hinv Hready Hva).
  assert (Hag2 : agree_outside ((vaddr_header U, bm_length U) :: (get_pte vaddr, 4) :: console_writes) (v_mem v) (io_mem s2)).
  { eapply agree_trans; [eapply agree_weaken; [|exact Hbit]|eapply agree_weaken; [|rewrite Em1 in Hag; exact Hag]].
    - intros b ->%list_elem_of_singleton. by left.
    - intros b Hb. by do 2 right. }
  assert (Estart : forall s4 r tr4, io_vmm (user_page_end vaddr) s3 = Ret s4 r tr4 ->
    exists tr, user_alloc_page (Datatypes.S fuel) node t vaddr s = Ret s4 (inl r) tr).
  { intros s4 r tr4 E. eexists. unfold user_alloc_page. rewrite (bind_ret_eq _ _ _ _ _ _ (io_vmm_ret _ _ _ _ _ E1)).
    rewrite (bind_ret_eq _ _ _ _ _ _ (io_kern_ret _ _ _ _ _ (cli_eq _))).
    replace (set_io_kern _ (set_io_kern _ s)) with s1 by (unfold s1, k1, set_io_kern, kern_of; cbn [io_sync y_kern set_kern]; by rewrite Es).
    unfold printk. rewrite (bind_ret_eq _ _ _ _ _ _ E2). unfold user_page_rest. rewrite bind_assoc, (bind_ret_eq _ _ _ _ _ _ E3).
    rewrite (bind_ret_eq _ _ _ _ _ _ E). reflexivity. }
  destruct (get_pte_range vaddr ltac:(lia)) as [Hg1 Hg2].
  destruct (decide (F = [])) as [HF|HF].
  - rewrite <- Ev3 in E4. destruct (Estart _ _ _ (io_vmm_ret _ _ _ _ _ E4)) as (tr & E). eexists _, _, tr, d.
    split; [exact E|]. split; [done|].
    change (io_v (set_io_kern (set_vmm (io_v s3) (y_kern (io_sync s3))) s3)) with (io_v s3).
    change (io_vga (set_io_kern (set_vmm (io_v s3) (y_kern (io_sync s3))) s3)) with (Build_vga (v_mem (io_v s3)) (io_x s2) (io_y s2)).
    rewrite Ev3. split; [exact Hsh|]. split; [exact Hh|]. split; [apply if_flag_on|]. split; [cbn [v_mem set_mem]; by rewrite Efs2|].
    split; [exact Hag2|]. done.
  - destruct E4 as (p' & f & F' & E4 & HF' & Hinv' & Hfr & Hal). rewrite <- Ev3 in E4 at 1.
    destruct (Estart _ _ _ (io_vmm_ret _ _ _ _ _ E4)) as (tr & E). eexists _, _, tr, d. split; [exact E|]. split; [done|].
    set (m3 := st32 (io_mem s2) (get_pte vaddr) (f + 263)).
    assert (Hst : agree_outside [(get_pte vaddr, 4)] (io_mem s2) m3).
    { intros c Hc Hl. apply Forall_cons in Hl as [Hl _]. cbn [fst snd] in Hl. apply ld8_st32_ne. intros i Hi. rewrite !u32_small by lia. lia. }
    split; [|split; [exact Hh|split; [apply if_flag_on|split; [|split; [|split]]]]].
    + destruct Hsh as [C X Y Q]. split; [|done..]. intros i Hi. rewrite <- C by done. unfold vcell, ld16.
      change (g_mem (io_vga s2)) with (io_mem s2). rewrite !Hst; [done|unfold video_memory; lia|apply Forall_cons; split; [cbn [fst snd]; unfold video_memory; lia|apply Forall_nil_2]|
        unfold video_memory; lia|apply Forall_cons; split; [cbn [fst snd]; unfold video_memory; lia|apply Forall_nil_2]].
    + transitivity (free_set U m3); [done|]. unfold m3. rewrite free_set_st32_low; [by rewrite Efs2|done|apply Hu|done|done].
    + eapply agree_trans; [exact Hag2|]. eapply agree_weaken; [|exact Hst]. intros b ->%list_elem_of_singleton. right. by left.
    + apply user_page_mask; [exact Hwf|lia|exact Hp].
    + exists f, F'. split; [done|]. split; [exact Hinv'|]. transitivity (ld32 m3 (get_pte vaddr)); [done|]. unfold m3.
      rewrite ld32_st32_eq. apply u32_small. assert (f <= 4294963200) by dlia. lia.
Qed.
End spec.

(** ** A concrete call *)

#[local] Existing Instance small_vmm_layout.
#[local] Existing Instance small_tss.
#[local] Existing Instance ex_threads.
#[local] Existing Instance small_layout.
#[local] Existing Instance ex_arrays.
#[local] Instance ex_page_literals : Literals := fun _ => 9000.

(** A task with eight pages from 0x8000000 on, the bits of its pool at 9600, its
    directory at 4096. *)
Definition page_task : TCB_t :=
  Build_TCB_t 0 TASK_READY 0 10 0 1 1 0 0 (Build_bitmap 9600 1 134217728) 4096 (Build_context_t 0 0 0 0 0 0 0 0) TCB_MAGIC_NUMBER.
Definition page_mem : mem := write_bytes (st32 (st8 small_literals 9600 128) 4224 1) 9000 (page_fmt ++ [0]).
Definition page_v : vmm pmm := Build_vmm page_mem small_pmm kern_pool 1.
Definition page_sys : sys pmm := Build_sys (set_kern (set_vmm page_v ex_kern) ex_sync) ∅.
Definition page_io : io pmm := Build_io (sy page_sys) 0 0 true.

Lemma page_can_print : can_print ex_locks page_sys page_sys page_io 8000 0.
Proof.
  split; [|apply rtc_refl|done| |by apply elem_of_singleton|done|by left|done|done].
  - pose proof ex_start as [H1 H2 H3 H4]. by split.
  - intros t a. unfold waits. cbn [pend page_sys]. by rewrite lookup_empty.
Qed.

Lemma page_call : call_ok page_mem 9000 page_fmt [AInt 4096].
Proof.
  split.
  - apply ex_arrays_ok.
  - split; concrete_cstr.
  - concrete_cstr.
  - repeat (apply Forall_cons; split; [unfold disjoint_blocks; cbn; lia|]); apply Forall_nil_2.
  - do 3 (apply tk_char; [lia|]). apply tk_hex; [by right|]. apply tk_char; [lia|]. constructor.
  - by repeat constructor.
  - cbn. lia.
Qed.

Lemma page_pool_apart : pool_apart (user_vmm_pool page_task).
Proof. repeat (apply Forall_cons; split; [unfold disjoint_blocks, video_memory, literal, ex_page_literals; cbn; lia|]); apply Forall_nil_2. Qed.

Lemma user_alloc_page_spec_witness :
  exists s' r tr d, user_alloc_page 1 8000 page_task 134217728 page_io = Ret s' (inl r) tr /\ hexadecimal 4096 d /\
    shows (io_vga s') (term_text black white ([45; 48; 120] ++ d ++ [10]) (Build_term (vcell page_mem) 0)) /\
    0 ∉ free_set (user_vmm_pool page_task) (v_mem (io_v s')).
Proof.
  destruct (user_alloc_page_spec ex_locks page_sys page_sys page_io 0 8000 0 small_frames page_task 134217728 0
    (Build_term (vcell page_mem) 0) page_can_print) as (s' & r & tr & d & E & Hd & Hs & _ & _ & Hf & _).
  - split; [reflexivity|cbn; lia].
  - split; [done|done|split; unfold region; cbn; lia || done|cbn; lia].
  - exact small_pmm_frames.
  - exact small_pmm_ready.
  - lia.
  - by vm_compute.
  - by vm_compute.
  - by vm_compute.
  - exact page_call.
  - exact ex_away.
  - split; [done|cbn; lia|cbn; lia|done].
  - exact page_pool_apart.
  - exists s', r, tr, d. split; [exact E|]. split; [exact Hd|]. split; [exact Hs|]. rewrite Hf.
    intros [_ H]%elem_of_difference. by apply H, elem_of_singleton.
Defined.
