(* ===== verification/Handlers.v ===== *)
(** * The interrupt handlers

    interrupt.c's [default_server_func], [page_fault_func] and [int_func_route],
    keyboard.c's handler: they print, and [printk] takes its lock, so that an
    interrupt can suspend the thread it came to.  The handler of the timer is
    [timer_server] of [Interrupt]. *)

From S2P Require Import Prelude Memory CString StringThm KernLog Vga Pmm Tcb Vmm VmmThm Tss UserVm Threads Ring ThreadsThm ThreadsInv ThreadsSys ThreadsView Port.
From S2P Require Import Interrupt InterruptThm Sync SyncThm SemInv SyncCore SyncSys SyncProp Printk PrintkThm PrintkSys Machine UserPage.

(** How the call of a handler ends: it returned, or [schedule] switched to another
    thread, or the interrupted thread waits for the lock of [printk], in the
    given calls. *)
Inductive handled :=
  | Handled
  | Switched
  | Waiting (fs : list frame).

Section handlers.
Context {P : Type} {PA : PageAllocator P} {VL : VmmLayout} {TL : TssLayout} {HL : ThreadLayout}.
Context {SL : StringLayout} {KL : PrintkLayout} {LL : Literals}.

(** [fuel] bounds the rounds of [sem_P], whose local is at [node]. *)
Context (fuel : nat) (node : Z).

Definition default_server (int_no : Z) : M (io P) flow :=
  printk fuel node (literal "INT %d Default Int server function!\n") [int_no].

(** [cr2] is the content of that register. *)
Definition page_fault (cr2 : Z) : M (io P) flow :=
  l <- io_kern (page_fault_line cr2) ;;
  printk fuel node (literal l.1) (map arg_word l.2).

(** [byte1] is what the data port gives. *)
Definition keyboard_handler (byte1 : Z) : M (io P) flow :=
  byte1 <- inb KEYBOARD_DATA_PORT byte1 ;;
  let val := Z.land byte1 255 in
  printk fuel node (literal "keyboard!0x%h\n") [val].

Definition handled_of (f : flow) : handled := match f with Returned => Handled | Suspended fs => Waiting fs end.

(** The call through the table; a missing handler is a call through NULL. *)
Definition int_func_route (i : intr) (cr2 byte1 int_no : Z) : M (io P) handled :=
  match int_server_func_list i !! int_no with
  | None => undef
  | Some timer_server_func => b <- io_kern timer_server ;; ret (if (b : bool) then Switched else Handled)
  | Some default_server_func => f <- default_server int_no ;; ret (handled_of f)
  | Some page_fault_func => f <- page_fault cr2 ;; ret (handled_of f)
  | Some interrupt_handler_keyboard => f <- keyboard_handler byte1 ;; ret (handled_of f)
  end.
End handlers.

Section spec.
Context {P : Type} {PA : PageAllocator P} {VL : VmmLayout} {TL : TssLayout} {HL : ThreadLayout}.
Context {SL : StringLayout} {KL : PrintkLayout} {LL : Literals} {IL : IntrLayout}.
Context (locks : gset Z).
Implicit Types (S : sys P) (s : io P).

(** The line the handler of [n] prints while the thread [t] runs. *)
Definition handler_line (n cr2 byte1 : Z) (t : TCB_t) : line :=
  if decide (n = 33) then ("keyboard!0x%h\n", [PInt (u8 byte1)])
  else if decide (n = 14) then ("INT 14:Page Fault:0x%h IN TASK:%d\n", [PInt cr2; PInt (tid t)])
  else ("INT %d Default Int server function!\n", [PInt n]).

(** The handler of [n], if it is not the timer's, makes that call. *)
Lemma route_prints fuel node i n cr2 byte1 s t :
  0 <= n < 48 -> n <> 32 -> cur_tcb (y_kern (io_sync s)) <> 0 -> tcbs (y_kern (io_sync s)) !! cur_tcb (y_kern (io_sync s)) = Some t ->
  let l := handler_line n cr2 byte1 t in exists tr,
  int_func_route fuel node (init_tables i) cr2 byte1 n s =
    prepend tr (bind (printk fuel node (literal l.1) (map arg_word l.2)) (fun f => ret (handled_of f)) s).
Proof.
  intros Hn H32 Hc Ht l. unfold int_func_route. rewrite init_tables_handler by done. unfold l, handler_line, handler_of.
  destruct (decide (n = 33)) as [->|H33]; [|destruct (decide (n = 14)) as [->|H14]]; [| |rewrite decide_False by done].
  - exists [Inb KEYBOARD_DATA_PORT]. unfold keyboard_handler, inb. rewrite !bind_assoc, bind_emit, bind_ret. cbv zeta.
    change 255 with (Z.ones 8). rewrite land_ones_mod by lia. change (u8 byte1 `mod` 2 ^ 8) with (u8 (u8 byte1)). by rewrite u8_idem.
  - exists []. unfold page_fault. rewrite bind_assoc.
    assert (E : page_fault_line cr2 (y_kern (io_sync s)) =
      Ret (y_kern (io_sync s)) ("INT 14:Page Fault:0x%h IN TASK:%d\n", [PInt cr2; PInt (tid t)]) []).
    { unfold page_fault_line, get_running_progress. rewrite bind_gets, (proj2 (Z.eqb_neq _ _)) by done. by rewrite (bind_get_tcb _ _ _ _ Ht). }
    rewrite (bind_ret_eq _ _ _ _ _ _ (io_kern_ret _ _ _ _ _ E)). f_equal. by destruct s as [[]].
  - exists []. by rewrite prepend_nil.
Qed.

(** A call of [printk] by a thread that does not get the lock. *)
Lemma printk_waits S s fuel node input_str args rest h :
  sys_inv locks S -> pend S !! current S = None -> node_free S node -> printk_lock ∈ locks ->
  holders (sy S) !! printk_lock = Some h -> h <> 0 -> h <> current S -> io_sync s = sy S -> printk_lock_init_flag s = true ->
  threads_inv (tcbs (kern_of S)) (current S) rest ->
  match first_ready (tcbs (kern_of S)) rest with
  | Some y => exists s' fs tr, printk (V := list Z) (Datatypes.S fuel) node input_str args s = Ret s' (Suspended fs) tr /\
      cur_tcb (y_kern (io_sync s')) = y
  | None => printk (V := list Z) (Datatypes.S fuel) node input_str args s = NoFuel
  end.
Proof.
  intros H Hp Hn Hl Hh H0 Hc Es Hf Hth. pose proof (lock_acquire_total locks S fuel printk_lock node rest h H Hp Hn Hl Hh Hth) as A.
  rewrite !(proj2 (Z.eqb_neq _ _)) in A by done. unfold printk, printk_color. destruct (first_ready _ rest) as [y|].
  - destruct A as (y1 & t & E & Hy). eexists (Build_io y1 (io_x s) (io_y s) _), _, _. split; [|exact Hy]. rewrite bind_gets, Hf.
    erewrite bind_ret_eq by (apply in_sync_ret; rewrite Es; exact E). reflexivity.
  - rewrite bind_gets, Hf. unfold bind, in_sync, zoom. by rewrite Es, A.
Qed.

(** C34: After the two initialisations every interrupt of the table has a handler.
    In a reachable state of the threads and locks, that of the timer returns with
    the threads well formed or has switched to a ready thread; the others print
    their line (the default one the number, the page fault's the address and the
    thread, the keyboard's the byte).  They do so when the lock of [printk] is free,
    or held by the interrupted thread itself, and leave the lock free.  When
    another thread holds the lock, the interrupted thread waits in the handler: the
    first ready thread behind it runs, and without one the handler never returns. *)
Theorem interrupts_handled i S0 S s fuel node h n cr2 byte1 rest t tm :
  sys_start locks S0 -> rtc (sys_step locks) S0 S -> pend S !! current S = None -> node_free S node ->
  printk_lock ∈ locks -> holders (sy S) !! printk_lock = Some h -> io_sync s = sy S -> printk_lock_init_flag s = true ->
  threads_inv (tcbs (kern_of S)) (current S) rest -> tcbs (kern_of S) !! current S = Some t -> 0 <= n < 48 ->
  console_ok (io_mem s) -> (n <> 32 -> line_ok (io_mem s) (handler_line n cr2 byte1 t)) -> shows (io_vga s) tm ->
  (idt_init ;; keyboard_init) i = Ret (init_tables i) tt idt_events /\
  let r := int_func_route (Datatypes.S fuel) node (init_tables i) cr2 byte1 n s in
  let l := handler_line n cr2 byte1 t in
  if decide (n = 32) then exists s' b tr, r = Ret s' (if b : bool then Switched else Handled) tr /\
    (if b then exists x, switch_to_thread (kern_of S) (y_kern (io_sync s')) x else returned (kern_of S) (y_kern (io_sync s')))
  else if decide (h = 0 \/ h = current S) then exists s' tr out, r = Ret s' Handled tr /\
    formats (c_bytes l.1) (map arg_of l.2) out /\ shows (io_vga s') (term_text black white out tm) /\
    holders (io_sync s') !! printk_lock = Some 0
  else match first_ready (tcbs (kern_of S)) rest with
    | Some y => exists s' fs tr, r = Ret s' (Waiting fs) tr /\ cur_tcb (y_kern (io_sync s')) = y
    | None => r = NoFuel
    end.
Proof.
  intros H0 Hr Hp Hn Hl Hh Es Hf Hth Ht Hn48 [C1 C2 C3] HLn Hs. split; [apply init_tables_eq|]. intros r l.
  pose proof (reachable_inv locks S0 S H0 Hr) as H. assert (Ek : y_kern (io_sync s) = kern_of S) by (unfold kern_of; by rewrite Es).
  destruct (decide (n = 32)) as [->|H32].
  - destruct (timer_cases (kern_of S)) as (k' & b & tr & E & Hb); [by exists rest|].
    eexists (set_io_kern k' s), b, _. split; [|exact Hb]. unfold r, int_func_route. rewrite init_tables_handler by done.
    rewrite <- Ek in E. rewrite decide_False by done. change (handler_of 32) with timer_server_func. cbv iota.
    rewrite (bind_ret_eq _ _ _ _ _ _ (io_kern_ret _ _ _ _ _ E)). reflexivity.
  - assert (Hc : cur_tcb (y_kern (io_sync s)) <> 0) by (rewrite Ek; apply cur_nonzero; by exists rest).
    destruct (route_prints (Datatypes.S fuel) node i n cr2 byte1 s t Hn48 H32 Hc) as (tr0 & Er); [by rewrite Ek|].
    fold l in Er. fold r in Er. rewrite Er. clear Er r. destruct (HLn H32) as [L1 L2 L3 L4 L5]. fold l in L1, L2, L3, L4, L5.
    destruct (decide (h = 0 \/ h = current S)) as [Hh0|Hh0].
    + destruct (printk_color_prints locks S0 S s fuel node (literal l.1) black white (c_bytes l.1) (map arg_of l.2) (map arg_word l.2) tm h)
        as (s' & tr & out & E & F & T & Hh'); [by split|by split|symmetry; apply words_of|done|done|].
      exists s'. eexists _, out. split; [|done]. unfold printk. rewrite (bind_ret_eq _ _ _ _ _ _ E). reflexivity.
    + pose proof (printk_waits S s fuel node (literal l.1) (map arg_word l.2) rest h H Hp Hn Hl Hh) as W.
      specialize (W ltac:(tauto) ltac:(tauto) Es Hf Hth). destruct (first_ready _ rest) as [y|].
      * destruct W as (s' & fs & tr & E & Hy). exists s', fs. eexists. split; [|exact Hy]. rewrite (bind_ret_eq _ _ _ _ _ _ E). reflexivity.
      * unfold bind. by rewrite W.
Qed.
End spec.

(** ** A concrete interrupt *)

#[local] Existing Instance small_vmm_layout.
#[local] Existing Instance small_tss.
#[local] Existing Instance ex_threads.
#[local] Existing Instance small_layout.
#[local] Existing Instance ex_arrays.
#[local] Existing Instance ex_isr.
#[local] Instance ex_key_literals : Literals := fun _ => 9000.

(** The keyboard gives the byte 30; its format is at 9000. *)
Definition key_mem : mem := write_bytes small_literals 9000 (c_bytes "keyboard!0x%h\n" ++ [0]).
Definition key_sys : sys pmm := Build_sys (set_kern (set_vmm (set_mem key_mem (k_vmm ex_kern)) ex_kern) ex_sync) ∅.
Definition key_io : io pmm := Build_io (sy key_sys) 0 0 true.

Lemma key_start : sys_start ex_locks key_sys.
Proof. pose proof ex_start as [H1 H2 H3 H4]. by split. Qed.

Lemma key_console : console_ok key_mem.
Proof. split; [apply ex_arrays_ok|split; concrete_cstr|exact ex_away]. Qed.

Lemma key_line t : line_ok key_mem (handler_line 33 0 30 t).
Proof.
  split; cbn [handler_line decide decide_rel fst snd map arg_of].
  - concrete_string.
  - repeat (apply Forall_cons; split; [unfold disjoint_blocks, literal, ex_key_literals; cbn; lia|]); apply Forall_nil_2.
  - do 11 (apply tk_char; [vm_compute; lia|]). apply tk_hex; [by right|]. apply tk_char; [vm_compute; lia|]. constructor.
  - by repeat constructor.
  - vm_compute. lia.
Qed.

Lemma interrupts_handled_witness :
  exists s' tr out, int_func_route 1 8000 (init_tables ex_intr) 0 30 33 key_io = Ret s' Handled tr /\
    formats (c_bytes "keyboard!0x%h\n") [AInt 30] out /\
    shows (io_vga s') (term_text black white out (Build_term (vcell key_mem) 0)).
Proof.
  destruct (interrupts_handled ex_locks ex_intr key_sys key_sys key_io 0 8000 0 33 0 30 [8192; 12288] (ex_block 8192 0 TASK_RUNNING)
    (Build_term (vcell key_mem) 0) key_start) as [_ H].
  - apply rtc_refl.
  - done.
  - intros t a. unfold waits. cbn [pend key_sys]. by rewrite lookup_empty.
  - by apply elem_of_singleton.
  - done.
  - done.
  - done.
  - exact ex_inv.
  - done.
  - lia.
  - exact key_console.
  - intros _. apply key_line.
  - split; [done|cbn; lia|cbn; lia|done].
  - destruct H as (s' & tr & out & E & F & T & _). exists s', tr, out. exact (conj E (conj F T)).
Defined.
