(* ===== verification/Link.v ===== *)
(** * libs/utils/list.c: linked lists with an optional lock

    Lists and nodes are stores by address.  The lock of a list is part of its
    structure.  An operation reads the list, takes the lock when the list has
    one, writes, and releases it; the write is an element of [critical], so an
    operation that waits for the lock ends [Suspended] with its write left to
    do, and [critical_section] is what it does when it has the lock. *)

From S2P Require Import Prelude Memory Tcb Pmm Vmm VmmThm Tss UserVm Threads ThreadsSys Sync.

Record link_node_t := { ln_next : option Z; ln_data : Z }.
Record link_t := { link_head : option Z; have_lock : bool; lock_init_flag : bool }.

Record lnk (P : Type) := Build_lnk {
  l_sync : sync P;
  links : gmap Z link_t;
  lnodes : gmap Z link_node_t
}.
Arguments Build_lnk {P} l_sync links lnodes.
Arguments l_sync {P} s : rename.
Arguments links {P} s : rename.
Arguments lnodes {P} s : rename.

Definition set_lsync {P} (y : sync P) (s : lnk P) : lnk P := Build_lnk y (links s) (lnodes s).
Definition set_links {P} f (s : lnk P) : lnk P := Build_lnk (l_sync s) (f (links s)) (lnodes s).
Definition set_lnodes {P} f (s : lnk P) : lnk P := Build_lnk (l_sync s) (links s) (f (lnodes s)).

(** The field [lock] of link_t. *)
Definition link_lock (link : Z) : Z := link + 12.

(** What an operation writes with the lock held. *)
Inductive critical :=
  | Set_head (node : Z)            (* link->head = node *)
  | Set_next (probe node : Z)      (* probe->next = node *)
  | Push (node : Z)                (* probe = link->head; link->head = node; node->next = probe *)
  | Cut (node : Z).                (* node->next = NULL *)

Section code.
Context {P : Type} {PA : PageAllocator P} {L : VmmLayout} {TL : TssLayout} {HL : ThreadLayout}.

Definition in_lsync {A} (c : M (sync P) A) : M (lnk P) A := zoom l_sync set_lsync c.

Definition get_link (a : Z) : M (lnk P) link_t :=
  fun s => match links s !! a with Some x => Ret s x [] | None => Undef end.
Definition get_lnode (a : Z) : M (lnk P) link_node_t :=
  fun s => match lnodes s !! a with Some x => Ret s x [] | None => Undef end.
Definition set_lhead (a : Z) (v : option Z) : M (lnk P) unit :=
  l <- get_link a ;; modify (set_links (insert a {| link_head := v; have_lock := have_lock l; lock_init_flag := lock_init_flag l |})).
Definition set_lnext (a : Z) (v : option Z) : M (lnk P) unit :=
  n <- get_lnode a ;; modify (set_lnodes (insert a {| ln_next := v; ln_data := ln_data n |})).

Definition link_lock_acquire (fuel : nat) (node lock : Z) (flag : bool) : M (lnk P) flow :=
  if flag then in_lsync (lock_acquire fuel lock node) else ret Returned.
Definition link_lock_release (lock : Z) (flag : bool) : M (lnk P) unit :=
  if flag then in_lsync (lock_release lock) else ret tt.

Definition do_critical (link : Z) (c : critical) : M (lnk P) unit :=
  match c with
  | Set_head node => set_lhead link (Some node)
  | Set_next probe node => set_lnext probe (Some node)
  | Push node => l <- get_link link ;; set_lhead link (Some node) ;; set_lnext node (link_head l)
  | Cut node => set_lnext node None
  end.

Definition critical_section (link : Z) (c : critical) : M (lnk P) unit :=
  do_critical link c ;;
  l <- get_link link ;;
  link_lock_release (link_lock link) (lock_init_flag l).

(** [stack] is the stack slot of the wait node, as in [Sync]. *)
Definition locked (fuel : nat) (stack link : Z) (c : critical) : M (lnk P) flow :=
  l <- get_link link ;;
  r <- link_lock_acquire fuel stack (link_lock link) (lock_init_flag l) ;;
  match r with
  | Returned => critical_section link c ;; ret Returned
  | Suspended fs => ret (Suspended fs)
  end.

(** The result of an operation that removes: its value, and how it ended. *)
Definition remove_next_node (fuel : nat) (stack link node : Z) : M (lnk P) (bool * flow) :=
  n <- get_lnode node ;;
  match ln_next n with
  | None => ret (false, Returned)
  | Some _ => r <- locked fuel stack link (Cut node) ;; ret (true, r)
  end.

(** The head is not assigned. *)
Definition link_init_without_lock (link : Z) : M (lnk P) unit :=
  l <- get_link link ;;
  modify (set_links (insert link {| link_head := link_head l; have_lock := false; lock_init_flag := false |})).

Definition link_init_lock (link : Z) : M (lnk P) unit :=
  l <- get_link link ;;
  modify (set_links (insert link {| link_head := link_head l; have_lock := true; lock_init_flag := lock_init_flag l |})) ;;
  in_lsync (lock_init (link_lock link)) ;;
  modify (set_links (insert link {| link_head := link_head l; have_lock := true; lock_init_flag := true |})).

(** The function gives the data back, where its type says a node. *)
Fixpoint find_node_loop (fuel : nat) (probe : option Z) (data : Z) : M (lnk P) Z :=
  match fuel with
  | O => nofuel
  | S fuel' =>
      match probe with
      | None => ret 0
      | Some p =>
          n <- get_lnode p ;;
          if ln_data n =? data then ret data else find_node_loop fuel' (ln_next n) data
      end
  end.

Definition link_fuel (s : lnk P) : nat := S (base.size (lnodes s)).

Definition link_find_node_by_data (link data : Z) : M (lnk P) Z :=
  l <- get_link link ;;
  match link_head l with
  | None => ret 0
  | Some h => fuel <- gets link_fuel ;; find_node_loop fuel (Some h) data
  end.

(** [for(;probe->next!=NULL;probe = probe->next);] *)
Fixpoint find_tail (fuel : nat) (probe : Z) : M (lnk P) Z :=
  match fuel with
  | O => nofuel
  | S fuel' =>
      n <- get_lnode probe ;;
      match ln_next n with None => ret probe | Some q => find_tail fuel' q end
  end.

Definition link_add_tail (fuel : nat) (stack link node : Z) : M (lnk P) flow :=
  l <- get_link link ;;
  match link_head l with
  | None => locked fuel stack link (Set_head node)
  | Some h =>
      f <- gets link_fuel ;;
      probe <- find_tail f h ;;
      locked fuel stack link (Set_next probe node)
  end.

Definition link_add_head (fuel : nat) (stack link node : Z) : M (lnk P) flow := locked fuel stack link (Push node).

(** The loops of the two removals; [hit] is the test of the next node. *)
Fixpoint remove_loop (f fuel : nat) (stack link probe : Z) (hit : Z -> link_node_t -> bool) : M (lnk P) (bool * flow) :=
  match f with
  | O => nofuel
  | S f' =>
      n <- get_lnode probe ;;
      match ln_next n with
      | None => ret (false, Returned)
      | Some q =>
          nq <- get_lnode q ;;
          if hit q nq then remove_next_node fuel stack link probe else remove_loop f' fuel stack link q hit
      end
  end.

Definition link_remove_by (hit : Z -> link_node_t -> bool) (fuel : nat) (stack link : Z) : M (lnk P) (bool * flow) :=
  l <- get_link link ;;
  match link_head l with
  | None => ret (false, Returned)
  | Some h => f <- gets link_fuel ;; remove_loop f fuel stack link h hit
  end.

Definition link_remove_by_data (fuel : nat) (stack link data : Z) : M (lnk P) (bool * flow) :=
  link_remove_by (fun _ n => ln_data n =? data) fuel stack link.
Definition link_remove_by_node (fuel : nat) (stack link node : Z) : M (lnk P) (bool * flow) :=
  link_remove_by (fun q _ => q =? node) fuel stack link.

End code.

(** ** Lists *)

Fixpoint llist (nm : gmap Z link_node_t) (h : option Z) (l : list (Z * Z)) : Prop :=
  match l with
  | [] => h = None
  | (a, d) :: l' => h = Some a /\ exists n, nm !! a = Some n /\ ln_data n = d /\ llist nm (ln_next n) l'
  end.

Lemma llist_insert_ne nm h l a x : a ∉ l.*1 -> llist (<[a := x]> nm) h l <-> llist nm h l.
Proof.
  revert h. induction l as [|[b d] l IH]; intros h Hn; cbn [llist]; [done|]. rewrite fmap_cons in Hn.
  apply not_elem_of_cons in Hn as [Hne Hn]. cbn [fst] in Hne. rewrite lookup_insert_ne by done.
  split; intros (E & n & Hb & Hd & Hl); (split; [done|]); exists n; (split; [done|]); (split; [done|]); by apply (IH (ln_next n)).
Qed.

Lemma llist_lookup nm h l a : llist nm h l -> a ∈ l.*1 -> is_Some (nm !! a).
Proof.
  revert h. induction l as [|[b d] l IH]; intros h Hl Ha; [by apply elem_of_nil in Ha|].
  destruct Hl as (_ & n & Hb & _ & Hl). rewrite fmap_cons in Ha. apply elem_of_cons in Ha as [->|Ha]; eauto.
Qed.

Lemma llist_length nm h l : llist nm h l -> NoDup l.*1 -> (length l <= base.size nm)%nat.
Proof.
  intros H Hn. rewrite <- (length_fmap fst l), <- (size_list_to_set (C := gset Z)), <- size_dom by done.
  apply subseteq_size. intros x Hx. apply elem_of_list_to_set in Hx. apply elem_of_dom. by eapply llist_lookup.
Qed.

(** A list cut after a node. *)
Lemma llist_cut nm h l1 a d l2 :
  llist nm h (l1 ++ (a, d) :: l2) -> NoDup (l1 ++ (a, d) :: l2).*1 ->
  exists n, nm !! a = Some n /\ ln_data n = d /\ llist nm (ln_next n) l2 /\
    forall v l3, llist (<[a := {| ln_next := v; ln_data := d |}]> nm) v l3 ->
      llist (<[a := {| ln_next := v; ln_data := d |}]> nm) h (l1 ++ (a, d) :: l3).
Proof.
  revert h. induction l1 as [|[b e] l1 IH]; intros h Hl Hn; cbn [app llist] in *.
  - destruct Hl as (-> & n & Ha & Hd & Hl). exists n. split; [done|]. split; [done|]. split; [done|]. intros v l3 H3.
    split; [done|]. eexists. rewrite lookup_insert_eq. by split.
  - destruct Hl as (-> & n & Hb & He & Hl). rewrite fmap_cons in Hn. apply NoDup_cons in Hn as [Hnb Hn].
    destruct (IH _ Hl Hn) as (na & Ha & Hd & Hl2 & Hc). exists na. split; [done|]. split; [done|]. split; [done|].
    intros v l3 H3. split; [done|]. exists n. split; [|split; [done|by apply Hc]]. rewrite lookup_insert_ne; [done|].
    intros ->. apply Hnb. rewrite fmap_app, fmap_cons. apply elem_of_app. right. by left.
Qed.

Lemma list_split_last {A} (l : list A) : l = [] \/ exists l' x, l = l' ++ [x].
Proof. induction l as [|x l _] using rev_ind; [by left|right; by exists l, x]. Qed.

Section thm.
Context {P : Type} {PA : PageAllocator P} {L : VmmLayout} {TL : TssLayout} {HL : ThreadLayout}.
Implicit Types (s : lnk P).

Lemma bind_get_link {B} a (k : link_t -> M (lnk P) B) s x : links s !! a = Some x -> bind (get_link a) k s = k x s.
Proof. intros E. unfold bind, get_link. rewrite E. apply prepend_nil. Qed.
Lemma bind_get_lnode {B} a (k : _ -> M (lnk P) B) s x : lnodes s !! a = Some x -> bind (get_lnode a) k s = k x s.
Proof. intros E. unfold bind, get_lnode. rewrite E. apply prepend_nil. Qed.

Lemma set_lnext_eq a v s n :
  lnodes s !! a = Some n -> set_lnext a v s = Ret (set_lnodes (insert a {| ln_next := v; ln_data := ln_data n |}) s) tt [].
Proof. intros E. unfold set_lnext. by rewrite (bind_get_lnode _ _ _ _ E). Qed.
Lemma set_lhead_eq a v s x :
  links s !! a = Some x ->
  set_lhead a v s = Ret (set_links (insert a {| link_head := v; have_lock := have_lock x; lock_init_flag := lock_init_flag x |}) s) tt [].
Proof. intros E. unfold set_lhead. by rewrite (bind_get_link _ _ _ _ E). Qed.

(** A list without a lock: the write is done at once. *)
Lemma locked_plain fuel stack link c s s' lk lk' :
  links s !! link = Some lk -> lock_init_flag lk = false -> do_critical link c s = Ret s' tt [] ->
  links s' !! link = Some lk' -> lock_init_flag lk' = false -> locked fuel stack link c s = Ret s' Returned [].
Proof.
  intros E F D E' F'. unfold locked. rewrite (bind_get_link _ _ _ _ E), F. cbn [link_lock_acquire]. rewrite bind_ret.
  assert (Cs : critical_section link c s = Ret s' tt []).
  { unfold critical_section. by rewrite (bind_ret_eq _ _ _ _ _ _ D), prepend_nil, (bind_get_link _ _ _ _ E'), F'. }
  by rewrite (bind_ret_eq _ _ _ _ _ _ Cs).
Qed.

Lemma find_tail_eq s h l a d fuel :
  llist (lnodes s) (Some h) (l ++ [(a, d)]) -> (length l < fuel)%nat -> find_tail fuel h s = Ret s a [].
Proof.
  revert h fuel. induction l as [|[b e] l IH]; intros h fuel Hl Hf; (destruct fuel as [|fuel]; [cbn in Hf; lia|]); cbn [find_tail app llist] in *.
  - destruct Hl as ([= ->] & n & Ha & _ & Hn). by rewrite (bind_get_lnode _ _ _ _ Ha), Hn.
  - destruct Hl as ([= ->] & n & Hb & _ & Hl). rewrite (bind_get_lnode _ _ _ _ Hb).
    assert (exists q, ln_next n = Some q) as [q Eq] by (destruct l as [|[c f] l]; destruct Hl as [Eq _]; eauto).
    rewrite Eq in *. apply IH; [done|cbn in Hf; lia].
Qed.

Lemma add_tail_eq s link lk l a d fuel stack node :
  links s !! link = Some lk -> llist (lnodes s) (link_head lk) (l ++ [(a, d)]) -> NoDup (l ++ [(a, d)]).*1 ->
  link_add_tail fuel stack link node s = locked fuel stack link (Set_next a node) s.
Proof.
  intros E Hl Hn. unfold link_add_tail. rewrite (bind_get_link _ _ _ _ E).
  assert (exists h, link_head lk = Some h) as [h Eh] by (destruct l as [|[c f] l]; destruct Hl as [Eq _]; eauto).
  pose proof (llist_length _ _ _ Hl Hn) as Hlen. rewrite length_app in Hlen. cbn [length] in Hlen.
  rewrite Eh in *. rewrite bind_gets. erewrite bind_ret_eq by (eapply find_tail_eq; [exact Hl|unfold link_fuel; lia]).
  by rewrite prepend_nil.
Qed.

(** The write of an addition at the tail. *)
Lemma set_next_spec s link lk l a d nd chain :
  links s !! link = Some lk -> llist (lnodes s) (link_head lk) (l ++ [(a, d)]) -> NoDup (l ++ [(a, d)]).*1 ->
  llist (lnodes s) (Some nd) chain -> a ∉ chain.*1 ->
  exists s', do_critical link (Set_next a nd) s = Ret s' tt [] /\ links s' = links s /\ l_sync s' = l_sync s /\
    llist (lnodes s') (link_head lk) (l ++ (a, d) :: chain) /\
    (forall b, b <> a -> lnodes s' !! b = lnodes s !! b) /\ ln_data <$> lnodes s' !! a = Some d.
Proof.
  intros E Hl Hn Hc Ha. destruct (llist_cut _ _ _ _ _ _ Hl Hn) as (n & En & Ed & _ & Hcut). cbn [do_critical].
  rewrite (set_lnext_eq _ _ _ _ En), Ed. eexists. split; [reflexivity|]. split; [done|]. split; [done|]. cbn [lnodes set_lnodes].
  split; [|split].
  - apply Hcut. by apply llist_insert_ne.
  - intros b Hb. by rewrite lookup_insert_ne by congruence.
  - by rewrite lookup_insert_eq.
Qed.

(** Adding to a list without a lock: at the head, the node comes first; at the
    tail, the node is appended with whatever nodes its own [next] leads to. *)
Theorem link_add_spec s link lk l node chain fuel stack n0 :
  links s !! link = Some lk -> lock_init_flag lk = false ->
  llist (lnodes s) (link_head lk) l -> NoDup l.*1 -> lnodes s !! node = Some n0 -> node ∉ l.*1 ->
  llist (lnodes s) (Some node) chain -> (forall a, a ∈ l.*1 -> a ∉ chain.*1) ->
  (exists s' lk', link_add_tail fuel stack link node s = Ret s' Returned [] /\ links s' !! link = Some lk' /\
     llist (lnodes s') (link_head lk') (l ++ chain)) /\
  (exists s' lk', link_add_head fuel stack link node s = Ret s' Returned [] /\ links s' !! link = Some lk' /\
     llist (lnodes s') (link_head lk') ((node, ln_data n0) :: l)).
Proof.
  intros E F Hl Hn En Hnode Hc Hd. split.
  - destruct (list_split_last l) as [->|(l' & [a d] & ->)].
    + cbn [llist] in Hl. unfold link_add_tail. rewrite (bind_get_link _ _ _ _ E), Hl.
      eexists _, _. split; [|split].
      * eapply (locked_plain _ _ _ _ _ _ lk); [done|done|apply (set_lhead_eq _ _ _ _ E)| |].
        -- cbn [links set_links]. by rewrite lookup_insert_eq.
        -- done.
      * cbn [links set_links]. by rewrite lookup_insert_eq.
      * done.
    + rewrite (add_tail_eq _ _ _ _ _ _ _ _ _ E Hl Hn).
      destruct (set_next_spec s link lk l' a d node chain E Hl Hn Hc) as (s' & D & El & _ & Hl' & _).
      { apply Hd. rewrite fmap_app. apply elem_of_app. right. by left. }
      exists s', lk. split; [|split; [by rewrite El|by rewrite <- app_assoc]].
      eapply locked_plain; [done|done|exact D|by rewrite El|done].
  - unfold link_add_head. eexists _, _. split; [|split].
    + eapply (locked_plain _ _ _ _ _ _ lk); [done|done| | |].
      * cbn [do_critical]. rewrite (bind_get_link _ _ _ _ E). erewrite bind_ret_eq by apply (set_lhead_eq _ _ _ _ E).
        rewrite prepend_nil. by apply set_lnext_eq.
      * cbn [links set_links set_lnodes]. by rewrite lookup_insert_eq.
      * done.
    + cbn [links set_links set_lnodes]. by rewrite lookup_insert_eq.
    + cbn [link_head lnodes set_links set_lnodes llist]. split; [done|]. eexists. rewrite lookup_insert_eq. split; [done|].
      split; [done|]. cbn [ln_next]. by apply llist_insert_ne.
Qed.

(** The loop of a removal stops in front of the first node that is hit. *)
Lemma remove_loop_miss s h l f fuel stack link hit :
  llist (lnodes s) (Some h) l -> Forall (fun x => forall n, lnodes s !! x.1 = Some n -> hit x.1 n = false) (tail l) ->
  (length l <= f)%nat -> remove_loop f fuel stack link h hit s = Ret s (false, Returned) [].
Proof.
  revert h f. induction l as [|[b e] l IH]; intros h f Hl Hh Hf; [discriminate Hl|].
  destruct Hl as ([= ->] & n & Hb & _ & Hl). destruct f as [|f]; [cbn in Hf; lia|]. cbn [remove_loop tail] in *.
  rewrite (bind_get_lnode _ _ _ _ Hb). destruct l as [|[c g] l].
  - cbn [llist] in Hl. by rewrite Hl.
  - pose proof Hl as (Eq & nc & Hc & _). rewrite Eq in *. rewrite (bind_get_lnode _ _ _ _ Hc).
    apply Forall_cons in Hh as [H1 H2]. specialize (H1 nc Hc). cbn [fst] in H1. rewrite H1. apply IH; [done|done|cbn in *; lia].
Qed.

Lemma remove_loop_hit s h l1 a d b e l2 f fuel stack link hit nb :
  llist (lnodes s) (Some h) (l1 ++ (a, d) :: (b, e) :: l2) ->
  Forall (fun x => forall n, lnodes s !! x.1 = Some n -> hit x.1 n = false) (tail (l1 ++ [(a, d)])) ->
  lnodes s !! b = Some nb -> hit b nb = true -> (length l1 < f)%nat ->
  remove_loop f fuel stack link h hit s = remove_next_node fuel stack link a s.
Proof.
  revert h f. induction l1 as [|[b1 e1] l1 IH]; intros h f Hl Hh Hb Hit Hf; (destruct f as [|f]; [cbn in Hf; lia|]);
    cbn [remove_loop app llist tail] in *.
  - destruct Hl as ([= ->] & n & Ha & _ & Eq & _). rewrite (bind_get_lnode _ _ _ _ Ha), Eq, (bind_get_lnode _ _ _ _ Hb). by rewrite Hit.
  - destruct Hl as ([= ->] & n & Hn & _ & Hl). rewrite (bind_get_lnode _ _ _ _ Hn).
    assert (exists c g l', l1 ++ [(a, d)] = (c, g) :: l') as (c & g & l' & El) by (destruct l1 as [|[c g] l1]; eauto).
    assert (Hc : exists nc, ln_next n = Some c /\ lnodes s !! c = Some nc).
    { assert (Hl' : llist (lnodes s) (ln_next n) ((c, g) :: l' ++ (b, e) :: l2)).
      { replace ((c, g) :: l' ++ (b, e) :: l2) with ((l1 ++ [(a, d)]) ++ (b, e) :: l2) by (by rewrite El). by rewrite <- app_assoc. }
      destruct Hl' as (Eq & nc & Hc & _). by exists nc. }
    destruct Hc as (nc & Eq & Hc). rewrite Eq in *. rewrite (bind_get_lnode _ _ _ _ Hc). rewrite El in Hh.
    apply Forall_cons in Hh as [H1 H2]. specialize (H1 nc Hc). cbn [fst] in H1. rewrite H1. apply IH; [done|by rewrite El|done|done|cbn in Hf; lia].
Qed.

Lemma llist_app_lookup nm h l1 a d l2 : llist nm h (l1 ++ (a, d) :: l2) -> exists n, nm !! a = Some n /\ ln_data n = d.
Proof.
  revert h. induction l1 as [|[b e] l1 IH]; intros h Hl; cbn [app llist] in Hl.
  - destruct Hl as (_ & n & Ha & Hd & _). by exists n.
  - destruct Hl as (_ & n & _ & _ & Hl). by eapply IH.
Qed.

Lemma llist_data nm h l x n : llist nm h l -> NoDup l.*1 -> x ∈ l -> nm !! x.1 = Some n -> ln_data n = x.2.
Proof.
  intros Hl _ Hx Hn. destruct x as [a d]. apply list_elem_of_split in Hx as (l1 & l2 & ->).
  destruct (llist_app_lookup _ _ _ _ _ _ Hl) as (n' & Hn' & Hd). cbn [fst snd] in *. congruence.
Qed.

(** Removal by data from a list without a lock.  The head is never looked at.
    When the data is in a later node, the answer is true and the list ends
    before that node: the nodes behind it are lost too.  When it is in no later
    node, the answer is false and nothing changes. *)
Theorem link_remove_by_data_spec s link lk x l data fuel stack :
  links s !! link = Some lk -> lock_init_flag lk = false ->
  llist (lnodes s) (link_head lk) (x :: l) -> NoDup (x :: l).*1 ->
  if decide (data ∈ l.*2) then
    exists l1 b l2 s', l = l1 ++ (b, data) :: l2 /\ data ∉ l1.*2 /\
      link_remove_by_data fuel stack link data s = Ret s' (true, Returned) [] /\ links s' = links s /\
      llist (lnodes s') (link_head lk) (x :: l1)
  else link_remove_by_data fuel stack link data s = Ret s (false, Returned) [].
Proof.
  intros E F Hl Hn. pose proof (llist_length _ _ _ Hl Hn) as Hlen.
  assert (exists h, link_head lk = Some h) as [h Eh] by (destruct x, Hl as [Eq _]; eauto).
  assert (Miss : forall l1 l2, l = l1 ++ l2 -> data ∉ l1.*2 ->
    Forall (fun y => forall n, lnodes s !! y.1 = Some n -> (ln_data n =? data) = false) l1).
  { intros l1 l2 -> Hd. apply Forall_forall. intros y Hy n Ey. apply Z.eqb_neq. intros En. apply Hd.
    apply list_elem_of_fmap. exists y. split; [|done]. rewrite <- En. eapply llist_data; [exact Hl|done| |done].
    right. apply elem_of_app. by left. }
  unfold link_remove_by_data, link_remove_by. rewrite (bind_get_link _ _ _ _ E), Eh, bind_gets. rewrite Eh in Hl. case_decide as Hd.
  - assert (Hs : exists l1 b l2, l = l1 ++ (b, data) :: l2 /\ data ∉ l1.*2).
    { clear -Hd. induction l as [|[b e] l IH]; [by apply elem_of_nil in Hd|]. destruct (decide (e = data)) as [->|Hne].
      - exists [], b, l. split; [done|]. apply not_elem_of_nil.
      - rewrite fmap_cons in Hd. apply elem_of_cons in Hd as [->|Hd]; [done|]. destruct (IH Hd) as (l1 & b' & l2 & -> & Hn).
        exists ((b, e) :: l1), b', l2. split; [done|]. rewrite fmap_cons. by apply not_elem_of_cons. }
    destruct Hs as (l1 & b & l2 & -> & Hd1). pose proof (Miss _ _ eq_refl Hd1) as Hm. exists l1, b, l2.
    destruct (list_split_last (x :: l1)) as [?|(l0 & [a d] & El)]; [done|].
    assert (Efull : x :: l1 ++ (b, data) :: l2 = l0 ++ (a, d) :: (b, data) :: l2).
    { change (x :: l1 ++ (b, data) :: l2) with ((x :: l1) ++ (b, data) :: l2). rewrite El. by rewrite <- app_assoc. }
    rewrite Efull in Hl, Hn, Hlen. destruct (llist_cut _ _ _ _ _ _ Hl Hn) as (na & Ha & Hda & Hrest & Hcut).
    destruct Hrest as (Enext & nb & Hb & Hdb & _).
    assert (Er : remove_loop (link_fuel s) fuel stack link h (fun _ n => ln_data n =? data) s = remove_next_node fuel stack link a s).
    { eapply remove_loop_hit; [exact Hl| |exact Hb|by apply Z.eqb_eq|].
      - rewrite <- El. exact Hm.
      - rewrite length_app in Hlen. unfold link_fuel. lia. }
    rewrite Er. unfold remove_next_node. rewrite (bind_get_lnode _ _ _ _ Ha), Enext.
    set (s' := set_lnodes (insert a {| ln_next := None; ln_data := ln_data na |}) s). exists s'.
    split; [done|]. split; [done|]. split; [|split; [done|]].
    + assert (Ec : locked fuel stack link (Cut a) s = Ret s' Returned [])
        by (eapply locked_plain; [done|done|by apply set_lnext_eq|done|done]).
      by rewrite (bind_ret_eq _ _ _ _ _ _ Ec).
    + rewrite El. unfold s'. cbn [lnodes set_lnodes]. rewrite Hda. by apply (Hcut None []).
  - apply (remove_loop_miss _ _ (x :: l)); [done| |unfold link_fuel; lia]. cbn [tail]. apply (Miss l []); [by rewrite app_nil_r|done].
Qed.

(** Two threads add at the tail of the same list.  Both find the tail before
    either has the lock; whatever the order in which they then write, the node
    of the first writer is lost. *)
Lemma link_add_tail_race s link lk l a d n1 n2 x1 x2 :
  links s !! link = Some lk -> llist (lnodes s) (link_head lk) (l ++ [(a, d)]) -> NoDup (l ++ [(a, d)]).*1 ->
  lnodes s !! n1 = Some x1 -> lnodes s !! n2 = Some x2 -> ln_next x1 = None -> ln_next x2 = None -> a <> n1 -> a <> n2 ->
  (forall fuel stack node, link_add_tail fuel stack link node s = locked fuel stack link (Set_next a node) s) /\
  exists s1 s2, do_critical link (Set_next a n1) s = Ret s1 tt [] /\
    llist (lnodes s1) (link_head lk) (l ++ [(a, d); (n1, ln_data x1)]) /\
    do_critical link (Set_next a n2) s1 = Ret s2 tt [] /\
    llist (lnodes s2) (link_head lk) (l ++ [(a, d); (n2, ln_data x2)]).
Proof.
  intros E Hl Hn E1 E2 X1 X2 A1 A2. split; [intros; by eapply add_tail_eq|].
  assert (Chain : forall nm n x, nm !! n = Some x -> ln_next x = None -> llist nm (Some n) [(n, ln_data x)]).
  { intros nm n x Ex Nx. split; [done|]. by exists x. }
  destruct (set_next_spec s link lk l a d n1 [(n1, ln_data x1)] E Hl Hn (Chain _ _ _ E1 X1)) as (s1 & D1 & L1 & _ & H1 & O1 & T1);
    [by intros ->%list_elem_of_singleton|]. exists s1.
  destruct (lnodes s1 !! a) as [na|] eqn:Ea; [|done]. injection T1 as T1.
  exists (set_lnodes (insert a {| ln_next := Some n2; ln_data := ln_data na |}) s1). split; [done|]. split; [done|].
  split; [by apply set_lnext_eq|]. cbn [lnodes set_lnodes]. rewrite T1.
  destruct (llist_cut _ _ _ _ _ _ Hl Hn) as (n0 & En0 & Ed0 & _ & Hcut).
  assert (Hs2 : forall b, <[a := {| ln_next := Some n2; ln_data := d |}]> (lnodes s1) !! b = <[a := {| ln_next := Some n2; ln_data := d |}]> (lnodes s) !! b).
  { intros b. destruct (decide (b = a)) as [->|Hb]; [by rewrite !lookup_insert_eq|]. rewrite !lookup_insert_ne by congruence. by apply O1. }
  rewrite (map_eq _ _ Hs2). apply Hcut. apply Chain; [|done]. by rewrite lookup_insert_ne by congruence.
Qed.
End thm.

(** ** A concrete list *)

#[local] Existing Instance small_vmm_layout.
#[local] Existing Instance small_tss.
#[local] Existing Instance ex_threads.

(** The list at 100 has the nodes 10, 20, 30 with data 1, 2, 3; 40 and 50 are
    free nodes. *)
Definition ex_lnk : lnk pmm :=
  Build_lnk (Build_sync ex_kern ∅ ∅ ∅) (<[100 := {| link_head := Some 10; have_lock := false; lock_init_flag := false |}]> ∅)
    (<[10 := {| ln_next := Some 20; ln_data := 1 |}]> (<[20 := {| ln_next := Some 30; ln_data := 2 |}]>
      (<[30 := {| ln_next := None; ln_data := 3 |}]> (<[40 := {| ln_next := None; ln_data := 4 |}]>
        (<[50 := {| ln_next := None; ln_data := 5 |}]> ∅))))).

Lemma ex_llist : llist (lnodes ex_lnk) (Some 10) [(10, 1); (20, 2); (30, 3)].
Proof. repeat (split; [reflexivity|eexists; split; [reflexivity|split; [reflexivity|]]]). reflexivity. Qed.
Lemma ex_lnodup : NoDup [10; 20; 30].
Proof. apply (bool_decide_unpack _). by vm_compute. Qed.

Lemma link_remove_by_data_spec_witness :
  exists l1 b l2 s', [(20, 2); (30, 3)] = l1 ++ (b, 2) :: l2 /\ 2 ∉ l1.*2 /\
    link_remove_by_data 1 0 100 2 ex_lnk = Ret s' (true, Returned) [] /\ links s' = links ex_lnk /\
    llist (lnodes s') (Some 10) ((10, 1) :: l1).
Proof.
  exact (link_remove_by_data_spec ex_lnk 100 _ (10, 1) [(20, 2); (30, 3)] 2 1 0 eq_refl eq_refl ex_llist ex_lnodup).
Defined.

Lemma link_add_spec_witness :
  (exists s' lk', link_add_tail 1 0 100 40 ex_lnk = Ret s' Returned [] /\ links s' !! 100 = Some lk' /\
     llist (lnodes s') (link_head lk') [(10, 1); (20, 2); (30, 3); (40, 4)]) /\
  (exists s' lk', link_add_head 1 0 100 40 ex_lnk = Ret s' Returned [] /\ links s' !! 100 = Some lk' /\
     llist (lnodes s') (link_head lk') [(40, 4); (10, 1); (20, 2); (30, 3)]).
Proof.
  apply (link_add_spec ex_lnk 100 {| link_head := Some 10; have_lock := false; lock_init_flag := false |}
    [(10, 1); (20, 2); (30, 3)] 40 [(40, 4)] 1 0 {| ln_next := None; ln_data := 4 |});
    [done|done|exact ex_llist|exact ex_lnodup|done| | |].
  - apply (bool_decide_unpack _). by vm_compute.
  - split; [done|]. by eexists.
  - intros a Ha ->%list_elem_of_singleton. revert Ha. apply (bool_decide_unpack _). by vm_compute.
Defined.

Lemma link_add_tail_race_witness :
  (forall fuel stack node, link_add_tail fuel stack 100 node ex_lnk = locked fuel stack 100 (Set_next 30 node) ex_lnk) /\
  exists s1 s2, do_critical 100 (Set_next 30 40) ex_lnk = Ret s1 tt [] /\
    llist (lnodes s1) (Some 10) [(10, 1); (20, 2); (30, 3); (40, 4)] /\
    do_critical 100 (Set_next 30 50) s1 = Ret s2 tt [] /\
    llist (lnodes s2) (Some 10) [(10, 1); (20, 2); (30, 3); (50, 5)].
Proof.
  exact (link_add_tail_race ex_lnk 100 {| link_head := Some 10; have_lock := false; lock_init_flag := false |} [(10, 1); (20, 2)] 30 3 40 50
    {| ln_next := None; ln_data := 4 |} {| ln_next := None; ln_data := 5 |} eq_refl ex_llist ex_lnodup eq_refl eq_refl eq_refl eq_refl
    ltac:(done) ltac:(done)).
Defined.
