(* ===== verification/VmmUser.v ===== *)
(** * The first page of a user task in a region of 4 MB

    [vmm_user_alloc_one_page] when the task has no page table for the address:
    the table is allocated from the kernel's pool, cleared and entered in the
    directory of the task. *)

From S2P Require Import Prelude Memory CString Bitmap KernLog Pmm PmmThm PageTable Tcb Vmm VmmThm.

Section user.
Context {P : Type} {PA : PageAllocator P} {PS : PageAllocatorSpec P} {L : VmmLayout}.
Implicit Types (s : vmm P) (F : list Z).

(** The frame [f] with the flags of a user page. *)
Definition user_pte (f : Z) : Z := f + 263.

(** A cleared page. *)
Definition zero_page : list Z := replicate (Z.to_nat 4096) 0.

Lemma length_zero_page : Z.of_nat (length zero_page) = 4096.
Proof. unfold zero_page. rewrite length_replicate. lia. Qed.
Lemma zero_page_lookup i : 0 <= i < 4096 -> zero_page !!! Z.to_nat i = 0.
Proof. intros Hi. unfold zero_page. by rewrite lookup_total_replicate_2 by lia. Qed.
Lemma bzero_page a (m : mem) : bzero a PAGE_SIZE m = Ret (write_bytes m a zero_page) tt [].
Proof. exact (memset_eq a 0 PAGE_SIZE m). Qed.
Lemma memset_page a (m : mem) : memset a 0 4096 m = Ret (write_bytes m a zero_page) tt [].
Proof. exact (memset_eq a 0 4096 m). Qed.
#[global] Opaque zero_page.

(** The memory after the table [a] was cleared and entered. *)
Definition table_mem (m : mem) (a pde f : Z) : mem := st32 (write_bytes m a zero_page) pde (user_pte f).

Lemma create_user_page_table_eq s F pde p0 :
  vmm_ok s -> pa_inv (v_pages s) F -> pa_ready (v_pages s) -> F <> [] -> p0 ∈ free_set kern_pool (v_mem s) ->
  (forall p, p ∈ free_set kern_pool (v_mem s) -> page_addr kern_pool p < 4290772992) ->
  exists s1 p f F', p ∈ free_set kern_pool (v_mem s) /\ F ≡ₚ f :: F' /\ pa_inv (v_pages s1) F' /\
    0 <= f < 4294967296 /\ f `mod` 4096 = 0 /\ page_mapped s s1 (page_addr kern_pool p) p f /\
    vmm_kern_alloc s = Ret s1 (page_addr kern_pool p) [Invlpg (page_addr kern_pool p)] /\
    create_user_page_table pde s =
      Ret (set_mem (table_mem (v_mem s1) (page_addr kern_pool p) pde f) s1) true
        [Invlpg (page_addr kern_pool p)].
Proof.
  intros Hs Hinv Hready HF Hp0 Hlow.
  destruct (kern_alloc_cases s F Hs Hinv Hready) as [(m & _ & _ & [E| ->])|(s1 & p & f & F' & Hp & _ & E & HF1 & Hinv1 & Hmap)].
  - exfalso. rewrite E in Hp0. by apply not_elem_of_empty in Hp0.
  - done.
  - exists s1, p, f, F'. pose proof Hmap as [_ _ He _ _ [Hf Hal] _].
    split; [done|]. split; [done|]. split; [done|]. split; [done|]. split; [done|]. split; [done|]. split; [done|].
    specialize (Hlow p Hp). apply elem_of_free_set in Hp as [Hpr _]. set (a := page_addr kern_pool p) in *.
    assert (Ha : 3221225472 <= a /\ a + 4096 <= 4290772992 /\ a `mod` 4096 = 0).
    { unfold a, page_addr in *. cbn [kern_pool target_addr_header] in *. split; [lia|]. split; [lia|dlia]. }
    destruct Ha as (Ha0 & Ha & Ham). unfold create_user_page_table. run E by idtac.
    rewrite (proj2 (Z.eqb_neq a KERN_VMM_ALLOC_ERRO)) by (unfold KERN_VMM_ALLOC_ERRO; lia).
    set (m1 := write_bytes (v_mem s1) a zero_page).
    rewrite (bind_ret_eq _ _ _ _ _ _ (on_mem_ret _ _ _ _ _ (bzero_page a (v_mem s1)))). fold m1.
    rewrite prepend_nil.
    destruct (get_pte_range a ltac:(lia)) as [Hg1 Hg2].
    assert (E2 : ld32 m1 (get_pte a) = f + 259).
    { rewrite <- He. unfold ld32, m1. by rewrite !ld8_write_bytes_out by (rewrite ?length_zero_page; unfold region; lia). }
    destruct (v2p_eq (set_mem m1 s1) a) as [_ Ev]; [lia|]. cbn [v_mem set_mem] in Ev. rewrite E2, pte_frame, Ham, Z.add_0_r in Ev by done.
    rewrite (bind_ret_eq _ _ _ _ _ _ Ev), prepend_nil.
    assert (f <= 4294963200) by dlia.
    rewrite (proj2 (Z.eqb_neq f V2P_ERROR)) by (unfold V2P_ERROR; lia).
    rewrite user_pte_value by done. reflexivity.
Qed.
(** The directory entry of [vaddr] and the bits of the pool, away from each
    other, from the page-table window, the kernel's bits and its free pages. *)
Record task_apart s (t : TCB_t) (pde : Z) : Prop := {
  ta_pool_low : 0 <= vaddr_header (user_vmm_pool t);
  ta_pde : 0 <= pde /\ pde + 4 <= 4290772992;
  ta_pde_pool : disjoint_blocks pde 4 (vaddr_header (user_vmm_pool t)) (bm_length (user_vmm_pool t));
  ta_pool : disjoint_blocks kern_bitmap 32768 (vaddr_header (user_vmm_pool t)) (bm_length (user_vmm_pool t));
  ta_pages : forall q, q ∈ free_set kern_pool (v_mem s) -> let a := page_addr kern_pool q in
    a + 4096 <= 4290772992 /\ disjoint_blocks a 4096 pde 4 /\
    disjoint_blocks a 4096 (vaddr_header (user_vmm_pool t)) (bm_length (user_vmm_pool t))
}.

Lemma free_set_other bm bm' m p v :
  bitmap_wf bm -> bitmap_wf bm' -> 0 <= p < pages bm' ->
  disjoint_blocks (vaddr_header bm) (bm_length bm) (vaddr_header bm') (bm_length bm') ->
  free_set bm (st8 m (vaddr_header bm' + p / 8) v) = free_set bm m.
Proof.
  intros [H1 _ _ _ _] [H2 _ _ _ _] Hp Hd. apply free_set_ext. intros q Hq.
  unfold is_free, pages, disjoint_blocks, region in *. rewrite ld8_st8_ne; [done|]. rewrite !u32_small by dlia. dlia.
Qed.
Lemma table_mem_low m a pde f b :
  0 <= b < 4294967296 -> 0 <= a -> a + 4096 <= 4294967296 -> 0 <= pde -> pde + 4 <= 4294967296 ->
  b < a \/ a + 4096 <= b -> b < pde \/ pde + 4 <= b -> ld8 (table_mem m a pde f) b = ld8 m b.
Proof.
  intros Hb Ha Ha1 Hp Hp1 H1 H2. unfold table_mem. rewrite ld8_st32_ne by (intros i Hi; rewrite !u32_small by lia; lia).
  apply ld8_write_bytes_out; unfold region; rewrite ?length_zero_page; lia.
Qed.

Lemma table_mem_entries m a pde f :
  0 <= a -> a + 4096 <= 4294967296 -> disjoint_blocks a 4096 pde 4 -> 0 <= pde -> pde + 4 <= 4294967296 ->
  0 <= f < 4294967296 -> f `mod` 4096 = 0 ->
  (forall i, 0 <= i < 4096 -> ld8 (table_mem m a pde f) (a + i) = 0) /\ ld32 (table_mem m a pde f) pde = user_pte f.
Proof.
  intros Ha Ha1 Hd Hp Hp1 Hf Hal. unfold disjoint_blocks in Hd. split.
  - intros i Hi. unfold table_mem. rewrite ld8_st32_ne by (intros j Hj; rewrite !u32_small by lia; lia).
    rewrite ld8_write_bytes_in by (unfold region; rewrite ?length_zero_page; lia).
    by rewrite zero_page_lookup.
  - unfold table_mem. rewrite ld32_st32_eq. apply u32_small. unfold user_pte. assert (f <= 4294963200) by dlia. lia.
Qed.

(** The first page of a task in a region of 4 MB. *)
Lemma new_table_cases s F t vaddr p p0 :
  let U := user_vmm_pool t in
  let m1 := st8 (v_mem s) (vaddr_header U + p / 8) (ld8 (v_mem s) (vaddr_header U + p / 8) - 2 ^ (7 - p `mod` 8)) in
  let pde := u32 (pdt_vaddr t + Z.land (Z.shiftr vaddr 22) 1023 * 4) in
  vmm_ok s -> user_ok s t -> task_apart s t pde -> pa_inv (v_pages s) F -> pa_ready (v_pages s) -> (2 <= length F)%nat ->
  (forall s1 a tr, vmm_kern_alloc (set_mem m1 s) = Ret s1 a tr -> pa_ready (v_pages s1)) ->
  p0 ∈ free_set kern_pool (v_mem s) ->
  0 <= vaddr < 3221225472 -> page_of U vaddr = Some p -> is_free U (v_mem s) p = true -> Z.testbit (ld32 m1 pde) 0 = false ->
  exists s' q f1 f2 F', let a := page_addr kern_pool q in
    vmm_user_alloc_one_page t vaddr s = Ret s' (page_addr U p) [Invlpg a; Invlpg (page_addr U p)] /\
    q ∈ free_set kern_pool (v_mem s) /\ F ≡ₚ f1 :: f2 :: F' /\ f1 `mod` 4096 = 0 /\ f2 `mod` 4096 = 0 /\
    pa_inv (v_pages s') F' /\ free_set U (v_mem s') = free_set U (v_mem s) ∖ {[p]} /\
    (forall i, 0 <= i < 1024 -> i <> pte_index vaddr -> ld32 (v_mem s') (a + 4 * i) = 0) /\
    ld32 (v_mem s') pde = user_pte f1 /\ ld32 (v_mem s') (get_pte vaddr) = user_pte f2 /\
    vmm_ok s' /\ user_ok s' t.
Proof.
  intros U m1 pde Hs Hu [Hp0 [Hd0 Hd1] Hdp Hkp Hpg] Hinv Hready HF2 Hready2 Hfree0 Hv Hp Hfree Hpde.
  assert (Hv' : 0 <= vaddr < 4294967296) by lia. pose proof (us_pool _ _ Hu) as Hwf. pose proof (us_low _ _ Hu) as Hul.
  fold U in Hwf, Hul, Hp0, Hdp, Hkp, Hpg. pose proof (page_of_Some _ _ _ Hp) as Hpr. set (s0 := set_mem m1 s).
  assert (Hks : free_set kern_pool m1 = free_set kern_pool (v_mem s)) by (apply free_set_other; [by eapply kern_pool_wf|done..]).
  assert (Efs : free_set U m1 = free_set U (v_mem s) ∖ {[p]}) by (by apply free_set_clear).
  destruct (create_user_page_table_eq s0 F pde p0) as (s1 & q & f1 & F1 & Hq & HF1 & Hinv1 & Hf1 & Hal1 & Hmap & E0 & E1);
    [by apply vmm_ok_mem|done|done|by intros ->; cbn in HF2; lia|cbn [s0 v_mem set_mem]; by rewrite Hks| |].
  { cbn [s0 v_mem set_mem]. rewrite Hks. intros r Hr. destruct (Hpg r Hr) as [? _]. lia. }
  cbn [s0 v_mem set_mem] in Hq. rewrite Hks in Hq. pose proof (Hpg q Hq) as Ha. cbv zeta in Ha. set (a := page_addr kern_pool q) in *.
  destruct Ha as (Ha & Had & Hap). assert (Ha0 : 3221225472 <= a).
  { apply elem_of_free_set in Hq as [Hqr _]. unfold a, page_addr. cbn [kern_pool target_addr_header]. lia. }
  set (m2 := table_mem (v_mem s1) a pde f1) in *. set (s2 := set_mem m2 s1) in *.
  destruct (pa_alloc (v_pages s1) F1 Hinv1 (Hready2 _ _ _ E0)) as [(-> & _)|(p' & r & F' & E2 & Hst & Hr & Hal & HF' & Hinv')].
  { exfalso. apply Permutation_length in HF1. cbn in HF1. lia. }
  destruct (get_pte_range vaddr Hv') as [Hg1 Hg2].
  eexists _, q, f1, (addr r), F'. cbv zeta. fold a. split; [|split; [done|split; [by rewrite HF1, HF'|split; [done|split; [done|]]]]].
  - rewrite vmm_user_alloc_head by done. fold U.
    pose proof (alloc_one_page_eq U vaddr (v_mem s) Hwf Hv') as Ea. rewrite Hp, Hfree in Ea. fold m1 in Ea.
    rewrite (bind_ret_eq _ _ _ _ _ _ (on_mem_ret _ _ _ _ _ Ea)), prepend_nil. fold s0.
    rewrite (proj2 (Z.eqb_neq _ _)) by (by apply page_addr_not_erro).
    assert (Ep : vmm_user_check_pt_present (pdt_vaddr t) vaddr s0 = Ret s0 false []).
    { unfold vmm_user_check_pt_present. fold pde. run (on_mem_load32 _ _) by idtac. run (on_mem_load32 _ _) by idtac.
      cbn [s0 v_mem set_mem]. unfold ret. f_equal. apply Z.eqb_neq. intros E. change 1 with (2 ^ 0) in E.
      apply lor_pow2_id_iff in E; [congruence|lia]. }
    rewrite (bind_ret_eq _ _ _ _ _ _ Ep), prepend_nil. cbv iota zeta. fold pde.
    rewrite (bind_ret_eq _ _ _ _ _ _ E1). cbn [negb].
    rewrite (bind_ret_eq _ _ _ _ _ _ (pmm_alloc_ret s2 _ _ E2)), prepend_nil, Hst. cbn [Z.eqb].
    rewrite user_pte_value by done.
    rewrite (bind_ret_eq _ _ _ _ _ _ (on_mem_store32 _ _ _)), prepend_nil, bind_emit.
    assert (Hm : page_mask vaddr = page_addr U p).
    { pose proof (page_of_spec U vaddr Hwf Hv') as Hsp. rewrite Hp in Hsp. destruct Hsp as (_ & _ & Hsp & _). exact Hsp. }
    rewrite Hm. reflexivity.
  - cbn [v_mem set_mem set_pages v_pages s2]. split; [done|].
    destruct (table_mem_entries (v_mem s1) a pde f1) as [T1 T2]; [lia|lia|done|lia|lia|done|done|]. fold m2 in T1, T2.
    assert (Low : forall b, 0 <= b < 4290772992 -> ld8 (st32 m2 (get_pte vaddr) (addr r + 263)) b = ld8 m2 b)
      by (intros b Hb; by apply ld8_st32_low).
    split; [|split; [|split; [|split; [|split]]]].
    + rewrite <- Efs. apply free_set_ext. intros i Hi. unfold is_free. unfold pages in Hi.
      pose proof (wf_bytes _ Hwf) as Hby. unfold region, disjoint_blocks in *.
      assert (0 <= i / 8 < bm_length U) by dlia. rewrite Low by lia. unfold m2. rewrite table_mem_low by lia.
      by rewrite (pm_low _ _ _ _ _ Hmap) by lia.
    + intros i Hi _. transitivity (ld32 m2 (a + 4 * i)); [apply ld32_ext; intros b Hb; apply Low; lia|].
      unfold ld32. rewrite <- !Z.add_assoc. by rewrite !T1 by lia.
    + rewrite <- T2. apply ld32_ext. intros b Hb. apply Low. lia.
    + rewrite ld32_st32_eq. apply u32_small. assert (addr r <= 4294963200) by dlia. unfold user_pte. lia.
    + apply vmm_ok_mem, vmm_ok_pages, vmm_ok_mem, Hmap.
    + destruct Hu as [U1 U2 U3 U4]. split; [|done..]. cbn [USER_PAGE_DIR_IS_LOADED set_mem set_pages s2].
      by rewrite (pm_flag _ _ _ _ _ Hmap).
Qed.

(** C24: The first page of a task in a region of 4 MB: the page of the task is taken
    from its pool; a page of the kernel, with a free frame, becomes the page
    table: it is cleared, and the directory of the task has its frame with the
    flags of a user page; then a second free frame is entered for the page,
    through the window that shows the new table.  So every word of the table but
    the entry of the page is 0: that entry is the word stored through the window,
    [get_pte vaddr], and what the table's own address shows there is not said. *)
Theorem user_alloc_new_table s F t vaddr p p0 :
  let U := user_vmm_pool t in
  let m1 := st8 (v_mem s) (vaddr_header U + p / 8) (ld8 (v_mem s) (vaddr_header U + p / 8) - 2 ^ (7 - p `mod` 8)) in
  let pde := u32 (pdt_vaddr t + Z.land (Z.shiftr vaddr 22) 1023 * 4) in
  vmm_ok s -> user_ok s t -> task_apart s t pde -> pa_inv (v_pages s) F -> pa_ready (v_pages s) -> (2 <= length F)%nat ->
  (forall s1 a tr, vmm_kern_alloc (set_mem m1 s) = Ret s1 a tr -> pa_ready (v_pages s1)) ->
  p0 ∈ free_set kern_pool (v_mem s) ->
  0 <= vaddr < 3221225472 -> page_of U vaddr = Some p -> is_free U (v_mem s) p = true -> Z.testbit (ld32 m1 pde) 0 = false ->
  exists s' q f1 f2 F', let a := page_addr kern_pool q in
    vmm_user_alloc_one_page t vaddr s = Ret s' (page_addr U p) [Invlpg a; Invlpg (page_addr U p)] /\
    q ∈ free_set kern_pool (v_mem s) /\ F ≡ₚ f1 :: f2 :: F' /\ f1 `mod` 4096 = 0 /\ f2 `mod` 4096 = 0 /\
    pa_inv (v_pages s') F' /\ free_set U (v_mem s') = free_set U (v_mem s) ∖ {[p]} /\
    (forall i, 0 <= i < 1024 -> i <> pte_index vaddr -> ld32 (v_mem s') (a + 4 * i) = 0) /\
    ld32 (v_mem s') pde = user_pte f1 /\ ld32 (v_mem s') (get_pte vaddr) = user_pte f2 /\
    vmm_ok s' /\ user_ok s' t.
Proof. exact (new_table_cases s F t vaddr p p0). Qed.
End user.

(** ** A concrete task *)

#[local] Existing Instance small_vmm_layout.

(** As [user_vmm], without the page table. *)
Definition bare_vmm : vmm pmm := Build_vmm (st8 (st8 ∅ 65536 255) 200 128) small_pmm kern_pool 1.

Lemma bare_free q : q ∈ free_set kern_pool (v_mem bare_vmm) -> 0 <= q < 8.
Proof.
  intros [Hq Hf]%elem_of_free_set. destruct (decide (q < 8)); [lia|]. exfalso.
  unfold is_free, bare_vmm in Hf. cbn [v_mem] in Hf. unfold pages in Hq. cbn [kern_pool bm_length vaddr_header] in *.
  change kern_bitmap with 65536 in Hf. rewrite !ld8_st8_ne in Hf by (rewrite !u32_small; dlia).
  unfold ld8 in Hf. rewrite lookup_empty in Hf. cbn in Hf. change (u8 0) with 0 in Hf. by rewrite Z.testbit_0_l in Hf.
Qed.

Lemma bare_apart : task_apart bare_vmm small_task 4224.
Proof.
  split; try (unfold disjoint_blocks; cbn; lia).
  intros q Hq. apply bare_free in Hq. unfold page_addr, disjoint_blocks. cbn [kern_pool target_addr_header small_task user_vmm_pool vaddr_header bm_length]. lia.
Qed.

Definition bare_alloc : result (vmm pmm) Z := vmm_kern_alloc (set_mem (st8 (v_mem bare_vmm) 200 0) bare_vmm).
Definition bare_after : vmm pmm := match bare_alloc with Ret s1 _ _ => s1 | _ => bare_vmm end.
Lemma bare_single : bool_decide (SINGLE_LINK (v_pages bare_after) = None) = false.
Proof. by vm_compute. Qed.

Lemma user_alloc_new_table_witness :
  exists s' q f1 f2, vmm_user_alloc_one_page small_task 134217728 bare_vmm =
      Ret s' 134217728 [Invlpg (page_addr kern_pool q); Invlpg 134217728] /\
    0 ∉ free_set (user_vmm_pool small_task) (v_mem s') /\
    ld32 (v_mem s') 4224 = user_pte f1 /\ ld32 (v_mem s') (get_pte 134217728) = user_pte f2.
Proof.
  destruct (user_alloc_new_table bare_vmm small_frames small_task 134217728 0 0) as (s' & q & f1 & f2 & F' & E & _ & _ & _ & _ & _ & Hf & _ & H1 & H2 & _).
  - split; [reflexivity|cbn; lia].
  - split; [done|done|split; unfold region; cbn; lia || done|cbn; lia].
  - exact bare_apart.
  - exact small_pmm_frames.
  - exact small_pmm_ready.
  - vm_compute. lia.
  - intros s1 a tr E Hn. exfalso. change (bare_alloc = Ret s1 a tr) in E.
    pose proof bare_single as B. unfold bare_after in B. rewrite E, bool_decide_eq_false in B. by apply B.
  - apply elem_of_free_set. split; [|by vm_compute]. unfold pages. cbn. lia.
  - lia.
  - by vm_compute.
  - by vm_compute.
  - by vm_compute.
  - exists s', q, f1, f2. split; [exact E|]. split; [|split; [exact H1|exact H2]].
    rewrite Hf. intros [_ H]%elem_of_difference. by apply H, elem_of_singleton.
Defined.
