(* ===== verification/KernPages.v ===== *)
(** * Several pages of the kernel

    Allocations that follow each other.  [ready_for] says that the physical
    allocator serves or refuses that many requests, [asks] how many a function
    makes at most; [took] is what some successful allocations did together: the
    pages they took, the frames behind them, and that nothing else changed. *)

From S2P Require Import Prelude Memory CString Bitmap KernLog Pmm PmmSpec PmmInv PmmAlloc PmmInit PmmSys PmmThm PageTable Tcb Vmm VmmThm.

Section requests.
Context {P : Type} {PA : PageAllocator P} {PS : PageAllocatorSpec P} {L : VmmLayout}.

Fixpoint ready_for (n : nat) (p : P) : Prop :=
  match n with
  | O => True
  | S n' => pa_ready p /\ forall p' r t, alloc_one_page p = Ret p' r t -> ready_for n' p'
  end.

Lemma ready_for_le n m p : (m <= n)%nat -> ready_for n p -> ready_for m p.
Proof.
  revert m p. induction n as [|n IH]; intros [|m] p Hm H; try done; [lia|]. destruct H as [H1 H2].
  split; [done|]. intros p' r t E. apply IH; [lia|]. by eapply H2.
Qed.

(** The function makes at most [n] requests. *)
Definition asks {A} (n : nat) (c : M (vmm P) A) : Prop :=
  forall s s' a t k, c s = Ret s' a t -> ready_for (n + k) (v_pages s) -> ready_for k (v_pages s').

Lemma asks_le {A} n m (c : M (vmm P) A) : (n <= m)%nat -> asks n c -> asks m c.
Proof. intros Hm H s s' a t k E Hr. eapply H; [exact E|]. eapply ready_for_le; [|exact Hr]. lia. Qed.
Lemma asks_bind {A B} n m (c : M (vmm P) A) (f : A -> M (vmm P) B) :
  asks n c -> (forall a, asks m (f a)) -> asks (n + m) (bind c f).
Proof.
  intros Hc Hf s s' b t k E Hr. apply bind_inv in E as (s1 & a & t1 & t2 & E1 & E2 & _).
  apply (Hf a s1 s' b t2 k E2). apply (Hc s s1 a t1 (m + k)%nat E1). by rewrite Nat.add_assoc.
Qed.
Lemma asks_ret {A} (a : A) : asks 0 (ret a).
Proof. by intros s s' b t k [= <- _ _]. Qed.
Lemma asks_emit e : asks 0 (emit e).
Proof. by intros s s' b t k [= <- _ _]. Qed.
Lemma asks_stop {A} n : asks n (stop (S := vmm P) (A := A)).
Proof. by intros s s' b t k E. Qed.
Lemma asks_gets {A} (f : vmm P -> A) : asks 0 (gets f).
Proof. by intros s s' b t k [= <- _ _]. Qed.
Lemma asks_on_mem {A} (c : M mem A) : asks 0 (on_mem c).
Proof. intros s s' b t k E. unfold on_mem, zoom in E. destruct (c (v_mem s)); try done. by injection E as <- _ _. Qed.
Lemma asks_pmm_alloc : asks 1 pmm_alloc.
Proof.
  intros s s' r t k E [_ H]. unfold pmm_alloc, zoom in E. destruct (alloc_one_page (v_pages s)) as [p a t1| | |] eqn:E1; try done.
  injection E as <- _ _. by eapply H.
Qed.
Lemma asks_if {A} n (b : bool) (c d : M (vmm P) A) : asks n c -> asks n d -> asks n (if b then c else d).
Proof. by destruct b. Qed.
End requests.

(** Follows the text of a function; [asks_le] is left to the caller. *)
Ltac asks_leaf :=
  lazymatch goal with
  | |- asks _ (ret _) => apply asks_ret
  | |- asks _ (emit _) => apply asks_emit
  | |- asks _ stop => apply asks_stop
  | |- asks _ (gets _) => apply asks_gets
  | |- asks _ (on_mem _) => apply asks_on_mem
  | |- asks _ pmm_alloc => apply asks_pmm_alloc
  | |- _ => solve [eauto 2 with asks]
  end.
Create HintDb asks.

Section functions.
Context {P : Type} {PA : PageAllocator P} {PS : PageAllocatorSpec P} {L : VmmLayout}.

Lemma asks_0 {A} n (c : M (vmm P) A) : asks 0 c -> asks n c.
Proof. apply asks_le. lia. Qed.
(** A first part without a request. *)
Lemma asks_skip {A B} n (c : M (vmm P) A) (f : A -> M (vmm P) B) : asks 0 c -> (forall a, asks n (f a)) -> asks n (bind c f).
Proof. apply (asks_bind 0). Qed.
End functions.

Ltac asks_none :=
  lazymatch goal with
  | |- asks 0 (bind _ _) => apply asks_skip; [asks_none|intros ?; asks_none]
  | |- asks 0 (if _ then _ else _) => apply asks_if; asks_none
  | |- _ => asks_leaf
  end.
Ltac asks_text :=
  cbv zeta;
  lazymatch goal with
  | |- asks _ (bind _ _) => first [apply asks_skip; [asks_none|intros ?; asks_text] | idtac]
  | |- asks _ (if _ then _ else _) => apply asks_if; asks_text
  | |- _ => first [asks_leaf | apply asks_0; asks_none | idtac]
  end.

Section functions.
Context {P : Type} {PA : PageAllocator P} {PS : PageAllocatorSpec P} {L : VmmLayout}.

Lemma asks_p_bit_test ptr : asks 0 (p_bit_test ptr).
Proof. unfold p_bit_test. asks_text. Qed.
#[local] Hint Resolve asks_p_bit_test : asks.

Lemma asks_map_kern_page target : asks 1 (map_kern_page target).
Proof.
  unfold map_kern_page. asks_text. apply (asks_bind 1 0); [asks_leaf|]. intros r. asks_text.
Qed.
#[local] Hint Resolve asks_map_kern_page : asks.
Lemma asks_vmm_kern_alloc : asks 1 vmm_kern_alloc.
Proof. unfold vmm_kern_alloc. asks_text. Qed.
Lemma asks_vmm_kern_alloc_one_page target : asks 1 (vmm_kern_alloc_one_page target).
Proof. unfold vmm_kern_alloc_one_page. asks_text. Qed.
Lemma asks_vmm_v2p v : asks 0 (vmm_v2p v).
Proof. unfold vmm_v2p, check_vaddr_present. asks_text. Qed.
#[local] Hint Resolve asks_vmm_kern_alloc asks_vmm_v2p : asks.
Lemma asks_create_user_page_table pde : asks 1 (create_user_page_table pde).
Proof. unfold create_user_page_table. apply (asks_bind 1 0); [asks_leaf|]. intros a. asks_text. Qed.
Lemma asks_user_clean vaddr : asks 0 (user_clean_bitmap_alloc vaddr).
Proof. unfold user_clean_bitmap_alloc. asks_text. Qed.
Lemma asks_check_pt_present a v : asks 0 (vmm_user_check_pt_present a v).
Proof. unfold vmm_user_check_pt_present. asks_text. Qed.
#[local] Hint Resolve asks_user_clean asks_check_pt_present asks_create_user_page_table : asks.
Lemma asks_user_begin t vaddr : asks 1 (user_page_begin t vaddr).
Proof.
  unfold user_page_begin. asks_text. apply (asks_bind 1 0); [asks_leaf|]. intros created. asks_text.
Qed.
Lemma asks_user_end vaddr : asks 1 (user_page_end vaddr).
Proof. unfold user_page_end. apply (asks_bind 1 0); [asks_leaf|]. intros r. asks_text. Qed.
#[local] Hint Resolve asks_user_begin asks_user_end : asks.
Lemma asks_vmm_user_alloc_one_page t vaddr : asks 2 (vmm_user_alloc_one_page t vaddr).
Proof.
  unfold vmm_user_alloc_one_page. apply (asks_bind 1 1); [asks_leaf|]. intros [v| |]; asks_text.
Qed.
End functions.

#[export] Hint Resolve asks_vmm_kern_alloc asks_vmm_kern_alloc_one_page asks_vmm_v2p asks_vmm_user_alloc_one_page : asks.

(** pmm.c serves as many requests as it has single pages. *)
Lemma single_pages_ready n s ls : buddy s ls -> (n <= length (list_at ls 11))%nat -> ready_for (P := pmm) n s.
Proof.
  revert s ls. induction n as [|n IH]; intros s ls H Hn; [done|].
  destruct (last (list_at ls 11)) as [z|] eqn:El.
  2:{ apply last_None in El. rewrite El in Hn. cbn in Hn. lia. }
  pose proof (last_split _ _ El) as Hl. destruct (pmm_alloc_one_page_single _ _ _ _ H Hl) as (s1 & E1 & H1 & _).
  pose proof (bd_rep _ _ H) as Hr. split.
  - intros Hs. exfalso. destruct (single_root _ _ Hr) as (_ & Hlk & _). rewrite Hs in Hlk. rewrite Hl in Hlk.
    destruct (drop_last (list_at ls 11)); cbn in Hlk; by destruct Hlk as [Hlk _].
  - intros s' r t E. change (alloc_one_page s) with (pmm_alloc_one_page s) in E. rewrite E1 in E. injection E as <- _ _.
    apply (IH _ _ H1). rewrite list_at_insert_eq by (rewrite (rep_length _ _ Hr); lia).
    rewrite Hl, length_app in Hn. cbn in Hn. lia.
Qed.

(** What [pmm_page_init] leaves: every page of the machine is a free frame, and
    the ones from [singel_page_first_no] on are there one by one. *)
Lemma page_init_ready_for s :
  2048 <= pmm_max_page_no s -> page_array_fits (pmm_max_page_no s) -> page_array s = ∅ -> SINGLE_LINK s = None ->
  pmm_page_start s `mod` 4096 = 0 ->
  exists s' t F, pmm_page_init s = Ret s' tt t /\ pmm_frames s' F /\ Z.of_nat (length F) = pmm_max_page_no s /\
    singel_page_first_no s' `mod` 1024 = 0 /\ pmm_max_page_no s - 1024 <= singel_page_first_no s' <= pmm_max_page_no s /\
    (2048 < singel_page_first_no s' -> singel_page_first_no s' < pmm_max_page_no s) /\
    forall n : nat, n <= pmm_max_page_no s - singel_page_first_no s' -> ready_for (P := pmm) n s'.
Proof.
  intros Hm Hx%fits_pages Ha Hs Hst.
  destruct (page_init_initialised s (conj Hm (Z.le_trans _ _ 1048576 Hx ltac:(lia))) Ha Hs) as (s' & ls & t & E & [H Hc _ Eq H11 Hf _ Hd Hlt _]).
  exists s', t, (frames_of s' ls). split; [done|]. split; [|split; [|split; [done|split; [lia|split; [done|]]]]].
  - exists ls. split; [done|]. split; [|done]. by rewrite Eq.
  - unfold frames_of. rewrite length_map. apply Permutation_length in Hc. rewrite Hc, length_seqZ. lia.
  - intros n Hn. apply (single_pages_ready n s' ls H). rewrite H11, length_seqZ. lia.
Qed.

(** ** Pages taken *)

Section taken.
Context {P : Type} {PA : PageAllocator P} {PS : PageAllocatorSpec P} {L : VmmLayout}.
Implicit Types (s : vmm P) (F : list Z) (X Y : gset Z).

(** The address is in one of the pages [X] of the kernel's pool. *)
Definition owned X (b : Z) : Prop := exists p, p ∈ X /\ page_addr kern_pool p <= b < page_addr kern_pool p + 4096.

(** The free pages of the kernel are below the window of the page tables, and
    the kernel's bits are not in them. *)
Record room s : Prop := {
  rm_ok : vmm_ok s;
  rm_pages : forall q, q ∈ free_set kern_pool (v_mem s) ->
    page_addr kern_pool q + 4096 <= 4290772992 /\ disjoint_blocks (page_addr kern_pool q) 4096 kern_bitmap 32768
}.

(** From [s] to [s'] the pages [X] were taken, with [n] frames, and only they
    were written. *)
Record took (n : nat) X s s' F F' : Prop := {
  tk_ok : vmm_ok s';
  tk_pool : free_set kern_pool (v_mem s') = free_set kern_pool (v_mem s) ∖ X;
  tk_frames : exists fs, length fs = n /\ F ≡ₚ fs ++ F';
  tk_inv : pa_inv (v_pages s') F';
  tk_ready : forall k, ready_for (n + k) (v_pages s) -> ready_for k (v_pages s');
  tk_low : forall b, 0 <= b < 4290772992 -> b < kern_bitmap \/ kern_bitmap + 32768 <= b -> ~ owned X b ->
    ld8 (v_mem s') b = ld8 (v_mem s) b;
  tk_entries : forall w, 0 <= w < 4294967296 -> ~ owned X w -> ld32 (v_mem s') (get_pte w) = ld32 (v_mem s) (get_pte w);
  tk_flag : USER_PAGE_DIR_IS_LOADED s' = USER_PAGE_DIR_IS_LOADED s
}.

Lemma owned_union X Y b : owned (X ∪ Y) b <-> owned X b \/ owned Y b.
Proof. unfold owned. setoid_rewrite elem_of_union. naive_solver. Qed.
Lemma owned_one p b : owned {[p]} b <-> page_addr kern_pool p <= b < page_addr kern_pool p + 4096.
Proof. unfold owned. setoid_rewrite elem_of_singleton. naive_solver. Qed.

Lemma took_none s F : vmm_ok s -> pa_inv (v_pages s) F -> took 0 ∅ s s F F.
Proof. intros Hs Hi. split; [done|by rewrite difference_empty_L|by exists []|done..]. Qed.

Lemma took_trans n m X Y s1 s2 s3 F1 F2 F3 :
  took n X s1 s2 F1 F2 -> took m Y s2 s3 F2 F3 -> took (n + m) (X ∪ Y) s1 s3 F1 F3.
Proof.
  intros [A1 A2 (fs & A3 & A4) A5 A6 A7 A8 A9] [B1 B2 (gs & B3 & B4) B5 B6 B7 B8 B9].
  split; [done| | |done| | | |congruence].
  - by rewrite B2, A2, difference_difference_l_L.
  - exists (fs ++ gs). rewrite length_app. split; [lia|]. by rewrite A4, B4, app_assoc.
  - intros k Hk. apply B6, A6. by rewrite Nat.add_assoc.
  - intros b Hb Ho Hn. rewrite owned_union in Hn. rewrite B7, A7; tauto.
  - intros w Hw Hn. rewrite owned_union in Hn. rewrite B8, A8; tauto.
Qed.

Lemma room_took n X s s' F F' : room s -> took n X s s' F F' -> room s'.
Proof.
  intros [_ H] T. split; [apply T|]. intros q Hq. apply H. rewrite (tk_pool _ _ _ _ _ _ T) in Hq. by apply elem_of_difference in Hq as [Hq _].
Qed.

(** The owner of pages below the window can write them. *)
Lemma took_write n X s s' F F' m :
  room s -> X ⊆ free_set kern_pool (v_mem s) -> took n X s s' F F' ->
  (forall b, 0 <= b < 4294967296 -> ~ owned X b -> ld8 m b = ld8 (v_mem s') b) -> took n X s (set_mem m s') F F'.
Proof.
  intros [Hs Hr] HX [A1 A2 A3 A5 A6 A7 A8 A9] Hm.
  assert (Hn : forall b, 0 <= b < 4294967296 -> kern_bitmap <= b < kern_bitmap + 32768 \/ 4290772992 <= b -> ~ owned X b).
  { intros b Hb Ho (p & Hp & Hb1). destruct (Hr p (HX p Hp)) as [H1 H2]. unfold disjoint_blocks in H2. lia. }
  destruct Hs as [_ Hkb]. split; try done; [by apply vmm_ok_mem| | |].
  - rewrite <- A2. apply free_set_ext. intros p Hp. unfold is_free, pages in *. cbn [kern_pool bm_length vaddr_header] in *. cbn [v_mem set_mem].
    rewrite Hm; [done|dlia|]. apply Hn; dlia.
  - intros b Hb Ho Hno. cbn [v_mem set_mem]. rewrite Hm by (done || lia). by apply A7.
  - intros w Hw Hno. rewrite <- A8 by done. destruct (get_pte_range w Hw) as [G1 G2]. cbn [v_mem set_mem]. unfold ld32.
    rewrite !Hm by (lia || (apply Hn; lia)). done.
Qed.

Lemma took_mapped s s' p f F F' :
  page_mapped s s' (page_addr kern_pool p) p f -> 0 <= p < 262144 -> F ≡ₚ f :: F' -> pa_inv (v_pages s') F' ->
  (forall k, ready_for (1 + k) (v_pages s) -> ready_for k (v_pages s')) -> took 1 {[p]} s s' F F'.
Proof.
  intros [A1 A2 _ A3 A4 _ A5] Hp HF Hi Hr. split; try done; [by exists [f]|intros b Hb Ho _; by apply A4|].
  intros w Hw Hn. rewrite owned_one in Hn. apply A3; [done|]. intros E. apply Hn.
  unfold page_addr in *. cbn [kern_pool target_addr_header] in *. replace (3221225472 + 4096 * p) with ((786432 + p) * 4096) in * by lia.
  rewrite Z.div_mul in E by lia. dlia.
Qed.

Lemma free_page_range s p : p ∈ free_set kern_pool (v_mem s) -> 0 <= p < 262144.
Proof. intros [Hp _]%elem_of_free_set. unfold pages in Hp. cbn [kern_pool bm_length] in Hp. lia. Qed.

(** The lowest free page. *)
Lemma kern_alloc_took s F :
  vmm_ok s -> pa_inv (v_pages s) F -> ready_for 1 (v_pages s) -> F <> [] -> free_set kern_pool (v_mem s) <> ∅ ->
  exists s' p f F', vmm_kern_alloc s = Ret s' (page_addr kern_pool p) [Invlpg (page_addr kern_pool p)] /\
    p ∈ free_set kern_pool (v_mem s) /\ (forall q, q ∈ free_set kern_pool (v_mem s) -> p <= q) /\
    took 1 {[p]} s s' F F' /\ page_mapped s s' (page_addr kern_pool p) p f.
Proof.
  intros Hs Hi Hr HF Hne. destruct (kern_alloc_cases s F Hs Hi (proj1 Hr))
    as [(m & _ & _ & [E|E])|(s' & p & f & F' & Hp & Hmin & E & HF' & Hi' & Hm)]; [done|done|].
  exists s', p, f, F'. split; [done|]. split; [done|]. split; [done|]. split; [|done].
  apply (took_mapped s s' p f); [done|by eapply free_page_range|done|done|]. intros k. by apply (asks_vmm_kern_alloc _ _ _ _ _ E).
Qed.

(** A page named by its address. *)
Lemma kern_alloc_one_took s F p :
  vmm_ok s -> pa_inv (v_pages s) F -> ready_for 1 (v_pages s) -> F <> [] -> p ∈ free_set kern_pool (v_mem s) ->
  exists s' f F', let a := page_addr kern_pool p in
    vmm_kern_alloc_one_page a s = Ret s' a [Invlpg a] /\ took 1 {[p]} s s' F F' /\ page_mapped s s' a p f.
Proof.
  intros Hs Hi Hr HF Hp. pose proof (free_page_range _ _ Hp) as Hpr. apply elem_of_free_set in Hp as [Hp Hf].
  destruct (page_addr_of p Hp) as [Ha Hpo]. cbv zeta.
  pose proof (kern_alloc_one_page_cases s F _ Hs Hi (proj1 Hr) Ha) as H. rewrite Hpo, Hf in H.
  destruct H as [(E & _)|(s' & f & F' & E & HF' & Hi' & Hm)]; [done|].
  assert (Hmask : page_mask (page_addr kern_pool p) = page_addr kern_pool p).
  { unfold page_mask. rewrite land_page_mask by done. unfold page_addr. cbn [kern_pool target_addr_header]. dlia. }
  rewrite Hmask in E. exists s', f, F'. split; [done|]. split; [|done].
  apply (took_mapped s s' p f); [done|done|done|done|]. intros k. by apply (asks_vmm_kern_alloc_one_page _ _ _ _ _ _ E).
Qed.
End taken.
