(* ===== verification/Race.v ===== *)
(** * Interleavings of allocations

    An interrupt can come between any two accesses of a function that runs with
    interrupts on, and switch to another thread.  The functions of vmm.c and
    bitmap.c neither take a lock nor turn interrupts off, and they are called from
    [create_user_task] and [start_user_task] with interrupts on.  This file has
    [vmm_kern_alloc] as a sequence of accesses, a step relation that interleaves
    the threads, what an unlucky interleaving does, and that there is none when
    the calls are critical sections. *)

From S2P Require Import Prelude Memory CString Bitmap KernLog Pmm PmmSpec PmmInv PmmAlloc PmmSys PmmThm PageTable Tcb Vmm VmmThm KernPages.

(** ** Threads *)

Section threads.
Context {S : Type}.

(** What a thread still has to do: [Act c k] is an access that nothing
    interrupts, and the rest, which depends on its result. *)
Inductive prog : Type :=
  | Done (a : Z)
  | Act (c : M S Z) (k : Z -> prog).

(** Without interruption. *)
Fixpoint exec (p : prog) : M S Z :=
  match p with
  | Done a => ret a
  | Act c k => x <- c ;; exec (k x)
  end.

(** Some thread does its next access. *)
Inductive istep : list prog * S -> list prog * S -> Prop :=
  | IStep ts s i c k s' x t :
      ts !! i = Some (Act c k) -> c s = Ret s' x t -> istep (ts, s) (<[i := k x]> ts, s').

(** The whole function with interrupts off. *)
Definition critical (p : prog) : prog := Act (exec p) Done.

Lemma act_inj (c c' : M S Z) k k' : Act c k = Act c' k' -> c = c' /\ k = k'.
Proof. by intros [= -> ->]. Qed.

Lemma act_step ts s i c k s' x t ts' :
  ts !! i = Some (Act c k) -> c s = Ret s' x t -> <[i := k x]> ts = ts' -> rtc istep (ts, s) (ts', s').
Proof. intros Hi E <-. apply rtc_once. by econstructor. Qed.

(** A thread that is not interrupted. *)
Lemma exec_steps p ts s i s' a t :
  ts !! i = Some p -> exec p s = Ret s' a t -> rtc istep (ts, s) (<[i := Done a]> ts, s').
Proof.
  revert ts s t. induction p as [b|c k IH]; intros ts s t Hi E; cbn [exec] in E.
  - injection E as <- <- _. by rewrite list_insert_id.
  - apply bind_inv in E as (s1 & x & t1 & t2 & E1 & E2 & _).
    etransitivity; [by eapply act_step|].
    assert (Hl : (i < length ts)%nat) by (by eapply lookup_lt_Some).
    rewrite <- (list_insert_insert_eq ts i (Done a) (k x)). eapply IH; [|exact E2]. by apply list_lookup_insert_eq.
Qed.
End threads.
Arguments prog : clear implicits.

(** ** The accesses *)

Section code.
Context {P : Type} {PA : PageAllocator P} {L : VmmLayout}.

(** [bitmap_alloc]: the byte is looked at, and changed by a second access. *)
Fixpoint alloc_accesses (fuel : nat) (bm : bitmap) (i : Z) (k : Z -> prog (vmm P)) : prog (vmm P) :=
  match fuel with
  | O => Act nofuel Done
  | S fuel' =>
      if i <? bm_length bm then
        Act (on_mem (load8 (vaddr_header bm + i))) (fun byte_now =>
          if negb (byte_now =? 0) then
            match find_pos 8 byte_now 0 with
            | None => Act undef Done
            | Some pos =>
                let byte_sub := u8 (Z.shiftl 1 (7 - pos)) in
                Act (on_mem (b <- load8 (vaddr_header bm + i) ;; store8 (vaddr_header bm + i) (b - byte_sub) ;; ret 0))
                  (fun _ => let page_no := i32 (u32 (i * 8 + pos)) in
                     Act (int_val (page_no * PAGE_SIZE)) (fun off => k (u32 (off + target_addr_header bm))))
            end
          else alloc_accesses fuel' bm (i + 1) k)
      else k BITMAP_RETURN_ERRO
  end.

(** What follows in [vmm_kern_alloc]: the mapping as one access, which leaves out
    the interleavings that switch inside of it. *)
Definition map_or_fail (target : Z) : prog (vmm P) :=
  if target =? BITMAP_RETURN_ERRO then Done KERN_VMM_ALLOC_ERRO else Act (map_kern_page target) Done.

(** The pool is a parameter of the functions of bitmap.c. *)
Definition vmm_kern_alloc_accesses (pool : bitmap) : prog (vmm P) :=
  alloc_accesses (S (Z.to_nat (bm_length pool))) pool 0 map_or_fail.
End code.

(** ** Without interruption they are the function *)

Section kern.
Context {P : Type} {PA : PageAllocator P} {PS : PageAllocatorSpec P} {L : VmmLayout}.
Implicit Types (s : vmm P) (F : list Z).

Lemma on_mem_load8 a s : on_mem (load8 a) s = Ret s (ld8 (v_mem s) a) [].
Proof. unfold on_mem, zoom, load8, gets. by rewrite set_mem_same. Qed.
Lemma on_mem_bind_load8 {A} a (f : Z -> M mem A) s : on_mem (bind (load8 a) f) s = on_mem (f (ld8 (v_mem s) a)) s.
Proof. unfold on_mem, zoom. by rewrite bind_load8. Qed.
Lemma bind_eq {A B} (c d : M (vmm P) A) (f : A -> M (vmm P) B) s : c s = d s -> bind c f s = bind d f s.
Proof. unfold bind. by intros ->. Qed.

Lemma alloc_accesses_exec fuel bm i k s :
  exec (alloc_accesses fuel bm i k) s = (x <- on_mem (bitmap_alloc_loop fuel bm i) ;; exec (k x)) s.
Proof.
  revert i. induction fuel as [|fuel IH]; intros i; [done|]. cbn [alloc_accesses bitmap_alloc_loop].
  destruct (i <? bm_length bm).
  - cbn [exec]. rewrite (bind_ret_eq _ _ _ _ _ _ (on_mem_load8 _ _)), prepend_nil.
    rewrite (bind_eq _ _ _ _ (on_mem_bind_load8 _ _ _)).
    destruct (negb _); [|exact (IH (i + 1))]. destruct (find_pos 8 _ 0) as [pos|]; [|done].
    cbn [exec]. unfold on_mem, zoom, bind. cbn. unfold int_val. destruct (_ && _); cbn; by rewrite ?prepend_nil.
  - unfold bind, on_mem, zoom. cbn. rewrite set_mem_same, prepend_nil. done.
Qed.

Lemma kern_alloc_accesses_exec s : vmm_ok s -> exec (vmm_kern_alloc_accesses kern_pool) s = vmm_kern_alloc s.
Proof.
  intros Hs. unfold vmm_kern_alloc_accesses, vmm_kern_alloc. rewrite alloc_accesses_exec, bind_gets, (ok_pool _ Hs).
  unfold bitmap_alloc. unfold bind at 1 2. destruct (on_mem _ s) as [s1 x t| | |]; [|done..].
  unfold map_or_fail. destruct (x =? _); cbn [exec]; [done|]. f_equal. unfold bind. destruct (map_kern_page x s1); cbn; [|done..]. by rewrite app_nil_r.
Qed.

(** ** The search *)

(** The first free page is the first one of its byte. *)
Lemma first_free_byte bm (m : mem) p :
  bitmap_wf bm -> p ∈ free_set bm m -> (forall q, q ∈ free_set bm m -> p <= q) ->
  ld8 m (vaddr_header bm + p / 8) <> 0 /\ find_pos 8 (ld8 m (vaddr_header bm + p / 8)) 0 = Some (p `mod` 8) /\
  forall i, 0 <= i < p / 8 -> ld8 m (vaddr_header bm + i) = 0.
Proof.
  intros Hwf Hp Hmin. apply elem_of_free_set in Hp as [Hp Hf]. unfold pages in *.
  assert (E : forall i, 0 <= i < bm_length bm -> ld8 m (vaddr_header bm + i) <> 0 -> exists pos,
    find_pos 8 (ld8 m (vaddr_header bm + i)) 0 = Some pos /\ p <= 8 * i + pos /\ 0 <= pos < 8 /\
    forall k, 0 <= k < pos -> Z.testbit (ld8 m (vaddr_header bm + i)) (7 - k) = false).
  { intros i Hi Hz. pose proof (ld8_range m (vaddr_header bm + i)).
    destruct (find_pos_spec (ld8 m (vaddr_header bm + i))) as (pos & E & Hpos & Hs & Hl); [lia|]. exists pos.
    split_and!; try done; try lia. apply Hmin, elem_of_free_set. unfold pages, is_free. split; [lia|].
    replace ((8 * i + pos) / 8) with i by dlia. by replace ((8 * i + pos) `mod` 8) with pos by dlia. }
  assert (Hz : ld8 m (vaddr_header bm + p / 8) <> 0).
  { intros Hz. unfold is_free in Hf. by rewrite Hz, Z.bits_0 in Hf. }
  split; [done|]. split.
  - destruct (E (p / 8)) as (pos & -> & H1 & H2 & H3); [dlia|done|]. f_equal.
    destruct (decide (p `mod` 8 < pos)) as [Hlt|]; [|dlia]. unfold is_free in Hf. rewrite H3 in Hf by dlia. done.
  - intros i Hi. destruct (decide (ld8 m (vaddr_header bm + i) = 0)) as [|Hn]; [done|]. exfalso.
    destruct (E i) as (pos & _ & H1 & H2 & _); [dlia|done|]. dlia.
Qed.

(** The thread has found page [p] and not taken it. *)
Definition found (bm : bitmap) (p : Z) (k : Z -> prog (vmm P)) : prog (vmm P) :=
  Act (on_mem (b <- load8 (vaddr_header bm + p / 8) ;; store8 (vaddr_header bm + p / 8) (b - 2 ^ (7 - p `mod` 8)) ;; ret 0))
    (fun _ => Act (int_val (p * PAGE_SIZE)) (fun off => k (u32 (off + target_addr_header bm)))).

Lemma search_steps fuel bm i k s p (ts : list (prog (vmm P))) j :
  bitmap_wf bm -> bm_length bm <= 65536 -> p ∈ free_set bm (v_mem s) -> (forall q, q ∈ free_set bm (v_mem s) -> p <= q) ->
  0 <= i <= p / 8 -> bm_length bm - i < Z.of_nat fuel -> ts !! j = Some (alloc_accesses fuel bm i k) ->
  rtc istep (ts, s) (<[j := found bm p k]> ts, s).
Proof.
  intros Hwf Hlen Hp Hmin. destruct (first_free_byte bm _ p Hwf Hp Hmin) as (Hz & Hpos & Hlow).
  apply elem_of_free_set in Hp as [Hp _]. pose proof (page_byte bm p Hwf Hp) as Hb.
  revert i ts. induction fuel as [|fuel IH]; intros i ts Hi Hf Hj; [lia|]. cbn [alloc_accesses] in Hj.
  rewrite (proj2 (Z.ltb_lt _ _)) in Hj by lia.
  assert (Hl : (j < length ts)%nat) by (by eapply lookup_lt_Some).
  destruct (decide (i = p / 8)) as [->|Hne].
  - eapply act_step; [exact Hj|apply on_mem_load8|]. cbv beta. rewrite (proj2 (Z.eqb_neq _ _) Hz), Hpos. cbn [negb]. f_equal. unfold found.
    rewrite byte_mask_eq by dlia. replace (p / 8 * 8 + p `mod` 8) with p by dlia. unfold pages in Hp.
    by rewrite (u32_small p), (i32_small p) by lia.
  - etransitivity; [eapply act_step; [exact Hj|apply on_mem_load8|reflexivity]|]. cbv beta. rewrite Hlow by lia. cbn [Z.eqb negb].
    rewrite <- (list_insert_insert_eq ts j (found bm p k) (alloc_accesses fuel bm (i + 1) k)).
    apply (IH (i + 1)); [lia|lia|by apply list_lookup_insert_eq].
Qed.
(** ** The update of a byte whose page was taken meanwhile *)

(** The pages of the byte up to [p]. *)
Definition byte_up_to (p : Z) : gset Z := list_to_set (seqZ (8 * (p / 8)) (p `mod` 8 + 1)).

Lemma elem_of_byte_up_to p q : q ∈ byte_up_to p <-> q / 8 = p / 8 /\ q <= p.
Proof. unfold byte_up_to. rewrite elem_of_list_to_set, elem_of_seqZ. dlia. Qed.

(** The subtraction of a bit that is clear, as all before it are, borrows from
    all of them. *)
Lemma underflow_bits b j k :
  0 <= b < 256 -> 0 <= j < 8 -> 0 <= k < 8 -> (forall i, 0 <= i <= j -> Z.testbit b (7 - i) = false) ->
  Z.testbit (b - 2 ^ (7 - j)) (7 - k) = (k <=? j) || Z.testbit b (7 - k).
Proof.
  intros Hb Hj Hk H.
  pose (clear := fun b j => forallb (fun i => negb (Z.testbit b (7 - i))) (seqZ 0 (j + 1))).
  assert (A : forallb (fun b => forallb (fun j => negb (clear b j) ||
    forallb (fun k => eqb (Z.testbit (b - 2 ^ (7 - j)) (7 - k)) ((k <=? j) || Z.testbit b (7 - k))) (seqZ 0 8)) (seqZ 0 8)) (seqZ 0 256) = true)
    by (vm_compute; reflexivity).
  rewrite forallb_forall in A. specialize (A b). rewrite <- list_elem_of_In, elem_of_seqZ in A. specialize (A ltac:(lia)).
  rewrite forallb_forall in A. specialize (A j). rewrite <- list_elem_of_In, elem_of_seqZ in A. specialize (A ltac:(lia)).
  assert (C : clear b j = true).
  { apply forallb_forall. intros i Hi. rewrite <- list_elem_of_In, elem_of_seqZ in Hi. by rewrite H by lia. }
  rewrite C in A. cbn [negb orb] in A. rewrite forallb_forall in A. specialize (A k).
  rewrite <- list_elem_of_In, elem_of_seqZ in A. apply eqb_prop, A. lia.
Qed.

Lemma free_set_underflow bm m p :
  bitmap_wf bm -> 0 <= p < pages bm -> (forall q, q ∈ byte_up_to p -> q ∉ free_set bm m) ->
  free_set bm (st8 m (vaddr_header bm + p / 8) (ld8 m (vaddr_header bm + p / 8) - 2 ^ (7 - p `mod` 8))) =
    free_set bm m ∪ byte_up_to p.
Proof.
  intros Hwf Hp Hno. apply set_eq. intros q. rewrite elem_of_union, elem_of_byte_up_to, !elem_of_free_set.
  destruct (decide (0 <= q < pages bm)) as [Hq|Hq]; [|unfold pages in *; split; [tauto|]; intros [?|[? ?]]; [tauto|]; exfalso; apply Hq; dlia].
  rewrite is_free_st8 by done. case_decide as E; [|naive_solver].
  rewrite (underflow_bits _ (p `mod` 8) (q `mod` 8)); [|apply ld8_range|dlia|dlia|].
  - unfold is_free. rewrite E. destruct (Z.leb_spec (q `mod` 8) (p `mod` 8)); cbn [orb]; [|split; [naive_solver|]; intros [?|[? ?]]; [naive_solver|dlia]].
    split; [intros _; right; dlia|done].
  - intros i Hi. destruct (Z.testbit _ _) eqn:Eb; [|done]. exfalso. apply (Hno (8 * (p / 8) + i)).
    + apply elem_of_byte_up_to. dlia.
    + apply elem_of_free_set. unfold pages in *. split; [dlia|]. unfold is_free.
      replace ((8 * (p / 8) + i) / 8) with (p / 8) by dlia. by replace ((8 * (p / 8) + i) `mod` 8) with i by dlia.
Qed.
(** ** Two threads *)

(** A page is mapped whether or not the pool says it is taken. *)
Lemma map_kern_page_maps s F target :
  vmm_ok s -> pa_inv (v_pages s) F -> pa_ready (v_pages s) -> F <> [] -> 0 <= target < 4294967296 ->
  exists s' f F', map_kern_page target s = Ret s' target [Invlpg (page_mask target)] /\
    F ≡ₚ f :: F' /\ pa_inv (v_pages s') F' /\ free_set kern_pool (v_mem s') = free_set kern_pool (v_mem s) /\
    (0 <= f < 4294967296 /\ f `mod` 4096 = 0) /\ ld32 (v_mem s') (get_pte target) = f + 259 /\
    forall w, 0 <= w < 4294967296 -> w / 4096 <> target / 4096 -> ld32 (v_mem s') (get_pte w) = ld32 (v_mem s) (get_pte w).
Proof.
  intros Hs Hinv Hready HF Ht. rewrite map_kern_page_head.
  destruct (pa_alloc (v_pages s) F Hinv Hready) as [(? & _)|(p' & r & F' & E & Hst & Hr & Hal & HF' & Hinv')]; [done|].
  run (pmm_alloc_ret s _ _ E) by idtac. rewrite Hst. cbn [Z.eqb].
  rewrite pte_value_aligned by done. destruct (get_pte_range target Ht) as [Hg1 Hg2].
  run (on_mem_store32 _ _ _) by idtac. rewrite bind_emit. eexists _, (addr r), F'.
  split; [reflexivity|]. do 2 (split; [done|]). cbn [v_mem set_mem set_pages].
  split; [by apply (free_set_st32 s)|]. split; [done|]. split.
  - rewrite ld32_st32_eq, u32_small; [done|]. assert (addr r <= 4294963200) by dlia. lia.
  - intros w Hw Hne. by rewrite ld32_st32_apart by (by apply get_pte_apart; auto).
Qed.

(** The allocation of a thread alone, when there is a page and a frame. *)
Lemma kern_alloc_first s F p :
  vmm_ok s -> pa_inv (v_pages s) F -> pa_ready (v_pages s) -> F <> [] ->
  p ∈ free_set kern_pool (v_mem s) -> (forall q, q ∈ free_set kern_pool (v_mem s) -> p <= q) ->
  exists s1 f F' t, vmm_kern_alloc s = Ret s1 (page_addr kern_pool p) t /\ F ≡ₚ f :: F' /\ pa_inv (v_pages s1) F' /\
    page_mapped s s1 (page_addr kern_pool p) p f.
Proof.
  intros Hs Hinv Hready HF Hp Hmin.
  destruct (kern_alloc_cases s F Hs Hinv Hready) as [(m & _ & _ & [H|H])|(s1 & q & f & F' & Hq & Hqm & E & HF' & Hi & Hm)].
  - rewrite H in Hp. set_solver.
  - done.
  - assert (q = p) as -> by (pose proof (Hmin _ Hq); pose proof (Hqm _ Hp); lia). eauto 10.
Qed.

(** The thread that had found the page goes on: it puts back into the pool the
    pages of its byte, and maps the page to a second frame. *)
Lemma found_goes_on s1 F p (ts : list (prog (vmm P))) j :
  vmm_ok s1 -> pa_inv (v_pages s1) F -> pa_ready (v_pages s1) -> F <> [] -> 0 <= p < pages kern_pool ->
  (forall q, q ∈ byte_up_to p -> q ∉ free_set kern_pool (v_mem s1)) ->
  ts !! j = Some (found kern_pool p map_or_fail) ->
  exists s' f F', rtc istep (ts, s1) (<[j := Done (page_addr kern_pool p)]> ts, s') /\ F ≡ₚ f :: F' /\ pa_inv (v_pages s') F' /\
    free_set kern_pool (v_mem s') = free_set kern_pool (v_mem s1) ∪ byte_up_to p /\
    (0 <= f < 4294967296 /\ f `mod` 4096 = 0) /\ ld32 (v_mem s') (get_pte (page_addr kern_pool p)) = f + 259 /\
    forall w, 0 <= w < 4294967296 -> w / 4096 <> page_addr kern_pool p / 4096 -> ld32 (v_mem s') (get_pte w) = ld32 (v_mem s1) (get_pte w).
Proof.
  intros Hs Hinv Hready HF Hp Hno Hj. pose proof (kern_pool_wf s1 Hs) as Hwf.
  destruct (page_addr_of p Hp) as [Hr _]. pose proof (lookup_lt_Some _ _ _ Hj) as Hl.
  set (m2 := st8 (v_mem s1) (kern_bitmap + p / 8) (ld8 (v_mem s1) (kern_bitmap + p / 8) - 2 ^ (7 - p `mod` 8))).
  set (s2 := set_mem m2 s1).
  destruct (map_kern_page_maps s2 F (page_addr kern_pool p)) as (s' & f & F' & E & HF' & Hi & Hfree & Hfr & Hpte & Ho); [by apply vmm_ok_mem|done..|].
  exists s', f, F'. split; [|split; [done|split; [done|split; [|split; [done|split; [done|]]]]]].
  - etransitivity; [eapply (act_step _ s1 j _ _ s2); [exact Hj|exact (on_mem_ret _ s1 m2 0 [] eq_refl)|reflexivity]|].
    etransitivity; [eapply (act_step _ s2 j _ _ s2 (p * PAGE_SIZE)); [by apply list_lookup_insert_eq| |reflexivity]|].
    { unfold int_val, PAGE_SIZE. unfold pages in Hp. cbn [kern_pool bm_length] in Hp.
      by rewrite (proj2 (Z.leb_le _ _)), (proj2 (Z.ltb_lt _ _)) by lia. }
    rewrite list_insert_insert_eq. cbv beta.
    replace (u32 (p * PAGE_SIZE + target_addr_header kern_pool)) with (page_addr kern_pool p).
    2:{ unfold page_addr, PAGE_SIZE in *. rewrite u32_small; lia. }
    unfold map_or_fail. rewrite (proj2 (Z.eqb_neq _ _)) by (by apply page_addr_not_erro).
    eapply act_step; [by apply list_lookup_insert_eq|exact E|]. apply list_insert_insert_eq.
  - rewrite Hfree. by apply free_set_underflow.
  - intros w Hw Hne. rewrite (Ho w Hw Hne). destruct (get_pte_range w Hw). apply (frame_ld32 s1); [done| |done..].
    by apply (frame_page kern_pool).
Qed.

Lemma same_page v o : v `mod` 4096 = 0 -> 0 <= o < 4096 -> (v + o) / 4096 = v / 4096 /\ (v + o) `mod` 4096 = o.
Proof. intros H Ho. dlia. Qed.

(** The first thread is preempted when it has found the page. *)
Lemma first_finds s p (r : prog (vmm P)) :
  bitmap_wf kern_pool -> p ∈ free_set kern_pool (v_mem s) -> (forall q, q ∈ free_set kern_pool (v_mem s) -> p <= q) ->
  rtc istep ([vmm_kern_alloc_accesses kern_pool; r], s) ([found kern_pool p map_or_fail; r], s).
Proof.
  intros Hwf Hp Hmin. pose proof Hp as Hp'. apply elem_of_free_set in Hp' as [Hpr _]. unfold pages in Hpr.
  unfold vmm_kern_alloc_accesses. remember (Datatypes.S (Z.to_nat (bm_length kern_pool))) as fuel eqn:Hf.
  exact (search_steps fuel kern_pool 0 map_or_fail s p [alloc_accesses fuel kern_pool 0 map_or_fail; r] 0 Hwf ltac:(cbn; lia) Hp Hmin
    ltac:(dlia) ltac:(lia) eq_refl).
Qed.

(** C18: Two threads allocate a page of the kernel, and the first one is preempted
    after it has found the page and before it has taken it, for as long as the
    second one needs.  Both get the same page.  It is mapped to the frame of the
    first thread; the frame of the second one is no longer free, and nothing maps
    it.  And the page is marked free again, with all the pages of its byte before
    it, which had been in use all the time: the next allocation hands one of them
    out. *)
Theorem two_allocs_race s F p v :
  vmm_ok s -> pa_inv (v_pages s) F -> ready_for 2 (v_pages s) -> (2 <= length F)%nat ->
  p ∈ free_set kern_pool (v_mem s) -> (forall q, q ∈ free_set kern_pool (v_mem s) -> p <= q) -> v = page_addr kern_pool p ->
  exists s' f1 f2 F', rtc istep ([vmm_kern_alloc_accesses kern_pool; vmm_kern_alloc_accesses kern_pool], s) ([Done v; Done v], s') /\
    F ≡ₚ f2 :: f1 :: F' /\ pa_inv (v_pages s') F' /\
    (forall o, 0 <= o < 4096 -> vmm_v2p (v + o) s' = Ret s' (f1 + o) []) /\
    (forall w, 0 <= w < 4294967296 -> w / 4096 <> v / 4096 -> exists a, vmm_v2p w s = Ret s a [] /\ vmm_v2p w s' = Ret s' a []) /\
    free_set kern_pool (v_mem s') = free_set kern_pool (v_mem s) ∪ byte_up_to p.
Proof.
  intros Hs Hinv [Hr Hr2] HF Hp Hmin Ev. pose proof (kern_pool_wf s Hs) as Hwf.
  pose proof Hp as Hp'. apply elem_of_free_set in Hp' as [Hpr _]. destruct (page_addr_of p Hpr) as [Hv _]. rewrite <- Ev in Hv.
  destruct (kern_alloc_first s F p Hs Hinv Hr) as (s1 & f2 & F1 & t & E & HF1 & Hi1 & Hm); [intros ->; cbn in HF; lia|done..|]. rewrite <- Ev in E, Hm.
  assert (Hr1 : pa_ready (v_pages s1)).
  { apply (asks_vmm_kern_alloc s s1 v t 1%nat E). by split. }
  destruct (found_goes_on s1 F1 p [found kern_pool p map_or_fail; Done v] 0
    (pm_ok _ _ _ _ _ Hm) Hi1 Hr1) as (s' & f1 & F' & R & HF' & Hi & Hfree & Hf & Hpte & Ho); [|done| |done|]; try rewrite <- Ev in *.
  - intros ->. apply Permutation_length in HF1. cbn in HF1. lia.
  - intros q [_ Hq]%elem_of_byte_up_to. rewrite (pm_pool _ _ _ _ _ Hm), elem_of_difference, elem_of_singleton.
    intros [Hq2 Hne]. apply Hmin in Hq2. lia.
  - exists s', f1, f2, F'. split; [|split; [by rewrite HF1, HF'|split; [done|split; [|split]]]].
    + etransitivity; [|exact R]. etransitivity.
      * by apply first_finds.
      * exact (exec_steps _ [found kern_pool p map_or_fail; vmm_kern_alloc_accesses kern_pool] s 1 s1 v t eq_refl
          (eq_trans (kern_alloc_accesses_exec s Hs) E)).
    + intros o Hoff. destruct (same_page v o) as [E1 E2]; [rewrite Ev; unfold page_addr; cbn [kern_pool target_addr_header]; dlia|done|].
      assert (Hvo : 0 <= v + o < 4294967296) by (rewrite Ev; unfold page_addr, pages in *; cbn [kern_pool target_addr_header bm_length] in *; lia).
      destruct (v2p_eq s' (v + o) Hvo) as [_ ->]. rewrite E2. replace (get_pte (v + o)) with (get_pte v) by (rewrite !get_pte_eq, E1 by lia; done).
      by rewrite Hpte, pte_frame by tauto.
    + intros w Hw Hne. destruct (v2p_eq s w Hw) as [_ ->], (v2p_eq s' w Hw) as [_ ->].
      rewrite (Ho w Hw Hne), (pm_others _ _ _ _ _ Hm w Hw Hne). eauto.
    + rewrite Hfree, (pm_pool _ _ _ _ _ Hm). apply set_eq. intros q. rewrite !elem_of_union, elem_of_difference, elem_of_singleton, !elem_of_byte_up_to.
      destruct (decide (q = p)) as [->|Hne]; [|tauto].
      split; intros _; [left; exact Hp|right; split; [done|lia]].
Qed.
(** ** Critical sections *)

(** With interrupts off a thread has made its call or it has not. *)
Definition waiting : prog (vmm P) := critical (vmm_kern_alloc_accesses kern_pool).
Definition left (x : prog (vmm P)) : nat := match x with Done _ => 0 | Act _ _ => 1 end.

(** The results so far are pages that were free at first and are not now, each
    of one thread, and the frames suffice for those that wait. *)
Record distinct_pages (free : gset Z) (ts : list (prog (vmm P))) (s : vmm P) : Prop := {
  dp_ok : vmm_ok s;
  dp_frames : exists F, pa_inv (v_pages s) F;
  dp_ready : ready_for (sum_list_with left ts) (v_pages s);
  dp_free : free_set kern_pool (v_mem s) ⊆ free;
  dp_threads i x : ts !! i = Some x -> x = waiting \/ exists a, x = Done a;
  dp_page i a : ts !! i = Some (Done a) -> a <> KERN_VMM_ALLOC_ERRO ->
    exists p, a = page_addr kern_pool p /\ p ∈ free /\ p ∉ free_set kern_pool (v_mem s);
  dp_distinct i j a : ts !! i = Some (Done a) -> ts !! j = Some (Done a) -> a <> KERN_VMM_ALLOC_ERRO -> i = j
}.

Lemma sum_left ts i x y : ts !! i = Some x -> (sum_list_with left (<[i := y]> ts) + left x = sum_list_with left ts + left y)%nat.
Proof.
  revert i. induction ts as [|z ts IH]; intros [|i] H; [done..|injection H as ->; cbn [insert list_insert sum_list_with]; lia|].
  specialize (IH i H). change (<[S i := y]> (z :: ts)) with (z :: <[i := y]> ts). cbn [sum_list_with]. lia.
Qed.

(** One call keeps this, whatever its outcome. *)
Lemma distinct_pages_step free ts s i s' a t :
  distinct_pages free ts s -> ts !! i = Some waiting -> vmm_kern_alloc s = Ret s' a t -> distinct_pages free (<[i := Done a]> ts) s'.
Proof.
  intros [Hs [F Hinv] Hr Hf Ht Hp Hd] Hi E. pose proof (lookup_lt_Some _ _ _ Hi) as Hl.
  pose proof (sum_left ts i waiting (Done a) Hi) as Hsum. cbn [left waiting critical] in Hsum.
  assert (Hr' : ready_for (sum_list_with left (<[i := Done a]> ts)) (v_pages s')).
  { apply (asks_vmm_kern_alloc s s' a t _ E). by replace (1 + _)%nat with (sum_list_with left ts) by lia. }
  assert (Hr1 : pa_ready (v_pages s)).
  { replace (sum_list_with left ts) with (S (sum_list_with left (<[i := Done a]> ts))) in Hr by lia. by destruct Hr. }
  assert (Hth : forall j x, <[i := Done a]> ts !! j = Some x -> x = waiting \/ exists b, x = Done b).
  { intros j x Hj. apply list_lookup_insert_Some in Hj as [(_ & <- & _)|[_ Hj]]; [by right; exists a|by apply (Ht j)]. }
  destruct (kern_alloc_cases s F Hs Hinv Hr1) as [(m & E' & Hm & _)|(s1 & p & f & F' & Hpf & _ & E' & _ & Hinv' & Hmap)];
    rewrite E in E'; injection E' as -> -> _.
  - assert (Efs : free_set kern_pool m = free_set kern_pool (v_mem s)) by (by apply free_set_proper).
    split; cbn [v_mem set_mem v_pages].
    + by apply vmm_ok_mem.
    + by exists F.
    + done.
    + by rewrite Efs.
    + done.
    + intros j b Hj Hb. apply list_lookup_insert_Some in Hj as [(_ & [= <-] & _)|[_ Hj]]; [done|]. rewrite Efs. by apply (Hp j).
    + intros j k b Hj Hk Hb. apply list_lookup_insert_Some in Hj as [(_ & [= <-] & _)|[_ Hj]]; [done|].
      apply list_lookup_insert_Some in Hk as [(_ & [= <-] & _)|[_ Hk]]; [done|]. by apply (Hd j k b).
  - assert (Hold : forall j b, ts !! j = Some (Done b) -> b <> KERN_VMM_ALLOC_ERRO -> b <> page_addr kern_pool p).
    { intros j b Hj Hb ->. destruct (Hp j _ Hj Hb) as (q & Hq & _ & Hn). apply page_addr_inj in Hq as ->. done. }
    split.
    + apply (pm_ok _ _ _ _ _ Hmap).
    + by exists F'.
    + done.
    + rewrite (pm_pool _ _ _ _ _ Hmap). by apply subseteq_difference_l.
    + done.
    + rewrite (pm_pool _ _ _ _ _ Hmap). intros j b Hj Hb. apply list_lookup_insert_Some in Hj as [(_ & [= <-] & _)|[_ Hj]].
      * exists p. split; [done|]. rewrite not_elem_of_difference, elem_of_singleton. split; [by apply Hf|by right].
      * destruct (Hp j b Hj Hb) as (q & ? & ? & ?). exists q. rewrite not_elem_of_difference. tauto.
    + intros j k b Hj Hk Hb. apply list_lookup_insert_Some in Hj as [(-> & [= <-] & _)|[_ Hj]];
        apply list_lookup_insert_Some in Hk as [(-> & Hk & _)|[_ Hk]]; [done|exfalso; by apply (Hold _ _ Hk Hb)| |by apply (Hd j k b)].
      injection Hk as <-. exfalso. by apply (Hold _ _ Hj Hb).
Qed.

Lemma distinct_pages_reachable free ts s ts' s' :
  distinct_pages free ts s -> rtc istep (ts, s) (ts', s') -> distinct_pages free ts' s'.
Proof.
  intros H Hr. remember (ts, s) as x eqn:Ex. remember (ts', s') as y eqn:Ey. revert ts s Ex H.
  induction Hr as [x|x [ts1 s1] y Hst Hr IH]; intros ts s -> H; [by injection Ey as -> ->|].
  apply (IH Ey ts1 s1 eq_refl). inversion Hst as [? ? i c k ? a t Hi E]; subst.
  destruct (dp_threads _ _ _ H i _ Hi) as [Hw|[b [=]]]. apply act_inj in Hw as [-> ->].
  rewrite kern_alloc_accesses_exec in E by apply H. by eapply distinct_pages_step.
Qed.

(** C19: Any number of threads allocate pages of the kernel, each with interrupts
    off during its call, in any order and seen at any time: no two of those that
    have a page have the same one, and their pages were free at first and are not
    free now. *)
Theorem critical_allocs_distinct n s F ts s' :
  vmm_ok s -> pa_inv (v_pages s) F -> ready_for n (v_pages s) ->
  rtc istep (replicate n (critical (vmm_kern_alloc_accesses kern_pool)), s) (ts, s') ->
  forall i a, ts !! i = Some (Done a) -> a <> KERN_VMM_ALLOC_ERRO ->
    (exists p, a = page_addr kern_pool p /\ p ∈ free_set kern_pool (v_mem s) /\ p ∉ free_set kern_pool (v_mem s')) /\
    forall j, ts !! j = Some (Done a) -> i = j.
Proof.
  intros Hs Hinv Hr R i a Hi Ha.
  assert (H : distinct_pages (free_set kern_pool (v_mem s)) (replicate n waiting) s).
  { assert (Hno : forall j b, replicate n waiting !! j <> Some (Done b)) by (intros j b [[=] _]%lookup_replicate).
    split; [done|by exists F| |done| |intros j b Hj; by apply Hno in Hj|intros j k b Hj; by apply Hno in Hj].
    - replace (sum_list_with left (replicate n waiting)) with n; [done|]. clear. induction n as [|n IH]; [done|]. cbn. by rewrite <- IH.
    - intros j x [-> _]%lookup_replicate. by left. }
  pose proof (distinct_pages_reachable _ _ _ _ _ H R) as [_ _ _ _ _ Hp Hd]. split; [by apply (Hp i)|]. intros j Hj. by apply (Hd i j a).
Qed.
End kern.

(** ** Concrete threads: the first three pages of the kernel are in use *)

#[local] Existing Instance small_vmm_layout.

Definition used_vmm : vmm pmm := set_mem (st8 ∅ 65536 31) small_vmm.

Lemma used_vmm_ok : vmm_ok used_vmm.
Proof. exact (vmm_ok_mem _ _ small_vmm_ok). Qed.
Lemma used_inv : pa_inv (v_pages used_vmm) small_frames.
Proof. exact small_inv. Qed.
Lemma used_ready : ready_for 2 (v_pages used_vmm).
Proof. apply (single_pages_ready 2 small_pmm small_lists small_buddy). by vm_compute. Qed.
Lemma used_first : 3 ∈ free_set kern_pool (v_mem used_vmm) /\ forall q, q ∈ free_set kern_pool (v_mem used_vmm) -> 3 <= q.
Proof.
  split; [apply elem_of_free_set; split; [by vm_compute|by vm_compute]|]. intros q [Hq Hf]%elem_of_free_set.
  destruct (decide (q < 3)) as [Hlt|]; [|lia]. exfalso. assert (q = 0 \/ q = 1 \/ q = 2) as [-> | [-> | ->]] by lia; by vm_compute in Hf.
Qed.

Lemma two_allocs_race_witness :
  exists s' f1 f2, rtc istep ([vmm_kern_alloc_accesses kern_pool; vmm_kern_alloc_accesses kern_pool], used_vmm)
      ([Done 3221237760; Done 3221237760], s') /\ vmm_v2p 3221237765 s' = Ret s' (f1 + 5) [] /\ f1 ∈ small_frames /\ f2 ∈ small_frames /\
    0 ∈ free_set kern_pool (v_mem s') /\ 3 ∈ free_set kern_pool (v_mem s').
Proof.
  destruct used_first as [H1 H2]. assert (Hn : (2 <= length small_frames)%nat) by (vm_compute; lia).
  destruct (two_allocs_race used_vmm small_frames 3 3221237760 used_vmm_ok used_inv used_ready Hn H1 H2 eq_refl)
    as (s' & f1 & f2 & F' & R & HF & _ & Hv & _ & Hfree).
  assert (HE : forall x, x ∈ f2 :: f1 :: F' -> x ∈ small_frames).
  { clear -HF. revert HF. generalize small_frames. intros F HF x Hx. by rewrite HF. }
  assert (Hb : forall q, q ∈ byte_up_to 3 -> q ∈ free_set kern_pool (v_mem s')).
  { clear -Hfree. rewrite Hfree. intros q Hq. by apply elem_of_union_r. }
  exists s', f1, f2. split; [exact R|]. split; [exact (Hv 5 ltac:(lia))|].
  split; [apply HE; right; left|split; [apply HE; left|split; apply Hb, elem_of_byte_up_to; (split; [reflexivity|lia])]].
Defined.

Lemma critical_allocs_distinct_witness :
  exists ts s', rtc istep (replicate 2 (critical (vmm_kern_alloc_accesses kern_pool)), used_vmm) (ts, s') /\
    ts !! 0%nat = Some (Done 3221237760) /\ (exists p, 3221237760 = page_addr kern_pool p /\ p ∉ free_set kern_pool (v_mem s')) /\
    forall j, ts !! j = Some (Done 3221237760) -> 0%nat = j.
Proof.
  destruct used_first as [H1 H2].
  destruct (kern_alloc_first used_vmm small_frames 3 used_vmm_ok used_inv (proj1 used_ready) ltac:(discriminate) H1 H2)
    as (s1 & f & F' & t & E & _).
  assert (R : rtc istep (replicate 2 (critical (vmm_kern_alloc_accesses kern_pool)), used_vmm)
    (<[0%nat := Done 3221237760]> (replicate 2 (critical (vmm_kern_alloc_accesses kern_pool))), s1)).
  { apply rtc_once. apply (IStep (replicate 2 (critical (vmm_kern_alloc_accesses kern_pool))) used_vmm 0 (exec (vmm_kern_alloc_accesses kern_pool)) Done s1 3221237760 t eq_refl).
    exact (eq_trans (kern_alloc_accesses_exec used_vmm used_vmm_ok) E). }
  exists (<[0%nat := Done 3221237760]> (replicate 2 (critical (vmm_kern_alloc_accesses kern_pool)))), s1. split; [exact R|]. split; [reflexivity|].
  destruct (critical_allocs_distinct 2 used_vmm small_frames _ s1 used_vmm_ok used_inv used_ready R 0 3221237760 eq_refl ltac:(discriminate))
    as [(p & Hp & _ & Hn) Hd].
  split; [exists p; exact (conj Hp Hn)|exact Hd].
Defined.
