(* ===== verification/UserTask.v ===== *)
(** * kernel/modules/user_task/user_task.c: creating and starting user tasks

    [create_user_task] builds the address space of a task ([UserVm]) and its
    thread ([Threads]); [start_user_task] is the function that thread begins
    with: it allocates the pages of the arguments and of the stack and leaves
    the kernel by a forged return from an interrupt.  [exit_int] of
    common_asm.s pops that frame. *)

From S2P Require Import Prelude Memory CString Bitmap KernLog Pmm PmmSpec PmmAlloc PmmSys PmmThm PageTable Tcb Vmm VmmThm VmmUser Tss UserVm Threads ThreadsThm ThreadsSys.

Definition INTR_TO_LEVEL3_EFLAGS : Z := 514.

(** start_user_task_params_t, as stored in memory. *)
Definition is_from_file_off : Z := 0.
Definition function_off : Z := 4.

(** interrupt_stack_t: the fields from the top of the stack on. *)
Record interrupt_stack_t := {
  int_no_1 : Z; is_args : Z; is_gs : Z; is_fs : Z; is_es : Z;
  is_edi : Z; is_esi : Z; is_ebp : Z; esp_duplicate : Z; is_ebx : Z; is_edx : Z; is_ecx : Z; is_eax : Z;
  int_no_2 : Z; error_no : Z; is_eip : Z; is_cs : Z; is_eflags : Z; is_esp : Z; is_ss : Z
}.

Section code.
Context {P : Type} {PA : PageAllocator P} {L : VmmLayout} {TL : TssLayout} {HL : ThreadLayout}.

(** The registers after the [iret]; the result is the code and the stack
    segment. *)
Definition exit_int (st : interrupt_stack_t) : M (kern P) (Z * Z) :=
  modify (set_regs (Build_context_t (is_ebp st) (is_ebx st) (is_ecx st) (is_edx st) (is_esi st) (is_edi st)
    (is_eflags st) (is_esp st))) ;;
  modify (set_eip (is_eip st)) ;;
  emit Iret ;;
  ret (is_cs st, is_ss st).

Definition start_user_task (params_ptr : Z) : M (kern P) (Z * Z) :=
  is_from_file <- in_mem (load32 (params_ptr + is_from_file_off)) ;;
  if negb (is_from_file =? 0) then stop_kern LOG_SRC_USER_TASK "File System is not exits!STOP!"
  else
    function <- in_mem (load32 (params_ptr + function_off)) ;;
    if function =? 0 then
      stop_kern LOG_SRC_USER_TASK "Main Function is NULL when create user task by function input!STOP!"
    else
      cur <- get_running_progress ;;
      t <- get_tcb cur ;;
      args_page <- in_vmm (vmm_user_alloc_one_page t (3221225472 - PAGE_SIZE)) ;;
      if args_page =? USER_VMM_ALLOC_ERRO then
        stop_kern LOG_SRC_USER_TASK "Can`t Create User Task Args Page!STOP!"
      else
        user_stack_page <- in_vmm (vmm_user_alloc_one_page t (3221225472 - 2 * PAGE_SIZE)) ;;
        if user_stack_page =? USER_VMM_ALLOC_ERRO then
          stop_kern LOG_SRC_USER_TASK "Can`t Create User Task Stack Page!STOP!"
        else
          exit_int {| int_no_1 := 1; is_args := 0; is_gs := 0; is_fs := 0; is_es := 0; is_edi := 0; is_esi := 0;
            is_ebp := 0; esp_duplicate := 0; is_ebx := 0; is_edx := 0; is_ecx := 0; is_eax := 0; int_no_2 := 0;
            error_no := 0; is_eip := function; is_cs := Z.land SELECTOR_USER_CODE_MEM 65535;
            is_eflags := INTR_TO_LEVEL3_EFLAGS; is_esp := u32 (user_stack_page + PAGE_SIZE);
            is_ss := Z.land SELECTOR_USER_DATA_MEM 65535 |}.

(** [start] is the address of [start_user_task]. *)
Definition create_user_task (start tid args : Z) : M (kern P) unit :=
  user_vmm_pool <- in_vmm create_user_task_bitmap ;;
  pdt_vaddr <- in_vmm create_user_task_pdt ;;
  if pdt_vaddr =? USER_TASK_INIT_ERRO then
    stop_kern LOG_SRC_USER_TASK "Can`t Create New User Task Because Of Error When Alloc User Pdt!STOP!"
  else
    TCB_page <- in_vmm vmm_kern_alloc ;;
    if TCB_page =? KERN_VMM_ALLOC_ERRO then
      stop_kern LOG_SRC_USER_TASK
        "Can`t Create New User Task Because Of Error When Alloc TCB Page From Kernel VMM!STOP!"
    else create_thread tid start args TCB_page 1 0 user_vmm_pool pdt_vaddr.

(** Empty in the source. *)
Definition change_esp (stack_top_addr : Z) : M (kern P) unit := ret tt.
Definition handle_int_exit_stack (stack_top_ptr : Z) : M (kern P) unit := ret tt.

End code.

(** ** The page directory of a task *)

Lemma ld32_bytes m m' a b : (forall i, 0 <= i < 4 -> ld8 m' (a + i) = ld8 m (b + i)) -> ld32 m' a = ld32 m b.
Proof.
  intros H. unfold ld32. pose proof (H 0 ltac:(lia)) as H0. rewrite !Z.add_0_r in H0.
  by rewrite H0, (H 1), (H 2), (H 3) by lia.
Qed.

Lemma ld32_zero m a : (forall i, 0 <= i < 4 -> ld8 m (a + i) = 0) -> ld32 m a = 0.
Proof.
  intros H. unfold ld32. pose proof (H 0 ltac:(lia)) as H0. rewrite !Z.add_0_r in H0.
  by rewrite H0, (H 1), (H 2), (H 3) by lia.
Qed.

Section pdt.
Context {P : Type} {PA : PageAllocator P} {PS : PageAllocatorSpec P} {L : VmmLayout} {TL : TssLayout}.
Implicit Types (s : vmm P).

(** The memory of the page at [a] after the three steps that fill it. *)
Definition pdt_mem (m : mem) (a v : Z) : mem :=
  let m1 := write_bytes m a zero_page in
  let m2 := write_bytes m1 (a + 3072) (read_bytes m1 4294966272 1024) in
  st32 m2 (a + 4092) v.

Lemma pdt_mem_entries m a v :
  0 <= a -> a + 4096 <= 4290772992 -> 0 <= v < 4294967296 ->
  (forall i, 0 <= i < 768 -> ld32 (pdt_mem m a v) (a + 4 * i) = 0) /\
  (forall i, 768 <= i < 1023 -> ld32 (pdt_mem m a v) (a + 4 * i) = ld32 m (4294963200 + 4 * i)) /\
  ld32 (pdt_mem m a v) (a + 4092) = v /\
  (forall b, a + 4096 <= b < 4294967296 -> ld8 (pdt_mem m a v) b = ld8 m b).
Proof.
  intros Ha0 Ha Hv. unfold pdt_mem. set (m1 := write_bytes m a _). set (m2 := write_bytes m1 (a + 3072) _).
  pose proof length_zero_page as L1.
  assert (L2 : length (read_bytes m1 4294966272 1024) = 1024%nat) by apply length_read_bytes.
  assert (Z1 : forall j, 0 <= j < 4096 -> ld8 m1 (a + j) = 0).
  { intros j Hj. unfold m1. rewrite ld8_write_bytes_in by (unfold region; rewrite ?L1; lia).
    by rewrite zero_page_lookup. }
  assert (O1 : forall b, 0 <= b < 4294967296 -> b < a \/ a + 4096 <= b -> ld8 m1 b = ld8 m b).
  { intros b Hb Ho. unfold m1. apply ld8_write_bytes_out; unfold region; rewrite ?L1; lia. }
  assert (Z2 : forall j, 0 <= j < 3072 -> ld8 m2 (a + j) = 0).
  { intros j Hj. unfold m2. rewrite ld8_write_bytes_out by (unfold region; rewrite ?L2; lia). apply Z1. lia. }
  assert (C2 : forall j, 0 <= j < 1024 -> ld8 m2 (a + 3072 + j) = ld8 m (4294966272 + j)).
  { intros j Hj. unfold m2. rewrite ld8_write_bytes_in by (unfold region; rewrite ?L2; lia).
    rewrite read_bytes_lookup by lia. rewrite Z2Nat.id by lia. rewrite O1 by lia. apply u8_small, ld8_range. }
  assert (St : forall b, 0 <= b < 4294967296 -> b < a + 4092 \/ a + 4096 <= b -> ld8 (st32 m2 (a + 4092) v) b = ld8 m2 b).
  { intros b Hb Ho. apply ld8_st32_ne. intros i Hi. rewrite !u32_small by lia. lia. }
  split; [|split; [|split]].
  - intros i Hi. apply ld32_zero. intros j Hj. rewrite St by lia. rewrite <- Z.add_assoc. apply Z2. lia.
  - intros i Hi. apply ld32_bytes. intros j Hj. rewrite St by lia.
    replace (a + 4 * i + j) with (a + 3072 + (4 * i - 3072 + j)) by lia. rewrite C2 by lia. f_equal. lia.
  - rewrite ld32_st32_eq. by apply u32_small.
  - intros b Hb. rewrite St by lia. unfold m2. rewrite ld8_write_bytes_out by (unfold region; rewrite ?L2; lia). apply O1; lia.
Qed.

(** The steps behind the allocation of the directory's page. *)
Lemma create_user_task_pdt_eq s s1 p f :
  let a := page_addr kern_pool p in
  let m := pdt_mem (v_mem s1) a (f + 259) in
  0 <= p -> a < 4290772992 -> vmm_kern_alloc s = Ret s1 a [Invlpg a] -> page_mapped s s1 a p f ->
  create_user_task_pdt s = Ret (set_mem m s1) a [Invlpg a] /\
  (forall i, 0 <= i < 768 -> ld32 m (a + 4 * i) = 0) /\
  (forall i, 768 <= i < 1023 -> ld32 m (a + 4 * i) = ld32 (v_mem s) (4294963200 + 4 * i)) /\
  ld32 m (a + 4 * 1023) = f + 259 /\ ld32 m (get_pte a) = f + 259.
Proof.
  intros a m Hp Hlow E [_ _ He Ho _ [Hf Hal] _].
  assert (Ha : 3221225472 <= a /\ a + 4096 <= 4290772992 /\ a `mod` 4096 = 0).
  { unfold a, page_addr in *. cbn [kern_pool target_addr_header] in *. split; [lia|]. split; [lia|dlia]. }
  destruct Ha as (Ha0 & Ha & Ham). set (m0 := v_mem s1) in *.
  assert (Hw : f <= 4294963200) by dlia.
  assert (Hpde : get_pde 3221225472 = 4294966272) by (rewrite get_pde_eq by lia; reflexivity).
  destruct (pdt_mem_entries m0 a (f + 259)) as (Q1 & Q2 & Q3 & Q4); [lia|lia|lia|].
  assert (Hpte : 4290772992 <= get_pte a /\ get_pte a + 4 <= 4294966272).
  { rewrite get_pte_eq by lia. dlia. }
  split; [|split; [exact Q1|split; [|split; [exact Q3|]]]].
  - unfold create_user_task_pdt. run E by idtac. rewrite (proj2 (Z.eqb_neq a KERN_VMM_ALLOC_ERRO)) by (unfold KERN_VMM_ALLOC_ERRO; lia).
    set (m1 := write_bytes m0 a zero_page).
    rewrite (bind_ret_eq _ _ _ _ _ _ (on_mem_ret _ _ _ _ _ (memset_page a (v_mem s1)))). fold m0. fold m1.
    set (m2 := write_bytes m1 (a + 3072) (read_bytes m1 4294966272 1024)). unfold pdt_mapping_helper. rewrite Hpde, (u32_small (a + 3072)) by lia.
    rewrite (bind_ret_eq _ _ (set_mem m1 s1) (set_mem m2 s1) tt [])
      by (unfold on_mem, zoom; cbn [v_mem set_mem]; rewrite memcpy_eq by (unfold region, disjoint_blocks; lia); reflexivity).
    assert (E2 : ld32 m2 (get_pte a) = f + 259).
    { rewrite <- He. apply ld32_bytes. intros i Hi. fold m0. unfold m2, m1.
      rewrite ld8_write_bytes_out by (unfold region; rewrite ?length_read_bytes; lia).
      apply ld8_write_bytes_out; unfold region; rewrite ?length_zero_page; lia. }
    destruct (v2p_eq (set_mem m2 s1) a) as [_ Ev]; [lia|]. cbn [v_mem set_mem] in Ev. rewrite E2, pte_frame, Ham, Z.add_0_r in Ev by done.
    rewrite (bind_ret_eq _ _ _ _ _ _ Ev). unfold mapping_last_pde. rewrite (u32_small (a + 4096 - 4)) by lia.
    replace (u32 (page_mask f + PAGE_DESC_RW_W + PAGE_DESC_US_S + PAGE_DESC_G + PAGE_DESC_P)) with (f + 259).
    2:{ unfold page_mask, PAGE_DESC_RW_W, PAGE_DESC_US_S, PAGE_DESC_G, PAGE_DESC_P. rewrite land_page_mask by done.
        rewrite u32_small; dlia. }
    rewrite (bind_ret_eq _ _ _ (set_mem m s1) tt []); [reflexivity|].
    unfold on_mem, zoom, m, pdt_mem. cbn [v_mem set_mem]. replace (a + 4096 - 4) with (a + 4092) by lia. reflexivity.
  - intros i Hi. unfold m. rewrite Q2 by done.
    assert (Ei : 4294963200 + 4 * i = get_pte (4290772992 + 4096 * i)).
    { rewrite get_pte_eq by lia. replace ((4290772992 + 4096 * i) / 4096) with (1047552 + i) by dlia. lia. }
    rewrite Ei. unfold m0. apply Ho; [lia|]. dlia.
  - transitivity (ld32 m0 (get_pte a)); [|exact He]. apply ld32_bytes. intros i Hi. apply Q4. lia.
Qed.

(** [create_user_task_pdt] fails and leaves memory as it was, or takes the
    lowest free page of the kernel: the new directory maps nothing below 3 GB,
    has the kernel's entries above, so that the kernel is the same in every
    address space, except that its last entry is its own frame: the recursive
    mapping of the new address space. *)
Lemma create_user_task_pdt_spec s F :
  vmm_ok s -> pa_inv (v_pages s) F -> pa_ready (v_pages s) ->
  (forall p, p ∈ free_set kern_pool (v_mem s) -> page_addr kern_pool p < 4290772992) ->
  (exists m, create_user_task_pdt s = Ret (set_mem m s) USER_TASK_INIT_ERRO [] /\ mem_eq m (v_mem s)) \/
  (exists s' p f F', p ∈ free_set kern_pool (v_mem s) /\ F ≡ₚ f :: F' /\ pa_inv (v_pages s') F' /\
     let a := page_addr kern_pool p in
     create_user_task_pdt s = Ret s' a [Invlpg a] /\
     (forall i, 0 <= i < 768 -> ld32 (v_mem s') (a + 4 * i) = 0) /\
     (forall i, 768 <= i < 1023 -> ld32 (v_mem s') (a + 4 * i) = ld32 (v_mem s) (4294963200 + 4 * i)) /\
     ld32 (v_mem s') (a + 4 * 1023) = f + 259 /\
     ld32 (v_mem s') (get_pte a) = f + 259).
Proof.
  intros Hs Hinv Hready Hlow.
  destruct (kern_alloc_cases s F Hs Hinv Hready) as [(m & E & Hm & _)|(s1 & p & f & F' & Hp & _ & E & HF & Hinv' & Hmap)].
  - left. exists m. unfold create_user_task_pdt. run E by idtac. by split.
  - right. specialize (Hlow p Hp). pose proof Hp as [[Hp0 _] _]%elem_of_free_set.
    destruct (create_user_task_pdt_eq s s1 p f Hp0 Hlow E Hmap) as (E' & Q). eexists _, p, f, F'. split; [done|]. split; [done|].
    split; [|split; [exact E'|exact Q]]. exact Hinv'.
Qed.
End pdt.

(** ** The first user instruction *)

Section start.
Context {P : Type} {PA : PageAllocator P} {L : VmmLayout} {TL : TssLayout} {HL : ThreadLayout}.

Lemma user_clean_result vaddr (s s' : vmm P) r t :
  user_clean_bitmap_alloc vaddr s = Ret s' r t -> r = USER_VMM_ALLOC_ERRO.
Proof.
  intros H. apply bind_inv in H as (? & ? & ? & ? & _ & H & _).
  apply bind_inv in H as (? & ? & ? & ? & _ & H & _). by injection H.
Qed.

(** A user allocation returns the page asked for, or the error code. *)
Lemma user_begin_result t vaddr (s s' : vmm P) v tr :
  user_page_begin t vaddr s = Ret s' (Page_refused v) tr -> v = USER_VMM_ALLOC_ERRO.
Proof.
  unfold user_page_begin. intros H. apply bind_inv in H as (? & ? & ? & ? & _ & H & _).
  destruct (_ =? 0); [by injection H|]. destruct (negb _); [by injection H|].
  apply bind_inv in H as (? & ? & ? & ? & _ & H & _).
  destruct (_ =? BITMAP_RETURN_ERRO);
    [apply bind_inv in H as (? & ? & ? & ? & Hc & [= _ <- _] & _); by eapply user_clean_result|].
  apply bind_inv in H as (? & present & ? & ? & _ & H & _). destruct present; [done|]. cbv zeta in H.
  apply bind_inv in H as (? & ? & ? & ? & _ & H & _). destruct (negb _); [|done].
  apply bind_inv in H as (? & ? & ? & ? & Hc & [= _ <- _] & _). by eapply user_clean_result.
Qed.

Lemma user_end_result vaddr (s s' : vmm P) r tr :
  user_page_end vaddr s = Ret s' r tr -> r = USER_VMM_ALLOC_ERRO \/ r = page_mask vaddr.
Proof.
  unfold user_page_end. intros H. apply bind_inv in H as (? & ? & ? & ? & _ & H & _).
  destruct (_ =? 0); [left; by eapply user_clean_result|].
  apply bind_inv in H as (? & ? & ? & ? & _ & H & _). apply bind_inv in H as (? & ? & ? & ? & _ & H & _).
  injection H as _ <- _. by right.
Qed.

Lemma user_alloc_result t vaddr (s s' : vmm P) r tr :
  vmm_user_alloc_one_page t vaddr s = Ret s' r tr -> r = USER_VMM_ALLOC_ERRO \/ r = page_mask vaddr.
Proof.
  unfold vmm_user_alloc_one_page. intros H. apply bind_inv in H as (? & b & ? & ? & Hb & H & _). destruct b as [v| |].
  - injection H as _ <- _. left. by eapply user_begin_result.
  - do 3 apply bind_inv in H as (? & ? & ? & ? & _ & H & _). by eapply user_end_result.
  - by eapply user_end_result.
Qed.

Definition user_stop (text : string) : event :=
  Printk_color "[STOP][%s]%s\n" white black [PStr LOG_SRC_USER_TASK; PStr text].

(** What a thread that entered user mode runs with: the function of the task,
    a stack that ends at 0xBFFFF000, interrupts on. *)
Definition user_entry (function : Z) (v : vmm P) (s : kern P) : kern P :=
  Build_kern v (tcbs s) (cur_tcb s) (Build_context_t 0 0 0 0 0 0 INTR_TO_LEVEL3_EFLAGS 3221221376) function.

(** The outcomes of [start_user_task]. *)
Lemma start_user_task_cases (s : kern P) params_ptr t :
  let file := ld32 (v_mem (k_vmm s)) params_ptr in
  let function := ld32 (v_mem (k_vmm s)) (params_ptr + 4) in
  tcbs s !! cur_tcb s = Some t ->
  (file <> 0 -> start_user_task params_ptr s = Stop s [user_stop "File System is not exits!STOP!"]) /\
  (file = 0 -> function = 0 -> start_user_task params_ptr s =
     Stop s [user_stop "Main Function is NULL when create user task by function input!STOP!"]) /\
  (forall v1 r1 t1, file = 0 -> function <> 0 -> vmm_user_alloc_one_page t 3221221376 (k_vmm s) = Ret v1 r1 t1 ->
     (r1 = USER_VMM_ALLOC_ERRO -> start_user_task params_ptr s =
        Stop (set_vmm v1 s) (t1 ++ [user_stop "Can`t Create User Task Args Page!STOP!"])) /\
     (forall v2 r2 t2, r1 <> USER_VMM_ALLOC_ERRO -> vmm_user_alloc_one_page t 3221217280 v1 = Ret v2 r2 t2 ->
        if decide (r2 = USER_VMM_ALLOC_ERRO) then start_user_task params_ptr s =
          Stop (set_vmm v2 s) (t1 ++ t2 ++ [user_stop "Can`t Create User Task Stack Page!STOP!"])
        else start_user_task params_ptr s = Ret (user_entry function v2 s) (35, 43) (t1 ++ t2 ++ [Iret]) /\
          Z.land 35 3 = 3 /\ Z.land 43 3 = 3 /\ if_flag (regs (user_entry function v2 s)) = true)).
Proof.
  intros file function Ht. unfold start_user_task, is_from_file_off, function_off. rewrite Z.add_0_r.
  rewrite (bind_ret_eq _ _ _ _ _ _ (in_mem_load32 params_ptr s)), prepend_nil. fold file.
  split; [intros Hf; by rewrite (proj2 (Z.eqb_neq _ _) Hf)|].
  split.
  - intros Hf Hn. rewrite Hf. cbn [Z.eqb negb].
    rewrite (bind_ret_eq _ _ _ _ _ _ (in_mem_load32 (params_ptr + 4) s)), prepend_nil. fold function. by rewrite Hn.
  - intros v1 r1 t1 Hf Hn E1. rewrite Hf. cbn [Z.eqb negb].
    rewrite (bind_ret_eq _ _ _ _ _ _ (in_mem_load32 (params_ptr + 4) s)), prepend_nil. fold function.
    rewrite (proj2 (Z.eqb_neq _ _) Hn). unfold get_running_progress. rewrite bind_gets.
    assert (Eg : get_tcb (cur_tcb s) s = Ret s t []) by (unfold get_tcb; by rewrite Ht).
    rewrite (bind_ret_eq _ _ _ _ _ _ Eg), prepend_nil.
    assert (A1 : in_vmm (vmm_user_alloc_one_page t (3221225472 - PAGE_SIZE)) s = Ret (set_vmm v1 s) r1 t1)
      by (unfold in_vmm, zoom; change (3221225472 - PAGE_SIZE) with 3221221376; by rewrite E1).
    rewrite (bind_ret_eq _ _ _ _ _ _ A1).
    split; [intros ->; by rewrite Z.eqb_refl|].
    intros v2 r2 t2 Hr1 E2. rewrite (proj2 (Z.eqb_neq _ _) Hr1).
    assert (A2 : in_vmm (vmm_user_alloc_one_page t (3221225472 - 2 * PAGE_SIZE)) (set_vmm v1 s) =
      Ret (set_vmm v2 s) r2 t2)
      by (unfold in_vmm, zoom; change (3221225472 - 2 * PAGE_SIZE) with 3221217280; cbn [k_vmm set_vmm]; by rewrite E2).
    rewrite (bind_ret_eq _ _ _ _ _ _ A2), prepend_app.
    destruct (decide (r2 = USER_VMM_ALLOC_ERRO)) as [->|Hr2].
    + rewrite Z.eqb_refl. rewrite app_assoc. reflexivity.
    + rewrite (proj2 (Z.eqb_neq _ _) Hr2).
      destruct (user_alloc_result _ _ _ _ _ _ E2) as [-> | ->]; [done|]. rewrite app_assoc.
      split; [reflexivity|]. by vm_compute.
Qed.

(** C38: [start_user_task] stops the kernel for a task from a file, for a task
    without a function, and when one of the two pages of the task cannot be
    had.  Otherwise it leaves the kernel: at the function of the task, with the
    user segments (the privilege level of both is 3), with the whole page below
    0xBFFFF000 as stack and with the interrupts on. *)
Theorem start_user_task_spec (s : kern P) params_ptr t :
  let file := ld32 (v_mem (k_vmm s)) params_ptr in
  let function := ld32 (v_mem (k_vmm s)) (params_ptr + 4) in
  tcbs s !! cur_tcb s = Some t ->
  (file <> 0 -> start_user_task params_ptr s = Stop s [user_stop "File System is not exits!STOP!"]) /\
  (file = 0 -> function = 0 -> start_user_task params_ptr s =
     Stop s [user_stop "Main Function is NULL when create user task by function input!STOP!"]) /\
  (forall v1 r1 t1, file = 0 -> function <> 0 -> vmm_user_alloc_one_page t 3221221376 (k_vmm s) = Ret v1 r1 t1 ->
     (r1 = USER_VMM_ALLOC_ERRO -> start_user_task params_ptr s =
        Stop (set_vmm v1 s) (t1 ++ [user_stop "Can`t Create User Task Args Page!STOP!"])) /\
     (forall v2 r2 t2, r1 <> USER_VMM_ALLOC_ERRO -> vmm_user_alloc_one_page t 3221217280 v1 = Ret v2 r2 t2 ->
        if decide (r2 = USER_VMM_ALLOC_ERRO) then start_user_task params_ptr s =
          Stop (set_vmm v2 s) (t1 ++ t2 ++ [user_stop "Can`t Create User Task Stack Page!STOP!"])
        else start_user_task params_ptr s = Ret (user_entry function v2 s) (35, 43) (t1 ++ t2 ++ [Iret]) /\
          Z.land 35 3 = 3 /\ Z.land 43 3 = 3 /\ if_flag (regs (user_entry function v2 s)) = true)).
Proof. exact (start_user_task_cases s params_ptr t). Qed.
End start.

(** *** A new task *)

Section fresh.
Context {P : Type} {PA : PageAllocator P} {PS : PageAllocatorSpec P} {L : VmmLayout} {TL : TssLayout} {HL : ThreadLayout}.

(** The entry of the directory for the 4 MB below 3 GB. *)
Definition top_entry (t : TCB_t) : Z := u32 (pdt_vaddr t + 767 * 4).

(** The bits of a pool without page [p]. *)
Definition page_taken (U : bitmap) (p : Z) (m : mem) : mem :=
  st8 m (vaddr_header U + p / 8) (ld8 m (vaddr_header U + p / 8) - 2 ^ (7 - p `mod` 8)).

(** The current thread is a task that has not run: the pool of
    [create_user_task_bitmap], with the two pages below 3 GB free, and an
    absent entry for them in the directory; the kernel has a free page and
    three free frames, which the allocator can hand out one by one. *)
Record fresh_task (s : kern P) (F : list Z) (t : TCB_t) : Prop := {
  ft_current : tcbs s !! cur_tcb s = Some t;
  ft_vmm : vmm_ok (k_vmm s);
  ft_user : user_ok (k_vmm s) t;
  ft_pool : target_addr_header (user_vmm_pool t) = 0 /\ bm_length (user_vmm_pool t) = 98304;
  ft_apart : task_apart (k_vmm s) t (top_entry t);
  ft_args : is_free (user_vmm_pool t) (v_mem (k_vmm s)) 786431 = true;
  ft_stack : is_free (user_vmm_pool t) (v_mem (k_vmm s)) 786430 = true;
  ft_absent : Z.testbit (ld32 (v_mem (k_vmm s)) (top_entry t)) 0 = false;
  ft_kern : free_set kern_pool (v_mem (k_vmm s)) <> ∅;
  ft_frames : pa_inv (v_pages (k_vmm s)) F /\ (3 <= length F)%nat;
  ft_ready : pa_ready (v_pages (k_vmm s));
  ft_ready2 : forall s1 a tr, vmm_kern_alloc (set_mem (page_taken (user_vmm_pool t) 786431 (v_mem (k_vmm s))) (k_vmm s)) =
    Ret s1 a tr -> pa_ready (v_pages s1);
  ft_ready3 : forall s1 r tr, vmm_user_alloc_one_page t 3221221376 (k_vmm s) = Ret s1 r tr -> pa_ready (v_pages s1)
}.

Lemma ld32_st8_apart m a v b (n : Z) i :
  region a n -> disjoint_blocks b 4 a n -> 0 <= b -> b + 4 <= 4294967296 -> 0 <= i < n -> ld32 (st8 m (a + i) v) b = ld32 m b.
Proof.
  unfold region, disjoint_blocks. intros Ha Hd Hb Hb1 Hi. apply ld32_ext. intros c Hc. apply ld8_st8_ne. rewrite !u32_small by lia. lia.
Qed.

(** The first run of a task. *)
Lemma task_enters s F t params_ptr :
  fresh_task s F t -> ld32 (v_mem (k_vmm s)) params_ptr = 0 -> ld32 (v_mem (k_vmm s)) (params_ptr + 4) <> 0 ->
  exists v f1 f2 f3 F' tr,
    start_user_task params_ptr s = Ret (user_entry (ld32 (v_mem (k_vmm s)) (params_ptr + 4)) v s) (35, 43) (tr ++ [Iret]) /\
    F ≡ₚ f1 :: f2 :: f3 :: F' /\ pa_inv (v_pages v) F' /\
    free_set (user_vmm_pool t) (v_mem v) = free_set (user_vmm_pool t) (v_mem (k_vmm s)) ∖ {[786431]} ∖ {[786430]} /\
    ld32 (v_mem v) (top_entry t) = user_pte f1 /\
    ld32 (v_mem v) (get_pte 3221221376) = user_pte f2 /\ ld32 (v_mem v) (get_pte 3221217280) = user_pte f3.
Proof.
  intros [Hc Hv Hu [Ht Hl] Hap Hfa Hfs Habs Hk [Hinv HF] Hr Hr2 Hr3] Hfile Hfun.
  set (U := user_vmm_pool t) in *. pose proof (us_pool _ _ Hu) as Hwf. fold U in Hwf.
  assert (Hpo : forall a, 0 <= a < 3221225472 -> page_of U a = Some (a / 4096)).
  { intros a Ha. unfold page_of, pages. rewrite Ht, Hl, Z.sub_0_r.
    rewrite (proj2 (Z.leb_le 0 (a / 4096))), (proj2 (Z.ltb_lt _ _)) by dlia. done. }
  pose proof (Hpo 3221221376 ltac:(lia)) as P1. change (3221221376 / 4096) with 786431 in P1.
  pose proof (Hpo 3221217280 ltac:(lia)) as P2. change (3221217280 / 4096) with 786430 in P2. clear Hpo.
  pose proof Hap as [Hp0 [Hd0 Hd1] Hdp _ _]. fold U in Hp0, Hdp.
  assert (Hbyte : forall m v i, 0 <= i < 98304 -> ld32 (st8 m (vaddr_header U + i) v) (top_entry t) = ld32 m (top_entry t)).
  { intros m v i Hi. apply (ld32_st8_apart _ _ _ _ 98304); [rewrite <- Hl; apply Hwf|by rewrite <- Hl|lia|lia|done]. }
  apply set_choose_L in Hk as [p0 Hp].
  destruct (new_table_cases (k_vmm s) F t 3221221376 786431 p0) as (v1 & q & f1 & f2 & F2 & E1 & _ & HF1 & Ha1 & _ & Hinv1 & Hf1 & _ & T1 & T2 & V1 & U1);
    [done|done|exact Hap|done|done|lia|apply Hr2|done|lia|exact P1|done| |].
  { change (u32 _) with (top_entry t). fold U. by rewrite Hbyte. }
  change (u32 _) with (top_entry t) in T1. fold U in Hf1.
  assert (Hfs1 : is_free U (v_mem v1) 786430 = true).
  { apply (elem_of_free_set U (v_mem v1)). rewrite Hf1. apply elem_of_difference. split; [|by intros ?%elem_of_singleton].
    apply elem_of_free_set. split; [|done]. unfold pages. lia. }
  pose proof (user_alloc_cases v1 F2 t 3221217280 786430 V1 U1 Hinv1 (Hr3 _ _ _ E1) ltac:(lia) P2 Hfs1) as A2. cbv zeta in A2.
  change (u32 _) with (top_entry t) in A2. fold U in A2. rewrite decide_False in A2 by (intros ->; apply Permutation_length in HF1; cbn in HF1; lia).
  destruct A2 as (v2 & f3 & F' & E2 & HF2 & Hinv2 & Hf2 & T3 & Em).
  { rewrite Hbyte by dlia. rewrite T1. unfold user_pte. apply Z.testbit_true; [lia|]. change (2 ^ 0) with 1. dlia. }
  destruct (start_user_task_cases s params_ptr t Hc) as (_ & _ & Hstart).
  destruct (Hstart _ _ _ Hfile Hfun E1) as [_ Hstart2].
  assert (Hne : forall p, 786430 <= p <= 786431 -> page_addr U p <> USER_VMM_ALLOC_ERRO)
    by (intros p Hpp; unfold page_addr, USER_VMM_ALLOC_ERRO; rewrite Ht; lia).
  specialize (Hstart2 _ _ _ (Hne 786431 ltac:(lia)) E2). rewrite decide_False in Hstart2 by (apply Hne; lia).
  destruct Hstart2 as [Estart _]. rewrite !app_assoc in Estart.
  eexists v2, f1, f2, f3, F', _. split; [exact Estart|]. split; [by rewrite HF1, HF2|]. split; [done|].
  split; [by rewrite Hf2, Hf1|].
  assert (Hlow : vaddr_header U + 98304 <= 4290772992) by (pose proof (us_low _ _ Hu) as Hul; fold U in Hul; lia).
  change (get_pte 3221217280) with 4293918712 in *. change (get_pte 3221221376) with 4293918716 in *.
  split; [|split; [|exact T3]]; rewrite Em.
  - rewrite <- T1, <- (Hbyte (v_mem v1) (ld8 (v_mem v1) (vaddr_header U + 786430 / 8) - 2 ^ (7 - 786430 `mod` 8)) (786430 / 8)) by dlia.
    apply ld32_ext. intros b Hb. apply ld8_st32_low; lia.
  - rewrite <- T2. apply ld32_ext. intros b Hb. rewrite ld8_st32_ne by (intros i Hi; rewrite !u32_small by lia; lia).
    apply ld8_st8_ne. change (786430 / 8) with 98303. rewrite !u32_small by lia. lia.
Qed.

(** A task that has not run before reaches user mode, when there are three free
    frames: one becomes its page table for the 4 MB below 3 GB, one its page of
    arguments and one its stack, all with the rights of a user page; the two
    pages are taken from its pool. *)
Lemma user_task_enters s F t params_ptr :
  fresh_task s F t -> ld32 (v_mem (k_vmm s)) params_ptr = 0 -> ld32 (v_mem (k_vmm s)) (params_ptr + 4) <> 0 ->
  exists v f1 f2 f3 F' tr,
    start_user_task params_ptr s = Ret (user_entry (ld32 (v_mem (k_vmm s)) (params_ptr + 4)) v s) (35, 43) (tr ++ [Iret]) /\
    F ≡ₚ f1 :: f2 :: f3 :: F' /\ pa_inv (v_pages v) F' /\
    free_set (user_vmm_pool t) (v_mem v) = free_set (user_vmm_pool t) (v_mem (k_vmm s)) ∖ {[786431]} ∖ {[786430]} /\
    ld32 (v_mem v) (top_entry t) = user_pte f1 /\
    ld32 (v_mem v) (get_pte 3221221376) = user_pte f2 /\ ld32 (v_mem v) (get_pte 3221217280) = user_pte f3.
Proof. exact (task_enters s F t params_ptr). Qed.
End fresh.

(** ** Concrete instances *)

#[local] Existing Instance small_vmm_layout.
#[local] Existing Instance small_tss.
#[local] Existing Instance ex_threads.

Lemma create_user_task_pdt_spec_witness :
  (exists m, create_user_task_pdt small_vmm = Ret (set_mem m small_vmm) USER_TASK_INIT_ERRO []) \/
  (exists s' p f, create_user_task_pdt small_vmm = Ret s' (page_addr kern_pool p) [Invlpg (page_addr kern_pool p)] /\
     ld32 (v_mem s') (page_addr kern_pool p + 4 * 1023) = f + 259).
Proof.
  destruct (create_user_task_pdt_spec small_vmm small_frames small_vmm_ok small_inv small_ready)
    as [(m & E & _)|(s' & p & f & F' & _ & _ & _ & E & _ & _ & Hl & _)].
  - intros p Hp. apply elem_of_free_set in Hp as [Hp Hf].
    destruct (decide (p < 8)); [unfold page_addr, PAGE_SIZE; cbn [kern_pool target_addr_header]; lia|].
    exfalso. unfold is_free in Hf. unfold small_vmm in Hf. cbn [v_mem] in Hf. unfold pages in Hp. cbn [kern_pool bm_length vaddr_header] in *. change kern_bitmap with 65536 in Hf.
    rewrite ld8_st8_ne in Hf by (rewrite !u32_small; dlia).
    unfold ld8 in Hf. rewrite lookup_empty in Hf. cbn in Hf. change (u8 0) with 0 in Hf. by rewrite Z.testbit_0_l in Hf.
  - left. by exists m.
  - right. exists s', p, f. by split.
Defined.

(** A current user task whose pool, at 0x200000, has the two pages below 3 GB
    free, with its directory at 4096 and its parameters at 1280. *)
Definition task_block : TCB_t :=
  Build_TCB_t 0 TASK_RUNNING 0 10 8192 1 1 8192 0 (Build_bitmap 2097152 98304 0) 4096
    (Build_context_t 0 0 0 0 0 0 0 0) TCB_MAGIC_NUMBER.
Definition task_mem : mem := st32 (st32 (st8 (st8 ∅ 65536 255) 2195455 3) 7164 1) 1284 4660.
Definition task_kern : kern pmm :=
  Build_kern (Build_vmm task_mem small_pmm kern_pool 1) {[ 8192 := task_block ]} 8192 ex_regs 0.

Definition after_alloc (c : M (vmm pmm) Z) (s : vmm pmm) : vmm pmm := match c s with Ret s' _ _ => s' | _ => s end.
Definition trace_of (c : M (vmm pmm) Z) (s : vmm pmm) : list event := match c s with Ret _ _ t => t | _ => [] end.

Lemma start_user_task_spec_witness :
  exists v tr, start_user_task 1280 task_kern = Ret (user_entry 4660 v task_kern) (35, 43) tr.
Proof.
  set (c1 := vmm_user_alloc_one_page task_block 3221221376). set (v1 := after_alloc c1 (k_vmm task_kern)).
  set (c2 := vmm_user_alloc_one_page task_block 3221217280). set (v2 := after_alloc c2 v1).
  assert (E1 : c1 (k_vmm task_kern) = Ret v1 3221221376 (trace_of c1 (k_vmm task_kern)))
    by vm_cast_no_check (eq_refl (c1 (k_vmm task_kern))).
  assert (E2 : c2 v1 = Ret v2 3221217280 (trace_of c2 v1)) by vm_cast_no_check (eq_refl (c2 v1)).
  destruct (start_user_task_spec task_kern 1280 task_block eq_refl) as (_ & _ & H).
  destruct (H v1 3221221376 _ eq_refl ltac:(by vm_compute) E1) as [_ H'].
  destruct (H' v2 3221217280 _ ltac:(by vm_compute) E2) as [H'' _].
  eexists _, _. exact H''.
Defined.

(** The same task with an absent entry. *)
Definition fresh_mem : mem := st32 (st8 (st8 ∅ 65536 255) 2195455 3) 1284 4660.
Definition fresh_kern : kern pmm :=
  Build_kern (Build_vmm fresh_mem small_pmm kern_pool 1) {[ 8192 := task_block ]} 8192 ex_regs 0.
Definition fresh_v1 : result (vmm pmm) Z :=
  vmm_kern_alloc (set_mem (page_taken (user_vmm_pool task_block) 786431 fresh_mem) (k_vmm fresh_kern)).
Definition fresh_v2 : result (vmm pmm) Z := vmm_user_alloc_one_page task_block 3221221376 (k_vmm fresh_kern).
Definition ready_after (r : result (vmm pmm) Z) : bool :=
  match r with
  | Ret s _ _ => negb (bool_decide (SINGLE_LINK (v_pages s) = None)) ||
      negb (bool_decide (roots (v_pages s) !! class_nat 1 = Some None))
  | _ => true
  end.
Lemma ready_after_ok r s1 a tr : ready_after r = true -> r = Ret s1 a tr -> pmm_ready (v_pages s1).
Proof.
  intros H ->. cbn [ready_after] in H. intros Hn. rewrite bool_decide_true in H by done. cbn [negb orb] in H.
  left. case_bool_decide; [done|]. done.
Qed.

Lemma fresh_kern_free q : q ∈ free_set kern_pool fresh_mem -> 0 <= q < 8.
Proof.
  intros [Hq Hf]%elem_of_free_set. destruct (decide (q < 8)); [lia|]. exfalso.
  unfold is_free, fresh_mem in Hf. unfold pages in Hq. cbn [kern_pool bm_length vaddr_header] in *.
  change kern_bitmap with 65536 in Hf. rewrite ld8_st32_ne in Hf by (intros i Hi; rewrite !u32_small by dlia; dlia).
  rewrite !ld8_st8_ne in Hf by (rewrite !u32_small; dlia).
  unfold ld8 in Hf. rewrite lookup_empty in Hf. cbn in Hf. change (u8 0) with 0 in Hf. by rewrite Z.testbit_0_l in Hf.
Qed.

Lemma fresh_apart : task_apart (k_vmm fresh_kern) task_block 7164.
Proof.
  split; try (unfold disjoint_blocks; cbn; lia).
  intros q Hq. apply fresh_kern_free in Hq. unfold page_addr, disjoint_blocks.
  cbn [kern_pool target_addr_header task_block user_vmm_pool vaddr_header bm_length]. lia.
Qed.

Lemma fresh_ready_1 : ready_after fresh_v1 = true.
Proof. by vm_compute. Qed.
Lemma fresh_ready_2 : ready_after fresh_v2 = true.
Proof. by vm_compute. Qed.

Lemma fresh_ok : fresh_task fresh_kern small_frames task_block.
Proof.
  split.
  - reflexivity.
  - split; [reflexivity|cbn; lia].
  - split; [done|done|split; unfold region; cbn; lia || done|cbn; lia].
  - by split.
  - exact fresh_apart.
  - by vm_compute.
  - by vm_compute.
  - by vm_compute.
  - change (free_set kern_pool fresh_mem <> ∅). intros H. assert (Hp : 0 ∈ free_set kern_pool fresh_mem); [|rewrite H in Hp; by apply not_elem_of_empty in Hp].
    apply elem_of_free_set. split; [unfold pages; cbn; lia|by vm_compute].
  - split; [exact small_pmm_frames|vm_compute; lia].
  - exact small_pmm_ready.
  - intros s1 a tr. exact (ready_after_ok fresh_v1 s1 a tr fresh_ready_1).
  - intros s1 a tr. exact (ready_after_ok fresh_v2 s1 a tr fresh_ready_2).
Qed.

Lemma user_task_enters_witness :
  exists v f1 f2 f3 tr, start_user_task 1280 fresh_kern = Ret (user_entry 4660 v fresh_kern) (35, 43) (tr ++ [Iret]) /\
    ld32 (v_mem v) 7164 = user_pte f1 /\
    ld32 (v_mem v) (get_pte 3221221376) = user_pte f2 /\ ld32 (v_mem v) (get_pte 3221217280) = user_pte f3.
Proof.
  destruct (user_task_enters fresh_kern small_frames task_block 1280 fresh_ok ltac:(by vm_compute) ltac:(by vm_compute))
    as (v & f1 & f2 & f3 & F' & tr & E & _ & _ & _ & H1 & H2 & H3).
  exists v, f1, f2, f3, tr. exact (conj E (conj H1 (conj H2 H3))).
Defined.
