(* ===== verification/UserCreate.v ===== *)
(** * The address space of a new user task

    [create_user_task_bitmap] and [create_user_task_pdt] when the kernel has the
    pages and the frames: what they take, and what the pool and the directory
    of the new task hold. *)

From S2P Require Import Prelude Memory CString Bitmap KernLog Pmm PmmThm PageTable Tcb Vmm VmmThm VmmUser KernPages Tss UserVm Threads ThreadsThm UserTask.

Section address_space.
Context {P : Type} {PA : PageAllocator P} {PS : PageAllocatorSpec P} {L : VmmLayout} {TL : TssLayout}.
Implicit Types (s : vmm P) (F : list Z).

(** The pages [p .. p + n - 1]. *)
Definition page_run (p : Z) (n : nat) : gset Z := list_to_set (seqZ p n).

Lemma elem_of_page_run p n q : q ∈ page_run p n <-> p <= q < p + n.
Proof. unfold page_run. rewrite elem_of_list_to_set. apply elem_of_seqZ. Qed.
Lemma page_run_S p n : page_run p (S n) = {[p]} ∪ page_run (p + 1) n.
Proof. apply set_eq. intros q. rewrite elem_of_union, elem_of_singleton, !elem_of_page_run. lia. Qed.

Lemma size_page_run p n : base.size (page_run p n) = n.
Proof. unfold page_run. rewrite size_list_to_set by apply NoDup_seqZ. rewrite length_seqZ. lia. Qed.
#[global] Opaque page_run.

Definition flushes (p : Z) (n : nat) : list event := map (fun q => Invlpg (page_addr kern_pool q)) (seqZ p n).

Lemma page_addr_kern q : page_addr kern_pool q = 3221225472 + 4096 * q.
Proof. done. Qed.

Lemma alloc_pages_loop_took n s F p :
  vmm_ok s -> pa_inv (v_pages s) F -> ready_for n (v_pages s) -> (n <= length F)%nat ->
  (forall q, p <= q < p + n -> q ∈ free_set kern_pool (v_mem s)) -> 0 <= p -> p + n < 262144 ->
  exists s' F', alloc_pages_loop n (page_addr kern_pool p) s = Ret s' true (flushes p n) /\ took n (page_run p n) s s' F F'.
Proof.
  revert s F p. induction n as [|n IH]; intros s F p Hs Hi Hr HF Hfree Hp Hb.
  - exists s, F. split; [done|]. by apply took_none.
  - cbn [alloc_pages_loop]. destruct (kern_alloc_one_took s F p Hs Hi) as (s1 & f & F1 & E & T & M).
    { eapply ready_for_le; [|exact Hr]. lia. }
    { intros ->. cbn in HF. lia. }
    { apply Hfree. lia. }
    cbv zeta in E. rewrite (bind_ret_eq _ _ _ _ _ _ E).
    rewrite (proj2 (Z.eqb_neq _ _)) by (rewrite page_addr_kern; unfold KERN_VMM_ALLOC_ERRO; lia).
    replace (u32 (page_addr kern_pool p + val_4KB)) with (page_addr kern_pool (p + 1))
      by (rewrite !page_addr_kern; unfold val_4KB; rewrite u32_small; lia).
    destruct (IH s1 F1 (p + 1)) as (s2 & F2 & E2 & T2); [apply T|apply T|exact (tk_ready _ _ _ _ _ _ T n Hr)| | |lia|lia|].
    + destruct (tk_frames _ _ _ _ _ _ T) as (fs & Hl & HP). apply Permutation_length in HP. rewrite length_app in HP. lia.
    + intros q Hq. rewrite (tk_pool _ _ _ _ _ _ T). apply elem_of_difference. split; [apply Hfree; lia|]. rewrite elem_of_singleton. lia.
    + exists s2, F2. rewrite E2. split.
      * unfold flushes. rewrite (seqZ_cons p) by lia. replace (Z.pred (S n)) with (Z.of_nat n) by lia.
        replace (Z.succ p) with (p + 1) by lia. reflexivity.
      * rewrite page_run_S. by apply (took_trans 1 n {[p]} _ _ s1 _ _ F1).
Qed.

(** The new pool at page [p]. *)
Definition task_pool (p : Z) : bitmap := Build_bitmap (page_addr kern_pool p) 98304 0.

Lemma task_pool_wf p : 0 <= p -> p + 24 <= 262144 -> bitmap_wf (task_pool p).
Proof. intros H0 H1. split; unfold region, task_pool; cbn [vaddr_header bm_length target_addr_header]; rewrite ?page_addr_kern; lia || done. Qed.

Lemma owned_run p n b : owned (page_run p n) b <-> page_addr kern_pool p <= b < page_addr kern_pool p + 4096 * n.
Proof.
  unfold owned. setoid_rewrite elem_of_page_run. setoid_rewrite page_addr_kern. split; [intros (q & H1 & H2); lia|].
  intros H. exists (p + (b - (3221225472 + 4096 * p)) / 4096). dlia.
Qed.

(** The pool of a task: 24 pages in a row from the lowest free page of the
    kernel, all bits set. *)
Lemma create_user_task_bitmap_took s F p :
  room s -> pa_inv (v_pages s) F -> ready_for 24 (v_pages s) -> (24 <= length F)%nat ->
  (forall q, p <= q < p + 24 -> q ∈ free_set kern_pool (v_mem s)) -> (forall q, q ∈ free_set kern_pool (v_mem s) -> p <= q) ->
  exists s' F', create_user_task_bitmap s = Ret s' (task_pool p) (flushes p 24) /\ took 24 (page_run p 24) s s' F F' /\
    forall q, 0 <= q < 786432 -> is_free (task_pool p) (v_mem s') q = true.
Proof.
  intros Hrm Hi Hr HF Hfree Hmin. pose proof (rm_ok _ Hrm) as Hs.
  assert (Hp : p ∈ free_set kern_pool (v_mem s)) by (apply Hfree; lia).
  assert (Hp23 : p + 23 ∈ free_set kern_pool (v_mem s)) by (apply Hfree; lia).
  pose proof (rm_pages _ Hrm _ Hp23) as [Hhi _]. rewrite page_addr_kern in Hhi. pose proof (free_page_range _ _ Hp) as Hpr.
  destruct (kern_alloc_took s F Hs Hi) as (s1 & p' & f & F1 & E & Hp' & Hmin' & T & _).
  { eapply ready_for_le; [|exact Hr]. lia. }
  { intros ->. cbn in HF. lia. }
  { intros E. by rewrite E in Hp. }
  assert (p' = p) as -> by (pose proof (Hmin _ Hp'); pose proof (Hmin' _ Hp); lia).
  destruct (alloc_pages_loop_took 23 s1 F1 (p + 1)) as (s2 & F2 & E2 & T2); [apply T|apply T|exact (tk_ready _ _ _ _ _ _ T 23%nat Hr)| | |lia|lia|].
  { destruct (tk_frames _ _ _ _ _ _ T) as (fs & Hl & HP). apply Permutation_length in HP. rewrite length_app in HP. lia. }
  { intros q Hq. rewrite (tk_pool _ _ _ _ _ _ T). apply elem_of_difference. split; [apply Hfree; lia|]. rewrite elem_of_singleton. lia. }
  pose proof (took_trans 1 23 {[p]} _ s s1 s2 F F1 F2 T T2) as T3. rewrite <- page_run_S in T3.
  pose proof (task_pool_wf p ltac:(lia) ltac:(lia)) as Hwf.
  destruct (init_all_free (task_pool p) (v_mem s2) Hwf) as (m & Em & Hall & Hfr).
  exists (set_mem m s2), F2. split; [|split].
  - unfold create_user_task_bitmap. rewrite (bind_ret_eq _ _ _ _ _ _ E).
    rewrite (proj2 (Z.eqb_neq _ _)) by (rewrite page_addr_kern; unfold KERN_VMM_ALLOC_ERRO; lia).
    replace (u32 (page_addr kern_pool p + val_4KB)) with (page_addr kern_pool (p + 1))
      by (rewrite !page_addr_kern; unfold val_4KB; rewrite u32_small; lia).
    rewrite (bind_ret_eq _ _ _ _ _ _ E2). cbv zeta. cbn [negb].
    change (Build_bitmap (page_addr kern_pool p) 98304 0) with (task_pool p).
    assert (Eo : on_mem (bitmap_init_mem (task_pool p)) s2 = Ret (set_mem m s2) tt []) by (by apply on_mem_ret).
    unfold bind at 1. rewrite Eo.
    unfold ret. cbn [prepend]. rewrite app_nil_r. unfold flushes. rewrite (seqZ_cons p) by lia. reflexivity.
  - apply (took_write _ _ _ _ _ _ _ Hrm); [|exact T3|].
    + intros q Hq. apply elem_of_page_run in Hq. apply Hfree. lia.
    + intros b Hb Hn. apply Hfr. intros i Hi' E'. apply Hn, owned_run. rewrite !u32_small in E' by (unfold task_pool in *; cbn [vaddr_header bm_length] in *; rewrite ?page_addr_kern in *; lia).
      unfold task_pool in *. cbn [vaddr_header bm_length] in *. lia.
  - intros q Hq. apply (elem_of_free_set (task_pool p)). apply Hall. unfold pages, task_pool. cbn [bm_length]. lia.
Qed.

(** The directory of a task: one page. *)
Lemma pdt_mem_out m a v b :
  0 <= a -> a + 4096 <= 4290772992 -> 0 <= b < 4294967296 -> b < a \/ a + 4096 <= b -> ld8 (pdt_mem m a v) b = ld8 m b.
Proof.
  intros H0 H1 Hb Ho. unfold pdt_mem. rewrite ld8_st32_ne by (intros i Hi; rewrite !u32_small by lia; lia).
  rewrite ld8_write_bytes_out by (unfold region; rewrite ?length_read_bytes; lia).
  apply ld8_write_bytes_out; unfold region; rewrite ?length_zero_page; lia.
Qed.

(** The directory at page [q] of the kernel, at the frame [f], made over [m0]:
    no user page, the entries of the kernel, and itself. *)
Record new_directory (m0 m : mem) (q f : Z) : Prop := {
  nd_user : forall i, 0 <= i < 768 -> ld32 m (page_addr kern_pool q + 4 * i) = 0;
  nd_kern : forall i, 768 <= i < 1023 -> ld32 m (page_addr kern_pool q + 4 * i) = ld32 m0 (4294963200 + 4 * i);
  nd_self : ld32 m (page_addr kern_pool q + 4 * 1023) = f + 259;
  nd_entry : ld32 m (get_pte (page_addr kern_pool q)) = f + 259
}.

Lemma create_user_task_pdt_took s F :
  room s -> pa_inv (v_pages s) F -> ready_for 1 (v_pages s) -> F <> [] -> free_set kern_pool (v_mem s) <> ∅ ->
  exists s' q f F', create_user_task_pdt s = Ret s' (page_addr kern_pool q) [Invlpg (page_addr kern_pool q)] /\
    q ∈ free_set kern_pool (v_mem s) /\ took 1 {[q]} s s' F F' /\ 0 <= f < 4294967296 /\ f `mod` 4096 = 0 /\
    new_directory (v_mem s) (v_mem s') q f.
Proof.
  intros Hrm Hi Hr HF Hne. destruct (kern_alloc_took s F (rm_ok _ Hrm) Hi Hr HF Hne) as (s1 & q & f & F1 & E & Hq & _ & T & M).
  destruct (rm_pages _ Hrm q Hq) as [Hhi _]. pose proof (free_page_range _ _ Hq) as Hqr.
  assert (Hq0 : 0 <= q) by lia. assert (Hq1 : page_addr kern_pool q < 4290772992) by lia.
  destruct (create_user_task_pdt_eq s s1 q f Hq0 Hq1 E M) as (E' & D1 & D2 & D3 & D4).
  eexists _, q, f, F1. split; [exact E'|]. split; [done|]. split; [|split; [apply M|split; [apply M|by split]]].
  apply (took_write _ _ _ _ _ _ _ Hrm); [|exact T|].
  - intros x ->%elem_of_singleton. exact Hq.
  - intros b Hb Hn. rewrite owned_one in Hn. rewrite page_addr_kern in *. apply pdt_mem_out; lia.
Qed.
End address_space.
