(* ===== verification/UserSys.v ===== *)
(** * A user task, from its creation to its first instruction

    [create_user_task] of a kernel with room for a task, the next call of
    [schedule], and [start_user_task], the function the new thread begins
    with, one after the other on the same state. *)

From S2P Require Import Prelude Memory CString Bitmap KernLog Pmm PmmThm PageTable Tcb Vmm VmmThm VmmUser KernPages Tss UserVm.
From S2P Require Import Threads Ring ThreadsThm ThreadsInv ThreadsSys UserTask UserCreate.

Section task.
Context {P : Type} {PA : PageAllocator P} {PS : PageAllocatorSpec P} {L : VmmLayout} {TL : TssLayout} {HL : ThreadLayout}.
Implicit Types (k : kern P) (v : vmm P) (F : list Z).

(** ** What is in the memory of a task *)

(** The pool at the pages [p .. p + 23] is full, the directory is at page [q]. *)
Record task_memory (m0 m : mem) (p q f : Z) : Prop := {
  tm_pool : forall i, 0 <= i < 786432 -> is_free (task_pool p) m i = true;
  tm_directory : new_directory m0 m q f
}.

(** The pages of a task. *)
Definition task_pages (p q : Z) : gset Z := page_run p 24 ∪ {[q]}.
Lemma elem_of_task_pages p q x : x ∈ task_pages p q <-> p <= x < p + 24 \/ x = q.
Proof. unfold task_pages. by rewrite elem_of_union, elem_of_page_run, elem_of_singleton. Qed.

Lemma task_memory_ext m0 m m' p q f :
  0 <= p -> p + 24 <= 262144 -> 0 <= q < 261120 -> task_memory m0 m p q f ->
  (forall b, 0 <= b < 4294967296 -> owned (task_pages p q) b -> ld8 m' b = ld8 m b) ->
  ld32 m' (get_pte (page_addr kern_pool q)) = ld32 m (get_pte (page_addr kern_pool q)) ->
  task_memory m0 m' p q f.
Proof.
  intros H0 H1 Hq [A [B1 B2 B3 B4]] H He. unfold task_pages in H.
  assert (Hw : forall i, 0 <= i < 1024 -> ld32 m' (page_addr kern_pool q + 4 * i) = ld32 m (page_addr kern_pool q + 4 * i)).
  { intros i Hi. apply ld32_ext. intros b Hb. rewrite page_addr_kern in Hb. apply H; [lia|]. rewrite owned_union, owned_one, page_addr_kern. lia. }
  split; [|split].
  - intros i Hi. rewrite <- (A i Hi). unfold is_free, task_pool. cbn [vaddr_header]. rewrite H; [done|rewrite page_addr_kern; dlia|].
    rewrite owned_union, owned_run, page_addr_kern. left. dlia.
  - intros i Hi. rewrite Hw by lia. by apply B1.
  - intros i Hi. rewrite Hw by lia. by apply B2.
  - by rewrite Hw.
  - by rewrite He.
Qed.

(** Pages that are not free stay as they are while others are taken. *)
Lemma took_keeps n X Y v v' F F' :
  took n X v v' F F' -> X ⊆ free_set kern_pool (v_mem v) ->
  (forall y, y ∈ Y -> 0 <= y < 261120 /\ y ∉ free_set kern_pool (v_mem v) /\
    disjoint_blocks (page_addr kern_pool y) 4096 kern_bitmap 32768) ->
  (forall b, owned Y b -> ld8 (v_mem v') b = ld8 (v_mem v) b) /\
  (forall y, y ∈ Y -> ld32 (v_mem v') (get_pte (page_addr kern_pool y)) = ld32 (v_mem v) (get_pte (page_addr kern_pool y))).
Proof.
  intros T HX HY.
  assert (Hsep : forall y b, y ∈ Y -> page_addr kern_pool y <= b < page_addr kern_pool y + 4096 -> ~ owned X b).
  { intros y b Hy Hb (x & Hx & Hbx). destruct (HY y Hy) as (_ & Hn & _). apply Hn. rewrite !page_addr_kern in *.
    assert (y = x) as -> by lia. by apply HX. }
  split.
  - intros b (y & Hy & Hb). destruct (HY y Hy) as (Hr & _ & Hd). unfold disjoint_blocks in Hd. rewrite page_addr_kern in *.
    apply (tk_low _ _ _ _ _ _ T); [lia|lia|]. apply (Hsep y); by rewrite ?page_addr_kern.
  - intros y Hy. destruct (HY y Hy) as (Hr & _). apply (tk_entries _ _ _ _ _ _ T); [rewrite page_addr_kern; lia|].
    apply (Hsep y); [done|rewrite page_addr_kern; lia].
Qed.

Lemma task_memory_took m0 n X v v' F F' p q f :
  took n X v v' F F' -> X ⊆ free_set kern_pool (v_mem v) -> 0 <= p -> p + 24 <= 262144 ->
  (forall x, x ∈ task_pages p q -> 0 <= x < 261120 /\ x ∉ free_set kern_pool (v_mem v) /\
    disjoint_blocks (page_addr kern_pool x) 4096 kern_bitmap 32768) ->
  task_memory m0 (v_mem v) p q f -> task_memory m0 (v_mem v') p q f.
Proof.
  intros T HX H0 H1 HY HM. destruct (took_keeps _ _ _ _ _ _ _ T HX HY) as [K1 K2].
  assert (Hq : q ∈ task_pages p q) by (apply elem_of_task_pages; by right). destruct (HY q Hq) as [Hq1 _].
  apply (task_memory_ext m0 (v_mem v)); [done..|intros b _; apply K1|by apply K2].
Qed.

(** The entries of the kernel's directory stay. *)
Lemma took_directory n X v v' F F' i :
  room v -> took n X v v' F F' -> X ⊆ free_set kern_pool (v_mem v) -> 0 <= i < 1024 ->
  ld32 (v_mem v') (4294963200 + 4 * i) = ld32 (v_mem v) (4294963200 + 4 * i).
Proof.
  intros Hrm T HX Hi.
  assert (Ei : 4294963200 + 4 * i = get_pte (4290772992 + 4096 * i)).
  { rewrite get_pte_eq by lia. replace ((4290772992 + 4096 * i) / 4096) with (1047552 + i) by dlia. lia. }
  rewrite Ei. apply (tk_entries _ _ _ _ _ _ T); [lia|]. intros (x & Hx & Hb). destruct (rm_pages _ Hrm x (HX x Hx)). lia.
Qed.

(** ** Creation *)

(** What the scheduler and the start of the task touch: the stack of the task
    state segment, the current stack, and the parameters at [args]. *)
Definition scratch k (args : Z) : list (Z * Z) := [(tss_cpu0 + esp0_off, 4); (esp (regs k) - 8, 8); (args, 8)].

(** The kernel has room for a task with parameters at [args]: among its free
    pages are the 24 lowest in a row, from [p] on, and three more; 29 frames
    are free, one by one; no control block is in a free page, and neither free
    pages nor the bits of the kernel are touched on the way. *)
Record task_room k F (p args : Z) : Prop := {
  tr_room : room (k_vmm k);
  tr_frames : pa_inv (v_pages (k_vmm k)) F /\ (29 <= length F)%nat;
  tr_ready : ready_for 29 (v_pages (k_vmm k));
  tr_run : forall q, p <= q < p + 24 -> q ∈ free_set kern_pool (v_mem (k_vmm k));
  tr_lowest : forall q, q ∈ free_set kern_pool (v_mem (k_vmm k)) -> p <= q;
  tr_pages : (27 <= base.size (free_set kern_pool (v_mem (k_vmm k))))%nat;
  tr_blocks : forall q, q ∈ free_set kern_pool (v_mem (k_vmm k)) -> tcbs k !! page_addr kern_pool q = None;
  tr_apart : forall q, q ∈ free_set kern_pool (v_mem (k_vmm k)) ->
    Forall (fun b => disjoint_blocks (page_addr kern_pool q) 4096 b.1 b.2) (scratch k args);
  tr_low : Forall (fun b => 0 <= b.1 /\ b.1 + b.2 <= 4290772992 /\ disjoint_blocks kern_bitmap 32768 b.1 b.2) (scratch k args);
  tr_args : disjoint_blocks args 8 (tss_cpu0 + esp0_off) 4 /\ disjoint_blocks args 8 (esp (regs k) - 8) 8;
  tr_loaded : USER_PAGE_DIR_IS_LOADED (k_vmm k) <> 0
}.

Lemma took_left n X v v' F F' : took n X v v' F F' -> X ⊆ free_set kern_pool (v_mem v) ->
  base.size (free_set kern_pool (v_mem v')) = (base.size (free_set kern_pool (v_mem v)) - base.size X)%nat /\
  length F = (n + length F')%nat.
Proof.
  intros T HX. rewrite (tk_pool _ _ _ _ _ _ T). split; [by apply size_difference|].
  destruct (tk_frames _ _ _ _ _ _ T) as (fs & Hl & HP). apply Permutation_length in HP. rewrite length_app in HP. lia.
Qed.

(** The block of the new thread. *)
Definition task_tcb (tid p q r next : Z) (raw : TCB_t) : TCB_t :=
  new_block tid (page_addr kern_pool r) 1 0 (task_pool p) (page_addr kern_pool q) next raw.

(** The pages of the pool, of the directory and of the block, one after the
    other. *)
Lemma task_space v F p :
  room v -> pa_inv (v_pages v) F -> (26 <= length F)%nat -> ready_for 26 (v_pages v) ->
  (forall q, p <= q < p + 24 -> q ∈ free_set kern_pool (v_mem v)) -> (forall q, q ∈ free_set kern_pool (v_mem v) -> p <= q) ->
  (26 <= base.size (free_set kern_pool (v_mem v)))%nat ->
  exists v1 v2 v3 q r f F' t1 t2 t3,
    create_user_task_bitmap v = Ret v1 (task_pool p) t1 /\ create_user_task_pdt v1 = Ret v2 (page_addr kern_pool q) t2 /\
    vmm_kern_alloc v2 = Ret v3 (page_addr kern_pool r) t3 /\ took 26 (task_pages p q ∪ {[r]}) v v3 F F' /\
    q ∈ free_set kern_pool (v_mem v) /\ r ∈ free_set kern_pool (v_mem v) /\ q ∉ page_run p 24 /\ r ∉ task_pages p q /\
    0 <= f < 4294967296 /\ f `mod` 4096 = 0 /\ task_memory (v_mem v) (v_mem v3) p q f.
Proof.
  intros Hrm Hi HF Hr Hrun Hmin Hsz.
  destruct (create_user_task_bitmap_took v F p Hrm Hi) as (v1 & F1 & E1 & T1 & Hall);
    [by eapply ready_for_le; [|exact Hr]; lia|lia|done|done|].
  assert (HX1 : page_run p 24 ⊆ free_set kern_pool (v_mem v)) by (intros x Hx; apply elem_of_page_run in Hx; apply Hrun; lia).
  destruct (took_left _ _ _ _ _ _ T1 HX1) as [S1 L1]. rewrite size_page_run in S1. pose proof (room_took _ _ _ _ _ _ Hrm T1) as Hrm1.
  pose proof (tk_ready _ _ _ _ _ _ T1 2%nat Hr) as Hr1.
  destruct (create_user_task_pdt_took v1 F1 Hrm1 (tk_inv _ _ _ _ _ _ T1)) as (v2 & q & f & F2 & E2 & Hq & T2 & Hf & Hfa & D);
    [by eapply ready_for_le; [|exact Hr1]; lia|by intros ->; cbn in L1; lia|by intros E; rewrite E, size_empty in S1; lia|].
  assert (HX2 : {[q]} ⊆ free_set kern_pool (v_mem v1)) by (by apply singleton_subseteq_l).
  destruct (took_left _ _ _ _ _ _ T2 HX2) as [S2 L2]. rewrite size_singleton in S2. pose proof (room_took _ _ _ _ _ _ Hrm1 T2) as Hrm2.
  pose proof (tk_ready _ _ _ _ _ _ T2 1%nat Hr1) as Hr2.
  destruct (kern_alloc_took v2 F2 (rm_ok _ Hrm2) (tk_inv _ _ _ _ _ _ T2) Hr2) as (v3 & r & f3 & F3 & E3 & Hrf & _ & T3 & _);
    [by intros ->; cbn in L2; lia|by intros E; rewrite E, size_empty in S2; lia|].
  assert (HX3 : {[r]} ⊆ free_set kern_pool (v_mem v2)) by (by apply singleton_subseteq_l).
  rewrite (tk_pool _ _ _ _ _ _ T1) in Hq. rewrite (tk_pool _ _ _ _ _ _ T2), (tk_pool _ _ _ _ _ _ T1) in Hrf.
  apply elem_of_difference in Hq as [Hq Hqn]. apply elem_of_difference in Hrf as [Hrf Hrq]. apply elem_of_difference in Hrf as [Hrf Hrn].
  rewrite elem_of_singleton in Hrq.
  pose proof (took_trans _ _ _ _ _ _ _ _ _ _ (took_trans _ _ _ _ _ _ _ _ _ _ T1 T2) T3) as T.
  assert (Hin : forall x, x ∈ task_pages p q -> x ∈ free_set kern_pool (v_mem v)).
  { intros x Hx. apply elem_of_task_pages in Hx as [Hx| ->]; [by apply Hrun|done]. }
  exists v1, v2, v3, q, r, f, F3. eexists _, _, _. split; [exact E1|]. split; [exact E2|]. split; [exact E3|].
  split; [exact T|]. split; [done|]. split; [done|]. split; [done|].
  split; [rewrite elem_of_task_pages; intros [Hx| ->]; [apply Hrn, elem_of_page_run; lia|done]|]. split; [done|]. split; [done|].
  assert (Hp : 0 <= p /\ p + 24 <= 262144).
  { pose proof (free_page_range _ _ (Hrun p ltac:(lia))). pose proof (free_page_range _ _ (Hrun (p + 23) ltac:(lia))). lia. }
  apply (task_memory_took _ _ _ v2 v3 _ _ _ _ _ T3 HX3); [lia|lia| |].
  - intros x Hx. pose proof (Hin x Hx) as Hxf. destruct (rm_pages _ Hrm x Hxf) as [Hhi Hd]. pose proof (free_page_range _ _ Hxf).
    rewrite page_addr_kern in Hhi. split; [lia|]. split; [|done].
    rewrite (tk_pool _ _ _ _ _ _ T2), (tk_pool _ _ _ _ _ _ T1). apply elem_of_task_pages in Hx as [Hx| ->].
    + intros [[_ Hx']%elem_of_difference _]%elem_of_difference. apply Hx', elem_of_page_run. lia.
    + intros [_ Hx']%elem_of_difference. by apply Hx', elem_of_singleton.
  - destruct D as [D1 D2 D3 D4]. split; [|split; [exact D1| |exact D3|exact D4]].
    + destruct (took_keeps _ _ (page_run p 24) _ _ _ _ T2 HX2) as [K _].
      { intros x Hx. apply elem_of_page_run in Hx as Hx'. pose proof (Hrun x ltac:(lia)) as Hxf.
        destruct (rm_pages _ Hrm x Hxf) as [Hhi Hd]. pose proof (free_page_range _ _ Hxf).
        rewrite page_addr_kern in Hhi. split; [lia|]. split; [|done]. rewrite (tk_pool _ _ _ _ _ _ T1).
        by intros [_ Hx2]%elem_of_difference. }
      intros i Hi'. rewrite <- (Hall i Hi'). unfold is_free, task_pool. cbn [vaddr_header]. rewrite K; [done|].
      apply owned_run. rewrite page_addr_kern. dlia.
    + intros i Hi'. rewrite D2 by done. apply (took_directory _ _ _ _ _ _ i Hrm T1 HX1). lia.
Qed.

(** [create_user_task] gives the block of the new thread; its pages are those
    of the pool, of the directory and of the block. *)
Lemma create_user_task_eq k F p args start tid c :
  task_room k F p args -> tcbs k !! cur_tcb k = Some c ->
  exists v q r f F' tr, let tcb := page_addr kern_pool r in
    create_user_task start tid args k =
      Ret (Build_kern (set_mem (new_stack (v_mem v) tcb 1 start args) v)
             (<[tcb := task_tcb tid p q r (next_tcb c) (raw_TCB tcb)]> (alter (set_next_tcb tcb) (cur_tcb k) (tcbs k)))
             (cur_tcb k) (if_on (if_off (regs k))) (eip k)) tt tr /\
    took 26 (task_pages p q ∪ {[r]}) (k_vmm k) v F F' /\
    q ∈ free_set kern_pool (v_mem (k_vmm k)) /\ r ∈ free_set kern_pool (v_mem (k_vmm k)) /\
    q ∉ page_run p 24 /\ r ∉ task_pages p q /\
    0 <= f < 4294967296 /\ f `mod` 4096 = 0 /\ task_memory (v_mem (k_vmm k)) (v_mem v) p q f.
Proof.
  intros [Hrm [Hi HF] Hr Hrun Hmin Hsz Hblk _ _ _ _] Hc.
  destruct (task_space (k_vmm k) F p Hrm Hi) as (v1 & v2 & v3 & q & r & f & F' & t1 & t2 & t3 & E1 & E2 & E3 & T & Hq & Hrf & HR);
    [lia|by eapply ready_for_le; [|exact Hr]; lia|done|done|lia|].
  destruct (rm_pages _ Hrm r Hrf) as [Hhi _]. destruct (rm_pages _ Hrm q Hq) as [Hqhi _].
  pose proof (free_page_range _ _ Hrf) as Hrr. pose proof (free_page_range _ _ Hq) as Hqr. pose proof (Hblk r Hrf) as Hnone.
  exists v3, q, r, f, F'. eexists. cbv zeta. split; [|by split].
  unfold create_user_task. rewrite (bind_ret_eq _ _ _ _ _ _ (in_vmm_ret _ _ _ _ _ E1)).
  rewrite (bind_ret_eq _ _ _ _ _ _ (in_vmm_ret _ (set_vmm v1 k) _ _ _ E2)).
  rewrite (proj2 (Z.eqb_neq _ _)) by (rewrite page_addr_kern in *; unfold USER_TASK_INIT_ERRO; lia).
  rewrite (bind_ret_eq _ _ _ _ _ _ (in_vmm_ret _ (set_vmm v2 (set_vmm v1 k)) _ _ _ E3)).
  rewrite (proj2 (Z.eqb_neq _ _)) by (rewrite page_addr_kern in *; unfold KERN_VMM_ALLOC_ERRO; lia).
  rewrite (create_thread_eq _ _ _ _ _ _ _ _ _ c); cbn [tcbs set_vmm cur_tcb];
    [|exact Hc|by intros E; rewrite E in Hnone; congruence|rewrite page_addr_kern; lia|lia|rewrite page_addr_kern in *; lia].
  rewrite Hnone. cbn [prepend default k_vmm set_vmm regs eip]. reflexivity.
Qed.

(** ** The first switch to it *)

(** The memory at the first instruction of the thread. *)
Definition started_mem (m : mem) (regs0 : context_t) (tcb start args : Z) (c : context_t) : mem :=
  switch_mem (st32 (new_stack m tcb 1 start args) (tss_cpu0 + esp0_off) (u32 (tcb + u32 (1 * PAGE_SIZE)))) regs0 c.

(** The bytes it shares with the memory after the allocations: all but those
    of the thread's page, the word of the task state segment, and two words
    below the old stack pointer. *)
Lemma started_mem_out m regs0 tcb start args c b :
  4096 <= tcb -> tcb + 4096 < 4294967296 -> esp c = tcb + 4084 -> 8 <= esp regs0 < 4294967296 ->
  0 <= tss_cpu0 + esp0_off -> tss_cpu0 + esp0_off + 4 <= 4294967296 -> 0 <= b < 4294967296 ->
  b < tcb \/ tcb + 4096 <= b -> b < tss_cpu0 + esp0_off \/ tss_cpu0 + esp0_off + 4 <= b ->
  b < esp regs0 - 8 \/ esp regs0 <= b -> ld8 (started_mem m regs0 tcb start args c) b = ld8 m b.
Proof.
  intros H0 H1 Hc Hs Ht0 Ht1 Hb B1 B2 B3. unfold started_mem, switch_mem, new_stack. rewrite Hc, !(u32_small (_ - _)) by lia.
  by repeat (rewrite ld8_st32_ne by (intros i Hi; rewrite !u32_small by lia; lia)).
Qed.

(** Its own stack: the address to return to, and the argument. *)
Lemma started_mem_stack m regs0 tcb start args c :
  4096 <= tcb -> tcb + 4096 < 4294967296 -> esp c = tcb + 4084 -> 8 <= esp regs0 < 4294967296 ->
  disjoint_blocks tcb 4096 (tss_cpu0 + esp0_off) 4 -> disjoint_blocks tcb 4096 (esp regs0 - 8) 8 ->
  0 <= tss_cpu0 + esp0_off -> tss_cpu0 + esp0_off + 4 <= 4294967296 ->
  let m2 := started_mem m regs0 tcb start args c in
  ld32 m2 (tcb + 4084) = u32 start /\ ld32 m2 (tcb + 4088) = u32 exit_addr /\ ld32 m2 (tcb + 4092) = u32 args.
Proof.
  intros H0 H1 Hc Hs D1 D2 Ht0 Ht1 m2. unfold disjoint_blocks in *. unfold m2, started_mem, switch_mem, new_stack.
  rewrite Hc, !(u32_small (_ - _)) by lia.
  replace (tcb + 1 * 4096 - 4) with (tcb + 4092) by lia. replace (tcb + 1 * 4096 - 8) with (tcb + 4088) by lia.
  replace (tcb + 1 * 4096 - 12) with (tcb + 4084) by lia.
  split; [|split]; repeat first [rewrite ld32_st32_eq | rewrite ld32_st32_apart by (apply apart_range; lia)]; done.
Qed.

(** What the allocations of [create_user_task] did, from [v0] to [v]. *)
Record task_allocated (v0 v : vmm P) F F' (p q r f : Z) : Prop := {
  al_took : took 26 (task_pages p q ∪ {[r]}) v0 v F F';
  al_directory : q ∈ free_set kern_pool (v_mem v0) /\ q ∉ page_run p 24;
  al_block : r ∈ free_set kern_pool (v_mem v0) /\ r ∉ task_pages p q;
  al_frame : 0 <= f < 4294967296 /\ f `mod` 4096 = 0;
  al_memory : task_memory (v_mem v0) (v_mem v) p q f
}.

(** The thread the scheduler has switched to. *)
Record task_current k (v : vmm P) k2 (rest : list Z) (p q r start args tid : Z) (t : TCB_t) : Prop := {
  tc_current : cur_tcb k2 = page_addr kern_pool r /\ tcbs k2 !! page_addr kern_pool r = Some t;
  tc_block : is_kern_thread t = 0 /\ user_vmm_pool t = task_pool p /\ pdt_vaddr t = page_addr kern_pool q;
  tc_threads : threads_inv (tcbs k2) (page_addr kern_pool r) (rest ++ [cur_tcb k]);
  tc_vmm : exists c, esp c = page_addr kern_pool r + 4084 /\
    k_vmm k2 = set_mem (started_mem (v_mem v) (if_on (if_off (regs k))) (page_addr kern_pool r) start args c) v;
  tc_stack : esp (regs k2) = page_addr kern_pool r + 4088 /\
    ld32 (v_mem (k_vmm k2)) (page_addr kern_pool r + 4088) = u32 exit_addr /\
    ld32 (v_mem (k_vmm k2)) (page_addr kern_pool r + 4092) = u32 args;
  tc_start : Threads.eip k2 = u32 start /\ if_flag (regs k2) = true
}.

Lemma task_switched k rest F p args start tid :
  threads_inv (tcbs k) (cur_tcb k) rest -> task_room k F p args ->
  exists v q r f F' t1 k1 k2 t, create_user_task start tid args k = Ret k1 tt t1 /\ task_allocated (k_vmm k) v F F' p q r f /\
    schedule k1 = Ret k2 true (Load_cr3 f :: eoi) /\ task_current k v k2 rest p q r start args tid t.
Proof.
  intros H HR. destruct (inv_cur_lookup _ _ _ H) as (c & Hc & _).
  destruct (create_user_task_eq k F p args start tid c HR Hc) as (v & q & r & f & F' & t1 & E & T & Hq & Hr & Hqn & Hrn & Hf & Hfa & HM).
  cbv zeta in E. set (tcb := page_addr kern_pool r) in *. set (nb := task_tcb _ _ _ _ _ _) in E. set (k1 := Build_kern _ _ _ _ _) in E.
  pose proof (tr_room _ _ _ _ HR) as Hrm. destruct (rm_pages _ Hrm r Hr) as [Hrh _]. destruct (rm_pages _ Hrm q Hq) as [Hqh _].
  pose proof (free_page_range _ _ Hr) as Hrr. pose proof (free_page_range _ _ Hq) as Hqr. pose proof (tr_blocks _ _ _ _ HR r Hr) as Hnone.
  rewrite page_addr_kern in Hqh. assert (Htcb : tcb = 3221225472 + 4096 * r) by done. fold tcb in Hnone.
  assert (Hok : thread_ok nb).
  { split; [done|]. intros _. unfold nb, task_tcb. cbn [pdt_vaddr new_block Z.eqb]. rewrite page_addr_kern. split; [lia|dlia]. }
  assert (H1 : threads_inv (tcbs k1) (cur_tcb k1) (tcb :: rest)) by (apply (inv_create _ _ _ _ _ c); try done; lia).
  assert (Hnb : tcbs k1 !! tcb = Some nb) by (unfold k1; cbn [tcbs]; by rewrite lookup_insert_eq).
  destruct (schedule_cases k1 (tcb :: rest) H1) as (t & Ht & Hs).
  cbn [first_ready] in Hs. unfold ready in Hs. rewrite Hnb in Hs. cbn [task_status nb task_tcb new_block] in Hs.
  rewrite bool_decide_true in Hs by done. destruct Hs as (tx & Htx & Hne & Hs). rewrite Hnb in Htx. injection Htx as <-.
  set (m0 := v_mem v) in *. set (c2 := context nb).
  assert (Ec2 : esp c2 = tcb + 4084) by (unfold c2, nb, task_tcb, new_block; cbn [context esp with_esp]; fold tcb; lia).
  assert (Es : esp (if_on (if_off (regs k))) = esp (regs k)) by done.
  pose proof (tr_low _ _ _ _ HR) as Hlow. pose proof (tr_apart _ _ _ _ HR r Hr) as Hap. fold tcb in Hap. unfold scratch in *.
  repeat match goal with H : Forall _ (_ :: _) |- _ => apply Forall_cons in H as [? H] end. cbn [fst snd] in *.
  destruct (started_mem_stack m0 (if_on (if_off (regs k))) tcb start args c2) as (S1 & S2 & S3); try (rewrite ?Es; done || lia).
  assert (Hae : active_effect (v_mem (k_vmm k1)) tcb nb =
    (st32 (new_stack m0 tcb 1 start args) (tss_cpu0 + esp0_off) (u32 (tcb + u32 (1 * PAGE_SIZE))), [Load_cr3 f])).
  { unfold active_effect. cbn [is_kern_thread nb task_tcb new_block Z.eqb page_counte pdt_vaddr]. do 3 f_equal.
    change (v_mem (k_vmm k1)) with (new_stack m0 tcb 1 start args).
    rewrite <- (pte_frame f Hf Hfa), <- (nd_entry _ _ _ _ (tm_directory _ _ _ _ _ HM)). f_equal. apply ld32_ext. intros b Hb.
    destruct (get_pte_range (page_addr kern_pool q) ltac:(rewrite page_addr_kern; lia)). unfold new_stack.
    by repeat (rewrite ld8_st32_ne by (intros i Hi; rewrite !u32_small by lia; lia)). }
  exists v, q, r, f, F', t1, k1, (switched k1 (cur_tcb k1) tcb nb), (enter nb).
  split; [exact E|]. split; [by split|]. split; [rewrite Hs; unfold switch_events; by rewrite Hae|].
  assert (Ev : k_vmm (switched k1 (cur_tcb k1) tcb nb) = set_mem (started_mem m0 (if_on (if_off (regs k))) tcb start args c2) v).
  { unfold switched. cbn [k_vmm]. rewrite Hae. reflexivity. }
  assert (Hx : tcbs (switched k1 (cur_tcb k1) tcb nb) !! tcb = Some (enter nb)).
  { unfold switched. cbn [tcbs]. by rewrite lookup_alter_ne, lookup_alter_eq, Hnb by congruence. }
  split.
  - by split.
  - done.
  - exact (inv_switch _ _ [] tcb rest _ H1).
  - exists c2. by split.
  - rewrite Ev. cbn [v_mem set_mem]. fold tcb. split; [|by split]. unfold switched. cbn [regs]. fold c2. cbn [esp with_esp]. rewrite Ec2, u32_small; lia.
  - split; [|done]. change (Threads.eip (switched k1 (cur_tcb k1) tcb nb)) with
      (ld32 (v_mem (k_vmm (switched k1 (cur_tcb k1) tcb nb))) (esp c2)). rewrite Ev, Ec2. exact S1.
Qed.

(** ** The thread is a task that has not run *)

Section current.
Context (k : kern P) (v : vmm P) (k2 : kern P) (F F' rest : list Z) (p q r f start args tid : Z) (t : TCB_t).
Hypothesis (HR : task_room k F p args).
Hypothesis (HA : task_allocated (k_vmm k) v F F' p q r f).
Hypothesis (HC : task_current k v k2 rest p q r start args tid t).

(** All the pages, and where they are. *)
Lemma task_page_ok x : x ∈ task_pages p q ∪ {[r]} ->
  x ∈ free_set kern_pool (v_mem (k_vmm k)) /\ 0 <= x < 261120 /\
  disjoint_blocks (page_addr kern_pool x) 4096 kern_bitmap 32768 /\
  Forall (fun b => disjoint_blocks (page_addr kern_pool x) 4096 b.1 b.2) (scratch k args).
Proof.
  intros Hx. assert (Hxf : x ∈ free_set kern_pool (v_mem (k_vmm k))).
  { apply elem_of_union in Hx as [Hx|Hx]; [apply elem_of_task_pages in Hx as [Hx| ->]|apply elem_of_singleton in Hx as ->].
    - by apply (tr_run _ _ _ _ HR).
    - apply HA.
    - apply HA. }
  destruct (rm_pages _ (tr_room _ _ _ _ HR) x Hxf) as [Hhi Hd]. pose proof (free_page_range _ _ Hxf). rewrite page_addr_kern in Hhi.
  split; [done|]. split; [lia|]. split; [done|]. by apply (tr_apart _ _ _ _ HR).
Qed.

Lemma task_scratch_low : 0 <= tss_cpu0 + esp0_off /\ tss_cpu0 + esp0_off + 4 <= 4290772992 /\
  8 <= esp (regs k) <= 4290772992 /\ 0 <= args /\ args + 8 <= 4290772992 /\
  disjoint_blocks kern_bitmap 32768 (tss_cpu0 + esp0_off) 4 /\ disjoint_blocks kern_bitmap 32768 (esp (regs k) - 8) 8 /\
  disjoint_blocks kern_bitmap 32768 args 8.
Proof.
  pose proof (tr_low _ _ _ _ HR) as H. unfold scratch in H.
  apply Forall_cons in H as [(A1 & A2 & A3) H]. apply Forall_cons in H as [(B1 & B2 & B3) H]. apply Forall_cons in H as [(C1 & C2 & C3) _].
  cbn [fst snd] in *. repeat split; done || lia.
Qed.

(** What is in memory now. *)
Lemma current_byte b : 0 <= b < 4294967296 -> ~ owned {[r]} b ->
  b < tss_cpu0 + esp0_off \/ tss_cpu0 + esp0_off + 4 <= b -> b < esp (regs k) - 8 \/ esp (regs k) <= b ->
  ld8 (v_mem (k_vmm k2)) b = ld8 (v_mem v) b.
Proof.
  intros Hb Hr B1 B2. destruct (tc_vmm _ _ _ _ _ _ _ _ _ _ _ HC) as (c & Hc & Ev). rewrite Ev. cbn [v_mem set_mem].
  destruct (task_page_ok r) as (_ & Hrr & _); [by apply elem_of_union_r, elem_of_singleton|].
  destruct task_scratch_low as (T0 & T1 & T2 & _). rewrite owned_one in Hr. rewrite page_addr_kern in *.
  apply started_mem_out; try done; try lia. change (esp (if_on (if_off (regs k)))) with (esp (regs k)). lia.
Qed.

Lemma current_memory : task_memory (v_mem (k_vmm k)) (v_mem (k_vmm k2)) p q f.
Proof.
  assert (Hp : forall x, p <= x < p + 24 -> 0 <= x < 261120).
  { intros x Hx. apply (task_page_ok x). apply elem_of_union_l, elem_of_task_pages. by left. }
  pose proof (Hp p ltac:(lia)). pose proof (Hp (p + 23) ltac:(lia)).
  destruct (task_page_ok q) as (_ & Hq & _); [apply elem_of_union_l, elem_of_task_pages; by right|].
  destruct (task_page_ok r) as (_ & Hr & _); [by apply elem_of_union_r, elem_of_singleton|].
  destruct task_scratch_low as (T0 & T1 & T2 & _).
  apply (task_memory_ext _ (v_mem v)); [lia|lia|done|apply HA| |].
  - intros b Hb (x & Hx & Hbx). destruct (task_page_ok x) as (_ & Hxr & _ & Hd); [by apply elem_of_union_l|]. unfold scratch in Hd.
    apply Forall_cons in Hd as [D1 Hd]. apply Forall_cons in Hd as [D2 _]. cbn [fst snd] in *. unfold disjoint_blocks in *.
    apply current_byte; [done| |lia|lia]. rewrite owned_one. intros Hb2. destruct (al_block _ _ _ _ _ _ _ _ HA) as [_ Hn]. apply Hn.
    rewrite !page_addr_kern in *. assert (r = x) as -> by lia. done.
  - apply ld32_ext. intros b Hb. destruct (get_pte_range (page_addr kern_pool q) ltac:(rewrite page_addr_kern; lia)).
    apply current_byte; [lia| |lia|lia]. rewrite owned_one, page_addr_kern. lia.
Qed.

Lemma current_free : free_set kern_pool (v_mem (k_vmm k2)) = free_set kern_pool (v_mem (k_vmm k)) ∖ (task_pages p q ∪ {[r]}).
Proof.
  rewrite <- (tk_pool _ _ _ _ _ _ (al_took _ _ _ _ _ _ _ _ HA)). apply free_set_ext. intros x Hx. unfold is_free. f_equal.
  pose proof (rm_ok _ (tr_room _ _ _ _ HR)) as [_ Hkb]. unfold pages in Hx. cbn [kern_pool vaddr_header bm_length] in *.
  destruct task_scratch_low as (_ & _ & _ & _ & _ & D1 & D2 & _). unfold disjoint_blocks in *.
  destruct (task_page_ok r) as (_ & _ & Dr & _); [by apply elem_of_union_r, elem_of_singleton|]. unfold disjoint_blocks in Dr.
  apply current_byte; [dlia|rewrite owned_one; dlia|dlia|dlia].
Qed.

(** The parameters are where they were. *)
Lemma current_args i : 0 <= i -> i + 4 <= 8 -> ld32 (v_mem (k_vmm k2)) (args + i) = ld32 (v_mem (k_vmm k)) (args + i).
Proof.
  intros H0 H1. destruct task_scratch_low as (T0 & T1 & T2 & A0 & A1 & _ & _ & DA).
  destruct (tr_args _ _ _ _ HR) as [D1 D2]. unfold disjoint_blocks in *.
  assert (Hno : forall x b, x ∈ task_pages p q ∪ {[r]} -> args <= b < args + 8 -> ~ (page_addr kern_pool x <= b < page_addr kern_pool x + 4096)).
  { intros x b Hx Hb. destruct (task_page_ok x Hx) as (_ & _ & _ & Hd). unfold scratch in Hd. do 2 apply Forall_cons in Hd as [_ Hd].
    apply Forall_cons in Hd as [D _]. unfold disjoint_blocks in D. cbn [fst snd] in D. lia. }
  apply ld32_ext. intros b Hb. rewrite current_byte; [|lia| |lia|lia].
  - apply (tk_low _ _ _ _ _ _ (al_took _ _ _ _ _ _ _ _ HA)); [lia|lia|]. intros (x & Hx & Hbx). apply (Hno x b Hx); [lia|done].
  - rewrite owned_one. apply Hno; [by apply elem_of_union_r, elem_of_singleton|lia].
Qed.

Lemma size_task_pages : base.size (task_pages p q ∪ {[r]}) = 26%nat.
Proof.
  destruct (al_directory _ _ _ _ _ _ _ _ HA) as [_ Hq]. destruct (al_block _ _ _ _ _ _ _ _ HA) as [_ Hr].
  rewrite size_union by (apply disjoint_singleton_r; done). unfold task_pages.
  rewrite size_union, size_page_run, !size_singleton by (apply disjoint_singleton_r; done). done.
Qed.
Lemma task_pages_free : task_pages p q ∪ {[r]} ⊆ free_set kern_pool (v_mem (k_vmm k)).
Proof. intros x Hx. apply (task_page_ok x Hx). Qed.

Lemma task_page x : p <= x < p + 24 ->
  0 <= x < 261120 /\ disjoint_blocks (page_addr kern_pool x) 4096 kern_bitmap 32768.
Proof. intros Hx. destruct (task_page_ok x) as (_ & ? & ? & _); [|done]. apply elem_of_union_l, elem_of_task_pages. by left. Qed.

Lemma current_top : top_entry t = page_addr kern_pool q + 4 * 767.
Proof.
  destruct (tc_block _ _ _ _ _ _ _ _ _ _ _ HC) as (_ & _ & Hpdt).
  destruct (task_page_ok q) as (_ & Hq & _); [apply elem_of_union_l, elem_of_task_pages; by right|].
  unfold top_entry. rewrite Hpdt, page_addr_kern, u32_small; lia.
Qed.

(** The pool, the directory, the kernel's bits and the pages still free are
    apart. *)
Lemma current_apart : task_apart (k_vmm k2) t (top_entry t).
Proof.
  rewrite current_top. destruct (tc_block _ _ _ _ _ _ _ _ _ _ _ HC) as (_ & HU & _).
  destruct (task_page p ltac:(lia)) as [Hp0 _]. destruct (task_page (p + 23) ltac:(lia)) as [Hp23 _].
  destruct (task_page_ok q) as (_ & Hq & _); [apply elem_of_union_l, elem_of_task_pages; by right|].
  assert (Hqn : q < p \/ p + 24 <= q).
  { destruct (al_directory _ _ _ _ _ _ _ _ HA) as [_ Hn]. rewrite elem_of_page_run in Hn. lia. }
  split; rewrite ?HU; unfold task_pool; cbn [vaddr_header bm_length]; rewrite ?page_addr_kern; unfold disjoint_blocks.
  + lia.
  + lia.
  + lia.
  + pose proof (rm_ok _ (tr_room _ _ _ _ HR)) as [_ Hkb].
    destruct (decide (kern_bitmap + 32768 <= 3221225472 + 4096 * p)) as [|Hn1]; [by left|].
    right. destruct (decide (3221225472 + 4096 * p + 98304 <= kern_bitmap)) as [|Hn2]; [done|]. exfalso.
    destruct (decide (kern_bitmap < 3221225472 + 4096 * p)) as [Hl|Hl].
    * destruct (task_page p ltac:(lia)) as [_ D]. unfold disjoint_blocks in D. rewrite page_addr_kern in D. lia.
    * destruct (task_page (p + (kern_bitmap - (3221225472 + 4096 * p)) / 4096) ltac:(dlia)) as [_ D]. unfold disjoint_blocks in D. rewrite page_addr_kern in D. dlia.
  + intros x Hx. rewrite current_free in Hx. apply elem_of_difference in Hx as [Hx Hn].
    destruct (rm_pages _ (tr_room _ _ _ _ HR) x Hx) as [Hhi _]. rewrite page_addr_kern in Hhi. pose proof (free_page_range _ _ Hx).
    rewrite elem_of_union, elem_of_task_pages in Hn.
    assert (x <> q /\ ~ p <= x < p + 24) by (split; [intros ->; apply Hn; left; by right|intros Hxp; apply Hn; left; by left]).
    rewrite page_addr_kern. unfold page_addr, disjoint_blocks. cbn [kern_pool target_addr_header]. lia.
Qed.

Lemma current_fresh : fresh_task k2 F' t.
Proof.
  pose proof (al_took _ _ _ _ _ _ _ _ HA) as T. destruct (took_left _ _ _ _ _ _ T task_pages_free) as [Sz Ln].
  rewrite size_task_pages in Sz. pose proof (tr_pages _ _ _ _ HR) as Hsz. destruct (tr_frames _ _ _ _ HR) as [Hinv HF].
  pose proof (tk_ready _ _ _ _ _ _ T 3%nat (tr_ready _ _ _ _ HR)) as Hr3.
  destruct (tc_current _ _ _ _ _ _ _ _ _ _ _ HC) as [Hcur Ht]. destruct (tc_block _ _ _ _ _ _ _ _ _ _ _ HC) as (Hk & HU & Hpdt).
  destruct (tc_vmm _ _ _ _ _ _ _ _ _ _ _ HC) as (c & Hc & Ev). pose proof current_memory as HM.
  assert (Hpg : v_pages (k_vmm k2) = v_pages v) by (by rewrite Ev).
  destruct (task_page p ltac:(lia)) as [Hp0 _]. destruct (task_page (p + 23) ltac:(lia)) as [Hp23 _].
  destruct (task_page_ok q) as (_ & Hq & _); [apply elem_of_union_l, elem_of_task_pages; by right|].
  pose proof current_top as Htop.
  assert (Hready : ready_for 3 (v_pages (k_vmm k2))) by (by rewrite Hpg).
  split.
  - by rewrite Hcur.
  - rewrite Ev. apply vmm_ok_mem, T.
  - split; [|done|rewrite HU; apply task_pool_wf; lia|rewrite HU; unfold task_pool; cbn [vaddr_header bm_length]; rewrite page_addr_kern; lia].
    rewrite Ev. cbn [USER_PAGE_DIR_IS_LOADED set_mem]. rewrite (tk_flag _ _ _ _ _ _ T). apply HR.
  - by rewrite HU.
  - exact current_apart.
  - rewrite HU. apply (tm_pool _ _ _ _ _ HM). lia.
  - rewrite HU. apply (tm_pool _ _ _ _ _ HM). lia.
  - rewrite Htop, (nd_user _ _ _ _ (tm_directory _ _ _ _ _ HM)) by lia. done.
  - rewrite current_free. intros E.
    assert (Sz2 : base.size (free_set kern_pool (v_mem (k_vmm k)) ∖ (task_pages p q ∪ {[r]})) = 0%nat) by (by rewrite E, size_empty).
    rewrite size_difference, size_task_pages in Sz2 by apply task_pages_free. lia.
  - rewrite Hpg. split; [apply T|lia].
  - apply Hready.
  - intros s1 a tr E. pose proof (asks_vmm_kern_alloc _ _ _ _ 2%nat E Hready) as [H _]. exact H.
  - intros s1 a tr E. pose proof (asks_vmm_user_alloc_one_page _ _ _ _ _ _ 1%nat E Hready) as [H _]. exact H.
Qed.
End current.
(** The whole run. *)
Lemma task_runs k rest F p args start tid :
  let function := ld32 (v_mem (k_vmm k)) (args + 4) in
  threads_inv (tcbs k) (cur_tcb k) rest -> task_room k F p args ->
  ld32 (v_mem (k_vmm k)) args = 0 -> function <> 0 ->
  exists k1 k2 v t1 tr q r f fs f1 f2 f3 F2,
    create_user_task start tid args k = Ret k1 tt t1 /\
    schedule k1 = Ret k2 true (Load_cr3 f :: eoi) /\
    new_directory (v_mem (k_vmm k)) (v_mem (k_vmm k2)) q f /\
    threads_inv (tcbs k2) (page_addr kern_pool r) (rest ++ [cur_tcb k]) /\ cur_tcb k2 = page_addr kern_pool r /\
    Threads.eip k2 = u32 start /\ ld32 (v_mem (k_vmm k2)) (esp (regs k2) + 4) = args /\
    start_user_task args k2 = Ret (user_entry function v k2) (35, 43) (tr ++ [Iret]) /\
    F ≡ₚ fs ++ f1 :: f2 :: f3 :: F2 /\ length fs = 26%nat /\ pa_inv (v_pages v) F2 /\
    ld32 (v_mem v) (page_addr kern_pool q + 4 * 767) = user_pte f1 /\
    ld32 (v_mem v) (get_pte 3221221376) = user_pte f2 /\ ld32 (v_mem v) (get_pte 3221217280) = user_pte f3.
Proof.
  intros function H HR Hfile Hfun.
  destruct (task_switched k rest F p args start tid H HR) as (v & q & r & f & F' & t1 & k1 & k2 & t & E1 & HA & E2 & HC).
  pose proof (current_fresh _ _ _ _ _ _ _ _ _ _ _ _ _ _ HR HA HC) as Hfresh.
  pose proof (current_args _ _ _ _ _ _ _ _ _ _ _ _ _ _ HR HA HC) as Ha.
  pose proof (Ha 0 ltac:(lia) ltac:(lia)) as A0. rewrite Z.add_0_r in A0. pose proof (Ha 4 ltac:(lia) ltac:(lia)) as A4. fold function in A4.
  destruct (task_enters k2 F' t args Hfresh) as (v2 & f1 & f2 & f3 & F2 & tr & E3 & HF & Hi & _ & P1 & P2 & P3); [by rewrite A0|by rewrite A4|].
  destruct (tk_frames _ _ _ _ _ _ (al_took _ _ _ _ _ _ _ _ HA)) as (fs & Hl & HF0).
  destruct (tc_current _ _ _ _ _ _ _ _ _ _ _ HC) as [Hcur _]. destruct (tc_block _ _ _ _ _ _ _ _ _ _ _ HC) as (_ & _ & Hpdt).
  destruct (tc_stack _ _ _ _ _ _ _ _ _ _ _ HC) as (Hsp & _ & Harg). destruct (tc_start _ _ _ _ _ _ _ _ _ _ _ HC) as [Hip _].
  destruct (task_scratch_low k F p args HR) as (_ & _ & _ & B0 & B1 & _).
  exists k1, k2, v2, t1, tr, q, r, f, fs, f1, f2, f3, F2. rewrite A4 in E3.
  split; [exact E1|]. split; [exact E2|].
  split; [apply (current_memory _ _ _ _ _ _ _ _ _ _ _ _ _ _ HR HA HC)|].
  split; [apply HC|]. split; [exact Hcur|]. split; [exact Hip|].
  split; [rewrite Hsp; replace (page_addr kern_pool r + 4088 + 4) with (page_addr kern_pool r + 4092) by lia; rewrite Harg; apply u32_small; lia|].
  split; [exact E3|]. split; [by rewrite HF0, HF|]. split; [done|]. split; [done|]. split; [|by split].
  rewrite <- P1. f_equal. unfold top_entry. destruct (task_page_ok _ _ _ _ _ _ _ _ _ HR HA q) as (_ & Hq & _); [apply elem_of_union_l, elem_of_task_pages; by right|].
  rewrite Hpdt, page_addr_kern, u32_small; lia.
Qed.

(** C4: A user task from its creation to its first instruction.  In a kernel with
    room for it, [create_user_task] returns with a new thread next in the ring;
    the next call of [schedule] loads the directory of the task, which maps
    nothing of its own and the kernel above 3 GB, and continues at [start] with
    the parameters as argument; and [start_user_task] leaves the kernel at the
    function of the task, on user segments, with interrupts on and its stack
    and arguments mapped.  All in all 29 frames are used: the pool of the task,
    its directory, its block, a page table and its first two pages. *)
Theorem user_task_runs k rest F p args start tid :
  let function := ld32 (v_mem (k_vmm k)) (args + 4) in
  threads_inv (tcbs k) (cur_tcb k) rest -> task_room k F p args ->
  ld32 (v_mem (k_vmm k)) args = 0 -> function <> 0 ->
  exists k1 k2 v t1 tr q r f fs f1 f2 f3 F2,
    create_user_task start tid args k = Ret k1 tt t1 /\
    schedule k1 = Ret k2 true (Load_cr3 f :: eoi) /\
    new_directory (v_mem (k_vmm k)) (v_mem (k_vmm k2)) q f /\
    threads_inv (tcbs k2) (page_addr kern_pool r) (rest ++ [cur_tcb k]) /\ cur_tcb k2 = page_addr kern_pool r /\
    Threads.eip k2 = u32 start /\ ld32 (v_mem (k_vmm k2)) (esp (regs k2) + 4) = args /\
    start_user_task args k2 = Ret (user_entry function v k2) (35, 43) (tr ++ [Iret]) /\
    F ≡ₚ fs ++ f1 :: f2 :: f3 :: F2 /\ length fs = 26%nat /\ pa_inv (v_pages v) F2 /\
    ld32 (v_mem v) (page_addr kern_pool q + 4 * 767) = user_pte f1 /\
    ld32 (v_mem v) (get_pte 3221221376) = user_pte f2 /\ ld32 (v_mem v) (get_pte 3221217280) = user_pte f3.
Proof. exact (task_runs k rest F p args start tid). Qed.
End task.

(** ** A concrete kernel *)

#[local] Existing Instance small_vmm_layout.
#[local] Existing Instance small_tss.
#[local] Existing Instance ex_threads.

(** The 32 lowest pages of the kernel are free; the parameters, at 1280, name a
    function at 4660. *)
Definition room_mem : mem := st32 (write_bytes ∅ 65536 [255; 255; 255; 255]) 1284 4660.
Definition room_kern (pg : pmm) : kern pmm := Build_kern (Build_vmm room_mem pg kern_pool 1) ex_tcbs 4096 ex_regs 0.

Lemma room_mem_free q : q ∈ free_set kern_pool room_mem <-> 0 <= q < 32.
Proof.
  rewrite elem_of_free_set. split.
  - intros [Hq Hf]. destruct (decide (q < 32)); [lia|]. exfalso. unfold is_free, room_mem in Hf.
    unfold pages in Hq. cbn [kern_pool bm_length vaddr_header] in *. change kern_bitmap with 65536 in Hf.
    rewrite ld8_st32_ne in Hf by (intros i Hi; rewrite !u32_small by dlia; dlia).
    rewrite ld8_write_bytes_out in Hf by (unfold region; cbn [length]; dlia).
    unfold ld8 in Hf. rewrite lookup_empty in Hf. cbn in Hf. change (u8 0) with 0 in Hf. by rewrite Z.testbit_0_l in Hf.
  - intros Hq. split; [unfold pages; cbn [kern_pool bm_length]; lia|].
    assert (H : Forall (fun x => is_free kern_pool room_mem x = true) (seqZ 0 32)) by (apply (bool_decide_unpack _); by vm_compute).
    rewrite Forall_forall in H. apply H, elem_of_seqZ. lia.
Qed.

Lemma room_scratch pg : scratch (room_kern pg) 1280 = [(2004, 4); (8992, 8); (1280, 8)].
Proof. reflexivity. Qed.

Lemma room_kern_room pg F : pmm_frames pg F -> (29 <= length F)%nat -> ready_for (P := pmm) 29 pg -> task_room (room_kern pg) F 0 1280.
Proof.
  intros HF Hl Hr. split.
  - split; [split; [done|cbn; lia]|]. intros q Hq. apply room_mem_free in Hq. unfold disjoint_blocks.
    rewrite page_addr_kern. change kern_bitmap with 65536. lia.
  - by split.
  - done.
  - intros q Hq. apply room_mem_free. lia.
  - intros q Hq. apply room_mem_free in Hq. lia.
  - assert (Hs : page_run 0 32 ⊆ free_set kern_pool room_mem) by (intros x Hx; apply elem_of_page_run in Hx; apply room_mem_free; lia).
    apply subseteq_size in Hs. rewrite size_page_run in Hs. change (v_mem (k_vmm (room_kern pg))) with room_mem. lia.
  - intros q Hq. apply room_mem_free in Hq. destruct (tcbs (room_kern pg) !! page_addr kern_pool q) as [t|] eqn:E; [|done].
    exfalso. destruct (ex_lookup _ _ E) as [[Hx _]|[[Hx _]|[Hx _]]]; rewrite page_addr_kern in Hx; lia.
  - intros q Hq. apply room_mem_free in Hq. rewrite page_addr_kern, room_scratch. unfold disjoint_blocks.
    rewrite !Forall_cons, Forall_nil. cbn [fst snd]. lia.
  - rewrite room_scratch. unfold disjoint_blocks. change kern_bitmap with 65536. rewrite !Forall_cons, Forall_nil. cbn [fst snd]. lia.
  - change (tss_cpu0 + esp0_off) with 2004. change (esp (regs (room_kern pg))) with 9000. unfold disjoint_blocks. lia.
  - done.
Qed.

Lemma user_task_runs_witness :
  exists pg t0 k1 k2 v t1 tr f, pmm_page_init (pmm_boot 2097152 5000) = Ret pg tt t0 /\
    create_user_task 6000 3 1280 (room_kern pg) = Ret k1 tt t1 /\
    schedule k1 = Ret k2 true (Load_cr3 f :: eoi) /\ Threads.eip k2 = 6000 /\
    start_user_task 1280 k2 = Ret (user_entry 4660 v k2) (35, 43) (tr ++ [Iret]).
Proof.
  destruct (page_init_ready_for (pmm_boot 2097152 5000)) as (pg & t0 & F & E0 & HF & Hl & Ha & Hr & Hlt & Hn); [cbn; lia|by apply fits_pages|done|done|done|].
  cbn [pmm_boot pmm_max_page_no] in *.
  destruct (user_task_runs (room_kern pg) [8192; 12288] F 0 1280 6000 3) as (k1 & k2 & v & t1 & tr & q & r & f & _ & _ & _ & _ & _ & H1 & H2 & _ & _ & _ & H3 & _ & H4 & _).
  - exact ex_inv.
  - apply room_kern_room; [done|lia|apply Hn; dlia].
  - by vm_compute.
  - by vm_compute.
  - exists pg, t0, k1, k2, v, t1, tr, f. split; [exact E0|]. split; [exact H1|]. split; [exact H2|]. split; [exact H3|exact H4].
Defined.
