(* ===== verification/UserEntry.v ===== *)
(** * The first instructions of a user task

    [exit_int] of common_asm.s, run on the frame [start_user_task] fills, does
    what the model of the C code says ([exit_int]), and more than that model
    can say: the segments the task starts with. *)

From S2P Require Import Prelude Memory PageTable Tcb Pmm Vmm Tss Threads UserTask X86 Boot BootThm IntrAsm IntrAsmThm AsmCalls.

Section entry.
#[local] Existing Instance linear.
Context {P : Type} {TL : TssLayout}.

(** interrupt_stack_t in memory. *)
Definition frame_words (st : interrupt_stack_t) : list Z :=
  [int_no_1 st; is_args st; is_gs st; is_fs st; is_es st; is_edi st; is_esi st; is_ebp st; esp_duplicate st; is_ebx st;
   is_edx st; is_ecx st; is_eax st; int_no_2 st; error_no st; is_eip st; is_cs st; is_eflags st; is_esp st; is_ss st].

(** A call of [exit_int] in the kernel with the frame [st] at [a]. *)
Record calls_exit_int (c : cpu) (st : interrupt_stack_t) (a : Z) : Prop := {
  ce_arg : ld32 (ram c) (g_esp (gpr c) + 4) = a /\ 0 <= g_esp (gpr c) /\ g_esp (gpr c) + 8 <= 4294967296;
  ce_frame : stack_at (ram c) a (frame_words st);
  ce_selectors : Forall (fun x => 0 <= x < 65536) [is_gs st; is_fs st; is_es st; is_cs st; is_ss st];
  ce_levels : Z.land (s_cs (seg c)) 3 = 0 /\ Z.land (is_cs st) 3 = 3
}.

Lemma exit_int_code_eq c st a :
  calls_exit_int c st a ->
  exit_int_code c = Ret (Cpu (Gprs (is_eax st) (is_ecx st) (is_edx st) (is_ebx st) (is_esp st) (is_ebp st) (is_esi st) (is_edi st))
    (user_segs (Segs (is_cs st) (s_ds (seg c)) (is_es st) (is_fs st) (is_gs st) (is_ss st))) (is_eip st) (is_eflags st)
    (cr0 c) (cr3 c) (gdtr c) (ram c)) tt [Iret].
Proof.
  intros [(Ha & Hs0 & Hs1) Hf Hsel [Hl Hu]]. destruct c as [[ra rc rd' rb sp rp rsi rdi] [cs ds es fs gs ss] ip fl c0 c3 gd m].
  cbn [gpr seg ram cr0 cr3 gdtr g_esp s_cs s_ds] in *. split_Forall.
  pose proof (ld32_range m (sp + 4)). rewrite Ha in *.
  unfold exit_int_code. exec. run load_linear by lia. exec. cbn [ram]. rewrite Ha, !(u32_small a) by (rewrite ?u32_small; lia).
  destruct (restore_registers_eq ip fl c0 c3 gd (is_eax st) (is_ecx st) (is_edx st) (is_ebx st) (is_ebp st) (is_esi st) (is_edi st)
    cs ds (is_es st) (is_fs st) (is_gs st) ss m a (Gprs a rc rd' rb a rp rsi rdi) (Segs cs ds es fs gs ss)
    (int_no_1 st) (is_args st) (esp_duplicate st) (int_no_2 st) (error_no st)
    [is_eip st; is_cs st; is_eflags st; is_esp st; is_ss st] eq_refl eq_refl eq_refl Hf eq_refl) as [E S'].
  rewrite (bind_ret_eq _ _ _ _ _ _ E), prepend_nil, (u16_small (is_es st)), (u16_small (is_fs st)), (u16_small (is_gs st)) by lia.
  rewrite iret_outer with (ip' := is_eip st) (cs := is_cs st) (fl' := is_eflags st) (sp' := is_esp st) (ss := is_ss st) (rest := []);
    [by rewrite Hu|exact S'|lia|lia|by rewrite Hl, Hu].
Qed.

(** C39: The model of the C code gives the registers, the program counter, and the
    code and stack segment of the instructions. *)
Theorem exit_int_refined c st a (k : kern P) :
  calls_exit_int c st a ->
  exists c' k', exit_int_code c = Ret c' tt [Iret] /\ UserTask.exit_int st k = Ret k' (s_cs (seg c'), s_ss (seg c')) [Iret] /\
    regs k' = context_of c' /\ Threads.eip k' = x_eip c' /\ ram c' = ram c /\
    seg c' = user_segs (Segs (is_cs st) (s_ds (seg c)) (is_es st) (is_fs st) (is_gs st) (is_ss st)).
Proof.
  intros H. eexists _, _. split; [exact (exit_int_code_eq c st a H)|]. split; [reflexivity|]. by repeat split.
Qed.

(** The frame [start_user_task] fills, for a function and a stack. *)
Definition start_frame (function esp : Z) : interrupt_stack_t :=
  {| int_no_1 := 1; is_args := 0; is_gs := 0; is_fs := 0; is_es := 0; is_edi := 0; is_esi := 0;
     is_ebp := 0; esp_duplicate := 0; is_ebx := 0; is_edx := 0; is_ecx := 0; is_eax := 0; int_no_2 := 0;
     error_no := 0; is_eip := function; is_cs := Z.land SELECTOR_USER_CODE_MEM 65535;
     is_eflags := INTR_TO_LEVEL3_EFLAGS; is_esp := esp; is_ss := Z.land SELECTOR_USER_DATA_MEM 65535 |}.

(** C40: A user task starts without data segments: the frame gives it null
    selectors for es, fs and gs, and the processor replaces ds, which holds the
    kernel's selector and is not in the frame, by the null selector.  And as
    the entry code of interrupts does not load ds either, every interrupt of
    the task, whose level is 3 and whose ds it did not load itself, calls the
    C function of the kernel with a null ds. *)
Theorem user_task_without_data c a function esp :
  calls_exit_int c (start_frame function esp) a -> s_ds (seg c) = SELECTOR_DATA -> 0 <= function < 4294967296 ->
  exists c', exit_int_code c = Ret c' tt [Iret] /\ seg c' = Segs SELECTOR_USER_CODE 0 0 0 0 SELECTOR_USER_DATA /\
    forall u handler err n ra route, user_level u -> s_ds (seg u) = s_ds (seg c') ->
      error_ok n err -> 0 <= n < 256 -> 0 <= ra < 4294967296 ->
      exists c1, interrupt handler err n ra route u = (route ;; leave_handler) c1 /\
        at_handler u n ra (top_outer u) (tss_esp u) (tss_ss u) c1 /\ s_cs (seg c1) = SELECTOR_CODE /\ s_ds (seg c1) = 0.
Proof.
  intros H Hds Hf. eexists. split; [exact (exit_int_code_eq _ _ _ H)|]. cpu_cbn. rewrite Hds. split; [by vm_compute|].
  intros u handler err n ra route Hu Hd He Hn Hra.
  destruct (user_interrupt_enters u handler err n ra route Hu He Hn Hra) as (a1 & v & m1 & E & S1). cbv zeta in E.
  pose proof (saved_at_handler u m1 a1 v n ra (top_outer u) _ (tss_ss u) handler _ S1) as HA.
  eexists. split; [exact E|]. split; [exact HA|]. split; [done|]. cpu_cbn. rewrite Hd. by vm_compute.
Qed.
End entry.

(** ** A concrete task *)

Module Small.
#[local] Existing Instance linear.
Definition frame_ram : mem :=
  let fix go m a l := match l with [] => m | x :: l' => go (st32 m a x) (a + 4) l' end in
  st32 (go ∅ 20480 (frame_words (start_frame 4660 3221221376))) 65540 20480.
Definition exiting : cpu := Cpu (Gprs 0 0 0 0 65536 0 0 0) (Segs 8 16 16 16 24 16) 0 2 0 0 (0, 0) frame_ram.
Lemma exiting_ok : calls_exit_int exiting (start_frame 4660 3221221376) 20480.
Proof.
  split.
  - split; [by vm_compute|cbn; lia].
  - split; [lia|]. split; [cbn; lia|]. intros i x Hx.
    do 20 (destruct i as [|i]; [injection Hx as <-; by vm_compute|]). done.
  - repeat (apply Forall_cons; split; [vm_compute; split; congruence|]). apply Forall_nil_2.
  - by vm_compute.
Qed.
(** The task when an interrupt comes. *)
Definition task : cpu :=
  Cpu (Gprs 10 11 12 13 3221221300 15 16 17) (Segs 35 0 0 0 0 43) 4700 514 0 0 (0, 0) (st32 (st32 ∅ 8196 32768) 8200 16).
Lemma task_ok : user_level (TL := IntrAsmThm.Small.tss) task.
Proof. split; [split; cbn; solve_Forall|done|cbn; lia|by vm_compute]. Qed.
Lemma timer_error : error_ok 32 None.
Proof. unfold error_ok, have_errocode. set_solver. Qed.
End Small.

Lemma exit_int_refined_witness :
  exists c' k', exit_int_code (T := linear) Small.exiting = Ret c' tt [Iret] /\
    UserTask.exit_int (start_frame 4660 3221221376) fresh_kern = Ret k' (35, 43) [Iret] /\ regs k' = context_of c'.
Proof.
  destruct (exit_int_refined Small.exiting (start_frame 4660 3221221376) 20480 fresh_kern Small.exiting_ok) as (c' & k' & E & E' & H & _ & _ & Hs).
  exists c', k'. split; [exact E|]. rewrite Hs in E'. split; [exact E'|exact H].
Defined.

Lemma user_task_without_data_witness :
  exists c', exit_int_code (T := linear) Small.exiting = Ret c' tt [Iret] /\ s_ds (seg c') = 0 /\
    exists c1, interrupt (T := linear) (TL := IntrAsmThm.Small.tss) 5000 None 32 6000 IntrAsmThm.Small.route Small.task =
        (IntrAsmThm.Small.route ;; leave_handler (T := linear)) c1 /\
      s_cs (seg c1) = 8 /\ s_ds (seg c1) = 0.
Proof.
  destruct (user_task_without_data (TL := IntrAsmThm.Small.tss) Small.exiting 20480 4660 3221221376 Small.exiting_ok eq_refl ltac:(lia)) as (c' & E & Hs & H).
  exists c'. split; [exact E|]. split; [by rewrite Hs|].
  destruct (H Small.task 5000 None 32 6000 IntrAsmThm.Small.route Small.task_ok) as (c1 & E1 & _ & H1 & H2);
    [by rewrite Hs|exact Small.timer_error|lia|lia|]. exists c1. split; [exact E1|]. by split.
Defined.
