(* ===== verification/Entry.v ===== *)
(** * kernel/entry.c: the boot sequence

    [kern_entry] initialises the components in their order, creates a first
    thread and prints; then it loops for ever with the interrupts on.  The state
    is the whole kernel's: the threads, locks and the screen ([io]) over one
    memory and the page allocator of pmm.c, and the tables of the interrupts. *)

From S2P Require Import Prelude Memory CString StringThm Bitmap KernLog Pmm PmmSpec PmmInv PmmAlloc PmmInit PmmSys PmmThm PageTable.
From S2P Require Import Tcb Vmm VmmThm KernPages Tss UserVm Threads Ring ThreadsThm ThreadsInv ThreadsSys ThreadsView.
From S2P Require Import Port Vga Interrupt InterruptThm Sync SyncThm SemInv SyncCore SyncSys SyncProp Printk PrintkThm PrintkSys Machine.

(** The globals [lock] and [sem], the function [func], the values of the
    linker's and of boot.s's symbols, and the local of [sem_P] should the last
    call wait; [default_bitmap] is the uninitialised local of
    [create_kern_thread]. *)
Class EntryLayout := {
  lock : Z;
  sem : Z;
  func_addr : Z;
  kern_start : Z;
  mboot_ptr : Z;
  entry_node : Z;
  default_bitmap : bitmap
}.

Section code.
Context {VL : VmmLayout} {TL : TssLayout} {CPU : Processor} {HL : ThreadLayout}.
Context {SL : StringLayout} {KL : PrintkLayout} {IL : IntrLayout} {EL : EntryLayout} {LL : Literals}.

(** [kern_entry] up to its call of [printk].  boot.s calls it with the
    interrupts off, so that the [cli] at the end of [idt_init] changes no
    register.  [pmm_init] and [tss_init] print on the screen [vga_init] has
    cleared. *)
Definition kern_start_up : M machine unit :=
  in_io (in_vga vga_init) ;;
  pmm_init kern_start kern_end mboot_ptr ;;
  in_threads (in_vmm vmm_pre_init) ;;
  in_threads (in_vmm vmm_init) ;;
  in_intr idt_init ;;
  tss_init ;;
  in_threads threads_init ;;
  in_io printk_init_lock ;;
  in_intr keyboard_init ;;
  in_threads sti ;;
  in_io (in_sync (lock_init lock)) ;;
  in_io (in_sync (sem_init sem 2)) ;;
  in_threads (create_kern_thread default_bitmap 1 func_addr 0).

(** The user task the source prepares in [u1] is not created. *)
Definition kern_entry (fuel : nat) : M machine flow :=
  kern_start_up ;;
  r <- in_io (printk fuel entry_node (literal "0x%h\n") [func_addr]) ;;
  match r with
  | Returned => stop
  | Suspended fs => ret (Suspended fs)
  end.

(** The function of the first thread. *)
Definition func_body : M machine unit := stop.

End code.

(** ** Running a component on the machine *)

Section run.
Context {VL : VmmLayout} {TL : TssLayout} {HL : ThreadLayout}.

Lemma in_threads_ret {A} (c : M (kern pmm) A) s k (a : A) t :
  c (m_kern s) = Ret k a t -> in_threads c s = Ret (set_m_kern k s) a t.
Proof. intros E. unfold in_threads, zoom. by rewrite E. Qed.

Lemma in_io_ret {A} (c : M (io pmm) A) s y (a : A) t :
  c (m_io s) = Ret y a t -> in_io c s = Ret (Build_machine y (m_intr s)) a t.
Proof. intros E. unfold in_io, zoom. by rewrite E. Qed.

Lemma in_intr_ret {A} (c : M intr A) s i (a : A) t :
  c (m_intr s) = Ret i a t -> in_intr c s = Ret (Build_machine (m_io s) i) a t.
Proof. intros E. unfold in_intr, zoom. by rewrite E. Qed.

Lemma sem_init_eq a v (y : sync pmm) :
  sem_init a v y = Ret (set_sems (insert a {| sem_val := v; sem_head := None |}) y) tt [].
Proof.
  unfold sem_init, sync_tool_sem_init_queue. rewrite bind_modify. set (y1 := set_sems _ y).
  set (x := default {| sem_val := 0; sem_head := None |} (sems y !! a)).
  assert (E1 : sems y1 !! a = Some x) by (unfold y1; cbn [sems set_sems]; by rewrite lookup_insert_eq).
  run (set_queue_head_eq _ _ _ _ E1) by idtac.
  rewrite (set_sem_val_eq _ _ _ {| sem_val := sem_val x; sem_head := None |})
    by (cbn [sems set_sems]; by rewrite lookup_insert_eq).
  unfold y1, set_sems. cbn [sems y_kern nodes holders sem_head]. by rewrite !insert_insert_eq.
Qed.

Lemma lock_init_eq l (y : sync pmm) :
  lock_init l y =
    Ret (set_holders (insert l 0) (set_sems (insert (lock_sem l) {| sem_val := 1; sem_head := None |}) y)) tt [].
Proof. unfold lock_init. rewrite (bind_ret_eq _ _ _ _ _ _ (sem_init_eq _ _ _)). reflexivity. Qed.

(** ** The memory map and the page allocator *)

(** The end of the highest usable region of a map of [n] entries. *)
Definition ram_top (m : mem) (mboot n : Z) : Z :=
  foldl Z.max 0 (map (fun i => usable_top m (ld32 m (mboot + 48) + 24 * i)) (seqZ 0 n)).

Lemma foldl_max_range l a b : 0 <= a < b -> Forall (fun x => 0 <= x < b) l -> 0 <= foldl Z.max a l < b.
Proof. intros Ha H. revert a Ha. induction H as [|x l Hx _ IH]; intros a Ha; cbn [foldl]; [done|]. apply IH. lia. Qed.

Lemma ram_top_range m mboot n : 0 <= ram_top m mboot n < 4294967296.
Proof.
  unfold ram_top. apply foldl_max_range; [lia|]. apply Forall_forall. intros x (i & <- & _)%list_elem_of_In%in_map_iff.
  unfold usable_top. destruct (_ =? 1); [apply u32_range|lia].
Qed.

(** The pages above the kernel. *)
Definition ram_pages (m : mem) (mboot n : Z) : Z := ram_top m mboot n / 4096 - kern_end / 4096 - 1.

Lemma pmm_ready_class0 s ls : buddy s ls -> list_at ls 0 <> [] -> pmm_ready s.
Proof.
  intros H Hl _. left. change (class_nat 1) with 0%nat.
  destruct (rep_list_at _ _ 0 (bd_rep _ _ H) ltac:(lia)) as (_ & h & Hh & Hlk & _). rewrite Hh.
  destruct (list_at ls 0); [done|]. destruct Hlk as [-> _]. done.
Qed.

(** How many of [mx] pages [pmm_page_init] keeps as single pages. *)
Definition single_pages (mx : Z) : Z := if decide (mx = 2048) then 0 else (mx - 2049) `mod` 1024 + 1.

(** The lines [get_max_pm_addr] and [pmm_init] print. *)
Definition region_line (m : mem) (cur : Z) : line :=
  ("[INFO][PMM]physic_mem_block:0x%h-0x%h-0x%h-%d\n",
   [PInt (ld32 m (cur + 4)); PInt (ld32 m (cur + 12)); PInt (u32 (ld32 m (cur + 4) + ld32 m (cur + 12))); PInt (ld32 m (cur + 20))]).
Definition region_lines (m : mem) (mboot n : Z) : list line :=
  map (fun i => region_line m (ld32 m (mboot + 48) + 24 * i)) (seqZ 0 n).

Definition pmm_lines (m : mem) (ks mboot n : Z) : list line :=
  let st := 4096 * (kern_end / 4096 + 1) in
  let mx := ram_pages m mboot n in
  [("[INFO][PMM]kern_physic_start:0x%h\n", [PInt ks]); ("[INFO][PMM]kern_physic_end:0x%h\n", [PInt kern_end])] ++
  region_lines m mboot n ++
  [("[INFO][PMM]pmm_start:0x%h\n", [PInt st]);
   ("[INFO][PMM]pmm_end:0x%h\n", [PInt (4096 * (ram_top m mboot n / 4096))]);
   ("[INFO][PMM]physic_page_count:%d\n", [PInt (mx + 1)]);
   ("[INFO][PMM]first_page_physic_addr:0x%h\n", [PInt (pmm_page_no_to_addr st 32000)]);
   ("[INFO][PMM]single_page_count:%d\n", [PInt (single_pages mx)])].
End run.

(** ** The state at the end of the boot sequence *)

Section boot.
Context {VL : VmmLayout} {TL : TssLayout} {CPU : Processor} {CS : ProcessorSpec CPU} {HL : ThreadLayout}.
Context {SL : StringLayout} {KL : PrintkLayout} {IL : IntrLayout} {EL : EntryLayout} {LL : Literals}.
Implicit Types (s : machine).

(** The pages of the kernel's image, and the page behind it, which the first
    thread gets. *)
Definition used_pages : Z := (kern_end + 4095) / 4096.
Definition thread_page : Z := 3221225472 + 4096 * used_pages.

(** What the boot sequence writes after it cleared the screen, printing and the
    descriptors of pages apart. *)
Definition later_writes : list (Z * Z) :=
  [(kern_bitmap, 32768); (kern_dir_table_paddr + 3221225472, 4); (GDT_BASE, 56); (tss_cpu0, 108);
   (thread_page, 4096); (4290772992, 4194304)].

(** All it writes: also the screen, the arrays of [printk], the memory from
    [page_array] to 640 KB, and the tables of boot.s, which are in the image and
    are what the recursive window shows. *)
Definition boot_writes : list (Z * Z) :=
  (video_memory, 4000) :: later_writes ++ buffers ++ [(page_array_addr, 655104); (kern_dir_table_paddr + 3221225472, 1052672)].

(** [a .. a+n-1] is part of the kernel's image above 1 MB, at its linear
    address. *)
Definition in_image (a n : Z) : Prop := 3222274048 <= a /\ a + n <= 3221225472 + kern_end.

(** The machine boot.s leaves: an image of at most 4 MB, its variables apart
    from each other, zero-initialised data, a memory map of [n] entries below
    the physical memory of the screen, and above the image at least 2048 pages of memory and not more
    than [page_array] has room for below 640 KB (54592, that is 213 MB). *)
Record boot_ok s (n : Z) : Prop := {
  bo_end : 0 <= kern_end <= 4194304;
  bo_bitmap : in_image kern_bitmap 32768;
  bo_dir : in_image (kern_dir_table_paddr + 3221225472) 4;
  bo_gdt : in_image GDT_BASE 56;
  bo_tss : in_image tss_cpu0 108;
  bo_gdt_tss : disjoint_blocks GDT_BASE 56 tss_cpu0 108;
  bo_bitmap_gdt : disjoint_blocks kern_bitmap 32768 GDT_BASE 56;
  bo_bitmap_tss : disjoint_blocks kern_bitmap 32768 tss_cpu0 108;
  bo_buffers : Forall (fun b => in_image b.1 b.2) buffers;
  bo_buffers_apart : Forall (fun b => away b.1 b.2)
    [(kern_bitmap, 32768); (kern_dir_table_paddr + 3221225472, 4); (GDT_BASE, 56); (tss_cpu0, 108)];
  bo_main : 0 < main_TCB < 3221225472 + kern_end;
  bo_entries : 0 <= n /\ ld32 (m_mem s) (mboot_ptr + 44) = 24 * n;
  bo_mboot : 0 <= mboot_ptr /\ mboot_ptr + 52 <= video_memory - 3221225472;
  bo_map : ld32 (m_mem s) (mboot_ptr + 48) + 24 * n <= video_memory - 3221225472;
  bo_ram : 2048 <= ram_pages (m_mem s) mboot_ptr n;
  bo_fits : page_array_fits (ram_pages (m_mem s) mboot_ptr n);
  bo_flag : printk_lock_init_flag (m_io s) = false;
  bo_pages : page_array (v_pages (k_vmm (m_kern s))) = ∅ /\ SINGLE_LINK (v_pages (k_vmm (m_kern s))) = None;
  bo_tcbs : tcbs (m_kern s) !! thread_page = None;
  bo_sems : sems (io_sync (m_io s)) = ∅;
  bo_locks : NoDup [lock_sem printk_lock; lock_sem lock; sem]
}.

(** The strings of the boot sequence, and what it prints before its last call. *)
Definition boot_literals : list string :=
  ["[INFO][PMM]kern_physic_start:0x%h\n"; "[INFO][PMM]kern_physic_end:0x%h\n";
   "[INFO][PMM]physic_mem_block:0x%h-0x%h-0x%h-%d\n"; "[INFO][PMM]pmm_start:0x%h\n"; "[INFO][PMM]pmm_end:0x%h\n";
   "[INFO][PMM]physic_page_count:%d\n"; "[INFO][PMM]first_page_physic_addr:0x%h\n"; "[INFO][PMM]single_page_count:%d\n";
   "[INFO][%s]%s\n"; "TSS"; "Init TSS Success!"; "0x%h\n"].

Definition boot_lines (m : mem) (n : Z) : list line :=
  pmm_lines m kern_start mboot_ptr n ++ [("[INFO][%s]%s\n", [PStr "TSS"; PStr "Init TSS Success!"])].

(** They are in the image, where the boot sequence does not write. *)
Definition kept_at (a n : Z) : Prop := in_image a n /\ Forall (fun b => disjoint_blocks b.1 b.2 a n) boot_writes.

(** The bytes of the image that the boot sequence does not write. *)
Definition keeps_image (m m' : mem) : Prop := forall b, kept_at b 1 -> ld8 m' b = ld8 m b.

Record strings_ok s : Prop := {
  so_layout : printk_layout_ok;
  so_hex : literals_ok SL (m_mem s);
  so_hex0x : kept_at lit_hex0x 11;
  so_hex0 : kept_at lit_hex0 9;
  so_strings : Forall (fun l => cstr (m_mem s) (literal l) (c_bytes l) /\ kept_at (literal l) (length (c_bytes l) + 1)) boot_literals
}.

(** What the boot sequence leaves. *)
Record kernel_up s s' (n : Z) : Prop := {
  ku_system : sys_start {[ printk_lock; lock ]} (Build_sys (io_sync (m_io s')) ∅);
  ku_current : cur_tcb (m_kern s') = main_TCB;
  ku_threads : threads_inv (tcbs (m_kern s')) main_TCB [thread_page];
  ku_thread : exists t, tcbs (m_kern s') !! thread_page = Some t /\ tid t = 1 /\ task_status t = TASK_READY /\
    esp (context t) = thread_page + 4084 /\ ld32 (m_mem s') (thread_page + 4084) = u32 func_addr;
  ku_vmm : vmm_ok (k_vmm (m_kern s'));
  ku_pool : forall p, p ∈ free_set kern_pool (m_mem s') <-> used_pages + 1 <= p < 261120;
  ku_frames : exists F, pmm_frames (v_pages (k_vmm (m_kern s'))) F /\
    Z.of_nat (length F) = ram_pages (m_mem s) mboot_ptr n - 1;
  ku_ready : forall k : nat, k < single_pages (ram_pages (m_mem s) mboot_ptr n) ->
    ready_for (P := pmm) k (v_pages (k_vmm (m_kern s')));
  ku_loaded : USER_PAGE_DIR_IS_LOADED (k_vmm (m_kern s')) = USER_PAGE_DIR_IS_LOADED (k_vmm (m_kern s));
  ku_tcbs : forall a, a <> main_TCB -> a <> thread_page -> tcbs (m_kern s') !! a = tcbs (m_kern s) !! a;
  ku_esp : esp (regs (m_kern s')) = esp (regs (m_kern s));
  ku_handlers : forall k, 0 <= k < 48 -> int_server_func_list (m_intr s') !! k =
    Some (if decide (k = 33) then interrupt_handler_keyboard else handler_of k);
  ku_interrupts : if_flag (regs (m_kern s')) = true;
  ku_sem : sems (io_sync (m_io s')) !! sem = Some {| sem_val := 2; sem_head := None |};
  ku_flag : printk_lock_init_flag (m_io s') = true;
  ku_screen : exists out, says (boot_lines (m_mem s) n) out /\
    shows (io_vga (m_io s')) (term_text black white out (Build_term (fun _ => blank) 0));
  ku_memory : keeps_image (m_mem s) (m_mem s')
}.

(** *** The steps *)

Lemma ld32_kept m m' a : kept m m' -> 0 <= a -> a + 4 <= video_memory -> ld32 m' a = ld32 m a.
Proof. intros H H0 H1. unfold ld32, video_memory in *. by rewrite !H by (unfold video_memory; lia). Qed.

Lemma ram_pages_kept m m' mboot n :
  kept m m' -> 0 <= n -> 0 <= mboot -> mboot + 52 <= video_memory -> ld32 m (mboot + 48) + 24 * n <= video_memory ->
  ram_pages m' mboot n = ram_pages m mboot n.
Proof.
  intros H Hn H0 H1 H2. unfold ram_pages, ram_top. rewrite (ld32_kept _ _ (mboot + 48) H) by lia.
  do 3 f_equal. f_equal. apply map_ext_in. intros i Hi%list_elem_of_In%elem_of_seqZ.
  pose proof (ld32_range m (mboot + 48)). unfold usable_top.
  by rewrite !(ld32_kept m m') by (done || lia).
Qed.

Lemma vmm_pre_init_eq (v : vmm pmm) s n :
  boot_ok s n -> vmm_pre_init v =
    Ret (set_mem (st32 (v_mem v) (kern_dir_table_paddr + 3221225472) 0) v) tt [Load_cr3 (page_mask kern_dir_table_paddr)].
Proof.
  intros H. destruct (bo_dir _ _ H), (bo_end _ _ H). unfold vmm_pre_init. cbv zeta. rewrite u32_small by lia. reflexivity.
Qed.

Lemma used_pages_range s n : boot_ok s n ->
  257 <= used_pages <= 1024 /\ 3221225472 + kern_end <= thread_page /\ thread_page + 4096 <= 3225423872.
Proof.
  intros H. destruct (bo_dir _ _ H), (bo_end _ _ H), (bo_bitmap _ _ H). unfold thread_page, used_pages. dlia.
Qed.
(** *** Memory *)

Lemma kept_part a n i : kept_at a n -> 0 <= i < n -> kept_at (a + i) 1.
Proof.
  intros [[H0 H1] H] Hi. split; [unfold in_image; lia|]. eapply Forall_impl; [exact H|]. intros [b k] Hd.
  unfold disjoint_blocks in *. cbn [fst snd] in *. lia.
Qed.

Lemma agree_image m m' : 0 <= kern_end <= 4194304 -> agree_outside boot_writes m m' -> keeps_image m m'.
Proof.
  intros He H b [[H0 H1] Hb]. apply H; [lia|]. eapply Forall_impl; [exact Hb|]. intros [a k] Hd. unfold disjoint_blocks in *.
  cbn [fst snd] in *. lia.
Qed.

Lemma cstr_image m m' a l : cstr m a l -> keeps_image m m' -> kept_at a (length l + 1) -> cstr m' a l.
Proof. intros H Hm Hk. apply (cstr_same m); [done|]. intros i Hi. apply Hm. by eapply kept_part. Qed.

Lemma agree_part m m' b n i k :
  (b, n) ∈ later_writes -> 0 <= b -> b + n <= 4294967296 -> 0 <= i -> i + k <= n ->
  (forall c, 0 <= c < 4294967296 -> c < b + i \/ b + i + k <= c -> ld8 m' c = ld8 m c) -> agree_outside later_writes m m'.
Proof.
  intros Hin Hb Hn Hi Hk H c Hc Hl. rewrite Forall_forall in Hl. specialize (Hl _ Hin). cbn [fst snd] in Hl.
  apply H; [done|lia].
Qed.

Lemma agree_st32 m b n i v :
  (b, n) ∈ later_writes -> 0 <= b -> b + n <= 4294967296 -> 0 <= i -> i + 4 <= n ->
  agree_outside later_writes m (st32 m (b + i) v).
Proof.
  intros Hin Hb Hn Hi Hk. apply (agree_part _ _ b n i 4); [done..|]. intros c Hc Ho. apply ld8_st32_ne.
  intros j Hj. rewrite !u32_small by lia. lia.
Qed.

Lemma agree_tss m m' s n :
  boot_ok s n -> frame2 tss_cpu0 108 (GDT_BASE + 48) 8 m m' -> agree_outside later_writes m m'.
Proof.
  intros H Hf c Hc Hl. destruct (bo_gdt _ _ H), (bo_tss _ _ H), (bo_end _ _ H).
  unfold later_writes in Hl. rewrite !Forall_cons in Hl. destruct Hl as (_ & _ & Hg & Ht & _). cbn [fst snd] in *.
  apply Hf; intros i Hi; rewrite !u32_small by lia; lia.
Qed.

Lemma agree_mapped (v v' : vmm pmm) a p f : page_mapped v v' a p f -> agree_outside later_writes (v_mem v) (v_mem v').
Proof.
  intros H c Hc Hl. unfold later_writes in Hl. rewrite !Forall_cons in Hl. destruct Hl as (Hb & _ & _ & _ & _ & Hw & _). cbn [fst snd] in *.
  apply (pm_low _ _ _ _ _ H); lia.
Qed.

Lemma agree_stack m s n func args :
  boot_ok s n -> agree_outside later_writes m (new_stack m thread_page 1 func args).
Proof.
  intros H. destruct (used_pages_range _ _ H) as (_ & Hp & Hq). destruct (bo_end _ _ H).
  unfold new_stack. rewrite Z.mul_1_l.
  assert (Hin : (thread_page, 4096) ∈ later_writes) by (unfold later_writes; do 4 right; by left).
  replace (thread_page + 4096 - 4) with (thread_page + 4092) by lia.
  replace (thread_page + 4096 - 8) with (thread_page + 4088) by lia.
  replace (thread_page + 4096 - 12) with (thread_page + 4084) by lia.
  eapply agree_trans; [eapply agree_trans|]; apply (agree_st32 _ thread_page 4096); (done || lia).
Qed.

Lemma new_stack_low m s n func args c :
  boot_ok s n -> 0 <= c < thread_page -> ld8 (new_stack m thread_page 1 func args) c = ld8 m c.
Proof.
  intros H Hc. destruct (used_pages_range _ _ H) as (_ & _ & Hq). unfold new_stack.
  by rewrite !ld8_st32_ne by (intros i Hi; rewrite !u32_small by lia; lia).
Qed.

Lemma shows_agree m m' x y t s n :
  boot_ok s n -> agree_outside later_writes m m' -> shows (Build_vga m x y) t -> shows (Build_vga m' x y) t.
Proof.
  intros H Ha [C X Y Q]. split; [|done..]. intros i Hi. rewrite <- C by done. unfold vcell, ld16. cbn [g_mem].
  destruct (used_pages_range _ _ H) as (_ & Hp & _). destruct (bo_end _ _ H).
  assert (E : forall c, video_memory <= c < video_memory + 4000 -> ld8 m' c = ld8 m c).
  { intros c Hc. unfold video_memory in *. destruct (bo_bitmap _ _ H), (bo_dir _ _ H), (bo_gdt _ _ H), (bo_tss _ _ H).
    apply Ha; [lia|]. repeat (apply Forall_cons; split; [cbn [fst snd]; lia|]). apply Forall_nil_2. }
  by rewrite !E by lia.
Qed.

(** *** The first thread *)

Lemma first_thread k F c s n :
  boot_ok s n -> vmm_ok (k_vmm k) -> pmm_frames (v_pages (k_vmm k)) F -> pmm_ready (v_pages (k_vmm k)) -> F <> [] ->
  (forall p, p ∈ free_set kern_pool (v_mem (k_vmm k)) <-> used_pages <= p < 261120) ->
  cur_tcb k = main_TCB -> threads_inv (tcbs k) main_TCB [] -> tcbs k !! main_TCB = Some c -> tcbs k !! thread_page = None ->
  exists k' t f F', create_kern_thread default_bitmap 1 func_addr 0 k = Ret k' tt t /\
    cur_tcb k' = main_TCB /\ threads_inv (tcbs k') main_TCB [thread_page] /\
    (exists u, tcbs k' !! thread_page = Some u /\ tid u = 1 /\ task_status u = TASK_READY /\
       esp (context u) = thread_page + 4084 /\ ld32 (v_mem (k_vmm k')) (thread_page + 4084) = u32 func_addr) /\
    vmm_ok (k_vmm k') /\ (forall p, p ∈ free_set kern_pool (v_mem (k_vmm k')) <-> used_pages + 1 <= p < 261120) /\
    F ≡ₚ f :: F' /\ pmm_frames (v_pages (k_vmm k')) F' /\ if_flag (regs k') = true /\
    agree_outside later_writes (v_mem (k_vmm k)) (v_mem (k_vmm k')) /\
    (forall n', ready_for (P := pmm) (1 + n') (v_pages (k_vmm k)) -> ready_for (P := pmm) n' (v_pages (k_vmm k'))) /\
    USER_PAGE_DIR_IS_LOADED (k_vmm k') = USER_PAGE_DIR_IS_LOADED (k_vmm k) /\
    (forall a, a <> main_TCB -> a <> thread_page -> tcbs k' !! a = tcbs k !! a) /\ esp (regs k') = esp (regs k).
Proof.
  intros H Hv HF Hrdy HFn Hpool Hcur Hinv Hc Hnew.
  destruct (used_pages_range _ _ H) as (Hu & Hp & Hq). destruct (bo_end _ _ H) as [He0 He1].
  destruct (kern_alloc_cases (PS := pmm_allocator_spec) (k_vmm k) F Hv HF Hrdy) as [(m & _ & _ & [Hempty| ->])|(v1 & p & f & F' & Hpin & Hmin & E & HF1 & HF' & Hmap)].
  - exfalso. assert (used_pages ∈ free_set kern_pool (v_mem (k_vmm k))) by (apply Hpool; lia).
    rewrite Hempty in *. by apply (not_elem_of_empty (C := gset Z) used_pages).
  - done.
  - assert (p = used_pages) as ->.
    { apply Hpool in Hpin. assert (p <= used_pages) by (apply Hmin, Hpool; lia). lia. }
    change (page_addr kern_pool used_pages) with thread_page in *.
    set (k1 := set_vmm v1 k).
    assert (Hfresh : fresh_pages k1 thread_page 1) by (split; [done|lia..]).
    assert (Hinv1 : threads_inv (tcbs k1) (cur_tcb k1) []) by (cbn [k1 tcbs cur_tcb set_vmm]; by rewrite Hcur).
    destruct (create_inv k1 [] 1 func_addr 0 thread_page 1 1 default_bitmap 0 Hinv1 Hfresh ltac:(done)) as (k' & t & E2 & Hi).
    pose proof E2 as E3. rewrite (create_thread_eq k1 1 func_addr 0 thread_page 1 1 default_bitmap 0 c) in E3;
      [|cbn [k1 tcbs cur_tcb set_vmm]; by rewrite Hcur|cbn [k1 cur_tcb set_vmm]; rewrite Hcur; intros Eq; rewrite Eq in Hnew; congruence|lia|lia|lia].
    exists k', ([Invlpg thread_page] ++ t), f, F'. split; [|].
    + unfold create_kern_thread. rewrite (bind_ret_eq _ _ _ _ _ _ (in_vmm_ret _ k _ _ _ E)).
      rewrite (proj2 (Z.eqb_neq thread_page KERN_VMM_ALLOC_ERRO)) by (unfold KERN_VMM_ALLOC_ERRO; lia).
      fold k1. by rewrite E2.
    + cbn [k1 k_vmm set_vmm] in E3. injection E3 as <- _. cbn [cur_tcb tcbs k_vmm regs set_vmm k1] in *.
      rewrite Hcur in *. pose proof (fun n' => asks_vmm_kern_alloc _ _ _ _ n' E) as Hask. clear E2 E.
      split; [done|]. split; [done|]. split; [|split; [|split; [|split; [done|split; [exact HF'|split; [apply if_flag_on|split; [|split; [exact Hask|split; [exact (pm_flag _ _ _ _ _ Hmap)|split; [|done]]]]]]]]]].
      * eexists. split; [by rewrite lookup_insert_eq|]. do 2 (split; [done|]).
        split; [cbn [context new_block esp with_esp]; lia|]. cbn [v_mem set_mem]. unfold new_stack.
        replace (thread_page + 4084) with (thread_page + 1 * 4096 - 12) by lia. apply ld32_st32_eq.
      * apply vmm_ok_mem, Hmap.
      * intros q. cbn [v_mem set_mem].
        rewrite (free_set_ext kern_pool _ (v_mem v1)); [rewrite (pm_pool _ _ _ _ _ Hmap), elem_of_difference, Hpool, elem_of_singleton; lia|].
        intros r Hr. unfold is_free. cbn [kern_pool vaddr_header]. destruct (bo_bitmap _ _ H).
        unfold pages in Hr. cbn [kern_pool bm_length] in Hr. by rewrite (new_stack_low _ s n) by (done || dlia).
      * eapply agree_trans; [by eapply agree_mapped|]. by eapply agree_stack.
      * intros a Ha1 Ha2. by rewrite lookup_insert_ne, lookup_alter_ne by done.
Qed.
End boot.
