(* ===== verification/EntryPmm.v ===== *)
(** * [pmm_init] on the machine

    The initialisation of the page allocator inside of the boot sequence: what it
    leaves of the allocator, as on its own state, and the lines it prints. *)

From S2P Require Import Prelude Memory CString StringThm KernLog Pmm PmmSpec PmmInv PmmAlloc PmmInit PmmSys PmmThm.
From S2P Require Import Tcb Vmm VmmThm KernPages Tss UserVm Threads ThreadsSys Port Vga Interrupt Sync Printk PrintkThm PrintkSys Machine Entry.

(** ** Lines of the boot sequence *)

(** Whether an argument is a number, or which string it is. *)
Definition shape (x : Prelude.parg) : option string := match x with PInt _ => None | Prelude.PStr s => Some s end.

Fixpoint takes_shapes (l : list Z) (k : list (option string)) : bool :=
  match l with
  | [] => true
  | c :: l' =>
      if c =? 37 then
        match l', k with
        | d :: l'', x :: k' =>
            (match x with Some _ => d =? 115 | None => (d =? 100) || (d =? 72) || (d =? 104) end) && takes_shapes l'' k'
        | _, _ => false
        end
      else takes_shapes l' k
  end.

Definition width_shape (x : option string) : nat := match x with Some s => length (c_bytes s) | None => 10%nat end.

Section boot.
Context {VL : VmmLayout} {TL : TssLayout} {CPU : Processor} {HL : ThreadLayout}.
Context {SL : StringLayout} {KL : PrintkLayout} {IL : IntrLayout} {EL : EntryLayout} {LL : Literals}.
Implicit Types (s : machine).

Lemma takes_shapes_sound l a : takes_shapes l (map shape a) = true -> takes l (map arg_of a).
Proof.
  enough (H : forall (n : nat) l a, (length l <= n)%nat -> takes_shapes l (map shape a) = true -> takes l (map arg_of a))
    by (by apply (H (length l))).
  induction n as [|n IH]; intros [|c l'] a' Hl H; try (by constructor); [cbn in Hl; lia|]. cbn [takes_shapes length] in *.
  destruct (Z.eqb_spec c 37) as [->|Hc]; [|apply tk_char; [done|]; apply IH; [lia|done]].
  destruct l' as [|d l']; [done|]. destruct a' as [|x a']; [done|]. cbn [map length] in *.
  apply andb_true_iff in H as [Hd H]. apply IH in H; [|lia]. destruct x as [v|str]; cbn [shape arg_of] in *.
  - destruct (Z.eqb_spec d 100) as [->|H1]; [by apply tk_dec|]. apply tk_hex; [|done]. cbn [orb] in Hd.
    apply orb_true_iff in Hd as [Hd|Hd]; apply Z.eqb_eq in Hd; auto.
  - apply Z.eqb_eq in Hd as ->. by apply tk_str.
Qed.

Lemma widths_shapes a : widths (map arg_of a) = sum_list_with width_shape (map shape a).
Proof. induction a as [|[v|str] a IH]; [done| |]; cbn [map]; rewrite widths_cons, IH; done. Qed.

(** The strings of a line are those of the boot sequence, and it fits. *)
Definition boot_line (f : string) (k : list (option string)) : bool :=
  bool_decide (f ∈ boot_literals) && forallb (fun x => match x with Some s => bool_decide (s ∈ boot_literals) | None => true end) k &&
  takes_shapes (c_bytes f) k && bool_decide (length (c_bytes f) + sum_list_with width_shape k <= 99)%nat.

(** The machine [s] in the course of the boot sequence of [s0]. *)
Record speaks s0 s (t : term) : Prop := {
  sp_mem : agree_outside boot_writes (m_mem s0) (m_mem s);
  sp_flag : printk_lock_init_flag (m_io s) = false;
  sp_shows : shows (io_vga (m_io s)) t
}.

Lemma console_boot b : b ∈ console_writes -> b ∈ boot_writes.
Proof. unfold console_writes, boot_writes. rewrite !elem_of_cons, !elem_of_app. tauto. Qed.

Lemma speaks_prints s0 s t l s' t' : speaks s0 s t -> prints l s t s' t' -> speaks s0 s' t'.
Proof.
  intros [H1 H2 H3] H. split.
  - eapply agree_trans; [exact H1|]. eapply agree_weaken; [exact console_boot|]. by eapply prints_agree.
  - by rewrite (prints_flag _ _ _ _ _ H).
  - by eapply prints_shows.
Qed.

Context (s0 : machine) (n : Z) (HB : boot_ok s0 n) (HS : strings_ok s0).

Lemma kept_away a k : kept_at a k -> away a k.
Proof. intros [_ H]. revert H. unfold boot_writes. rewrite Forall_cons, !Forall_app. tauto. Qed.

Lemma screen_away : away video_memory 4000.
Proof using HB.
  eapply Forall_impl; [apply (bo_buffers _ _ HB)|]. intros [b k] [H _]. unfold disjoint_blocks, video_memory. cbn [fst snd] in *. lia.
Qed.

Lemma console_after m : keeps_image (m_mem s0) m -> console_ok m.
Proof using HB HS.
  intros Hm. destruct HS as [L [H1 H2] A1 A2 _]. split; [done| |apply screen_away].
  split; (eapply cstr_image; [done|exact Hm|done]).
Qed.

Lemma line_after m f a k : keeps_image (m_mem s0) m -> map shape a = k -> boot_line f k = true -> line_ok m (f, a).
Proof using HS.
  intros Hm <- H. unfold boot_line in H. rewrite !andb_true_iff, !bool_decide_eq_true in H. destruct H as [[[Hf Ha] Ht] Hw].
  pose proof (so_strings _ HS) as Hl. rewrite Forall_forall in Hl.
  assert (L : forall l, l ∈ boot_literals -> cstr m (literal l) (c_bytes l) /\ away (literal l) (length (c_bytes l) + 1)).
  { intros l Hin. destruct (Hl l Hin) as [C K]. split; [by eapply cstr_image|by apply kept_away]. }
  split; cbn [fst snd].
  - by apply L.
  - by apply L.
  - by apply takes_shapes_sound.
  - clear Ht Hw. induction a as [|[v|str] a IH]; cbn [map forallb shape arg_of] in *; constructor; try done; auto.
    + apply andb_true_iff in Ha as [Ha _]. apply bool_decide_eq_true in Ha. by apply L.
    + apply andb_true_iff in Ha as [_ Ha]. auto.
  - by rewrite widths_shapes.
Qed.

(** One line. *)
Lemma boot_prints s t f a k :
  speaks s0 s t -> map shape a = k -> boot_line f k = true ->
  exists s' t' tr, print f a s = Ret s' tt tr /\ prints [(f, a)] s t s' t' /\ m_pages s' = m_pages s.
Proof using HB HS.
  intros H Hk Hl. pose proof (agree_image _ _ (bo_end _ _ HB) (sp_mem _ _ _ H)) as Hm.
  apply machine_print_step; [apply (sp_flag _ _ _ H)|by apply console_after|by eapply line_after|apply (sp_shows _ _ _ H)].
Qed.

(** ** The memory map *)

Lemma low_word s t a : speaks s0 s t -> 0 <= a -> a + 4 <= video_memory - 3221225472 -> ld32 (m_mem s) a = ld32 (m_mem s0) a.
Proof using HB.
  intros [Hm _ _] H0 H1. apply ld32_ext. intros b Hb. unfold video_memory in *. apply Hm; [lia|].
  assert (I : forall x k, in_image x k -> b < x \/ x + k <= b) by (unfold in_image; intros; lia).
  destruct (bo_end _ _ HB), (bo_dir _ _ HB). unfold boot_writes, later_writes, video_memory, page_array_addr.
  cbn [app]. rewrite !Forall_cons, Forall_app, !Forall_cons, Forall_nil. cbn [fst snd].
  assert (thread_page >= 3221225472) by (unfold thread_page, used_pages; dlia).
  repeat split; try lia; try apply I; try apply HB.
  eapply Forall_impl; [apply (bo_buffers _ _ HB)|]. intros [x k]. apply I.
Qed.

Lemma max_pm_loop_prints fuel cur k acc s t :
  0 <= k -> (Z.to_nat k < fuel)%nat -> 0 <= acc -> 0 <= cur -> cur + 24 * k <= video_memory - 3221225472 -> speaks s0 s t ->
  exists s' t' tr, max_pm_loop fuel cur (cur + 24 * k) acc s =
      Ret s' (foldl Z.max acc (map (fun i => usable_top (m_mem s0) (cur + 24 * i)) (seqZ 0 k))) tr /\
    prints (map (fun i => region_line (m_mem s0) (cur + 24 * i)) (seqZ 0 k)) s t s' t' /\ m_pages s' = m_pages s.
Proof using HB HS.
  revert cur k acc s t. induction fuel as [|fuel IH]; intros cur k acc s t Hk Hf Hacc Hc Hb Hs; [lia|].
  cbn [max_pm_loop]. destruct (decide (k = 0)) as [->|Hne].
  - rewrite (proj2 (Z.ltb_ge _ _)) by lia. exists s, t, []. split; [done|]. split; [|done].
    pose proof (prints_pages s t (m_pages s) (sp_shows _ _ _ Hs)) as P. replace (set_m_pages (m_pages s) s) with s in P; [exact P|].
    by destruct s as [[[[[]]]]].
  - rewrite (proj2 (Z.ltb_lt _ _)) by lia.
    pose proof (fun a => low_word s t a Hs) as W. set (m := m_mem s0) in *.
    assert (R : forall (a : Z) {B} (c : Z -> M machine B), 0 <= a -> a + 4 <= video_memory - 3221225472 ->
      bind (within (load32 a)) c s = c (ld32 m a) s).
    { intros a B c H0 H1. rewrite (bind_ret_eq _ _ _ s (ld32 m a) []); [apply prepend_nil|]. apply machine_reads.
      unfold load32, gets. by rewrite W. }
    rewrite !R by lia. clear R W. cbv zeta.
    set (top := u32 (ld32 m (cur + 4) + ld32 m (cur + 12))).
    destruct (boot_prints s t (region_line m cur).1 (region_line m cur).2 [None; None; None; None] Hs eq_refl) as (s1 & t1 & tr1 & E1 & P1 & G1);
      [by vm_compute|].
    cbn [region_line fst snd] in E1. fold top in E1. rewrite (bind_ret_eq _ _ _ _ _ _ E1). clear E1.
    set (acc' := if _ && _ then _ else acc).
    assert (E : acc' = Z.max acc (usable_top m cur)).
    { unfold acc', usable_top. fold top. pose proof (u32_range (ld32 m (cur + 4) + ld32 m (cur + 12))). fold top in H.
      destruct (ld32 m (cur + 20) =? 1); cbn [andb]; [|lia]. destruct (Z.ltb_spec acc top); lia. }
    destruct (IH (cur + 24) (k - 1) acc' s1 t1) as (s2 & t2 & tr2 & E2 & P2 & G2); [lia|lia|lia|lia|lia|by eapply speaks_prints|].
    replace (cur + 24 + 24 * (k - 1)) with (cur + 24 * k) in E2 by lia. unfold pm_entry_size. rewrite E2.
    exists s2, t2. eexists. cbn [prepend].
    assert (Q : forall {B} (g : Z -> B), map (fun i => g (cur + 24 + 24 * i)) (seqZ 0 (k - 1)) = map (fun i => g (cur + 24 * i)) (seqZ 1 (k - 1))).
    { intros B g. rewrite <- (fmap_add_seqZ 1 0). change (Z.add 1 <$> seqZ 0 (k - 1)) with (map (Z.add 1) (seqZ 0 (k - 1))). rewrite map_map.
      apply map_ext. intros i. f_equal. lia. }
    rewrite (seqZ_cons 0 k) by lia. cbn [map foldl]. rewrite Z.mul_0_r, Z.add_0_r, <- E. replace (Z.pred k) with (k - 1) by lia.
    rewrite Q in P2. rewrite Q. change (Z.succ 0) with 1. split; [done|]. split; [|congruence].
    exact (prints_trans [region_line m cur] _ s t s1 t1 s2 t2 P1 P2).
Qed.

(** ** [pmm_init] *)

(** The pages are those above the kernel. *)
Lemma ram_bounds :
  let top := ram_top (m_mem s0) mboot_ptr n in
  let mx := ram_pages (m_mem s0) mboot_ptr n in
  u32 (Z.shiftl (Z.shiftr kern_end 12 + 1) 12) = 4096 * (kern_end / 4096 + 1) /\
  Z.shiftl (Z.shiftr top 12) 12 = 4096 * (top / 4096) /\
  Z.shiftr (u32 (4096 * (top / 4096) - 4096 * (kern_end / 4096 + 1))) 12 = mx /\ 2048 <= mx <= 54592.
Proof using HB.
  intros top mx. pose proof (ram_top_range (m_mem s0) mboot_ptr n) as Ht. fold top in Ht. pose proof (bo_ram _ _ HB) as Hr.
  pose proof (proj1 (fits_pages _) (bo_fits _ _ HB)) as Hx. fold mx in Hr, Hx. destruct (bo_end _ _ HB) as [He0 He1].
  assert (Emx : mx = top / 4096 - kern_end / 4096 - 1) by done. clearbody mx top.
  rewrite !Z.shiftr_div_pow2, !Z.shiftl_mul_pow2 by lia. change (2 ^ 12) with 4096.
  assert (0 <= kern_end / 4096 /\ kern_end / 4096 + 2049 <= top / 4096 < 1048576) as [Hk0 Hk] by dlia.
  split; [rewrite u32_small; lia|]. split; [lia|]. split; [|lia]. rewrite u32_small by lia.
  replace (4096 * (top / 4096) - 4096 * (kern_end / 4096 + 1)) with (mx * 4096) by lia. by apply Z.div_mul.
Qed.

(** What initialisation leaves, for the memory manager. *)
Lemma initialised_ready p p' ls :
  initialised p p' ls -> pmm_page_start p `mod` 4096 = 0 ->
  pmm_frames p' (frames_of p' ls) /\ pmm_ready p' /\ Z.of_nat (length (frames_of p' ls)) = pmm_max_page_no p /\
  pmm_max_page_no p - singel_page_first_no p' = single_pages (pmm_max_page_no p) /\
  forall k : nat, k <= single_pages (pmm_max_page_no p) -> ready_for (P := pmm) k p'.
Proof.
  intros [H Hc Hm Hst H11 Hf H0 Hd Hlt Hls] Hs.
  assert (Hsp : pmm_max_page_no p - singel_page_first_no p' = single_pages (pmm_max_page_no p)).
  { unfold single_pages. case_decide; dlia. }
  split; [|split; [|split; [|split; [done|]]]].
  - exists ls. split; [done|]. split; [by rewrite Hst|done].
  - apply (pmm_ready_class0 p' ls H). by rewrite Hls by lia.
  - unfold frames_of. apply Permutation_length in Hc. rewrite length_map, Hc, length_seqZ. lia.
  - intros k Hk. apply (single_pages_ready k p' ls H). rewrite H11, length_seqZ. lia.
Qed.

(** The search for the highest usable address. *)
Lemma get_max_prints s t :
  speaks s0 s t ->
  exists s' t' tr, get_max_pm_addr mboot_ptr s = Ret s' (ram_top (m_mem s0) mboot_ptr n) tr /\
    prints (region_lines (m_mem s0) mboot_ptr n) s t s' t' /\ m_pages s' = m_pages s.
Proof using HB HS.
  intros Hs. destruct (bo_entries _ _ HB) as [Hn Hl]. destruct (bo_mboot _ _ HB) as [Hb0 Hb1]. pose proof (bo_map _ _ HB) as Hm.
  unfold get_max_pm_addr, mb_mmap_addr, mb_mmap_length. pose proof (ld32_range (m_mem s0) (mboot_ptr + 48)) as Hr.
  rewrite (bind_ret_eq _ _ _ s (ld32 (m_mem s0) (mboot_ptr + 48)) [])
    by (apply machine_reads; unfold load32, gets; by rewrite (low_word s t) by (done || lia)).
  rewrite (bind_ret_eq _ _ _ s (24 * n) [])
    by (apply machine_reads; unfold load32, gets; rewrite (low_word s t) by (done || lia); by rewrite Hl).
  rewrite !prepend_nil. rewrite u32_small by (unfold video_memory in *; lia). unfold pm_entry_size.
  replace (24 * n / 24) with n by (rewrite Z.mul_comm, Z.div_mul; lia).
  apply max_pm_loop_prints; [lia|lia|lia|lia|exact Hm|exact Hs].
Qed.

(** A step of the page allocator between two lines. *)
Lemma pages_step {A} (c : M pmm A) s t p (a : A) :
  speaks s0 s t -> c (m_pages s) = Ret p a [] ->
  exists s', within c s = Ret s' a [] /\ prints [] s t s' t /\ m_pages s' = p.
Proof.
  intros Hs E. exists (set_m_pages p s). split; [exact (in_pages_ret _ _ _ _ _ E)|]. split; [|by destruct s as [[[[[]]]]]].
  apply prints_pages, Hs.
Qed.

Lemma page_init_prints s t :
  speaks s0 s t -> 2048 <= pmm_max_page_no (m_pages s) <= 1048576 -> page_array (m_pages s) = ∅ -> SINGLE_LINK (m_pages s) = None ->
  exists s' t' tr ls, pmm_page_init s = Ret s' tt tr /\ initialised (m_pages s) (m_pages s') ls /\
    prints [("[INFO][PMM]single_page_count:%d\n", [PInt (pmm_max_page_no (m_pages s) - singel_page_first_no (m_pages s'))])] s t s' t'.
Proof using HB HS.
  intros Hs Hm Ha Hl. destruct (page_init_parts (m_pages s) Hm Ha Hl) as (p1 & f & p2 & ls & E1 & M1 & E2 & Ef & HI).
  destruct (pages_step fill_lists s t p1 f Hs E1) as (s1 & R1 & P1 & G1). pose proof (speaks_prints _ _ _ _ _ _ Hs P1) as S1.
  destruct (pages_step (gets pmm_max_page_no) s1 t p1 (pmm_max_page_no (m_pages s)) S1) as (s2 & R2 & P2 & G2); [unfold gets; by rewrite G1, M1|].
  pose proof (speaks_prints _ _ _ _ _ _ S1 P2) as S2.
  destruct (boot_prints s2 t "[INFO][PMM]single_page_count:%d\n" [PInt (u32 (pmm_max_page_no (m_pages s) - f))] [None] S2 eq_refl)
    as (s3 & t3 & tr3 & R3 & P3 & G3); [by vm_compute|]. pose proof (speaks_prints _ _ _ _ _ _ S2 P3) as S3.
  destruct (pages_step (single_loop (S (Z.to_nat (pmm_max_page_no (m_pages s)))) f None) s3 t3 p2 tt S3) as (s4 & R4 & P4 & G4);
    [by rewrite G3, G2|].
  exists s4, t3. eexists _, ls. rewrite G4. split; [|split; [done|]].
  - unfold pmm_page_init. rewrite (bind_ret_eq _ _ _ _ _ _ R1), (bind_ret_eq _ _ _ _ _ _ R2), (bind_ret_eq _ _ _ _ _ _ R3), R4. reflexivity.
  - rewrite Ef. pose proof (in_rest _ _ _ HI) as Hd. rewrite Ef in Hd. rewrite u32_small in P3 by lia.
    exact (prints_trans [] _ _ _ _ _ _ _ P1 (prints_trans [] _ _ _ _ _ _ _ P2 (prints_trans _ [] _ _ _ _ _ _ P3 P4))).
Qed.

(** The initialisation of the page allocator. *)
Lemma pmm_init_prints s t :
  speaks s0 s t -> page_array (m_pages s) = ∅ -> SINGLE_LINK (m_pages s) = None ->
  exists s' t' tr F, pmm_init kern_start kern_end mboot_ptr s = Ret s' tt tr /\
    prints (pmm_lines (m_mem s0) kern_start mboot_ptr n) s t s' t' /\
    pmm_frames (m_pages s') F /\ pmm_ready (m_pages s') /\ Z.of_nat (length F) = ram_pages (m_mem s0) mboot_ptr n /\
    forall k : nat, k <= single_pages (ram_pages (m_mem s0) mboot_ptr n) -> ready_for (P := pmm) k (m_pages s').
Proof using HB HS.
  intros Hs Ha Hl. destruct ram_bounds as (Est & Een & Emx & Hmx). set (mx := ram_pages _ _ _) in *.
  set (st := 4096 * (kern_end / 4096 + 1)) in *. set (en := 4096 * (ram_top _ _ _ / 4096)) in *.
  assert (Hst : st `mod` 4096 = 0) by (unfold st; rewrite Z.mul_comm; apply Z.mod_mul; lia).
  destruct (boot_prints s t "[INFO][PMM]kern_physic_start:0x%h\n" [PInt kern_start] [None] Hs eq_refl) as (s1 & t1 & tr1 & R1 & P1 & G1); [by vm_compute|].
  pose proof (speaks_prints _ _ _ _ _ _ Hs P1) as S1.
  destruct (boot_prints s1 t1 "[INFO][PMM]kern_physic_end:0x%h\n" [PInt kern_end] [None] S1 eq_refl) as (s2 & t2 & tr2 & R2 & P2 & G2); [by vm_compute|].
  pose proof (speaks_prints _ _ _ _ _ _ S1 P2) as S2.
  destruct (get_max_prints s2 t2 S2) as (s3 & t3 & tr3 & R3 & P3 & G3). pose proof (speaks_prints _ _ _ _ _ _ S2 P3) as S3.
  set (p0 := set_bounds st en mx (m_pages s3)).
  destruct (pages_step (modify (set_bounds st en mx)) s3 t3 p0 tt S3) as (s4 & R4 & P4 & G4); [done|].
  pose proof (speaks_prints _ _ _ _ _ _ S3 P4) as S4.
  destruct (boot_prints s4 t3 "[INFO][PMM]pmm_start:0x%h\n" [PInt st] [None] S4 eq_refl) as (s5 & t5 & tr5 & R5 & P5 & G5); [by vm_compute|].
  pose proof (speaks_prints _ _ _ _ _ _ S4 P5) as S5.
  destruct (boot_prints s5 t5 "[INFO][PMM]pmm_end:0x%h\n" [PInt en] [None] S5 eq_refl) as (s6 & t6 & tr6 & R6 & P6 & G6); [by vm_compute|].
  pose proof (speaks_prints _ _ _ _ _ _ S5 P6) as S6.
  destruct (boot_prints s6 t6 "[INFO][PMM]physic_page_count:%d\n" [PInt (mx + 1)] [None] S6 eq_refl) as (s7 & t7 & tr7 & R7 & P7 & G7); [by vm_compute|].
  pose proof (speaks_prints _ _ _ _ _ _ S6 P7) as S7.
  destruct (boot_prints s7 t7 "[INFO][PMM]first_page_physic_addr:0x%h\n" [PInt (pmm_page_no_to_addr st 32000)] [None] S7 eq_refl)
    as (s8 & t8 & tr8 & R8 & P8 & G8); [by vm_compute|].
  pose proof (speaks_prints _ _ _ _ _ _ S7 P8) as S8.
  assert (G : m_pages s8 = p0) by (rewrite G8, G7, G6, G5; exact G4).
  assert (Eg : m_pages s3 = m_pages s) by congruence.
  destruct (page_init_prints s8 t8 S8) as (s9 & t9 & tr9 & ls & R9 & HI & P9);
    [rewrite G; cbn [p0 set_bounds pmm_max_page_no]; lia|by rewrite G; cbn [p0 set_bounds page_array]; rewrite Eg|
     by rewrite G; cbn [p0 set_bounds SINGLE_LINK]; rewrite Eg|].
  rewrite G in HI, P9. destruct (initialised_ready _ _ _ HI Hst) as (F1 & F2 & F3 & F4 & F5).
  cbn [p0 set_bounds pmm_max_page_no] in F3, F4, F5, P9. rewrite F4 in P9.
  exists s9, t9. eexists _, _. split; [|split; [|split; [exact F1|split; [exact F2|split; [exact F3|exact F5]]]]].
  - unfold pmm_init. rewrite (bind_ret_eq _ _ _ _ _ _ R1), (bind_ret_eq _ _ _ _ _ _ R2). cbv zeta.
    rewrite (bind_ret_eq _ _ _ _ _ _ R3), Est, Een. fold en. rewrite Emx, (bind_ret_eq _ _ _ _ _ _ R4), (bind_ret_eq _ _ _ _ _ _ R5), (bind_ret_eq _ _ _ _ _ _ R6).
    rewrite (u32_small (mx + 1)) by lia. rewrite (bind_ret_eq _ _ _ _ _ _ R7), (bind_ret_eq _ _ _ _ _ _ R8), R9. reflexivity.
  - refine (prints_trans [_] (_ :: _) _ _ _ _ _ _ P1 (prints_trans [_] _ _ _ _ _ _ _ P2 (prints_trans _ _ _ _ _ _ _ _ P3 _))).
    refine (prints_trans [] (_ :: _) _ _ _ _ _ _ P4 (prints_trans [_] (_ :: _) _ _ _ _ _ _ P5 (prints_trans [_] (_ :: _) _ _ _ _ _ _ P6 _))).
    exact (prints_trans [_] (_ :: _) _ _ _ _ _ _ P7 (prints_trans [_] [_] _ _ _ _ _ _ P8 P9)).
Qed.
End boot.
