(* ===== verification/EntryThm.v ===== *)
(** * What the boot sequence establishes

    From the machine boot.s leaves, [kern_entry] reaches its endless loop; on
    the way it makes a state from which the theorems about the threads, the
    semaphores and locks, the page pools and the interrupts hold. *)

From S2P Require Import Prelude Memory CString StringThm Bitmap KernLog Pmm PmmSpec PmmInv PmmAlloc PmmInit PmmSys PmmThm PageTable.
From S2P Require Import Tcb Vmm VmmThm KernPages Tss UserVm Threads Ring ThreadsThm ThreadsInv ThreadsSys ThreadsView.
From S2P Require Import Port Vga Interrupt InterruptThm Sync SyncThm SemInv SyncCore SyncSys SyncProp Printk PrintkThm PrintkSys.
From S2P Require Import Machine Entry EntryPmm.

Section boot.
Context {VL : VmmLayout} {TL : TssLayout} {CPU : Processor} {CS : ProcessorSpec CPU} {HL : ThreadLayout}.
Context {SL : StringLayout} {KL : PrintkLayout} {IL : IntrLayout} {EL : EntryLayout} {LL : Literals}.
Implicit Types (s : machine).


(** [vmm_init] does not touch the flag of the user directory. *)
Lemma keeps_on_mem {A} (c : M mem A) : preserves USER_PAGE_DIR_IS_LOADED (on_mem (P := pmm) c).
Proof. intros v v' a t. unfold on_mem, zoom. destruct (c (v_mem v)); try done. by intros [= <- _ _]. Qed.
Lemma keeps_vmm_init : preserves USER_PAGE_DIR_IS_LOADED (vmm_init (P := pmm)).
Proof.
  unfold vmm_init, vmm_kern_init, error_kern. cbv zeta. do 3 (apply preserves_bind; [auto using keeps_on_mem with keeps_part|intros ?]).
  apply preserves_if; [|apply preserves_bind; auto using keeps_on_mem]. apply preserves_bind; [auto with keeps_part|]. by intros ? ?.
Qed.

(** ** The sequence *)

Lemma then_step {S A} (c : M S A) (k : A -> M S unit) x y a t1 (Q : S -> Prop) :
  c x = Ret y a t1 -> (exists z t, k a y = Ret z tt t /\ Q z) -> exists z t, bind c k x = Ret z tt t /\ Q z.
Proof. intros E (z & t & E2 & H). exists z, (t1 ++ t). split; [|done]. unfold bind. by rewrite E, E2. Qed.

Definition boot_sems : gmap Z sem_t :=
  <[sem := {| sem_val := 2; sem_head := None |}]> (<[lock_sem lock := {| sem_val := 1; sem_head := None |}]>
    (<[lock_sem printk_lock := {| sem_val := 1; sem_head := None |}]> ∅)).

Lemma boot_starts (k : kern pmm) (nd : gmap Z sync_tool_sem_queue_node_t) hd s n :
  boot_ok s n -> threads_wf k ->
  sys_start {[ printk_lock; lock ]}
    (Build_sys (Build_sync k boot_sems nd (<[lock := 0]> (<[printk_lock := 0]> hd))) ∅).
Proof.
  intros H Hk. pose proof (bo_locks _ _ H) as Hl. rewrite !NoDup_cons in Hl. destruct Hl as (L1 & L2 & _).
  assert (lock_sem printk_lock <> lock_sem lock /\ lock_sem printk_lock <> sem /\ lock_sem lock <> sem) as (D1 & D2 & D3)
    by set_solver.
  assert (printk_lock <> lock) by congruence. split; cbn [sy pend sems holders]; [done|done| |].
  - intros a x. unfold boot_sems. rewrite !lookup_insert_Some, lookup_empty.
    intros [[_ <-]|[_ [[_ <-]|[_ [[_ <-]|[_ ?]]]]]]; done.
  - intros l Hin. unfold boot_sems. apply elem_of_union in Hin as [->%elem_of_singleton| ->%elem_of_singleton].
    + by rewrite lookup_insert_ne, lookup_insert_eq, !lookup_insert_ne, lookup_insert_eq by done.
    + by rewrite !lookup_insert_eq, lookup_insert_ne, lookup_insert_eq by done.
Qed.

(** The machine of its parts. *)
Definition mk (k : kern pmm) sm nd hd x y lf i : machine := Build_machine (Build_io (Build_sync k sm nd hd) x y lf) i.

Lemma vga_step v tc cur r e sm nd hd x y lf i m' x' y' t :
  vga_init (Build_vga (v_mem v) x y) = Ret (Build_vga m' x' y') tt t ->
  in_io (in_vga vga_init) (mk (Build_kern v tc cur r e) sm nd hd x y lf i) =
    Ret (mk (Build_kern (set_mem m' v) tc cur r e) sm nd hd x' y' lf i) tt t.
Proof.
  intros E. set (y0 := Build_io (Build_sync (Build_kern v tc cur r e) sm nd hd) x y lf).
  change (Build_vga (v_mem v) x y) with (io_vga y0) in E. apply (in_io_ret _ (Build_machine y0 i)). cbn [m_io].
  rewrite (in_vga_ret _ _ _ _ _ E). reflexivity.
Qed.

Section steps.
Context (sm : gmap Z sem_t) (nd : gmap Z sync_tool_sem_queue_node_t) (hd : gmap Z Z) (x y : Z) (lf : bool) (i : intr).

Lemma threads_step {A} (c : M (kern pmm) A) k k' a t :
  c k = Ret k' a t -> in_threads c (mk k sm nd hd x y lf i) = Ret (mk k' sm nd hd x y lf i) a t.
Proof. intros E. by rewrite (in_threads_ret c (mk k sm nd hd x y lf i) k' a t E). Qed.

Lemma vmm_step {A} (c : M (vmm pmm) A) v tc cur r e v' a t :
  c v = Ret v' a t ->
  in_threads (in_vmm c) (mk (Build_kern v tc cur r e) sm nd hd x y lf i) =
    Ret (mk (Build_kern v' tc cur r e) sm nd hd x y lf i) a t.
Proof. intros E. apply threads_step. by rewrite (in_vmm_ret c (Build_kern v tc cur r e) v' a t E). Qed.

Lemma intr_step {A} (c : M intr A) k i' a t :
  c i = Ret i' a t -> in_intr c (mk k sm nd hd x y lf i) = Ret (mk k sm nd hd x y lf i') a t.
Proof. intros E. by rewrite (in_intr_ret c (mk k sm nd hd x y lf i) i' a t E). Qed.

Lemma sync_step {A} (c : M (sync pmm) A) k k' sm' nd' hd' a t :
  c (Build_sync k sm nd hd) = Ret (Build_sync k' sm' nd' hd') a t ->
  in_io (in_sync c) (mk k sm nd hd x y lf i) = Ret (mk k' sm' nd' hd' x y lf i) a t.
Proof.
  intros E. rewrite (in_io_ret _ (mk k sm nd hd x y lf i) (Build_io (Build_sync k' sm' nd' hd') x y lf) a t); [done|].
  cbn [m_io mk]. by rewrite (in_sync_ret c (Build_io (Build_sync k sm nd hd) x y lf) _ a t E).
Qed.

Lemma printk_lock_step k :
  in_io printk_init_lock (mk k sm nd hd x y lf i) =
    Ret (mk k (<[lock_sem printk_lock := {| sem_val := 1; sem_head := None |}]> sm) nd (<[printk_lock := 0]> hd) x y true i) tt [].
Proof.
  apply (in_io_ret _ (mk k sm nd hd x y lf i)). cbn [m_io mk]. unfold printk_init_lock.
  by rewrite (bind_ret_eq _ _ _ _ _ _ (in_sync_ret _ (Build_io (Build_sync k sm nd hd) x y lf) _ _ _ (lock_init_eq printk_lock _))).
Qed.
End steps.

Lemma agree_pre_init m s n :
  boot_ok s n -> agree_outside later_writes m (st32 m (kern_dir_table_paddr + 3221225472) 0).
Proof.
  intros H. destruct (bo_dir _ _ H), (bo_end _ _ H). rewrite <- (Z.add_0_r (kern_dir_table_paddr + 3221225472)).
  apply (agree_st32 _ _ 4); [right; by left|lia..].
Qed.

Lemma tss_keeps_pool m m' s n :
  boot_ok s n -> frame2 tss_cpu0 108 (GDT_BASE + 48) 8 m m' -> free_set kern_pool m' = free_set kern_pool m.
Proof.
  intros H Hf. apply free_set_ext. intros p Hp. unfold is_free, pages in *. cbn [kern_pool vaddr_header bm_length] in *.
  pose proof (bo_bitmap_gdt _ _ H). pose proof (bo_bitmap_tss _ _ H). unfold disjoint_blocks in *.
  destruct (bo_bitmap _ _ H), (bo_gdt _ _ H), (bo_tss _ _ H), (bo_end _ _ H).
  rewrite Hf; [done| |]; intros i Hi; rewrite !u32_small by dlia; dlia.
Qed.

(** Printing does not write the bits of the kernel's pages. *)
Lemma console_keeps_pool m m' s n :
  boot_ok s n -> agree_outside console_writes m m' -> free_set kern_pool m' = free_set kern_pool m.
Proof.
  intros H Ha. apply free_set_ext. intros p Hp. unfold is_free, pages in *. cbn [kern_pool vaddr_header bm_length] in *.
  destruct (bo_bitmap _ _ H), (bo_end _ _ H). pose proof (bo_buffers_apart _ _ H) as Hb. apply Forall_cons in Hb as [Hb _]. cbn [fst snd] in Hb.
  rewrite Ha; [done|dlia|]. apply Forall_cons. split; [unfold video_memory; cbn [fst snd]; dlia|].
  eapply Forall_impl; [exact Hb|]. intros [b k] Hd. unfold disjoint_blocks in Hd. cbn [fst snd] in *. dlia.
Qed.

Lemma later_boot b : b ∈ later_writes -> b ∈ boot_writes.
Proof. unfold boot_writes. rewrite elem_of_cons, elem_of_app. tauto. Qed.

(** The last line before the lock: that of [tss_init]. *)
Definition tss_line : line := ("[INFO][%s]%s\n", [PStr "TSS"; PStr "Init TSS Success!"]).

Lemma tss_init_prints s0 n s s1 t tr :
  boot_ok s0 n -> strings_ok s0 -> within tss_load s = Ret s1 true tr -> speaks s0 s1 t ->
  exists s' t' tr', tss_init s = Ret s' tt tr' /\ prints [tss_line] s1 t s' t' /\ m_pages s' = m_pages s1.
Proof.
  intros H Hs E Hp. destruct (boot_prints s0 n H Hs s1 t tss_line.1 tss_line.2 [Some "TSS"; Some "Init TSS Success!"] Hp eq_refl)
    as (s2 & t2 & tr2 & E2 & P2 & G2); [by vm_compute|].
  exists s2, t2. eexists. split; [|split; [exact P2|exact G2]]. unfold tss_init. rewrite (bind_ret_eq _ _ _ _ _ _ E).
  change (info_kern LOG_SRC_TSS "Init TSS Success!" s1) with (print (Console := machine_console) tss_line.1 tss_line.2 s1). by rewrite E2.
Qed.

(** The boot sequence, from a machine as boot.s leaves it, returns. *)
Lemma kern_start_up_runs s n :
  boot_ok s n -> strings_ok s -> exists s' t, kern_start_up s = Ret s' tt t /\ kernel_up s s' n.
Proof.
  intros H HS. pose proof (used_pages_range _ _ H) as (Hu & Hp & Hq). pose proof (bo_end _ _ H) as [He0 He1].
  destruct s as [[[[[m0 p0 pool0 fl] tc cur r e] sm nd hd] x y lf] i].
  set (v0 := Build_vmm m0 p0 pool0 fl) in *.
  change (Build_machine _ i) with (mk (Build_kern v0 tc cur r e) sm nd hd x y lf i) in *.
  destruct (clear_screen_blank (Build_vga m0 x y)) as ([m1 x1 y1] & t1 & E1 & S1 & K1). cbn [g_mem] in K1.
  unfold kern_start_up. eapply then_step; [eapply vga_step; exact E1|].
  destruct (bo_pages _ _ H) as [Hpa Hps]. pose proof (bo_flag _ _ H) as Hlf. pose proof (bo_fits _ _ H) as Hfit%fits_pages.
  pose proof (bo_ram _ _ H) as Hram.
  set (s0 := mk (Build_kern v0 tc cur r e) sm nd hd x y lf i) in *. change (printk_lock_init_flag _) with lf in Hlf. subst lf.
  set (sa := mk (Build_kern (set_mem m1 v0) tc cur r e) sm nd hd x1 y1 false i).
  assert (Ka : agree_outside boot_writes m0 m1).
  { intros c Hc Hl. apply Forall_cons in Hl as [Hv _]. by apply K1. }
  assert (Sa : speaks s0 sa (Build_term (fun _ => blank) 0)) by (by split).
  destruct (pmm_init_prints s0 n H HS sa _ Sa Hpa Hps) as (sb & tb & t2 & F & E2 & P2 & HF & Hrdy & HFl & Hsp).
  eapply then_step; [exact E2|]. pose proof (speaks_prints _ _ _ _ _ _ Sa P2) as Sb. clear E2.
  destruct P2 as ([mg xg yg] & out1 & Eb & O1 & -> & Sh1 & Ag1). set (p1 := m_pages sb) in *. clearbody p1. subst sb.
  change (set_m_vga _ _) with (mk (Build_kern (Build_vmm mg p1 pool0 fl) tc cur r e) sm nd hd xg yg false i) in *.
  cbn [g_mem] in Ag1. change (m_mem sa) with m1 in Ag1.
  eapply then_step; [eapply vmm_step; exact (vmm_pre_init_eq _ _ _ H)|].
  set (m2 := st32 mg (kern_dir_table_paddr + 3221225472) 0). destruct (bo_bitmap _ _ H) as [Hk0 Hk1].
  set (v2 := Build_vmm m2 p1 pool0 fl).
  change (set_mem _ (set_pages p1 _)) with v2.
  pose proof (vmm_init_cases (L := VL) v2 ltac:(lia) ltac:(lia) ltac:(lia) ltac:(lia)) as Hinit. cbv zeta in Hinit.
  rewrite decide_True in Hinit by (fold used_pages; lia). destruct Hinit as (v3 & E3 & V3 & P3 & Hpool & Fr3).
  eapply then_step; [eapply vmm_step; exact E3|].
  eapply then_step; [eapply intr_step; exact (idt_init_eq i)|].
  assert (HT : tss_layout_ok TL).
  { destruct (bo_gdt _ _ H), (bo_tss _ _ H). split; unfold region; [lia|lia|apply (bo_gdt_tss _ _ H)]. }
  destruct (tss_load_spec (v_mem v3) HT) as (m3 & E4 & _ & _ & _ & _ & _ & Fr4).
  assert (A12 : agree_outside later_writes mg m2) by (by eapply agree_pre_init).
  assert (A23 : agree_outside later_writes m2 (v_mem v3)) by (eapply (agree_frame _ kern_bitmap 32768); [by left|lia|lia|exact Fr3]).
  assert (A34 : agree_outside later_writes (v_mem v3) m3) by (by eapply agree_tss).
  assert (A14 : agree_outside later_writes mg m3) by (eapply agree_trans; [exact A12|]; by eapply agree_trans).
  set (sc := mk (Build_kern (set_mem m3 v3) tc cur r e) sm nd hd xg yg false (idt_tables i)).
  assert (Sc : speaks s0 sc (term_text black white out1 (Build_term (fun _ => blank) 0))).
  { split; [|done|exact (shows_agree mg m3 xg yg _ s0 n H A14 Sh1)].
    eapply agree_trans; [exact (sp_mem _ _ _ Sb)|]. exact (agree_weaken _ _ _ _ later_boot A14). }
  assert (Et : within tss_load (mk (Build_kern v3 tc cur r e) sm nd hd xg yg false (idt_tables i)) = Ret sc true [Lgdt; Ltr 48])
    by (apply vmm_step; exact (on_mem_ret _ _ _ _ _ E4)).
  destruct (tss_init_prints s0 n _ sc _ _ H HS Et Sc)
    as (sd & td & t4 & E5 & P5 & G5).
  eapply then_step; [exact E5|]. clear E5 E4. destruct P5 as ([m4 xh yh] & out2 & Ed & O2 & -> & Sh2 & Ag2). rewrite G5 in Ed. subst sd.
  set (v4 := set_mem m4 (set_pages (m_pages sc) (set_mem m3 v3))).
  change (set_m_vga _ _) with (mk (Build_kern v4 tc cur r e) sm nd hd xh yh false (idt_tables i)).
  cbn [g_mem] in Ag2. change (m_mem sc) with m3 in Ag2.
  set (tc5 := <[main_TCB := main_fields main_TCB (default (raw_TCB main_TCB) (tc !! main_TCB))]> tc).
  eapply then_step; [eapply (threads_step _ _ _ _ _ _ _ threads_init _ (Build_kern v4 tc5 main_TCB r e)); reflexivity|].
  eapply then_step; [apply printk_lock_step|].
  eapply then_step; [eapply (intr_step _ _ _ _ _ _ _ keyboard_init _ (init_tables i)); reflexivity|].
  eapply then_step; [eapply threads_step; apply sti_eq|].
  eapply then_step; [eapply sync_step; apply lock_init_eq|].
  eapply then_step; [eapply sync_step; apply sem_init_eq|].
  set (k6 := set_regs _ _).
  assert (Hpool4 : forall p, p ∈ free_set kern_pool m4 <-> used_pages <= p < 261120).
  { intros p. rewrite (console_keeps_pool _ _ _ _ H Ag2), (tss_keeps_pool _ _ _ _ H Fr4). apply Hpool. }
  destruct (threads_init_inv (Build_kern v4 tc cur r e)) as (k5 & E5 & Hinv & _); [apply bo_main in H; lia|].
  injection E5 as <-. fold tc5 in Hinv. cbn [tcbs cur_tcb set_cur set_tcbs] in Hinv.
  pose proof (bo_main _ _ H) as [Hm0 Hm1]. assert (Ep4 : v_pages v4 = p1) by exact P3.
  destruct (first_thread k6 F (main_fields main_TCB (default (raw_TCB main_TCB) (tc !! main_TCB))) _ n H)
    as (k' & t' & f & F' & E6 & C6 & I6 & T6 & V6 & P6 & HF1 & HF6 & R6 & A6 & Q6 & L6 & O6 & X6).
  - by apply vmm_ok_mem, vmm_ok_pages, vmm_ok_mem.
  - change (pmm_frames (v_pages v4) F). by rewrite Ep4.
  - change (pmm_ready (v_pages v4)). by rewrite Ep4.
  - intros ->. cbn [length] in HFl. lia.
  - exact Hpool4.
  - done.
  - exact Hinv.
  - unfold k6. cbn [tcbs set_regs]. unfold tc5. by rewrite lookup_insert_eq.
  - unfold k6. cbn [tcbs set_regs]. unfold tc5. rewrite lookup_insert_ne by lia. exact (bo_tcbs _ _ H).
  - assert (Hsm : sm = ∅) by exact (bo_sems _ _ H). subst sm.
    eexists _, _. split; [eapply threads_step; exact E6|].
    change (v_mem (k_vmm k6)) with m4 in A6.
    split.
    + eapply boot_starts; [exact H|]. exists [thread_page]. cbn [m_kern mk m_io io_sync y_kern]. by rewrite C6.
    + exact C6.
    + exact I6.
    + exact T6.
    + exact V6.
    + exact P6.
    + exists F'. split; [exact HF6|]. rewrite HF1 in HFl. cbn [length] in HFl. lia.
    + intros q Hq'. apply Q6. change (ready_for (P := pmm) (1 + q) (v_pages v4)). rewrite Ep4. apply Hsp. lia.
    + etransitivity; [exact L6|]. exact (keeps_vmm_init _ _ _ _ E3).
    + intros a Ha1 Ha2. etransitivity; [by apply O6|]. unfold k6. cbn [tcbs set_regs]. unfold tc5. by rewrite lookup_insert_ne.
    + exact X6.
    + intros q Hq'. by apply init_tables_handler.
    + exact R6.
    + unfold mk, boot_sems. cbn [m_io io_sync sems]. by rewrite lookup_insert_eq.
    + done.
    + exists (out1 ++ out2). split; [exact (says_app _ _ _ _ O1 O2)|]. rewrite term_text_app.
      exact (shows_agree m4 (v_mem (k_vmm k')) xh yh _ s0 n H A6 Sh2).
    + change (m_mem (mk k' _ _ _ _ _ _ _)) with (v_mem (k_vmm k')).
      apply (agree_image _ _ (bo_end _ _ H)). eapply agree_trans; [exact (sp_mem _ _ _ Sc)|]. eapply agree_trans; [exact (agree_weaken _ _ _ _ console_boot Ag2)|].
      exact (agree_weaken _ _ _ _ later_boot A6).
Qed.
(** ** [kern_entry] *)

(** The last call of [printk]. *)
Definition entry_text : list Z := [48; 120; 37; 104; 10].

Lemma call_after_boot s n m :
  boot_ok s n -> strings_ok s -> keeps_image (m_mem s) m ->
  call_ok m (literal "0x%h\n") entry_text [AInt func_addr].
Proof.
  intros H HS Ha. destruct (console_after s n H HS m Ha) as [C1 C2 C3].
  destruct (line_after s HS m "0x%h\n" [PInt func_addr] [None] Ha eq_refl) as [L1 L2 L3 L4 L5]; [by vm_compute|].
  cbn [fst snd map arg_of] in *. change (c_bytes "0x%h\n") with entry_text in *. by split.
Qed.

Lemma entry_formats out :
  formats entry_text [AInt func_addr] out -> exists d, hexadecimal func_addr d /\ out = [48; 120] ++ d ++ [10].
Proof.
  intros H. inversion H as [|? ? ? o1 _ H1| | | | |]; subst. inversion H1 as [|? ? ? o2 _ H2| | | | |]; subst.
  inversion H2 as [|? ? ? ? N| | |? ? d ? o3 Hd H3| |? ? ? N]; subst; [done| |done].
  inversion H3 as [|? ? ? o4 _ H4| | | | |]; subst. inversion H4; subst. by exists d.
Qed.

(** C2: The kernel boots.  On a machine with at least 2048 and at most 54592 pages of
    memory above an image of at most 4 MB, with the strings of the kernel where the
    boot sequence does not write, the initialisation of all components in the order of
    [kern_entry] returns, and leaves a state in which the invariants hold: the
    scheduler's ring is the main thread and the new one, locks and semaphores
    are free, exactly the pages of the image, of the first thread's stack and of
    the page-table window are taken, the allocator's lists hold all the memory
    above the image but one frame, every interrupt has a handler and interrupts
    are on, the image outside of what the sequence writes (the pool's bitmap, the page tables,
    the descriptors, the segment of the task state, the arrays of [printk]) is as it
    was loaded, and the screen shows the lines [pmm_init] and [tss_init] print:
    the kernel's bounds, the regions of the memory map, the pages.
    Then [kern_entry] prints the address of [func] behind them and loops for ever;
    the lock of [printk] is free. *)
Theorem kern_entry_boots s n fuel :
  boot_ok s n -> strings_ok s ->
  exists s1 t1, kern_start_up s = Ret s1 tt t1 /\ kernel_up s s1 n /\
  exists s2 t2 out d, kern_entry (Datatypes.S fuel) s = Stop s2 t2 /\
    says (boot_lines (m_mem s) n) out /\ hexadecimal func_addr d /\
    shows (io_vga (m_io s2)) (term_text black white (out ++ [48; 120] ++ d ++ [10]) (Build_term (fun _ => blank) 0)) /\
    holders (io_sync (m_io s2)) !! printk_lock = Some 0.
Proof.
  intros H Hs. destruct (kern_start_up_runs s n H Hs) as (s1 & t1 & E1 & U). exists s1, t1. do 2 (split; [done|]).
  set (S1 := Build_sys (io_sync (m_io s1)) ∅). destruct (ku_screen _ _ _ U) as (out & Ho & Hsc).
  assert (Hin : printk_lock ∈ ({[ printk_lock; lock ]} : gset Z)) by (apply elem_of_union_l, elem_of_singleton; done).
  destruct (printk_color_prints {[ printk_lock; lock ]} S1 S1 (m_io s1) fuel entry_node (literal "0x%h\n") black white entry_text [AInt func_addr]
    [func_addr] (term_text black white out (Build_term (fun _ => blank) 0)) 0) as (y & t2 & o2 & E2 & Hf & Hsh & Hh).
  - split; [apply (ku_system _ _ _ U)|apply rtc_refl|apply lookup_empty| |apply Hin| |by left|done|apply (ku_flag _ _ _ U)].
    + intros t a. unfold waits. cbn [pend S1]. by rewrite lookup_empty.
    + by destruct (ss_locks _ _ (ku_system _ _ _ U) printk_lock Hin).
  - exact (call_after_boot s n _ H Hs (ku_memory _ _ _ U)).
  - done.
  - exact (screen_away s n H).
  - exact Hsc.
  - destruct (entry_formats _ Hf) as (d & Hd & ->). rewrite <- term_text_app in Hsh.
    eexists (Build_machine y (m_intr s1)), _, out, d. split; [|exact (conj Ho (conj Hd (conj Hsh Hh)))].
    unfold kern_entry. rewrite (bind_ret_eq _ _ _ _ _ _ E1).
    unfold printk. rewrite (bind_ret_eq _ _ _ _ _ _ (in_io_ret _ _ _ _ _ E2)). reflexivity.
Qed.
End boot.

(** ** A concrete machine: 16 MB of memory, an image of 2 MB *)

#[local] Instance boot_vmm : VmmLayout := Build_VmmLayout 3149824 3222278144 2097152.
#[local] Instance boot_tss : TssLayout := Build_TssLayout 3222343680 3222347776.
#[local] Instance boot_cpu : Processor := fun sel m => st8 m (GDT_BASE + sel + 5) (desc_access m (GDT_BASE + sel) + 2).
#[local] Instance boot_cpu_spec : ProcessorSpec boot_cpu.
Proof. done. Qed.
#[local] Instance boot_threads : ThreadLayout := Build_ThreadLayout 3222351872 3222355968 (fun _ =>
  Build_TCB_t 0 TASK_DIED 0 0 0 0 0 0 0 (Build_bitmap 0 0 0) 0 (Build_context_t 0 0 0 0 0 0 0 0) 0).
#[local] Instance boot_strings : StringLayout :=
  Build_StringLayout 3222478848 3222482944 3222487040 3222491136 3222409216 3222413312.
#[local] Instance boot_printk : PrintkLayout := Build_PrintkLayout 3222470656 3222474752 3222495232.
#[local] Instance boot_intr : IntrLayout := Build_IntrLayout (fun n => 3222536192 + 16 * n) 3222540288 3222544384.
#[local] Instance boot_entry : EntryLayout :=
  Build_EntryLayout 3222499328 3222503424 3222548480 1048576 65536 3222552576 (Build_bitmap 0 0 0).

#[local] Instance boot_texts : Literals := slots 3222401024 boot_literals.

(** One usable region from 1 MB on, and the strings. *)
Definition boot_mem : mem :=
  let m := st32 (st32 (st32 (st32 (st32 ∅ 65580 24) 65584 65600) 65604 1048576) 65612 15728640) 65620 1 in
  write_bytes (write_bytes (store_slots 3222401024 boot_literals m) 3222409216 ([48; 120] ++ zero8 ++ [0]))
    3222413312 (zero8 ++ [0]).

Definition boot_machine : machine :=
  Build_machine
    (Build_io (Build_sync (Build_kern (Build_vmm boot_mem (Build_pmm ∅ no_links None 0 0 0 0 (replicate 12 0)) (Build_bitmap 0 0 0) 1)
       ∅ 0 (Build_context_t 0 0 0 0 0 0 2 0) 0) ∅ ∅ ∅) 0 0 false)
    (Build_intr ∅ ∅ {| lidt_limit := 0; lidt_base := 0 |}).

(** Blocks of the image apart from what the sequence writes there. *)
Ltac concrete_apart := repeat (apply Forall_cons; split; [unfold disjoint_blocks, video_memory, page_array_addr; cbn; lia|]); apply Forall_nil_2.

Lemma boot_image_ok :
  in_image kern_bitmap 32768 /\ Forall (fun b => in_image b.1 b.2) buffers /\
  Forall (fun b => away b.1 b.2) [(kern_bitmap, 32768); (kern_dir_table_paddr + 3221225472, 4); (GDT_BASE, 56); (tss_cpu0, 108)].
Proof.
  split; [unfold in_image; cbn; lia|]. split.
  - repeat (apply Forall_cons; split; [unfold in_image; cbn; lia|]). apply Forall_nil_2.
  - repeat (apply Forall_cons; split; [concrete_apart|]). apply Forall_nil_2.
Qed.

Lemma boot_machine_ok : boot_ok boot_machine 1.
Proof.
  split; try apply boot_image_ok; try (by vm_compute); try (unfold in_image, disjoint_blocks, video_memory; cbn; lia).
  repeat (apply NoDup_cons; split; [unfold lock_sem; cbn; set_solver|]). apply NoDup_nil_2.
Qed.

Lemma boot_kept a n : 0 <= n -> 3222401024 <= a /\ a + n <= 3222417408 -> kept_at a n.
Proof.
  intros Hn Ha. split; [unfold in_image; cbn; lia|]. unfold boot_writes, later_writes, buffers. change thread_page with 3224375296. cbn [app]. concrete_apart.
Qed.

Lemma boot_layout_ok : printk_layout_ok.
Proof.
  split; [split; unfold region, disjoint_blocks; cbn; lia|unfold region; cbn; lia|unfold region; cbn; lia|
    unfold disjoint_blocks; cbn; lia|concrete_apart|concrete_apart|concrete_apart].
Qed.

Lemma boot_strings_ok : strings_ok boot_machine.
Proof.
  split; [apply boot_layout_ok|split; concrete_cstr|apply boot_kept; cbn; lia|apply boot_kept; cbn; lia|].
  unfold boot_literals. repeat (apply Forall_cons; split; [split; [concrete_string|apply boot_kept; [lia|vm_compute; split; discriminate]]|]). apply Forall_nil_2.
Qed.

Lemma kern_entry_boots_witness :
  exists s1 t1, kern_start_up boot_machine = Ret s1 tt t1 /\ kernel_up boot_machine s1 1 /\
    exists s2 t2 out, kern_entry 1 boot_machine = Stop s2 t2 /\ says (boot_lines boot_mem 1) out.
Proof.
  destruct (kern_entry_boots boot_machine 1 0 boot_machine_ok boot_strings_ok) as (s1 & t1 & E1 & U & s2 & t2 & out & d & E2 & Ho & _).
  exists s1, t1. split; [exact E1|]. split; [exact U|]. exists s2, t2, out. exact (conj E2 Ho).
Defined.
