(* ===== verification/BootEntry.v ===== *)
(** * From the boot loader to the running kernel

    boot.s composed with [kern_entry]: the machine the boot loader leaves, with
    the information it put in memory, is taken by the boot code to the call of
    [kern_entry], and a kernel whose linear memory is what the tables of the
    boot code show satisfies the hypotheses of the boot theorem. *)

From S2P Require Import Prelude Memory CString StringThm Bitmap KernLog Pmm PmmSpec PmmInit PmmThm PageTable Tcb Vmm VmmThm Tss UserVm Threads.
From S2P Require Import X86 Boot BootThm BootMap BootRun Port Vga Interrupt Sync Printk PrintkThm Machine Entry EntryPmm EntryThm.

Section boot.
Context {BL : BootLayout}.
Context {VL : VmmLayout} {TL : TssLayout} {CPU : Processor} {CS : ProcessorSpec CPU} {HL : ThreadLayout}.
Context {SL : StringLayout} {KL : PrintkLayout} {IL : IntrLayout} {EL : EntryLayout} {LL : Literals}.
#[local] Existing Instance paging.

(** What boot.s writes, at its physical addresses. *)
Definition boot_code_writes : list (Z * Z) :=
  [(temp_mboot_ptr, 4); (kern_dir_table, 4096 + 1048576 + 1024); (mboot_ptr_var - 3221225472, 4);
   (kern_bitmap_var - 3221225472, 4); (kern_dir_table_paddr_var - 3221225472, 4);
   (kern_page_table_paddr_var - 3221225472, 4); (stack - 3221225472, 524288)].

(** [n] bytes at [a] are in the first 4 MB and boot.s does not write them. *)
Definition kept_by_boot (a n : Z) : Prop :=
  0 <= a /\ a + n <= 4194304 /\ Forall (fun b => disjoint_blocks b.1 b.2 a n) boot_code_writes.

(** The boot loader has put the string [l], which the kernel finds at the linear
    address [a], where neither the boot code nor the boot sequence writes. *)
Record loaded_at (c : cpu) (a : Z) (l : list Z) : Prop := {
  la_kernel : 3221225472 <= a;
  la_text : cstr (ram c) (a - 3221225472) l;
  la_boot : kept_by_boot (a - 3221225472) (length l + 1);
  la_kept : kept_at a (length l + 1)
}.

(** The machine the boot loader leaves: protected mode without paging, the
    address of its information in ebx, that information and the map of [n]
    entries below the screen, where the boot code does not write; the variables and
    strings of the kernel apart from each other in an image of at most 4 MB; above
    it memory for at least 2048 pages, and not more than [page_array] has room
    for. *)
Record loader_ok (c : cpu) (n : Z) : Prop := {
  lo_boot : boot_layout;
  lo_kernel : kernel_layout;
  lo_cr0 : 0 <= cr0 c < 4294967296 /\ Z.testbit (cr0 c) 31 = false;
  lo_ebx : g_ebx (gpr c) = mboot_ptr /\ kept_by_boot mboot_ptr 52;
  lo_entries : 0 <= n /\ ld32 (ram c) (mboot_ptr + 44) = 24 * n;
  lo_map : kept_by_boot (ld32 (ram c) (mboot_ptr + 48)) (24 * n);
  lo_low : mboot_ptr + 52 <= video_memory - 3221225472 /\ ld32 (ram c) (mboot_ptr + 48) + 24 * n <= video_memory - 3221225472;
  lo_ram : 2048 <= ram_pages (ram c) mboot_ptr n;
  lo_fits : page_array_fits (ram_pages (ram c) mboot_ptr n);
  lo_values : kern_bitmap = kern_bitmap_block /\ kern_dir_table_paddr = kern_dir_table;
  lo_end : 0 <= kern_end <= 4194304;
  lo_bitmap : in_image kern_bitmap 32768;
  lo_dir : in_image (kern_dir_table_paddr + 3221225472) 4;
  lo_gdt : in_image GDT_BASE 56;
  lo_tss : in_image tss_cpu0 108;
  lo_gdt_tss : disjoint_blocks GDT_BASE 56 tss_cpu0 108;
  lo_bitmap_gdt : disjoint_blocks kern_bitmap 32768 GDT_BASE 56;
  lo_bitmap_tss : disjoint_blocks kern_bitmap 32768 tss_cpu0 108;
  lo_buffers : Forall (fun b => in_image b.1 b.2) buffers;
  lo_buffers_apart : Forall (fun b => away b.1 b.2)
    [(kern_bitmap, 32768); (kern_dir_table_paddr + 3221225472, 4); (GDT_BASE, 56); (tss_cpu0, 108)];
  lo_printk : printk_layout_ok;
  lo_hex : loaded_at c lit_hex0x ([48; 120] ++ zero8) /\ loaded_at c lit_hex0 zero8;
  lo_strings : Forall (fun l => loaded_at c (literal l) (c_bytes l)) boot_literals;
  lo_main : 0 < main_TCB < 3221225472 + kern_end;
  lo_locks : NoDup [lock_sem printk_lock; lock_sem lock; sem]
}.

(** The kernel before [kern_entry]: its memory is what the tables show, its
    variables are zero. *)
Record starts (c : cpu) (s : machine) : Prop := {
  st_mem : forall a p, 0 <= a < 4294967296 -> translate c a = Some p -> ld8 (m_mem s) a = ld8 (ram c) p;
  st_pages : page_array (v_pages (k_vmm (m_kern s))) = ∅ /\ SINGLE_LINK (v_pages (k_vmm (m_kern s))) = None;
  st_flag : printk_lock_init_flag (m_io s) = false;
  st_tcbs : tcbs (m_kern s) = ∅;
  st_sems : sems (io_sync (m_io s)) = ∅
}.

Lemma kept_bytes c c' s a n b :
  boot_layout -> kernel_entered c c' -> starts c' s -> kept_by_boot a n -> a <= b < a + n -> ld8 (m_mem s) b = ld8 (ram c) b.
Proof.
  intros HB HK HS (H0 & H1 & HF) Hb. rewrite (st_mem _ _ HS b b); [|lia|].
  - apply (ke_rest _ _ HK); [lia|]. eapply Forall_impl; [exact HF|]. intros [x k] Hd. unfold disjoint_blocks in Hd. cbn [fst snd] in *. lia.
  - apply (translate_low HB); [apply HK|lia].
Qed.
Lemma kept_word c c' s a n b :
  boot_layout -> kernel_entered c c' -> starts c' s -> kept_by_boot a n -> a <= b -> b + 4 <= a + n ->
  ld32 (m_mem s) b = ld32 (ram c) b.
Proof. intros HB HK HS HF H0 H1. apply ld32_ext. intros x Hx. eapply kept_bytes; [done..|exact HF|lia]. Qed.

Lemma ram_pages_view c c' s n :
  loader_ok c n -> kernel_entered c c' -> starts c' s -> ram_pages (m_mem s) mboot_ptr n = ram_pages (ram c) mboot_ptr n.
Proof.
  intros H HK HS. destruct (lo_ebx _ _ H) as [_ Hk]. pose proof (lo_boot _ _ H) as HB. pose proof (lo_map _ _ H) as Hm.
  unfold ram_pages, ram_top. rewrite (kept_word c c' s mboot_ptr 52 (mboot_ptr + 48)) by (done || lia).
  do 3 f_equal. f_equal. apply map_ext_in. intros i Hi%list_elem_of_In%elem_of_seqZ. unfold usable_top.
  by rewrite !(kept_word c c' s (ld32 (ram c) (mboot_ptr + 48)) (24 * n)) by (done || lia).
Qed.

Lemma starts_boot_ok c c' s n : loader_ok c n -> kernel_entered c c' -> starts c' s -> boot_ok s n.
Proof.
  intros H HK HS. pose proof (lo_boot _ _ H) as HB. destruct (lo_ebx _ _ H) as [_ Hk]. destruct (lo_entries _ _ H) as [Hn He].
  pose proof (lo_map _ _ H) as Hm. pose proof (ram_pages_view _ _ _ _ H HK HS) as Er.
  assert (E44 : ld32 (m_mem s) (mboot_ptr + 44) = 24 * n) by (rewrite (kept_word c c' s mboot_ptr 52) by (done || lia); done).
  assert (E48 : ld32 (m_mem s) (mboot_ptr + 48) = ld32 (ram c) (mboot_ptr + 48)) by (apply (kept_word c c' s mboot_ptr 52); done || lia).
  split; try apply H; try apply HS.
  - by split.
  - destruct Hk as (? & ? & _). split; [done|apply (lo_low _ _ H)].
  - rewrite E48. apply (lo_low _ _ H).
  - rewrite Er. apply H.
  - rewrite Er. apply H.
  - rewrite (st_tcbs _ _ HS). apply lookup_empty.
Qed.

(** The strings where the kernel reads them. *)
Lemma kernel_string c c' s a l : boot_layout -> kernel_entered c c' -> starts c' s -> loaded_at c a l -> cstr (m_mem s) a l.
Proof.
  intros HB HK HS [Ha [Hr Hc Hb Hz] (K0 & K1 & KF) _]. unfold region in *.
  assert (E : forall i, 0 <= i < length l + 1 -> ld8 (m_mem s) (a + i) = ld8 (ram c) (a - 3221225472 + i)).
  { intros i Hi. rewrite (st_mem _ _ HS (a + i) (a - 3221225472 + i)); [|lia|].
    - apply (ke_rest _ _ HK); [lia|]. eapply Forall_impl; [exact KF|]. intros [x k] Hd. unfold disjoint_blocks in Hd. cbn [fst snd] in *. lia.
    - rewrite (translate_kernel HB c' (a + i)); [f_equal; lia|apply HK|]. pose proof (layout_range (BL := BL) HB). unfold stack in *. lia. }
  split; [unfold region; lia|done| |].
  - intros i Hi. rewrite E by lia. by apply Hb.
  - rewrite E by lia. done.
Qed.

Lemma starts_strings_ok c c' s n : loader_ok c n -> kernel_entered c c' -> starts c' s -> strings_ok s.
Proof.
  intros H HK HS. pose proof (lo_boot _ _ H) as HB. destruct (lo_hex _ _ H) as [H1 H2]. split.
  - apply H.
  - split; by apply (kernel_string c c').
  - apply H1.
  - apply H2.
  - eapply Forall_impl; [apply (lo_strings _ _ H)|]. intros l Hl. split; [by apply (kernel_string c c')|apply Hl].
Qed.

Lemma boot_eq c n : loader_ok c n -> exists c' x, boot c = Ret c' tt [Cli; Inb 146; Outb 146 x; Lgdt; Cli] /\ kernel_entered c c'.
Proof.
  intros H. destruct (lo_cr0 _ _ H) as [H0 H1]. destruct (lo_ebx _ _ H) as [Eb (Hb0 & Hb1 & _)].
  destruct (boot_start_eq (lo_boot _ _ H) c H1) as (c1 & E1 & B1); [rewrite Eb; lia|done|].
  destruct (after_set_paging_eq (lo_boot _ _ H) c c1 (lo_kernel _ _ H) B1) as (c' & x & E2 & K); [rewrite Eb; lia|done|].
  exists c', x. split; [|done]. unfold boot. rewrite (bind_ret_eq _ _ _ _ _ _ E1). by rewrite E2.
Qed.

(** C3: From the boot loader to the running kernel.  On the machine the boot loader
    leaves, the boot code ends without a fault at the call of [kern_entry]:
    paging is on over the tables of [boot_translation], code, stack and data
    segments are those of the new descriptor table, the stack is the kernel's,
    the address of the loader's information and the addresses of the tables are
    in their variables, interrupts are off.  And a kernel that starts there with
    its variables zero initialises all its components: [kern_start_up] returns
    in a state where the invariants hold, with the lines of the initialisation on
    the screen. *)
Theorem bhos_boots c n :
  loader_ok c n ->
  exists c' x, boot c = Ret c' tt [Cli; Inb 146; Outb 146 x; Lgdt; Cli] /\ kernel_entered c c' /\
    forall s, starts c' s -> exists s' t, kern_start_up s = Ret s' tt t /\ kernel_up s s' n.
Proof.
  intros H. destruct (boot_eq _ _ H) as (c' & x & E & K). exists c', x. split; [done|]. split; [done|].
  intros s Hs. apply kern_start_up_runs; [by apply (starts_boot_ok c c')|by apply (starts_strings_ok c c' s n)].
Qed.
End boot.

(** ** The linear memory of a machine *)

Section view.
#[local] Existing Instance paging.

Definition view_of (c : cpu) (l : list Z) : mem :=
  list_to_map (omap (fun a => (fun p => (a, ld8 (ram c) p)) <$> translate c a) l).

Lemma view_lookup c l a p : a ∈ l -> translate c a = Some p -> view_of c l !! a = Some (ld8 (ram c) p).
Proof.
  intros Hin Ht. induction l as [|b l IH]; [by apply not_elem_of_nil in Hin|]. unfold view_of. cbn [omap list_omap].
  destruct (decide (a = b)) as [<-|Hne].
  - rewrite Ht. cbn. by rewrite lookup_insert_eq.
  - apply elem_of_cons in Hin as [->|Hin]; [done|]. specialize (IH Hin). unfold view_of in IH.
    destruct (translate c b); cbn; [by rewrite lookup_insert_ne by done|done].
Qed.

Definition linear_view (c : cpu) : mem := view_of c (seqZ 0 4294967296).

Lemma ld8_linear_view c a p : 0 <= a < 4294967296 -> translate c a = Some p -> ld8 (linear_view c) a = ld8 (ram c) p.
Proof.
  intros Ha Ht. unfold ld8 at 1. rewrite u32_small by done. unfold linear_view.
  rewrite (view_lookup _ _ _ p) by (done || (apply elem_of_seqZ; lia)). apply u8_small, ld8_range.
Qed.
End view.
#[global] Opaque linear_view.

(** ** The machine of the kernel's image

    The addresses of the tables and variables of the kernel the repository's
    image holds, on 16 MB of memory; strings and the arrays of the number printers
    are in slots of their own. *)

Module Image.
Definition layout : BootLayout := {|
  temp_mboot_ptr := 1048588; kern_dir_table := 1052672; gdt_ptr := 3223335656; gdt_base := 3223335584;
  mboot_ptr_var := 3223359504; kern_bitmap_var := 3223359500; kern_dir_table_paddr_var := 3223359508;
  kern_page_table_paddr_var := 3223359512; kern_bitmap_block := 3223367680; after_set_page := 1048612;
  boot_start_after_set_paging := 3223335662; far_jmp_target := 3223335703; kern_entry_addr := 3223352426;
  after_kern_entry := 3223335766; port92 := 0 |}.
Definition vmm_layout : VmmLayout := Build_VmmLayout 2781184 3223367680 1052672.
Definition tss_layout : TssLayout := Build_TssLayout 3223335584 3223928960.
Definition cpu_ltr : Processor :=
  fun sel m => st8 m (@GDT_BASE tss_layout + sel + 5) (desc_access m (@GDT_BASE tss_layout + sel) + 2).
Definition threads : ThreadLayout := Build_ThreadLayout 3223928864 3223338243 (fun _ =>
  Build_TCB_t 0 TASK_DIED 0 0 0 0 0 0 0 (Build_bitmap 0 0 0) 0 (Build_context_t 0 0 0 0 0 0 0 0) 0).
Definition printk_layout : PrintkLayout := Build_PrintkLayout 3223924860 3223924970 3223932224.
Definition intr_layout : IntrLayout := Build_IntrLayout (fun n => 3223340000 + 16 * n) 3223930144 3223930112.
Definition entry : EntryLayout :=
  Build_EntryLayout 3223932212 3223932204 3223352616 1048576 65536 3223924900 (Build_bitmap 0 0 0).
Definition strings : StringLayout :=
  Build_StringLayout 3223929216 3223929280 3223929344 3223929408 3223365120 3223365184.
Definition literals : Literals := slots 3223364096 boot_literals.

#[local] Existing Instances layout vmm_layout tss_layout cpu_ltr threads printk_layout intr_layout entry strings literals paging.

#[local] Instance cpu_ltr_spec : ProcessorSpec cpu_ltr.
Proof. done. Qed.

(** The loader's information at 64 KB, with one region from 1 MB on, and the
    strings. *)
Definition loader_ram : mem :=
  let m := st32 (st32 (st32 (st32 (st32 ∅ 65580 24) 65584 65600) 65604 1048576) 65612 15728640) 65620 1 in
  write_bytes (write_bytes (store_slots 2138624 boot_literals m) 2139648 ([48; 120] ++ zero8 ++ [0])) 2139712 (zero8 ++ [0]).
Definition loader_cpu : cpu :=
  Cpu (Gprs 732803074 0 0 65536 0 0 0 0) (Segs 8 16 16 16 16 16) 1048592 2 17 0 (0, 0) loader_ram.

Lemma image_printk : printk_layout_ok.
Proof.
  split; [split; unfold region, disjoint_blocks; cbn; lia|unfold region; cbn; lia|unfold region; cbn; lia|
    unfold disjoint_blocks; cbn; lia|concrete_apart|concrete_apart|concrete_apart].
Qed.

(** The strings are in the image's read-only data. *)
Lemma image_kept a n :
  0 <= n -> 3223364096 <= a /\ a + n <= 3223367680 -> kept_by_boot (a - 3221225472) n /\ kept_at a n.
Proof.
  intros Hn Ha. split.
  - split; [lia|]. split; [lia|]. repeat (apply Forall_cons; split; [unfold disjoint_blocks, stack; cbn; lia|]). apply Forall_nil_2.
  - split; [unfold in_image; cbn; lia|]. unfold boot_writes, later_writes, buffers. change thread_page with 3224006656. cbn [app]. concrete_apart.
Qed.

Ltac image_string :=
  split; [vm_compute; discriminate|concrete_string|apply image_kept; [lia|vm_compute; split; discriminate]..].

Lemma loader_cpu_ok : loader_ok loader_cpu 1.
Proof.
  assert (K : forall a n, 0 <= a -> 0 <= n -> a + n <= 1048588 -> kept_by_boot a n).
  { intros a n Ha Hn H. split; [done|]. split; [lia|].
    repeat (apply Forall_cons; split; [unfold disjoint_blocks, stack; cbn; lia|]). apply Forall_nil_2. }
  split.
  - split; [done|cbn; lia|unfold init_stack, kern_page_table; cbn; lia].
  - split; try (unfold in_kernel, init_stack, kern_page_table; cbn; lia).
    + repeat (apply Forall_cons; split; [unfold disjoint_blocks; cbn; lia|]). apply Forall_nil_2.
    + unfold disjoint_blocks. cbn. lia.
    + repeat (apply Forall_cons; split; [unfold disjoint_blocks, stack; cbn; lia|]). apply Forall_nil_2.
  - cbn. split; [lia|done].
  - split; [done|]. apply K; cbn; lia.
  - split; [lia|by vm_compute].
  - assert (E : ld32 (ram loader_cpu) (mboot_ptr + 48) = 65600) by (by vm_compute). rewrite E. apply K; lia.
  - split; vm_compute; discriminate.
  - by vm_compute.
  - by vm_compute.
  - done.
  - cbn. lia.
  - unfold in_image. cbn. lia.
  - unfold in_image. cbn. lia.
  - unfold in_image. cbn. lia.
  - unfold in_image. cbn. lia.
  - unfold disjoint_blocks. cbn. lia.
  - unfold disjoint_blocks. cbn. lia.
  - unfold disjoint_blocks. cbn. lia.
  - repeat (apply Forall_cons; split; [unfold in_image; cbn; lia|]). apply Forall_nil_2.
  - repeat (apply Forall_cons; split; [concrete_apart|]). apply Forall_nil_2.
  - apply image_printk.
  - split; image_string.
  - unfold boot_literals. repeat (apply Forall_cons; split; [image_string|]). apply Forall_nil_2.
  - cbn. lia.
  - repeat (apply NoDup_cons; split; [unfold lock_sem; cbn; set_solver|]). apply NoDup_nil_2.
Qed.

(** The kernel that starts on a machine. *)
Definition kernel_of (c : cpu) : machine :=
  Build_machine
    (Build_io (Build_sync (Build_kern (Build_vmm (linear_view c) (Build_pmm ∅ no_links None 0 0 0 0 (replicate 12 0))
       (Build_bitmap 0 0 0) 1) ∅ 0 (Build_context_t 0 0 0 0 0 0 2 0) 0) ∅ ∅ ∅) 0 0 false)
    (Build_intr ∅ ∅ {| lidt_limit := 0; lidt_base := 0 |}).

Lemma kernel_starts c : starts c (kernel_of c).
Proof.
  split; [|by split|done|done|done]. intros a p Ha Ht. unfold m_mem, m_kern, kernel_of. cbn [m_io io_sync y_kern k_vmm v_mem].
  by apply ld8_linear_view.
Qed.
End Image.

Lemma bhos_boots_witness :
  exists c' x, @boot Image.layout Image.loader_cpu = Ret c' tt [Cli; Inb 146; Outb 146 x; Lgdt; Cli] /\
    exists s' t, @kern_start_up Image.vmm_layout Image.tss_layout Image.cpu_ltr Image.threads Image.strings Image.printk_layout
      Image.intr_layout Image.entry Image.literals (Image.kernel_of c') = Ret s' tt t.
Proof.
  destruct (bhos_boots (CS := Image.cpu_ltr_spec) (IL := Image.intr_layout) Image.loader_cpu 1 Image.loader_cpu_ok) as (c' & x & E & _ & H).
  exists c', x. split; [exact E|]. destruct (H _ (Image.kernel_starts c')) as (s' & t & E' & _). exists s', t. exact E'.
Defined.
