(* ===== verification/BootUser.v ===== *)
(** * A user task on the booted kernel

    The boot sequence composed with the creation and the start of a user task:
    the state [kern_start_up] leaves has the room [user_task_runs] asks for. *)

From S2P Require Import Prelude Memory CString Bitmap KernLog Pmm PmmThm PageTable Tcb Vmm VmmThm KernPages Tss UserVm Threads ThreadsThm ThreadsInv ThreadsSys.
From S2P Require Import UserTask UserCreate UserSys Port Vga Interrupt Sync Printk PrintkThm PrintkSys Machine Entry EntryPmm EntryThm.

Section boot.
Context {VL : VmmLayout} {TL : TssLayout} {CPU : Processor} {CS : ProcessorSpec CPU} {HL : ThreadLayout}.
Context {SL : StringLayout} {KL : PrintkLayout} {IL : IntrLayout} {EL : EntryLayout} {LL : Literals}.
Implicit Types (s : machine).

(** The caller of [create_user_task], after the boot sequence: its stack is in
    the image; so are the parameters, for a function and not for a file, where
    neither the boot sequence nor the stack is. *)
Record caller_ok s (args : Z) : Prop := {
  ca_stack : in_image (esp (regs (m_kern s)) - 8) 8;
  ca_stack_apart : Forall (fun b => disjoint_blocks b.1 b.2 (esp (regs (m_kern s)) - 8) 8) boot_writes;
  ca_args : in_image args 8;
  ca_args_apart : Forall (fun b => disjoint_blocks b.1 b.2 args 8) boot_writes;
  ca_args_stack : disjoint_blocks args 8 (esp (regs (m_kern s)) - 8) 8;
  ca_function : ld32 (m_mem s) args = 0 /\ ld32 (m_mem s) (args + 4) <> 0;
  ca_loaded : USER_PAGE_DIR_IS_LOADED (k_vmm (m_kern s)) <> 0;
  ca_blocks : tcbs (m_kern s) = ∅
}.

Lemma caller_word s s' n args i :
  boot_ok s n -> caller_ok s args -> kernel_up s s' n -> 0 <= i -> i + 4 <= 8 -> ld32 (m_mem s') (args + i) = ld32 (m_mem s) (args + i).
Proof.
  intros H HC HU H0 H1. destruct (ca_args _ _ HC). destruct (bo_end _ _ H). apply ld32_ext. intros b Hb.
  replace b with (args + (b - args)) by lia. apply (ku_memory _ _ _ HU), (kept_part _ 8); [|lia]. split; apply HC.
Qed.

(** Blocks in the image are apart from the pages that are free. *)
Lemma image_apart s s' n q a k :
  boot_ok s n -> kernel_up s s' n -> q ∈ free_set kern_pool (m_mem s') -> in_image a k ->
  disjoint_blocks (page_addr kern_pool q) 4096 a k.
Proof.
  intros H HU Hq [H0 H1]. apply (ku_pool _ _ _ HU) in Hq. destruct (used_pages_range _ _ H) as (_ & Hp & _).
  unfold thread_page in Hp. rewrite page_addr_kern. unfold disjoint_blocks. lia.
Qed.

Lemma booted_room s s' n args F :
  boot_ok s n -> caller_ok s args -> kernel_up s s' n -> 30 <= single_pages (ram_pages (m_mem s) mboot_ptr n) ->
  pmm_frames (v_pages (k_vmm (m_kern s'))) F -> (29 <= length F)%nat -> task_room (m_kern s') F (used_pages + 1) args.
Proof.
  intros H HC HU Hn HF HFl. destruct (used_pages_range _ _ H) as (Hu & Hp & Hq). destruct (bo_end _ _ H) as [He0 He1].
  pose proof (ku_pool _ _ _ HU) as Hpool. pose proof (image_apart s s' n) as Hap.
  pose proof (bo_bitmap_tss _ _ H) as Dbt. destruct (bo_tss _ _ H) as [Ht0 Ht1]. destruct (bo_bitmap _ _ H) as [Hb0 Hb1].
  destruct (ca_stack _ _ HC) as [S0 S1]. destruct (ca_args _ _ HC) as [A0 A1].
  pose proof (ca_stack_apart _ _ HC) as DS. pose proof (ca_args_apart _ _ HC) as DA. unfold boot_writes, later_writes in DS, DA. cbn [app] in DS, DA.
  rewrite !Forall_cons in DS, DA. destruct DS as (_ & DS1 & _ & _ & DS2 & _). destruct DA as (_ & DA1 & _ & _ & DA2 & _). cbn [fst snd] in *.
  pose proof (ca_args_stack _ _ HC) as Das. assert (Ee : esp0_off = 4) by done. rewrite <- (ku_esp _ _ _ HU) in *. set (k := m_kern s') in *.
  change (v_mem (k_vmm k)) with (m_mem s') in *.
  split; change (v_mem (k_vmm k)) with (m_mem s').
  - split; [apply HU|]. change (v_mem (k_vmm k)) with (m_mem s'). intros q Hqf. split; [apply Hpool in Hqf; rewrite page_addr_kern; lia|].
    by apply Hap; try apply H.
  - by split.
  - apply (ku_ready _ _ _ HU 29%nat). lia.
  - intros q Hqr. apply Hpool. lia.
  - intros q Hqf%Hpool. lia.
  - assert (Hs : page_run (used_pages + 1) 27 ⊆ free_set kern_pool (m_mem s')) by (intros x Hx; apply elem_of_page_run in Hx; apply Hpool; lia).
    apply subseteq_size in Hs. by rewrite size_page_run in Hs.
  - intros q Hqf%Hpool. unfold k. rewrite (ku_tcbs _ _ _ HU).
    + rewrite (ca_blocks _ _ HC). apply lookup_empty.
    + destruct (bo_main _ _ H). rewrite page_addr_kern. unfold thread_page in *. lia.
    + rewrite page_addr_kern. unfold thread_page. lia.
  - intros q Hqf. unfold scratch. rewrite !Forall_cons, Forall_nil. cbn [fst snd].
    repeat split; apply Hap; try done; split; lia.
  - unfold scratch. rewrite !Forall_cons, Forall_nil. cbn [fst snd]. unfold disjoint_blocks in *. repeat split; lia.
  - unfold disjoint_blocks in *. lia.
  - unfold k. rewrite (ku_loaded _ _ _ HU). apply HC.
Qed.

(** C5: A kernel that has booted (with at most the 54592 pages [page_array] has room
    for) with at least 30 pages kept as single pages can run a user task: after [kern_start_up], [create_user_task] returns, the
    next [schedule] switches to the new thread with the address space of the
    task, and [start_user_task] enters user mode at the function the parameters
    name; the thread [kern_entry] started stays in the ring, and 29 frames are
    used. *)
Theorem booted_task_runs s n args start tid :
  boot_ok s n -> strings_ok s -> caller_ok s args -> 30 <= single_pages (ram_pages (m_mem s) mboot_ptr n) ->
  exists s' t0 k1 k2 v t1 tr r f F F',
    kern_start_up s = Ret s' tt t0 /\
    create_user_task start tid args (m_kern s') = Ret k1 tt t1 /\
    schedule k1 = Ret k2 true (Load_cr3 f :: eoi) /\
    threads_inv (tcbs k2) (page_addr kern_pool r) [thread_page; main_TCB] /\ cur_tcb k2 = page_addr kern_pool r /\
    Threads.eip k2 = u32 start /\
    start_user_task args k2 = Ret (user_entry (ld32 (m_mem s) (args + 4)) v k2) (35, 43) (tr ++ [Iret]) /\
    pmm_frames (v_pages (k_vmm (m_kern s'))) F /\ pmm_frames (v_pages v) F' /\ length F = (29 + length F')%nat.
Proof.
  intros H HS HC Hn. destruct (kern_start_up_runs s n H HS) as (s' & t0 & E0 & HU).
  destruct (ku_frames _ _ _ HU) as (F & HF & Hl). pose proof (bo_ram _ _ H).
  pose proof (caller_word s s' n args 0 H HC HU ltac:(lia) ltac:(lia)) as W0. rewrite Z.add_0_r in W0.
  pose proof (caller_word s s' n args 4 H HC HU ltac:(lia) ltac:(lia)) as W4. destruct (ca_function _ _ HC) as [Hf0 Hf1].
  destruct (task_runs (PS := pmm_allocator_spec) (m_kern s') [thread_page] F (used_pages + 1) args start tid)
    as (k1 & k2 & v & t1 & tr & q & r & f & fs & f1 & f2 & f3 & F2 & E1 & E2 & _ & I2 & C2 & P2 & _ & E3 & HP & Hfs & HF2 & _).
  - rewrite (ku_current _ _ _ HU). apply HU.
  - eapply booted_room; [done..|]. lia.
  - change (ld32 (m_mem s') args = 0). by rewrite W0.
  - change (ld32 (m_mem s') (args + 4) <> 0). by rewrite W4.
  - change (v_mem (k_vmm (m_kern s'))) with (m_mem s') in E3. rewrite W4 in E3. rewrite (ku_current _ _ _ HU) in I2.
    exists s', t0, k1, k2, v, t1, tr, r, f, F, F2. do 9 (split; [done|]).
    apply Permutation_length in HP. rewrite length_app in HP. cbn [length] in HP. lia.
Qed.
End boot.

(** ** A concrete machine *)

#[local] Existing Instances boot_vmm boot_tss boot_cpu boot_cpu_spec boot_threads boot_strings boot_printk boot_intr boot_entry boot_texts.

(** The machine of [EntryThm] with a stack at 0xC0165220 and, at 0xC014CCC0,
    parameters for the function at 4660. *)
Definition caller_mem : mem := st32 boot_mem 3222600004 4660.
Definition caller_machine : machine :=
  Build_machine
    (Build_io (Build_sync (Build_kern (Build_vmm caller_mem (Build_pmm ∅ no_links None 0 0 0 0 (replicate 12 0)) (Build_bitmap 0 0 0) 1)
       ∅ 0 (Build_context_t 0 0 0 0 0 0 2 3222700000) 0) ∅ ∅ ∅) 0 0 false)
    (Build_intr ∅ ∅ {| lidt_limit := 0; lidt_base := 0 |}).

Lemma caller_machine_ok : boot_ok caller_machine 1.
Proof.
  split; try apply boot_image_ok; try (by vm_compute); try (unfold in_image, disjoint_blocks, video_memory; cbn; lia).
  repeat (apply NoDup_cons; split; [unfold lock_sem; cbn; set_solver|]). apply NoDup_nil_2.
Qed.

Lemma caller_strings_ok : strings_ok caller_machine.
Proof.
  split; [apply boot_layout_ok|split; concrete_string|apply boot_kept; cbn; lia|apply boot_kept; cbn; lia|].
  unfold boot_literals. repeat (apply Forall_cons; split; [split; [concrete_string|apply boot_kept; [lia|vm_compute; split; discriminate]]|]). apply Forall_nil_2.
Qed.

Lemma caller_machine_calls : caller_ok caller_machine 3222600000.
Proof.
  assert (A : forall a n, 0 <= n -> 3222600000 <= a /\ a + n <= 3222800000 -> Forall (fun b => disjoint_blocks b.1 b.2 a n) boot_writes).
  { intros a n Hn Ha. unfold boot_writes, later_writes, buffers. change thread_page with 3224375296. cbn [app]. concrete_apart. }
  split; [unfold in_image; cbn; lia|apply A; cbn; lia|unfold in_image; cbn; lia|apply A; lia|unfold disjoint_blocks; cbn; lia|by vm_compute|done|done].
Qed.

Lemma booted_task_runs_witness :
  exists s' t0 k1 k2 v t1 tr f, kern_start_up caller_machine = Ret s' tt t0 /\
    create_user_task 3222364160 2 3222600000 (m_kern s') = Ret k1 tt t1 /\
    schedule k1 = Ret k2 true (Load_cr3 f :: eoi) /\ Threads.eip k2 = 3222364160 /\
    start_user_task 3222600000 k2 = Ret (user_entry 4660 v k2) (35, 43) (tr ++ [Iret]).
Proof.
  destruct (booted_task_runs caller_machine 1 3222600000 3222364160 2 caller_machine_ok caller_strings_ok caller_machine_calls ltac:(by vm_compute))
    as (s' & t0 & k1 & k2 & v & t1 & tr & r & f & F & F' & E0 & E1 & E2 & _ & _ & E3 & E4 & _).
  exists s', t0, k1, k2, v, t1, tr, f. exact (conj E0 (conj E1 (conj E2 (conj E3 E4)))).
Defined.
