(* ===== verification/SelfTest.v ===== *)
(** * The self tests of the kernel

    The functions with which the components try themselves out: [bitmap_test],
    [vga_basic_test], [user_task_test], [vmm_test], [tss_test], and the printing
    helpers [print_mem] and [print_debug_1].  What they say on the screen through
    printk is in the trace. *)

From S2P Require Import Prelude Memory CString StringThm Bitmap KernLog Pmm PmmThm PageTable Tcb Vmm VmmThm VmmUser KernPages Tss UserVm.
From S2P Require Import Threads ThreadsThm ThreadsInv ThreadsSys UserTask UserCreate UserSys Port Vga Interrupt Boot.

(** ** bitmap.c *)

Section bitmap.
Context {L : VmmLayout}.

Definition print_mem (bm : bitmap) : M vga unit :=
  w <- in_video (load32 (vaddr_header bm)) ;;
  emit (Printk "4BYTES:%h\n" [PInt w]).

(** [for(int i = 0; i<23;i++)] *)
Fixpoint test_alloc_loop (n : nat) (bm : bitmap) (addr_probe : Z) : M vga unit :=
  match n with
  | O => ret tt
  | S n' =>
      let addr_probe := u32 (addr_probe + 4096) in
      alloc_addr <- in_video (bitmap_alloc_one_page bm addr_probe) ;;
      print_mem bm ;;
      if alloc_addr =? BITMAP_RETURN_ERRO then emit (Printk "ERRO" []) ;; stop
      else test_alloc_loop n' bm addr_probe
  end.

(** [for(int i = 0;i<24;i++)] *)
Fixpoint test_release_loop (n : nat) (bm : bitmap) (addr_probe : Z) : M vga unit :=
  match n with
  | O => ret tt
  | S n' =>
      in_video (bitmap_release_one_page bm addr_probe) ;;
      print_mem bm ;;
      test_release_loop n' bm (u32 (addr_probe + 4096))
  end.

(** The body of [while(1)]. *)
Definition bitmap_test_round (bm : bitmap) : M vga unit :=
  addr_head <- in_video (bitmap_alloc bm) ;;
  emit (Printk "addr:0x%h\n" [PInt addr_head]) ;;
  print_mem bm ;;
  test_alloc_loop 23 bm addr_head ;;
  emit (Printk "bit map alloc all:" []) ;;
  print_mem bm ;;
  emit (Printk "start release" []) ;;
  test_release_loop 24 bm addr_head.

Fixpoint bitmap_test_loop (fuel : nat) (bm : bitmap) : M vga unit :=
  match fuel with
  | O => nofuel
  | S fuel' => bitmap_test_round bm ;; bitmap_test_loop fuel' bm
  end.

Definition test_bitmap : bitmap := Build_bitmap kern_bitmap 4 4096.

Definition bitmap_test (fuel : nat) : M vga unit :=
  clear_screen ;;
  in_video (bitmap_init_mem test_bitmap) ;;
  print_mem test_bitmap ;;
  bitmap_test_loop fuel test_bitmap.
End bitmap.

(** ** vga_basic.c, tss.c, common_c.c *)

Section screen.
(** The addresses of the three literals. *)
Context (lit_A lit_M lit_Q : Z).

Definition vga_basic_test : M vga unit :=
  each (seqZ 0 10) (fun _ => kputs lit_A) ;;
  kputs lit_M ;;
  kputs lit_Q ;;
  screen_uproll_once ;;
  stop.
End screen.

Definition tss_test {S} {TL : TssLayout} {BL : BootLayout} : M S unit :=
  emit (Printk "GDT_BASE:%h\nGDT_PTR:0x%h\n" [PInt GDT_BASE; PInt gdt_ptr]).

Definition print_debug_1 {S} (val : Z) : M S unit := emit (Printk "debug1:0x%h\n" [PInt val]).

(** ** user_task.c *)

Section tasks.
Context {P : Type} {PA : PageAllocator P} {L : VmmLayout}.

(** The rounds [i .. i+n-1]. *)
Fixpoint user_task_test_loop (n : nat) (i : Z) : M (vmm P) unit :=
  match n with
  | O => ret tt
  | S n' =>
      emit (Printk "running!%d" [PInt i]) ;;
      bm <- create_user_task_bitmap ;;
      release_user_task_bitmap bm ;;
      user_task_test_loop n' (i + 1)
  end.
Definition user_task_test : M (vmm P) unit := user_task_test_loop 1000 0.
End tasks.

(** ** vmm.c *)

Section memory.
Context {P : Type} {PA : PageAllocator P} {L : VmmLayout}.

(** The processor finds the page of [a] through the directory and its page
    table. *)
Definition page_present (a : Z) (s : kern P) : bool :=
  Z.testbit (ld32 (v_mem (k_vmm s)) (get_pde a)) 0 && Z.testbit (ld32 (v_mem (k_vmm s)) (get_pte a)) 0.

(** An access to memory; for an absent page the processor calls the handler of
    interrupt 14, which [idt_init] made [page_fault_func] (its call of [printk] is an
    event, as the others of the tests), and afterwards
    executes the access again. *)
Fixpoint access {A} (fuel : nat) (a : Z) (c : M mem A) : M (kern P) A :=
  match fuel with
  | O => nofuel
  | S fuel' =>
      present <- gets (page_present a) ;;
      if present then in_vmm (on_mem c)
      else l <- page_fault_line a ;; emit (Printk l.1 l.2) ;; access fuel' a c
  end.

(** [kern_page_table] is the value of the variable boot.s set.  The two words of
    the fourth line are read from left to right. *)
Definition vmm_test (fuel : nat) (kern_page_table : Z) : M (kern P) unit :=
  let read a := access fuel a (load32 a) in
  let touch a := access fuel a (store8 a 97) in
  emit (Printk "\nkern_dir:0x%h\n" [PInt kern_dir_table_paddr]) ;;
  emit (Printk "\nkern_page:0x%h\n" [PInt kern_page_table]) ;;
  w <- read (u32 (kern_dir_table_paddr + 3072 + 255 * 4)) ;;
  emit (Printk "\nlast_pde:0x%h\n" [PInt w]) ;;
  w1 <- read (get_pte 3221225472) ;;
  w2 <- read kern_page_table ;;
  emit (Printk "\nresult:0x%h---%h\n" [PInt w1; PInt w2]) ;;
  touch 3238002688 ;;
  in_vmm (vmm_kern_alloc_one_page 3238002688) ;;
  touch 3238002688 ;;
  in_vmm (vmm_kern_release_one_page 3238002688) ;;
  touch 3238002688 ;;
  in_vmm (vmm_kern_alloc_one_page 3992977408) ;;
  w3 <- read (get_pde 3221225472) ;;
  emit (Printk "\n0x%h\n" [PInt w3]) ;;
  w4 <- read (get_pde 3225419776) ;;
  emit (Printk "\n0x%h\n" [PInt w4]) ;;
  w5 <- read (get_pde 3229614080) ;;
  emit (Printk "\n0x%h\n" [PInt w5]).
End memory.

(** ** The test of the bitmap runs *)

Section bitmap_thm.
Context {L : VmmLayout}.
Hypothesis (Hkb : 0 <= kern_bitmap /\ kern_bitmap + 4 <= 4294967296).

Lemma test_bitmap_wf : bitmap_wf test_bitmap.
Proof. split; unfold region, test_bitmap; cbn [vaddr_header bm_length target_addr_header]; lia || done. Qed.
Lemma test_page p : 0 <= p < 32 -> page_of test_bitmap (page_addr test_bitmap p) = Some p /\
  page_addr test_bitmap p = 4096 + 4096 * p.
Proof.
  intros Hp. unfold page_of, page_addr, test_bitmap, pages. cbn [target_addr_header bm_length].
  replace ((4096 + 4096 * p - 4096) / 4096) with p by dlia. by rewrite (proj2 (Z.leb_le _ _)), (proj2 (Z.ltb_lt _ _)) by lia.
Qed.

Lemma in_video_eq {A} (c : M mem A) s m a t : c (g_mem s) = Ret m a t -> in_video c s = Ret (set_gmem m s) a t.
Proof. intros E. unfold in_video, zoom. by rewrite E. Qed.
Lemma print_mem_eq bm s : print_mem bm s = Ret s tt [Printk "4BYTES:%h\n" [PInt (ld32 (g_mem s) (vaddr_header bm))]].
Proof. by destruct s. Qed.

(** The free pages of the test's pool. *)
Definition test_free (s : vga) : gset Z := free_set test_bitmap (g_mem s).

Lemma test_alloc_page s p : p ∈ test_free s -> 0 <= p < 32 ->
  exists s', in_video (bitmap_alloc_one_page test_bitmap (page_addr test_bitmap p)) s = Ret s' (page_addr test_bitmap p) [] /\
    test_free s' = test_free s ∖ {[p]}.
Proof.
  intros Hf Hp. destruct (test_page p Hp) as [E1 E2]. apply elem_of_free_set in Hf as [Hp' Hf].
  assert (Ha : 0 <= page_addr test_bitmap p < 4294967296) by (rewrite E2; lia).
  pose proof (alloc_one_page_eq test_bitmap (page_addr test_bitmap p) (g_mem s) test_bitmap_wf Ha) as E. rewrite E1, Hf in E.
  eexists. split; [by apply in_video_eq|]. by apply free_set_clear; [apply test_bitmap_wf| |].
Qed.
Lemma test_release_page s p : 0 <= p < 32 ->
  exists s', in_video (bitmap_release_one_page test_bitmap (page_addr test_bitmap p)) s = Ret s' tt [] /\
    test_free s' = {[p]} ∪ test_free s.
Proof.
  intros Hp. destruct (test_page p Hp) as [E1 E2].
  assert (Ha : 0 <= page_addr test_bitmap p < 4294967296) by (rewrite E2; lia).
  pose proof (release_one_page_eq test_bitmap (page_addr test_bitmap p) (g_mem s) test_bitmap_wf Ha) as E. rewrite E1 in E.
  eexists. split; [by apply in_video_eq|]. by apply free_set_set; [apply test_bitmap_wf|].
Qed.

Lemma test_next p : 0 <= p < 31 -> u32 (page_addr test_bitmap p + 4096) = page_addr test_bitmap (p + 1).
Proof. intros Hp. rewrite (proj2 (test_page p ltac:(lia))), (proj2 (test_page (p + 1) ltac:(lia))), u32_small; lia. Qed.

Lemma test_alloc_loop_eq (n : nat) p s :
  0 <= p -> p + n < 32 -> (forall q, p < q <= p + n -> q ∈ test_free s) ->
  exists s' t, test_alloc_loop n test_bitmap (page_addr test_bitmap p) s = Ret s' tt t /\
    test_free s' = test_free s ∖ page_run (p + 1) n.
Proof.
  revert p s. induction n as [|n IH]; intros p s H0 Hn Hf.
  - eexists s, _. split; [reflexivity|]. apply set_eq. intros q. rewrite elem_of_difference, elem_of_page_run. split; [intros ?; split; [done|lia]|by intros [? _]].
  - cbn [test_alloc_loop]. cbv zeta. rewrite test_next by lia.
    destruct (test_alloc_page s (p + 1)) as (s1 & E1 & F1); [apply Hf; lia|lia|].
    rewrite (bind_ret_eq _ _ _ _ _ _ E1), (bind_ret_eq _ _ _ _ _ _ (print_mem_eq _ _)).
    rewrite (proj2 (Z.eqb_neq _ _)) by (rewrite (proj2 (test_page (p + 1) ltac:(lia))); unfold BITMAP_RETURN_ERRO; lia).
    destruct (IH (p + 1) s1) as (s2 & t2 & E2 & F2); [lia|lia| |].
    { intros q Hq. rewrite F1. apply elem_of_difference. split; [apply Hf; lia|]. rewrite elem_of_singleton. lia. }
    rewrite E2. eexists s2, _. split; [reflexivity|]. rewrite F2, F1, page_run_S. by rewrite difference_difference_l_L.
Qed.

Lemma test_release_loop_eq (n : nat) p s :
  0 <= p -> p + n < 32 ->
  exists s' t, test_release_loop n test_bitmap (page_addr test_bitmap p) s = Ret s' tt t /\
    test_free s' = page_run p n ∪ test_free s.
Proof.
  revert p s. induction n as [|n IH]; intros p s H0 Hn.
  - eexists s, _. split; [reflexivity|]. apply set_eq. intros q. rewrite elem_of_union, elem_of_page_run. split; [by right|intros [?|?]; [lia|done]].
  - cbn [test_release_loop]. destruct (test_release_page s p) as (s1 & E1 & F1); [lia|].
    rewrite (bind_ret_eq _ _ _ _ _ _ E1), (bind_ret_eq _ _ _ _ _ _ (print_mem_eq _ _)), test_next by lia.
    destruct (IH (p + 1) s1) as (s2 & t2 & E2 & F2); [lia|lia|]. rewrite E2. eexists s2, _. split; [reflexivity|].
    rewrite F2, F1, page_run_S. by rewrite union_assoc_L, (union_comm_L (page_run (p + 1) n)).
Qed.

(** A round of the test takes 24 of the 32 pages one by one, finds each free,
    and gives them back. *)
Lemma bitmap_test_round_eq s : test_free s = page_run 0 32 ->
  exists s' t, bitmap_test_round test_bitmap s = Ret s' tt t /\ test_free s' = page_run 0 32.
Proof.
  intros Hs. assert (Hin : forall q, q ∈ test_free s <-> 0 <= q < 32) by (intros q; rewrite Hs, elem_of_page_run; lia).
  destruct (run_op_refines test_bitmap AllocAny (g_mem s) test_bitmap_wf ltac:(done) ltac:(split; done)) as (m & r & E & St & _).
  cbn [run_op] in E. fold (test_free s) in St. inversion St as [| | | | |? p Hp Hmin HF|Hempty]; subst.
  2:{ exfalso. assert (H0 : 0 ∈ test_free s) by (apply Hin; lia). rewrite <- Hempty in H0. by apply (not_elem_of_empty (C := gset Z) 0). }
  assert (p = 0) as ->. { apply Hin in Hp. assert (p <= 0) by (apply Hmin, Hin; lia). lia. }
  unfold bitmap_test_round. rewrite (bind_ret_eq _ _ _ _ _ _ (in_video_eq _ _ _ _ _ E)), bind_emit, (bind_ret_eq _ _ _ _ _ _ (print_mem_eq _ _)).
  set (s1 := set_gmem m s). assert (F1 : test_free s1 = page_run 1 31).
  { transitivity (test_free s ∖ {[0]}); [done|]. apply set_eq. intros q. rewrite elem_of_difference, Hin, elem_of_singleton, elem_of_page_run. lia. }
  destruct (test_alloc_loop_eq 23 0 s1) as (s2 & t2 & E2 & F2); [lia|lia|intros q Hq; rewrite F1, elem_of_page_run; lia|].
  rewrite (bind_ret_eq _ _ _ _ _ _ E2), bind_emit, (bind_ret_eq _ _ _ _ _ _ (print_mem_eq _ _)), bind_emit.
  destruct (test_release_loop_eq 24 0 s2) as (s3 & t3 & E3 & F3); [lia|lia|]. rewrite E3. eexists s3, _. split; [reflexivity|].
  rewrite F3, F2, F1. apply set_eq. intros q. rewrite elem_of_union, elem_of_difference, !elem_of_page_run. lia.
Qed.

Lemma bitmap_test_loop_endless fuel s : test_free s = page_run 0 32 -> bitmap_test_loop fuel test_bitmap s = NoFuel.
Proof.
  revert s. induction fuel as [|fuel IH]; intros s Hs; [done|]. cbn [bitmap_test_loop].
  destruct (bitmap_test_round_eq s Hs) as (s' & t & E & Hs'). rewrite (bind_ret_eq _ _ _ _ _ _ E). by rewrite (IH s' Hs').
Qed.
End bitmap_thm.

(** [bitmap_test] runs for ever: in no round does an allocation fail, whatever
    the memory and the screen were. *)
Theorem bitmap_test_passes {L : VmmLayout} fuel s :
  0 <= kern_bitmap /\ kern_bitmap + 4 <= 4294967296 -> bitmap_test fuel s = NoFuel.
Proof.
  intros Hkb. destruct (clear_screen_blank s) as (s1 & t1 & E1 & _). unfold bitmap_test. rewrite (bind_ret_eq _ _ _ _ _ _ E1).
  destruct (init_all_free test_bitmap (g_mem s1) (test_bitmap_wf Hkb)) as (m & Em & Hall & _).
  rewrite (bind_ret_eq _ _ _ _ _ _ (in_video_eq _ _ _ _ _ Em)), (bind_ret_eq _ _ _ _ _ _ (print_mem_eq _ _)).
  rewrite (bitmap_test_loop_endless Hkb); [done|]. apply set_eq. intros q. unfold test_free. cbn [g_mem set_gmem].
  rewrite Hall, elem_of_page_run. unfold pages, test_bitmap. cbn [bm_length]. lia.
Qed.

Lemma bitmap_test_passes_witness : @bitmap_test small_vmm_layout 3 (Build_vga ∅ 0 0) = NoFuel.
Proof. apply (@bitmap_test_passes small_vmm_layout 3). cbn. lia. Defined.

(** ** The test of user tasks leaks *)

Section tasks_thm.
Context {P : Type} {PA : PageAllocator P} {PS : PageAllocatorSpec P} {L : VmmLayout} {TL : TssLayout}.
Implicit Types (v : vmm P) (F : list Z).

Lemma release_pages_loop_eq (n : nat) v p :
  vmm_ok v -> 0 <= p -> p + n < 262144 ->
  exists v' t, release_pages_loop n (page_addr kern_pool p) v = Ret v' tt t /\ vmm_ok v' /\ v_pages v' = v_pages v /\
    free_set kern_pool (v_mem v') = page_run p n ∪ free_set kern_pool (v_mem v).
Proof.
  revert p v. induction n as [|n IH]; intros p v Hv H0 Hn.
  - eexists v, _. split; [reflexivity|]. split; [done|]. split; [done|]. apply set_eq. intros q.
    rewrite elem_of_union, elem_of_page_run. split; [by right|intros [?|?]; [lia|done]].
  - cbn [release_pages_loop]. assert (Hp : 0 <= p < pages kern_pool) by (unfold pages; cbn [kern_pool bm_length]; lia).
    destruct (page_addr_of p Hp) as [Ha Hpo]. pose proof (vmm_kern_release_one_page_spec v (page_addr kern_pool p) p Hv Ha) as H.
    rewrite decide_False in H by (rewrite page_addr_kern; lia). destruct (H Hpo) as (v1 & E1 & Hv1 & P1 & F1 & _).
    rewrite (bind_ret_eq _ _ _ _ _ _ E1).
    replace (u32 (page_addr kern_pool p + val_4KB)) with (page_addr kern_pool (p + 1)) by (rewrite !page_addr_kern; unfold val_4KB; rewrite u32_small; lia).
    destruct (IH (p + 1) v1 Hv1) as (v2 & t2 & E2 & Hv2 & P2 & F2); [lia|lia|]. rewrite E2. eexists v2, _. split; [reflexivity|].
    split; [done|]. split; [congruence|]. rewrite F2, F1, page_run_S. by rewrite union_assoc_L, (union_comm_L (page_run (p + 1) n)).
Qed.

(** One round: the pages come back, 24 frames do not. *)
Lemma user_task_round v F p :
  room v -> pa_inv (v_pages v) F -> ready_for 24 (v_pages v) -> (24 <= length F)%nat ->
  (forall q, p <= q < p + 24 -> q ∈ free_set kern_pool (v_mem v)) -> (forall q, q ∈ free_set kern_pool (v_mem v) -> p <= q) ->
  exists v1 v2 F' fs t1 t2, create_user_task_bitmap v = Ret v1 (task_pool p) t1 /\
    release_user_task_bitmap (task_pool p) v1 = Ret v2 tt t2 /\
    room v2 /\ free_set kern_pool (v_mem v2) = free_set kern_pool (v_mem v) /\
    F ≡ₚ fs ++ F' /\ length fs = 24%nat /\ pa_inv (v_pages v2) F' /\
    forall k, ready_for (24 + k) (v_pages v) -> ready_for k (v_pages v2).
Proof.
  intros Hrm Hi Hr HF Hrun Hmin.
  destruct (create_user_task_bitmap_took v F p Hrm Hi Hr HF Hrun Hmin) as (v1 & F' & E1 & T & _).
  assert (Hp : 0 <= p /\ p + 24 < 262144).
  { pose proof (free_page_range _ _ (Hrun p ltac:(lia))). destruct (rm_pages _ Hrm (p + 23) (Hrun (p + 23) ltac:(lia))) as [Hhi _].
    rewrite page_addr_kern in Hhi. lia. }
  destruct (release_pages_loop_eq 24 v1 p (tk_ok _ _ _ _ _ _ T)) as (v2 & t2 & E2 & Hv2 & P2 & F2); [lia|lia|].
  destruct (tk_frames _ _ _ _ _ _ T) as (fs & Hl & HP).
  assert (Efree : free_set kern_pool (v_mem v2) = free_set kern_pool (v_mem v)).
  { rewrite F2, (tk_pool _ _ _ _ _ _ T). apply set_eq. intros q. rewrite elem_of_union, elem_of_difference, elem_of_page_run.
    destruct (decide (p <= q < p + 24)) as [Hq|Hq]; [pose proof (Hrun q Hq); tauto|tauto]. }
  exists v1, v2, F', fs. eexists _, _. split; [exact E1|]. split; [exact E2|].
  split; [split; [done|by rewrite Efree; apply Hrm]|]. split; [done|]. split; [done|]. split; [done|]. rewrite P2. split; [apply T|apply T].
Qed.

Lemma user_task_rounds (n m : nat) i v F p :
  room v -> pa_inv (v_pages v) F -> ready_for (24 * n) (v_pages v) -> (24 * n <= length F)%nat ->
  (forall q, p <= q < p + 24 -> q ∈ free_set kern_pool (v_mem v)) -> (forall q, q ∈ free_set kern_pool (v_mem v) -> p <= q) ->
  exists v' F' fs t, user_task_test_loop (n + m) i v = prepend t (user_task_test_loop m (i + n) v') /\
    room v' /\ free_set kern_pool (v_mem v') = free_set kern_pool (v_mem v) /\
    F ≡ₚ fs ++ F' /\ length fs = (24 * n)%nat /\ pa_inv (v_pages v') F'.
Proof.
  revert i v F. induction n as [|n IH]; intros i v F Hrm Hi Hr HF Hrun Hmin.
  - exists v, F, [], []. rewrite prepend_nil. replace (i + 0%nat) with i by lia. by split.
  - destruct (user_task_round v F p Hrm Hi) as (v1 & v2 & F2 & fs & t1 & t2 & E1 & E2 & Hrm2 & Hf2 & HP & Hl & Hi2 & Hr2);
      [by eapply ready_for_le; [|exact Hr]; lia|lia|done|done|].
    destruct (IH (i + 1) v2 F2) as (v3 & F3 & gs & t3 & E3 & Hrm3 & Hf3 & HP3 & Hl3 & Hi3); try done.
    + apply Hr2. by replace (24 + 24 * n)%nat with (24 * S n)%nat by lia.
    + apply Permutation_length in HP. rewrite length_app in HP. lia.
    + by rewrite Hf2.
    + by rewrite Hf2.
    + exists v3, F3, (fs ++ gs). eexists. cbn [Nat.add user_task_test_loop].
      rewrite bind_emit, (bind_ret_eq _ _ _ _ _ _ E1), (bind_ret_eq _ _ _ _ _ _ E2), E3, !prepend_app.
      replace (i + S n) with (i + 1 + n) by lia. split; [reflexivity|]. split; [done|]. split; [congruence|].
      split; [by rewrite HP, HP3, app_assoc|]. split; [rewrite length_app; lia|done].
Qed.

(** After [n] rounds of its thousand, [user_task_test] has given back all the
    pages it took, and lost [24 * n] frames: releasing a page does not release
    the frame behind it. *)
Theorem user_task_test_leaks (n : nat) v F p :
  room v -> pa_inv (v_pages v) F -> (n <= 1000)%nat -> ready_for (24 * n) (v_pages v) -> (24 * n <= length F)%nat ->
  (forall q, p <= q < p + 24 -> q ∈ free_set kern_pool (v_mem v)) -> (forall q, q ∈ free_set kern_pool (v_mem v) -> p <= q) ->
  exists v' F' t, user_task_test v = prepend t (user_task_test_loop (1000 - n) n v') /\
    free_set kern_pool (v_mem v') = free_set kern_pool (v_mem v) /\
    pa_inv (v_pages v') F' /\ length F = (24 * n + length F')%nat.
Proof.
  intros Hrm Hi Hn Hr HF Hrun Hmin.
  destruct (user_task_rounds n (1000 - n) 0 v F p Hrm Hi Hr HF Hrun Hmin) as (v' & F' & fs & t & E & _ & Hf & HP & Hl & Hi').
  exists v', F', t. replace (n + (1000 - n))%nat with 1000%nat in E by lia. split; [exact E|]. split; [done|]. split; [done|].
  apply Permutation_length in HP. rewrite length_app in HP. lia.
Qed.
End tasks_thm.

(** ** The test of the memory manager stays in a page fault *)

Section memory_thm.
Context {P : Type} {PA : PageAllocator P} {L : VmmLayout}.
Implicit Types (k : kern P).

Definition has_current k : Prop := cur_tcb k = 0 \/ is_Some (tcbs k !! cur_tcb k).

Lemma page_fault_eq a k : has_current k -> exists l, page_fault_line a k = Ret k l [].
Proof.
  intros H. unfold page_fault_line, get_running_progress. rewrite bind_gets. destruct (Z.eqb_spec (cur_tcb k) 0) as [E|E].
  - by eexists.
  - destruct H as [H|[t Ht]]; [done|]. rewrite (bind_get_tcb _ _ _ _ Ht). by eexists.
Qed.

(** The handler of page faults changes nothing, so that the access is
    repeated for ever. *)
Lemma access_absent {A} fuel a (c : M mem A) k : has_current k -> page_present a k = false -> access fuel a c k = NoFuel.
Proof.
  intros Hc Hp. induction fuel as [|fuel IH]; [done|]. cbn [access]. rewrite bind_gets, Hp.
  destruct (page_fault_eq a k Hc) as (t & E). rewrite (bind_ret_eq _ _ _ _ _ _ E), bind_emit. by rewrite IH.
Qed.

Lemma read_cases fuel a k : has_current k ->
  access fuel a (load32 a) k = NoFuel \/ access fuel a (load32 a) k = Ret k (ld32 (v_mem (k_vmm k)) a) [].
Proof.
  intros Hc. destruct (page_present a k) eqn:Hp; [|left; by apply access_absent].
  destruct fuel as [|fuel]; [by left|right]. cbn [access]. rewrite bind_gets, Hp. destruct k as [[m p q f] tc cur r e]. reflexivity.
Qed.
Lemma bind_read {B} fuel a (f : Z -> M (kern P) B) k : has_current k ->
  f (ld32 (v_mem (k_vmm k)) a) k = NoFuel -> bind (access fuel a (load32 a)) f k = NoFuel.
Proof.
  intros Hc Hf. unfold bind. destruct (read_cases fuel a k Hc) as [-> | ->]; [done|]. by rewrite Hf.
Qed.
Lemma bind_said {B} e (f : unit -> M (kern P) B) k : f tt k = NoFuel -> bind (emit e) f k = NoFuel.
Proof. intros H. rewrite bind_emit. by rewrite H. Qed.

(** [vmm_test] writes to the page at 0xC1000000 before it allocates it.  When
    that page is absent the test never gets to the allocation: the page fault is
    reported again and again. *)
Theorem vmm_test_stuck fuel kern_page_table k :
  has_current k -> page_present 3238002688 k = false -> vmm_test fuel kern_page_table k = NoFuel.
Proof.
  intros Hc Hp. unfold vmm_test. do 2 apply bind_said. apply bind_read; [done|]. apply bind_said.
  do 2 (apply bind_read; [done|]). apply bind_said. unfold bind at 1. by rewrite (access_absent _ _ _ _ Hc Hp).
Qed.
End memory_thm.

(** ** The test of the screen *)

Section screen_thm.
Context (lit_A lit_M lit_Q : Z).

Definition text_A : list Z := [65; 10].
Definition text_M : list Z := [77; 66; 67; 68; 69; 70; 71; 10].
Definition text_Q : list Z := [81; 87; 69; 82; 84; 89; 85; 10].

(** The literals are in memory, and not in that of the screen. *)
Definition literal (m : mem) (a : Z) (l : list Z) : Prop :=
  cstr m a l /\ (a + length l < video_memory \/ video_memory + 4000 <= a).
Record literals (m : mem) : Prop := {
  li_A : literal m lit_A text_A;
  li_M : literal m lit_M text_M;
  li_Q : literal m lit_Q text_Q
}.

Lemma literal_kept m m' a l : kept m m' -> literal m a l -> literal m' a l.
Proof.
  intros K [C D]. split; [|done]. pose proof (cstr_region _ _ _ C) as Hr. destruct C as [L1 L2 L3 L4]. unfold region in *.
  split; [done|done|intros i Hi; rewrite K by lia; by apply L3|by rewrite K by lia].
Qed.
Lemma literals_kept m m' : kept m m' -> literals m -> literals m'.
Proof. intros K [A B C]. split; by eapply literal_kept. Qed.

Definition rolled (t : Vga.term) : Vga.term := Build_term (scroll (cells t)) (if pos t <? 80 then pos t else pos t - 80).
Definition test_term (t : Vga.term) : Vga.term :=
  rolled (term_text black white text_Q (term_text black white text_M (Nat.iter 10 (term_text black white text_A) t))).

Lemma kputs_step s t a l : shows s t -> literals (g_mem s) -> literal (g_mem s) a l -> length l < 65536 ->
  exists s' tr, kputs a s = Ret s' tt tr /\ shows s' (term_text black white l t) /\ literals (g_mem s').
Proof.
  intros Hs HL [C D] Hl. destruct (kputs_loop_shows kputs_fuel s t a black white l Hs C D) as (s' & tr & E & Hs' & K); [unfold kputs_fuel; lia|].
  exists s', tr. split; [exact E|]. split; [done|]. by eapply literals_kept.
Qed.

Lemma uproll_shows s t : shows s t -> exists s' tr, screen_uproll_once s = Ret s' tt tr /\ shows s' (rolled t).
Proof.
  intros [C X Y Q]. destruct (screen_uproll_spec s ltac:(lia)) as (s' & tr & E & X' & Y' & C' & _). exists s', tr. split; [done|]. split.
  - intros i Hi. rewrite C' by done. cbn [cells rolled]. unfold scroll. destruct (Z.ltb_spec i 1920); [apply C; lia|done].
  - by rewrite X'.
  - rewrite Y'. case_match; lia.
  - rewrite X', Y'. cbn [pos rolled]. destruct (Z.eqb_spec (cursor_y s) 0) as [E0|E0]; [rewrite (proj2 (Z.ltb_lt _ _))|rewrite (proj2 (Z.ltb_ge _ _))]; lia.
Qed.

Lemma vga_basic_test_eq s t : shows s t -> literals (g_mem s) ->
  exists s' tr, vga_basic_test lit_A lit_M lit_Q s = Stop s' tr /\ shows s' (test_term t).
Proof.
  intros Hs HL.
  destruct (each_seqZ (fun k s => shows s (Nat.iter (Z.to_nat k) (term_text black white text_A) t) /\ literals (g_mem s))
    (fun _ => kputs lit_A) 0 10 s) as (s1 & t1 & E1 & H1 & L1); [|done|].
  { intros k s0 Hk [H0 L0]. destruct (kputs_step s0 _ lit_A text_A H0 L0 (li_A _ L0) ltac:(done)) as (s' & tr & E & Hs' & L').
    exists s', tr. split; [done|]. split; [|done]. by replace (Z.to_nat (k + 1)) with (S (Z.to_nat k)) by lia. }
  unfold vga_basic_test. change (seqZ 0 10) with (seqZ 0 10%nat). rewrite (bind_ret_eq _ _ _ _ _ _ E1). clear E1.
  destruct (kputs_step s1 _ lit_M text_M H1 L1 (li_M _ L1) ltac:(done)) as (s2 & t2 & E2 & H2 & L2). rewrite (bind_ret_eq _ _ _ _ _ _ E2). clear E2.
  destruct (kputs_step s2 _ lit_Q text_Q H2 L2 (li_Q _ L2) ltac:(done)) as (s3 & t3 & E3 & H3 & L3). rewrite (bind_ret_eq _ _ _ _ _ _ E3). clear E3.
  destruct (uproll_shows s3 _ H3) as (s4 & t4 & E4 & H4). rewrite (bind_ret_eq _ _ _ _ _ _ E4). clear E4.
  eexists s4, _. split; [reflexivity|exact H4].
Qed.

(** What the test shows on a blank screen: the first of its twelve lines has
    left the screen. *)
Lemma test_term_rows :
  let f := cells (test_term (Build_term (fun _ => blank) 0)) in
  Forall (fun j => f (80 * j) = 65 + blank) (seqZ 0 9) /\
  map f (seqZ 720 7) = map (fun c => c + blank) (take 7 text_M) /\ map f (seqZ 800 7) = map (fun c => c + blank) (take 7 text_Q) /\
  pos (test_term (Build_term (fun _ => blank) 0)) = 880.
Proof.
  cbv zeta. split; [apply (bool_decide_unpack _); by vm_compute|]. split; [by vm_compute|]. split; by vm_compute.
Qed.
End screen_thm.

(** On a blank screen [vga_basic_test] ends in its loop with nine of its ten
    lines of A on the screen and the two others below them. *)
Theorem vga_basic_test_shows lit_A lit_M lit_Q s :
  shows s (Build_term (fun _ => blank) 0) -> literals lit_A lit_M lit_Q (g_mem s) ->
  exists s' tr, vga_basic_test lit_A lit_M lit_Q s = Stop s' tr /\
    (forall j, 0 <= j < 9 -> vcell (g_mem s') (80 * j) = 65 + blank) /\
    map (vcell (g_mem s')) (seqZ 720 7) = map (fun c => c + blank) (take 7 text_M) /\
    map (vcell (g_mem s')) (seqZ 800 7) = map (fun c => c + blank) (take 7 text_Q) /\
    cursor_y s' * 80 + cursor_x s' = 880.
Proof.
  intros Hs HL. destruct (vga_basic_test_eq _ _ _ s _ Hs HL) as (s' & tr & E & [C X Y Q]). exists s', tr. split; [done|].
  destruct test_term_rows as (R1 & R2 & R3 & R4). rewrite R4 in Q. rewrite Forall_forall in R1.
  assert (Hrow : forall a, 0 <= a -> a + 7 <= 2000 -> map (vcell (g_mem s')) (seqZ a 7) = map (cells (test_term (Build_term (fun _ => blank) 0))) (seqZ a 7)).
  { intros a H0 H1. apply map_ext_in. intros i Hi%list_elem_of_In%elem_of_seqZ. apply C. lia. }
  split; [|split; [|split; [|done]]].
  - intros j Hj. rewrite C by lia. apply R1, elem_of_seqZ. lia.
  - rewrite Hrow by lia. exact R2.
  - rewrite Hrow by lia. exact R3.
Qed.

(** ** Concrete instances *)

#[local] Existing Instance small_vmm_layout.
#[local] Existing Instance small_tss.
#[local] Existing Instance ex_threads.

Lemma user_task_test_leaks_witness :
  exists pg t0 v' F' t, pmm_page_init (pmm_boot 2097152 5000) = Ret pg tt t0 /\
    user_task_test (k_vmm (room_kern pg)) = prepend t (user_task_test_loop 998 2 v') /\
    pmm_frames (v_pages v') F' /\ length F' = 4952%nat.
Proof.
  destruct (page_init_ready_for (pmm_boot 2097152 5000)) as (pg & t0 & F & E0 & HF & Hl & Ha & Hr & Hlt & Hn); [cbn; lia|by apply fits_pages|done|done|done|].
  cbn [pmm_boot pmm_max_page_no] in *. assert (HR : task_room (room_kern pg) F 0 1280) by (apply room_kern_room; [done|lia|apply Hn; dlia]).
  destruct (user_task_test_leaks 2 (k_vmm (room_kern pg)) F 0) as (v' & F' & t & E & _ & HF' & Hl').
  - apply HR.
  - exact HF.
  - lia.
  - apply Hn. dlia.
  - lia.
  - intros q Hq. by apply (tr_run _ _ _ _ HR).
  - apply HR.
  - exists pg, t0, v', F', t. split; [exact E0|]. split; [exact E|]. split; [exact HF'|]. lia.
Defined.

Lemma vmm_test_stuck_witness : vmm_test 7 1060864 ex_kern = NoFuel.
Proof. apply (vmm_test_stuck 7 1060864 ex_kern); [right; by eexists|by vm_compute]. Defined.

(** A cleared screen, with the literals at 4096, 4112 and 4128. *)
Definition literal_mem : mem :=
  write_bytes (write_bytes (write_bytes ∅ 4096 (text_A ++ [0])) 4112 (text_M ++ [0])) 4128 (text_Q ++ [0]).

Lemma literal_mem_ok : literals 4096 4112 4128 literal_mem.
Proof. split; (split; [concrete_cstr|left; by vm_compute]). Qed.

Lemma vga_basic_test_shows_witness :
  exists s t s' tr, clear_screen (Build_vga literal_mem 5 7) = Ret s tt t /\ vga_basic_test 4096 4112 4128 s = Stop s' tr /\
    map (vcell (g_mem s')) (seqZ 800 7) = map (fun c => c + blank) [81; 87; 69; 82; 84; 89; 85].
Proof.
  destruct (clear_screen_blank (Build_vga literal_mem 5 7)) as (s & t & E & H & K).
  destruct (vga_basic_test_shows 4096 4112 4128 s H (literals_kept _ _ _ _ _ K literal_mem_ok)) as (s' & tr & E' & _ & _ & R & _).
  exists s, t, s', tr. exact (conj E (conj E' R)).
Defined.
